(* ===== verification/_CoqProject ===== *)
-Q . S2P
Prelude.v
GoStrings.v
GoFlag.v
TextCodec.v
PortPool.v
GoNet.v
IPv4.v
Subnets.v
SubnetsProofs.v
SubnetPool.v
SubnetTheorems.v
World.v
ProcessEnv.v
RLimits.v
System.v
Devices.v
BridgeMgr.v
Sysconfig.v
IPTables.v
IPTablesManager.v
Bandwidth.v
Metrics.v
Cgroups.v
ProcessTracker.v
FanWriters.v
Spawn.v
Reaper.v
Namespaces.v
NetworkConfig.v
Hooks.v
NetworkPath.v
Errors.v
Listeners.v
Containerizer.v
Container.v
ContainerTheorems.v
ContainerDaemon.v
UnixSocket.v
Serve.v
Client.v
RunPath.v
IODaemon.v
IOSpawn.v
SignalPath.v
Winsize.v
ResourcePool.v
ResourcePoolTheorems.v
Backend.v
Isolation.v
Overlap.v
BackendTheorems.v
Restart.v
Resume.v
Yarn.v
Runner.v
Observability.v
Startup.v
CommandLine.v
Fakes.v
FakeInterfaces.v
HandFakes.v
HelperPrograms.v
