(* ===== verification/Prelude.v ===== *)
(** * garden-linux, verified

    garden-linux is a server that makes Linux containers for its clients. This
    library models its Go code as Rocq functions and step relations and proves
    what makes it correct. Names follow the source; where one name occurs in
    several packages the model adds a prefix ([Pool_Acquire], [Subnets_Acquire]).

    ** The program and its model

    A client's call reaches the backend (linux_backend/linux_backend.go). To
    create a container the backend asks the resource pool
    (resource_pool/resource_pool.go) for a network, a bridge, a root file system
    and a directory; the pool draws on the subnet pool (network/subnets), the
    port pool (port_pool), the bridge manager (network/bridgemgr) and the
    iptables filter (network/iptables, network/filter.go). A container object
    (linux_container) is made from the result, started, limited and put into the
    repository (container_repository). Its methods run processes through the
    process tracker (process_tracker), change its control groups
    (linux_container/cgroups_manager), its bandwidth
    (linux_container/bandwidth_manager) and its iptables chains
    (linux_container/iptables_manager). When the server stops it saves a
    snapshot of each container, and restores them when it starts.

    A process of a container is started by a chain of programs. The server runs
    iodaemon (iodaemon), which outlives it and holds the output and the exit
    status; iodaemon runs wsh (container_daemon/wsh), the client of the daemon
    initd that runs in the container (container_daemon); initd runs proc_starter
    (container_daemon/proc_starter), which becomes the process. The daemon itself
    is started by wshd and initc (containerizer), which make the namespaces and the
    mounts of the container. main.go reads the options and builds the server;
    YarnBackend.go wraps its backend.

    - [Prelude]: machine integers, errors, results, the state monad and its
      notation, shared list and map facts.
    - [GoStrings], [GoNet], [IPv4]: what the source uses of strconv, strings,
      path, fmt and net; the arithmetic of IPv4 networks as intervals of [Z].
      [GoFlag]: package flag. [TextCodec]: a codec for examples.
    - [World]: the host. Commands, files and system calls are answered by an
      environment, a parameter that may fail any call at any time; the state of an
      effectful operation includes the history of the calls it made.
    - [PortPool]: port_pool/port_pool.go; its refinement of a set of ports.
    - [System]: system, the mounts and the pivot of containerizer/system, and
      proc_starter. [Namespaces]: sysinfo and the namespacing execer. [Devices]:
      network/devices over a record of netlink calls with laws, and
      network/network.go.
    - [Subnets], [SubnetsProofs], [SubnetPool], [SubnetTheorems]:
      network/subnets. [LawfulSubnet] and [LawfulIP] are the contracts of the two
      selector interfaces, with an instance for each selector of the source;
      the theorems on the pool hold for all lawful selectors.
    - [BridgeMgr]: network/bridgemgr. [ProcessEnv]: process/env.go. [RLimits]:
      container_daemon/rlimits_manager.go. [Sysconfig]: sysconfig. [IPTables]:
      network/iptables and network/filter.go. [IPTablesManager], [Bandwidth],
      [Cgroups]: the managers of linux_container. [Metrics]: the parsers of
      linux_container/metrics.go.
    - [ProcessTracker], [FanWriters]: process_tracker and its writers, with
      goroutines as steps of an interleaving relation.
    - [NetworkConfig]: network/configure.go over any implementation of its
      interfaces, with the functions of linux_backend/hooks.go and
      containerizer/initc that call it. [Hooks]: hook and the hook program.
      [NetworkPath]: the configurer over [Devices], with what the netlink calls do
      to the devices of all namespaces. [Errors]: the declared error types and
      their texts. [Listeners]: the constructors of the listener and detach.go.
      [Containerizer]: containerizer, its pipe synchronizer, initc and the start of initd: the two
      halves that make a container. [Reaper]: the process reaper of
      containerizer/system, with the kernel's table of processes.
    - [Spawn]: container_daemon/spawn.go, with the files that initd holds open.
      [ContainerDaemon]: the request handler, the command preparer and the
      signaller of container_daemon. [UnixSocket]: one exchange over its
      listener and connector. [Serve]: the listener's loop with the goroutines of
      connections and processes as a step relation. [Client]: container_daemon/process.go and wsh, with the copies of the
      streams as steps of an interleaving relation.
    - [IODaemon]: iodaemon's connection handler and wiring and both sides of the
      link. [IOSpawn]: its two threads as a step relation.
    - [RunPath], [SignalPath], [Winsize] and the end of [IOSpawn] put the programs
      together: a request to run a process, a signal, the size of a terminal and an
      exit status from one end to the other.
    - [Container], [ContainerTheorems]: linux_container and the records of
      linux_backend/resources.go.
    - [ResourcePool], [ResourcePoolTheorems]: resource_pool.
    - [Backend], [Isolation], [Overlap], [BackendTheorems]: linux_backend and
      container_repository; the runs of the whole server, with the calls of clients
      split into the steps between which other calls can come. [Restart], [Resume]: one
      server stopped and the next one started. [Yarn]: YarnBackend.go
      over the interface garden.Backend, of which the Linux backend is one value.
      [Startup]: main.go, port_pool/state.go and pkg/vars. [CommandLine]: the
      flags of main.go, and the command line of integration/runner that starts a
      server. [Runner]: the rest of that runner. [Observability]: logging and
      metrics with the debug server.
    - [Fakes]: the code that counterfeiter generates for a method, once for all
      methods. [FakeInterfaces]: the interfaces of the repository and the generated
      fakes, as lists of methods. [HandFakes]: the other test doubles.
      [HelperPrograms]: capcheck and the programs that the tests run.

    ** What is proved

    - Isolation: in every state that calls of [Create], [Destroy] and container
      methods reach, whatever the host does and however the calls overlap, two
      containers have different addresses in equal or disjoint subnets, and no port of
      the pool in common ([containers_isolated], by an invariant of the steps of
      [ov_step]). The conditions are that clients ask for IPv4 networks, that no two
      calls of [Destroy] find one container before it is removed, and that calls of the
      resource pool and of a container's methods run one at a time; host ports that a
      client names itself are not covered. [Create] and [Destroy] are specified on every
      branch ([create_outcomes], [destroy_outcomes]), and the maximum of containers is
      respected when calls do not overlap. The server that main starts from its
      options, with the wrapper of YarnBackend.go and its snapshots restored, has this
      isolation ([server_isolates]); destroying all containers leaves none and
      frees what they had ([destroy_all_empties]). It survives a restart: whatever of
      the snapshots is lost, what the new server took back is not handed out again
      ([restart_isolates]); and when no file is lost, and each bridge was for one
      subnet, no container is lost ([restart_complete]). Of the JSON codec of snapshots
      both rely on what encoding/json does with their fields, with the network through its own
      methods, which make a 16-byte address of one with 4 bytes ([codec]). Servers
      that the tests start side by side, without flags of their own and on the nodes 0
      to 13, take nothing from each other ([parallel_servers_apart]).
    - Resources: a failed [Acquire] leaves the pools as they were, [Release]
      gives back what [Acquire] took; the subnet pool never allocates an address
      twice, hands out the first free subnet and fails exactly when none is
      left (where [Remove] is not given overlapping subnets); the port pool refines a
      set of free ports (where its range does not wrap); bridges and subnets
      correspond one to one for a tag of one character.
    - Processes: no channel of a process is closed twice and a linker runs at
      most once, under every interleaving; the exit status is final; standard
      input is closed at most once; the reaper delivers every exit status once
      and to its process, as long as a process ID is not used again while it is
      being reaped; the files of a process are closed on every branch but for
      those the theorem names ([spawn_descriptors]); the files of clients that are
      served at once are kept apart ([initd_serves]).
    - From one end to the other: a process runs with exactly what the client
      asked for ([process_runs_as_asked]), its exit status and the client's signals
      arrive unchanged ([exit_status_end_to_end], [signals_end_to_end]), its terminal
      gets the size that was set last ([window_size_settles]), the socket
      and the link deliver what was sent ([connect_roundtrip], [link_delivers]).
    - Threads: what [Wait] returns and that it returns ([wait_result],
      [wait_returns]); iodaemon starts its child once, and comes to its end when its
      child does ([iodaemon_once], [iodaemon_ends]). Runs that must end are shown to by a
      measure that every step makes smaller ([inevitable]).
    - Making a container: the host reports success only when the child has run
      all its steps in order and listens ([create_ok_child_ready]); when the hook and
      initc have succeeded the container's devices are connected to its bridge with
      its addresses and no other device was touched ([container_network_connected]),
      and the error on the way is the one that a table has for the call that failed
      ([network_errors_typed]); the
      hook program makes the calls of its phase, whatever fails ([hook_program]); the
      users of an unprivileged container are different users of the host within its
      maps, and not root unless these maps end at 0 ([container_users_confined]). The
      start and the stop of a container run exactly the commands of each branch
      ([lifecycle]).
    - Round trips: resource limits, process environments, networks in snapshots,
      control-group limits, all containers and the next port over a restart.
    - Equivalences: the YARN wrapper is the backend that it wraps for all calls
      that do not name its own container ([yarn_transparent]); the logging runner
      is the runner that it wraps ([logging_transparent]); a generated fake records the
      calls of goroutines, each once and in order ([fake_counts_all]).
    - Commands: the iptables commands of network rules, and the roll-back of
      chains that cannot be set up.
    - What the code does not do: the interleavings in which two calls of
      [Create] or [Destroy] for one handle interfere, the clean-up of [Restore]
      that frees a port of another container, the bridge that stays reserved, the
      records that double, the second bridge of a subnet, the names of bridges that
      repeat, the units of bandwidth limits, the range check that
      wraps around, the time-out of iodaemon that comes after its notification,
      the window size that is lost while wsh starts, the node manager that is never
      killed. Each is a theorem on a concrete state
      or on all states of a kind.

    ** Conventions

    A Go function that returns an error is a function into [result], which also
    has the outcome of a run-time panic; state passing code is in the monad [M].
    A mutex of the source makes an operation one step. Maps are [gmap]; Go
    iterates over a map in no fixed order and the model in the order of
    [map_to_list], on which no theorem depends. Unsigned arithmetic that can wrap
    is written with its wrap. Loops that are not structural have fuel: the
    subnet and address loops turn at most two times more often than there are
    subnets or addresses in use, which [dynamic_select] and [dynamic_ip_select]
    show to be enough, so "out of fuel" is never a result; the loops over PID
    files count their iterations as the source does; [MkdirChown] gets as much fuel
    as its path has parts, which [MkdirChown_ends] shows to be enough; [signalLoop]
    gets one turn more than there are bytes, and [ParseDuration] one for each byte,
    which [duration_parts_fuel] shows to be enough. Logging is left out, but for the
    logging runner.

    ** Not modelled

    Code of other packages is a parameter or a call of the world: the root file
    system provider, the quota manager, the image graph, the garden server (which is
    relied on to start the backend it is given),
    netlink, net/url, semver, JSON and gob (a class with its round-trip laws for
    each protocol), iptables and the shell scripts. Of the repository these parts
    are not modelled: kr_pty.go and the constructors and accessors that only store or
    return fields; the variants for systems other than Linux; the test suites, the
    shell scripts of the container directories, and the C part of pivotter. *)

From Stdlib Require Export ZArith Lia.
From stdpp Require Export sorting.
From stdpp Require Export base numbers strings gmap fin_maps list.

(** ** Machine integers

    Go's unsigned integers are kept as [Z]; every arithmetic operation of the
    source that can wrap is written with the wrap of its width. *)

Open Scope Z_scope.

Definition u8 (z : Z) : Z := z mod 256.
Definition u16 (z : Z) : Z := z mod 65536.
Definition u32 (z : Z) : Z := z mod 4294967296.
Definition u64 (z : Z) : Z := z mod 18446744073709551616.

(** The conversion of a [uint64] to [int64]. *)
Definition int64 (z : Z) : Z := if z <? 9223372036854775808 then z else z - 18446744073709551616.

Definition is_u8 (z : Z) : Prop := 0 <= z < 256.
Definition is_u32 (z : Z) : Prop := 0 <= z < 4294967296.
Definition is_u64 (z : Z) : Prop := 0 <= z < 18446744073709551616.

Lemma u32_small z : is_u32 z -> u32 z = z.
Proof. intros H. apply Z.mod_small, H. Qed.

Lemma u64_small z : is_u64 z -> u64 z = z.
Proof. intros H. apply Z.mod_small, H. Qed.

Lemma u8_small z : is_u8 z -> u8 z = z.
Proof. intros H. apply Z.mod_small, H. Qed.

Lemma u32_range z : is_u32 (u32 z).
Proof. apply Z.mod_pos_bound; lia. Qed.

Lemma u64_range z : is_u64 (u64 z).
Proof. apply Z.mod_pos_bound; lia. Qed.

Lemma u8_range z : is_u8 (u8 z).
Proof. apply Z.mod_pos_bound; lia. Qed.

(** ** The [error] interface

    The error types the program declares, each with the fields of its struct,
    and [Errorf] for what [errors.New] and [fmt.Errorf] build. Where a message
    depends on arguments whose formatting nothing reads, it is kept as a format
    and its arguments: [Errorv], and [Wrapf] when an error is one of them. *)

Inductive error : Type :=
| Errorf (msg : string)
| Errorv (format : string) (args : list string)
| Wrapf (format : string) (args : list string) (cause : error)
| PoolExhaustedError
| PortTakenError (port : Z)
| ErrInsufficientSubnets
| ErrInsufficientIPs
| ErrReleasedUnallocatedSubnet
| ErrOverlapsExistingSubnet
| ErrInvalidIP
| ErrIPAlreadyAcquired
| ErrIpCannotBeNil
| ErrIPEqualsGateway
| ErrIPEqualsBroadcast
| UndefinedPropertyError (key : string)
| HandleExistsError (handle : string)
| MaxContainersReachedError (max : Z)
| ContainerNotFoundError (handle : string)
| UnknownProcessError (id : string)
| PipeSynchronizerError (msg : string)
| NotExist (path : string)
| NumErrorSyntax (s : string)
| NumErrorRange (s : string).

#[export] Instance error_eq_dec : EqDecision error.
Proof. unfold EqDecision, Decision. decide equality; apply (decide_rel (=)). Defined.

(** ** Results

    A Go function that returns [(T, error)] returns [result T]; a run-time panic
    is a result of its own, which no caller of the modelled code recovers from
    unless the model says so. *)

Inductive result (A : Type) : Type :=
| Ok (a : A)
| Err (e : error)
| Panic (msg : string).
Arguments Ok {A} _.
Arguments Err {A} _.
Arguments Panic {A} _.

#[export] Instance result_eq_dec A `{EqDecision A} : EqDecision (result A).
Proof. solve_decision. Defined.

Definition is_ok {A} (r : result A) : bool :=
  match r with Ok _ => true | _ => false end.

Definition res_bind {A B} (r : result A) (f : A -> result B) : result B :=
  match r with
  | Ok a => f a
  | Err e => Err e
  | Panic m => Panic m
  end.

(** ** State-passing code *)

Definition M (S A : Type) : Type := S -> result A * S.

Definition ret {S A} (a : A) : M S A := fun s => (Ok a, s).
Definition fail {S A} (e : error) : M S A := fun s => (Err e, s).
Definition panic {S A} (m : string) : M S A := fun s => (Panic m, s).
Definition bind {S A B} (m : M S A) (f : A -> M S B) : M S B :=
  fun s =>
    match m s with
    | (Ok a, s') => f a s'
    | (Err e, s') => (Err e, s')
    | (Panic p, s') => (Panic p, s')
    end.
Definition get {S} : M S S := fun s => (Ok s, s).
Definition put {S} (s' : S) : M S unit := fun _ => (Ok tt, s').
Definition modify {S} (f : S -> S) : M S unit := fun s => (Ok tt, f s).
Definition lift {S A} (r : result A) : M S A := fun s => (r, s).

(** [attempt m]: run [m] and inspect its error, as [if err := m; err != nil]
    does; a panic still unwinds. *)
Definition attempt {S A} (m : M S A) : M S (A + error) :=
  fun s =>
    match m s with
    | (Ok a, s') => (Ok (inl a), s')
    | (Err e, s') => (Ok (inr e), s')
    | (Panic p, s') => (Panic p, s')
    end.

(** [ignore m]: the call whose error is dropped. *)
Definition ignore {S A} (m : M S A) : M S unit :=
  bind (attempt m) (fun _ => ret tt).

(** [on_err m undo]: the deferred clean-up that runs [undo] when the function
    returns an error, and leaves that error as the result. *)
Definition on_err {S A} (m : M S A) (undo : M S unit) : M S A :=
  bind (attempt m) (fun r =>
    match r with
    | inl a => ret a
    | inr e => bind (ignore undo) (fun _ => fail e)
    end).

(** [map_err f m]: the error of [m], wrapped. *)
Definition map_err {S A} (f : error -> error) (m : M S A) : M S A :=
  bind (attempt m) (fun r =>
    match r with inl a => ret a | inr e => fail (f e) end).

(** [zoom getT setT m]: run the operation [m] of a component of the state. *)
Definition zoom {S T A} (getT : S -> T) (setT : T -> S -> S) (m : M T A) : M S A :=
  fun s => match m (getT s) with (r, t) => (r, setT t s) end.

Fixpoint for_each {S A} (f : A -> M S unit) (l : list A) : M S unit :=
  match l with
  | [] => ret tt
  | x :: l' => bind (f x) (fun _ => for_each f l')
  end.

(** The combinators on a state. *)
Lemma bind_eq {S A B} (m : M S A) (f : A -> M S B) s :
  bind m f s = match m s with
               | (Ok a, s') => f a s' | (Err e, s') => (Err e, s') | (Panic p, s') => (Panic p, s')
               end.
Proof. done. Qed.

Lemma attempt_eq {S A} (m : M S A) s :
  attempt m s = match m s with
                | (Ok a, s') => (Ok (inl a), s') | (Err e, s') => (Ok (inr e), s') | (Panic p, s') => (Panic p, s')
                end.
Proof. done. Qed.

Lemma ignore_eq {S A} (m : M S A) s :
  ignore m s = match m s with (Panic p, s') => (Panic p, s') | (_, s') => (Ok tt, s') end.
Proof. unfold ignore, bind, attempt, ret. by destruct (m s) as [[] ?]. Qed.

Lemma map_err_eq {S A} f (m : M S A) s :
  map_err f m s = match m s with (Err e, s') => (Err (f e), s') | x => x end.
Proof. unfold map_err, bind, attempt, ret, fail. by destruct (m s) as [[] ?]. Qed.

Lemma on_err_eq {S A} (m : M S A) undo s :
  on_err m undo s =
    match m s with
    | (Err e, s') => match undo s' with (Panic p, s'') => (Panic p, s'') | (_, s'') => (Err e, s'') end
    | x => x
    end.
Proof.
  unfold on_err, bind, attempt, ret, fail. destruct (m s) as [[] s']; [done| |done].
  rewrite ignore_eq. by destruct (undo s') as [[] ?].
Qed.

Lemma bind_Ok {S A B} (m : M S A) (f : A -> M S B) s b s'' :
  bind m f s = (Ok b, s'') -> exists a s', m s = (Ok a, s') /\ f a s' = (Ok b, s'').
Proof. rewrite bind_eq. destruct (m s) as [[a|e|p] s']; [eauto|done|done]. Qed.

Declare Scope go_scope.
Delimit Scope go_scope with go.
Notation "'let!' x := m 'in' k" := (bind m (fun x => k))
  (at level 10, x name, m at level 100, k at level 200) : go_scope.
Notation "'let!' ' p := m 'in' k" := (bind m (fun x => match x with p => k end))
  (at level 10, p pattern, m at level 100, k at level 200) : go_scope.
Notation "'do!' m 'in' k" := (bind m (fun _ => k))
  (at level 10, m at level 100, k at level 200) : go_scope.

(** ** Automation *)

Create HintDb garden.
Create Rewrite HintDb garden.

(** Split every [match] on a result, a pair or a boolean that the goal or a
    hypothesis still contains, and clean up. *)
Ltac simp := repeat (simplify_eq/=; try case_match; try done).

#[export] Hint Resolve u32_range u64_range u8_range : garden.

(** ** Shared list facts *)

Section Lists.
Context {A : Type}.
Implicit Types (x : A) (l k : list A).

Lemma NoDup_snoc l x : NoDup l -> x ∉ l -> NoDup (l ++ [x]).
Proof.
  intros Hl Hx. apply NoDup_app; split; [done|split; [|apply NoDup_singleton]].
  intros y Hy ->%list_elem_of_singleton. done.
Qed.

Lemma NoDup_middle l1 x l2 : NoDup (l1 ++ x :: l2) -> NoDup (l1 ++ l2) /\ x ∉ l1 ++ l2.
Proof.
  intros H. assert (H' : NoDup (x :: (l1 ++ l2))).
  { by rewrite Permutation_middle. }
  apply NoDup_cons in H' as [??]. done.
Qed.
End Lists.

(** The least index below [n] with a decidable property, or none. *)
Lemma least_or_none (P : nat -> Prop) `{forall j, Decision (P j)} n :
  (exists j, (j < n)%nat /\ P j /\ forall i, (i < j)%nat -> ~ P i) \/ (forall j, (j < n)%nat -> ~ P j).
Proof.
  induction n as [|n [(j & Hj & HP & Hmin)|IH]]; [right; lia|left; exists j; auto with lia|].
  destruct (decide (P n)); [left; exists n; auto with lia|].
  right. intros j Hj. destruct (decide (j = n)) as [->|]; [done|]. apply IH. lia.
Qed.

(** Pigeonhole: an injective family inside a finite set is no larger than it. *)
Lemma family_bound `{Countable A} (f : nat -> A) (X : gset A) n :
  (forall i j, (i < n)%nat -> (j < n)%nat -> f i = f j -> i = j) ->
  (forall i, (i < n)%nat -> f i ∈ X) -> (n <= size X)%nat.
Proof.
  intros Hinj Hin.
  assert (Hnd : NoDup (f <$> seq 0 n)).
  { apply NoDup_fmap_2_strong; [|apply NoDup_seq].
    intros x y Hx Hy. rewrite elem_of_seq in Hx, Hy. apply Hinj; lia. }
  assert (Hs : list_to_set (f <$> seq 0 n) ⊆ X).
  { intros x. rewrite elem_of_list_to_set, list_elem_of_fmap. intros (i & -> & Hi%elem_of_seq).
    apply Hin. lia. }
  apply subseteq_size in Hs. by rewrite size_list_to_set, length_fmap, length_seq in Hs.
Qed.

Lemma size_list_to_set_le `{Countable A} (l : list A) :
  (size (list_to_set l : gset A) <= length l)%nat.
Proof.
  induction l as [|x l IH]; cbn; [by rewrite size_empty|].
  rewrite size_union_alt, size_singleton.
  assert (Hs : (list_to_set l ∖ {[x]} : gset A) ⊆ list_to_set l) by set_solver.
  apply subseteq_size in Hs. lia.
Qed.

(** A list related to another element by element stays so under permutation. *)
Lemma Forall2_perm {A B} (R : A -> B -> Prop) l l' : l ≡ₚ l' -> forall k, Forall2 R l k ->
  exists k', k ≡ₚ k' /\ Forall2 R l' k'.
Proof.
  induction 1 as [|x l l' Hl IH|x y l|l1 l2 l3 H12 IH12 H23 IH23]; intros k Hk.
  - by exists k.
  - apply Forall2_cons_inv_l in Hk as (z & k0 & Hx & Hk & ->).
    destruct (IH _ Hk) as (k' & Hp & Hk'). exists (z :: k'). split; [by constructor|by constructor].
  - apply Forall2_cons_inv_l in Hk as (z & k0 & Hx & Hk & ->).
    apply Forall2_cons_inv_l in Hk as (w & k1 & Hy & Hk & ->).
    exists (w :: z :: k1). split; [constructor|by repeat constructor].
  - destruct (IH12 _ Hk) as (k1 & Hp1 & Hk1). destruct (IH23 _ Hk1) as (k2 & Hp2 & Hk2).
    exists k2. split; [by etrans|done].
Qed.

(** Writing the pairs of a list into a map, one after the other. *)
Lemma foldl_insert `{Countable K} {V} (l : list (K * V)) (env : gmap K V) : NoDup l.*1 ->
  foldl (fun e kv => <[kv.1 := kv.2]> e) env l = list_to_map l ∪ env.
Proof.
  revert env. induction l as [|[k v] l IH]; intros env; cbn [foldl fst snd].
  - intros _. symmetry. apply (left_id_L ∅ (∪)).
  - intros [Hk Hl]%NoDup_cons. rewrite IH by done.
    rewrite list_to_map_cons, <- insert_union_l. symmetry. apply insert_union_r.
    by apply not_elem_of_list_to_map.
Qed.

(** ** Runs that come to an end

    [inevitable step P s]: every run from [s], however its steps are chosen,
    reaches a state with [P]. It is shown by a measure that every step makes
    smaller, when a state without [P] always has a step. *)

Inductive inevitable {S} (step : S -> S -> Prop) (P : S -> Prop) (s : S) : Prop :=
| inevitable_now : P s -> inevitable step P s
| inevitable_later : (exists s', step s s') -> (forall s', step s s' -> inevitable step P s') -> inevitable step P s.

Lemma inevitable_measure {S} (step : S -> S -> Prop) (P I : S -> Prop) (measure : S -> nat) :
  (forall s, {P s} + {~ P s}) ->
  (forall s s', I s -> step s s' -> I s' /\ (measure s' < measure s)%nat) ->
  (forall s, I s -> ~ P s -> exists s', step s s') ->
  forall s, I s -> inevitable step P s.
Proof.
  intros HP Hstep Hprog s. remember (measure s) as n eqn:Hn. revert s Hn.
  induction n as [n IH] using (well_founded_induction lt_wf). intros s -> HI.
  destruct (HP s) as [Hyes|Hno]; [by apply inevitable_now|].
  apply inevitable_later; [by apply Hprog|]. intros s' Hs. destruct (Hstep _ _ HI Hs) as [HI' Hlt]. by eapply IH.
Qed.

Lemma inevitable_impl {S} (step : S -> S -> Prop) (P Q : S -> Prop) s :
  (forall s, P s -> Q s) -> inevitable step P s -> inevitable step Q s.
Proof. intros HPQ. induction 1 as [s Hs|s Hex _ IH]; [by apply inevitable_now, HPQ|]. by apply inevitable_later. Qed.

(** What every step keeps holds when the end is reached. *)
Lemma inevitable_and {S} (step : S -> S -> Prop) (P I : S -> Prop) s :
  (forall s s', step s s' -> I s -> I s') -> I s -> inevitable step P s -> inevitable step (fun s => P s /\ I s) s.
Proof.
  intros Hstep HI H. revert HI. induction H as [s Hs|s Hex _ IH]; intros HI; [by apply inevitable_now|].
  apply inevitable_later; [done|]. eauto.
Qed.
