(* ===== verification/GoStrings.v ===== *)
(** * The parts of Go's [strings], [strconv], [path] and [bufio] the program uses

    Strings are byte strings; the functions follow the documented behaviour of
    the Go packages on the separators, bases and cut sets the program passes. *)
From S2P Require Import Prelude.
From Stdlib Require Export Ascii.

(** ** Numbers *)

(** [strconv]'s digit table. *)
Definition digit_char (d : Z) : ascii :=
  ascii_of_nat (Z.to_nat (if d <? 10 then 48 + d else 87 + d)).

Definition digit_val (c : ascii) : Z :=
  let n := Z.of_nat (nat_of_ascii c) in
  if (48 <=? n) && (n <=? 57) then n - 48
  else if (97 <=? n) && (n <=? 122) then n - 87
  else if (65 <=? n) && (n <=? 90) then n - 55
  else 255.

Fixpoint digits (fuel : nat) (base n : Z) (acc : list Z) : list Z :=
  match fuel with
  | O => acc
  | S fuel' =>
      let acc := n mod base :: acc in
      if n <? base then acc else digits fuel' base (n / base) acc
  end.

Fixpoint string_of_digits (ds : list Z) : string :=
  match ds with
  | [] => ""
  | d :: ds' => String (digit_char d) (string_of_digits ds')
  end.

(** [strconv.FormatUint], and [fmt]'s [%d] on an unsigned value for base 10. *)
Definition FormatUint (n base : Z) : string :=
  string_of_digits (digits (S (Z.to_nat (Z.log2 n))) base n []).

(** [strconv.Itoa], and [fmt]'s [%d]. *)
Definition Itoa (n : Z) : string :=
  if n <? 0 then "-" +:+ FormatUint (- n) 10 else FormatUint n 10.

(** The loop of [strconv.ParseUint(s, 10, 64)]: a byte that is no digit is a
    syntax error, and the first digit that overflows 64 bits a range error. *)
Fixpoint parse_digits (whole s : string) (n : Z) : result Z :=
  match s with
  | "" => Ok n
  | String c s' =>
      let d := digit_val c in
      if 10 <=? d then Err (NumErrorSyntax whole)
      else if 18446744073709551616 <=? n * 10 + d then Err (NumErrorRange whole)
      else parse_digits whole s' (n * 10 + d)
  end.

Definition ParseUint (s : string) : result Z :=
  match s with
  | "" => Err (NumErrorSyntax s)
  | _ => parse_digits s s 0
  end.

(** ** [strconv.ParseInt(s, 0, 64)] *)

Fixpoint parse_base (base : Z) (whole s : string) (n : Z) : result Z :=
  match s with
  | "" => Ok n
  | String c s' =>
      let d := digit_val c in
      if base <=? d then Err (NumErrorSyntax whole)
      else if 18446744073709551616 <=? n * base + d then Err (NumErrorRange whole)
      else parse_base base whole s' (n * base + d)
  end.

Definition parse_uint0 (whole s : string) : result Z :=
  match s with
  | "" => Err (NumErrorSyntax whole)
  | String "0" (String c "") => if decide (c = "x"%char \/ c = "X"%char) then Err (NumErrorSyntax whole) else parse_base 8 whole (String c "") 0
  | String "0" (String c rest) => if decide (c = "x"%char \/ c = "X"%char) then parse_base 16 whole rest 0 else parse_base 8 whole (String c rest) 0
  | String "0" "" => Ok 0
  | _ => parse_base 10 whole s 0
  end.

Definition ParseInt (s : string) : result Z :=
  let '(neg, t) := match s with
                   | String "-" t => (true, t)
                   | String "+" t => (false, t)
                   | _ => (false, s)
                   end in
  res_bind (parse_uint0 s t) (fun un =>
  if neg : bool then (if 9223372036854775808 <? un then Err (NumErrorRange s) else Ok (- un))
  else (if 9223372036854775808 <=? un then Err (NumErrorRange s) else Ok un)).

(** ** Splitting and joining *)

(** [strings.SplitN(s, sep, 2)] for a one-byte separator: the text before the
    first separator and, when there is one, the text after it. *)
Fixpoint cut (sep : ascii) (s : string) : string * option string :=
  match s with
  | "" => ("", None)
  | String c s' =>
      if decide (c = sep) then ("", Some s')
      else let '(a, b) := cut sep s' in (String c a, b)
  end.

Fixpoint split (sep : ascii) (s : string) : list string :=
  match s with
  | "" => [""]
  | String c s' =>
      if decide (c = sep) then "" :: split sep s'
      else match split sep s' with
           | [] => [String c ""]
           | w :: ws => String c w :: ws
           end
  end.

Fixpoint join (sep : string) (l : list string) : string :=
  match l with
  | [] => ""
  | [s] => s
  | s :: l' => s +:+ sep +:+ join sep l'
  end.

Fixpoint has_prefix (p s : string) : bool :=
  match p, s with
  | "", _ => true
  | String a p', String b s' => bool_decide (a = b) && has_prefix p' s'
  | _, "" => false
  end.

Fixpoint contains (s sub : string) : bool :=
  has_prefix sub s || match s with "" => false | String _ s' => contains s' sub end.

Fixpoint last_char (s : string) : option ascii :=
  match s with
  | "" => None
  | String c "" => Some c
  | String _ s' => last_char s'
  end.

Fixpoint trim_left (p : ascii -> bool) (s : string) : string :=
  match s with
  | "" => ""
  | String c s' => if p c then trim_left p s' else s
  end.

Definition trim (p : ascii -> bool) (s : string) : string :=
  String.rev (trim_left p (String.rev (trim_left p s))).

Definition newline : ascii := ascii_of_nat 10.
Definition is_newline (c : ascii) : bool := bool_decide (c = newline).

(** ** [path.Join] *)

(** The component loop of [path.Clean]; [acc] is the cleaned path reversed. *)
Fixpoint clean_parts (rooted : bool) (acc parts : list string) : list string :=
  match parts with
  | [] => reverse acc
  | p :: parts' =>
      if bool_decide (p = "") || bool_decide (p = ".") then clean_parts rooted acc parts'
      else if bool_decide (p = "..") then
        match acc with
        | q :: acc' =>
            if bool_decide (q = "..") then clean_parts rooted (".." :: acc) parts'
            else clean_parts rooted acc' parts'
        | [] => if rooted then clean_parts rooted [] parts'
                else clean_parts rooted [".."] parts'
        end
      else clean_parts rooted (p :: acc) parts'
  end.

Definition path_clean (s : string) : string :=
  let rooted := has_prefix "/" s in
  let body := join "/" (clean_parts rooted [] (split "/" s)) in
  if rooted then "/" +:+ body
  else if bool_decide (body = "") then "." else body.

Definition path_join (elems : list string) : string :=
  match filter (fun e => e <> "") elems with
  | [] => ""
  | es => path_clean (join "/" es)
  end.

(** ** Facts *)

Definition fold_digits (base : Z) (ds : list Z) (n : Z) : Z :=
  fold_left (fun v d => v * base + d) ds n.

Lemma digits_value base fuel n acc :
  1 < base -> 0 <= n < base ^ Z.of_nat fuel -> (0 < fuel)%nat ->
  fold_digits base (digits fuel base n acc) 0 = fold_digits base acc n.
Proof.
  intros Hb. revert n acc. induction fuel as [|fuel IH]; intros n acc Hn Hf; [lia|].
  cbn [digits]. rewrite Nat2Z.inj_succ, Z.pow_succ_r in Hn by lia.
  destruct (Z.ltb_spec n base) as [Hlt|Hge].
  - unfold fold_digits. cbn [fold_left]. by rewrite Z.mod_small by lia.
  - assert (Hdiv : 0 <= n / base < base ^ Z.of_nat fuel).
    { split; [apply Z.div_pos; lia|]. apply Z.div_lt_upper_bound; lia. }
    destruct fuel as [|fuel]; [cbn in Hdiv; assert (1 <= n / base) by (apply Z.div_le_lower_bound; lia); lia|].
    rewrite IH by lia. unfold fold_digits. cbn [fold_left].
    f_equal. rewrite (Z.div_mod n base) at 3 by lia. lia.
Qed.

Lemma digits_range base fuel n acc :
  1 < base -> Forall (fun d => 0 <= d < base) acc ->
  Forall (fun d => 0 <= d < base) (digits fuel base n acc).
Proof.
  intros Hb. revert n acc. induction fuel as [|fuel IH]; intros n acc Hacc; cbn [digits]; [done|].
  assert (0 <= n mod base < base) by (apply Z.mod_pos_bound; lia).
  destruct (n <? base); [by constructor|]. apply IH. by constructor.
Qed.

Lemma digits_cons base fuel n acc : exists d ds, digits (S fuel) base n acc = d :: ds.
Proof.
  revert n acc. induction fuel as [|fuel IH]; intros n acc; cbn [digits].
  - destruct (n <? base); eauto.
  - destruct (n <? base); [eauto|]. apply IH.
Qed.

Lemma digit_fuel base n : 1 < base -> 0 <= n ->
  n < base ^ Z.of_nat (S (Z.to_nat (Z.log2 n))).
Proof.
  intros Hb Hn. destruct (decide (n = 0)) as [->|].
  { apply Z.pow_pos_nonneg; lia. }
  rewrite Nat2Z.inj_succ, Z2Nat.id by apply Z.log2_nonneg.
  pose proof (Z.log2_spec n ltac:(lia)) as [_ Hlt].
  eapply Z.lt_le_trans; [exact Hlt|]. apply Z.pow_le_mono_l. split; [lia|lia].
Qed.

Lemma FormatUint_value n base : 1 < base -> 0 <= n ->
  fold_digits base (digits (S (Z.to_nat (Z.log2 n))) base n []) 0 = n.
Proof.
  intros Hb Hn. pose proof (digit_fuel base n Hb Hn).
  rewrite digits_value; [done|lia|lia|lia].
Qed.

Lemma digit_val_char d : 0 <= d < 36 -> digit_val (digit_char d) = d.
Proof.
  intros Hd. assert (Hall : forallb (fun k => digit_val (digit_char (Z.of_nat k)) =? Z.of_nat k)
                                    (seq 0 36) = true) by (vm_compute; reflexivity).
  rewrite forallb_forall in Hall. specialize (Hall (Z.to_nat d)).
  rewrite Z2Nat.id in Hall by lia. apply Z.eqb_eq, Hall, in_seq. lia.
Qed.

Lemma fold_digits_mono base ds n :
  1 < base -> 0 <= n -> Forall (fun d => 0 <= d < base) ds -> n <= fold_digits base ds n.
Proof.
  intros Hb. revert n. induction ds as [|d ds IH]; intros n Hn Hds; cbn; [lia|].
  apply Forall_cons in Hds as [Hd Hds]. specialize (IH (n * base + d)).
  unfold fold_digits in IH. enough (n <= n * base + d) by (etrans; [|apply IH]; [done|nia|done]).
  nia.
Qed.

Lemma parse_digits_string whole ds n :
  0 <= n -> Forall (fun d => 0 <= d < 10) ds -> is_u64 (fold_digits 10 ds n) ->
  parse_digits whole (string_of_digits ds) n = Ok (fold_digits 10 ds n).
Proof.
  revert n. induction ds as [|d ds IH]; intros n Hn Hds Hr; [done|].
  apply Forall_cons in Hds as [Hd Hds].
  assert (Hm : n * 10 + d <= fold_digits 10 ds (n * 10 + d)) by (apply fold_digits_mono; [lia|lia|done]).
  cbn [string_of_digits parse_digits]. rewrite digit_val_char by lia.
  change (fold_digits 10 (d :: ds) n) with (fold_digits 10 ds (n * 10 + d)) in *.
  destruct (Z.leb_spec 10 d); [lia|]. unfold is_u64 in Hr.
  destruct (Z.leb_spec 18446744073709551616 (n * 10 + d)); [lia|].
  apply IH; [lia|done|done].
Qed.

(** Printing a 64-bit value and parsing it back. *)
Lemma ParseUint_FormatUint n : is_u64 n -> ParseUint (FormatUint n 10) = Ok n.
Proof.
  intros Hn. unfold is_u64 in Hn. unfold ParseUint, FormatUint.
  assert (Hr : Forall (fun d => 0 <= d < 10) (digits (S (Z.to_nat (Z.log2 n))) 10 n []))
    by (apply digits_range; [lia|constructor]).
  pose proof (FormatUint_value n 10 ltac:(lia) ltac:(lia)) as Hv.
  destruct (digits_cons 10 (Z.to_nat (Z.log2 n)) n []) as (d & ds & Hds).
  rewrite Hds in *. cbn [string_of_digits].
  change (String (digit_char d) (string_of_digits ds)) with (string_of_digits (d :: ds)).
  rewrite parse_digits_string; [by rewrite Hv|lia|done|by rewrite Hv].
Qed.

Lemma string_of_digits_inj ds1 ds2 :
  Forall (fun d => 0 <= d < 36) ds1 -> Forall (fun d => 0 <= d < 36) ds2 ->
  string_of_digits ds1 = string_of_digits ds2 -> ds1 = ds2.
Proof.
  revert ds2. induction ds1 as [|d1 ds1 IH]; intros [|d2 ds2] H1 H2 Heq; cbn in Heq; try done.
  apply Forall_cons in H1 as [Hd1 H1]. apply Forall_cons in H2 as [Hd2 H2].
  injection Heq as Hc Hs. f_equal; [|by apply IH].
  by rewrite <- (digit_val_char d1), <- (digit_val_char d2), Hc.
Qed.

Lemma FormatUint_inj base n m : 1 < base <= 36 -> 0 <= n -> 0 <= m ->
  FormatUint n base = FormatUint m base -> n = m.
Proof.
  intros Hb Hn Hm Heq.
  assert (Hr : forall k, Forall (fun d => 0 <= d < 36) (digits (S (Z.to_nat (Z.log2 k))) base k [])).
  { intros k. eapply Forall_impl; [apply digits_range; [lia|constructor]|]. cbn; lia. }
  apply string_of_digits_inj in Heq; [|apply Hr..].
  rewrite <- (FormatUint_value n base), <- (FormatUint_value m base) by lia.
  by rewrite Heq.
Qed.

(** Characters of a string. *)
Fixpoint chars (s : string) : list ascii :=
  match s with "" => [] | String c s' => c :: chars s' end.

Lemma chars_app s t : chars (s +:+ t) = chars s ++ chars t.
Proof. induction s as [|c s IH]; [done|]. cbn. by rewrite <- IH. Qed.

Lemma chars_inj s t : chars s = chars t -> s = t.
Proof.
  revert t. induction s as [|c s IH]; intros [|d t] H; try done.
  injection H as -> H. f_equal. by apply IH.
Qed.

Lemma app_nil_r_string s : s +:+ "" = s.
Proof. apply chars_inj. rewrite chars_app. cbn. by rewrite app_nil_r. Qed.

Lemma app_assoc_string r s t : (r +:+ s) +:+ t = r +:+ (s +:+ t).
Proof. apply chars_inj. by rewrite !chars_app, (assoc_L (++)). Qed.

Lemma app_String c s t : String c s +:+ t = String c (s +:+ t).
Proof. done. Qed.

Lemma length_app_string s t : String.length (s +:+ t) = (String.length s + String.length t)%nat.
Proof. induction s as [|c s IH]; [done|]. rewrite app_String. cbn. by rewrite IH. Qed.

Lemma digit_char_not d c :
  0 <= d < 10 -> 10 <= digit_val c -> digit_char d <> c.
Proof. intros Hd Hc Heq. rewrite <- Heq, digit_val_char in Hc; lia. Qed.

Lemma FormatUint_chars n c : 0 <= n -> 10 <= digit_val c -> c ∉ chars (FormatUint n 10).
Proof.
  intros Hn Hc. unfold FormatUint.
  assert (Hr : Forall (fun d => 0 <= d < 10) (digits (S (Z.to_nat (Z.log2 n))) 10 n []))
    by (apply digits_range; [lia|constructor]).
  induction Hr as [|d ds Hd Hds IH]; cbn; [apply not_elem_of_nil|].
  apply not_elem_of_cons. split; [|done]. symmetry. by apply digit_char_not.
Qed.

Lemma cut_app sep k v : sep ∉ chars k -> cut sep (k +:+ String sep v) = (k, Some v).
Proof.
  induction k as [|c k IH]; intros Hk.
  - change ("" +:+ String sep v) with (String sep v). cbn [cut]. by rewrite decide_True.
  - cbn in Hk. apply not_elem_of_cons in Hk as [Hc Hk].
    change (String c k +:+ String sep v) with (String c (k +:+ String sep v)).
    cbn [cut]. rewrite decide_False by congruence. by rewrite IH.
Qed.

Lemma cut_none sep s : sep ∉ chars s -> cut sep s = (s, None).
Proof.
  induction s as [|c s IH]; intros Hs; [done|].
  cbn in Hs. apply not_elem_of_cons in Hs as [Hc Hs].
  cbn [cut]. rewrite decide_False by congruence. by rewrite IH.
Qed.

(** What [cut] returns is exactly the string it was given. *)
Lemma cut_spec sep s k v : cut sep s = (k, Some v) -> s = k +:+ String sep v /\ sep ∉ chars k.
Proof.
  revert k v. induction s as [|c s IH]; intros k v; cbn [cut]; [done|].
  case_decide as Hc.
  - intros [= <- <-]. subst. split; [done|apply not_elem_of_nil].
  - destruct (cut sep s) as [a b] eqn:E. intros [= <- ->].
    destruct (IH a v eq_refl) as [-> Ha]. split; [done|].
    cbn. apply not_elem_of_cons. split; [congruence|done].
Qed.

Lemma split_nonempty sep s : split sep s <> [].
Proof. destruct s as [|c s]; cbn; [done|]. case_decide; [done|]. by destruct (split sep s). Qed.

Lemma split_none sep s : sep ∉ chars s -> split sep s = [s].
Proof.
  induction s as [|c s IH]; intros Hs; [done|].
  cbn in Hs. apply not_elem_of_cons in Hs as [Hc Hs].
  cbn [split]. rewrite decide_False by congruence. by rewrite IH.
Qed.

Lemma split_app sep s t : sep ∉ chars s -> split sep (s +:+ String sep t) = s :: split sep t.
Proof.
  induction s as [|c s IH]; intros Hs.
  - change ("" +:+ String sep t) with (String sep t). cbn [split]. by rewrite decide_True.
  - cbn in Hs. apply not_elem_of_cons in Hs as [Hc Hs].
    change (String c s +:+ String sep t) with (String c (s +:+ String sep t)).
    cbn [split]. rewrite decide_False by congruence. by rewrite IH.
Qed.

(** [strings.Split] undoes [strings.Join] when no part holds the separator. *)
Lemma split_join sep l :
  l <> [] -> Forall (fun s => sep ∉ chars s) l -> split sep (join (String sep "") l) = l.
Proof.
  intros Hne Hl. induction Hl as [|s l Hs Hl IH]; [done|].
  destruct l as [|t l]; [by apply split_none|].
  change (join (String sep "") (s :: t :: l))
    with (s +:+ (String sep "" +:+ join (String sep "") (t :: l))).
  change (String sep "" +:+ join (String sep "") (t :: l))
    with (String sep (join (String sep "") (t :: l))).
  rewrite split_app by done. by rewrite IH.
Qed.

Lemma has_prefix_spec p s : has_prefix p s = true <-> exists t, s = p +:+ t.
Proof.
  revert s. induction p as [|a p IH]; intros s.
  - split; [intros _; by exists s|]. by destruct s.
  - destruct s as [|b s]; cbn [has_prefix].
    + split; [done|]. intros [t Ht]. discriminate.
    + rewrite andb_true_iff, bool_decide_eq_true, IH. split.
      * intros [-> [t ->]]. by exists t.
      * intros [t Ht]. cbn in Ht. injection Ht as -> ->. eauto.
Qed.

#[export] Hint Resolve FormatUint_chars : garden.
#[export] Hint Rewrite app_nil_r_string app_assoc_string chars_app : garden.

Lemma FormatUint_nonempty n base : FormatUint n base <> "".
Proof.
  unfold FormatUint. destruct (digits_cons base (Z.to_nat (Z.log2 n)) n []) as (d & ds & ->). done.
Qed.

(** A positive number has no leading zero. *)
Lemma digits_head base fuel n acc d ds : 1 < base -> 0 < n < base ^ Z.of_nat fuel -> digits fuel base n acc = d :: ds -> d <> 0.
Proof.
  intros Hb. revert n acc. induction fuel as [|fuel IH]; intros n acc Hn; [cbn in Hn; lia|].
  cbn [digits]. rewrite Nat2Z.inj_succ, Z.pow_succ_r in Hn by lia. destruct (Z.ltb_spec n base) as [Hlt|Hge].
  - intros [= <- _]. rewrite Z.mod_small; lia.
  - apply IH. split; [apply Z.div_str_pos; lia|]. apply Z.div_lt_upper_bound; lia.
Qed.

Lemma parse_base_10 whole s n : parse_base 10 whole s n = parse_digits whole s n.
Proof. revert n. induction s as [|c s IH]; intros n; cbn [parse_base parse_digits]; [done|]. cbn zeta. by rewrite IH. Qed.

(** The text of the error does not matter for a success. *)
Lemma parse_base_whole base w w' s n v : parse_base base w s n = Ok v -> parse_base base w' s n = Ok v.
Proof. revert n. induction s as [|c s IH]; intros n; cbn [parse_base]; [done|]. cbn zeta. do 2 (case_match; [done|]). apply IH. Qed.

Lemma FormatUint_first n : 0 < n -> exists d s, FormatUint n 10 = String (digit_char d) s /\ 1 <= d <= 9.
Proof.
  intros Hn. unfold FormatUint. destruct (digits_cons 10 (Z.to_nat (Z.log2 n)) n []) as (d & ds & Hd).
  pose proof (digits_range 10 (S (Z.to_nat (Z.log2 n))) n [] ltac:(lia) ltac:(constructor)) as Hr.
  pose proof (digits_head 10 (S (Z.to_nat (Z.log2 n))) n [] d ds ltac:(lia)) as Hh.
  pose proof (digit_fuel 10 n ltac:(lia) ltac:(lia)). rewrite Hd in Hr |- *. inversion Hr; subst.
  exists d, (string_of_digits ds). split; [done|]. specialize (Hh ltac:(lia) Hd). lia.
Qed.

Lemma parse_uint0_FormatUint n whole : 0 <= n < 18446744073709551616 -> parse_uint0 whole (FormatUint n 10) = Ok n.
Proof.
  intros Hn. destruct (decide (n = 0)) as [->|Hz]; [done|].
  assert (Hp : ParseUint (FormatUint n 10) = Ok n) by (apply ParseUint_FormatUint; unfold is_u64; lia).
  destruct (FormatUint_first n) as (d & s & Hs & Hd); [lia|]. rewrite Hs in *. clear Hs.
  assert (d = 1 \/ d = 2 \/ d = 3 \/ d = 4 \/ d = 5 \/ d = 6 \/ d = 7 \/ d = 8 \/ d = 9) as Hcases by lia.
  unfold ParseUint in Hp. rewrite <- parse_base_10 in Hp.
  assert (Hb : parse_uint0 whole (String (digit_char d) s) = parse_base 10 whole (String (digit_char d) s) 0)
    by (by destruct Hcases as [->|[->|[->|[->|[->|[->|[->|[->| ->]]]]]]]]).
  rewrite Hb. by eapply parse_base_whole.
Qed.

Lemma ParseInt_FormatUint n : 0 <= n < 9223372036854775808 -> ParseInt (FormatUint n 10) = Ok n.
Proof.
  intros Hn. destruct (decide (n = 0)) as [->|Hz]; [done|].
  assert (Hp : ParseUint (FormatUint n 10) = Ok n) by (apply ParseUint_FormatUint; unfold is_u64; lia).
  destruct (FormatUint_first n) as (d & s & Hs & Hd); [lia|]. rewrite Hs in *. clear Hs.
  assert (Hc : ParseInt (String (digit_char d) s) = res_bind (ParseUint (String (digit_char d) s)) (fun un =>
            if 9223372036854775808 <=? un then Err (NumErrorRange (String (digit_char d) s)) else Ok un)).
  { assert (d = 1 \/ d = 2 \/ d = 3 \/ d = 4 \/ d = 5 \/ d = 6 \/ d = 7 \/ d = 8 \/ d = 9) as Hcases by lia.
    unfold ParseInt, ParseUint. rewrite <- parse_base_10. by destruct Hcases as [->|[->|[->|[->|[->|[->|[->|[->| ->]]]]]]]]. }
  rewrite Hc, Hp. cbn. destruct (Z.leb_spec 9223372036854775808 n); [lia|done].
Qed.
