(* ===== verification/GoFlag.v ===== *)
(** * Command lines: what the programs use of package flag

    [flag.Parse] as the programs of the repository use it: flags come first, as
    [-name=value], [-name value] or [-name] for a boolean, with one or two dashes;
    the first argument that is no flag, or what follows ["--"], ends them. *)
From S2P Require Import Prelude GoStrings.

(** The types of flags: [flag.String], [flag.Bool], [flag.Int], [flag.Uint],
    [flag.Duration], and a [flag.Var] that collects its values. *)
Inductive FlagKind := FString | FBool | FInt | FUint | FDuration | FList.

(** [strconv.ParseBool] *)
Definition ParseBool (s : string) : option bool :=
  if decide (s ∈ ["1"; "t"; "T"; "true"; "TRUE"; "True"]) then Some true
  else if decide (s ∈ ["0"; "f"; "F"; "false"; "FALSE"; "False"]) then Some false
  else None.

(** [time.ParseDuration], in nanoseconds: a sign, then numbers with a fraction and a
    unit each. A fraction is cut to whole nanoseconds. *)
Fixpoint take_digits (s : string) : list Z * string :=
  match s with
  | String c s' => if digit_val c <? 10 then let '(ds, rest) := take_digits s' in (digit_val c :: ds, rest) else ([], s)
  | "" => ([], "")
  end.

Definition digits_value (ds : list Z) : Z := foldl (fun n d => 10 * n + d) 0 ds.

Fixpoint take_unit (s : string) : string * string :=
  match s with
  | String c s' =>
      if decide (c = "."%char) then ("", s)
      else if digit_val c <? 10 then ("", s)
      else let '(u, rest) := take_unit s' in (String c u, rest)
  | "" => ("", "")
  end.

Definition duration_unit (u : string) : option Z :=
  if decide (u = "ns") then Some 1
  else if decide (u = "us" \/ u = String (ascii_of_nat 194) (String (ascii_of_nat 181) "s") \/ u = String (ascii_of_nat 206) (String (ascii_of_nat 188) "s"))
  then Some 1000
  else if decide (u = "ms") then Some 1000000
  else if decide (u = "s") then Some 1000000000
  else if decide (u = "m") then Some 60000000000
  else if decide (u = "h") then Some 3600000000000
  else None.

(** Every part has at least one byte, so the length of the text is enough fuel. *)
Fixpoint duration_parts (fuel : nat) (whole s : string) (d : Z) : result Z :=
  match s, fuel with
  | "", _ => Ok d
  | _, O => Err (Errorv "time: invalid duration %s" [whole])
  | _, S fuel' =>
      let '(ints, s1) := take_digits s in
      let '(fracs, s2) := match s1 with String "." t => take_digits t | _ => ([], s1) end in
      let '(u, rest) := take_unit s2 in
      match ints ++ fracs, duration_unit u with
      | [], _ => Err (Errorv "time: invalid duration %s" [whole])
      | _, None => Err (Errorv "time: unknown unit %s in duration %s" [u; whole])
      | _, Some unit =>
          let v := digits_value ints * unit in
          let f := digits_value fracs * unit / 10 ^ Z.of_nat (length fracs) in
          if 9223372036854775808 <=? d + v + f then Err (Errorv "time: invalid duration %s" [whole])
          else duration_parts fuel' whole rest (d + v + f)
      end
  end.

Definition ParseDuration (s : string) : result Z :=
  let '(neg, t) := match s with String "-" t => (true, t) | String "+" t => (false, t) | _ => (false, s) end in
  if decide (t = "0") then Ok 0
  else if decide (t = "") then Err (Errorv "time: invalid duration %s" [s])
  else res_bind (duration_parts (String.length t) s t 0) (fun d => Ok (if neg : bool then - d else d)).

Example ParseDuration_example : ParseDuration "-1h5m1.5s" = Ok (-3901500000000) /\ is_ok (ParseDuration "5") = false.
Proof. by vm_compute. Qed.

Lemma take_digits_length s : (length (take_digits s).1 + String.length (take_digits s).2 = String.length s)%nat.
Proof. induction s as [|c s IH]; [done|]. cbn [take_digits]. destruct (digit_val c <? 10); [|done]. destruct (take_digits s). cbn in *. lia. Qed.

Lemma take_unit_length s : (String.length (take_unit s).1 + String.length (take_unit s).2 = String.length s)%nat.
Proof.
  induction s as [|c s IH]; [done|]. cbn [take_unit]. case_decide; [done|]. destruct (digit_val c <? 10); [done|].
  destruct (take_unit s). cbn in *. lia.
Qed.

(** More fuel than the text has bytes changes nothing. *)
Lemma duration_parts_fuel whole n m : forall s d, (String.length s <= n)%nat -> (String.length s <= m)%nat ->
  duration_parts n whole s d = duration_parts m whole s d.
Proof.
  revert m. induction n as [|n IH]; intros m [|c s] d Hn Hm; [by destruct m|cbn in Hn; lia|by destruct m|].
  destruct m as [|m]; [cbn in Hm; lia|]. cbn [duration_parts]. pose proof (take_digits_length (String c s)) as H1.
  destruct (take_digits (String c s)) as [ints s1]. cbn [fst snd] in H1.
  set (p := match s1 with String "." t => take_digits t | _ => ([], s1) end).
  assert (H2 : (length p.1 + String.length p.2 <= String.length s1)%nat).
  { unfold p. repeat case_match; cbn [fst snd length]; try lia. pose proof (take_digits_length s0). cbn [String.length]. lia. }
  destruct p as [fracs s2]. cbn [fst snd] in H2. pose proof (take_unit_length s2) as H3. destruct (take_unit s2) as [u rest]. cbn [fst snd] in H3.
  destruct (ints ++ fracs) eqn:Ha; [done|]. apply (f_equal length) in Ha. rewrite length_app in Ha. cbn [length String.length] in *.
  destruct (duration_unit u); [|done]. case_match; [done|]. apply IH; lia.
Qed.

(** Whether [Value.Set] accepts the text. *)
Definition flag_accepts (k : FlagKind) (v : string) : bool :=
  match k with
  | FString | FList => true
  | FBool => bool_decide (is_Some (ParseBool v))
  | FInt => is_ok (ParseInt v)
  | FUint => is_ok (parse_uint0 v v)
  | FDuration => is_ok (ParseDuration v)
  end.

(** What [parseOne] makes of the next argument. *)
Inductive ParsedFlag :=
| NoFlag                                  (* not a flag: the arguments start here *)
| Terminator                              (* ["--"] *)
| BadSyntax
| AFlag (name : string) (value : option string).

Definition read_flag (s : string) : ParsedFlag :=
  match s with
  | String c (String d t as s') =>
      if decide (c = "-"%char) then
        if decide (s' = "-") then Terminator
        else
          let name := if decide (d = "-"%char) then t else s' in
          match name with
          | "" => BadSyntax
          | String e _ =>
              if decide (e = "-"%char \/ e = "="%char) then BadSyntax
              else let '(n, v) := cut "="%char name in AFlag n v
          end
      else NoFlag
  | _ => NoFlag
  end.

Section Parse.
Context (flags : list (string * FlagKind)).

Definition flag_kind (name : string) : option FlagKind :=
  snd <$> head (filter (fun kv => kv.1 = name) flags).

(** The values that are set, in the order of the command line, and the remaining
    arguments; an error ends the program with the exit status 2. *)
Fixpoint Parse (args : list string) : result (list (string * string) * list string) :=
  match args with
  | [] => Ok ([], [])
  | s :: args' =>
      match read_flag s with
      | NoFlag => Ok ([], args)
      | Terminator => Ok ([], args')
      | BadSyntax => Err (Errorv "bad flag syntax: %s" [s])
      | AFlag name value =>
          match flag_kind name with
          | None => Err (Errorv "flag provided but not defined: -%s" [name])
          | Some k =>
              let set v rest :=
                if flag_accepts k v then
                  match rest with Ok (sets, others) => Ok ((name, v) :: sets, others) | Err e => Err e | Panic m => Panic m end
                else Err (Errorv "invalid value %q for flag -%s" [v; name]) in
              match k, value, args' with
              | FBool, Some v, _ => set v (Parse args')
              | FBool, None, _ => set "true" (Parse args')
              | _, Some v, _ => set v (Parse args')
              | _, None, v :: args'' => set v (Parse args'')
              | _, None, [] => Err (Errorv "flag needs an argument: -%s" [name])
              end
          end
      end
  end.
End Parse.

(** The value of a flag: the last one set, or its default. *)
Definition flag_value (name dflt : string) (sets : list (string * string)) : string :=
  foldl (fun acc kv => if decide (kv.1 = name) then kv.2 else acc) dflt sets.

Definition flag_bool (name : string) (dflt : bool) (sets : list (string * string)) : bool :=
  foldl (fun acc kv => if decide (kv.1 = name) then default acc (ParseBool kv.2) else acc) dflt sets.

Definition flag_int (name : string) (dflt : Z) (sets : list (string * string)) : Z :=
  foldl (fun acc kv => if decide (kv.1 = name) then match ParseInt kv.2 with Ok v => v | _ => acc end else acc) dflt sets.

Definition flag_with (parse : string -> result Z) (name : string) (dflt : Z) (sets : list (string * string)) : Z :=
  foldl (fun acc kv => if decide (kv.1 = name) then match parse kv.2 with Ok v => v | _ => acc end else acc) dflt sets.

Definition flag_uint : string -> Z -> list (string * string) -> Z := flag_with (fun s => parse_uint0 s s).
Definition flag_duration : string -> Z -> list (string * string) -> Z := flag_with ParseDuration.

(** The values of a [flag.Var] that appends ([vars.StringList.Set]). *)
Definition flag_list (name : string) (sets : list (string * string)) : list string :=
  (filter (fun kv => kv.1 = name) sets).*2.

(** The last value that is set counts. *)
Lemma flag_with_last parse name dflt l1 v l2 x : parse v = Ok x -> name ∉ l2.*1 -> flag_with parse name dflt (l1 ++ (name, v) :: l2) = x.
Proof.
  intros Hv Hn. unfold flag_with. rewrite foldl_app. cbn [foldl fst snd]. rewrite decide_True, Hv by done.
  induction l2 as [|[k u] l2 IH] using rev_ind; [done|]. rewrite fmap_app, not_elem_of_app in Hn. destruct Hn as [Hn Hk].
  rewrite foldl_app. cbn [foldl fst snd]. rewrite IH by done. rewrite decide_False; [done|]. intros ->. apply Hk. left.
Qed.

(** ** Command lines that parse *)

(** A well-formed flag name. *)
Definition flag_name (n : string) : Prop :=
  "="%char ∉ chars n /\ match n with "" => False | String c _ => c <> "-"%char end.

#[export] Instance flag_name_dec n : Decision (flag_name n).
Proof. unfold flag_name. destruct n; apply _. Defined.

Lemma flag_name_cons n : flag_name n -> exists c t, n = String c t /\ c <> "-"%char /\ c <> "="%char.
Proof. intros [Heq Hn]. destruct n as [|c t]; [done|]. exists c, t. split_and!; [done|done|]. intros ->. apply Heq. left. Qed.

Lemma read_flag_2 n : flag_name n -> read_flag ("--" +:+ n) = AFlag n None.
Proof.
  intros Hn. destruct (flag_name_cons _ Hn) as (c & t & -> & Hd & He). change ("--" +:+ String c t) with (String "-" (String "-" (String c t))). unfold read_flag.
  rewrite decide_True, decide_False, decide_True, decide_False by naive_solver. by rewrite cut_none by apply Hn.
Qed.

Lemma read_flag_1_value n v : flag_name n -> read_flag ("-" +:+ n +:+ "=" +:+ v) = AFlag n (Some v).
Proof.
  intros Hn. destruct (flag_name_cons _ Hn) as (c & t & -> & Hd & He). 
  change ("-" +:+ String c t +:+ "=" +:+ v) with (String "-" (String c (t +:+ String "=" v))). unfold read_flag.
  rewrite decide_True, decide_False, decide_False, decide_False by naive_solver.
  assert (Hcut : cut "=" (String c (t +:+ String "=" v)) = (String c t, Some v)) by apply (cut_app _ (String c t)), Hn.
  by rewrite Hcut.
Qed.

Lemma read_flag_none s : (forall t, s <> String "-" t) -> read_flag s = NoFlag.
Proof. intros Hs. destruct s as [|c [|d t]]; [done|done|]. cbn. rewrite decide_False; [done|]. intros ->. by eapply Hs. Qed.

(** One step of [Parse] for each form that the programs write. *)
Lemma Parse_value flags n k v args sets others : flag_name n -> flag_kind flags n = Some k -> k <> FBool -> flag_accepts k v = true ->
  Parse flags args = Ok (sets, others) -> Parse flags (("--" +:+ n) :: v :: args) = Ok ((n, v) :: sets, others).
Proof. intros Hn Hk Hb Hv Hp. cbn [Parse]. rewrite read_flag_2, Hk, Hv, Hp by done. by destruct k. Qed.

(** Flags with their values, one after the other. *)
Lemma Parse_pairs flags pairs args sets others :
  Forall (fun kv => flag_name kv.1 /\ exists k, flag_kind flags kv.1 = Some k /\ k <> FBool /\ flag_accepts k kv.2 = true) pairs ->
  Parse flags args = Ok (sets, others) -> Parse flags ((pairs ≫= fun kv => ["--" +:+ kv.1; kv.2]) ++ args) = Ok (pairs ++ sets, others).
Proof.
  intros Hall Hargs. induction Hall as [|[n v] pairs (Hn & k & Hk & Hb & Hv) _ IH]; [done|].
  rewrite bind_cons, <- (assoc_L (++)). by apply (Parse_value _ _ k).
Qed.

Lemma Parse_bool flags n args sets others : flag_name n -> flag_kind flags n = Some FBool ->
  Parse flags args = Ok (sets, others) -> Parse flags (("--" +:+ n) :: args) = Ok ((n, "true") :: sets, others).
Proof. intros Hn Hk Hp. cbn [Parse]. by rewrite read_flag_2, Hk, Hp by done. Qed.

Lemma read_flag_1 n : flag_name n -> read_flag ("-" +:+ n) = AFlag n None.
Proof.
  intros Hn. destruct (flag_name_cons _ Hn) as (c & t & -> & Hd & He). change ("-" +:+ String c t) with (String "-" (String c t)). unfold read_flag.
  rewrite decide_True, decide_False, decide_False, decide_False by naive_solver. by rewrite cut_none by apply Hn.
Qed.

Lemma Parse_bool_1 flags n args sets others : flag_name n -> flag_kind flags n = Some FBool ->
  Parse flags args = Ok (sets, others) -> Parse flags (("-" +:+ n) :: args) = Ok ((n, "true") :: sets, others).
Proof. intros Hn Hk Hp. cbn [Parse]. by rewrite read_flag_1, Hk, Hp by done. Qed.

Lemma Parse_eq_value flags n k v args sets others : flag_name n -> flag_kind flags n = Some k -> flag_accepts k v = true ->
  Parse flags args = Ok (sets, others) -> Parse flags (("-" +:+ n +:+ "=" +:+ v) :: args) = Ok ((n, v) :: sets, others).
Proof. intros Hn Hk Hv Hp. cbn [Parse]. rewrite read_flag_1_value, Hk, Hv, Hp by done. by destruct k. Qed.

Lemma Parse_end flags args : Parse flags ("--" :: args) = Ok ([], args).
Proof. done. Qed.

Lemma Parse_args flags s args : (forall t, s <> String "-" t) -> Parse flags (s :: args) = Ok ([], s :: args).
Proof. intros Hs. cbn [Parse]. by rewrite read_flag_none. Qed.

(** The conditions of the lemmas above for a flag that is given by name. *)
Ltac flag_tac := first [done | (vm_compute; done) | (apply (bool_decide_unpack _); vm_compute; done)].

(** Decide the equality of names that are given. *)
Ltac eval_names :=
  repeat match goal with
  | |- context [decide (String ?c ?a = String ?d ?b)] =>
      first [rewrite (decide_True (P := String c a = String d b)) by done | rewrite (decide_False (P := String c a = String d b)) by done]
  end.
