(* ===== verification/TextCodec.v ===== *)
(** * A codec for examples

    The protocols of the program use encoding/json and encoding/gob, which are
    parameters of the model with the laws that are needed of them. This file has
    a codec that satisfies the laws: the bits of the number that stands for a
    value, closed by a full stop. *)
From S2P Require Import Prelude GoStrings.

Fixpoint bits (p : positive) : string :=
  match p with xH => "." | xO p => String "0" (bits p) | xI p => String "1" (bits p) end.

Fixpoint unbits (s : string) : option positive :=
  match s with
  | "" => None
  | String c s =>
      if decide (c = "."%char) then Some xH
      else match unbits s with Some p => Some (if decide (c = "0"%char) then xO p else xI p) | None => None end
  end.

Lemma unbits_bits p : unbits (bits p) = Some p.
Proof. induction p as [p IH|p IH|]; cbn; [by rewrite IH..|done]. Qed.

Lemma unbits_cut p : forall n, (n < String.length (bits p))%nat -> unbits (String.substring 0 n (bits p)) = None.
Proof.
  induction p as [p IH|p IH|]; intros [|n] Hn; cbn in *; try done; [by rewrite IH by lia..|lia].
Qed.

Section Codec.
Context {A : Type} `{Countable A}.

Definition text_encode (a : A) : string := bits (encode a).
Definition text_decode (s : string) : option A := p ← unbits s; decode p.

Lemma text_decode_encode a : text_decode (text_encode a) = Some a.
Proof. unfold text_decode, text_encode. rewrite unbits_bits. apply decode_encode. Qed.

Lemma text_decode_cut a n : (n < String.length (text_encode a))%nat -> text_decode (String.substring 0 n (text_encode a)) = None.
Proof. intros Hn. unfold text_decode, text_encode. by rewrite unbits_cut. Qed.

Lemma text_encode_nonempty a : text_encode a <> "".
Proof. unfold text_encode. by destruct (encode a). Qed.
End Codec.
