(* ===== verification/PortPool.v ===== *)
(** * The host port pool (src/port_pool)

    [PortPool] is a FIFO of free host ports. Every operation but [RefreshState]
    runs under [poolMutex], so each is one atomic step of the model. The file
    ends with the refinement of the slice by a set of free ports, and with the
    ownership invariant of every run of the pool. *)
From S2P Require Import Prelude GoStrings.

Record State := mkState { Offset : Z }.

Record PortPool := mkPortPool {
  pp_start : Z;
  pp_size : Z;
  pp_pool : list Z;
  pp_state : State
}.

(** [for ; port < limit; port++ { pool[i] = port; i += 1 }] *)
Fixpoint fill (fuel : nat) (port limit : Z) (i : nat) (pool : list Z) : result (nat * list Z) :=
  if port <? limit then
    match fuel with
    | O => Ok (i, pool)
    | S fuel' =>
        if decide (i < length pool)%nat
        then fill fuel' (u32 (port + 1)) limit (S i) (<[i := port]> pool)
        else Panic "runtime error: index out of range"
    end
  else Ok (i, pool).

Definition PortPool_New (start size : Z) (state : State) : result PortPool :=
  if 65535 <? u32 (start + size)
  then Err (Errorf ("port_pool: New: invalid port range: startL " +:+ Itoa start
                    +:+ ", size: " +:+ Itoa size))
  else
    let state := if size <=? Offset state then mkState 0 else state in
    let pool := replicate (Z.to_nat size) 0 in
    let limit := u32 (start + size) in
    res_bind (fill (Z.to_nat limit) (u32 (start + Offset state)) limit 0 pool)
      (fun '(i, pool) =>
         let limit := u32 (start + Offset state) in
         res_bind (fill (Z.to_nat limit) start limit i pool)
           (fun '(_, pool) =>
              Ok {| pp_start := start; pp_size := size; pp_pool := pool;
                    pp_state := mkState 0 |})).

Definition set_pool (p : PortPool) (pool : list Z) : PortPool :=
  {| pp_start := pp_start p; pp_size := pp_size p; pp_pool := pool; pp_state := pp_state p |}.

Definition PortPool_Acquire : M PortPool Z := fun p =>
  match pp_pool p with
  | [] => (Err PoolExhaustedError, p)
  | port :: rest => (Ok port, set_pool p rest)
  end.

(** The first index of [port] in the slice, as the [range] loop finds it. *)
Fixpoint find_port (port : Z) (pool : list Z) : option nat :=
  match pool with
  | [] => None
  | existingPort :: pool' =>
      if existingPort =? port then Some O else S <$> find_port port pool'
  end.

Definition PortPool_Remove (port : Z) : M PortPool unit := fun p =>
  match find_port port (pp_pool p) with
  | None => (Err (PortTakenError port), p)
  | Some idx => (Ok tt, set_pool p (take idx (pp_pool p) ++ drop (S idx) (pp_pool p)))
  end.

Definition PortPool_Release (port : Z) : M PortPool unit := fun p =>
  if (port <? pp_start p) || (u32 (pp_start p + pp_size p) <=? port) then (Ok tt, p)
  else match find_port port (pp_pool p) with
       | Some _ => (Ok tt, p)
       | None => (Ok tt, set_pool p (pp_pool p ++ [port]))
       end.

Definition PortPool_RefreshState : M PortPool State := fun p =>
  let state := match pp_pool p with
               | [] => mkState 0
               | port :: _ => mkState (u32 (port - pp_start p))
               end in
  (Ok state, {| pp_start := pp_start p; pp_size := pp_size p;
                pp_pool := pp_pool p; pp_state := state |}).

(** ** The slice a new pool holds *)

(** The ports [a, a+1, ..., a+n-1]. *)
Definition ports_from (a : Z) (n : nat) : list Z := (fun k => a + Z.of_nat k) <$> seq 0 n.

Lemma ports_from_cons a n : ports_from a (S n) = a :: ports_from (a + 1) n.
Proof.
  unfold ports_from. cbn. f_equal; [lia|]. rewrite <- seq_shift, <- list_fmap_compose.
  apply list_fmap_ext. intros i x _. cbn. lia.
Qed.

Lemma ports_from_nil a : ports_from a 0 = [].
Proof. done. Qed.

Lemma elem_of_ports_from x a n : x ∈ ports_from a n <-> a <= x < a + Z.of_nat n.
Proof.
  unfold ports_from. rewrite list_elem_of_fmap. split.
  - intros (k & -> & Hk%elem_of_seq). lia.
  - intros Hx. exists (Z.to_nat (x - a)). rewrite elem_of_seq. lia.
Qed.

Lemma NoDup_ports_from a n : NoDup (ports_from a n).
Proof. apply NoDup_fmap; [intros ???; lia|apply NoDup_seq]. Qed.

Lemma length_ports_from a n : length (ports_from a n) = n.
Proof. unfold ports_from. by rewrite length_fmap, length_seq. Qed.

(** The loop writes consecutive ports over a zeroed tail. *)
Lemma fill_spec n fuel a i pre k :
  0 <= a -> a + Z.of_nat n <= 65535 -> (n <= fuel)%nat -> i = length pre ->
  fill fuel a (a + Z.of_nat n) i (pre ++ replicate (n + k) 0) =
  Ok ((i + n)%nat, pre ++ ports_from a n ++ replicate k 0).
Proof.
  revert fuel a i pre. induction n as [|n IH]; intros fuel a i pre Ha Hb Hf Hi.
  - destruct fuel; cbn [fill]; destruct (Z.ltb_spec a (a + Z.of_nat 0)); try lia;
      by rewrite Nat.add_0_r.
  - destruct fuel as [|fuel]; [lia|]. cbn [fill].
    destruct (Z.ltb_spec a (a + Z.of_nat (S n))); [|lia].
    rewrite decide_True by (rewrite length_app, length_replicate; lia).
    rewrite u32_small by (unfold is_u32; lia).
    replace (a + Z.of_nat (S n)) with (a + 1 + Z.of_nat n) by lia.
    replace (<[i:=a]> (pre ++ replicate (S n + k) 0)) with ((pre ++ [a]) ++ replicate (n + k) 0).
    2:{ subst i. cbn. rewrite insert_app_r_alt by lia. rewrite Nat.sub_diag. cbn.
        by rewrite <- (assoc_L (++)). }
    rewrite IH; [|lia|lia|lia|rewrite length_app; cbn; lia].
    rewrite ports_from_cons. f_equal. f_equal; [lia|]. by rewrite <- (assoc_L (++)).
Qed.

Lemma fill_empty fuel a limit i pool :
  limit <= a -> fill fuel a limit i pool = Ok (i, pool).
Proof. intros H. destruct fuel; cbn [fill]; destruct (Z.ltb_spec a limit); (lia || done). Qed.

(** Where a valid pool starts handing out ports. *)
Definition first_offset (size : Z) (state : State) : Z :=
  if size <=? Offset state then 0 else Offset state.

Lemma New_ports start size st :
  0 <= start -> 0 <= size -> start + size <= 65535 -> 0 <= Offset st ->
  PortPool_New start size st =
  Ok {| pp_start := start; pp_size := size;
        pp_pool := ports_from (start + first_offset size st) (Z.to_nat (size - first_offset size st))
                   ++ ports_from start (Z.to_nat (first_offset size st));
        pp_state := mkState 0 |}.
Proof.
  intros Hs Hz Hr Ho. unfold PortPool_New, first_offset.
  rewrite (u32_small (start + size)) by (unfold is_u32; lia).
  destruct (Z.ltb_spec 65535 (start + size)); [lia|].
  set (o := if size <=? Offset st then 0 else Offset st).
  assert (Hoff : Offset (if size <=? Offset st then mkState 0 else st) = o)
    by (unfold o; by destruct (size <=? Offset st)).
  rewrite Hoff. assert (Hob : 0 <= o <= size) by (unfold o; destruct (Z.leb_spec size (Offset st)); lia).
  rewrite (u32_small (start + o)) by (unfold is_u32; lia).
  pose proof (fill_spec (Z.to_nat (size - o)) (Z.to_nat (start + size)) (start + o) 0 []
                (Z.to_nat o)) as F1.
  replace (start + o + Z.of_nat (Z.to_nat (size - o))) with (start + size) in F1 by lia.
  replace (Z.to_nat (size - o) + Z.to_nat o)%nat with (Z.to_nat size) in F1 by lia.
  cbn [app] in F1. rewrite F1 by (cbn; lia). cbn [res_bind].
  pose proof (fill_spec (Z.to_nat o) (Z.to_nat (start + o)) start (Z.to_nat (size - o))
                (ports_from (start + o) (Z.to_nat (size - o))) 0) as F2.
  replace (start + Z.of_nat (Z.to_nat o)) with (start + o) in F2 by lia.
  rewrite Nat.add_0_r in F2. rewrite Nat.add_0_l.
  rewrite F2 by (rewrite ?length_ports_from; lia). cbn [res_bind replicate].
  by rewrite app_nil_r.
Qed.

(** ** Well-formed pools *)

Definition in_range (p : PortPool) (port : Z) : Prop :=
  pp_start p <= port < pp_start p + pp_size p.

Record pp_wf (p : PortPool) : Prop := {
  wf_start : 0 <= pp_start p;
  wf_size : 0 <= pp_size p;
  wf_max : pp_start p + pp_size p <= 65535;
  wf_nodup : NoDup (pp_pool p);
  wf_range : Forall (in_range p) (pp_pool p)
}.

Lemma wf_limit p : pp_wf p -> u32 (pp_start p + pp_size p) = pp_start p + pp_size p.
Proof. intros []. apply u32_small. unfold is_u32. lia. Qed.

Lemma set_pool_wf p l : pp_wf p -> NoDup l -> Forall (in_range p) l -> pp_wf (set_pool p l).
Proof. intros [] ??. by split. Qed.

(** The set of free ports, which is what clients of the pool rely on. *)
Definition free (p : PortPool) : gset Z := list_to_set (pp_pool p).

Lemma elem_of_free p x : x ∈ free p <-> x ∈ pp_pool p.
Proof. unfold free. by rewrite elem_of_list_to_set. Qed.

(** All ports of the configured range. *)
Definition range (p : PortPool) : gset Z :=
  list_to_set (ports_from (pp_start p) (Z.to_nat (pp_size p))).

Lemma elem_of_range p x : pp_wf p -> x ∈ range p <-> in_range p x.
Proof.
  intros []. unfold range, in_range. rewrite elem_of_list_to_set, elem_of_ports_from. lia.
Qed.

Lemma New_wf start size st p :
  0 <= start -> 0 <= size -> start + size <= 65535 -> 0 <= Offset st ->
  PortPool_New start size st = Ok p -> pp_wf p /\ free p = range p.
Proof.
  intros Hs Hz Hr Ho Hnew. rewrite New_ports in Hnew by done. injection Hnew as <-.
  set (o := first_offset size st).
  assert (Hob : 0 <= o <= size)
    by (unfold o, first_offset; destruct (Z.leb_spec size (Offset st)); lia).
  split; [split|]; cbn; [lia|lia|lia| | |].
  - apply NoDup_app. split; [apply NoDup_ports_from|split; [|apply NoDup_ports_from]].
    intros x Hx Hy. rewrite elem_of_ports_from in Hx, Hy. lia.
  - apply Forall_forall. intros x. rewrite elem_of_app, !elem_of_ports_from.
    unfold in_range. cbn. lia.
  - apply set_eq. intros x. unfold free, range. cbn.
    rewrite !elem_of_list_to_set, elem_of_app, !elem_of_ports_from. lia.
Qed.

Lemma find_port_None port pool : find_port port pool = None <-> port ∉ pool.
Proof.
  induction pool as [|x pool IH]; cbn [find_port]; [split; [intros _; apply not_elem_of_nil|done]|].
  rewrite not_elem_of_cons. destruct (Z.eqb_spec x port) as [->|Hne].
  - split; [done|]. by intros [].
  - rewrite fmap_None. split.
    + intros H%IH. split; [congruence|done].
    + by intros [_ H%IH].
Qed.

Lemma find_port_Some port pool i :
  find_port port pool = Some i ->
  exists l1 l2, pool = l1 ++ port :: l2 /\ take i pool ++ drop (S i) pool = l1 ++ l2 /\ port ∉ l1.
Proof.
  revert i. induction pool as [|x pool IH]; intros i; cbn [find_port]; [done|].
  destruct (Z.eqb_spec x port) as [->|Hne].
  - intros [= <-]. exists [], pool. split; [done|split; [done|apply not_elem_of_nil]].
  - intros (j & Hj & ->)%fmap_Some. destruct (IH j Hj) as (l1 & l2 & -> & Ht & Hn).
    exists (x :: l1), l2. split; [done|]. split; [cbn; by f_equal|].
    apply not_elem_of_cons. split; [congruence|done].
Qed.

(** ** The abstract pool

    What the pool promises is stated on the set of free ports alone: which port
    [Acquire] picks is left open, and [Release] is idempotent. *)

Definition AcquireSpec (F : gset Z) (r : result Z) (F' : gset Z) : Prop :=
  match r with
  | Ok port => port ∈ F /\ F' = F ∖ {[port]}
  | Err e => e = PoolExhaustedError /\ F = ∅ /\ F' = F
  | Panic _ => False
  end.

Definition RemoveSpec (port : Z) (F : gset Z) (r : result unit) (F' : gset Z) : Prop :=
  match r with
  | Ok _ => port ∈ F /\ F' = F ∖ {[port]}
  | Err e => e = PortTakenError port /\ port ∉ F /\ F' = F
  | Panic _ => False
  end.

Definition ReleaseSpec (R : gset Z) (port : Z) (F : gset Z) (r : result unit) (F' : gset Z) : Prop :=
  r = Ok tt /\ F' = (if decide (port ∈ R) then {[port]} ∪ F else F).

Lemma Acquire_refines p r p' :
  pp_wf p -> PortPool_Acquire p = (r, p') ->
  pp_wf p' /\ range p' = range p /\ AcquireSpec (free p) r (free p').
Proof.
  intros Hwf. unfold PortPool_Acquire. destruct (pp_pool p) as [|x l] eqn:E.
  - intros [= <- <-]. split; [done|]. split; [done|]. unfold AcquireSpec, free.
    rewrite E. done.
  - intros [= <- <-]. pose proof (wf_nodup _ Hwf) as Hnd. pose proof (wf_range _ Hwf) as Hr.
    rewrite E in Hnd, Hr. apply NoDup_cons in Hnd as [Hx Hnd]. apply Forall_cons in Hr as [_ Hr].
    split; [by apply set_pool_wf|]. split; [done|]. unfold AcquireSpec, free. cbn.
    rewrite E. cbn. set_solver.
Qed.

Lemma Remove_refines port p r p' :
  pp_wf p -> PortPool_Remove port p = (r, p') ->
  pp_wf p' /\ range p' = range p /\ RemoveSpec port (free p) r (free p').
Proof.
  intros Hwf. unfold PortPool_Remove. destruct (find_port port (pp_pool p)) as [i|] eqn:E.
  - destruct (find_port_Some _ _ _ E) as (l1 & l2 & Hp & Ht & _). rewrite Ht.
    intros [= <- <-]. pose proof (wf_nodup _ Hwf) as Hnd. pose proof (wf_range _ Hwf) as Hr.
    rewrite Hp in Hnd, Hr. apply NoDup_middle in Hnd as [Hnd Hx].
    rewrite Forall_app, Forall_cons in Hr. destruct Hr as (Hr1 & _ & Hr2).
    split; [apply set_pool_wf; [done|done|by apply Forall_app]|]. split; [done|].
    unfold RemoveSpec, free. cbn. rewrite Hp, !list_to_set_app_L. cbn. set_solver.
  - intros [= <- <-]. apply find_port_None in E. split; [done|]. split; [done|].
    unfold RemoveSpec. split; [done|]. split; [by rewrite elem_of_free|done].
Qed.

Lemma Release_refines port p r p' :
  pp_wf p -> PortPool_Release port p = (r, p') ->
  pp_wf p' /\ range p' = range p /\ ReleaseSpec (range p) port (free p) r (free p').
Proof.
  intros Hwf. unfold PortPool_Release. rewrite wf_limit by done.
  pose proof (elem_of_range p port Hwf) as HR. unfold in_range in HR.
  destruct (Z.ltb_spec port (pp_start p)), (Z.leb_spec (pp_start p + pp_size p) port);
    cbn [orb]; try (intros [= <- <-]; unfold ReleaseSpec; rewrite decide_False by (rewrite HR; lia); done).
  destruct (find_port port (pp_pool p)) as [i|] eqn:E; intros [= <- <-]; unfold ReleaseSpec;
    rewrite decide_True by (rewrite HR; lia).
  - split; [done|]. split; [done|]. split; [done|].
    assert (Hin : port ∈ free p).
    { rewrite elem_of_free. destruct (find_port_Some _ _ _ E) as (? & ? & -> & _). set_solver. }
    set_solver.
  - apply find_port_None in E. split; [|split; [done|split; [done|]]].
    + apply set_pool_wf; [done|by apply NoDup_snoc; [apply wf_nodup|]|].
      apply Forall_app. split; [apply (wf_range _ Hwf)|]. apply Forall_singleton. unfold in_range; lia.
    + unfold free. cbn. rewrite list_to_set_app_L. cbn. set_solver.
Qed.

(** ** Runs of the pool

    A run pairs the pool with the set of ports its clients hold: [Acquire] and
    [Remove] hand a port out, and [Release] takes back a port that is held. *)

Inductive pp_step : PortPool * gset Z -> PortPool * gset Z -> Prop :=
| step_acquire p p' port H :
    PortPool_Acquire p = (Ok port, p') -> pp_step (p, H) (p', {[port]} ∪ H)
| step_acquire_err p p' e H :
    PortPool_Acquire p = (Err e, p') -> pp_step (p, H) (p', H)
| step_remove p p' port H :
    PortPool_Remove port p = (Ok tt, p') -> pp_step (p, H) (p', {[port]} ∪ H)
| step_remove_err p p' port e H :
    PortPool_Remove port p = (Err e, p') -> pp_step (p, H) (p', H)
| step_release p p' port H :
    port ∈ H -> PortPool_Release port p = (Ok tt, p') -> pp_step (p, H) (p', H ∖ {[port]}).

Definition owned (R : gset Z) (s : PortPool * gset Z) : Prop :=
  let '(p, H) := s in pp_wf p /\ range p = R /\ free p ## H /\ free p ∪ H = R.

Lemma pp_step_owned R s s' : pp_step s s' -> owned R s -> owned R s'.
Proof.
  intros Hstep. destruct Hstep as
    [p p' port H Hop|p p' e H Hop|p p' port H Hop|p p' port e H Hop|p p' port H Hin Hop];
    intros (Hwf & HR & Hd & Hu).
  - destruct (Acquire_refines _ _ _ Hwf Hop) as (Hwf' & HR' & Hf & Hf').
    unfold owned; split_and!; [done|congruence|set_solver|]. rewrite Hf', <- Hu.
    apply set_eq. intros x. destruct (decide (x = port)); set_solver.
  - destruct (Acquire_refines _ _ _ Hwf Hop) as (Hwf' & HR' & _ & _ & Hf').
    unfold owned; split_and!; [done|congruence|by rewrite Hf'|by rewrite Hf'].
  - destruct (Remove_refines _ _ _ _ Hwf Hop) as (Hwf' & HR' & Hf & Hf').
    unfold owned; split_and!; [done|congruence|set_solver|]. rewrite Hf', <- Hu.
    apply set_eq. intros x. destruct (decide (x = port)); set_solver.
  - destruct (Remove_refines _ _ _ _ Hwf Hop) as (Hwf' & HR' & _ & _ & Hf').
    unfold owned; split_and!; [done|congruence|by rewrite Hf'|by rewrite Hf'].
  - destruct (Release_refines _ _ _ _ Hwf Hop) as (Hwf' & HR' & _ & Hf').
    rewrite decide_True in Hf' by (rewrite HR, <- Hu; set_solver).
    unfold owned; split_and!; [done|congruence|set_solver|]. rewrite Hf', <- Hu.
    apply set_eq. intros x. destruct (decide (x = port)); set_solver.
Qed.

Lemma pp_run_owned R s s' : rtc pp_step s s' -> owned R s -> owned R s'.
Proof. induction 1; eauto using pp_step_owned. Qed.

(** [n] calls of [Acquire] in a row. *)
Fixpoint acquire_n (n : nat) : M PortPool (list Z) :=
  match n with
  | O => ret []
  | S n' => bind PortPool_Acquire (fun port =>
            bind (acquire_n n') (fun ports => ret (port :: ports)))
  end.

Lemma acquire_n_prefix l1 : forall p l2,
  pp_pool p = l1 ++ l2 -> acquire_n (length l1) p = (Ok l1, set_pool p l2).
Proof.
  induction l1 as [|x l1 IH]; intros p l2 Hp; cbn.
  - unfold ret. f_equal. destruct p. cbn in *. by subst.
  - unfold bind, PortPool_Acquire. rewrite Hp. cbn.
    by rewrite (IH (set_pool p (l1 ++ l2)) l2).
Qed.

(** ** Properties *)

(** A range that does not wrap around is accepted only when it ends below 65536. *)
Lemma New_accepted start size st p : 0 <= start -> 0 <= size -> start + size < 2 ^ 32 ->
  PortPool_New start size st = Ok p -> start + size <= 65535.
Proof.
  intros Hs Hz Hw. unfold PortPool_New. rewrite u32_small by (unfold is_u32; lia). by destruct (Z.ltb_spec 65535 (start + size)).
Qed.

(** C15: in every run of a pool that [New] accepted on a range whose end
    [start + size] does not wrap around in 32 bits, the free ports and the ports
    held by clients are disjoint and together are the whole configured range: no
    port is ever handed out twice and none is lost. The condition is needed, as
    [New] checks the end after it has wrapped around: a range for which it does
    wrap is accepted, with a pool of copies of port 0
    ([New_accepts_wrapped_range]). *)
Theorem port_ownership start size st p0 p H :
  0 <= start -> 0 <= size -> start + size < 2 ^ 32 -> 0 <= Offset st ->
  PortPool_New start size st = Ok p0 ->
  rtc pp_step (p0, ∅) (p, H) ->
  NoDup (pp_pool p) /\ free p ## H /\
  (forall port, port ∈ free p \/ port ∈ H <-> start <= port < start + size).
Proof.
  intros Hs Hz Hw Ho Hnew Hrun. pose proof (New_accepted _ _ _ _ Hs Hz Hw Hnew) as Hr. destruct (New_wf _ _ _ _ Hs Hz Hr Ho Hnew) as [Hwf Hfree].
  assert (Hown : owned (range p0) (p, H)).
  { eapply pp_run_owned; [exact Hrun|]. unfold owned; split_and!; [done|done|set_solver|]. rewrite Hfree. set_solver. }
  destruct Hown as (Hwf' & HR & Hd & Hu). split; [apply Hwf'|]. split; [done|].
  intros port. rewrite <- elem_of_union, Hu, elem_of_range by done. unfold in_range.
  rewrite New_ports in Hnew by done. by injection Hnew as <-.
Qed.

Lemma port_ownership_witness :
  exists p0 p, PortPool_New 60000 3 (mkState 1) = Ok p0 /\
  rtc pp_step (p0, ∅) (p, {[60001]} ∪ ∅) /\
  (60002 ∈ free p \/ 60002 ∈ ({[60001]} ∪ ∅ : gset Z) <-> 60000 <= 60002 < 60000 + 3).
Proof.
  eexists _, _. split; [vm_compute; reflexivity|].
  assert (Hrun : rtc pp_step
    ({| pp_start := 60000; pp_size := 3; pp_pool := [60001; 60002; 60000]; pp_state := mkState 0 |}, ∅)
    ({| pp_start := 60000; pp_size := 3; pp_pool := [60002; 60000]; pp_state := mkState 0 |}, {[60001]} ∪ ∅)).
  { apply rtc_once. by apply step_acquire. }
  split; [exact Hrun|].
  refine (proj2 (proj2 (port_ownership 60000 3 (mkState 1) _ _ _ _ _ _ _ _ Hrun)) 60002);
    [lia|lia|lia|cbn; lia|vm_compute; reflexivity].
Defined.

(** C16: the slice operations implement the abstract pool of free ports:
    [Acquire] removes a free port or reports exhaustion exactly when none is
    free, [Remove] takes a given free port or reports it taken, and [Release]
    returns a port of the range and ignores any other; all keep the pool
    well-formed. *)
Theorem port_pool_refines p :
  pp_wf p ->
  (forall r p', PortPool_Acquire p = (r, p') -> pp_wf p' /\ AcquireSpec (free p) r (free p')) /\
  (forall port r p', PortPool_Remove port p = (r, p') ->
     pp_wf p' /\ RemoveSpec port (free p) r (free p')) /\
  (forall port r p', PortPool_Release port p = (r, p') ->
     pp_wf p' /\ ReleaseSpec (range p) port (free p) r (free p')).
Proof.
  intros Hwf. split_and!; intros.
  - by destruct (Acquire_refines p r p') as (? & ? & ?).
  - by destruct (Remove_refines port p r p') as (? & ? & ?).
  - by destruct (Release_refines port p r p') as (? & ? & ?).
Qed.

Definition sample_pool : PortPool :=
  {| pp_start := 100; pp_size := 2; pp_pool := [101; 100]; pp_state := mkState 0 |}.

Lemma sample_pool_wf : pp_wf sample_pool.
Proof.
  split; cbn; [lia|lia|lia| |].
  - apply NoDup_cons; split; [set_solver|apply NoDup_singleton].
  - repeat constructor; cbn; lia.
Qed.

Lemma port_pool_refines_witness :
  pp_wf (set_pool sample_pool [100]) /\ AcquireSpec (free sample_pool) (Ok 101) (free (set_pool sample_pool [100])).
Proof. apply (proj1 (port_pool_refines sample_pool sample_pool_wf)). reflexivity. Defined.

(** Ports are reused in first-in first-out order: after a held port is
    released, every port that was free at that moment is handed out before it. *)
Theorem port_release_fifo p port :
  pp_wf p -> in_range p port -> port ∉ pp_pool p ->
  exists p', PortPool_Release port p = (Ok tt, p') /\
    acquire_n (S (length (pp_pool p))) p' = (Ok (pp_pool p ++ [port]), set_pool p []).
Proof.
  intros Hwf Hr Hn. unfold PortPool_Release. rewrite wf_limit by done. unfold in_range in Hr.
  destruct (Z.ltb_spec port (pp_start p)); [lia|].
  destruct (Z.leb_spec (pp_start p + pp_size p) port); [lia|]. cbn [orb].
  rewrite (proj2 (find_port_None port (pp_pool p)) Hn).
  eexists. split; [done|].
  replace (S (length (pp_pool p))) with (length (pp_pool p ++ [port])) by (rewrite length_app; cbn; lia).
  rewrite (acquire_n_prefix _ _ []); [done|]. cbn. by rewrite app_nil_r.
Qed.

Lemma port_release_fifo_witness :
  exists p', PortPool_Release 100 (set_pool sample_pool [101]) = (Ok tt, p') /\
    acquire_n 2 p' = (Ok [101; 100], set_pool sample_pool []).
Proof.
  apply (port_release_fifo (set_pool sample_pool [101]) 100).
  - split; cbn; [lia|lia|lia|apply NoDup_singleton|repeat constructor; cbn; lia].
  - split; cbn; lia.
  - cbn. set_solver.
Defined.

(** A pool rebuilt by [New] from the saved state hands out next the port the old
    pool would have handed out next. *)
Lemma port_state_next p port rest q :
  pp_wf p -> pp_pool p = port :: rest ->
  PortPool_New (pp_start p) (pp_size p) (mkState (u32 (port - pp_start p))) = Ok q ->
  fst (PortPool_Acquire q) = Ok port.
Proof.
  intros Hwf Hp Hnew. pose proof (wf_range _ Hwf) as Hr. rewrite Hp in Hr. apply Forall_cons in Hr as [Hr _].
  destruct Hwf as [W1 W2 W3 _ _]. unfold in_range in Hr.
  rewrite u32_small in Hnew by (unfold is_u32; lia).
  rewrite New_ports in Hnew by (cbn; lia). injection Hnew as <-.
  unfold first_offset, Offset. destruct (Z.leb_spec (pp_size p) (port - pp_start p)); [lia|].
  replace (Z.to_nat (pp_size p - (port - pp_start p)))
    with (S (Z.to_nat (pp_size p - (port - pp_start p) - 1))) by lia.
  rewrite ports_from_cons. cbn. f_equal. lia.
Qed.

(** The saved state resumes the allocation: a pool rebuilt by [New] from the
    [State] that [RefreshState] returned hands out next the port the old pool
    would have handed out next. *)
Theorem port_state_resumes p port rest p' st q :
  pp_wf p -> pp_pool p = port :: rest ->
  PortPool_RefreshState p = (Ok st, p') ->
  PortPool_New (pp_start p) (pp_size p) st = Ok q ->
  fst (PortPool_Acquire q) = Ok port.
Proof.
  intros Hwf Hp Href. unfold PortPool_RefreshState in Href. rewrite Hp in Href. injection Href as <- <-. by apply (port_state_next p port rest).
Qed.

Lemma port_state_resumes_witness :
  exists q, PortPool_New 100 2 (mkState 1) = Ok q /\ fst (PortPool_Acquire q) = Ok 101.
Proof.
  eexists. split; [vm_compute; reflexivity|].
  eapply (port_state_resumes sample_pool 101 [100]);
    [apply sample_pool_wf|reflexivity|vm_compute; reflexivity|vm_compute; reflexivity].
Defined.

(** The range check of [New] is made after 32-bit wrap-around, so a range
    that passes the end of [uint32] is accepted, and the pool it builds holds
    [size] copies of port 0. *)
Theorem New_accepts_wrapped_range start size st :
  is_u32 start -> is_u32 size -> 4294967296 <= start + size <= 4294967296 + 65535 ->
  65535 < start -> Offset st = 0 ->
  PortPool_New start size st =
    Ok {| pp_start := start; pp_size := size; pp_pool := replicate (Z.to_nat size) 0;
          pp_state := mkState 0 |}.
Proof.
  intros Hs Hz Hr Hb Ho. unfold is_u32 in *. unfold PortPool_New.
  assert (Hw : u32 (start + size) = start + size - 4294967296).
  { unfold u32. symmetry. apply (Z.mod_unique_pos _ _ 1); lia. }
  rewrite Hw. destruct (Z.ltb_spec 65535 (start + size - 4294967296)); [lia|].
  assert (Hoff : Offset (if size <=? Offset st then mkState 0 else st) = 0)
    by (destruct (size <=? Offset st); done).
  rewrite Hoff, Z.add_0_r, u32_small by (unfold is_u32; lia).
  rewrite fill_empty by lia. cbn [res_bind]. rewrite fill_empty by lia. done.
Qed.

Lemma New_accepts_wrapped_range_witness :
  PortPool_New 4294967290 20 (mkState 0) =
    Ok {| pp_start := 4294967290; pp_size := 20; pp_pool := replicate 20 0; pp_state := mkState 0 |}.
Proof.
  apply (New_accepts_wrapped_range 4294967290 20 (mkState 0)); unfold is_u32; cbn; lia.
Defined.
