(* ===== verification/GoNet.v ===== *)
(** * Go's [net.IP], [net.IPMask] and [net.IPNet]

    Addresses and masks are byte slices ([list Z], each byte below 256; the nil
    slice is the empty list), with the documented behaviour of the package's
    functions that garden-linux calls: 4-byte and 16-byte forms of an IPv4
    address, [Equal], [Contains], [Mask], [Size], textual forms and parsers. *)
From S2P Require Import Prelude GoStrings.
From Stdlib Require Import Ascii.

Notation IP := (list Z) (only parsing).

Record IPNet := mkIPNet { net_IP : IP; net_Mask : list Z }.

#[export] Instance IPNet_eq_dec : EqDecision IPNet.
Proof. solve_decision. Defined.

Definition v4InV6Prefix : list Z := replicate 10 0 ++ [255; 255].

Definition To4 (ip : IP) : option IP :=
  if decide (length ip = 4%nat) then Some ip
  else if decide (length ip = 16%nat /\ take 12 ip = v4InV6Prefix) then Some (drop 12 ip)
  else None.

(** [To16] of a slice that is no address is the nil slice. *)
Definition To16 (ip : IP) : IP :=
  if decide (length ip = 4%nat) then v4InV6Prefix ++ ip
  else if decide (length ip = 16%nat) then ip else [].

Definition IP_Equal (a b : IP) : bool :=
  if decide (length a = length b) then bool_decide (a = b)
  else if decide (length a = 4%nat /\ length b = 16%nat) then bool_decide (b = v4InV6Prefix ++ a)
  else if decide (length a = 16%nat /\ length b = 4%nat) then bool_decide (a = v4InV6Prefix ++ b)
  else false.

(** The number of leading one bits of a byte, and what is left of it. *)
Fixpoint leading_ones (fuel : nat) (v : Z) : Z * Z :=
  match fuel with
  | O => (0, v)
  | S fuel' => if Z.testbit v 7 then let '(n, w) := leading_ones fuel' (u8 (Z.shiftl v 1)) in (n + 1, w)
               else (0, v)
  end.

Fixpoint simpleMaskLength (m : list Z) : Z :=
  match m with
  | [] => 0
  | v :: m' =>
      if v =? 255 then
        let n := simpleMaskLength m' in if n =? -1 then -1 else 8 + n
      else
        let '(n, w) := leading_ones 8 v in
        if (w =? 0) && forallb (fun b => b =? 0) m' then n else -1
  end.

Definition Mask_Size (m : list Z) : Z * Z :=
  let ones := simpleMaskLength m in
  if ones =? -1 then (0, 0) else (ones, Z.of_nat (length m) * 8).

Fixpoint mask_bytes (l : nat) (n : Z) : list Z :=
  match l with
  | O => []
  | S l' => if 8 <=? n then 255 :: mask_bytes l' (n - 8)
            else Z.lxor 255 (Z.shiftr 255 n) :: mask_bytes l' 0
  end.

Definition CIDRMask (ones bits : Z) : list Z :=
  if negb ((bits =? 32) || (bits =? 128)) || (ones <? 0) || (bits <? ones) then []
  else mask_bytes (Z.to_nat (bits / 8)) ones.

Definition IP_Mask (ip : IP) (mask : list Z) : IP :=
  let mask := if decide (length mask = 16%nat /\ length ip = 4%nat /\ take 12 mask = replicate 12 255)
              then drop 12 mask else mask in
  let ip := if decide (length mask = 4%nat /\ length ip = 16%nat /\ take 12 ip = v4InV6Prefix)
            then drop 12 ip else ip in
  if decide (length ip = length mask) then zip_with Z.land ip mask else [].

(** [networkNumberAndMask]; the pair of nil slices on a malformed network. *)
Definition networkNumberAndMask (n : IPNet) : IP * list Z :=
  let ip := match To4 (net_IP n) with
            | Some x => x
            | None => if decide (length (net_IP n) = 16%nat) then net_IP n else []
            end in
  let m := net_Mask n in
  if decide (ip = []) then ([], [])
  else if decide (length m = 4%nat) then if decide (length ip = 4%nat) then (ip, m) else ([], [])
  else if decide (length m = 16%nat) then if decide (length ip = 4%nat) then (ip, drop 12 m) else (ip, m)
  else ([], []).

Definition IPNet_Contains (n : IPNet) (ip : IP) : bool :=
  let '(nn, m) := networkNumberAndMask n in
  let ip := default ip (To4 ip) in
  if decide (length ip = length nn)
  then bool_decide (zip_with Z.land nn m = zip_with Z.land ip m) else false.

(** ** Text *)

Definition dotted (ip : IP) : string := join "." ((fun b => FormatUint b 10) <$> ip).

(** The eight 16-bit groups of a 16-byte address. *)
Fixpoint groups (ip : list Z) : list Z :=
  match ip with
  | a :: b :: ip' => Z.lor (Z.shiftl a 8) b :: groups ip'
  | _ => []
  end.

Fixpoint zero_run (gs : list Z) : nat :=
  match gs with
  | 0 :: gs' => S (zero_run gs')
  | _ => O
  end.

(** The first longest run of zero groups: its position and its length. *)
Fixpoint longest_run (i : nat) (gs : list Z) (best : nat * nat) : nat * nat :=
  match gs with
  | [] => best
  | _ :: gs' =>
      let r := zero_run gs in
      longest_run (S i) gs' (if decide (best.2 < r)%nat then (i, r) else best)
  end.

Definition hex_groups (gs : list Z) : string := join ":" ((fun g => FormatUint g 16) <$> gs).

Definition string6 (ip : IP) : string :=
  let gs := groups ip in
  let '(e0, r) := longest_run 0 gs (O, O) in
  if decide (r <= 1)%nat then hex_groups gs
  else hex_groups (take e0 gs) +:+ "::" +:+ hex_groups (drop (e0 + r) gs).

Fixpoint hex_bytes (l : list Z) : string :=
  match l with
  | [] => ""
  | b :: l' => String (digit_char (b / 16)) (String (digit_char (b mod 16)) (hex_bytes l'))
  end.

Definition IP_String (ip : IP) : string :=
  if decide (ip = []) then "<nil>"
  else match To4 ip with
       | Some p4 => dotted p4
       | None => if decide (length ip = 16%nat) then string6 ip else "?" +:+ hex_bytes ip
       end.

Definition IPNet_String (n : IPNet) : string :=
  let '(nn, m) := networkNumberAndMask n in
  if decide (nn = []) then "<nil>"
  else
    let l := simpleMaskLength m in
    if l =? -1 then IP_String nn +:+ "/" +:+ hex_bytes m
    else IP_String nn +:+ "/" +:+ FormatUint l 10.

(** ** Parsers *)

(** [dtoi] and [xtoi]: the number at the front of the text and what follows it;
    [None] when there is no digit or the number is 0xFFFFFF or more. *)
Fixpoint scan_number (base : Z) (s : string) (n : Z) (seen : bool) : option (Z * string) :=
  match s with
  | "" => if seen then Some (n, s) else None
  | String c s' =>
      let d := digit_val c in
      if d <? base then
        let n := n * base + d in
        if 16777215 <=? n then None else scan_number base s' n true
      else if seen then Some (n, s) else None
  end.

Definition dtoi (s : string) : option (Z * string) := scan_number 10 s 0 false.
Definition xtoi (s : string) : option (Z * string) := scan_number 16 s 0 false.

(** [parseIPv4], without the conversion to the 16-byte form. *)
Fixpoint parse_octets (k : nat) (first : bool) (s : string) : option (list Z * string) :=
  match k with
  | O => Some ([], s)
  | S k' =>
      let digits_of t :=
        match dtoi t with
        | Some (n, rest) =>
            if 255 <? n then None
            else match parse_octets k' false rest with
                 | Some (l, rest') => Some (n :: l, rest')
                 | None => None
                 end
        | None => None
        end in
      if first then digits_of s
      else match s with
           | String "." t => digits_of t
           | _ => None
           end
  end.

Definition parseIPv4 (s : string) : option IP :=
  match parse_octets 4 true s with
  | Some (l, "") => Some (v4InV6Prefix ++ l)
  | _ => None
  end.

(** The loop of [parseIPv6]: [acc] holds the bytes parsed so far, [ell] the
    position of the ellipsis. *)
Fixpoint parse6_loop (fuel : nat) (s : string) (acc : list Z) (ell : option nat)
  : option (list Z * option nat) :=
  match fuel with
  | O => if decide (s = "") then Some (acc, ell) else None
  | S fuel' =>
      match xtoi s with
      | None => None
      | Some (n, rest) =>
          if 65535 <? n then None
          else match rest with
          | String "." _ =>
              if bool_decide (ell = None) && negb (bool_decide (length acc = 12%nat)) then None
              else if decide (16 < length acc + 4)%nat then None
              else match parse_octets 4 true s with
                   | Some (l, "") => Some (acc ++ l, ell)
                   | _ => None
                   end
          | "" => Some (acc ++ [n / 256; n mod 256], ell)
          | String ":" "" => None
          | String ":" (String ":" t) =>
              let acc := acc ++ [n / 256; n mod 256] in
              match ell with
              | Some _ => None
              | None => if decide (t = "") then Some (acc, Some (length acc))
                        else parse6_loop fuel' t acc (Some (length acc))
              end
          | String ":" t => parse6_loop fuel' t (acc ++ [n / 256; n mod 256]) ell
          | _ => None
          end
      end
  end.

Definition expand6 (acc : list Z) (ell : option nat) : option IP :=
  match ell with
  | None => if decide (length acc = 16%nat) then Some acc else None
  | Some e =>
      if decide (length acc < 16)%nat
      then Some (take e acc ++ replicate (16 - length acc) 0 ++ drop e acc) else None
  end.

Definition parseIPv6 (s : string) : option IP :=
  match s with
  | String ":" (String ":" t) =>
      if decide (t = "") then Some (replicate 16 0)
      else match parse6_loop 8 t [] (Some O) with
           | Some (acc, ell) => expand6 acc ell
           | None => None
           end
  | _ => match parse6_loop 8 s [] None with
         | Some (acc, ell) => expand6 acc ell
         | None => None
         end
  end.

(** [net.ParseIP]: nil on text that is no address. *)
Definition ParseIP (s : string) : IP :=
  match parseIPv4 s with
  | Some ip => ip
  | None => default [] (parseIPv6 s)
  end.

Definition ParseCIDR (s : string) : result (IP * IPNet) :=
  match cut "/" s with
  | (_, None) => Err (Errorf ("invalid CIDR address: " +:+ s))
  | (ipstr, Some maskstr) =>
      let '(iplen, ip) := match parseIPv4 ipstr with
                          | Some ip => (4, Some ip)
                          | None => (16, parseIPv6 ipstr)
                          end in
      match ip, dtoi maskstr with
      | Some ip, Some (n, "") =>
          if 8 * iplen <? n then Err (Errorf ("invalid CIDR address: " +:+ s))
          else let m := CIDRMask n (8 * iplen) in Ok (ip, mkIPNet (IP_Mask ip m) m)
      | _, _ => Err (Errorf ("invalid CIDR address: " +:+ s))
      end
  end.

(** The textual forms on samples of the package documentation. *)
Example ParseCIDR_sample :
  ParseCIDR "192.0.2.1/24" =
  Ok (v4InV6Prefix ++ [192; 0; 2; 1], mkIPNet [192; 0; 2; 0] [255; 255; 255; 0]).
Proof. vm_compute. reflexivity. Qed.

Example ParseCIDR_sample6 :
  IPNet_String <$> (match ParseCIDR "2001:db8:a0b:12f0::1/32" with Ok (_, n) => Some n | _ => None end)
  = Some "2001:db8::/32".
Proof. vm_compute. reflexivity. Qed.

Example IP_String_samples :
  IP_String <$> (ParseIP <$> ["10.0.0.255"; "::1"; "fe80::1:0:0:2"; "1:0:0:2:0:0:0:3"; "::ffff:1.2.3.4"; "x"])
  = ["10.0.0.255"; "::1"; "fe80::1:0:0:2"; "1:0:0:2::3"; "1.2.3.4"; "<nil>"].
Proof. vm_compute. reflexivity. Qed.
