(* ===== verification/IPv4.v ===== *)
(** * IPv4 addresses as integers

    The facts about 4-byte addresses and CIDR networks that the subnet pool's
    theorems rest on: an address is a 32-bit integer, a canonical network an
    aligned interval, [Contains] membership in it, and the textual forms are
    injective and parse back. *)
From S2P Require Import Prelude GoStrings GoNet.
From Stdlib Require Import Ascii.

(** ** Bytes and values *)

(** The big-endian value of a byte slice. *)
Definition be (l : list Z) : Z := fold_digits 256 l 0.

Definition bytes (l : list Z) : Prop := Forall is_u8 l.

Definition bytes4 (z : Z) : list Z :=
  [z / 16777216 mod 256; z / 65536 mod 256; z / 256 mod 256; z mod 256].

Lemma be_snoc l b : be (l ++ [b]) = be l * 256 + b.
Proof. unfold be, fold_digits. by rewrite fold_left_app. Qed.

Lemma be_range l : bytes l -> 0 <= be l < 256 ^ Z.of_nat (length l).
Proof.
  induction l as [|b l IH] using rev_ind; intros Hb; [cbn; lia|].
  apply Forall_app in Hb as [Hl Hb]. rewrite Forall_singleton in Hb. unfold is_u8 in Hb.
  rewrite be_snoc, length_app, Nat2Z.inj_add, Z.pow_add_r by lia. specialize (IH Hl).
  change (256 ^ Z.of_nat (length [b])) with 256. lia.
Qed.

Lemma be_inj l1 l2 : bytes l1 -> bytes l2 -> length l1 = length l2 -> be l1 = be l2 -> l1 = l2.
Proof.
  revert l2. induction l1 as [|b1 l1 IH] using rev_ind; intros l2 H1 H2 Hlen Hbe.
  { destruct l2; [done|discriminate]. }
  destruct l2 as [|b2 l2 _] using rev_ind; [rewrite length_app in Hlen; cbn in Hlen; lia|].
  apply Forall_app in H1 as [Hl1 Hb1]. apply Forall_app in H2 as [Hl2 Hb2].
  rewrite Forall_singleton in Hb1. rewrite Forall_singleton in Hb2. unfold is_u8 in *.
  rewrite !be_snoc in Hbe. rewrite !length_app in Hlen. cbn in Hlen.
  assert (b1 = b2) as -> by lia. f_equal. apply IH; [done|done|lia|lia].
Qed.

Lemma bytes4_bytes z : bytes (bytes4 z).
Proof.
  unfold bytes, bytes4.
  repeat first [apply Forall_cons; split | apply Forall_nil]; try done; apply Z.mod_pos_bound; lia.
Qed.

Lemma be4 a b c d : be [a; b; c; d] = a * 16777216 + b * 65536 + c * 256 + d.
Proof. unfold be, fold_digits. cbn. lia. Qed.

Lemma be_bytes4 z : is_u32 z -> be (bytes4 z) = z.
Proof.
  intros Hz. unfold is_u32 in Hz. unfold bytes4. rewrite be4.
  Z.to_euclidean_division_equations. lia.
Qed.

Lemma bytes4_be l : bytes l -> length l = 4%nat -> bytes4 (be l) = l.
Proof.
  intros Hb Hl. apply be_inj; [apply bytes4_bytes|done|done|].
  apply be_bytes4. pose proof (be_range l Hb) as H. rewrite Hl in H. exact H.
Qed.

(** ** Masks *)

Lemma byte_high b n : 0 <= b < 256 -> 8 <= n -> Z.testbit b n = false.
Proof.
  intros Hb Hn. destruct (decide (b = 0)) as [->|]; [apply Z.bits_0|].
  apply Z.bits_above_log2; [lia|]. apply Z.lt_le_trans with 8; [apply Z.log2_lt_pow2; lia|lia].
Qed.

(** Appending a byte is a shift and an or. *)
Lemma byte_lor v b : 0 <= b < 256 -> v * 256 + b = Z.lor (Z.shiftl v 8) b.
Proof.
  intros Hb. assert (Hz : Z.land (Z.shiftl v 8) b = 0).
  { apply Z.bits_inj'. intros n Hn. rewrite Z.land_spec, Z.bits_0.
    destruct (Z.ltb_spec n 8); [by rewrite Z.shiftl_spec_low by lia|].
    by rewrite (byte_high b), andb_false_r by lia. }
  rewrite <- Z.lxor_lor, <- Z.add_nocarry_lxor by done. by rewrite Z.shiftl_mul_pow2 by lia.
Qed.

Lemma byte_land a b : 0 <= b < 256 -> 0 <= Z.land a b < 256.
Proof.
  intros Hb. assert (Hm : Z.land b (Z.ones 8) = b) by (rewrite Z.land_ones by lia; apply Z.mod_small; lia).
  rewrite <- Hm, Z.land_assoc, Z.land_ones by lia. apply Z.mod_pos_bound. lia.
Qed.

Lemma byte_lor_range a b : 0 <= a < 256 -> 0 <= b < 256 -> 0 <= Z.lor a b < 256.
Proof.
  intros Ha Hb. assert (Hm : Z.land (Z.lor a b) (Z.ones 8) = Z.lor a b).
  { rewrite Z.land_lor_distr_l, !Z.land_ones by lia. by rewrite !Z.mod_small by lia. }
  rewrite <- Hm, Z.land_ones by lia. apply Z.mod_pos_bound. lia.
Qed.

(** A bitwise operation on the bytes is the operation on the values. *)
Lemma be_zip f l1 l2 :
  f 0 0 = 0 ->
  (forall v1 b1 v2 b2, 0 <= b1 < 256 -> 0 <= b2 < 256 ->
     f (v1 * 256 + b1) (v2 * 256 + b2) = f v1 v2 * 256 + f b1 b2) ->
  bytes l1 -> bytes l2 -> length l1 = length l2 ->
  be (zip_with f l1 l2) = f (be l1) (be l2).
Proof.
  intros H0 Hf. revert l2. induction l1 as [|b1 l1 IH] using rev_ind; intros l2 H1 H2 Hlen.
  { by destruct l2. }
  destruct l2 as [|b2 l2 _] using rev_ind; [rewrite length_app in Hlen; cbn in Hlen; lia|].
  apply Forall_app in H1 as [Hl1 Hb1]. apply Forall_app in H2 as [Hl2 Hb2].
  rewrite Forall_singleton in Hb1, Hb2.
  rewrite !length_app in Hlen. cbn in Hlen. assert (Hlen' : length l1 = length l2) by lia.
  rewrite zip_with_app by done. cbn [zip_with]. rewrite !be_snoc, IH by done. by rewrite Hf.
Qed.

Lemma be_land l1 l2 :
  bytes l1 -> bytes l2 -> length l1 = length l2 ->
  be (zip_with Z.land l1 l2) = Z.land (be l1) (be l2).
Proof.
  apply be_zip; [done|]. intros v1 b1 v2 b2 Hb1 Hb2.
  pose proof (byte_land b1 b2 Hb2) as Hlb. rewrite !byte_lor by done.
  apply Z.bits_inj'. intros n Hn. rewrite !Z.land_spec, !Z.lor_spec, !Z.land_spec.
  destruct (Z.ltb_spec n 8).
  - rewrite !Z.shiftl_spec_low by lia. by rewrite !orb_false_l.
  - rewrite !(byte_high b1), !(byte_high b2) by lia. cbn. rewrite !orb_false_r.
    by rewrite !Z.shiftl_spec, Z.land_spec by lia.
Qed.

Lemma be_lor l1 l2 :
  bytes l1 -> bytes l2 -> length l1 = length l2 ->
  be (zip_with Z.lor l1 l2) = Z.lor (be l1) (be l2).
Proof.
  apply be_zip; [done|]. intros v1 b1 v2 b2 Hb1 Hb2.
  pose proof (byte_lor_range b1 b2 Hb1 Hb2) as Hlb. rewrite !byte_lor by done.
  rewrite Z.shiftl_lor. apply Z.bits_inj'. intros n Hn. rewrite !Z.lor_spec.
  by destruct (Z.testbit (Z.shiftl v1 8) n), (Z.testbit b1 n), (Z.testbit (Z.shiftl v2 8) n).
Qed.

Lemma land_mask x k : is_u32 x -> 0 <= k <= 32 -> Z.land x (2 ^ 32 - 2 ^ k) = x / 2 ^ k * 2 ^ k.
Proof.
  intros Hx Hk.
  replace (2 ^ 32 - 2 ^ k) with (Z.ldiff (Z.ones 32) (Z.ones k)).
  - rewrite <- Z.shiftr_div_pow2, <- Z.shiftl_mul_pow2 by lia.
    rewrite <- Z.ldiff_ones_r by lia.
    apply Z.bits_inj'. intros n Hn. rewrite Z.land_spec, !Z.ldiff_spec.
    destruct (Z.ltb_spec n 32).
    + rewrite (Z.ones_spec_low 32) by lia. by destruct (Z.testbit x n).
    + rewrite (Z.bits_above_log2 x); [done|unfold is_u32 in Hx; lia|].
      destruct (decide (x = 0)) as [->|]; [cbn; lia|].
      apply Z.lt_le_trans with 32; [apply Z.log2_lt_pow2; unfold is_u32 in Hx; lia|lia].
  - rewrite Z.ldiff_ones_r by lia. rewrite Z.shiftl_mul_pow2, Z.shiftr_div_pow2 by lia.
    rewrite Z.ones_equiv.
    replace (Z.pred (2 ^ 32)) with ((2 ^ (32 - k) - 1) * 2 ^ k + (2 ^ k - 1)).
    + assert (0 < 2 ^ k) by (apply Z.pow_pos_nonneg; lia).
      rewrite Z.div_add_l, (Z.div_small (2 ^ k - 1)) by lia.
      rewrite Z.add_0_r, Z.mul_sub_distr_r, <- Z.pow_add_r by lia.
      replace (32 - k + k) with 32 by lia. lia.
    + rewrite Z.mul_sub_distr_r, <- Z.pow_add_r by lia. replace (32 - k + k) with 32 by lia. lia.
Qed.

Lemma prefix_cases (P : Z -> Prop) :
  (forall k, (k <= 32)%nat -> P (Z.of_nat k)) -> forall p, 0 <= p <= 32 -> P p.
Proof. intros H p Hp. rewrite <- (Z2Nat.id p) by lia. apply H. lia. Qed.

Definition mask_ok (p : Z) : bool :=
  let m := CIDRMask p 32 in
  (be m =? 2 ^ 32 - 2 ^ (32 - p)) && forallb (fun b => (0 <=? b) && (b <? 256)) m
  && (Nat.eqb (length m) 4) && (simpleMaskLength m =? p)
  && (be (Z.lxor 255 <$> m) =? 2 ^ (32 - p) - 1)
  && forallb (fun b => (0 <=? Z.lxor 255 b) && (Z.lxor 255 b <? 256)) m.

Lemma mask_ok_all : forallb (fun k => mask_ok (Z.of_nat k)) (seq 0 33) = true.
Proof. vm_compute. reflexivity. Qed.

(** The mask of a prefix length: its value, its bytes, and the length read back. *)
Lemma CIDRMask_32 p : 0 <= p <= 32 ->
  be (CIDRMask p 32) = 2 ^ 32 - 2 ^ (32 - p) /\ bytes (CIDRMask p 32) /\
  length (CIDRMask p 32) = 4%nat /\ simpleMaskLength (CIDRMask p 32) = p.
Proof.
  revert p. apply prefix_cases. intros k Hk.
  pose proof mask_ok_all as Hall. rewrite forallb_forall in Hall.
  specialize (Hall k ltac:(apply in_seq; lia)). unfold mask_ok in Hall.
  rewrite !andb_true_iff, Z.eqb_eq, forallb_forall, Nat.eqb_eq, Z.eqb_eq in Hall.
  destruct Hall as [[[[[H1 H2] H3] H4] _] _]. split_and!; [done| |done|done].
  apply Forall_forall. intros b Hb. specialize (H2 b ltac:(by apply list_elem_of_In)).
  unfold is_u8. lia.
Qed.

(** The complement of the mask is the host part. *)
Lemma CIDRMask_host p : 0 <= p <= 32 ->
  be (Z.lxor 255 <$> CIDRMask p 32) = 2 ^ (32 - p) - 1 /\ bytes (Z.lxor 255 <$> CIDRMask p 32).
Proof.
  revert p. apply prefix_cases. intros k Hk.
  pose proof mask_ok_all as Hall. rewrite forallb_forall in Hall.
  specialize (Hall k ltac:(apply in_seq; lia)). unfold mask_ok in Hall.
  rewrite !andb_true_iff in Hall. destruct Hall as [[_ H1] H2].
  rewrite Z.eqb_eq in H1. rewrite forallb_forall in H2. split; [done|].
  apply Forall_fmap, Forall_forall. intros b Hb. specialize (H2 b ltac:(by apply list_elem_of_In)).
  unfold is_u8, compose. lia.
Qed.

(** ** Addresses and networks *)

(** [ip] is a form, 4-byte or 16-byte, of the IPv4 address [z]. *)
Definition is4 (ip : IP) (z : Z) : Prop :=
  is_u32 z /\ (ip = bytes4 z \/ ip = v4InV6Prefix ++ bytes4 z).

(** The network of the [2 ^ (32 - p)] addresses from [b] on, in the form
    [net.ParseCIDR] returns. *)
Definition net4 (b p : Z) : IPNet := mkIPNet (bytes4 b) (CIDRMask p 32).

Definition canonical (b p : Z) : Prop :=
  0 <= p <= 32 /\ is_u32 b /\ b mod 2 ^ (32 - p) = 0.

Definition net_size (p : Z) : Z := 2 ^ (32 - p).

Lemma net_size_pos p : p <= 32 -> 0 < net_size p.
Proof. intros. apply Z.pow_pos_nonneg; lia. Qed.

Lemma length_bytes4 z : length (bytes4 z) = 4%nat.
Proof. done. Qed.

Lemma bytes4_inj x y : is_u32 x -> is_u32 y -> bytes4 x = bytes4 y -> x = y.
Proof. intros Hx Hy Heq. by rewrite <- (be_bytes4 x), <- (be_bytes4 y), Heq. Qed.

Lemma is4_4 z : is_u32 z -> is4 (bytes4 z) z.
Proof. by split; [|left]. Qed.

Lemma is4_16 z : is_u32 z -> is4 (To16 (bytes4 z)) z.
Proof. by split; [|right]. Qed.

Lemma is4_fun ip x y : is4 ip x -> is4 ip y -> x = y.
Proof.
  intros [Hx [->| ->]] [Hy [Heq|Heq]]; try (apply (f_equal length) in Heq; discriminate).
  - by apply bytes4_inj.
  - apply (inj (v4InV6Prefix ++.)) in Heq. by apply bytes4_inj.
Qed.

Lemma To4_is4 ip z : is4 ip z -> To4 ip = Some (bytes4 z).
Proof. intros [_ [->| ->]]; done. Qed.

Lemma Equal_is4 a b x y : is4 a x -> is4 b y -> IP_Equal a b = bool_decide (x = y).
Proof.
  intros Ha Hb. assert (Hxy : forall u v, is_u32 u -> is_u32 v ->
    (bytes4 u = bytes4 v <-> u = v)) by (intros u v Hu Hv; split; [by apply bytes4_inj|congruence]).
  destruct Ha as [Hx [->| ->]], Hb as [Hy [->| ->]]; unfold IP_Equal.
  - rewrite decide_True by done. apply bool_decide_ext, Hxy; done.
  - rewrite decide_False, decide_True by done. apply bool_decide_ext.
    rewrite <- (Hxy x y) by done. split; [by intros ?%(inj (v4InV6Prefix ++.))|congruence].
  - rewrite decide_False, decide_False, decide_True by (cbn; lia || done). apply bool_decide_ext.
    rewrite <- (Hxy x y) by done. split; [by intros ?%(inj (v4InV6Prefix ++.))|congruence].
  - rewrite decide_True by done. apply bool_decide_ext. rewrite <- (Hxy x y) by done.
    split; [by intros ?%(inj (v4InV6Prefix ++.))|congruence].
Qed.

Lemma networkNumber_net4 b p : 0 <= p <= 32 ->
  networkNumberAndMask (net4 b p) = (bytes4 b, CIDRMask p 32).
Proof.
  intros Hp. destruct (CIDRMask_32 p Hp) as (_ & _ & Hl & _).
  unfold networkNumberAndMask, net4, net_IP, net_Mask. cbn [To4].
  change (To4 (bytes4 b)) with (Some (bytes4 b)). cbv iota beta.
  rewrite decide_False by done. rewrite (decide_True _ _ Hl). by rewrite decide_True.
Qed.

Lemma land_prefix b p : is_u32 b -> 0 <= p <= 32 ->
  be (zip_with Z.land (bytes4 b) (CIDRMask p 32)) = b / net_size p * net_size p.
Proof.
  intros Hb Hp. destruct (CIDRMask_32 p Hp) as (Hv & Hby & Hl & _).
  rewrite be_land, be_bytes4, Hv by (done || apply bytes4_bytes).
  apply land_mask; [done|lia].
Qed.

Lemma bytes_land l m : bytes m -> bytes (zip_with Z.land l m).
Proof.
  intros Hm. revert l. induction Hm as [|b m Hb Hm IH]; intros [|a l]; cbn; try constructor.
  - apply byte_land, Hb.
  - apply IH.
Qed.

Lemma Contains_net4 b p ip z : canonical b p -> is4 ip z ->
  IPNet_Contains (net4 b p) ip = bool_decide (b <= z < b + net_size p).
Proof.
  intros (Hp & Hb & Hal) Hz. pose proof (To4_is4 _ _ Hz) as Ht. destruct Hz as [Hz _].
  destruct (CIDRMask_32 p Hp) as (_ & Hby & Hl & _).
  unfold IPNet_Contains. rewrite networkNumber_net4, Ht by done. cbn [default].
  rewrite decide_True by done. apply bool_decide_ext.
  pose proof (net_size_pos p ltac:(lia)) as Hs. fold (net_size p) in Hal.
  assert (Heq : zip_with Z.land (bytes4 b) (CIDRMask p 32) = zip_with Z.land (bytes4 z) (CIDRMask p 32)
                <-> b / net_size p * net_size p = z / net_size p * net_size p).
  { rewrite <- !land_prefix by done. split; [by intros ->|].
    apply be_inj; [by apply bytes_land|by apply bytes_land|]. by rewrite !length_zip_with. }
  rewrite Heq. pose proof (Z.div_mod b (net_size p) ltac:(lia)) as Db.
  pose proof (Z.div_mod z (net_size p) ltac:(lia)) as Dz.
  pose proof (Z.mod_pos_bound z (net_size p) Hs).
  split; intros; [lia|]. assert (z / net_size p = b / net_size p); [|congruence].
  symmetry. apply (Z.div_unique_pos _ _ _ (z - b)); lia.
Qed.

(** ** Text *)

Lemma scan_number_digits ds rest n seen :
  Forall (fun d => 0 <= d < 10) ds -> 0 <= n -> fold_digits 10 ds n < 16777215 ->
  (ds <> [] \/ seen = true) ->
  (match rest with "" => True | String c _ => 10 <= digit_val c end) ->
  scan_number 10 (string_of_digits ds +:+ rest) n seen = Some (fold_digits 10 ds n, rest).
Proof.
  intros Hds. revert n seen. induction Hds as [|d ds Hd Hds IH]; intros n seen Hn Hb Hne Hr.
  - destruct Hne as [?| ->]; [done|]. change (string_of_digits [] +:+ rest) with rest.
    destruct rest as [|c rest]; [done|]. cbn [scan_number]. by destruct (Z.ltb_spec (digit_val c) 10); [lia|].
  - change (string_of_digits (d :: ds) +:+ rest) with (String (digit_char d) (string_of_digits ds +:+ rest)).
    cbn [scan_number]. rewrite digit_val_char by lia.
    change (fold_digits 10 (d :: ds) n) with (fold_digits 10 ds (n * 10 + d)) in *.
    pose proof (fold_digits_mono 10 ds (n * 10 + d) ltac:(lia) ltac:(lia) Hds).
    destruct (Z.ltb_spec d 10); [|lia]. destruct (Z.leb_spec 16777215 (n * 10 + d)); [lia|].
    apply IH; [lia|done|by right|done].
Qed.

Lemma dtoi_FormatUint n rest :
  0 <= n < 16777215 -> (match rest with "" => True | String c _ => 10 <= digit_val c end) ->
  dtoi (FormatUint n 10 +:+ rest) = Some (n, rest).
Proof.
  intros Hn Hr. unfold dtoi, FormatUint.
  pose proof (FormatUint_value n 10 ltac:(lia) ltac:(lia)) as Hv.
  rewrite scan_number_digits.
  - by rewrite Hv.
  - apply digits_range; [lia|constructor].
  - lia.
  - lia.
  - left. by destruct (digits_cons 10 (Z.to_nat (Z.log2 n)) n []) as (? & ? & ->).
  - done.
Qed.

(** Side conditions of the scanners: a byte value, or a separator. *)
Ltac nondigit := first [lia | done | vm_compute; discriminate].

Lemma dotted4 a b c d :
  dotted [a; b; c; d] = FormatUint a 10 +:+ String "." (FormatUint b 10 +:+ String "."
                          (FormatUint c 10 +:+ String "." (FormatUint d 10 +:+ ""))).
Proof. unfold dotted. cbn [fmap list_fmap join]. by rewrite app_nil_r_string. Qed.

Lemma parse_octets_dotted l rest :
  bytes l -> length l = 4%nat ->
  (match rest with "" => True | String c _ => 10 <= digit_val c end) ->
  parse_octets 4 true (dotted l +:+ rest) = Some (l, rest).
Proof.
  intros Hb Hl Hr. destruct l as [|a [|b [|c [|d [|]]]]]; try discriminate.
  unfold bytes in Hb. rewrite !Forall_cons in Hb. destruct Hb as (Ha & Hb & Hc & Hd & _). unfold is_u8 in *.
  rewrite dotted4, app_nil_r_string. repeat rewrite ?app_assoc_string, ?app_String.
  cbn [parse_octets]. rewrite dtoi_FormatUint by nondigit.
  destruct (Z.ltb_spec 255 a); [lia|]. rewrite dtoi_FormatUint by nondigit.
  destruct (Z.ltb_spec 255 b); [lia|]. rewrite dtoi_FormatUint by nondigit.
  destruct (Z.ltb_spec 255 c); [lia|]. rewrite dtoi_FormatUint by nondigit.
  by destruct (Z.ltb_spec 255 d); [lia|].
Qed.

Lemma parseIPv4_dotted z : parseIPv4 (dotted (bytes4 z)) = Some (v4InV6Prefix ++ bytes4 z).
Proof.
  unfold parseIPv4. rewrite <- (app_nil_r_string (dotted (bytes4 z))).
  by rewrite parse_octets_dotted by (done || apply bytes4_bytes).
Qed.

Lemma IP_String_is4 ip z : is4 ip z -> IP_String ip = dotted (bytes4 z).
Proof.
  intros Hz. unfold IP_String. rewrite (To4_is4 _ _ Hz).
  destruct Hz as [_ [->| ->]]; by rewrite decide_False.
Qed.

(** Equal texts, equal addresses. *)
Lemma IP_String_inj a b x y : is4 a x -> is4 b y -> IP_String a = IP_String b <-> x = y.
Proof.
  intros Ha Hb. rewrite (IP_String_is4 _ _ Ha), (IP_String_is4 _ _ Hb).
  destruct Ha as [Hx _], Hb as [Hy _]. split; [|by intros ->].
  intros Heq. pose proof (parseIPv4_dotted x) as P. rewrite Heq, parseIPv4_dotted in P.
  apply (inj Some), (inj (v4InV6Prefix ++.)) in P. by apply bytes4_inj.
Qed.

Lemma IPNet_String_net4 b p : 0 <= p <= 32 ->
  IPNet_String (net4 b p) = dotted (bytes4 b) +:+ String "/" (FormatUint p 10).
Proof.
  intros Hp. destruct (CIDRMask_32 p Hp) as (_ & _ & _ & Hs).
  unfold IPNet_String. rewrite networkNumber_net4 by done. rewrite decide_False by done.
  rewrite Hs. destruct (Z.eqb_spec p (-1)); [lia|]. unfold IP_String.
  rewrite decide_False by done. done.
Qed.

Lemma dotted_chars c z : 10 <= digit_val c -> c <> "."%char -> c ∉ chars (dotted (bytes4 z)).
Proof.
  intros Hc Hd. pose proof (bytes4_bytes z) as Hb. unfold bytes4 in *.
  unfold bytes in Hb. rewrite !Forall_cons in Hb. unfold is_u8 in Hb. rewrite dotted4.
  change (fun c s => String c s) with String.
  repeat (rewrite chars_app; cbn [chars]).
  repeat rewrite ?not_elem_of_app, ?not_elem_of_cons.
  split_and!; first [done | apply not_elem_of_nil | apply FormatUint_chars; [lia|done]].
Qed.

Lemma IP_Mask_16 z p : is_u32 z -> 0 <= p <= 32 ->
  IP_Mask (v4InV6Prefix ++ bytes4 z) (CIDRMask p 32) = bytes4 (z / net_size p * net_size p).
Proof.
  intros Hz Hp. destruct (CIDRMask_32 p Hp) as (_ & Hby & Hl & _). unfold IP_Mask.
  rewrite (decide_False (P := length (CIDRMask p 32) = 16%nat /\ _)) by (rewrite Hl; lia).
  rewrite (decide_True (P := length (CIDRMask p 32) = 4%nat /\ _)) by done.
  change (drop 12 (v4InV6Prefix ++ bytes4 z)) with (bytes4 z). rewrite decide_True by done.
  rewrite <- land_prefix by done. rewrite bytes4_be; [done|by apply bytes_land|].
  by rewrite length_zip_with, Hl.
Qed.

Lemma canonical_round b p : canonical b p -> b / net_size p * net_size p = b.
Proof.
  intros (Hp & Hb & Hal). pose proof (net_size_pos p ltac:(lia)).
  fold (net_size p) in Hal. rewrite (Z.div_mod b (net_size p)) at 2 by lia. lia.
Qed.

(** Printing a canonical network and parsing it back. *)
Lemma ParseCIDR_net4 b p : canonical b p ->
  ParseCIDR (IPNet_String (net4 b p)) = Ok (v4InV6Prefix ++ bytes4 b, net4 b p).
Proof.
  intros Hc. pose proof Hc as (Hp & Hb & _). rewrite IPNet_String_net4 by done.
  unfold ParseCIDR. rewrite cut_app by (by apply dotted_chars; nondigit).
  rewrite parseIPv4_dotted. rewrite <- (app_nil_r_string (FormatUint p 10)).
  rewrite dtoi_FormatUint by (lia || done).
  change (8 * 4) with 32. destruct (Z.ltb_spec 32 p); [lia|].
  rewrite IP_Mask_16 by done. by rewrite canonical_round.
Qed.

Lemma net4_inj b p b' p' : canonical b p -> canonical b' p' ->
  IPNet_String (net4 b p) = IPNet_String (net4 b' p') -> b = b' /\ p = p'.
Proof.
  intros Hc Hc' Heq. pose proof (ParseCIDR_net4 b p Hc) as P.
  rewrite Heq, ParseCIDR_net4 in P by done.
  assert (Hn : net4 b' p' = net4 b p) by congruence.
  pose proof (f_equal net_IP Hn : bytes4 b' = bytes4 b) as Hb.
  pose proof (f_equal net_Mask Hn : CIDRMask p' 32 = CIDRMask p 32) as Hm.
  destruct Hc as (Hp & Hb1 & _), Hc' as (Hp' & Hb2 & _). split.
  - symmetry. by apply bytes4_inj.
  - destruct (CIDRMask_32 p Hp) as (_ & _ & _ & <-), (CIDRMask_32 p' Hp') as (_ & _ & _ & <-).
    by rewrite Hm.
Qed.
