(* ===== verification/Subnets.v ===== *)
(** * The subnet pool (src/network/subnets)

    [ip_util.go]: byte arithmetic on addresses. [selectors.go]: the strategies
    behind the interfaces [SubnetSelector] and [IPSelector], here records of one
    function. [subnets.go]: the pool, a map from the text of a subnet to the
    addresses allocated in it. Every pool operation holds [mu], so it is one
    atomic step. Go iterates over a map in an unspecified order; the model takes
    the order of [map_to_list], and only the text of an error message of
    [StaticSubnetSelector] depends on it. Logging is left out. *)
From S2P Require Import Prelude GoStrings GoNet IPv4.

(** ** ip_util.go *)

Definition equals (a b : IPNet) : bool :=
  let '(aOnes, aBits) := Mask_Size (net_Mask a) in
  let '(bOnes, bBits) := Mask_Size (net_Mask b) in
  IP_Equal (net_IP a) (net_IP b) && (aOnes =? bOnes) && (aBits =? bBits).

Definition overlaps (a b : IPNet) : bool :=
  IPNet_Contains a (net_IP b) || IPNet_Contains b (net_IP a).

(** The loop of [next] over the indices [i-1, ..., 0] of the clone. *)
Fixpoint next_loop (i : nat) (ip : IP) : result IP :=
  match i with
  | O => Panic "overflowed maximum IP"
  | S i' =>
      let b := u8 (default 0 (ip !! i') + 1) in
      let ip := <[i' := b]> ip in
      if negb (b =? 0) then Ok ip else next_loop i' ip
  end.

Definition next (ip : IP) : result IP := next_loop (length ip) ip.

Definition max (ipn : IPNet) : result IP :=
  let mask := net_Mask ipn in
  let min := net_IP ipn in
  if decide (length mask = length min)
  then Ok (To16 (zip_with (fun b m => Z.lor m (Z.lxor 255 b)) mask min))
  else Panic "length of mask is not compatible with length of network IP".

Definition GatewayIP (subnet : IPNet) : result IP := next (net_IP subnet).
Definition NetworkIP (subnet : IPNet) : IP := net_IP subnet.
Definition BroadcastIP (subnet : IPNet) : result IP := max subnet.

(** ** selectors.go *)

Record SubnetSelector := { SelectSubnet : IPNet -> list IPNet -> result IPNet }.
Record IPSelector := { SelectIP : IPNet -> list IP -> result IP }.

Fixpoint static_subnet_check (s : IPNet) (existing : list IPNet) : result IPNet :=
  match existing with
  | [] => Ok s
  | e :: existing' =>
      if overlaps s e && negb (equals s e)
      then Err (Errorf ("the requested subnet (" +:+ IPNet_String s
                        +:+ ") overlaps an existing subnet (" +:+ IPNet_String e +:+ ")"))
      else static_subnet_check s existing'
  end.

Definition StaticSubnetSelector (s : IPNet) : SubnetSelector :=
  {| SelectSubnet dynamic existing :=
       if overlaps dynamic s
       then Err (Errorf ("the requested subnet (" +:+ IPNet_String s
                         +:+ ") overlaps the dynamic allocation range (" +:+ IPNet_String dynamic +:+ ")"))
       else static_subnet_check s existing |}.

(** The texts of the networks of a list, as the map [exists] of the source. *)
Definition net_texts (l : list IPNet) : gset string := list_to_set (IPNet_String <$> l).
Definition ip_texts (l : list IP) : gset string := list_to_set (IP_String <$> l).

Fixpoint dynamic_subnet_loop (fuel : nat) (dynamic : IPNet) (ex : gset string) (ip : IP) : result IPNet :=
  if IPNet_Contains dynamic ip then
    match fuel with
    | O => Panic "out of fuel"
    | S fuel' =>
        let subnet := mkIPNet ip (CIDRMask 30 32) in
        res_bind (next ip) (fun ip => res_bind (next ip) (fun ip => res_bind (next ip) (fun ip =>
          if IPNet_Contains dynamic ip && negb (bool_decide (IPNet_String subnet ∈ ex))
          then Ok subnet
          else res_bind (next ip) (fun ip => dynamic_subnet_loop fuel' dynamic ex ip))))
    end
  else Err ErrInsufficientSubnets.

(** A turn of the loop that does not return has met an allocated subnet or is
    the last, so two turns more than there are subnets are enough. *)
Definition DynamicSubnetSelector : SubnetSelector :=
  {| SelectSubnet dynamic existing :=
       dynamic_subnet_loop (length existing + 2) dynamic (net_texts existing) (net_IP dynamic) |}.

Definition StaticIPSelector (ip : IP) : IPSelector :=
  {| SelectIP subnet existing :=
       res_bind (BroadcastIP subnet) (fun broadcast =>
       if IP_Equal broadcast ip then Err ErrIPEqualsBroadcast
       else res_bind (GatewayIP subnet) (fun gateway =>
       if IP_Equal gateway ip then Err ErrIPEqualsGateway
       else if negb (IPNet_Contains subnet ip) then Err ErrInvalidIP
       else if existsb (fun e => IP_Equal e ip) existing then Err ErrIPAlreadyAcquired
       else Ok ip)) |}.

Fixpoint dynamic_ip_loop (fuel : nat) (subnet : IPNet) (ex : gset string) (i : IP) : result IP :=
  if IPNet_Contains subnet i then
    match fuel with
    | O => Panic "out of fuel"
    | S fuel' =>
        if negb (bool_decide (IP_String i ∈ ex)) then Ok i
        else res_bind (next i) (fun i => dynamic_ip_loop fuel' subnet ex i)
    end
  else Err ErrInsufficientIPs.

Definition DynamicIPSelector : IPSelector :=
  {| SelectIP subnet existing :=
       dynamic_ip_loop (length existing + 2) subnet (ip_texts existing) (net_IP subnet) |}.

(** ** subnets.go *)

(** [linux_backend.Network] *)
Record Network := mkNetwork { nw_Subnet : IPNet; nw_IP : IP }.

Record pool := mkPool { allocated : gmap string (list IP); dynamicRange : IPNet }.

Definition NewSubnets (ipNet : IPNet) : pool := mkPool ∅ ipNet.

Definition set_allocated (p : pool) (m : gmap string (list IP)) : pool := mkPool m (dynamicRange p).

(** The networks of the keys whose values are non-empty. *)
Fixpoint parse_keys (l : list (string * list IP)) : result (list IPNet) :=
  match l with
  | [] => Ok []
  | (k, v) :: l' =>
      if decide (0 < length v)%nat then
        match ParseCIDR k with
        | Ok (_, ipn) => res_bind (parse_keys l') (fun r => Ok (ipn :: r))
        | _ => Panic "failed to parse a CIDR in the subnet pool"
        end
      else parse_keys l'
  end.

Definition subnets (m : gmap string (list IP)) : result (list IPNet) := parse_keys (map_to_list m).

Definition Subnets_Acquire (sn : SubnetSelector) (i : IPSelector) : M pool Network := fun p =>
  let r :=
    res_bind (subnets (allocated p)) (fun allocatedSubnets =>
    res_bind (SelectSubnet sn (dynamicRange p) allocatedSubnets) (fun subnet =>
    let ips := default [] (allocated p !! IPNet_String subnet) in
    res_bind (GatewayIP subnet) (fun gateway =>
    res_bind (BroadcastIP subnet) (fun broadcast =>
    let allocatedIPs := ips ++ [NetworkIP subnet; gateway; broadcast] in
    res_bind (SelectIP i subnet allocatedIPs) (fun ip =>
    Ok (subnet, ips, ip)))))) in
  match r with
  | Ok (subnet, ips, ip) =>
      (Ok (mkNetwork subnet ip), set_allocated p (<[IPNet_String subnet := ips ++ [ip]]> (allocated p)))
  | Err e => (Err e, p)
  | Panic m => (Panic m, p)
  end.

Definition Subnets_Remove (network : Network) : M pool unit := fun p =>
  if decide (nw_IP network = []) then (Err ErrIpCannotBeNil, p)
  else
    let ips := default [] (allocated p !! IPNet_String (nw_Subnet network)) in
    if existsb (fun existing => IP_Equal existing (nw_IP network)) ips
    then (Err ErrOverlapsExistingSubnet, p)
    else (Ok tt, set_allocated p (<[IPNet_String (nw_Subnet network) := ips ++ [nw_IP network]]> (allocated p))).

Fixpoint indexOf (a : list IP) (w : IP) : option nat :=
  match a with
  | [] => None
  | v :: a' => if IP_Equal v w then Some O else S <$> indexOf a' w
  end.

(** [ips[i] = ips[l-1]; ips = ips[:l-1]], and whether the result is empty. *)
Definition removeIPAtIndex (ips : list IP) (i : nat) : list IP * bool :=
  let l := length ips in
  (take (l - 1) (<[i := default [] (ips !! (l - 1)%nat)]> ips), bool_decide (l = 1%nat)).

Definition Subnets_Release (network : Network) : M pool unit := fun p =>
  let subnetString := IPNet_String (nw_Subnet network) in
  let ips := default [] (allocated p !! subnetString) in
  match indexOf ips (nw_IP network) with
  | Some i =>
      let '(reducedIps, empty) := removeIPAtIndex ips i in
      if empty : bool then (Ok tt, set_allocated p (delete subnetString (allocated p)))
      else (Ok tt, set_allocated p (<[subnetString := reducedIps]> (allocated p)))
  | None => (Err ErrReleasedUnallocatedSubnet, p)
  end.

(** [int(math.Pow(2, total-masked) / 4)], exact for the 32 bits of an IPv4 range. *)
Definition Subnets_Capacity (m : pool) : Z :=
  let '(masked, total) := Mask_Size (net_Mask (dynamicRange m)) in 2 ^ (total - masked) / 4.
