(* ===== verification/SubnetsProofs.v ===== *)
(** * Correctness of the subnet pool *)
From S2P Require Import Prelude GoStrings GoNet IPv4 Subnets.

(** ** Address arithmetic *)

(** The loop over a prefix [l] whose tail [zs] has already wrapped. *)
Lemma next_loop_spec l : forall zs,
  bytes l ->
  if decide (be l + 1 = 256 ^ Z.of_nat (length l))
  then next_loop (length l) (l ++ zs) = Panic "overflowed maximum IP"
  else exists l', next_loop (length l) (l ++ zs) = Ok (l' ++ zs) /\ length l' = length l /\
                  bytes l' /\ be l' = be l + 1.
Proof.
  induction l as [|b l IH] using rev_ind; intros zs Hb; [done|].
  apply Forall_app in Hb as [Hl Hb]. rewrite Forall_singleton in Hb. unfold is_u8 in Hb.
  pose proof (be_range l Hl) as Hr.
  rewrite be_snoc, length_app, Nat2Z.inj_add, Z.pow_add_r by lia.
  change (256 ^ Z.of_nat (length [b])) with 256. cbn [length].
  rewrite Nat.add_1_r. cbn [next_loop]. rewrite <- (assoc_L (++)).
  assert (Hlk : (l ++ [b] ++ zs) !! length l = Some b)
    by (rewrite lookup_app_r, Nat.sub_diag by lia; done).
  assert (Hins : forall c, <[length l := c]> (l ++ [b] ++ zs) = l ++ c :: zs)
    by (intros c; rewrite insert_app_r_alt, Nat.sub_diag by lia; done).
  rewrite Hlk, Hins. cbn [default from_option id].
  destruct (decide (b = 255)) as [->|Hne].
  - change (u8 (255 + 1)) with 0. cbn [negb Z.eqb]. specialize (IH (0 :: zs) Hl).
    case_decide as H1; case_decide as H2; try lia; [exact IH|].
    destruct IH as (l' & -> & Hlen & Hby & Hbe). exists (l' ++ [0]).
    split_and!; [by rewrite <- (assoc_L (++))|rewrite length_app; cbn; lia| |rewrite be_snoc; lia].
    apply Forall_app. split; [done|]. apply Forall_singleton. unfold is_u8. lia.
  - rewrite u8_small by (unfold is_u8; lia). destruct (Z.eqb_spec (b + 1) 0); [lia|]. cbn [negb].
    clear IH. case_decide; [lia|]. exists (l ++ [b + 1]).
    split_and!; [by rewrite <- (assoc_L (++))|rewrite length_app; cbn; lia| |rewrite be_snoc; lia].
    apply Forall_app. split; [done|]. apply Forall_singleton. unfold is_u8. lia.
Qed.

Lemma next_bytes4 z : is_u32 z -> is_u32 (z + 1) -> next (bytes4 z) = Ok (bytes4 (z + 1)).
Proof.
  intros Hz Hz1. pose proof (next_loop_spec (bytes4 z) [] (bytes4_bytes z)) as H.
  rewrite app_nil_r, be_bytes4 in H by done. unfold is_u32 in *.
  change (256 ^ Z.of_nat (length (bytes4 z))) with 4294967296 in H.
  case_decide; [lia|]. destruct H as (l' & Hn & Hlen & Hby & Hbe).
  unfold next. rewrite Hn, app_nil_r. f_equal. rewrite <- Hbe. symmetry. by apply bytes4_be.
Qed.

Lemma next_last : next (bytes4 4294967295) = Panic "overflowed maximum IP".
Proof. vm_compute. reflexivity. Qed.


(** The last address of a canonical network. *)
Lemma max_net4 b p : canonical b p ->
  exists ip, max (net4 b p) = Ok ip /\ is4 ip (b + net_size p - 1).
Proof.
  intros (Hp & Hb & Hal). destruct (CIDRMask_32 p Hp) as (_ & _ & Hl & _).
  destruct (CIDRMask_host p Hp) as [Hv Hby]. pose proof (net_size_pos p ltac:(lia)) as Hs.
  unfold max, net4, net_Mask, net_IP. rewrite decide_True by done. eexists. split; [done|].
  set (l := zip_with _ _ _).
  assert (Hl' : l = zip_with Z.lor (bytes4 b) (Z.lxor 255 <$> CIDRMask p 32)).
  { unfold l. rewrite zip_with_fmap_r.
    exact (zip_with_flip (fun m c => Z.lor m (Z.lxor 255 c)) (bytes4 b) (CIDRMask p 32)). }
  assert (Hlen : length l = 4%nat) by (rewrite Hl', length_zip_with, length_fmap, Hl; done).
  assert (Hbe : be l = b + net_size p - 1).
  { rewrite Hl', be_lor, be_bytes4, Hv by (done || apply bytes4_bytes || (by rewrite length_fmap, Hl)).
    rewrite <- Z.lxor_lor, <- Z.add_nocarry_lxor; [unfold net_size; lia| |];
      (replace (2 ^ (32 - p) - 1) with (Z.ones (32 - p)) by (rewrite Z.ones_equiv; lia);
       by rewrite Z.land_ones by lia). }
  assert (Hbytes : bytes l).
  { rewrite Hl'. apply Forall_forall. intros x. rewrite elem_of_lookup_zip_with.
    intros (i & a & c & -> & Ha & Hc). apply byte_lor_range.
    - by eapply (Forall_lookup_1 is_u8); [apply bytes4_bytes|].
    - by eapply (Forall_lookup_1 is_u8). }
  assert (Hr : is_u32 (be l)) by (pose proof (be_range l Hbytes) as Hr; rewrite Hlen in Hr; exact Hr).
  rewrite <- Hbe. pose proof (is4_16 _ Hr) as H. by rewrite bytes4_be in H.
Qed.

Lemma GatewayIP_net4 b p : is_u32 b -> is_u32 (b + 1) -> GatewayIP (net4 b p) = Ok (bytes4 (b + 1)).
Proof. intros. by apply next_bytes4. Qed.

(** A canonical network lies within the address space. *)
Lemma canonical_fits b p : canonical b p ->
  0 <= b /\ 0 < net_size p /\ b + net_size p <= 4294967296.
Proof.
  intros (Hp & Hb & Hal). unfold is_u32 in Hb.
  fold (net_size p) in Hal. pose proof (net_size_pos p ltac:(lia)) as Hpos.
  split_and!; [lia|lia|].
  assert (H32 : 4294967296 = 2 ^ p * net_size p).
  { unfold net_size. rewrite <- Z.pow_add_r by lia. by replace (p + (32 - p)) with 32 by lia. }
  pose proof (Z.div_mod b (net_size p) ltac:(lia)) as Hd. rewrite Hal in Hd.
  assert (b / net_size p < 2 ^ p) by (apply Z.div_lt_upper_bound; lia). nia.
Qed.

(** ** The dynamic subnet selector *)

Section DynamicSubnet.
Context (b p : Z) (Hc : canonical b p) (Hp : p <= 30).

(** The [k]-th /30 of the dynamic range, and how many there are. *)
Definition slot (k : nat) : IPNet := net4 (b + 4 * Z.of_nat k) 30.
Definition slots : nat := Z.to_nat (net_size p / 4).

Lemma slots_size : net_size p = 4 * Z.of_nat slots.
Proof.
  unfold slots, net_size. destruct Hc as (Hp' & _).
  replace (32 - p) with (2 + (30 - p)) by lia. rewrite Z.pow_add_r by lia. change (2 ^ 2) with 4.
  rewrite Z.mul_comm, Z.div_mul by lia. rewrite Z2Nat.id; [lia|].
  apply Z.pow_nonneg. lia.
Qed.

Lemma slots_fit : 0 <= b /\ b + 4 * Z.of_nat slots <= 4294967296.
Proof. rewrite <- slots_size. destruct (canonical_fits b p Hc) as (? & ? & ?). done. Qed.

Lemma slot_canonical k : (k < slots)%nat -> canonical (b + 4 * Z.of_nat k) 30.
Proof.
  intros Hk. pose proof slots_fit. pose proof slots_size as Hs. destruct Hc as (Hp' & Hb & Hal).
  fold (net_size p) in Hal. pose proof (net_size_pos p ltac:(lia)).
  split; [lia|]. split; [unfold is_u32 in *; lia|]. change (2 ^ (32 - 30)) with 4.
  pose proof (Z.div_mod b (net_size p) ltac:(lia)) as Hd. rewrite Hal in Hd.
  set (q := b / net_size p) in Hd. rewrite Hs in Hd.
  apply Z.mod_divide; [lia|]. exists (Z.of_nat slots * q + Z.of_nat k). lia.
Qed.

Lemma slot_text_inj i j : (i < slots)%nat -> (j < slots)%nat ->
  IPNet_String (slot i) = IPNet_String (slot j) -> i = j.
Proof.
  intros Hi Hj Heq. apply net4_inj in Heq as [Heq _]; [lia| |]; by apply slot_canonical.
Qed.

Lemma dynamic_contains z : is_u32 z ->
  IPNet_Contains (net4 b p) (bytes4 z) = bool_decide (b <= z < b + 4 * Z.of_nat slots).
Proof. intros Hz. rewrite <- slots_size. apply Contains_net4; [done|by apply is4_4]. Qed.

(** One turn of the loop at slot [k]. *)
Lemma dynamic_turn fuel ex k : (k < slots)%nat ->
  dynamic_subnet_loop (S fuel) (net4 b p) ex (bytes4 (b + 4 * Z.of_nat k)) =
  if decide (IPNet_String (slot k) ∈ ex)
  then res_bind (next (bytes4 (b + 4 * Z.of_nat k + 3)))
         (dynamic_subnet_loop fuel (net4 b p) ex)
  else Ok (slot k).
Proof.
  intros Hk. pose proof slots_fit as Hf. cbn [dynamic_subnet_loop].
  set (z := b + 4 * Z.of_nat k). assert (Hz : 0 <= z /\ z + 3 < 4294967296) by (unfold z; lia).
  rewrite dynamic_contains by (unfold is_u32; lia).
  rewrite bool_decide_true by (unfold z; lia).
  rewrite next_bytes4 by (unfold is_u32; lia). cbn [res_bind].
  rewrite next_bytes4 by (unfold is_u32; lia). cbn [res_bind].
  rewrite next_bytes4 by (unfold is_u32; lia). cbn [res_bind].
  replace (z + 1 + 1 + 1) with (z + 3) by lia.
  rewrite dynamic_contains by (unfold is_u32; lia).
  rewrite bool_decide_true by (unfold z; lia). cbn [andb].
  change (mkIPNet (bytes4 z) (CIDRMask 30 32)) with (slot k).
  case_decide as Hin; [rewrite bool_decide_true by done|rewrite bool_decide_false by done]; done.
Qed.

(** Allocated slots are skipped, one turn each. *)
Lemma dynamic_skip d : forall k fuel ex,
  (forall j, (k <= j < k + d)%nat -> IPNet_String (slot j) ∈ ex) ->
  (k + d <= slots)%nat -> b + 4 * Z.of_nat (k + d) < 4294967296 ->
  dynamic_subnet_loop (d + fuel) (net4 b p) ex (bytes4 (b + 4 * Z.of_nat k)) =
  dynamic_subnet_loop fuel (net4 b p) ex (bytes4 (b + 4 * Z.of_nat (k + d))).
Proof.
  pose proof slots_fit as Hf. induction d as [|d IH]; intros k fuel ex Hex Hd Hlt.
  - by rewrite Nat.add_0_r.
  - cbn [Nat.add]. rewrite dynamic_turn by lia. rewrite decide_True by (apply Hex; lia).
    rewrite next_bytes4 by (unfold is_u32; lia). cbn [res_bind].
    replace (b + 4 * Z.of_nat k + 3 + 1) with (b + 4 * Z.of_nat (S k)) by lia.
    rewrite IH; [f_equal; f_equal; lia|intros j Hj; apply Hex; lia|lia|lia].
Qed.

Lemma taken_bound existing d :
  (d <= slots)%nat -> (forall j, (j < d)%nat -> IPNet_String (slot j) ∈ net_texts existing) ->
  (d <= length existing)%nat.
Proof.
  intros Hd Hin. etrans; [apply (family_bound (fun j => IPNet_String (slot j)) (net_texts existing))|].
  - intros i j Hi Hj. apply slot_text_inj; lia.
  - done.
  - unfold net_texts. etrans; [apply size_list_to_set_le|]. by rewrite length_fmap.
Qed.

(** What the selector returns: the first free slot; with none, an error, or a
    panic when the range ends at the last IPv4 address. *)
Lemma dynamic_select existing :
  (exists k, (k < slots)%nat /\ IPNet_String (slot k) ∉ net_texts existing /\
     (forall j, (j < k)%nat -> IPNet_String (slot j) ∈ net_texts existing) /\
     SelectSubnet DynamicSubnetSelector (net4 b p) existing = Ok (slot k)) \/
  ((forall j, (j < slots)%nat -> IPNet_String (slot j) ∈ net_texts existing) /\
   SelectSubnet DynamicSubnetSelector (net4 b p) existing =
     if decide (b + net_size p = 4294967296) then Panic "overflowed maximum IP"
     else Err ErrInsufficientSubnets).
Proof.
  pose proof slots_fit as Hf. pose proof slots_size as Hsz. cbn [SelectSubnet DynamicSubnetSelector].
  set (ex := net_texts existing). change (net_IP (net4 b p)) with (bytes4 b).
  replace (bytes4 b) with (bytes4 (b + 4 * Z.of_nat 0)) by (f_equal; lia).
  destruct (least_or_none (fun j => IPNet_String (slot j) ∉ ex) slots) as [(k & Hk & Hfree & Hmin)|Hall].
  - left. exists k. assert (Hmin' : forall j, (j < k)%nat -> IPNet_String (slot j) ∈ ex).
    { intros j Hj. destruct (decide (IPNet_String (slot j) ∈ ex)); [done|]. by destruct (Hmin j Hj). }
    split_and!; [done|done|done|].
    pose proof (taken_bound existing k ltac:(lia) Hmin').
    replace (length existing + 2)%nat with (k + S (length existing + 1 - k))%nat by lia.
    rewrite dynamic_skip; [|intros j Hj; apply Hmin'; lia|lia|lia].
    cbn [Nat.add]. rewrite dynamic_turn by done. by rewrite decide_False.
  - right. assert (Hall' : forall j, (j < slots)%nat -> IPNet_String (slot j) ∈ ex).
    { intros j Hj. destruct (decide (IPNet_String (slot j) ∈ ex)); [done|]. by destruct (Hall j Hj). }
    split; [done|]. pose proof (taken_bound existing slots ltac:(lia) Hall') as Hlen.
    case_decide as Hend.
    + destruct slots as [|n] eqn:En; [pose proof (net_size_pos p ltac:(lia)); lia|].
      replace (length existing + 2)%nat with (n + S (length existing + 1 - n))%nat by lia.
      rewrite dynamic_skip; [|intros j Hj; apply Hall'; lia|lia|lia].
      cbn [Nat.add]. rewrite dynamic_turn by lia. rewrite decide_True by (apply Hall'; lia).
      replace (b + 4 * Z.of_nat n + 3) with 4294967295 by lia. by rewrite next_last.
    + replace (length existing + 2)%nat with (slots + (length existing + 2 - slots))%nat by lia.
      rewrite dynamic_skip; [|intros j Hj; apply Hall'; lia|lia|lia].
      destruct (length existing + 2 - slots)%nat as [|m] eqn:Em; [lia|]. cbn [dynamic_subnet_loop Nat.add].
      rewrite dynamic_contains by (unfold is_u32; lia). by rewrite bool_decide_false by lia.
Qed.
End DynamicSubnet.

(** ** The dynamic IP selector *)

Lemma ip_texts_spec l zs z : Forall2 is4 l zs -> is_u32 z -> IP_String (bytes4 z) ∈ ip_texts l <-> z ∈ zs.
Proof.
  intros Hl Hz. unfold ip_texts. rewrite elem_of_list_to_set, list_elem_of_fmap.
  induction Hl as [|ip x l zs Hip Hl IH]; [set_solver|].
  rewrite elem_of_cons, <- IH. split.
  - intros (y & Heq & [->|Hy]%elem_of_cons); [left|right; eauto].
    apply (IP_String_inj _ _ _ _ (is4_4 z Hz) Hip) in Heq. done.
  - intros [->|(y & ? & ?)]; [|set_solver]. exists ip. split; [|set_solver].
    by apply (IP_String_inj _ _ _ _ (is4_4 x Hz) Hip).
Qed.

Section DynamicIP.
Context (b p : Z) (Hc : canonical b p).

Definition hosts : nat := Z.to_nat (net_size p).

Lemma contains_host z : is_u32 z ->
  IPNet_Contains (net4 b p) (bytes4 z) = bool_decide (b <= z < b + net_size p).
Proof. intros Hz. apply Contains_net4; [done|by apply is4_4]. Qed.

Lemma dynamic_ip_skip ex d : forall k fuel,
  (forall j, (k <= j < k + d)%nat -> IP_String (bytes4 (b + Z.of_nat j)) ∈ ex) ->
  (k + d <= hosts)%nat -> b + Z.of_nat (k + d) < 4294967296 ->
  dynamic_ip_loop (d + fuel) (net4 b p) ex (bytes4 (b + Z.of_nat k)) =
  dynamic_ip_loop fuel (net4 b p) ex (bytes4 (b + Z.of_nat (k + d))).
Proof.
  pose proof (canonical_fits b p Hc) as Hf. unfold hosts. induction d as [|d IH]; intros k fuel Hex Hd Hlt.
  - by rewrite Nat.add_0_r.
  - cbn [Nat.add dynamic_ip_loop]. rewrite contains_host by (unfold is_u32; lia).
    rewrite bool_decide_true by lia. rewrite bool_decide_true by (apply Hex; lia). cbn [negb].
    rewrite next_bytes4 by (unfold is_u32; lia). cbn [res_bind].
    replace (b + Z.of_nat k + 1) with (b + Z.of_nat (S k)) by lia.
    rewrite IH; [f_equal; f_equal; lia|intros j Hj; apply Hex; lia|lia|lia].
Qed.

Lemma ip_taken_bound l d : (d <= hosts)%nat ->
  (forall j, (j < d)%nat -> IP_String (bytes4 (b + Z.of_nat j)) ∈ ip_texts l) -> (d <= length l)%nat.
Proof.
  pose proof (canonical_fits b p Hc) as Hf. unfold hosts. intros Hd Hin.
  etrans; [apply (family_bound (fun j => IP_String (bytes4 (b + Z.of_nat j))) (ip_texts l))|].
  - intros i j Hi Hj Heq.
    apply (IP_String_inj _ _ (b + Z.of_nat i) (b + Z.of_nat j)) in Heq; [lia| |];
      apply is4_4; unfold is_u32; lia.
  - done.
  - unfold ip_texts. etrans; [apply size_list_to_set_le|]. by rewrite length_fmap.
Qed.

(** The first address not in the list; with none, an error, or a panic when the
    subnet ends at the last IPv4 address. *)
Lemma dynamic_ip_select l zs : Forall2 is4 l zs ->
  (exists z, b <= z < b + net_size p /\ z ∉ zs /\ (forall y, b <= y < z -> y ∈ zs) /\
     SelectIP DynamicIPSelector (net4 b p) l = Ok (bytes4 z)) \/
  ((forall y, b <= y < b + net_size p -> y ∈ zs) /\
   SelectIP DynamicIPSelector (net4 b p) l =
     if decide (b + net_size p = 4294967296) then Panic "overflowed maximum IP"
     else Err ErrInsufficientIPs).
Proof.
  intros Hl. pose proof (canonical_fits b p Hc) as Hf. cbn [SelectIP DynamicIPSelector].
  change (net_IP (net4 b p)) with (bytes4 b).
  replace (bytes4 b) with (bytes4 (b + Z.of_nat 0)) by (f_equal; lia).
  set (T j := IP_String (bytes4 (b + Z.of_nat j)) ∈ ip_texts l).
  assert (HT : forall j, (j < hosts)%nat -> T j <-> b + Z.of_nat j ∈ zs).
  { intros j Hj. apply ip_texts_spec; [done|]. unfold hosts in Hj. unfold is_u32. lia. }
  assert (Hfuel : forall d, (d <= hosts)%nat -> (forall j, (j < d)%nat -> T j) -> (d <= length l)%nat)
    by (intros d; apply ip_taken_bound).
  unfold hosts in *.
  destruct (least_or_none (fun j => ~ T j) (Z.to_nat (net_size p))) as [(k & Hk & Hfree & Hmin)|Hall].
  - left. exists (b + Z.of_nat k). assert (Hmin' : forall j, (j < k)%nat -> T j).
    { intros j Hj. destruct (decide (T j)); [done|]. by destruct (Hmin j Hj). }
    specialize (Hfuel k ltac:(lia) Hmin').
    split_and!; [lia|lia|by rewrite <- HT|intros y Hy|].
    { replace y with (b + Z.of_nat (Z.to_nat (y - b))) by lia. apply HT; [lia|]. apply Hmin'. lia. }
    replace (length l + 2)%nat with (k + S (length l + 1 - k))%nat by lia.
    rewrite dynamic_ip_skip; [|intros j Hj; apply Hmin'; lia|unfold hosts; lia|lia].
    cbn [Nat.add dynamic_ip_loop]. rewrite contains_host by (unfold is_u32; lia).
    rewrite bool_decide_true by lia. by rewrite bool_decide_false.
  - right. assert (Hall' : forall j, (j < Z.to_nat (net_size p))%nat -> T j).
    { intros j Hj. destruct (decide (T j)); [done|]. by destruct (Hall j Hj). }
    specialize (Hfuel _ ltac:(done) Hall'). split.
    { intros y Hy. replace y with (b + Z.of_nat (Z.to_nat (y - b))) by lia. apply HT; [lia|]. apply Hall'. lia. }
    case_decide as Hend.
    + destruct (Z.to_nat (net_size p)) as [|n] eqn:En; [lia|].
      replace (length l + 2)%nat with (n + S (length l + 1 - n))%nat by lia.
      rewrite dynamic_ip_skip; [|intros j Hj; apply Hall'; lia|unfold hosts; lia|lia].
      cbn [Nat.add dynamic_ip_loop]. replace (b + Z.of_nat n) with 4294967295 by lia.
      rewrite contains_host by (unfold is_u32; lia).
      rewrite bool_decide_true by lia. rewrite bool_decide_true.
      * cbn [negb]. by rewrite next_last.
      * replace 4294967295 with (b + Z.of_nat n) by lia. apply Hall'. lia.
    + assert (Hn : Z.of_nat (Z.to_nat (net_size p)) = net_size p) by lia.
      set (n := Z.to_nat (net_size p)) in *.
      replace (length l + 2)%nat with (n + (length l + 2 - n))%nat by lia.
      rewrite dynamic_ip_skip; [|intros j Hj; apply Hall'; lia|unfold hosts; lia|lia].
      destruct (length l + 2 - n)%nat as [|m] eqn:Em; [lia|]. cbn [dynamic_ip_loop Nat.add].
      rewrite contains_host by (unfold is_u32; lia). by rewrite bool_decide_false by lia.
Qed.
End DynamicIP.
