(* ===== verification/SubnetPool.v ===== *)
(** * Contracts of the selectors and the invariant of the subnet pool

    [LawfulSubnet] and [LawfulIP] state what [Acquire] needs of its two
    selectors; the selectors of the source are instances, and the theorems on
    the pool are proved for all lawful selectors. *)
From S2P Require Import Prelude GoStrings GoNet IPv4 Subnets SubnetsProofs.

(** ** Networks as intervals *)

Definition disjoint4 (a p b q : Z) : Prop := a + net_size p <= b \/ b + net_size q <= a.

#[export] Instance disjoint4_dec a p b q : Decision (disjoint4 a p b q).
Proof. unfold disjoint4. apply _. Defined.

Lemma overlaps_net4 a p b q : canonical a p -> canonical b q ->
  overlaps (net4 a p) (net4 b q) = negb (bool_decide (disjoint4 a p b q)).
Proof.
  intros Ha Hb. unfold overlaps. change (net_IP (net4 ?x _)) with (bytes4 x).
  rewrite (Contains_net4 a p (bytes4 b) b), (Contains_net4 b q (bytes4 a) a)
    by (done || (apply is4_4; destruct Ha as (? & ? & ?), Hb as (? & ? & ?); done)).
  destruct (canonical_fits _ _ Ha) as (? & ? & ?), (canonical_fits _ _ Hb) as (? & ? & ?).
  unfold disjoint4. repeat case_bool_decide; cbn; try done; lia.
Qed.

Lemma equals_net4 a p b q : canonical a p -> canonical b q ->
  equals (net4 a p) (net4 b q) = bool_decide (a = b /\ p = q).
Proof.
  intros (Hp & Ha & _) (Hq & Hb & _). unfold equals, Mask_Size, net4, net_Mask, net_IP.
  destruct (CIDRMask_32 p Hp) as (_ & _ & -> & ->), (CIDRMask_32 q Hq) as (_ & _ & -> & ->).
  destruct (Z.eqb_spec p (-1)); [lia|]. destruct (Z.eqb_spec q (-1)); [lia|].
  rewrite (Equal_is4 _ _ a b) by (by apply is4_4).
  destruct (Z.eqb_spec p q); repeat case_bool_decide; cbn; try done; naive_solver.
Qed.

(** ** What the pool may hold *)

(** A subnet the pool accepts over the dynamic range [(d, r)]. *)
Definition placed (d r b q : Z) : Prop :=
  disjoint4 d r b q \/ q = 30 /\ d <= b /\ b + 4 <= d + net_size r /\ (b - d) mod 4 = 0.

(** An address a container may have: not the network address, not the gateway,
    not the broadcast address. *)
Definition usable (b q z : Z) : Prop := b + 1 < z < b + net_size q - 1.

Definition apart (x y : Z * Z) : Prop := x = y \/ disjoint4 x.1 x.2 y.1 y.2.

Definition nets (l : list (Z * Z)) : list IPNet := (fun x => net4 x.1 x.2) <$> l.

(** The subnets in use: canonical, placed, pairwise apart. *)
Record in_use (d r : Z) (l : list (Z * Z)) : Prop := {
  in_use_canonical : Forall (fun x => canonical x.1 x.2) l;
  in_use_placed : Forall (fun x => placed d r x.1 x.2) l;
  in_use_apart : forall x y, x ∈ l -> y ∈ l -> apart x y
}.

Class LawfulSubnet (d r : Z) (sn : SubnetSelector) : Prop :=
  select_subnet_ok l n : canonical d r -> r <= 30 -> in_use d r l ->
    SelectSubnet sn (net4 d r) (nets l) = Ok n ->
    exists b q, n = net4 b q /\ canonical b q /\ placed d r b q /\ forall x, x ∈ l -> apart (b, q) x.

Class LawfulIP (s : IPSelector) : Prop :=
  select_ip_ok b q l zs ip : canonical b q -> is_u32 (b + 1) -> Forall2 is4 l zs ->
    SelectIP s (net4 b q) l = Ok ip -> exists z, is4 ip z /\ b <= z < b + net_size q /\ z ∉ zs.

(** The sum of the address space is a multiple of four, so a network in the
    range of a slot that is not the slot is disjoint from it. *)
Lemma slot_apart d r k b q :
  canonical d r -> r <= 30 -> (k < slots r)%nat -> canonical b q -> placed d r b q ->
  IPNet_String (net4 b q) <> IPNet_String (slot d k) -> disjoint4 (d + 4 * Z.of_nat k) 30 b q.
Proof.
  intros Hc Hr Hk Hb Hpl Hne. pose proof (slots_size d r Hc Hr) as Hs. unfold disjoint4.
  change (net_size 30) with 4.
  destruct Hpl as [[Hd|Hd]|(-> & Hlo & Hhi & Hal)]; [lia|lia|]. change (net_size 30) with 4.
  apply Z.mod_divide in Hal as [j Hj]; [|lia].
  assert (j <> Z.of_nat k); [|lia]. intros ->. apply Hne. unfold slot. do 2 f_equal. lia.
Qed.

#[export] Instance dynamic_subnet_lawful d r : LawfulSubnet d r DynamicSubnetSelector.
Proof.
  intros l n Hc Hr Hl Hsel.
  destruct (dynamic_select d r Hc Hr (nets l)) as [(k & Hk & Hfree & _ & Heq)|[_ Heq]].
  - rewrite Heq in Hsel. injection Hsel as <-. exists (d + 4 * Z.of_nat k), 30.
    pose proof (slots_size d r Hc Hr). split_and!; [done|by apply (slot_canonical d r)| |].
    + right. split_and!; [done|lia|lia|]. replace (d + 4 * Z.of_nat k - d) with (Z.of_nat k * 4) by lia.
      by apply Z.mod_mul.
    + intros [b q] Hx. right. cbn. destruct Hl as [Hcan Hpl _]. rewrite Forall_forall in Hcan, Hpl.
      apply (slot_apart d r); [done|done|done|by apply (Hcan _ Hx)|by apply (Hpl _ Hx)|].
      intros Heq'. apply Hfree. rewrite <- Heq'. unfold net_texts, nets.
      rewrite elem_of_list_to_set, <- list_fmap_compose, list_elem_of_fmap. by exists (b, q).
  - rewrite Heq in Hsel. by case_decide.
Qed.

Lemma static_check_ok b q l n : canonical b q -> Forall (fun x => canonical x.1 x.2) l ->
  static_subnet_check (net4 b q) (nets l) = Ok n ->
  n = net4 b q /\ forall x, x ∈ l -> apart (b, q) x.
Proof.
  intros Hb Hl. induction Hl as [|[a p] l Ha Hl IH]; cbn.
  - intros [= <-]. split; [done|set_solver].
  - rewrite overlaps_net4, equals_net4 by done.
    case_bool_decide as Hd; case_bool_decide as Hq; cbn; try done; intros Hn;
      destruct (IH Hn) as [-> Hx]; (split; [done|]); intros x [->|Hin]%elem_of_cons; auto.
    1,2: by right.
    left. destruct Hq. by subst.
Qed.

#[export] Instance static_subnet_lawful d r b q : canonical b q -> LawfulSubnet d r (StaticSubnetSelector (net4 b q)).
Proof.
  intros Hb l n Hc Hr Hl. cbn. rewrite overlaps_net4 by done.
  case_bool_decide as Hd; cbn; [|done]. intros Hn.
  destruct (static_check_ok b q l n Hb (in_use_canonical _ _ _ Hl) Hn) as [-> Hx].
  exists b, q. split_and!; [done|done|by left|done].
Qed.

#[export] Instance dynamic_ip_lawful : LawfulIP DynamicIPSelector.
Proof.
  intros b q l zs ip Hc _ Hl Hsel. destruct (canonical_fits _ _ Hc) as (? & ? & ?).
  destruct (dynamic_ip_select b q Hc l zs Hl) as [(z & Hz & Hfree & _ & Heq)|[_ Heq]]; rewrite Heq in Hsel.
  - injection Hsel as <-. exists z. split_and!; [apply is4_4; unfold is_u32; lia|lia|lia|done].
  - by case_decide.
Qed.

Lemma existsb_is4 l zs ip z : Forall2 is4 l zs -> is4 ip z ->
  existsb (fun e => IP_Equal e ip) l = bool_decide (z ∈ zs).
Proof.
  intros Hl Hz. induction Hl as [|e x l zs He Hl IH]; cbn; [by rewrite bool_decide_false by set_solver|].
  rewrite IH, (Equal_is4 _ _ _ _ He Hz). repeat case_bool_decide; cbn; try done; set_solver.
Qed.

#[export] Instance static_ip_lawful ip x : is4 ip x -> LawfulIP (StaticIPSelector ip).
Proof.
  intros Hip b q l zs ip' Hc Hg Hl. cbn [SelectIP StaticIPSelector]. destruct (max_net4 b q Hc) as (bc & Hbc & Hbc4).
  unfold BroadcastIP. rewrite Hbc. cbn [res_bind]. case_match; [done|].
  rewrite GatewayIP_net4 by (done || apply Hc). cbn [res_bind]. case_match; [done|].
  rewrite (Contains_net4 _ _ _ _ Hc Hip). case_bool_decide as Hin; cbn; [|done].
  rewrite (existsb_is4 _ _ _ _ Hl Hip). case_bool_decide as Hex; [done|].
  intros [= <-]. by exists x.
Qed.

(** ** The invariant of the pool *)

(** The entry of the map for the network [(b, q)]. *)
Record entry_ok (d r : Z) (k : string) (ips : list IP) (b q : Z) (zs : list Z) : Prop := {
  entry_key : k = IPNet_String (net4 b q);
  entry_canonical : canonical b q;
  entry_placed : placed d r b q;
  entry_ips : Forall2 is4 ips zs;
  entry_nodup : NoDup zs;
  entry_usable : Forall (usable b q) zs;
  entry_nonempty : ips <> []
}.

Record pool_inv (d r : Z) (p : pool) : Prop := {
  inv_range : dynamicRange p = net4 d r;
  inv_range_ok : canonical d r /\ r <= 30;
  inv_entries : forall k ips, allocated p !! k = Some ips -> exists b q zs, entry_ok d r k ips b q zs;
  inv_apart : forall k ips k' ips' b q b' q' zs zs',
    allocated p !! k = Some ips -> allocated p !! k' = Some ips' ->
    entry_ok d r k ips b q zs -> entry_ok d r k' ips' b' q' zs' -> apart (b, q) (b', q')
}.

Lemma NewSubnets_inv d r : canonical d r -> r <= 30 -> pool_inv d r (NewSubnets (net4 d r)).
Proof. intros Hc Hr. split; cbn; [done|done|..]; intros; by rewrite lookup_empty in *. Qed.

(** Entries with equal keys describe the same network. *)
Lemma entry_same_key d r k ips ips' b q b' q' zs zs' :
  entry_ok d r k ips b q zs -> entry_ok d r k ips' b' q' zs' -> b = b' /\ q = q'.
Proof. intros [-> Hc _ _ _ _ _] [Hk Hc' _ _ _ _ _]. by apply net4_inj. Qed.

(** [subnets] never panics and returns exactly the networks in use. *)
Lemma parse_keys_ok d r l :
  Forall (fun kv => exists b q zs, entry_ok d r kv.1 kv.2 b q zs) l ->
  exists L, parse_keys l = Ok (nets L) /\
    forall x, x ∈ L <-> exists k ips zs, (k, ips) ∈ l /\ entry_ok d r k ips x.1 x.2 zs.
Proof.
  induction 1 as [|[k ips] l (b & q & zs & He) Hl (L & HL & Hspec)].
  - exists []. split; [done|]. set_solver.
  - pose proof He as [Hk Hc _ _ _ _ Hne]. cbn in Hk, Hne.
    exists ((b, q) :: L). split.
    + cbn [parse_keys]. rewrite decide_True by (by destruct ips; [done|cbn; lia]).
      rewrite Hk, ParseCIDR_net4 by done. by rewrite HL.
    + intros [b' q']. rewrite elem_of_cons, Hspec. cbn. split.
      * intros [[= -> ->]|(k' & ips' & zs' & ? & ?)]; [exists k, ips, zs|exists k', ips', zs'];
          (split; [set_solver|done]).
      * intros (k' & ips' & zs' & [[= -> ->]|Hin]%elem_of_cons & He'); [left|right; eauto].
        destruct (entry_same_key _ _ _ _ _ _ _ _ _ _ _ He He') as [-> ->]. done.
Qed.

Lemma subnets_ok d r p : pool_inv d r p ->
  exists L, subnets (allocated p) = Ok (nets L) /\ in_use d r L /\
    forall b q, (b, q) ∈ L <-> exists k ips zs, allocated p !! k = Some ips /\ entry_ok d r k ips b q zs.
Proof.
  intros [_ _ Hent Hap]. unfold subnets.
  destruct (parse_keys_ok d r (map_to_list (allocated p))) as (L & -> & HL).
  { apply Forall_forall. intros [k ips] Hin. by apply Hent, elem_of_map_to_list. }
  assert (HL' : forall b q, (b, q) ∈ L <->
    exists k ips zs, allocated p !! k = Some ips /\ entry_ok d r k ips b q zs).
  { intros b q. rewrite HL. cbn. by setoid_rewrite elem_of_map_to_list. }
  exists L. split_and!; [done| |done]. split.
  - apply Forall_forall. intros [b q] (k & ips & zs & _ & [])%HL'. done.
  - apply Forall_forall. intros [b q] (k & ips & zs & _ & [])%HL'. done.
  - intros [b q] [b' q'] (k & ips & zs & Hk & He)%HL' (k' & ips' & zs' & Hk' & He')%HL'.
    exact (Hap _ _ _ _ _ _ _ _ _ _ Hk Hk' He He').
Qed.

(** Changing one entry: the new pool is fine when the new entry is, and its
    network is apart from those of the other keys. *)
Lemma insert_inv d r p b q ips zs :
  pool_inv d r p -> entry_ok d r (IPNet_String (net4 b q)) ips b q zs ->
  (forall k ips' b' q' zs', allocated p !! k = Some ips' -> entry_ok d r k ips' b' q' zs' ->
     apart (b, q) (b', q')) ->
  pool_inv d r (set_allocated p (<[IPNet_String (net4 b q) := ips]> (allocated p))).
Proof.
  intros [Hrg Hok Hent Hap] He Hnew. split; cbn; [done|done|..].
  - intros k ips' [[<- <-]|[Hne Hk]]%lookup_insert_Some; eauto.
  - intros k1 i1 k2 i2 b1 q1 b2 q2 zs1 zs2 H1 H2 He1 He2.
    apply lookup_insert_Some in H1 as [[<- <-]|[Hn1 H1]]; apply lookup_insert_Some in H2 as [[<- <-]|[Hn2 H2]].
    + left. by destruct (entry_same_key _ _ _ _ _ _ _ _ _ _ _ He1 He2) as [-> ->].
    + destruct (entry_same_key _ _ _ _ _ _ _ _ _ _ _ He He1) as [-> ->]. eauto.
    + destruct (entry_same_key _ _ _ _ _ _ _ _ _ _ _ He He2) as [-> ->].
      destruct (Hnew _ _ _ _ _ H1 He1) as [[= -> ->]|[Hd|Hd]]; [by left|right; by right|right; by left].
    + eauto.
Qed.

Lemma delete_inv d r p k : pool_inv d r p -> pool_inv d r (set_allocated p (delete k (allocated p))).
Proof.
  intros [Hrg Hok Hent Hap]. split; cbn; [done|done|..].
  - intros k' ips [_ Hk]%lookup_delete_Some; eauto.
  - intros k1 i1 k2 i2 b1 q1 b2 q2 zs1 zs2 [_ H1]%lookup_delete_Some [_ H2]%lookup_delete_Some. eauto.
Qed.

(** The addresses in use in a network, whether or not it has an entry. *)
Lemma entry_at d r p b q : pool_inv d r p -> canonical b q ->
  exists zs, Forall2 is4 (default [] (allocated p !! IPNet_String (net4 b q))) zs /\
             NoDup zs /\ Forall (usable b q) zs.
Proof.
  intros Hinv Hc. destruct (allocated p !! IPNet_String (net4 b q)) as [ips|] eqn:Hk; cbn.
  - destruct (inv_entries _ _ _ Hinv _ _ Hk) as (b' & q' & zs & []).
    destruct (net4_inj b q b' q') as [-> ->]; [done|done|done|]. by exists zs.
  - exists []. split_and!; [constructor|constructor|constructor].
Qed.

(** A successful [Acquire]. *)
Record acquired (d r : Z) (p : pool) (n : Network) (p' : pool) (b q z : Z) (zs : list Z) : Prop := {
  acq_subnet : nw_Subnet n = net4 b q;
  acq_canonical : canonical b q;
  acq_placed : placed d r b q;
  acq_apart : forall k ips b' q' zs', allocated p !! k = Some ips -> entry_ok d r k ips b' q' zs' ->
                apart (b, q) (b', q');
  acq_ip : is4 (nw_IP n) z;
  acq_usable : usable b q z;
  acq_old : Forall2 is4 (default [] (allocated p !! IPNet_String (net4 b q))) zs;
  acq_old_ok : NoDup zs /\ Forall (usable b q) zs;
  acq_fresh : z ∉ zs;
  acq_pool : p' = set_allocated p
    (<[IPNet_String (net4 b q) := default [] (allocated p !! IPNet_String (net4 b q)) ++ [nw_IP n]]> (allocated p))
}.

Lemma Acquire_acquired d r p sn i n p' : pool_inv d r p -> LawfulSubnet d r sn -> LawfulIP i ->
  Subnets_Acquire sn i p = (Ok n, p') -> exists b q z zs, acquired d r p n p' b q z zs.
Proof.
  intros Hinv Hsn Hi. unfold Subnets_Acquire.
  destruct (subnets_ok d r p Hinv) as (L & -> & HL & Hspec). cbn [res_bind].
  destruct (inv_range_ok _ _ _ Hinv) as [Hc Hr]. rewrite (inv_range _ _ _ Hinv).
  destruct (SelectSubnet sn (net4 d r) (nets L)) as [s| |] eqn:Hs; cbn [res_bind]; [|done|done].
  destruct (Hsn L s Hc Hr HL Hs) as (b & q & -> & Hb & Hpl & Hap).
  destruct (entry_at d r p b q Hinv Hb) as (zs & Hzs & Hnd & Hus).
  destruct (canonical_fits b q Hb) as (Hb0 & Hsz & Hfit).
  destruct (decide (b + 1 = 4294967296)) as [Hlast|Hnl].
  { change (GatewayIP (net4 b q)) with (next (bytes4 b)).
    replace b with 4294967295 by lia. rewrite next_last. done. }
  rewrite GatewayIP_net4 by (unfold is_u32; lia). cbn [res_bind].
  unfold BroadcastIP. destruct (max_net4 b q Hb) as (bc & -> & Hbc). cbn [res_bind].
  destruct (SelectIP i _ _) as [ip| |] eqn:Hip; cbn [res_bind]; [|done|done].
  intros [= <- <-]. apply (Hi b q _ (zs ++ [b; b + 1; b + net_size q - 1])) in Hip as (z & Hz & Hrange & Hfresh);
    [|done|unfold is_u32; lia|].
  - exists b, q, z, zs. split; cbn; try done.
    + intros k ips b' q' zs' Hk He. apply Hap, Hspec. eauto.
    + unfold usable. rewrite not_elem_of_app, !not_elem_of_cons in Hfresh. lia.
    + rewrite not_elem_of_app in Hfresh. by destruct Hfresh.
  - apply Forall2_app; [done|]. constructor; [apply is4_4; unfold is_u32; lia|].
    constructor; [apply is4_4; unfold is_u32; lia|]. constructor; [done|constructor].
Qed.

Lemma acquired_inv d r p n p' b q z zs :
  pool_inv d r p -> acquired d r p n p' b q z zs -> pool_inv d r p'.
Proof.
  intros Hinv [Hn Hc Hpl Hap Hz Hus Hold [Hnd Hous] Hfr ->].
  apply (insert_inv _ _ _ _ _ _ (zs ++ [z])); [done| |done].
  split; [done|done|done|by apply Forall2_app; [|constructor]|by apply NoDup_snoc| |].
  - apply Forall_app. split; [done|by apply Forall_singleton].
  - by intros [_ ?]%app_eq_nil.
Qed.

(** ** Release *)

Lemma indexOf_Some l w i : indexOf l w = Some i -> exists v, l !! i = Some v /\ IP_Equal v w = true.
Proof.
  revert i. induction l as [|v l IH]; intros i; cbn; [done|].
  destruct (IP_Equal v w) eqn:E; [intros [= <-]; eauto|].
  intros (j & Hj & ->)%fmap_Some. eauto.
Qed.

(** Moving the last element over the removed one keeps the other elements. *)
Lemma removeIPAtIndex_perm l i v : l !! i = Some v -> l ≡ₚ v :: (removeIPAtIndex l i).1.
Proof.
  destruct l as [|x l _] using rev_ind; [done|]. intros Hi. unfold removeIPAtIndex. cbn [fst].
  rewrite length_app. cbn [length]. rewrite Nat.add_sub.
  rewrite (lookup_app_r _ _ (length l)), Nat.sub_diag by lia. cbn [lookup list_lookup default from_option id].
  destruct (decide (i < length l)%nat) as [Hlt|Hge].
  - rewrite lookup_app_l in Hi by done. rewrite insert_app_l by done.
    rewrite take_app_length' by (by rewrite length_insert).
    rewrite insert_take_drop by done. rewrite <- (take_drop_middle l i v Hi) at 1.
    rewrite <- Permutation_cons_append, <- !Permutation_middle. apply Permutation_swap.
  - assert (i = length l) as -> by (apply lookup_lt_Some in Hi; rewrite length_app in Hi; cbn in Hi; lia).
    rewrite lookup_app_r, Nat.sub_diag in Hi by lia. injection Hi as ->.
    rewrite insert_app_r_alt, Nat.sub_diag by lia. cbn [insert list_insert].
    rewrite take_app_length. by rewrite <- Permutation_cons_append.
Qed.

Lemma Release_inv d r p n x p' : pool_inv d r p -> Subnets_Release n p = (x, p') -> pool_inv d r p'.
Proof.
  intros Hinv. unfold Subnets_Release. set (k := IPNet_String (nw_Subnet n)).
  destruct (indexOf _ _) as [i|] eqn:Hi; [|by intros [= <- <-]].
  destruct (removeIPAtIndex _ i) as [red empty] eqn:Hred.
  apply indexOf_Some in Hi as (v & Hv & _).
  destruct (allocated p !! k) as [ips|] eqn:Hk; [|done]. cbn [default from_option id] in *.
  pose proof (removeIPAtIndex_perm ips i v Hv) as Hperm. rewrite Hred in Hperm. cbn [fst] in Hperm.
  assert (empty = bool_decide (length ips = 1%nat)) as -> by (by injection Hred).
  case_bool_decide as Hlen; intros [= <- <-]; [by apply delete_inv|].
  destruct (inv_entries _ _ _ Hinv _ _ Hk) as (b & q & zs & He). pose proof He as [Hkey Hc Hpl Hips Hnd Hus Hne].
  destruct (Forall2_perm _ _ _ Hperm _ Hips) as (zs1 & Hp1 & Hz1).
  apply Forall2_cons_inv_l in Hz1 as (z & zs2 & _ & Hz2 & ->).
  rewrite Hkey. apply (insert_inv _ _ _ _ _ _ zs2); [done| |].
  - rewrite Hp1 in Hnd, Hus. apply NoDup_cons in Hnd as [_ Hnd]. apply Forall_cons in Hus as [_ Hus].
    split; try done. intros ->. apply Hlen. by rewrite (Permutation_length Hperm).
  - intros k' ips' b' q' zs' Hk' He'. exact (inv_apart _ _ _ Hinv _ _ _ _ _ _ _ _ _ _ Hk Hk' He He').
Qed.
