(* ===== verification/SubnetTheorems.v ===== *)
(** * Theorems on the subnet pool

    The pools that [NewSubnets] and any sequence of [Acquire] with lawful
    selectors, [Release] and [Remove] reach, and what holds of them. *)
From S2P Require Import Prelude GoStrings GoNet IPv4 Subnets SubnetsProofs SubnetPool.

(** A network a snapshot may bring back: one an earlier pool could have handed
    out, whose subnet does not overlap another one in use. [Remove] does not check
    the latter ([Remove_accepts_overlapping_subnet]); the caller has to see to it.
    The snapshots that a server has written meet it: [Restart.restoring_admissible]. *)
Definition admissible (d r : Z) (p : pool) (n : Network) : Prop :=
  exists b q z, nw_Subnet n = net4 b q /\ canonical b q /\ placed d r b q /\
    is4 (nw_IP n) z /\ usable b q z /\
    forall k ips b' q' zs, allocated p !! k = Some ips -> entry_ok d r k ips b' q' zs -> apart (b, q) (b', q').

(** The steps of a pool whose caller removes only admissible networks. *)
Inductive pool_step (d r : Z) : pool -> pool -> Prop :=
  | step_Acquire sn i x p p' : LawfulSubnet d r sn -> LawfulIP i ->
      Subnets_Acquire sn i p = (x, p') -> pool_step d r p p'
  | step_Release n x p p' : Subnets_Release n p = (x, p') -> pool_step d r p p'
  | step_Remove n x p p' : admissible d r p n -> Subnets_Remove n p = (x, p') -> pool_step d r p p'.

(** The pools reachable from a fresh one over the range [(d, r)]. *)
Definition reachable (d r : Z) (p : pool) : Prop :=
  canonical d r /\ r <= 30 /\ rtc (pool_step d r) (NewSubnets (net4 d r)) p.

Lemma Acquire_fails sn i p x p' : Subnets_Acquire sn i p = (x, p') ->
  (exists n, x = Ok n) \/ p' = p.
Proof.
  unfold Subnets_Acquire. set (y := res_bind _ _). clearbody y.
  destruct y as [[[]]| |]; intros [= <- <-]; eauto.
Qed.

Lemma Remove_inv d r p n x p' : pool_inv d r p -> admissible d r p n ->
  Subnets_Remove n p = (x, p') -> pool_inv d r p'.
Proof.
  intros Hinv (b & q & z & Hn & Hc & Hpl & Hz & Hus & Hap). unfold Subnets_Remove.
  case_decide; [by intros [= <- <-]|]. rewrite Hn.
  destruct (entry_at d r p b q Hinv Hc) as (zs & Hzs & Hnd & Hous).
  rewrite (existsb_is4 _ _ _ _ Hzs Hz). case_bool_decide as Hin; [by intros [= <- <-]|].
  intros [= <- <-]. apply (insert_inv _ _ _ _ _ _ (zs ++ [z])); [done| |done].
  split; [done|done|done|by apply Forall2_app; [|constructor]|by apply NoDup_snoc| |].
  - apply Forall_app. split; [done|by apply Forall_singleton].
  - by intros [_ ?]%app_eq_nil.
Qed.

Lemma pool_step_inv d r p p' : pool_inv d r p -> pool_step d r p p' -> pool_inv d r p'.
Proof.
  intros Hinv Hstep. revert Hinv. destruct Hstep as [sn i x p p' Hsn Hi Hs|n x p p' Hs|n x p p' Ha Hs]; intros Hinv.
  - destruct (Acquire_fails _ _ _ _ _ Hs) as [[n ->]| ->]; [|done].
    destruct (Acquire_acquired _ _ _ _ _ _ _ Hinv Hsn Hi Hs) as (b & q & z & zs & Hacq).
    by eapply acquired_inv.
  - by eapply Release_inv.
  - by eapply (Remove_inv d r p n x).
Qed.

Lemma reachable_inv d r p : reachable d r p -> pool_inv d r p.
Proof.
  intros (Hc & Hr & Hrun). pose proof (NewSubnets_inv d r Hc Hr) as H0.
  induction Hrun as [|p1 p2 p3 Hstep _ IH]; [done|]. by eapply IH, pool_step_inv.
Qed.


Lemma pool_exclusive d r p k1 k2 ips1 ips2 i1 i2 ip1 ip2 : pool_inv d r p ->
  allocated p !! k1 = Some ips1 -> ips1 !! i1 = Some ip1 ->
  allocated p !! k2 = Some ips2 -> ips2 !! i2 = Some ip2 ->
  IP_Equal ip1 ip2 = true -> k1 = k2 /\ i1 = i2.
Proof.
  intros Hinv Hk1 Hi1 Hk2 Hi2 Heq.
  destruct (inv_entries _ _ _ Hinv _ _ Hk1) as (b1 & q1 & zs1 & He1).
  destruct (inv_entries _ _ _ Hinv _ _ Hk2) as (b2 & q2 & zs2 & He2).
  destruct (Forall2_lookup_l _ _ _ _ _ (entry_ips _ _ _ _ _ _ _ He1) Hi1) as (z1 & Hz1 & Hip1).
  destruct (Forall2_lookup_l _ _ _ _ _ (entry_ips _ _ _ _ _ _ _ He2) Hi2) as (z2 & Hz2 & Hip2).
  rewrite (Equal_is4 _ _ _ _ Hip1 Hip2) in Heq. apply bool_decide_eq_true in Heq as <-.
  pose proof (Forall_lookup_1 _ _ _ _ (entry_usable _ _ _ _ _ _ _ He1) Hz1) as Hu1.
  pose proof (Forall_lookup_1 _ _ _ _ (entry_usable _ _ _ _ _ _ _ He2) Hz2) as Hu2.
  unfold usable in Hu1, Hu2.
  destruct (inv_apart _ _ _ Hinv _ _ _ _ _ _ _ _ _ _ Hk1 Hk2 He1 He2) as [[= -> ->]|[?|?]]; cbn in *; [|lia|lia].
  assert (k1 = k2) as -> by (rewrite (entry_key _ _ _ _ _ _ _ He1), (entry_key _ _ _ _ _ _ _ He2); done).
  split; [done|]. rewrite Hk1 in Hk2. injection Hk2 as ->.
  assert (zs1 = zs2) as ->.
  { pose proof (entry_ips _ _ _ _ _ _ _ He1) as F1. pose proof (entry_ips _ _ _ _ _ _ _ He2) as F2. revert F2.
    clear -F1. revert zs2. induction F1 as [|ip x l zs Hip _ IH]; intros zs' F2.
    - by apply Forall2_nil_inv_l in F2 as ->.
    - apply Forall2_cons_inv_l in F2 as (y & zs0 & Hy & F2 & ->).
      rewrite (is4_fun _ _ _ Hip Hy). f_equal. by apply IH. }
  by eapply NoDup_lookup; [apply He2|..].
Qed.

(** ** Dynamic allocation *)

Lemma Mask_Size_32 p : 0 <= p <= 32 -> Mask_Size (CIDRMask p 32) = (p, 32).
Proof.
  intros Hp. unfold Mask_Size. destruct (CIDRMask_32 p Hp) as (_ & _ & -> & ->).
  destruct (Z.eqb_spec p (-1)); [lia|done].
Qed.

Lemma Capacity_slots d r p : canonical d r -> r <= 30 -> dynamicRange p = net4 d r ->
  Subnets_Capacity p = Z.of_nat (slots r).
Proof.
  intros Hc Hr Hd. unfold Subnets_Capacity. rewrite Hd. change (net_Mask (net4 d r)) with (CIDRMask r 32).
  rewrite Mask_Size_32 by apply Hc. pose proof (slots_size d r Hc Hr) as Hs. unfold net_size in Hs.
  rewrite Hs, Z.mul_comm. by apply Z.div_mul.
Qed.

(** A slot is in use exactly when its text is a key of the map. *)
Lemma slot_used d r p L k : pool_inv d r p -> (k < slots r)%nat ->
  (forall b q, (b, q) ∈ L <-> exists k ips zs, allocated p !! k = Some ips /\ entry_ok d r k ips b q zs) ->
  IPNet_String (slot d k) ∈ net_texts (nets L) <-> is_Some (allocated p !! IPNet_String (slot d k)).
Proof.
  intros Hinv Hk HL. destruct (inv_range_ok _ _ _ Hinv) as [Hc Hr].
  pose proof (slot_canonical d r Hc Hr k Hk) as Hsc.
  unfold net_texts, nets. rewrite elem_of_list_to_set, <- list_fmap_compose, list_elem_of_fmap. split.
  - intros ([b q] & Heq & (k' & ips & zs & Hk' & He)%HL). cbn in Heq.
    rewrite Heq, <- (entry_key _ _ _ _ _ _ _ He). eauto.
  - intros [ips Hips]. destruct (inv_entries _ _ _ Hinv _ _ Hips) as (b & q & zs & He).
    exists (b, q). split; [apply (entry_key _ _ _ _ _ _ _ He)|]. apply HL. eauto.
Qed.

Lemma acquire_slot d r p k : pool_inv d r p -> (k < slots r)%nat ->
  SelectIP DynamicIPSelector (slot d k)
    ([] ++ [NetworkIP (slot d k); bytes4 (d + 4 * Z.of_nat k + 1); To16 (bytes4 (d + 4 * Z.of_nat k + 3))])
  = Ok (bytes4 (d + 4 * Z.of_nat k + 2)).
Proof.
  intros Hinv Hk. destruct (inv_range_ok _ _ _ Hinv) as [Hc Hr].
  pose proof (slot_canonical d r Hc Hr k Hk) as Hsc. pose proof (canonical_fits _ _ Hsc) as Hf.
  change (net_size 30) with 4 in Hf. unfold slot. set (b := d + 4 * Z.of_nat k) in *.
  destruct (dynamic_ip_select b 30 Hsc ([] ++ [NetworkIP (net4 b 30); bytes4 (b + 1); To16 (bytes4 (b + 3))])
              [b; b + 1; b + 3]) as [(z & Hz & Hfree & Hmin & ->)|[Hall _]].
  - constructor; [apply is4_4; unfold is_u32; lia|]. constructor; [apply is4_4; unfold is_u32; lia|].
    constructor; [apply is4_16; unfold is_u32; lia|constructor].
  - change (net_size 30) with 4 in Hz. rewrite !not_elem_of_cons in Hfree.
    do 2 f_equal. specialize (Hmin (b + 2)). rewrite !elem_of_cons, elem_of_nil in Hmin. lia.
  - change (net_size 30) with 4 in Hall. specialize (Hall (b + 2)).
    rewrite !elem_of_cons, elem_of_nil in Hall. lia.
Qed.

Lemma is4_16_form z ip : is_u32 z -> is4 ip z -> length ip = 16%nat -> ip = To16 (bytes4 z).
Proof. intros Hz [_ [->| ->]] Hl; done. Qed.

Lemma BroadcastIP_slot d r k : canonical d r -> r <= 30 -> (k < slots r)%nat ->
  BroadcastIP (slot d k) = Ok (To16 (bytes4 (d + 4 * Z.of_nat k + 3))).
Proof.
  intros Hc Hr Hk. pose proof (slot_canonical d r Hc Hr k Hk) as Hsc.
  destruct (max_net4 _ _ Hsc) as (ip & Hip & H4). unfold BroadcastIP, slot. rewrite Hip. f_equal.
  replace (d + 4 * Z.of_nat k + 3) with (d + 4 * Z.of_nat k + net_size 30 - 1)
    by (change (net_size 30) with 4; lia).
  apply is4_16_form; [apply H4|done|]. unfold max, net4, net_Mask, net_IP in Hip.
  case_decide; [|done]. injection Hip as <-. done.
Qed.

Definition dynamic_acquired (d : Z) (k : nat) (p : pool) : pool :=
  set_allocated p (<[IPNet_String (slot d k) := [bytes4 (d + 4 * Z.of_nat k + 2)]]> (allocated p)).

(** A dynamic [Acquire] from any reachable pool. *)
Lemma Acquire_dynamic d r p : pool_inv d r p ->
  (exists k, (k < slots r)%nat /\ allocated p !! IPNet_String (slot d k) = None /\
     (forall j, (j < k)%nat -> is_Some (allocated p !! IPNet_String (slot d j))) /\
     Subnets_Acquire DynamicSubnetSelector DynamicIPSelector p =
       (Ok (mkNetwork (slot d k) (bytes4 (d + 4 * Z.of_nat k + 2))), dynamic_acquired d k p)) \/
  ((forall j, (j < slots r)%nat -> is_Some (allocated p !! IPNet_String (slot d j))) /\
   Subnets_Acquire DynamicSubnetSelector DynamicIPSelector p =
     (if decide (d + net_size r = 4294967296) then Panic "overflowed maximum IP"
      else Err ErrInsufficientSubnets, p)).
Proof.
  intros Hinv. destruct (inv_range_ok _ _ _ Hinv) as [Hc Hr].
  destruct (subnets_ok d r p Hinv) as (L & HLeq & _ & HL).
  destruct (dynamic_select d r Hc Hr (nets L)) as [(k & Hk & Hfree & Hmin & Hsel)|[Hall Hsel]].
  - left. exists k. rewrite (slot_used d r p L k Hinv Hk HL) in Hfree.
    assert (Hnone : allocated p !! IPNet_String (slot d k) = None) by (by apply eq_None_not_Some).
    split_and!; [done|done| |].
    { intros j Hj. apply (slot_used d r p L); [done|lia|done|by apply Hmin]. }
    unfold Subnets_Acquire. rewrite HLeq. cbn [res_bind].
    rewrite (inv_range _ _ _ Hinv), Hsel. cbn [res_bind].
    pose proof (canonical_fits _ _ (slot_canonical d r Hc Hr k Hk)) as Hf. change (net_size 30) with 4 in Hf.
    change (GatewayIP (slot d k)) with (GatewayIP (net4 (d + 4 * Z.of_nat k) 30)).
    rewrite GatewayIP_net4 by (unfold is_u32; lia). cbn [res_bind].
    rewrite (BroadcastIP_slot d r) by done. cbn [res_bind]. rewrite Hnone. cbn [default from_option id].
    rewrite (acquire_slot d r p) by done. cbn [res_bind]. done.
  - right. split.
    { intros j Hj. apply (slot_used d r p L); [done|done|done|by apply Hall]. }
    unfold Subnets_Acquire. rewrite HLeq. cbn [res_bind]. rewrite (inv_range _ _ _ Hinv), Hsel.
    by case_decide.
Qed.

(** ** Release after Acquire *)

Lemma indexOf_last l zs ip z : Forall2 is4 l zs -> is4 ip z -> z ∉ zs ->
  indexOf (l ++ [ip]) ip = Some (length l).
Proof.
  intros Hl Hz. induction Hl as [|e x l zs He Hl IH]; intros Hnin; cbn.
  - by rewrite (Equal_is4 _ _ _ _ Hz Hz), bool_decide_true.
  - rewrite (Equal_is4 _ _ _ _ He Hz), bool_decide_false by set_solver.
    rewrite IH by set_solver. done.
Qed.

Lemma removeIPAtIndex_last l ip : removeIPAtIndex (l ++ [ip]) (length l) = (l, bool_decide (l = [])).
Proof.
  unfold removeIPAtIndex. rewrite length_app. cbn [length]. rewrite Nat.add_sub.
  rewrite lookup_app_r, Nat.sub_diag by lia. cbn [lookup list_lookup default from_option id].
  rewrite insert_app_r_alt, Nat.sub_diag by lia. cbn [insert list_insert].
  rewrite take_app_length. f_equal. apply bool_decide_ext. destruct l; cbn; split; try done; lia.
Qed.

Lemma Release_acquired d r p n p' b q z zs : pool_inv d r p ->
  acquired d r p n p' b q z zs -> Subnets_Release n p' = (Ok tt, p).
Proof.
  intros Hinv [Hn Hc _ _ Hz _ Hold _ Hfresh ->]. unfold Subnets_Release. rewrite Hn. cbn [allocated set_allocated].
  rewrite lookup_insert_eq. cbn [default from_option id].
  rewrite (indexOf_last _ zs _ z), removeIPAtIndex_last by done.
  destruct p as [m rg]. unfold set_allocated. cbn [allocated dynamicRange] in *.
  case_bool_decide as He; repeat f_equal.
  - rewrite delete_insert_eq. apply delete_id. destruct (m !! _) as [ips|] eqn:Hm; [|done]. cbn in He. subst ips.
    destruct (inv_entries _ _ _ Hinv _ _ Hm) as (? & ? & ? & []). done.
  - rewrite insert_insert_eq. apply insert_id. by destruct (m !! _); [|done].
Qed.

(** ** The properties *)

(** The range 10.254.0.0/22, the default of the server, with one container. *)
Definition sample_range : IPNet := net4 184418304 22.
Definition sample_subnets : pool := dynamic_acquired 184418304 0 (NewSubnets sample_range).

Lemma sample_subnets_reachable : reachable 184418304 22 sample_subnets.
Proof.
  split; [split; [lia|split; [unfold is_u32; lia|reflexivity]]|split; [lia|]].
  apply rtc_once. eapply (step_Acquire _ _ DynamicSubnetSelector DynamicIPSelector); [apply _|apply _|].
  vm_compute. reflexivity.
Qed.

(** No address is allocated twice: in every pool that [Acquire] (with the
    static or dynamic selectors), [Release] and [Remove] of admissible networks
    reach, two allocated addresses that are equal are the same allocation. *)
Theorem subnet_pool_exclusive d r p k1 k2 ips1 ips2 i1 i2 ip1 ip2 :
  reachable d r p ->
  allocated p !! k1 = Some ips1 -> ips1 !! i1 = Some ip1 ->
  allocated p !! k2 = Some ips2 -> ips2 !! i2 = Some ip2 ->
  IP_Equal ip1 ip2 = true -> k1 = k2 /\ i1 = i2.
Proof. intros Hr. by apply (pool_exclusive d r), reachable_inv. Qed.

Lemma subnet_pool_exclusive_witness :
  reachable 184418304 22 sample_subnets /\ "10.254.0.0/30" = "10.254.0.0/30" /\ 0%nat = 0%nat.
Proof.
  split; [apply sample_subnets_reachable|].
  eapply (subnet_pool_exclusive 184418304 22 sample_subnets "10.254.0.0/30" "10.254.0.0/30" _ _ 0 0);
    [apply sample_subnets_reachable|vm_compute; reflexivity..].
Defined.



(** C14: a dynamic [Acquire] hands out the first free /30 of the dynamic range
    with its third address; it fails exactly when all [Capacity()] subnets are
    in use, with [ErrInsufficientSubnets], or with a panic when the range ends
    at 255.255.255.255, and then leaves the pool unchanged. *)
Theorem acquire_dynamic_first_free d r p :
  reachable d r p ->
  (exists k, Z.of_nat k < Subnets_Capacity p /\ allocated p !! IPNet_String (slot d k) = None /\
     (forall j, (j < k)%nat -> is_Some (allocated p !! IPNet_String (slot d j))) /\
     Subnets_Acquire DynamicSubnetSelector DynamicIPSelector p =
       (Ok (mkNetwork (slot d k) (bytes4 (d + 4 * Z.of_nat k + 2))), dynamic_acquired d k p)) \/
  ((forall j, Z.of_nat j < Subnets_Capacity p -> is_Some (allocated p !! IPNet_String (slot d j))) /\
   Subnets_Acquire DynamicSubnetSelector DynamicIPSelector p =
     (if decide (d + net_size r = 4294967296) then Panic "overflowed maximum IP"
      else Err ErrInsufficientSubnets, p)).
Proof.
  intros Hr. pose proof (reachable_inv _ _ _ Hr) as Hinv. destruct (inv_range_ok _ _ _ Hinv) as [Hc Hq].
  rewrite (Capacity_slots d r) by (done || apply Hinv).
  destruct (Acquire_dynamic d r p Hinv) as [(k & ? & ? & ? & ?)|[Hall ?]]; [left; exists k|right];
    split_and!; try done; [lia|]. intros j Hj. apply Hall. lia.
Qed.

(** The second dynamic subnet is 10.254.0.4/30, its address 10.254.0.6. *)
Lemma acquire_dynamic_first_free_witness :
  (exists k, Z.of_nat k < Subnets_Capacity sample_subnets /\
     allocated sample_subnets !! IPNet_String (slot 184418304 k) = None /\
     (forall j, (j < k)%nat -> is_Some (allocated sample_subnets !! IPNet_String (slot 184418304 j))) /\
     Subnets_Acquire DynamicSubnetSelector DynamicIPSelector sample_subnets =
       (Ok (mkNetwork (slot 184418304 k) (bytes4 (184418304 + 4 * Z.of_nat k + 2))),
        dynamic_acquired 184418304 k sample_subnets)) \/
  ((forall j, Z.of_nat j < Subnets_Capacity sample_subnets ->
      is_Some (allocated sample_subnets !! IPNet_String (slot 184418304 j))) /\
   Subnets_Acquire DynamicSubnetSelector DynamicIPSelector sample_subnets =
     (if decide (184418304 + net_size 22 = 4294967296) then Panic "overflowed maximum IP"
      else Err ErrInsufficientSubnets, sample_subnets)).
Proof. apply (acquire_dynamic_first_free 184418304 22). apply sample_subnets_reachable. Defined.

(** [Release] undoes [Acquire]: releasing the network that [Acquire] returned
    gives back exactly the pool before it, entry by entry. *)
Theorem release_undoes_acquire d r p sn i n p' :
  reachable d r p -> LawfulSubnet d r sn -> LawfulIP i ->
  Subnets_Acquire sn i p = (Ok n, p') -> Subnets_Release n p' = (Ok tt, p).
Proof.
  intros Hr Hsn Hi Ha. pose proof (reachable_inv _ _ _ Hr) as Hinv.
  destruct (Acquire_acquired _ _ _ _ _ _ _ Hinv Hsn Hi Ha) as (b & q & z & zs & Hacq).
  by eapply Release_acquired.
Qed.

Lemma release_undoes_acquire_witness :
  Subnets_Release (mkNetwork (slot 184418304 1) (bytes4 (184418304 + 4 * Z.of_nat 1 + 2)))
    (dynamic_acquired 184418304 1 sample_subnets) = (Ok tt, sample_subnets).
Proof.
  eapply (release_undoes_acquire 184418304 22 sample_subnets DynamicSubnetSelector DynamicIPSelector);
    [apply sample_subnets_reachable|apply _|apply _|vm_compute; reflexivity].
Defined.

(** [Remove] compares addresses only within the entry of the very same
    subnet, so it accepts a network whose subnet overlaps one in use: from a
    pool whose only entry is the subnet 10.254.0.0/30, it takes 10.254.0.2 out
    of 10.254.0.0/24, and the address 10.254.0.2 is then allocated twice. *)
Theorem Remove_accepts_overlapping_subnet :
  let n := mkNetwork (net4 184418304 24) (bytes4 184418306) in
  exists p', Subnets_Remove n sample_subnets = (Ok tt, p') /\
    overlaps (nw_Subnet n) (slot 184418304 0) = true /\
    allocated p' !! "10.254.0.0/30" = Some [bytes4 184418306] /\
    allocated p' !! "10.254.0.0/24" = Some [bytes4 184418306].
Proof.
  eexists. split; [vm_compute; reflexivity|]. vm_compute. done.
Qed.
