(* ===== verification/World.v ===== *)
(** * The world outside the process

    The program acts on the host through commands (the [CommandRunner] it is
    given), files and system calls. None of that is code of the repository, so
    the world is a parameter: an [Env] answers a call, given the calls made so
    far, with its output or an error. The state of an effectful operation is the
    history of its calls, oldest first; theorems quantify over the [Env], which
    covers every pattern of failures. *)
From S2P Require Import Prelude GoStrings.

(** [exec.Cmd]: [Args] without the program name, [Env] and standard input. *)
Record Cmd := mkCmd {
  cmd_Path : string;
  cmd_Args : list string;
  cmd_Env : list string;
  cmd_Stdin : string
}.

#[export] Instance Cmd_eq_dec : EqDecision Cmd.
Proof. solve_decision. Defined.

(** [exec.Command(path, args...)] *)
Definition Command (path : string) (args : list string) : Cmd := mkCmd path args [] "".

(** The calls. [Sys] is a call of a collaborator or of the operating system that
    has no constructor of its own: its name and its arguments. *)
Inductive Call :=
| Run (c : Cmd)
| Start (c : Cmd)
| Background (c : Cmd)
| ReadFile (path : string)
| WriteFile (path data : string)
| MkdirAll (path : string)
| RemoveAll (path : string)
| Sys (name : string) (args : list string).

#[export] Instance Call_eq_dec : EqDecision Call.
Proof. solve_decision. Defined.

Definition World : Type := list Call.

(** What the world answers to a call after a history of calls. *)
Definition Env : Type := World -> Call -> string + error.

(** An environment in which every call succeeds with empty output. *)
Definition env_ok : Env := fun _ _ => inl "".

Section World.
Context (env : Env).

Definition call (c : Call) : M World string := fun h =>
  (match env h c with inl out => Ok out | inr e => Err e end, h ++ [c]).

Definition call_ (c : Call) : M World unit := bind (call c) (fun _ => ret tt).

(** [call_] in one step. *)
Lemma call__eq c h :
  call_ c h = (match env h c with inl _ => Ok tt | inr e => Err e end, h ++ [c]).
Proof. unfold call_, bind, call, ret. by destruct (env h c). Qed.

(** Run the calls in order, up to the first that fails. *)
Definition calls (l : list Call) : M World unit := for_each call_ l.

(** What a sequence of calls leaves in the history: all of them when it
    succeeds, a prefix that ends with the failing one when it does not. *)
Lemma calls_history l h r h' : calls l h = (r, h') ->
  (r = Ok tt /\ h' = h ++ l) \/
  (exists l1 c l2 e, l = l1 ++ c :: l2 /\ r = Err e /\ h' = h ++ l1 ++ [c]).
Proof.
  unfold calls. revert h. induction l as [|c l IH]; intros h; cbn.
  - intros [= <- <-]. left. by rewrite app_nil_r.
  - unfold bind at 1. rewrite call__eq. destruct (env h c) as [o|e].
    + intros [[-> ->]|(l1 & c' & l2 & e & -> & -> & ->)]%IH.
      * left. by rewrite <- (assoc_L (++)).
      * right. exists (c :: l1), c', l2, e. by rewrite <- (assoc_L (++)).
    + intros [= <- <-]. right. by exists [], c, l, e.
Qed.
End World.

#[export] Hint Rewrite call__eq : garden.

(** ** Operations on a component's state and the world *)

Definition eff {S A} (m : M World A) : M (S * World) A := zoom snd (fun w s => (s.1, w)) m.
Definition local {S A} (m : M S A) : M (S * World) A := zoom fst (fun t s => (t, s.2)) m.
Definition gets {S A} (f : S -> A) : M (S * World) A := fun s => (Ok (f s.1), s).
Definition update {S} (f : S -> S) : M (S * World) unit := fun s => (Ok tt, (f s.1, s.2)).

Lemma eff_eq {S A} (m : M World A) (s : S) w : eff m (s, w) = match m w with (r, w') => (r, (s, w')) end.
Proof. done. Qed.

Lemma call_eq env c h :
  call env c h = (match env h c with inl out => Ok out | inr e => Err e end, h ++ [c]).
Proof. done. Qed.

Lemma ignore_call env c w : ignore (call_ env c) w = (Ok tt, w ++ [c]).
Proof. rewrite ignore_eq, call__eq. by destruct (env w c). Qed.

(** ** What an operation leaves alone

    [keeps f m]: however [m] ends, [f] of the state is what it was. *)

Definition keeps {S T A} (f : S -> T) (m : M S A) : Prop := forall s r s', m s = (r, s') -> f s' = f s.

Section Keeps.
Context {S T : Type} (f : S -> T).

Lemma keeps_ret {A} (a : A) : keeps f (ret a).
Proof. by intros s r s' [= <- <-]. Qed.
Lemma keeps_fail {A} e : keeps (A := A) f (fail e).
Proof. by intros s r s' [= <- <-]. Qed.
Lemma keeps_panic {A} e : keeps (A := A) f (panic e).
Proof. by intros s r s' [= <- <-]. Qed.
Lemma keeps_lift {A} (x : result A) : keeps f (lift x).
Proof. by intros s r s' [= <- <-]. Qed.
Lemma keeps_zoom {X A} (get : S -> X) set (m : M X A) : (forall x s, f (set x s) = f s) -> keeps f (zoom get set m).
Proof. intros Hs s r s'. unfold zoom. destruct (m (get s)). intros [= <- <-]. apply Hs. Qed.
Lemma keeps_bind {A B} (m : M S A) (k : A -> M S B) : keeps f m -> (forall a, keeps f (k a)) -> keeps f (bind m k).
Proof.
  intros Hm Hk s r s''. rewrite bind_eq. destruct (m s) as [[a|e|p] s'] eqn:E; specialize (Hm _ _ _ E).
  - intros H%Hk. congruence.
  - by intros [= <- <-].
  - by intros [= <- <-].
Qed.
Lemma keeps_attempt {A} (m : M S A) : keeps f m -> keeps f (attempt m).
Proof.
  intros Hm s r s'. rewrite attempt_eq. destruct (m s) as [[a|e|p] s1] eqn:E; specialize (Hm _ _ _ E); by intros [= <- <-].
Qed.
Lemma keeps_map_err {A} g (m : M S A) : keeps f m -> keeps f (map_err g m).
Proof.
  intros Hm s r s'. rewrite map_err_eq. destruct (m s) as [[a|e|p] s1] eqn:E; specialize (Hm _ _ _ E); by intros [= <- <-].
Qed.
Lemma keeps_ignore {A} (m : M S A) : keeps f m -> keeps f (ignore m).
Proof.
  intros Hm s r s'. rewrite ignore_eq. destruct (m s) as [[a|e|p] s1] eqn:E; specialize (Hm _ _ _ E); by intros [= <- <-].
Qed.
Lemma keeps_on_err {A} (m : M S A) undo : keeps f m -> keeps f undo -> keeps f (on_err m undo).
Proof.
  intros Hm Hu. unfold on_err. apply keeps_bind; [by apply keeps_attempt|].
  intros [a|e]; [apply keeps_ret|]. apply keeps_bind; [by apply keeps_ignore|]. intros _. apply keeps_fail.
Qed.
Lemma keeps_for_each {A} (g : A -> M S unit) l : (forall x, keeps f (g x)) -> keeps f (for_each g l).
Proof. intros Hg. induction l as [|x l IH]; [apply keeps_ret|]. by apply keeps_bind. Qed.
End Keeps.

Lemma keeps_gets {S T A} (f : S * World -> T) (g : S -> A) : keeps f (gets g).
Proof. by intros s r s' [= <- <-]. Qed.

Lemma keeps_update {S T} (f : S * World -> T) (g : S -> S) : (forall s, f (g s.1, s.2) = f s) -> keeps f (update g).
Proof. intros Hg s r s' [= <- <-]. apply Hg. Qed.

(** Decompose an operation down to its parts. *)
Ltac keeps_tac :=
  repeat first
    [ progress intros
    | apply keeps_ret | apply keeps_fail | apply keeps_panic | apply keeps_lift | apply keeps_gets
    | apply keeps_zoom; intros; reflexivity
    | apply keeps_update; intros; reflexivity
    | apply keeps_map_err | apply keeps_ignore | apply keeps_attempt | apply keeps_on_err | apply keeps_for_each
    | apply keeps_bind
    | case_match ].

(** ** What an operation adds to the history *)

(** [runs m l]: [m] makes the calls [l] in order when it succeeds, and a prefix of
    them when it fails; it does not panic. *)
Definition runs {A} (m : M World A) (l : list Call) : Prop := forall w r w', m w = (r, w') ->
  match r with
  | Ok _ => w' = w ++ l
  | Err _ => exists l1, l1 `prefix_of` l /\ w' = w ++ l1
  | Panic _ => False
  end.

Lemma runs_ret {A} (a : A) : runs (ret a) [].
Proof. intros w r w' [= <- <-]. by rewrite app_nil_r. Qed.

Lemma runs_call_ env c : runs (call_ env c) [c].
Proof. intros w r w'. rewrite call__eq. destruct (env w c); intros [= <- <-]; [done|]. by exists [c]. Qed.

Lemma runs_map_err {A} g (m : M World A) l : runs m l -> runs (map_err g m) l.
Proof.
  intros Hm w r w'. rewrite map_err_eq. destruct (m w) as [[a|e|p] w1] eqn:E; pose proof (Hm _ _ _ E) as H1;
    intros [= <- <-]; exact H1.
Qed.

(** The second part may use the value that the first one returned. *)
Lemma runs_bind_value {A B} (m : M World A) (k : A -> M World B) l1 l2 :
  runs m l1 -> (forall w a w', m w = (Ok a, w') -> runs (k a) l2) -> runs (bind m k) (l1 ++ l2).
Proof.
  intros Hm Hk w r w'. rewrite bind_eq. destruct (m w) as [[a|e|p] w1] eqn:E; pose proof (Hm _ _ _ E) as H1; cbn in H1.
  - subst w1. intros H2%(Hk _ _ _ E). destruct r as [b|e|p]; [by rewrite H2, (assoc_L (++))| |done].
    destruct H2 as (l & Hl & ->). exists (l1 ++ l). split; [by apply prefix_app|by rewrite (assoc_L (++))].
  - intros [= <- <-]. destruct H1 as (l & Hl & ->). exists l. split; [by apply prefix_app_r|done].
  - done.
Qed.

Lemma runs_bind {A B} (m : M World A) (k : A -> M World B) l1 l2 :
  runs m l1 -> (forall a, runs (k a) l2) -> runs (bind m k) (l1 ++ l2).
Proof. intros Hm Hk. by apply runs_bind_value. Qed.

(** However [m] ends, the calls it adds all satisfy [P]. *)
Definition emits {A} (P : Call -> Prop) (m : M World A) : Prop :=
  forall w r w', m w = (r, w') -> exists l, w' = w ++ l /\ Forall P l.

Lemma emits_ret {A} P (a : A) : emits P (ret a).
Proof. intros w r w' [= _ <-]. exists []. by rewrite app_nil_r. Qed.
Lemma emits_fail {A} P e : emits (A := A) P (fail e).
Proof. intros w r w' [= _ <-]. exists []. by rewrite app_nil_r. Qed.
Lemma emits_lift {A} P (x : result A) : emits P (lift x).
Proof. intros w r w' [= _ <-]. exists []. by rewrite app_nil_r. Qed.
Lemma emits_call P env c : P c -> emits P (call env c).
Proof. intros Hc w r w' [= _ <-]. exists [c]. by rewrite Forall_singleton. Qed.
Lemma emits_bind {A B} P (m : M World A) (k : A -> M World B) : emits P m -> (forall a, emits P (k a)) -> emits P (bind m k).
Proof.
  intros Hm Hk w r w'. rewrite bind_eq. destruct (m w) as [[a|e|p] w1] eqn:E; destruct (Hm _ _ _ E) as (l & -> & Hl).
  - intros H. destruct (Hk a _ _ _ H) as (l2 & -> & Hl2). exists (l ++ l2). by rewrite (assoc_L (++)), Forall_app.
  - intros [= _ <-]. eauto.
  - intros [= _ <-]. eauto.
Qed.
Lemma emits_attempt {A} P (m : M World A) : emits P m -> emits P (attempt m).
Proof. intros Hm w r w'. rewrite attempt_eq. destruct (m w) as [[a|e|p] w1] eqn:E; intros [= _ <-]; eauto. Qed.
Lemma emits_map_err {A} P g (m : M World A) : emits P m -> emits P (map_err g m).
Proof. intros Hm w r w'. rewrite map_err_eq. destruct (m w) as [[a|e|p] w1] eqn:E; intros [= _ <-]; eauto. Qed.
Lemma emits_for_each {A} P (g : A -> M World unit) l : Forall (fun x => emits P (g x)) l -> emits P (for_each g l).
Proof. induction 1; [apply emits_ret|]. by apply emits_bind. Qed.

Lemma call__Ok env c w r w' : call_ env c w = (r, w') -> w' = w ++ [c].
Proof. rewrite call__eq. by intros [= _ <-]. Qed.
Lemma emits_call_ P env c : P c -> emits P (call_ env c).
Proof. intros Hc. apply emits_bind; [by apply emits_call|]. intros _. apply emits_ret. Qed.

(** When a call that [m] never makes is in the history after [m] and then [k],
    [m] succeeded and [k] made it. *)
Lemma emits_bind_inv {A B} P (m : M World A) (k : A -> M World B) c w r w' :
  emits P m -> ~ P c -> bind m k w = (r, w') -> c ∉ w -> c ∈ w' ->
  exists a w1, m w = (Ok a, w1) /\ c ∉ w1 /\ k a w1 = (r, w').
Proof.
  intros Hm Hc Hrun Hw Hw'.
  assert (Hno : forall r1 w1, m w = (r1, w1) -> c ∉ w1).
  { intros r1 w1 Hr. destruct (Hm _ _ _ Hr) as (l & -> & Hl). rewrite not_elem_of_app. split; [done|].
    intros Hin. rewrite Forall_forall in Hl. by apply Hc, Hl. }
  rewrite bind_eq in Hrun. destruct (m w) as [[a|e|p] w1] eqn:E; [|injection Hrun as <- <-; by destruct (Hno _ _ eq_refl)..].
  exists a, w1. eauto.
Qed.

Lemma runs_for_each {A} (f : A -> M World unit) (g : A -> list Call) l :
  (forall x, runs (f x) (g x)) -> runs (for_each f l) (l ≫= g).
Proof. intros Hf. induction l as [|x l IH]; [apply runs_ret|]. cbn. by apply runs_bind. Qed.

(** The calls of [runs] are the calls that are made. *)
Lemma runs_Ok {A} (m : M World A) l w a w' : runs m l -> m w = (Ok a, w') -> w' = w ++ l.
Proof. intros Hm H. by apply Hm in H. Qed.

Lemma runs_emits {A} P (m : M World A) l : runs m l -> Forall P l -> emits P m.
Proof.
  intros Hm Hl w r w' H%Hm. destruct r as [a|e|p]; [by exists l| |done].
  destruct H as (l1 & [l2 ->] & ->). exists l1. split; [done|]. by apply Forall_app in Hl as [? _].
Qed.

(** ** Errors that become panics

    [musts m l]: [m] makes the calls [l] in order, or panics after some of them. *)

Definition or_panic {A} (msg : string) (m : M World A) : M World A := fun w =>
  match m w with (Err _, w') => (Panic msg, w') | x => x end.

Definition musts {A} (m : M World A) (l : list Call) : Prop := forall w r w', m w = (r, w') ->
  match r with
  | Ok _ => w' = w ++ l
  | Err _ => False
  | Panic _ => exists l1, l1 `prefix_of` l /\ w' = w ++ l1
  end.

Lemma musts_or_panic {A} msg (m : M World A) l : runs m l -> musts (or_panic msg m) l.
Proof.
  intros Hm w r w'. unfold or_panic. destruct (m w) as [[a|e|p] w1] eqn:E; apply Hm in E; by intros [= <- <-].
Qed.

Lemma musts_ignore env c : musts (ignore (call_ env c)) [c].
Proof. intros w r w'. rewrite ignore_eq, call__eq. by destruct (env w c); intros [= <- <-]. Qed.

Lemma musts_bind {A B} (m : M World A) (k : A -> M World B) l1 l2 : musts m l1 -> (forall a, musts (k a) l2) -> musts (bind m k) (l1 ++ l2).
Proof.
  intros Hm Hk w r w'. rewrite bind_eq. destruct (m w) as [[a|e|p] w1] eqn:E; apply Hm in E; [|done|].
  - subst w1. intros H%Hk. destruct r as [b|e|p]; [by rewrite (assoc_L (++))|done|].
    destruct H as (l & Hl & ->). exists (l1 ++ l). split; [by apply prefix_app|by rewrite (assoc_L (++))].
  - intros [= <- <-]. destruct E as (l & Hl & ->). exists l. split; [by apply prefix_app_r|done].
Qed.

Lemma musts_ret {A} (a : A) : musts (ret a) [].
Proof. intros w r w' [= <- <-]. by rewrite app_nil_r. Qed.
