(* ===== verification/ProcessEnv.v ===== *)
(** * Process environments (src/process/env.go)

    [Env] is a Go map from variable names to values. *)
From S2P Require Import Prelude GoStrings World.

Notation ProcEnv := (gmap string string).

Fixpoint NewEnv_loop (env : ProcEnv) (array : list string) : result ProcEnv :=
  match array with
  | [] => Ok env
  | str :: array' =>
      if decide (str = "") then Err (Errorf "process: malformed environment: empty string")
      else
        match cut "="%char str with
        | (_, None) =>
            Err (Errorv "process: malformed environment: invalid format (not key=value): %q" [str])
        | (key, Some value) =>
            if decide (key = "") then Err (Errorv "process: malformed environment: empty key: %q" [str])
            else NewEnv_loop (<[key := value]> env) array'
        end
  end.

Definition NewEnv (array : list string) : result ProcEnv := NewEnv_loop ∅ array.

Definition Env_Merge (env other : ProcEnv) : ProcEnv := other ∪ env.

(** The order of [sort.Strings]: byte-wise lexicographic. *)
Fixpoint str_leb (a b : string) : bool :=
  match a, b with
  | "", _ => true
  | String _ _, "" => false
  | String c a', String d b' =>
      if (nat_of_ascii c =? nat_of_ascii d)%nat then str_leb a' b'
      else (nat_of_ascii c <? nat_of_ascii d)%nat
  end.

Definition str_le (a b : string) : Prop := str_leb a b = true.

#[export] Instance str_le_dec a b : Decision (str_le a b).
Proof. unfold str_le. apply _. Defined.

Definition sort_Strings (l : list string) : list string := merge_sort str_le l.

Definition pair_text (kv : string * string) : string := kv.1 +:+ "=" +:+ kv.2.

Definition Env_Array (env : ProcEnv) : list string := sort_Strings (pair_text <$> map_to_list env).

(** [unicode.IsSpace] on ASCII, as [strings.TrimSpace] uses it. *)
Definition is_space (c : ascii) : bool :=
  let n := nat_of_ascii c in ((9 <=? n) && (n <=? 13) || (n =? 32))%nat.

Definition EnvFromFile (env : Env) (filePath : string) : M World ProcEnv :=
  bind (map_err (Wrapf "process: EnvFromFile: %s" []) (call env (ReadFile filePath))) (fun f =>
  let lines := split newline (trim is_space f) in
  let nonEmptyLines := filter (fun line => line <> "") lines in
  lift (NewEnv nonEmptyLines)).

(** ** The order on strings *)

Lemma nat_of_ascii_inj c d : nat_of_ascii c = nat_of_ascii d -> c = d.
Proof. intros H. by rewrite <- (ascii_nat_embedding c), <- (ascii_nat_embedding d), H. Qed.

#[export] Instance str_le_total : Total str_le.
Proof.
  intros a. unfold str_le. induction a as [|c a IH]; intros b; [by left|].
  destruct b as [|d b]; [by right|]. cbn [str_leb].
  rewrite (Nat.eqb_sym (nat_of_ascii d)). destruct (Nat.eqb_spec (nat_of_ascii c) (nat_of_ascii d)); [apply IH|].
  destruct (Nat.ltb_spec (nat_of_ascii c) (nat_of_ascii d)); [by left|right].
  apply Nat.ltb_lt. lia.
Qed.

#[export] Instance str_le_antisym : AntiSymm (=) str_le.
Proof.
  intros a. unfold str_le. induction a as [|c a IH]; intros [|d b]; cbn [str_leb]; try done.
  rewrite (Nat.eqb_sym (nat_of_ascii d)). destruct (Nat.eqb_spec (nat_of_ascii c) (nat_of_ascii d)) as [He|Hne].
  - apply nat_of_ascii_inj in He as ->. intros H1 H2. f_equal. by apply IH.
  - intros H1%Nat.ltb_lt H2%Nat.ltb_lt. lia.
Qed.

#[export] Instance str_le_trans : Transitive str_le.
Proof.
  intros a. unfold str_le. induction a as [|c a IH]; intros [|d b] [|e s]; cbn [str_leb]; try done.
  destruct (Nat.eqb_spec (nat_of_ascii c) (nat_of_ascii d)), (Nat.eqb_spec (nat_of_ascii d) (nat_of_ascii e)),
    (Nat.eqb_spec (nat_of_ascii c) (nat_of_ascii e)); try lia; rewrite ?Nat.ltb_lt; try lia; eauto.
Qed.

Lemma sort_Strings_perm l : sort_Strings l ≡ₚ l.
Proof. apply merge_sort_Permutation. Qed.

(** Two orders of the same strings sort to the same list. *)
Lemma sort_Strings_ext l k : l ≡ₚ k -> sort_Strings l = sort_Strings k.
Proof.
  intros H. apply (StronglySorted_unique str_le); [apply (StronglySorted_merge_sort str_le)..|].
  etrans; [apply sort_Strings_perm|]. etrans; [exact H|]. symmetry. apply sort_Strings_perm.
Qed.

(** ** Round trip *)

(** The names an environment array can carry. *)
Definition env_key (k : string) : Prop := k <> "" /\ "="%char ∉ chars k.
Definition env_wf (e : ProcEnv) : Prop := map_Forall (fun k _ => env_key k) e.

Lemma NewEnv_loop_pairs l env : Forall (fun kv => env_key kv.1) l ->
  NewEnv_loop env (pair_text <$> l) = Ok (foldl (fun e kv => <[kv.1 := kv.2]> e) env l).
Proof.
  intros Hl. revert env. induction Hl as [|[k v] l [Hne Hk] Hl IH]; intros env; [done|].
  cbn [fmap list_fmap NewEnv_loop foldl fst snd] in *.
  change (pair_text (k, v)) with (k +:+ String "="%char v). rewrite decide_False.
  - rewrite cut_app by done. rewrite decide_False by done. apply IH.
  - intros H. by destruct k.
Qed.

(** Parsing any order of an environment's strings gives the environment. *)
Lemma NewEnv_perm e l : env_wf e -> l ≡ₚ pair_text <$> map_to_list e -> NewEnv l = Ok e.
Proof.
  intros Hwf Hl. apply Permutation_map_inv in Hl as (k & -> & Hk).
  assert (Hnd : NoDup k.*1) by (rewrite <- Hk; apply NoDup_fst_map_to_list).
  unfold NewEnv. change (map pair_text k) with (pair_text <$> k).
  rewrite NewEnv_loop_pairs, foldl_insert, (right_id_L ∅ (∪)) by
    (done || (rewrite <- Hk; apply Forall_forall; intros [x y] Hx%elem_of_map_to_list; by apply (Hwf x y))).
  f_equal. rewrite <- (list_to_map_to_list e). symmetry. apply list_to_map_proper; [|done].
  apply NoDup_fst_map_to_list.
Qed.

(** An environment survives its array: [NewEnv] of [Array()] is the
    environment, when its names are the ones an array can carry (not empty, no
    equals sign). *)
Theorem NewEnv_Array e : env_wf e -> NewEnv (Env_Array e) = Ok e.
Proof. intros Hwf. apply NewEnv_perm; [done|]. apply sort_Strings_perm. Qed.

Lemma NewEnv_Array_witness :
  NewEnv (Env_Array {["PATH" := "/bin"; "A" := "b=c"]}) = Ok {["PATH" := "/bin"; "A" := "b=c"]}.
Proof.
  apply NewEnv_Array. intros k v [[<- <-]|[_ [<- <-]%lookup_singleton_Some]]%lookup_insert_Some;
    (split; [done|]); intros H; cbn in H; repeat (apply elem_of_cons in H as [H|H]; [discriminate|]);
    by apply elem_of_nil in H.
Defined.

(** What [Array()] returns does not depend on the order in which the map is
    iterated, and it is sorted. *)
Theorem Env_Array_order_independent e (iteration : list (string * string)) :
  iteration ≡ₚ map_to_list e ->
  sort_Strings (pair_text <$> iteration) = Env_Array e /\ StronglySorted str_le (Env_Array e).
Proof.
  intros H. split; [|apply (StronglySorted_merge_sort str_le)].
  apply sort_Strings_ext. by rewrite H.
Qed.

Lemma Env_Array_order_independent_witness :
  sort_Strings (pair_text <$> [("B", "2"); ("A", "1")]) = Env_Array {["A" := "1"; "B" := "2"]} /\
  StronglySorted str_le (Env_Array {["A" := "1"; "B" := "2"]}).
Proof.
  apply Env_Array_order_independent. vm_compute. constructor || apply Permutation_swap || reflexivity.
Defined.
