(* ===== verification/RLimits.v ===== *)
(** * Resource limits (src/container_daemon/rlimits_manager.go)

    The limits travel to the container as one environment variable, encoded by
    [EncodeLimits] and read back by [DecodeLimits]; [Apply] sets them with
    [setrlimit], [Init] raises the hard limits. *)
From S2P Require Import Prelude GoStrings World ProcessEnv.

(** [garden.ResourceLimits]: each field a [*uint64]. *)
Record ResourceLimits := mkLimits {
  As : option Z;
  Core : option Z;
  Cpu : option Z;
  Data : option Z;
  Fsize : option Z;
  Locks : option Z;
  Memlock : option Z;
  Msgqueue : option Z;
  Nice : option Z;
  Nofile : option Z;
  Nproc : option Z;
  Rss : option Z;
  Rtprio : option Z;
  Sigpending : option Z;
  Stack : option Z
}.

Definition empty_limits : ResourceLimits :=
  mkLimits None None None None None None None None None None None None None None None.

(** The numbers of the system's limits. *)
Definition RLIMIT_CPU : Z := 0.
Definition RLIMIT_FSIZE : Z := 1.
Definition RLIMIT_DATA : Z := 2.
Definition RLIMIT_STACK : Z := 3.
Definition RLIMIT_CORE : Z := 4.
Definition RLIMIT_RSS : Z := 5.
Definition RLIMIT_NPROC : Z := 6.
Definition RLIMIT_NOFILE : Z := 7.
Definition RLIMIT_MEMLOCK : Z := 8.
Definition RLIMIT_AS : Z := 9.
Definition RLIMIT_LOCKS : Z := 10.
Definition RLIMIT_SIGPENDING : Z := 11.
Definition RLIMIT_MSGQUEUE : Z := 12.
Definition RLIMIT_NICE : Z := 13.
Definition RLIMIT_RTPRIO : Z := 14.
Definition RLIMIT_INFINITY : Z := 18446744073709551615.

(** ** Encoding *)

(** [if p != nil { limits = append(limits, fmt.Sprintf("NAME=%d", *p)) }] *)
Definition append_limit (limits : list string) (name : string) (p : option Z) : list string :=
  match p with
  | Some v => limits ++ [name +:+ "=" +:+ FormatUint v 10]
  | None => limits
  end.

Definition EncodeLimits (rlimits : ResourceLimits) : string :=
  let limits := [] in
  let limits := append_limit limits "RLIMIT_AS" (As rlimits) in
  let limits := append_limit limits "RLIMIT_CORE" (Core rlimits) in
  let limits := append_limit limits "RLIMIT_CPU" (Cpu rlimits) in
  let limits := append_limit limits "RLIMIT_DATA" (Data rlimits) in
  let limits := append_limit limits "RLIMIT_FSIZE" (Fsize rlimits) in
  let limits := append_limit limits "RLIMIT_LOCKS" (Locks rlimits) in
  let limits := append_limit limits "RLIMIT_MEMLOCK" (Memlock rlimits) in
  let limits := append_limit limits "RLIMIT_MSGQUEUE" (Msgqueue rlimits) in
  let limits := append_limit limits "RLIMIT_NICE" (Nice rlimits) in
  let limits := append_limit limits "RLIMIT_NOFILE" (Nofile rlimits) in
  let limits := append_limit limits "RLIMIT_NPROC" (Nproc rlimits) in
  let limits := append_limit limits "RLIMIT_RSS" (Rss rlimits) in
  let limits := append_limit limits "RLIMIT_RTPRIO" (Rtprio rlimits) in
  let limits := append_limit limits "RLIMIT_SIGPENDING" (Sigpending rlimits) in
  let limits := append_limit limits "RLIMIT_STACK" (Stack rlimits) in
  join "," limits.

(** ** Decoding *)

(** [fmt.Sscanf(s, "%d", &val)] for a [uint64]: blanks are skipped, a newline
    among them is an error, at least one digit must follow, and the number must
    fit; what follows the digits is not looked at. *)
Fixpoint scan_digits (s : string) : string :=
  match s with
  | "" => ""
  | String c s' => if digit_val c <? 10 then String c (scan_digits s') else ""
  end.

Fixpoint Sscanf_d (s : string) : option Z :=
  match s with
  | "" => None
  | String c s' =>
      if is_newline c then None
      else if is_space c then Sscanf_d s'
      else match ParseUint (scan_digits s) with Ok v => Some v | _ => None end
  end.

Fixpoint decode_loop (env : gmap string Z) (limits : list string) : gmap string Z :=
  match limits with
  | [] => env
  | str :: limits' =>
      match cut "="%char str with
      | (name, Some text) =>
          match Sscanf_d text with
          | Some val => decode_loop (<[name := val]> env) limits'
          | None => decode_loop env limits'
          end
      | (_, None) => decode_loop env limits'
      end
  end.

Definition decode (encodedLimits : string) : gmap string Z :=
  decode_loop ∅ (split ","%char encodedLimits).

Definition DecodeLimits (encodedLimits : string) : ResourceLimits :=
  let limits := decode encodedLimits in
  {|
    As := limits !! "RLIMIT_AS";
    Core := limits !! "RLIMIT_CORE";
    Cpu := limits !! "RLIMIT_CPU";
    Data := limits !! "RLIMIT_DATA";
    Fsize := limits !! "RLIMIT_FSIZE";
    Locks := limits !! "RLIMIT_LOCKS";
    Memlock := limits !! "RLIMIT_MEMLOCK";
    Msgqueue := limits !! "RLIMIT_MSGQUEUE";
    Nice := limits !! "RLIMIT_NICE";
    Nofile := limits !! "RLIMIT_NOFILE";
    Nproc := limits !! "RLIMIT_NPROC";
    Rss := limits !! "RLIMIT_RSS";
    Rtprio := limits !! "RLIMIT_RTPRIO";
    Sigpending := limits !! "RLIMIT_SIGPENDING";
    Stack := limits !! "RLIMIT_STACK"
  |}.

(** ** System calls *)

(** [if p != nil { m[id] = *p }] *)
Definition set_flag (id : Z) (p : option Z) (m : gmap Z Z) : gmap Z Z :=
  match p with Some v => <[id := v]> m | None => m end.

Definition getSystemRlimitFlags (rlimits : ResourceLimits) : gmap Z Z :=
  let m := ∅ in
  let m := set_flag RLIMIT_CPU (Cpu rlimits) m in
  let m := set_flag RLIMIT_FSIZE (Fsize rlimits) m in
  let m := set_flag RLIMIT_DATA (Data rlimits) m in
  let m := set_flag RLIMIT_STACK (Stack rlimits) m in
  let m := set_flag RLIMIT_CORE (Core rlimits) m in
  let m := set_flag RLIMIT_RSS (Rss rlimits) m in
  let m := set_flag RLIMIT_NPROC (Nproc rlimits) m in
  let m := set_flag RLIMIT_NOFILE (Nofile rlimits) m in
  let m := set_flag RLIMIT_MEMLOCK (Memlock rlimits) m in
  let m := set_flag RLIMIT_AS (As rlimits) m in
  let m := set_flag RLIMIT_LOCKS (Locks rlimits) m in
  let m := set_flag RLIMIT_SIGPENDING (Sigpending rlimits) m in
  let m := set_flag RLIMIT_MSGQUEUE (Msgqueue rlimits) m in
  let m := set_flag RLIMIT_NICE (Nice rlimits) m in
  let m := set_flag RLIMIT_RTPRIO (Rtprio rlimits) m in
  m.

(** [syscall.Setrlimit(id, &Rlimit{cur, max})] *)
Definition Setrlimit (id : Z) (cur max : string) : Call := Sys "setrlimit" [FormatUint id 10; cur; max].
Definition Getrlimit (id : Z) : Call := Sys "getrlimit" [FormatUint id 10].

Section Manager.
Context (env : Env).
Local Open Scope go_scope.

Definition RlimitsManager_Apply (rlimits : ResourceLimits) : M World unit :=
  for_each (fun '(whichRLimit, value) =>
    map_err (Wrapf "container_daemon: setting rlimit: %s" [])
      (call_ env (Setrlimit whichRLimit (FormatUint value 10) (FormatUint value 10))))
    (map_to_list (getSystemRlimitFlags rlimits)).

Definition MaxNoFile : M World Z :=
  let! contents := map_err (Wrapf "container_daemon: failed to read /proc/sys/fs/nr_open: %s" [])
                     (call env (ReadFile "/proc/sys/fs/nr_open")) in
  map_err (Wrapf "container_daemon: failed to convert contents of /proc/sys/fs/nr_open: %s" [])
    (lift (ParseUint (trim is_space contents))).

(** The system call returns both limits; the soft one is kept as it is. *)
Definition setHardRLimit (label : string) (rLimitId rLimitMax : Z) : M World unit :=
  let! cur := map_err (Wrapf "container_daemon: getting system limit %s: %s" [label])
                (call env (Getrlimit rLimitId)) in
  map_err (Wrapf "container_daemon: setting hard system limit %s: %s" [label])
    (call_ env (Setrlimit rLimitId cur (FormatUint rLimitMax 10))).

Definition rLimitsMap (maxNoFile : Z) : list (string * Z * Z) :=
  [("cpu", RLIMIT_CPU, RLIMIT_INFINITY);
   ("fsize", RLIMIT_FSIZE, RLIMIT_INFINITY);
   ("data", RLIMIT_DATA, RLIMIT_INFINITY);
   ("stack", RLIMIT_STACK, RLIMIT_INFINITY);
   ("core", RLIMIT_CORE, RLIMIT_INFINITY);
   ("rss", RLIMIT_RSS, RLIMIT_INFINITY);
   ("nproc", RLIMIT_NPROC, RLIMIT_INFINITY);
   ("nofile", RLIMIT_NOFILE, maxNoFile);
   ("memlock", RLIMIT_MEMLOCK, RLIMIT_INFINITY);
   ("as", RLIMIT_AS, RLIMIT_INFINITY);
   ("locks", RLIMIT_LOCKS, RLIMIT_INFINITY);
   ("sigpending", RLIMIT_SIGPENDING, RLIMIT_INFINITY);
   ("msgqueue", RLIMIT_MSGQUEUE, RLIMIT_INFINITY);
   ("nice", RLIMIT_NICE, RLIMIT_INFINITY);
   ("rtprio", RLIMIT_RTPRIO, RLIMIT_INFINITY)].

Definition RlimitsManager_Init : M World unit :=
  let! maxNoFile := MaxNoFile in
  for_each (fun '(label, id, max) => setHardRLimit label id max) (rLimitsMap maxNoFile).
End Manager.

(** ** The encoding as a table *)

Definition limit_table (r : ResourceLimits) : list (string * option Z) :=
  [("RLIMIT_AS", As r);
   ("RLIMIT_CORE", Core r);
   ("RLIMIT_CPU", Cpu r);
   ("RLIMIT_DATA", Data r);
   ("RLIMIT_FSIZE", Fsize r);
   ("RLIMIT_LOCKS", Locks r);
   ("RLIMIT_MEMLOCK", Memlock r);
   ("RLIMIT_MSGQUEUE", Msgqueue r);
   ("RLIMIT_NICE", Nice r);
   ("RLIMIT_NOFILE", Nofile r);
   ("RLIMIT_NPROC", Nproc r);
   ("RLIMIT_RSS", Rss r);
   ("RLIMIT_RTPRIO", Rtprio r);
   ("RLIMIT_SIGPENDING", Sigpending r);
   ("RLIMIT_STACK", Stack r)].

Definition present (t : list (string * option Z)) : list (string * Z) :=
  omap (fun '(k, v) => (fun x => (k, x)) <$> v) t.

Definition limit_text (kv : string * Z) : string := kv.1 +:+ "=" +:+ FormatUint kv.2 10.

Lemma append_limit_table t : forall acc,
  foldl (fun l '(k, v) => append_limit l k v) acc t = acc ++ (limit_text <$> present t).
Proof.
  induction t as [|[k [v|]] t IH]; intros acc; cbn [foldl append_limit].
  - by rewrite app_nil_r.
  - rewrite IH, <- (assoc_L (++)). done.
  - apply IH.
Qed.

Lemma EncodeLimits_table r : EncodeLimits r = join "," (limit_text <$> present (limit_table r)).
Proof. rewrite <- (app_nil_l (limit_text <$> _)), <- append_limit_table. done. Qed.

(** ** Reading a number back *)

Lemma scan_digits_digits ds : Forall (fun d => 0 <= d < 10) ds ->
  scan_digits (string_of_digits ds) = string_of_digits ds.
Proof.
  induction 1 as [|d ds Hd _ IH]; [done|]. cbn [string_of_digits scan_digits].
  rewrite digit_val_char by lia. destruct (Z.ltb_spec d 10); [|lia]. by rewrite IH.
Qed.

Lemma digit_not_space d : 0 <= d < 10 -> is_space (digit_char d) = false /\ is_newline (digit_char d) = false.
Proof.
  intros Hd. assert (Hall : forallb (fun k => negb (is_space (digit_char (Z.of_nat k)))
      && negb (is_newline (digit_char (Z.of_nat k)))) (seq 0 10) = true) by (vm_compute; reflexivity).
  rewrite forallb_forall in Hall. specialize (Hall (Z.to_nat d)). rewrite Z2Nat.id in Hall by lia.
  rewrite andb_true_iff, !negb_true_iff in Hall. apply Hall, in_seq. lia.
Qed.

Lemma Sscanf_FormatUint v : is_u64 v -> Sscanf_d (FormatUint v 10) = Some v.
Proof.
  intros Hv. pose proof (ParseUint_FormatUint v Hv) as HP. revert HP. unfold FormatUint.
  assert (Hr : Forall (fun d => 0 <= d < 10) (digits (S (Z.to_nat (Z.log2 v))) 10 v []))
    by (apply digits_range; [lia|constructor]).
  destruct (digits_cons 10 (Z.to_nat (Z.log2 v)) v []) as (d & ds & Hds). rewrite Hds in *.
  intros HP. change (string_of_digits (d :: ds)) with (String (digit_char d) (string_of_digits ds)) at 1.
  pose proof (proj1 (Forall_cons _ _ _) Hr) as [Hd _]. destruct (digit_not_space d Hd) as [Hs Hn].
  cbn [Sscanf_d]. rewrite Hs, Hn.
  change (String (digit_char d) (string_of_digits ds)) with (string_of_digits (d :: ds)).
  by rewrite scan_digits_digits, HP.
Qed.

(** ** Decoding an encoding *)

(** A limit's name and value that the encoding can carry. *)
Definition encodable (kv : string * Z) : Prop :=
  "="%char ∉ chars kv.1 /\ ","%char ∉ chars kv.1 /\ is_u64 kv.2.

Lemma decode_loop_pairs l env : Forall encodable l ->
  decode_loop env (limit_text <$> l) = foldl (fun e kv => <[kv.1 := kv.2]> e) env l.
Proof.
  intros Hl. revert env. induction Hl as [|[k v] l (Hk & _ & Hv) Hl IH]; intros env; [done|].
  cbn [fmap list_fmap decode_loop foldl fst snd] in *.
  change (limit_text (k, v)) with (k +:+ String "="%char (FormatUint v 10)).
  rewrite cut_app by done. rewrite Sscanf_FormatUint by done. apply IH.
Qed.

Lemma limit_text_comma kv : encodable kv -> ","%char ∉ chars (limit_text kv).
Proof.
  intros (_ & Hk & Hv). unfold limit_text. rewrite !chars_app, !not_elem_of_app.
  split_and!; [done|by vm_compute; intros [H|H%elem_of_nil]%elem_of_cons|].
  apply FormatUint_chars; [apply Hv|by vm_compute].
Qed.

Lemma decode_pairs l : Forall encodable l ->
  decode (join "," (limit_text <$> l)) = foldl (fun e kv => <[kv.1 := kv.2]> e) ∅ l.
Proof.
  intros Hl. unfold decode. destruct l as [|kv l]; [done|].
  change "," with (String ","%char ""). rewrite split_join; [by apply decode_loop_pairs|done|].
  apply Forall_fmap. eapply Forall_impl; [exact Hl|]. intros x. apply limit_text_comma.
Qed.

Lemma present_lookup t k v : NoDup t.*1 -> (k, v) ∈ t -> (list_to_map (present t) : gmap string Z) !! k = v.
Proof.
  induction t as [|[k' v'] t IH]; intros Hnd Hin; [by apply elem_of_nil in Hin|].
  apply NoDup_cons in Hnd as [Hk' Hnd]. cbn in Hk'.
  assert (Hother : (k, v) ∈ t -> k' <> k).
  { intros Ht ->. apply Hk'. apply list_elem_of_fmap. by exists (k, v). }
  assert (Hnone : k = k' -> (list_to_map (present t) : gmap string Z) !! k = None).
  { intros ->. apply not_elem_of_list_to_map. intros Hx. apply Hk'.
    apply list_elem_of_fmap in Hx as ([x y] & -> & Hx). unfold present in Hx.
    apply list_elem_of_omap in Hx as ([a o] & Ha & Ho). cbn in Ho. apply fmap_Some in Ho as (z & -> & [= -> ->]).
    apply list_elem_of_fmap. by exists (a, Some z). }
  destruct v' as [x|]; cbn [present omap list_omap fmap option_fmap option_map];
    apply elem_of_cons in Hin as [[= -> ->]|Hin].
  - rewrite list_to_map_cons. by rewrite lookup_insert_eq.
  - rewrite list_to_map_cons, lookup_insert_ne by auto. by apply IH.
  - by apply Hnone.
  - by apply IH.
Qed.

Lemma present_nodup t : NoDup t.*1 -> NoDup (present t).*1.
Proof.
  induction t as [|[k' v'] t IH]; intros Hnd; [constructor|].
  apply NoDup_cons in Hnd as [Hk' Hnd]. destruct v' as [x|]; [|by apply IH].
  cbn. apply NoDup_cons. split; [|by apply IH]. intros Hx. apply Hk'.
  apply list_elem_of_fmap in Hx as ([a b] & -> & Hx).
  apply list_elem_of_omap in Hx as ([c o] & Hc & Ho). cbn in Ho. apply fmap_Some in Ho as (z & -> & [= -> ->]).
  apply list_elem_of_fmap. by exists (c, Some z).
Qed.

(** Every value a field may have is a [uint64]. *)
Definition limits_wf (r : ResourceLimits) : Prop :=
  Forall (fun kv => from_option is_u64 True kv.2) (limit_table r).

Lemma names_ok : forall r, NoDup (limit_table r).*1 /\
  Forall (fun k => "="%char ∉ chars k /\ ","%char ∉ chars k) (limit_table r).*1.
Proof.
  intros r. split; [apply (bool_decide_unpack _)|apply (bool_decide_unpack _)]; by vm_compute.
Qed.

Lemma present_encodable r : limits_wf r -> Forall encodable (present (limit_table r)).
Proof.
  intros Hwf. apply Forall_forall. intros [k v] Hin. apply list_elem_of_omap in Hin as ([a o] & Ha & Ho).
  cbn in Ho. apply fmap_Some in Ho as (z & -> & [= -> ->]).
  pose proof (proj1 (Forall_forall _ _) Hwf _ Ha) as Hz. cbn in Hz.
  destruct (names_ok r) as [_ Hn]. rewrite Forall_forall in Hn.
  destruct (Hn a) as [He Hc]; [apply list_elem_of_fmap; by exists (a, Some z)|]. done.
Qed.

(** Every limit that was encoded is decoded. *)
Lemma DecodeLimits_EncodeLimits r : limits_wf r -> DecodeLimits (EncodeLimits r) = r.
Proof.
  intros Hwf. rewrite EncodeLimits_table. unfold DecodeLimits.
  destruct (names_ok r) as [Hnd _].
  rewrite decode_pairs, foldl_insert by (by apply present_encodable || apply present_nodup, Hnd).
  rewrite (right_id_L ∅ (∪)).
  assert (Hl : forall k v, (k, v) ∈ limit_table r -> (list_to_map (present (limit_table r)) : gmap string Z) !! k = v)
    by (intros k v; apply present_lookup, Hnd).
  destruct r. cbn [limit_table As Core Cpu Data Fsize Locks Memlock Msgqueue Nice Nofile Nproc Rss Rtprio
                   Sigpending Stack] in *.
  f_equal; apply Hl; repeat first [left | right].
Qed.

(** [DecodeLimits] reads back what [EncodeLimits] wrote: every limit that
    was set has its value, every other one is unset. *)
Theorem limits_roundtrip r : limits_wf r -> DecodeLimits (EncodeLimits r) = r.
Proof. apply DecodeLimits_EncodeLimits. Qed.

Definition sample_limits : ResourceLimits :=
  {| As := None; Core := Some 0; Cpu := None; Data := None; Fsize := None; Locks := None;
     Memlock := Some RLIMIT_INFINITY; Msgqueue := None; Nice := None; Nofile := Some 1024; Nproc := None;
     Rss := None; Rtprio := None; Sigpending := None; Stack := None |}.

Lemma limits_roundtrip_witness : DecodeLimits (EncodeLimits sample_limits) = sample_limits.
Proof. apply limits_roundtrip. repeat constructor; unfold is_u64; cbn; try done; vm_compute; intuition congruence. Defined.

(** The limit a number stands for. *)
Definition limit_of (r : ResourceLimits) (id : Z) : option Z :=
  if decide (0 <= id < 15) then
    default None ([Cpu r; Fsize r; Data r; Stack r; Core r; Rss r; Nproc r; Nofile r; Memlock r; As r;
                   Locks r; Sigpending r; Msgqueue r; Nice r; Rtprio r] !! Z.to_nat id)
  else None.

(** [Apply] sets exactly the limits that are given, each under the number
    Linux has for it: the map it iterates over holds under every number the
    field of that limit. *)
Theorem getSystemRlimitFlags_spec r id : getSystemRlimitFlags r !! id = limit_of r id.
Proof.
  assert (Hset : forall k v m, (set_flag k v m) !! id =
    match (if decide (id = k) then v else None) with Some x => Some x | None => m !! id end).
  { intros k [x|] m; cbn; case_decide as Hk; subst; [apply lookup_insert_eq|by apply lookup_insert_ne|done|done]. }
  unfold getSystemRlimitFlags, limit_of. rewrite !Hset, lookup_empty.
  destruct (decide (0 <= id < 15)) as [Hid|Hid].
  - assert (Hn : exists n, id = Z.of_nat n /\ (n < 15)%nat) by (exists (Z.to_nat id); lia).
    destruct Hn as (n & -> & Hn). rewrite Nat2Z.id. clear Hset Hid.
    destruct r. do 15 (destruct n as [|n]; [vm_compute; by case_match|]). lia.
  - repeat (rewrite decide_False by (intros ->; apply Hid; vm_compute; intuition congruence)). done.
Qed.
