(* ===== verification/System.v ===== *)
(** * System calls (src/system, src/containerizer/system, src/container_daemon/proc_starter)

    The programs that run inside a container change their own identity, mounts and
    capabilities through system calls; each is a call of the world here, in the
    order of the source. [proc_starter_start] is the program that becomes a
    client's process. *)
From S2P Require Import Prelude GoStrings GoFlag World ProcessEnv RLimits.

(** [strconv.Atoi] *)
Definition Atoi (s : string) : result Z :=
  let '(neg, t) := match s with
                   | String "-" t => (true, t)
                   | String "+" t => (false, t)
                   | _ => (false, s)
                   end in
  res_bind (ParseUint t) (fun un =>
  if neg : bool then (if 9223372036854775808 <? un then Err (NumErrorRange s) else Ok (- un))
  else (if 9223372036854775808 <=? un then Err (NumErrorRange s) else Ok un)).

(** [filepath.Dir]: what comes before the last slash, cleaned. *)
Fixpoint dir_part (s : string) : string :=
  match s with
  | "" => ""
  | String c t =>
      match dir_part t with
      | "" => if decide (c = "/"%char) then "/" else ""
      | d => String c d
      end
  end.

Definition path_dir (s : string) : string := path_clean (dir_part s).

(** How a program ends that hands over to another one. *)
Inductive Ending := Exits (code : Z) | Execs.

#[export] Instance Ending_eq_dec : EqDecision Ending.
Proof. solve_decision. Defined.

Section System.
Context (env : Env).
Local Open Scope go_scope.

(** ** mkdirchown.go *)

(** Without enough fuel the recursion has not come to an end. *)
Fixpoint MkdirChown (fuel : nat) (path : string) (uid gid : Z) (mode : string) : M World unit :=
  match fuel with
  | O => panic "stack overflow"
  | S n =>
      let! r := attempt (call_ env (Sys "stat" [path])) in
      match r with
      | inl _ => ret tt
      | inr _ =>
          do! MkdirChown n (path_dir path) uid gid mode in
          do! call_ env (Sys "os.MkdirAll" [path; mode]) in
          call_ env (Sys "chown" [path; Itoa uid; Itoa gid])
      end
  end.

(** ** user_execer_linux.go *)

Definition ExecAsUser (uid gid : Z) (workDir programName : string) (args : list string) : M World unit :=
  do! map_err (Wrapf "system: setgid: %s" []) (call_ env (Sys "setgid" [Itoa gid])) in
  do! map_err (Wrapf "system: setuid: %s" []) (call_ env (Sys "setuid" [Itoa uid])) in
  if decide (workDir = "") then fail (Errorf "system: working directory is not provided.")
  else
    do! map_err (Wrapf "system: %s" []) (call_ env (Sys "os.MkdirAll" [workDir; "0755"])) in
    do! map_err (fun _ => Errorv "system: invalid working directory: %s" [workDir]) (call_ env (Sys "chdir" [workDir])) in
    let! programPath := map_err (Wrapf "system: program '%s' was not found in $PATH: %s" [programName])
                          (call env (Sys "exec.LookPath" [programName])) in
    map_err (Wrapf "system: exec of %s: %s" [programName]) (call_ env (Sys "exec" (programPath :: programName :: args))).

(** ** capabilities_linux.go *)

Definition default_capabilities : list string :=
  ["CAP_CHOWN"; "CAP_DAC_OVERRIDE"; "CAP_FSETID"; "CAP_FOWNER"; "CAP_MKNOD"; "CAP_NET_RAW"; "CAP_SETGID"; "CAP_SETUID";
   "CAP_SETFCAP"; "CAP_SETPCAP"; "CAP_NET_BIND_SERVICE"; "CAP_SYS_CHROOT"; "CAP_KILL"; "CAP_AUDIT_WRITE"].

(** The sets are cleared and then set to the list. *)
Definition whitelist (extendedWhitelist : bool) : list string :=
  default_capabilities ++ (if extendedWhitelist then ["CAP_SYS_ADMIN"] else []).

Definition limit_calls (pid : Z) (extendedWhitelist : bool) : list Call :=
  [Sys "capability.NewPid" [Itoa pid]; Sys "caps.Apply" (whitelist extendedWhitelist)].

Definition ProcessCapabilities_Limit (pid : Z) (extendedWhitelist : bool) : M World unit :=
  do! map_err (Wrapf "system: getting capabilities: %s" []) (call_ env (Sys "capability.NewPid" [Itoa pid])) in
  map_err (Wrapf "system: applying capabilities: %s" []) (call_ env (Sys "caps.Apply" (whitelist extendedWhitelist))).

(** ** mount_linux.go, unmount_linux.go, rootfs_linux.go *)

Record Mount := mkMount {
  mt_Type : string;
  mt_SourcePath : string;
  mt_TargetPath : string;
  mt_Flags : string;
  mt_Data : string
}.

(** The world answers [stat] with "dir" for a directory. *)
Definition Mount_Mount (m : Mount) : M World unit :=
  let! ' (isDir, sourcePath) :=
    if decide (mt_SourcePath m = "") then ret (true, mt_Type m)
    else
      let! info := map_err (Wrapf "system: source path stat: %s" []) (call env (Sys "stat" [mt_SourcePath m])) in
      ret (bool_decide (info = "dir"), mt_SourcePath m) in
  let rootDir := if isDir : bool then mt_TargetPath m else path_dir (mt_TargetPath m) in
  let perm := if isDir : bool then "0700" else "0755" in
  do! map_err (Wrapf "system: create mount point directory %s: %s" [rootDir]) (call_ env (Sys "os.MkdirAll" [rootDir; perm])) in
  do! (if isDir : bool then ret tt
       else map_err (Wrapf "system: create mount point file %s: %s" [mt_TargetPath m])
              (call_ env (Sys "os.OpenFile" [mt_TargetPath m; "O_CREATE|O_RDONLY"; "0700"]))) in
  map_err (Wrapf "system: mount %s on %s: %s" [mt_Type m; mt_TargetPath m])
    (call_ env (Sys "mount" [sourcePath; mt_TargetPath m; mt_Type m; mt_Flags m; mt_Data m])).

Definition Unmount_Unmount (dir : string) : M World unit := call_ env (Sys "unmount" [dir; "MNT_DETACH"]).

Definition checkDirectory (dir : string) : M World unit :=
  let! fi := map_err (Wrapf "system: validate root file system: %v" []) (call env (Sys "stat" [dir])) in
  if decide (fi = "dir") then ret tt else fail (Errorv "system: validate root file system: %s is not a directory" [dir]).

Definition RootFS_Enter (root : string) : M World unit :=
  do! checkDirectory root in
  do! map_err (Wrapf "system: failed to bind mount the root filesystem onto itself: %s" [])
        (call_ env (Sys "mount" [root; root; ""; "MS_BIND|MS_REC"; ""])) in
  do! map_err (Wrapf "system: failed to change directory into the bind mounted rootfs dir: %s" []) (call_ env (Sys "chdir" [root])) in
  do! map_err (Wrapf "system: mkdir: %s" []) (call_ env (Sys "os.MkdirAll" ["tmp/garden-host"; "0700"])) in
  do! map_err (Wrapf "system: failed to pivot root: %s" []) (call_ env (Sys "pivot_root" ["."; "tmp/garden-host"])) in
  map_err (Wrapf "system: failed to chdir to new root: %s" []) (call_ env (Sys "chdir" ["/"])).

(** [pivotter]: its constructor has entered the mount namespace of the target. *)
Definition pivotter_main (rootfs : string) : M World unit := fun w =>
  match RootFS_Enter rootfs w with (Err _, w') => (Panic "pivotter", w') | x => x end.

(** ** proc_starter/start.go *)

(** The world lists a directory one name per line, a directory with a slash. *)
Definition fd_entry (name : string) : M World unit :=
  if bool_decide (last_char name = Some "/"%char) then ret tt
  else
    match Atoi name with
    | Ok fdI => if fdI <=? 2 then ret tt else ignore (call_ env (Sys "syscall.CloseOnExec" [Itoa fdI]))
    | _ => panic "cant happen"
    end.

Definition lines (s : string) : list string := filter (fun l => l <> "") (split newline s).

Definition proc_starter_flags : list (string * FlagKind) :=
  [("rlimits", FString); ("dropCapabilities", FBool); ("uid", FInt); ("gid", FInt); ("workDir", FString); ("extendedWhitelist", FBool)].

(** [must]: an error is a panic. *)
Definition must_ {A} (m : M World A) : M World A := fun w =>
  match m w with (Err _, w') => (Panic "proc_starter", w') | x => x end.

(** [pid] is the ID of the process itself; [args] follow the program's name. *)
Definition proc_starter_start (pid : Z) (args : list string) : M World Ending :=
  match Parse proc_starter_flags args with
  | Ok (sets, others) =>
      let! fds := attempt (call env (Sys "ioutil.ReadDir" ["/proc/self/fd"])) in
      match fds with
      | inr _ => ret (Exits 255)
      | inl fds =>
          do! for_each fd_entry (lines fds) in
          do! must_ (RlimitsManager_Apply env (DecodeLimits (flag_value "rlimits" "" sets))) in
          do! (if flag_bool "dropCapabilities" true sets
               then must_ (ProcessCapabilities_Limit pid (flag_bool "extendedWhitelist" false sets)) else ret tt) in
          match others with
          | [] => panic "runtime error: index out of range"
          | program :: rest =>
              let! r := attempt (ExecAsUser (flag_int "uid" (-1) sets) (flag_int "gid" (-1) sets) (flag_value "workDir" "" sets) program rest) in
              match r with inl _ => ret Execs | inr _ => ret (Exits 255) end
          end
      end
  | _ => ret (Exits 2)
  end.
End System.

(** ** The directories of [MkdirChown]: the recursion ends *)

(** The parts of a path with their separators. *)
Fixpoint weight (l : list string) : nat :=
  match l with [] => 0 | p :: l' => S (String.length p) + weight l' end.

Lemma weight_app l k : weight (l ++ k) = (weight l + weight k)%nat.
Proof. induction l as [|p l IH]; cbn; [done|]. rewrite IH. lia. Qed.

Lemma weight_reverse l : weight (reverse l) = weight l.
Proof. induction l as [|p l IH]; [done|]. rewrite reverse_cons, weight_app, IH. cbn. lia. Qed.

Lemma length_join l : (String.length (join "/" l) <= pred (weight l))%nat.
Proof.
  induction l as [|p [|q l] IH]; [cbn; lia|cbn; lia|].
  change (join "/" (p :: q :: l)) with (p +:+ "/" +:+ join "/" (q :: l)). rewrite !length_app_string.
  cbn [weight String.length] in *. lia.
Qed.

Lemma weight_split s : weight (split "/" s) = S (String.length s).
Proof.
  induction s as [|c s IH]; [done|]. cbn [split]. case_match; [cbn in *; lia|].
  destruct (split "/" s) as [|p l] eqn:Hs; [by destruct (split_nonempty "/" s)|]. cbn in *. lia.
Qed.

Lemma weight_clean_parts r parts : forall acc,
  (weight (clean_parts r acc parts) <= weight acc + weight (filter (fun p => p <> "") parts))%nat.
Proof.
  induction parts as [|p parts IH]; intros acc; cbn [clean_parts]; [rewrite weight_reverse; lia|].
  destruct (decide (p = "")) as [->|Hp].
  { rewrite filter_cons_False by (intros H; by apply H). rewrite bool_decide_eq_true_2 by done. apply IH. }
  rewrite filter_cons_True by done. rewrite (bool_decide_eq_false_2 (p = "")) by done. cbn [orb weight].
  case_bool_decide; [etransitivity; [apply IH|lia]|].
  case_bool_decide as Hdd; [subst p|etransitivity; [apply IH|]; cbn; lia].
  destruct acc as [|q acc]; [destruct r; (etransitivity; [apply IH|]; cbn; lia)|].
  case_bool_decide; (etransitivity; [apply IH|]; cbn; lia).
Qed.

Lemma split_snoc s : split "/" (s +:+ "/") = split "/" s ++ [""].
Proof.
  induction s as [|c s IH]; [done|]. rewrite app_String. cbn [split]. rewrite IH. case_match; [done|].
  by destruct (split "/" s) as [|p l] eqn:Hs; [destruct (split_nonempty "/" s)|].
Qed.

(** A path that ends in a slash gets shorter when it is cleaned. *)
Lemma length_clean_slash t : t <> "" -> (String.length (path_clean (t +:+ "/")) <= String.length t)%nat.
Proof.
  intros Ht. unfold path_clean. rewrite split_snoc. set (r := has_prefix "/" (t +:+ "/")).
  set (body := join "/" _).
  assert (Hb : (String.length body <= pred (weight (filter (fun p => p <> "") (split "/" t))))%nat).
  { etransitivity; [apply length_join|]. apply Nat.pred_le_mono. etransitivity; [apply weight_clean_parts|].
    rewrite filter_app, weight_app, (filter_cons_False _ "" []) by (intros H; by apply H). by rewrite Nat.add_0_r. }
  assert (Hf : forall l, (weight (filter (fun p => p <> "") l) <= weight l)%nat).
  { induction l as [|p l IH]; [done|]. rewrite filter_cons. case_decide; cbn; lia. }
  destruct t as [|c t]; [done|]. destruct r eqn:Hr.
  - unfold r in Hr. rewrite app_String in Hr. cbn in Hr. destruct (decide (c = "/"%char)) as [->|]; [|by rewrite bool_decide_eq_false_2 in Hr].
    cbn [split] in Hb. rewrite decide_True, filter_cons_False in Hb by (try done; intros H; by apply H).
    specialize (Hf (split "/" t)). rewrite weight_split in Hf. rewrite length_app_string. cbn [String.length]. lia.
  - specialize (Hf (split "/" (String c t))). rewrite weight_split in Hf. case_bool_decide; cbn in *; lia.
Qed.

Lemma dir_part_cases s : dir_part s = "" \/ exists t, dir_part s = t +:+ "/" /\ (String.length (t +:+ "/") <= String.length s)%nat.
Proof.
  induction s as [|c s [IH|(t & IH & Hl)]]; [by left| |]; cbn [dir_part]; rewrite IH.
  - case_decide as Hc; [subst c; right; exists ""; split; [done|]; change ("" +:+ "/") with "/"; cbn; lia|by left].
  - right. exists (String c t). rewrite app_String. cbn [String.length]. split; [by destruct t|lia].
Qed.

Lemma path_dir_shorter s : path_dir s = "/" \/ path_dir s = "." \/ (String.length (path_dir s) < String.length s)%nat.
Proof.
  unfold path_dir. destruct (dir_part_cases s) as [->|(t & -> & Hl)]; [by right; left|].
  destruct (decide (t = "")) as [->|Ht]; [by left|]. right; right. apply length_clean_slash in Ht.
  rewrite length_app_string in Hl. cbn in Hl. lia.
Qed.

(** The paths that [MkdirChown] looks at, from [path] up to the first that exists,
    and the directories it makes, from there down. *)
Inductive made_dirs (exists_ : string -> Prop) : string -> list string -> list string -> Prop :=
| made_none path : exists_ path -> made_dirs exists_ path [path] []
| made_more path up down : ~ exists_ path -> made_dirs exists_ (path_dir path) up down ->
    made_dirs exists_ path (path :: up) (down ++ [path]).

Definition make_calls (uid gid : Z) (mode path : string) : list Call :=
  [Sys "os.MkdirAll" [path; mode]; Sys "chown" [path; Itoa uid; Itoa gid]].
Definition stat_call (path : string) : Call := Sys "stat" [path].

Lemma MkdirChown_fuel env exists_ uid gid mode :
  (forall h p, exists_ p <-> is_Some (match env h (stat_call p) with inl out => Some out | inr _ => None end)) ->
  exists_ "/" -> exists_ "." ->
  forall n path w, (String.length path + 2 <= n)%nat \/ (path = "/" \/ path = ".") /\ (1 <= n)%nat ->
  match MkdirChown env n path uid gid mode w with
  | (Ok _, w') => exists up down, made_dirs exists_ path up down /\ w' = w ++ (stat_call <$> up) ++ (down ≫= make_calls uid gid mode)
  | (Err _, _) => True
  | (Panic _, _) => False
  end.
Proof.
  intros Hex Hroot Hdot. induction n as [|n IH]; intros path w Hn; [lia|]. cbn [MkdirChown].
  rewrite bind_eq, attempt_eq, call__eq. fold (stat_call path). specialize (Hex w path) as Hp.
  destruct (env w (stat_call path)) as [out|e].
  { cbn. exists [path], []. split; [constructor; by apply Hp|done]. }
  assert (Hne : ~ exists_ path) by (intros [? ?]%Hp; done).
  assert (Hn' : (String.length (path_dir path) + 2 <= n)%nat \/ (path_dir path = "/" \/ path_dir path = ".") /\ (1 <= n)%nat).
  { destruct Hn as [Hn|[[->| ->] _]]; [|done|done]. destruct (path_dir_shorter path) as [?|[?|?]]; [right|right|left]; intuition lia. }
  specialize (IH _ (w ++ [stat_call path]) Hn'). rewrite bind_eq.
  destruct (MkdirChown env n (path_dir path) uid gid mode _) as [[[]|e'|p] w1]; [|done|done].
  destruct IH as (up & down & Hmade & ->). rewrite bind_eq, call__eq. destruct (env _ _); [|done].
  rewrite call__eq. destruct (env _ _); [|done]. exists (path :: up), (down ++ [path]). split; [by constructor|].
  rewrite fmap_cons, bind_app. cbn. by rewrite <- !(assoc_L (++)).
Qed.

(** C37: [MkdirChown] comes to an end on every path, within as many calls of itself
    as the path has characters and two more, as long as the root and the current
    directory exist; and when it succeeds, every directory that was missing was
    made and given to the user, each after the one it is in. *)
Theorem MkdirChown_ends env exists_ path uid gid mode w :
  (forall h p, exists_ p <-> is_Some (match env h (stat_call p) with inl out => Some out | inr _ => None end)) ->
  exists_ "/" -> exists_ "." ->
  match MkdirChown env (String.length path + 2) path uid gid mode w with
  | (Ok _, w') => exists up down, made_dirs exists_ path up down /\ w' = w ++ (stat_call <$> up) ++ (down ≫= make_calls uid gid mode)
  | (Err _, _) => True
  | (Panic _, _) => False
  end.
Proof. intros Hex Hr Hd. apply MkdirChown_fuel; [done|done|done|]. by left. Qed.

(** Only the root and the current directory exist. *)
Definition env_fresh : Env := fun _ c =>
  match c with
  | Sys "stat" [p] => if decide (p = "/" \/ p = ".") then inl "dir" else inr (NotExist p)
  | _ => inl ""
  end.

Lemma MkdirChown_ends_witness :
  exists up down, made_dirs (fun p => p = "/" \/ p = ".") "/a/b" up down /\
    snd (MkdirChown env_fresh 6 "/a/b" 10 10 "0755" []) = (stat_call <$> up) ++ (down ≫= make_calls 10 10 "0755").
Proof.
  assert (Hex : forall h p, p = "/" \/ p = "." <-> is_Some (match env_fresh h (stat_call p) with inl out => Some out | inr _ => None end)).
  { intros h p. unfold env_fresh, stat_call. case_decide; split; try done; by intros [? ?]. }
  exact (MkdirChown_ends env_fresh (fun p => p = "/" \/ p = ".") "/a/b" 10 10 "0755" [] Hex (or_introl eq_refl) (or_intror eq_refl)).
Defined.

(** ** What has happened when a process is started *)

Definition fd_calls (fds : string) : list Call :=
  lines fds ≫= fun name =>
    if bool_decide (last_char name = Some "/"%char) then []
    else match Atoi name with Ok n => if n <=? 2 then [] else [Sys "syscall.CloseOnExec" [Itoa n]] | _ => [] end.

Definition rlimit_calls (r : ResourceLimits) : list Call :=
  map_to_list (getSystemRlimitFlags r) ≫= fun '(id, v) => [Setrlimit id (FormatUint v 10) (FormatUint v 10)].

(** All that proc_starter does up to and with the exec. *)
Definition starter_calls (pid : Z) (sets : list (string * string)) (fds path program : string) (rest : list string) : list Call :=
  [Sys "ioutil.ReadDir" ["/proc/self/fd"]] ++ fd_calls fds ++
  rlimit_calls (DecodeLimits (flag_value "rlimits" "" sets)) ++
  (if flag_bool "dropCapabilities" true sets then limit_calls pid (flag_bool "extendedWhitelist" false sets) else []) ++
  [Sys "setgid" [Itoa (flag_int "gid" (-1) sets)]; Sys "setuid" [Itoa (flag_int "uid" (-1) sets)];
   Sys "os.MkdirAll" [flag_value "workDir" "" sets; "0755"]; Sys "chdir" [flag_value "workDir" "" sets];
   Sys "exec.LookPath" [program]; Sys "exec" (path :: program :: rest)].

Definition not_exec (c : Call) : Prop := forall l, c <> Sys "exec" l.

Lemma fd_entry_Ok env name w w' : fd_entry env name w = (Ok tt, w') ->
  w' = w ++ (if bool_decide (last_char name = Some "/"%char) then []
             else match Atoi name with Ok n => if n <=? 2 then [] else [Sys "syscall.CloseOnExec" [Itoa n]] | _ => [] end).
Proof.
  unfold fd_entry. case_bool_decide; [intros [= <-]; by rewrite app_nil_r|]. destruct (Atoi name); [|done|done].
  case_match; [intros [= <-]; by rewrite app_nil_r|]. rewrite ignore_eq, call__eq. destruct (env w _); by intros [= <-].
Qed.

Lemma fd_entries_Ok env fds w w' : for_each (fd_entry env) (lines fds) w = (Ok tt, w') -> w' = w ++ fd_calls fds.
Proof.
  unfold fd_calls. generalize (lines fds) as l. intros l. revert w. induction l as [|x l IH]; intros w; cbn.
  - intros [= <-]. by rewrite app_nil_r.
  - intros ([] & w1 & ->%fd_entry_Ok & ->%IH)%bind_Ok. by rewrite (assoc_L (++)).
Qed.

Lemma emits_fd_entries env fds : emits not_exec (for_each (fd_entry env) (lines fds)).
Proof.
  apply emits_for_each, Forall_true. intros name. unfold fd_entry.
  case_match; [apply emits_ret|]. destruct (Atoi name) as [n|e|p]; [|intros ? ? ? [= _ <-]; exists []; by rewrite app_nil_r..].
  case_match; [apply emits_ret|]. apply emits_bind; [|intros; apply emits_ret]. by apply emits_attempt, emits_call_.
Qed.

Lemma runs_Apply env r : runs (RlimitsManager_Apply env r) (rlimit_calls r).
Proof. apply runs_for_each. intros [id v]. apply runs_map_err, runs_call_. Qed.

Lemma runs_Limit env pid ext : runs (ProcessCapabilities_Limit env pid ext) (limit_calls pid ext).
Proof. apply (runs_bind _ _ [_]); [apply runs_map_err, runs_call_|]. intros _. apply runs_map_err, runs_call_. Qed.

Lemma must_Ok {A} (m : M World A) w a w' : must_ m w = (Ok a, w') -> m w = (Ok a, w').
Proof. unfold must_. destruct (m w) as [[]]; by intros [= <- <-]. Qed.

Lemma emits_must {A} P (m : M World A) : emits P m -> emits P (must_ m).
Proof. intros Hm w r w'. unfold must_. destruct (m w) as [[a|e|p] w1] eqn:E; intros [= _ <-]; eauto. Qed.

Lemma rlimit_calls_not_exec r : Forall not_exec (rlimit_calls r).
Proof. unfold rlimit_calls. induction (map_to_list _) as [|[id v] l IH]; cbn; [constructor|]. by constructor. Qed.

(** [ExecAsUser] reaches its exec only in this order. *)
Lemma ExecAsUser_exec env uid gid dir program rest w r w' l :
  ExecAsUser env uid gid dir program rest w = (r, w') -> Sys "exec" l ∉ w -> Sys "exec" l ∈ w' ->
  dir <> "" /\ exists path, l = path :: program :: rest /\
    w' = w ++ [Sys "setgid" [Itoa gid]; Sys "setuid" [Itoa uid]; Sys "os.MkdirAll" [dir; "0755"]; Sys "chdir" [dir];
               Sys "exec.LookPath" [program]; Sys "exec" (path :: program :: rest)].
Proof.
  unfold ExecAsUser. intros Hrun Hw Hw'.
  assert (Hstep : forall (c : Call) f (k : unit -> M World unit) w r, not_exec c -> bind (map_err f (call_ env c)) k w = (r, w') ->
            Sys "exec" l ∉ w -> Sys "exec" l ∉ w ++ [c] /\ k tt (w ++ [c]) = (r, w')).
  { intros c f k w0 r0 Hc Hb H0. eapply (emits_bind_inv not_exec) in Hb as ([] & w1 & H1 & H2 & H3); [| |intros H; by apply (H l)|done|done].
    - rewrite map_err_eq, call__eq in H1. destruct (env w0 c); [|done]. by injection H1 as <-.
    - by apply emits_map_err, emits_call_. }
  apply Hstep in Hrun as [Hw1 Hrun]; [|done|done]. apply Hstep in Hrun as [Hw2 Hrun]; [|done|done].
  case_decide as Hd; [injection Hrun as _ <-; done|]. split; [done|].
  apply Hstep in Hrun as [Hw3 Hrun]; [|done|done]. apply Hstep in Hrun as [Hw4 Hrun]; [|done|done].
  rewrite bind_eq, map_err_eq, call_eq in Hrun. destruct (env _ (Sys "exec.LookPath" _)) as [path|e]; [|injection Hrun as _ <-; set_solver].
  exists path. rewrite map_err_eq, call__eq in Hrun.
  assert (Hw'' : w' = (((((w ++ [Sys "setgid" [Itoa gid]]) ++ [Sys "setuid" [Itoa uid]]) ++ [Sys "os.MkdirAll" [dir; "0755"]]) ++
    [Sys "chdir" [dir]]) ++ [Sys "exec.LookPath" [program]]) ++ [Sys "exec" (path :: program :: rest)]) by (destruct (env _ _); by injection Hrun as _ <-).
  split; [|by rewrite Hw'', <- !(assoc_L (++))]. rewrite Hw'' in Hw'. apply elem_of_app in Hw' as [Hin|Hin].
  - set_solver.
  - apply list_elem_of_singleton in Hin. by injection Hin as ->.
Qed.

(** The program of a client runs only when everything before it succeeded, in
    this order: every descriptor above two is marked to be closed, the resource
    limits are set, the capabilities are dropped, and the group is given up
    before the user, both before the working directory is entered. *)
Lemma proc_starter_exec env pid args o w' l :
  proc_starter_start env pid args [] = (o, w') -> Sys "exec" l ∈ w' ->
  exists sets program rest fds path, Parse proc_starter_flags args = Ok (sets, program :: rest) /\
    flag_value "workDir" "" sets <> "" /\ l = path :: program :: rest /\ w' = starter_calls pid sets fds path program rest.
Proof.
  unfold proc_starter_start. destruct (Parse _ args) as [[sets others]|e|p] eqn:Hp; [|intros [= _ <-] []%elem_of_nil..].
  assert (Hex : ~ not_exec (Sys "exec" l)) by (intros H; by apply (H l)).
  intros Hrun Hin. eapply (emits_bind_inv not_exec) in Hrun as (a & w1 & H1 & Hw1 & Hrun); [|by apply emits_attempt, emits_call|done|apply not_elem_of_nil|done].
  rewrite attempt_eq, call_eq in H1. destruct (env [] _) as [fds|e]; injection H1 as <- <-; [|injection Hrun as _ <-; done].
  eapply (emits_bind_inv not_exec) in Hrun as ([] & w2 & ->%fd_entries_Ok & Hw2 & Hrun); [|apply emits_fd_entries|done|done|done].
  eapply (emits_bind_inv not_exec) in Hrun as ([] & w3 & H3%must_Ok & Hw3 & Hrun); [| |done|done|done].
  2:{ eapply emits_must, runs_emits; [apply runs_Apply|apply rlimit_calls_not_exec]. }
  apply (runs_Ok _ _ _ _ _ (runs_Apply _ _)) in H3. subst w3.
  eapply (emits_bind_inv not_exec) in Hrun as ([] & w4 & H4 & Hw4 & Hrun); [| |done|done|done].
  2:{ case_match; [|apply emits_ret]. eapply emits_must, runs_emits; [apply runs_Limit|]. by repeat constructor. }
  assert (Hw4' : w4 = (([Sys "ioutil.ReadDir" ["/proc/self/fd"]] ++ fd_calls fds) ++
    rlimit_calls (DecodeLimits (flag_value "rlimits" "" sets))) ++
    (if flag_bool "dropCapabilities" true sets then limit_calls pid (flag_bool "extendedWhitelist" false sets) else [])).
  { destruct (flag_bool "dropCapabilities" true sets); [apply must_Ok in H4; by apply (runs_Ok _ _ _ _ _ (runs_Limit _ _ _)) in H4|].
    injection H4 as <-. by rewrite app_nil_r. }
  destruct others as [|program rest]; [injection Hrun as _ <-; done|].
  assert (Hexec : exists r, ExecAsUser env (flag_int "uid" (-1) sets) (flag_int "gid" (-1) sets) (flag_value "workDir" "" sets) program rest w4 = (r, w')).
  { rewrite bind_eq, attempt_eq in Hrun. destruct (ExecAsUser _ _ _ _ _ _ w4) as [r w5]. exists r.
    by destruct r; injection Hrun as _ <-. }
  destruct Hexec as [r Hexec]. destruct (ExecAsUser_exec _ _ _ _ _ _ _ _ _ l Hexec Hw4 Hin) as (Hdir & path & -> & ->).
  exists sets, program, rest, fds, path. split_and!; [done|done|done|]. rewrite Hw4'. unfold starter_calls. by rewrite <- !(assoc_L (++)).
Qed.
