(* ===== verification/Devices.v ===== *)
(** * Network devices and networks (src/network/devices, src/network/network.go)

    The devices are changed over netlink, which is code of another package: a
    record of operations on the state of the host, with the laws that the theorems
    use. A mutex makes every operation of a device one step. *)
From S2P Require Import Prelude GoStrings GoNet IPv4 World ProcessEnv Subnets SubnetsProofs SubnetPool SubnetTheorems.

(** ** netlink and net.Interfaces *)

Record Netlink (St : Type) := mkNetlink {
  NetworkLinkAdd : string -> string -> M St unit;
  NetworkLinkAddIp : string -> IP -> IPNet -> M St unit;
  NetworkLinkUp : string -> M St unit;
  NetworkSetMTU : string -> Z -> M St unit;
  NetworkSetNsPid : string -> Z -> M St unit;
  AddDefaultGw : string -> string -> M St unit;
  AddToBridge : string -> string -> M St unit;
  DeleteBridge : string -> M St unit;
  NetworkCreateVethPair : string -> string -> Z -> M St unit;
  net_InterfaceByName : string -> M St string;
  net_Interfaces : M St (list string)
}.
Arguments NetworkLinkAdd {_} _ _ _.
Arguments NetworkLinkAddIp {_} _ _ _ _.
Arguments NetworkLinkUp {_} _ _.
Arguments NetworkSetMTU {_} _ _ _.
Arguments NetworkSetNsPid {_} _ _ _.
Arguments AddDefaultGw {_} _ _ _.
Arguments AddToBridge {_} _ _ _.
Arguments DeleteBridge {_} _ _.
Arguments NetworkCreateVethPair {_} _ _ _ _.
Arguments net_InterfaceByName {_} _ _.
Arguments net_Interfaces {_} _.

(** The text of EEXIST. *)
Definition file_exists : error := Errorf "file exists".

(** An interface is known by its name. *)
Section Devices.
Context {St : Type} (nl : Netlink St).
Local Open Scope go_scope.

(** A call whose error "file exists" is no error. *)
Definition or_exists (wrap : error -> error) (m : M St unit) : M St unit :=
  let! r := attempt m in
  match r with
  | inl _ => ret tt
  | inr err => if decide (err = file_exists) then ret tt else fail (wrap err)
  end.

(** *** bridge.go *)

Definition Bridge_Create (name : string) (ip : IP) (subnet : IPNet) : M St string :=
  do! or_exists (Wrapf "devices: create bridge: %v" []) (NetworkLinkAdd nl name "bridge") in
  let! intf := map_err (Wrapf "devices: look up created bridge interface: %v" []) (net_InterfaceByName nl name) in
  do! or_exists (Wrapf "devices: add IP to bridge: %v" []) (NetworkLinkAddIp nl intf ip subnet) in
  ret intf.

Definition Bridge_Add (bridge slave : string) : M St unit := AddToBridge nl slave bridge.

Definition Bridge_Destroy (bridge : string) : M St unit :=
  let! intfs := net_Interfaces nl in
  if decide (bridge ∈ intfs) then DeleteBridge nl bridge else ret tt.

(** *** link.go *)

Definition errF {A} : M St A -> M St A := map_err (Wrapf "devices: %v" []).

Definition Link_AddIP (intf : string) (ip : IP) (subnet : IPNet) : M St unit := errF (NetworkLinkAddIp nl intf ip subnet).
Definition Link_AddDefaultGW (intf : string) (ip : IP) : M St unit := errF (AddDefaultGw nl (IP_String ip) intf).
Definition Link_SetUp (intf : string) : M St unit := errF (NetworkLinkUp nl intf).
Definition Link_SetMTU (intf : string) (mtu : Z) : M St unit := errF (NetworkSetMTU nl intf mtu).
Definition Link_SetNs (intf : string) (ns : Z) : M St unit := errF (NetworkSetNsPid nl intf ns).

Definition Link_InterfaceByName (name : string) : M St (option string) :=
  let! intfs := errF (net_Interfaces nl) in
  ret (head (filter (fun i => i = name) intfs)).

Definition Link_List : M St (list string) := net_Interfaces nl.

(** *** veth.go *)

Definition Veth_Create (hostIfcName containerIfcName : string) : M St (string * string) :=
  do! map_err (Wrapf "devices: create veth pair: %v" []) (NetworkCreateVethPair nl hostIfcName containerIfcName 1) in
  let! host := map_err (Wrapf "devices: look up created host interface: %v" []) (net_InterfaceByName nl hostIfcName) in
  let! container := map_err (Wrapf "devices: look up created container interface: %v" []) (net_InterfaceByName nl containerIfcName) in
  ret (host, container).

(** *** The laws of netlink

    [links] are the interfaces of the host. A call can fail at any time, and then
    changes no interface; adding one that exists fails with "file exists". *)
Class NetlinkLaws (links : St -> gset string) := {
  law_add name kind s r s' : NetworkLinkAdd nl name kind s = (r, s') ->
    match r with
    | Ok _ => name ∉ links s /\ links s' = {[name]} ∪ links s
    | Err e => links s' = links s /\ (e = file_exists -> name ∈ links s)
    | Panic _ => False
    end;
  law_add_ip intf ip subnet s r s' : NetworkLinkAddIp nl intf ip subnet s = (r, s') -> links s' = links s /\ forall m, r <> Panic m;
  law_by_name name s r s' : net_InterfaceByName nl name s = (r, s') -> s' = s /\
    match r with Ok i => i = name /\ name ∈ links s | Err _ => True | Panic _ => False end;
  law_interfaces s r s' : net_Interfaces nl s = (r, s') -> s' = s /\
    match r with Ok l => list_to_set l = links s | Err _ => True | Panic _ => False end;
  law_delete name s r s' : DeleteBridge nl name s = (r, s') ->
    match r with Ok _ => links s' = links s ∖ {[name]} | Err _ => links s' = links s | Panic _ => False end
}.

Section Laws.
Context (links : St -> gset string) `{!NetlinkLaws links}.

Lemma create_bridge_links name ip subnet s r s' : Bridge_Create name ip subnet s = (r, s') ->
  match r with
  | Ok i => i = name /\ links s' = {[name]} ∪ links s
  | Err _ => links s' = links s \/ links s' = {[name]} ∪ links s
  | Panic _ => False
  end.
Proof.
  unfold Bridge_Create, or_exists. rewrite bind_eq, bind_eq, attempt_eq.
  destruct (NetworkLinkAdd nl name "bridge" s) as [ra s1] eqn:Ha. pose proof (law_add _ _ _ _ _ Ha) as La.
  assert (Hrest : (links s1 = links s \/ links s1 = {[name]} ∪ links s) ->
    forall r s', (let! intf := map_err (Wrapf "devices: look up created bridge interface: %v" []) (net_InterfaceByName nl name) in
     do! (let! x := attempt (NetworkLinkAddIp nl intf ip subnet) in
          match x with inl _ => ret tt | inr err => if decide (err = file_exists) then ret tt else fail (Wrapf "devices: add IP to bridge: %v" [] err) end) in
     ret intf) s1 = (r, s') ->
    match r with Ok i => i = name /\ links s' = links s1 /\ name ∈ links s1 | Err _ => links s' = links s1 | Panic _ => False end).
  { intros Hl r1 s2. rewrite bind_eq, map_err_eq. destruct (net_InterfaceByName nl name s1) as [rn s1'] eqn:Hn.
    apply law_by_name in Hn as [-> Hn]. destruct rn as [i|e|p]; [|by intros [= <- <-]|done]. destruct Hn as [-> Hin].
    rewrite bind_eq, bind_eq, attempt_eq. destruct (NetworkLinkAddIp nl name ip subnet s1) as [ri s3] eqn:Hi.
    apply law_add_ip in Hi as [Hi Hp]. destruct ri as [[]|e|p]; [by intros [= <- <-]| |by destruct (Hp p)].
    case_decide; by intros [= <- <-]. }
  destruct ra as [[]|e|p]; [| |done].
  - destruct La as [Hno Hl]. intros H. apply Hrest in H; [|by right]. destruct r as [i|e|p]; [|right; congruence|done].
    destruct H as (-> & -> & _). done.
  - destruct La as [Hl He]. case_decide as Hd.
    + intros H. apply Hrest in H; [|by left]. destruct r as [i|e'|p]; [|left; congruence|done]. destruct H as (-> & -> & Hin).
      split; [done|]. specialize (He Hd). rewrite Hl. set_solver.
    + intros [= <- <-]. by left.
Qed.

Lemma destroy_bridge_links name s r s' : Bridge_Destroy name s = (r, s') ->
  match r with
  | Ok _ => links s' = links s ∖ {[name]}
  | Err _ => links s' = links s
  | Panic _ => False
  end.
Proof.
  unfold Bridge_Destroy. rewrite bind_eq. destruct (net_Interfaces nl s) as [rl s1] eqn:Hl. apply law_interfaces in Hl as [-> Hl].
  destruct rl as [l|e|p]; [|by intros [= <- <-]|done]. case_decide as Hin; [intros H; by eapply law_delete|]. intros [= <- <-].
  rewrite <- Hl. apply set_eq. intros x. rewrite elem_of_difference, elem_of_singleton, elem_of_list_to_set. naive_solver.
Qed.
End Laws.
End Devices.

(** The life of a bridge, on a host whose netlink calls may fail at any time.
    [Create] that succeeds leaves the bridge there and all other interfaces as they
    were, also when the bridge existed before; when it fails, no other interface is
    touched. [Destroy] that succeeds leaves it gone, also when it was not there;
    so both can be repeated, and a bridge that was made and destroyed leaves the
    host as it was. *)
Theorem bridge_life {St} (nl : Netlink St) links `{!NetlinkLaws nl links} name ip subnet s r1 s1 r2 s2 :
  Bridge_Create nl name ip subnet s = (r1, s1) -> Bridge_Destroy nl name s1 = (r2, s2) ->
  links s ⊆ links s1 /\ links s1 ⊆ {[name]} ∪ links s /\ (forall i, r1 = Ok i -> i = name /\ name ∈ links s1) /\
  (r2 = Ok tt -> links s2 = links s ∖ {[name]}).
Proof.
  intros H1 H2. apply (create_bridge_links nl links) in H1. apply (destroy_bridge_links nl links) in H2.
  assert (Hs : links s1 = links s \/ links s1 = {[name]} ∪ links s) by (destruct r1; naive_solver).
  split_and!; [set_solver|set_solver|intros i ->; destruct H1 as [-> ->]; set_solver|]. intros ->. rewrite H2. set_solver.
Qed.

(** A host with its interfaces, on which nothing fails. *)
Definition sample_netlink : Netlink (gset string) := {|
  NetworkLinkAdd name _ := fun s => if decide (name ∈ s) then (Err file_exists, s) else (Ok tt, {[name]} ∪ s);
  NetworkLinkAddIp _ _ _ := ret tt;
  NetworkLinkUp _ := ret tt;
  NetworkSetMTU _ _ := ret tt;
  NetworkSetNsPid _ _ := ret tt;
  AddDefaultGw _ _ := ret tt;
  AddToBridge _ _ := ret tt;
  DeleteBridge name := fun s => (Ok tt, s ∖ {[name]});
  NetworkCreateVethPair h c _ := fun s => (Ok tt, {[h; c]} ∪ s);
  net_InterfaceByName name := fun s => (if decide (name ∈ s) then Ok name else Err (Errorf "no such network interface"), s);
  net_Interfaces := fun s => (Ok (elements s), s)
|}.

#[export] Instance sample_laws : NetlinkLaws sample_netlink id.
Proof.
  split; cbn.
  - intros name kind s r s'. case_decide; intros [= <- <-]; by split.
  - intros intf ip subnet s r s' [= <- <-]. by split.
  - intros name s r s' [= <- <-]. split; [done|]. by case_decide.
  - intros s r s' [= <- <-]. split; [done|]. apply list_to_set_elements_L.
  - intros name s r s' [= <- <-]. done.
Qed.

Example bridge_life_example :
  match Bridge_Create sample_netlink "w1b-0" [] (mkIPNet [] []) {["lo"]} with
  | (r, s1) => r = Ok "w1b-0" /\ elements s1 = ["w1b-0"; "lo"] /\ Bridge_Destroy sample_netlink "w1b-0" s1 = (Ok tt, {["lo"]})
  end.
Proof. vm_compute. split; [done|]. split; done. Qed.

(** ** Counters of an interface (link.go) *)

Section Statistics.
Context (env : Env).
Local Open Scope go_scope.

Definition stat_path (intf statFile : string) : string := path_join ["/sys/class/net"; intf; "statistics"; statFile].

Definition intfStat (intf statFile : string) : M World Z :=
  let! data := call env (ReadFile (stat_path intf statFile)) in
  lift (ParseUint (trim is_space data)).

(** The received and the sent bytes. *)
Definition Link_Statistics (name : string) : M World (Z * Z) :=
  let! rx := intfStat name "rx_bytes" in
  let! tx := intfStat name "tx_bytes" in
  ret (rx, tx).
End Statistics.

(** ** network.go *)

Record NetworkValue := mkNetworkValue { nv_ipNet : IPNet; nv_hostIP : IP; nv_containerIP : IP }.

(** The last address but one: the last byte goes down by one, with its wrap. *)
Definition maxValidIP (ipn : IPNet) : result IP :=
  if decide (length (net_Mask ipn) = length (net_IP ipn)) then
    let max := zip_with (fun b m => Z.lor m (Z.lxor 255 b)) (net_Mask ipn) (net_IP ipn) in
    match last max with
    | Some b => Ok (To16 (<[(length max - 1)%nat := u8 (b - 1)]> max))
    | None => Panic "runtime error: index out of range"
    end
  else Panic "length of mask is not compatible with length of network IP".

(** The bytes from the last one on. *)
Fixpoint inc_loop (l : list Z) : list Z :=
  match l with
  | [] => []
  | b :: l' => let b' := u8 (b + 1) in if 0 <? b' then b' :: l' else b' :: inc_loop l'
  end.
Definition inc (ip : IP) : IP := reverse (inc_loop (reverse ip)).

Definition nextIP (ip : IP) : IP := inc (ParseIP (IP_String ip)).

Definition Network_New (ipNet : IPNet) : result NetworkValue :=
  res_bind (maxValidIP ipNet) (fun hostIP => Ok (mkNetworkValue ipNet hostIP (nextIP (net_IP ipNet)))).

Definition CIDRSuffix (n : NetworkValue) : Z := fst (Mask_Size (net_Mask (nv_ipNet n))).

(** The three texts of the JSON object. *)
Definition NetworkValue_MarshalJSON (n : NetworkValue) : string * string * string :=
  (IPNet_String (nv_ipNet n), IP_String (nv_hostIP n), IP_String (nv_containerIP n)).

Definition NetworkValue_UnmarshalJSON (tmp : string * string * string) : result NetworkValue :=
  match tmp with
  | (ipnet, host, container) =>
      res_bind (ParseCIDR ipnet) (fun '(_, n) => Ok (mkNetworkValue n (ParseIP host) (ParseIP container)))
  end.

Lemma To16_4 l : length l = 4%nat -> To16 l = v4InV6Prefix ++ l.
Proof. intros Hl. unfold To16. by rewrite decide_True. Qed.

Lemma pred_bytes4 z : is_u32 z -> 0 < z mod 256 -> <[3%nat := u8 (z mod 256 - 1)]> (bytes4 z) = bytes4 (z - 1).
Proof.
  intros Hz Hm. assert (Hlt : z mod 256 < 256) by (apply Z.mod_pos_bound; lia).
  assert (Hu : u8 (z mod 256 - 1) = z mod 256 - 1) by (apply u8_small; unfold is_u8; lia). rewrite Hu.
  pose proof (be_bytes4 z Hz) as Hbe. pose proof (bytes4_bytes z) as Hby. unfold bytes4 in Hbe, Hby |- * at 1. rewrite be4 in Hbe.
  cbn [insert list_insert]. set (l := [_; _; _; _]). assert (Hl : be l = z - 1) by (unfold l; rewrite be4; lia).
  rewrite <- Hl. symmetry. apply bytes4_be; [|done]. unfold bytes, l, is_u8 in *. rewrite !Forall_cons in *. intuition lia.
Qed.

Lemma maxValidIP_net4 b p : canonical b p -> p <= 30 -> maxValidIP (net4 b p) = Ok (v4InV6Prefix ++ bytes4 (b + net_size p - 2)).
Proof.
  intros Hc Hp. destruct (max_net4 b p Hc) as (ip & Hmax & H4). pose proof Hc as (Hr & Hb & Hal).
  destruct (CIDRMask_32 p Hr) as (_ & _ & Hl & _). unfold max, maxValidIP in *. cbn [net4 net_Mask net_IP] in *.
  rewrite decide_True in Hmax |- * by (by rewrite Hl). set (l := zip_with _ _ _) in *. injection Hmax as <-.
  assert (Hlen : length l = 4%nat) by (unfold l; rewrite length_zip_with, Hl; done).
  rewrite To16_4 in H4 by done. destruct H4 as [Hz [H4|H4]]; [apply (f_equal length) in H4; rewrite length_app, Hlen in H4; done|].
  apply (inj (v4InV6Prefix ++.)) in H4. rewrite H4. change (last (bytes4 (b + net_size p - 1))) with (Some ((b + net_size p - 1) mod 256)).
  cbv beta iota. change (length (bytes4 (b + net_size p - 1)) - 1)%nat with 3%nat.
  assert (Hs : net_size p = 4 * 2 ^ (30 - p)) by (unfold net_size; rewrite <- (Z.pow_add_r 2 2) by lia; f_equal; lia).
  assert (Hm : 0 < (b + net_size p - 1) mod 256).
  { fold (net_size p) in Hal. apply Z.mod_divide in Hal as [k Hk]; [|pose proof (net_size_pos p); lia].
    assert (0 < 2 ^ (30 - p)) by (apply Z.pow_pos_nonneg; lia). set (q := 2 ^ (30 - p)) in *.
    assert (Hq : b + net_size p - 1 = 4 * (k * q + q) - 1) by nia. rewrite Hq. set (m := k * q + q).
    Z.to_euclidean_division_equations. lia. }
  rewrite pred_bytes4 by done. rewrite To16_4 by done. do 3 f_equal. lia.
Qed.

Lemma inc_4 a b c d : bytes [a; b; c; d] -> be [a; b; c; d] < 4294967295 ->
  exists l, inc (v4InV6Prefix ++ [a; b; c; d]) = v4InV6Prefix ++ l /\ bytes l /\ length l = 4%nat /\ be l = be [a; b; c; d] + 1.
Proof.
  rewrite be4. unfold bytes. rewrite !Forall_cons. unfold is_u8. intros (Ha & Hb & Hc & Hd & _) Hlt.
  assert (Hu : forall x, 0 <= x < 256 -> (u8 (x + 1) = x + 1 /\ x < 255) \/ (u8 (x + 1) = 0 /\ x = 255)).
  { intros x Hx. unfold u8. destruct (decide (x = 255)) as [->|]; [by right|]. left. split; [apply Z.mod_small; lia|lia]. }
  unfold inc. rewrite reverse_app. change (reverse [a; b; c; d]) with [d; c; b; a]. cbn [app inc_loop].
  destruct (Hu d Hd) as [[-> ?]|[-> ?]]; [destruct (Z.ltb_spec 0 (d + 1)); [|lia]; exists [a; b; c; d + 1]|cbn [Z.ltb Z.compare];
  destruct (Hu c Hc) as [[-> ?]|[-> ?]]; [destruct (Z.ltb_spec 0 (c + 1)); [|lia]; exists [a; b; c + 1; 0]|cbn [Z.ltb Z.compare];
  destruct (Hu b Hb) as [[-> ?]|[-> ?]]; [destruct (Z.ltb_spec 0 (b + 1)); [|lia]; exists [a; b + 1; 0; 0]|cbn [Z.ltb Z.compare];
  destruct (Hu a Ha) as [[-> ?]|[-> ?]]; [destruct (Z.ltb_spec 0 (a + 1)); [|lia]; exists [a + 1; 0; 0; 0]|lia]]]];
  (split; [reflexivity|]); rewrite be4; (split; [repeat constructor; lia|]); (split; [done|lia]).
Qed.

Lemma inc_bytes4 z : 0 <= z < 4294967295 -> inc (v4InV6Prefix ++ bytes4 z) = v4InV6Prefix ++ bytes4 (z + 1).
Proof.
  intros Hz. assert (Hu : is_u32 z) by (unfold is_u32; lia). pose proof (be_bytes4 z Hu) as Hbe. pose proof (bytes4_bytes z) as Hby.
  unfold bytes4 in Hbe, Hby. destruct (inc_4 _ _ _ _ Hby) as (l & Hi & Hl & Hlen & Hb); [lia|]. rewrite Hbe in Hb.
  unfold bytes4 at 1. rewrite Hi. rewrite <- Hb. by rewrite bytes4_be.
Qed.

(** The addresses of a network with at least four: the host has the last one
    before the broadcast address and the container the first one after the network
    address; both are in the network, they are different, and the value comes back
    from its JSON form. *)
Theorem network_addresses b p : canonical b p -> p <= 30 ->
  exists v, Network_New (net4 b p) = Ok v /\ is4 (nv_hostIP v) (b + net_size p - 2) /\ is4 (nv_containerIP v) (b + 1) /\
    b + 1 < b + net_size p - 2 < b + net_size p - 1 /\ CIDRSuffix v = p /\ NetworkValue_UnmarshalJSON (NetworkValue_MarshalJSON v) = Ok v.
Proof.
  intros Hc Hp. pose proof Hc as (Hr & Hb & Hal). unfold Network_New. rewrite maxValidIP_net4 by done. cbn [res_bind]. eexists. split; [done|].
  assert (Hs : 4 <= net_size p <= 4294967296).
  { unfold net_size. split; [change 4 with (2 ^ 2); apply Z.pow_le_mono_r; lia|change 4294967296 with (2 ^ 32); apply Z.pow_le_mono_r; lia]. }
  assert (Hend : b + net_size p <= 4294967296).
  { pose proof (canonical_fits b p Hc). lia. }
  unfold is_u32 in Hb. assert (Hn : nextIP (net_IP (net4 b p)) = v4InV6Prefix ++ bytes4 (b + 1)).
  { unfold nextIP. cbn [net4 net_IP]. rewrite (IP_String_is4 _ b) by (apply is4_4; unfold is_u32; lia). unfold ParseIP.
    rewrite parseIPv4_dotted. apply inc_bytes4. lia. }
  rewrite Hn. cbn [nv_hostIP nv_containerIP]. assert (Hf : forall z, 0 <= z < 4294967296 -> is4 (v4InV6Prefix ++ bytes4 z) z) by (intros z Hz; split; [exact Hz|by right]).
  split_and!; [apply Hf; lia|apply Hf; lia|lia|lia| |].
  - unfold CIDRSuffix. cbn [nv_ipNet net4 net_Mask]. by rewrite Mask_Size_32.
  - unfold NetworkValue_MarshalJSON, NetworkValue_UnmarshalJSON. cbn [nv_ipNet nv_hostIP nv_containerIP]. rewrite ParseCIDR_net4 by done. cbn [res_bind].
    rewrite (IP_String_is4 _ _ (Hf (b + net_size p - 2) ltac:(lia))), (IP_String_is4 _ _ (Hf (b + 1) ltac:(lia))). unfold ParseIP. by rewrite !parseIPv4_dotted.
Qed.

Lemma network_addresses_witness :
  exists v, Network_New (net4 184418304 30) = Ok v /\ IP_String (nv_hostIP v) = "10.254.0.2" /\ NetworkValue_UnmarshalJSON (NetworkValue_MarshalJSON v) = Ok v.
Proof.
  destruct (network_addresses 184418304 30) as (v & Hv & _ & _ & _ & _ & Hj); [split; [lia|split; [unfold is_u32; lia|reflexivity]]|lia|].
  exists v. split; [exact Hv|]. split; [|exact Hj]. vm_compute in Hv. injection Hv as <-. vm_compute. reflexivity.
Defined.
