(* ===== verification/BridgeMgr.v ===== *)
(** * Bridge names and the bridge manager (src/network/bridgemgr)

    The manager gives every subnet one bridge, shared by the containers of the
    subnet, and destroys it with its last container. Its lock makes [Reserve]
    and [Rereserve] atomic; [Release] updates the maps in one step and destroys
    the bridge after it. [Builder] and [Lister] are interfaces: their calls go
    to the world. *)
From S2P Require Import Prelude GoStrings World GoNet Subnets.

(** ** Names from a counter (bridge_name_generator.go, and the container IDs of
    resource_pool.go) *)

(** [x >> s] on [int64] with an unsigned count. *)
Definition shr64 (x s : Z) : Z := if 64 <=? s then (if x <? 0 then -1 else 0) else Z.shiftr x s.

(** The [i]-th base-32 digit of the generated part. *)
Definition name_digit (num : Z) (i : nat) : Z := Z.land (shr64 num (u64 (55 - (Z.of_nat i + 1) * 5))) 31.

Definition base32_name (len : nat) (num : Z) : string := string_of_digits (name_digit num <$> seq 0 len).

(** [Generate] of a generator whose goroutine has reached [bridgeNum]. *)
Definition Generate (prefix : string) (bridgeNum : Z) : string :=
  prefix +:+ base32_name (15 - String.length prefix) bridgeNum.

(** ** The manager (mgr.go) *)

Record mgr := mkMgr {
  bm_prefix : string;
  bm_next : Z;
  owners : gmap string (list string);
  bridgeSubnet : gmap string string;
  subnetBridge : gmap string string
}.

(** [New]: the generator starts at the clock's reading. *)
Definition BridgeMgr_New (prefix : string) (now : Z) : mgr := mkMgr prefix now ∅ ∅ ∅.

Fixpoint remove (a : list string) (b : string) : list string :=
  match a with
  | [] => []
  | j :: a' => if decide (j = b) then a' else j :: remove a' b
  end.

Definition isReserved (m : mgr) (r : string) : bool := bool_decide (is_Some (bridgeSubnet m !! r)).

Definition Create (name : string) (ip : IP) (subnet : IPNet) : Call :=
  Sys "Builder.Create" [name; IP_String ip; IPNet_String subnet].
Definition Destroy (name : string) : Call := Sys "Builder.Destroy" [name].
Definition List : Call := Sys "Lister.List" [].

(** [append(m.owners[name], containerId)] *)
Definition add_owner (name containerId : string) (m : mgr) : mgr :=
  mkMgr (bm_prefix m) (bm_next m) (<[name := default [] (owners m !! name) ++ [containerId]]> (owners m))
        (bridgeSubnet m) (subnetBridge m).

Definition bind_bridge (name subnet : string) (m : mgr) : mgr :=
  mkMgr (bm_prefix m) (bm_next m) (owners m) (<[name := subnet]> (bridgeSubnet m)) (<[subnet := name]> (subnetBridge m)).

Definition next_name : M (mgr * World) string := fun s =>
  let m := s.1 in
  (Ok (Generate (bm_prefix m) (bm_next m)),
   (mkMgr (bm_prefix m) (bm_next m + 1) (owners m) (bridgeSubnet m) (subnetBridge m), s.2)).

(** The maps after [Release]: the first reservation of the container is gone,
    and the bridge with it when none is left. *)
Definition drop_owner (bridgeName containerId : string) (m : mgr) : mgr * bool :=
  let left := remove (default [] (owners m !! bridgeName)) containerId in
  if decide (left = []) then
    (mkMgr (bm_prefix m) (bm_next m) (delete bridgeName (owners m)) (delete bridgeName (bridgeSubnet m))
           (delete (default "" (bridgeSubnet m !! bridgeName)) (subnetBridge m)), true)
  else
    (mkMgr (bm_prefix m) (bm_next m) (<[bridgeName := left]> (owners m)) (bridgeSubnet m) (subnetBridge m), false).

Section Manager.
Context (env : Env).
Local Open Scope go_scope.

Definition Reserve (subnet : IPNet) (containerId : string) : M (mgr * World) string :=
  let! present := gets (fun m => subnetBridge m !! IPNet_String subnet) in
  let! name :=
    match present with
    | Some name => ret name
    | None =>
        let! name := next_name in
        let! gateway := lift (GatewayIP subnet) in
        do! eff (call_ env (Create name gateway subnet)) in
        do! update (bind_bridge name (IPNet_String subnet)) in
        ret name
    end in
  do! update (add_owner name containerId) in
  ret name.

Definition BridgeMgr_Release (bridgeName containerId : string) : M (mgr * World) unit :=
  let! shouldDelete := (fun s => let '(m, d) := drop_owner bridgeName containerId s.1 in (Ok d, (m, s.2))) in
  if shouldDelete : bool then eff (call_ env (Destroy bridgeName)) else ret tt.

Definition Rereserve (bridgeName : string) (subnet : IPNet) (containerId : string) : M (mgr * World) unit :=
  if decide (bridgeName = "") then
    fail (Errorf "bridgemgr: re-reserving bridge: bridge name must not be empty")
  else
    let! present := gets (fun m => bridgeSubnet m !! bridgeName) in
    match present with
    | Some sn =>
        if decide (sn <> IPNet_String subnet) then
          fail (Errorv "bridgemgr: reacquired bridge name '%s' has already been acquired for subnet %s" [bridgeName; sn])
        else update (fun m => bind_bridge bridgeName (IPNet_String subnet) (add_owner bridgeName containerId m))
    | None => update (fun m => bind_bridge bridgeName (IPNet_String subnet) (add_owner bridgeName containerId m))
    end.

(** The lister answers with the names of the host's bridges, one per line. *)
Definition Prune : M (mgr * World) unit :=
  let! list := map_err (Wrapf "bridgemgr: pruning bridges: %v" []) (eff (call env List)) in
  for_each (fun b =>
    let! m := gets id in
    if has_prefix (bm_prefix m) b && negb (isReserved m b)
    then ignore (eff (call_ env (Destroy b)))
    else ret tt) (split newline list).
End Manager.

(** ** Uniqueness of generated names *)

Lemma name_digit_eq num i : (i < 11)%nat -> name_digit num i = num / 2 ^ (50 - 5 * Z.of_nat i) mod 32.
Proof.
  intros Hi. unfold name_digit. rewrite u64_small by (unfold is_u64; lia).
  unfold shr64. destruct (Z.leb_spec 64 (55 - (Z.of_nat i + 1) * 5)); [lia|].
  rewrite Z.shiftr_div_pow2 by lia. change 31 with (Z.ones 5). rewrite Z.land_ones by lia.
  do 3 f_equal. lia.
Qed.

Lemma name_value num k : (k <= 11)%nat -> 0 <= num ->
  fold_digits 32 (name_digit num <$> seq 0 k) 0 = num / 2 ^ (55 - 5 * Z.of_nat k) mod 32 ^ Z.of_nat k.
Proof.
  intros Hk Hn. induction k as [|k IH]; [cbn; by rewrite Z.mod_1_r|].
  rewrite seq_S, fmap_app. unfold fold_digits in *. rewrite fold_left_app, IH by lia. cbn [fmap list_fmap fold_left].
  rewrite Nat.add_0_l, name_digit_eq by lia.
  replace (55 - 5 * Z.of_nat (S k)) with (50 - 5 * Z.of_nat k) by lia.
  replace (55 - 5 * Z.of_nat k) with ((50 - 5 * Z.of_nat k) + 5) by lia.
  rewrite Z.pow_add_r, <- Z.div_div by (lia || apply Z.pow_nonzero; lia).
  set (y := num / 2 ^ (50 - 5 * Z.of_nat k)). change (2 ^ 5) with 32.
  replace (32 ^ Z.of_nat (S k)) with (32 * 32 ^ Z.of_nat k) by (rewrite Nat2Z.inj_succ, Z.pow_succ_r; lia).
  rewrite Z.rem_mul_r by (lia || apply Z.pow_pos_nonneg; lia). lia.
Qed.

Lemma base32_name_eq k n m : (k <= 11)%nat -> 0 <= n -> 0 <= m ->
  base32_name k n = base32_name k m <->
  n / 2 ^ (55 - 5 * Z.of_nat k) mod 32 ^ Z.of_nat k = m / 2 ^ (55 - 5 * Z.of_nat k) mod 32 ^ Z.of_nat k.
Proof.
  intros Hk Hn Hm. rewrite <- !name_value by done. unfold base32_name.
  assert (Hd : forall x, Forall (fun d => 0 <= d < 32) (name_digit x <$> seq 0 k)).
  { intros x. apply Forall_fmap, Forall_forall. intros i Hi%elem_of_seq. cbn.
    rewrite name_digit_eq by lia. apply Z.mod_pos_bound. lia. }
  assert (Hd' : forall x, Forall (fun d => 0 <= d < 36) (name_digit x <$> seq 0 k)).
  { intros x. eapply Forall_impl; [apply Hd|]. cbn. lia. }
  split.
  - intros Heq. apply string_of_digits_inj in Heq; [by rewrite Heq|done|done].
  - intros Heq. f_equal. revert Heq. generalize (Hd n) (Hd m).
    assert (Hlen : length (name_digit n <$> seq 0 k) = length (name_digit m <$> seq 0 k)) by (by rewrite !length_fmap).
    revert Hlen. generalize (name_digit n <$> seq 0 k) as l1, (name_digit m <$> seq 0 k) as l2. clear.
    intros l1. induction l1 as [|d l1 IH] using rev_ind; intros l2 Hl H1 H2 Heq.
    { destruct l2; [done|discriminate]. }
    destruct l2 as [|e l2 _] using rev_ind; [rewrite length_app in Hl; cbn in Hl; lia|].
    apply Forall_app in H1 as [H1 Hx], H2 as [H2 Hy]. rewrite Forall_singleton in Hx, Hy.
    unfold fold_digits in *. rewrite !fold_left_app in Heq. cbn in Heq. rewrite !length_app in Hl. cbn in Hl.
    assert (d = e) as -> by lia. f_equal. apply IH; [lia|done|done|lia].
Qed.

Lemma app_inj_l_string p a b : p +:+ a = p +:+ b -> a = b.
Proof. intros H. apply (f_equal chars) in H. rewrite !chars_app in H. apply chars_inj. by apply app_inv_head in H. Qed.

(** The names a generator produces, compared. *)
Lemma Generate_eq prefix n m : (4 <= String.length prefix <= 15)%nat -> 0 <= n -> 0 <= m ->
  let k := Z.of_nat (15 - String.length prefix) in
  Generate prefix n = Generate prefix m <->
  n / 2 ^ (55 - 5 * k) mod 32 ^ k = m / 2 ^ (55 - 5 * k) mod 32 ^ k.
Proof.
  intros Hp Hn Hm k. unfold k. rewrite <- base32_name_eq by (lia || done). unfold Generate. split; [|by intros ->].
  apply app_inj_l_string.
Qed.

(** With a prefix of four characters (a tag of one character) the names
    of a generator repeat only after 2^55 calls. *)
Theorem bridge_names_unique prefix n m :
  String.length prefix = 4%nat -> 0 <= n -> 0 <= m -> n <> m -> Z.abs (n - m) < 2 ^ 55 ->
  Generate prefix n <> Generate prefix m.
Proof.
  intros Hp Hn Hm Hne Hclose Heq. apply Generate_eq in Heq; [|lia|done|done]. rewrite Hp in Heq.
  change (55 - 5 * Z.of_nat (15 - 4)) with 0 in Heq. change (32 ^ Z.of_nat (15 - 4)) with (2 ^ 55) in Heq.
  change (2 ^ 0) with 1 in Heq. rewrite !Z.div_1_r in Heq.
  assert (Hd : (n - m) mod 2 ^ 55 = 0) by (rewrite Zminus_mod, Heq, Z.sub_diag; done).
  apply Z.mod_divide in Hd as [q Hq]; [|lia]. rewrite Hq, Z.abs_mul in Hclose. lia.
Qed.

Lemma bridge_names_unique_witness : Generate "w1b-" 1000 <> Generate "w1b-" 1001.
Proof. apply bridge_names_unique; [done|lia|lia|lia|vm_compute; reflexivity]. Defined.

(** With a prefix of five characters (a tag of two characters, which the
    server accepts) the generated part has ten digits and they leave out the
    lowest five bits of the counter: calls within one block of 32 numbers
    return the same name. *)
Theorem bridge_names_repeat prefix n m :
  String.length prefix = 5%nat -> 0 <= n -> 0 <= m -> n / 32 = m / 32 ->
  Generate prefix n = Generate prefix m.
Proof.
  intros Hp Hn Hm Heq. apply Generate_eq; [lia|done|done|]. rewrite Hp.
  change (2 ^ (55 - 5 * Z.of_nat (15 - 5))) with 32. by rewrite Heq.
Qed.

Lemma bridge_names_repeat_witness : Generate "w12b-" 64 = Generate "w12b-" 65.
Proof. apply bridge_names_repeat; [done|lia|lia|reflexivity]. Defined.

(** ** The maps of the manager *)

Record bm_inv (m : mgr) : Prop := {
  bm_inverse : forall s b, subnetBridge m !! s = Some b <-> bridgeSubnet m !! b = Some s;
  bm_owned : forall b, is_Some (bridgeSubnet m !! b) <-> is_Some (owners m !! b);
  bm_nonempty : forall b o, owners m !! b = Some o -> o <> [];
  bm_texts : subnetBridge m !! "" = None
}.

Lemma IPNet_String_nonempty n : IPNet_String n <> "".
Proof.
  unfold IPNet_String. destruct (networkNumberAndMask n) as [nn m]. case_decide as Hd; [done|].
  destruct (_ =? _); intros Heq%(f_equal chars); rewrite chars_app in Heq; by apply app_eq_nil in Heq as [_ ?].
Qed.

Lemma BridgeMgr_New_inv prefix now : bm_inv (BridgeMgr_New prefix now).
Proof. split; cbn; intros; rewrite ?lookup_empty in *; try done; by split; intros [? ?]. Qed.

(** A bridge bound to a subnet gets an owner. *)
Lemma bind_inv m b s c : bm_inv m ->
  bridgeSubnet m !! b = None \/ bridgeSubnet m !! b = Some s ->
  subnetBridge m !! s = None \/ subnetBridge m !! s = Some b -> s <> "" ->
  bm_inv (bind_bridge b s (add_owner b c m)).
Proof.
  intros [Hi Ho Hn Ht] Hb Hs Hne0. split; cbn; [..|by rewrite lookup_insert_ne].
  - intros s' b'. rewrite !lookup_insert_Some. split.
    + intros [[-> ->]|[Hne Hl]]; [by left|]. right. apply Hi in Hl. split; [|done]. intros ->.
      destruct Hb as [Hb|Hb]; congruence.
    + intros [[-> ->]|[Hne Hl]]; [by left|]. right. pose proof (proj2 (Hi _ _) Hl) as Hl'. split; [|done].
      intros ->. destruct Hs as [Hs|Hs]; congruence.
  - intros b'. rewrite !lookup_insert_is_Some, Ho. done.
  - intros b' o [[-> <-]|[_ Hl]]%lookup_insert_Some; [by intros [_ ?]%app_eq_nil|eauto].
Qed.

Lemma add_owner_inv m b c s : bm_inv m -> bridgeSubnet m !! b = Some s -> bm_inv (add_owner b c m).
Proof.
  intros [Hi Ho Hn Ht] Hb. split; cbn; [done| | |done].
  - intros b'. rewrite lookup_insert_is_Some, Ho. destruct (decide (b = b')) as [<-|]; [|naive_solver].
    split; [by left|]. intros _. apply Ho. eauto.
  - intros b' o [[-> <-]|[_ Hl]]%lookup_insert_Some; [by intros [_ ?]%app_eq_nil|eauto].
Qed.

Lemma drop_owner_inv m b c : bm_inv m -> bm_inv (drop_owner b c m).1.
Proof.
  intros [Hi Ho Hn Ht]. destruct (bridgeSubnet m !! b) as [s|] eqn:Hs.
  2: { assert (Hno : owners m !! b = None).
       { destruct (owners m !! b) eqn:E; [|done]. assert (H : is_Some (bridgeSubnet m !! b)) by (apply Ho; eauto). rewrite Hs in H. by destruct H. }
       unfold drop_owner. rewrite Hno, Hs. cbn. by rewrite !delete_id. }
  unfold drop_owner. rewrite Hs. case_decide as Hl; cbn [fst].
  - split; cbn.
    + intros s' b'. rewrite !lookup_delete_Some, <- Hi. pose proof (proj2 (Hi _ _) Hs) as Hs'.
      split; intros [Hne H]; (split; [|done]); intros ->; apply Hne; [apply Hi in H|]; congruence.
    + intros b'. rewrite !lookup_delete_is_Some, Ho. done.
    + intros b' o [_ Hl']%lookup_delete_Some. eauto.
    + apply lookup_delete_None. by right.
  - split; cbn; [done| | |done].
    + intros b'. rewrite lookup_insert_is_Some, <- Ho. destruct (decide (b = b')) as [<-|]; [|naive_solver].
      split; [by left|eauto].
    + intros b' o [[-> <-]|[_ H]]%lookup_insert_Some; eauto.
Qed.

(** The steps of the manager, with any arguments but for [Rereserve]: there the caller
    names a bridge that a generator with the same prefix has named, now or since the
    number [lo], and does not give a subnet a second bridge. The code checks neither;
    the containers of a server that is restarted meet both as long as its containers
    did. *)
Inductive bm_step (env : Env) (lo : Z) : mgr * World -> mgr * World -> Prop :=
  | bm_Reserve s subnet c r s' : Reserve env subnet c s = (r, s') -> bm_step env lo s s'
  | bm_Release s b c r s' : BridgeMgr_Release env b c s = (r, s') -> bm_step env lo s s'
  | bm_Rereserve s b subnet c r s' :
      (exists k, lo <= k < bm_next s.1 /\ b = Generate (bm_prefix s.1) k) ->
      (subnetBridge s.1 !! IPNet_String subnet = None \/ subnetBridge s.1 !! IPNet_String subnet = Some b) ->
      Rereserve b subnet c s = (r, s') -> bm_step env lo s s'
  | bm_Prune s r s' : Prune env s = (r, s') -> bm_step env lo s s'.

Lemma Reserve_spec env subnet c m w :
  match subnetBridge m !! IPNet_String subnet with
  | Some name => Reserve env subnet c (m, w) = (Ok name, (add_owner name c m, w))
  | None =>
      let name := Generate (bm_prefix m) (bm_next m) in
      let m1 := mkMgr (bm_prefix m) (bm_next m + 1) (owners m) (bridgeSubnet m) (subnetBridge m) in
      Reserve env subnet c (m, w) =
        match GatewayIP subnet with
        | Ok gw =>
            match env w (Create name gw subnet) with
            | inl _ => (Ok name, (add_owner name c (bind_bridge name (IPNet_String subnet) m1), w ++ [Create name gw subnet]))
            | inr e => (Err e, (m1, w ++ [Create name gw subnet]))
            end
        | Err e => (Err e, (m1, w))
        | Panic x => (Panic x, (m1, w))
        end
  end.
Proof.
  unfold Reserve, bind, gets, next_name, lift, eff, zoom, update. cbn [fst snd].
  destruct (subnetBridge m !! IPNet_String subnet); [done|]. cbn [fst snd].
  destruct (GatewayIP subnet) as [gw| |]; [|done|done]. rewrite call__eq. by destruct (env w _).
Qed.

Lemma Prune_state env m w r s' : Prune env (m, w) = (r, s') -> s'.1 = m.
Proof.
  unfold Prune. rewrite bind_eq, map_err_eq, eff_eq, call_eq.
  destruct (env w List) as [out|e]; [|by intros [= <- <-]].
  generalize (w ++ [List]) (split newline out). clear. intros w l. revert w.
  induction l as [|b l IH]; intros w; [by intros [= <- <-]|].
  cbn [for_each]. rewrite bind_eq, bind_eq. unfold gets at 1. cbn [fst id].
  destruct (has_prefix _ _ && _); [|apply IH].
  rewrite ignore_eq, eff_eq, call__eq. destruct (env w (Destroy b)); apply IH.
Qed.

(** The names that are known have numbers that the generator has passed. *)
Record bm_named (lo : Z) (prefix : string) (m : mgr) : Prop := {
  nd_inv : bm_inv m;
  nd_prefix : bm_prefix m = prefix;
  nd_names : forall b, is_Some (bridgeSubnet m !! b) -> exists k, lo <= k < bm_next m /\ b = Generate prefix k
}.

Lemma drop_owner_next m b c : bm_next (drop_owner b c m).1 = bm_next m /\ bm_prefix (drop_owner b c m).1 = bm_prefix m.
Proof. unfold drop_owner. by case_decide. Qed.

Lemma bm_step_next env lo s s' : bm_step env lo s s' -> bm_next s.1 <= bm_next s'.1.
Proof.
  intros [[m w] subnet c r s1 H|[m w] b c r s1 H|[m w] b subnet c r s1 Hk Hs H|[m w] r s1 H]; cbn [fst].
  - pose proof (Reserve_spec env subnet c m w) as HR. destruct (subnetBridge m !! _); rewrite HR in H; [by injection H as <- <-|].
    cbn zeta in H. destruct (GatewayIP subnet) as [gw| |]; [destruct (env w _)|..]; injection H as <- <-; cbn; lia.
  - unfold BridgeMgr_Release, bind, eff, zoom in H. cbn [fst snd] in H. pose proof (drop_owner_next m b c) as [Hnx _].
    destruct (drop_owner b c m) as [m' d]. cbn [fst snd] in *. destruct d; [rewrite call__eq in H|]; injection H as <- <-; cbn; lia.
  - unfold Rereserve, bind, gets, update in H. cbn [fst snd] in H. repeat case_match; injection H as <- <-; done.
  - by apply Prune_state in H as ->.
Qed.

(** So the next one is new. *)
Lemma next_name_fresh lo prefix m : String.length prefix = 4%nat -> 0 <= lo <= bm_next m -> bm_next m < lo + 2 ^ 55 -> bm_named lo prefix m ->
  bridgeSubnet m !! Generate prefix (bm_next m) = None.
Proof.
  intros Hp Hlo Hmax [_ _ Hn]. destruct (bridgeSubnet m !! Generate prefix (bm_next m)) eqn:E; [|done].
  destruct (Hn (Generate prefix (bm_next m))) as (k & Hk & Heq); [by rewrite E|].
  exfalso. apply (bridge_names_unique prefix (bm_next m) k); [done|lia|lia|lia|lia|done].
Qed.

Lemma drop_owner_known m b c b' : is_Some (bridgeSubnet (drop_owner b c m).1 !! b') -> is_Some (bridgeSubnet m !! b').
Proof. unfold drop_owner. case_decide; cbn; [|done]. by rewrite lookup_delete_is_Some; intros []. Qed.

Lemma Reserve_named env lo prefix subnet c m w r s' : String.length prefix = 4%nat -> 0 <= lo <= bm_next m -> bm_next m < lo + 2 ^ 55 ->
  bm_named lo prefix m -> Reserve env subnet c (m, w) = (r, s') -> bm_named lo prefix s'.1 /\ bm_next m <= bm_next s'.1.
Proof.
  intros Hp Hlo Hmax Hnd H. pose proof (next_name_fresh _ _ _ Hp Hlo Hmax Hnd) as Hfresh. destruct Hnd as [Hinv Hpre Hn].
  pose proof (Reserve_spec env subnet c m w) as HR. destruct (subnetBridge m !! IPNet_String subnet) as [name|] eqn:Hsb.
  { rewrite HR in H. injection H as <- <-. split; [|done]. split; [|done|done].
    apply (add_owner_inv _ _ _ (IPNet_String subnet)); [done|]. by apply (bm_inverse _ Hinv). }
  cbn zeta in HR. rewrite HR in H. set (m1 := mkMgr _ _ _ _ _) in *. rewrite Hpre in H.
  assert (Hnd1 : bm_named lo prefix m1).
  { split; [destruct Hinv; by split|done|]. intros b Hb. destruct (Hn b Hb) as (k & Hk & ->). exists k. split; [cbn; lia|done]. }
  assert (Hle : bm_next m <= bm_next m1) by (cbn; lia).
  destruct (GatewayIP subnet) as [gw| |]; [|by injection H as <- <-|by injection H as <- <-].
  destruct (env w _); injection H as <- <-; [|done]. split; [|done]. cbn [fst]. split; [|done|].
  - change (bm_inv (bind_bridge (Generate prefix (bm_next m)) (IPNet_String subnet) (add_owner (Generate prefix (bm_next m)) c m1))).
    apply bind_inv; [apply Hnd1|by left|by left|apply IPNet_String_nonempty].
  - cbn. intros b [<-|[_ Hb]]%lookup_insert_is_Some; [exists (bm_next m); split; [lia|done]|].
    destruct (Hn b Hb) as (k & Hk & ->). exists k. split; [lia|done].
Qed.

Lemma bm_step_named env lo prefix s s' : String.length prefix = 4%nat -> 0 <= lo <= bm_next s.1 -> bm_next s.1 < lo + 2 ^ 55 ->
  bm_named lo prefix s.1 -> bm_step env lo s s' -> bm_named lo prefix s'.1 /\ bm_next s.1 <= bm_next s'.1.
Proof.
  intros Hp Hlo Hmax Hnd Hstep. revert Hlo Hmax Hnd.
  destruct Hstep as [[m w] subnet c r s' H|[m w] b c r s' H|[m w] b subnet c r s' Hk Hs H|[m w] r s' H]; cbn [fst] in *; intros Hlo Hmax Hnd.
  - by eapply Reserve_named.
  - assert (Hm : s'.1 = (drop_owner b c m).1).
    { unfold BridgeMgr_Release, bind, eff, zoom in H. cbn [fst snd] in H. destruct (drop_owner b c m) as [m' d]. cbn [fst snd] in *.
      destruct d; [rewrite call__eq in H|]; by injection H as <- <-. }
    rewrite Hm. destruct (drop_owner_next m b c) as [Hnx Hpx]. rewrite Hnx. split; [|done]. destruct Hnd as [Hinv Hpre Hn].
    split; [by apply drop_owner_inv|by rewrite Hpx|]. intros b' Hb'%drop_owner_known. rewrite Hnx. by apply Hn.
  - destruct Hnd as [Hinv Hpre Hn]. unfold Rereserve in H. case_decide; [by injection H as <- <-|]. unfold bind, gets, update in H. cbn [fst snd] in H.
    assert (Hnew : bridgeSubnet m !! b = None \/ bridgeSubnet m !! b = Some (IPNet_String subnet) ->
      bm_named lo prefix (bind_bridge b (IPNet_String subnet) (add_owner b c m))).
    { intros Hb. split; [apply bind_inv; [done|done|done|apply IPNet_String_nonempty]|done|]. cbn. rewrite Hpre in Hk.
      intros b' [<-|[_ Hb']]%lookup_insert_is_Some; [done|by apply Hn]. }
    destruct (bridgeSubnet m !! b) as [sn|] eqn:Hbs; [case_decide as Hne; [by injection H as <- <-|]; subst sn|];
      injection H as <- <-; (split; [|done]); apply Hnew; [by right|by left].
  - apply Prune_state in H as ->. done.
Qed.

(** C27: along every run of the manager the bridge of a subnet and the subnet of
    a bridge are inverse to each other, so no two subnets share a bridge and no
    subnet has two; a bridge is known exactly as long as it has an owner, and
    every known bridge has at least one. This is for a prefix of four characters, that
    is a tag of one, and for numbers of the generator less than 2^55 from the oldest
    one in use, [lo]: the names that the generator makes are then different. With a tag
    of two characters they repeat ([bridge_names_repeat]) and two subnets can get one
    bridge. [Reserve], [Release] and [Prune] may be called with any arguments;
    [Rereserve] is called with a name that a generator with this prefix has made since
    [lo], and for a subnet that has no other bridge, which the code does not
    check. *)
Theorem bridge_subnet_bijection env prefix now lo w s :
  String.length prefix = 4%nat -> 0 <= lo <= now ->
  rtc (bm_step env lo) (BridgeMgr_New prefix now, w) s -> bm_next s.1 < lo + 2 ^ 55 ->
  (forall sn b, subnetBridge s.1 !! sn = Some b <-> bridgeSubnet s.1 !! b = Some sn) /\
  (forall b, is_Some (bridgeSubnet s.1 !! b) <-> exists c o, owners s.1 !! b = Some (c :: o)).
Proof.
  intros Hp Hlo Hrun. assert (H : bm_next s.1 < lo + 2 ^ 55 -> bm_named lo prefix s.1 /\ lo <= bm_next s.1).
  { revert s Hrun. apply (rtc_ind_r (fun s => bm_next s.1 < lo + 2 ^ 55 -> bm_named lo prefix s.1 /\ lo <= bm_next s.1)).
    - intros _. split; [|cbn; lia]. split; [apply BridgeMgr_New_inv|done|]. intros b. cbn. rewrite lookup_empty. by intros [].
    - intros s1 s2 Hrun Hstep IH Hmax. destruct (Z.lt_ge_cases (bm_next s1.1) (lo + 2 ^ 55)) as [Hlt|Hge].
      + destruct (IH Hlt) as [Hnd Hle]. destruct (bm_step_named _ _ _ _ _ Hp (conj (proj1 Hlo) Hle) Hlt Hnd Hstep). split; [done|lia].
      + exfalso. pose proof (bm_step_next _ _ _ _ Hstep). lia. }
  intros Hmax. destruct (H Hmax) as [[[Hi Ho Hn _] _ _] _]. split; [done|]. intros b. rewrite Ho. split; [|intros (c & o & ->); by eexists].
  intros [[|c o] Hb]; [by destruct (Hn _ _ Hb)|eauto].
Qed.

Definition sample_net (b : Z) : IPNet := mkIPNet [10; 0; 0; b] [255; 255; 255; 252].

(** A bridge of an earlier server, and a new one for another subnet. *)
Definition two_bridges : mgr * World :=
  (Reserve env_ok (sample_net 4) "c2" (Rereserve (Generate "w1b-" 3) (sample_net 0) "c1" (BridgeMgr_New "w1b-" 5, [])).2).2.

Lemma bridge_subnet_bijection_witness :
  bridgeSubnet two_bridges.1 !! Generate "w1b-" 3 = Some "10.0.0.0/30" /\
  subnetBridge two_bridges.1 !! "10.0.0.0/30" = Some (Generate "w1b-" 3) /\
  exists c o, owners two_bridges.1 !! Generate "w1b-" 5 = Some (c :: o).
Proof.
  assert (Hrun : rtc (bm_step env_ok 1) (BridgeMgr_New "w1b-" 5, []) two_bridges).
  { eapply rtc_l; [|apply rtc_once].
    - eapply (bm_Rereserve _ _ _ (Generate "w1b-" 3) (sample_net 0) "c1"); [exists 3; split; [cbn; lia|done]|by left|apply surjective_pairing].
    - eapply (bm_Reserve _ _ _ (sample_net 4) "c2"). apply surjective_pairing. }
  destruct (bridge_subnet_bijection env_ok "w1b-" 5 1 [] two_bridges eq_refl ltac:(lia) Hrun ltac:(vm_compute; reflexivity)) as [H1 H2].
  split; [vm_compute; reflexivity|]. split; [apply H1; vm_compute; reflexivity|]. apply H2. vm_compute. by eexists.
Defined.

(** What [Rereserve] does not check: a subnet that has a bridge can be given a second
    one, and the manager then knows both bridges for it and finds only the second. *)
Lemma Rereserve_second_bridge : exists s1 s2,
  Rereserve "wb-1" (sample_net 0) "c1" (BridgeMgr_New "w1b-" 5, []) = (Ok tt, s1) /\
  Rereserve "wb-2" (sample_net 0) "c2" s1 = (Ok tt, s2) /\
  bridgeSubnet s2.1 !! "wb-1" = Some "10.0.0.0/30" /\ bridgeSubnet s2.1 !! "wb-2" = Some "10.0.0.0/30" /\
  subnetBridge s2.1 !! "10.0.0.0/30" = Some "wb-2".
Proof. do 2 eexists. do 2 (split; [vm_compute; reflexivity|]). vm_compute. by split_and!. Qed.

(** A bridge is destroyed exactly when its last reservation goes: with a
    single owner [Release] forgets the bridge and calls [Destroy]; with another
    owner it keeps the bridge and makes no call. *)
Theorem bridge_destroyed_with_last_owner env m w b s c o :
  bm_inv m -> bridgeSubnet m !! b = Some s -> owners m !! b = Some (c :: o) ->
  exists r m', BridgeMgr_Release env b c (m, w) = (r, (m', if decide (o = []) then w ++ [Destroy b] else w)) /\
    bridgeSubnet m' !! b = (if decide (o = []) then None else Some s) /\
    subnetBridge m' !! s = (if decide (o = []) then None else Some b) /\
    owners m' !! b = (if decide (o = []) then None else Some o).
Proof.
  intros Hinv Hb Ho. unfold BridgeMgr_Release, bind, drop_owner, eff, zoom. cbn [fst snd]. rewrite Ho.
  cbn [default from_option id remove]. rewrite (decide_True (P := c = c)) by done.
  destruct (decide (o = [])) as [->|Hne].
  - rewrite call__eq. cbn [fst snd]. eexists _, _. split; [reflexivity|]. cbn. rewrite Hb. cbn. by rewrite !lookup_delete_eq.
  - eexists _, _. split; [reflexivity|]. cbn. rewrite lookup_insert_eq. split_and!; [done| |done].
    by apply (bm_inverse _ Hinv).
Qed.

Definition sample_mgr : mgr :=
  add_owner "wb-1" "c2" (bind_bridge "wb-1" "10.0.0.0/30" (add_owner "wb-1" "c1" (BridgeMgr_New "wb-" 0))).

Lemma sample_mgr_inv : bm_inv sample_mgr.
Proof.
  apply (add_owner_inv _ _ _ "10.0.0.0/30"); [|done].
  apply bind_inv; [apply BridgeMgr_New_inv|by left|by left|done].
Qed.

Lemma bridge_destroyed_with_last_owner_witness :
  exists r m', BridgeMgr_Release env_ok "wb-1" "c1" (sample_mgr, []) = (r, (m', [])) /\
    bridgeSubnet m' !! "wb-1" = Some "10.0.0.0/30" /\ subnetBridge m' !! "10.0.0.0/30" = Some "wb-1" /\
    owners m' !! "wb-1" = Some ["c2"].
Proof.
  apply (bridge_destroyed_with_last_owner env_ok sample_mgr [] "wb-1" "10.0.0.0/30" "c1" ["c2"]);
    [apply sample_mgr_inv|vm_compute; reflexivity..].
Defined.
