(* ===== verification/Sysconfig.v ===== *)
(** * Server configuration (src/sysconfig)

    [NewConfig] derives every name the server uses on the host from its tag;
    [Environ] is what the helper scripts see of it, and the runner of runner.go
    adds it to each command. *)
From S2P Require Import Prelude GoStrings World ProcessEnv.

Record IPTablesFilterConfig := mkFilterConfig {
  AllowHostAccess : bool;
  InputChain : string;
  ForwardChain : string;
  DefaultChain : string;
  Filter_InstancePrefix : string
}.

Record IPTablesNATConfig := mkNATConfig {
  PreroutingChain : string;
  PostroutingChain : string;
  NAT_InstancePrefix : string
}.

Record IPTablesConfig := mkIPTablesConfig { cfg_Filter : IPTablesFilterConfig; cfg_NAT : IPTablesNATConfig }.

Record Config := mkConfig {
  CgroupPath : string;
  CgroupNodeFilePath : string;
  NetworkInterfacePrefix : string;
  cfg_IPTables : IPTablesConfig;
  Tag : string
}.

Definition NewConfig (tag : string) (allowHostAccess : bool) : Config := {|
  NetworkInterfacePrefix := "w" +:+ tag;
  Tag := tag;
  CgroupPath := "/tmp/garden-" +:+ tag +:+ "/cgroup";
  CgroupNodeFilePath := "/proc/self/cgroup";
  cfg_IPTables := {|
    cfg_Filter := {|
      AllowHostAccess := allowHostAccess;
      InputChain := "w-" +:+ tag +:+ "-input";
      ForwardChain := "w-" +:+ tag +:+ "-forward";
      DefaultChain := "w-" +:+ tag +:+ "-default";
      Filter_InstancePrefix := "w-" +:+ tag +:+ "-instance-"
    |};
    cfg_NAT := {|
      PreroutingChain := "w-" +:+ tag +:+ "-prerouting";
      PostroutingChain := "w-" +:+ tag +:+ "-postrouting";
      NAT_InstancePrefix := "w-" +:+ tag +:+ "-instance-"
    |}
  |}
|}.

Definition FormatBool (b : bool) : string := if b then "true" else "false".

Definition Config_Environ (config : Config) : ProcEnv :=
  let f := cfg_Filter (cfg_IPTables config) in
  let n := cfg_NAT (cfg_IPTables config) in
  list_to_map [
    ("GARDEN_CGROUP_PATH", CgroupPath config);
    ("GARDEN_NETWORK_INTERFACE_PREFIX", NetworkInterfacePrefix config);
    ("GARDEN_TAG", Tag config);
    ("GARDEN_IPTABLES_ALLOW_HOST_ACCESS", FormatBool (AllowHostAccess f));
    ("GARDEN_IPTABLES_FILTER_INPUT_CHAIN", InputChain f);
    ("GARDEN_IPTABLES_FILTER_FORWARD_CHAIN", ForwardChain f);
    ("GARDEN_IPTABLES_FILTER_DEFAULT_CHAIN", DefaultChain f);
    ("GARDEN_IPTABLES_FILTER_INSTANCE_PREFIX", Filter_InstancePrefix f);
    ("GARDEN_IPTABLES_NAT_PREROUTING_CHAIN", PreroutingChain n);
    ("GARDEN_IPTABLES_NAT_POSTROUTING_CHAIN", PostroutingChain n);
    ("GARDEN_IPTABLES_NAT_INSTANCE_PREFIX", NAT_InstancePrefix n)].

(** [withEnv]: [os_environ] is the environment of the server. *)
Definition withEnv (os_environ : list string) (renv : ProcEnv) (cmd : Cmd) : Cmd :=
  let base := if decide (length (cmd_Env cmd) = 0%nat) then os_environ else cmd_Env cmd in
  mkCmd (cmd_Path cmd) (cmd_Args cmd) (base ++ Env_Array renv) (cmd_Stdin cmd).

Section Runner.
Context (env : Env) (os_environ : list string) (renv : ProcEnv).

Definition runner_Run (cmd : Cmd) : M World unit := call_ env (Run (withEnv os_environ renv cmd)).
Definition runner_Start (cmd : Cmd) : M World unit := call_ env (Start (withEnv os_environ renv cmd)).
Definition runner_Background (cmd : Cmd) : M World unit := call_ env (Background (withEnv os_environ renv cmd)).
End Runner.

(** The value a variable has in an environment list: the last assignment, which
    is the one the executed program sees. *)
Fixpoint getenv (l : list string) (k : string) : option string :=
  match l with
  | [] => None
  | s :: l' =>
      match getenv l' k with
      | Some v => Some v
      | None => match cut "="%char s with (k', Some v) => if decide (k' = k) then Some v else None | _ => None end
      end
  end.

Lemma getenv_app l1 l2 k : getenv (l1 ++ l2) k = match getenv l2 k with Some v => Some v | None => getenv l1 k end.
Proof.
  induction l1 as [|s l1 IH]; cbn [app getenv]; [by destruct (getenv l2 k)|].
  rewrite IH. by destruct (getenv l2 k).
Qed.

Lemma getenv_pairs l k v : Forall (fun kv => env_key kv.1) l -> NoDup l.*1 -> (k, v) ∈ l ->
  getenv (pair_text <$> l) k = Some v.
Proof.
  induction l as [|[k' v'] l IH]; intros Hk Hnd Hin; [by apply elem_of_nil in Hin|].
  apply Forall_cons in Hk as [[_ Hk'] Hk]. apply NoDup_cons in Hnd as [Hn Hnd]. cbn in Hk', Hn.
  cbn [fmap list_fmap getenv]. change (pair_text (k', v')) with (k' +:+ String "="%char v').
  rewrite cut_app by done. apply elem_of_cons in Hin as [[= -> ->]|Hin]; [|by rewrite IH].
  rewrite decide_True by done.
  assert (Hnone : getenv (pair_text <$> l) k' = None); [|by rewrite Hnone].
  clear IH Hnd. induction l as [|[a b] l IH]; [done|]. apply Forall_cons in Hk as [[_ Ha] Hk]. cbn in Ha.
  cbn [fmap list_fmap] in Hn. apply not_elem_of_cons in Hn as [Hn1 Hn2]. cbn [fmap list_fmap getenv].
  rewrite IH by done. change (pair_text (a, b)) with (a +:+ String "="%char b).
  rewrite cut_app by done. by rewrite decide_False by (cbn in Hn1; congruence).
Qed.

(** The array of an environment assigns exactly its pairs. *)
Lemma getenv_Array e k v : env_wf e -> e !! k = Some v -> getenv (Env_Array e) k = Some v.
Proof.
  intros Hwf Hk. assert (Hp : Env_Array e ≡ₚ map pair_text (map_to_list e)) by apply sort_Strings_perm.
  apply Permutation_map_inv in Hp as (l & -> & Hl). change (map pair_text l) with (pair_text <$> l). apply getenv_pairs.
  - rewrite <- Hl. apply Forall_forall. intros [x y] Hx%elem_of_map_to_list. by apply (Hwf x y).
  - rewrite <- Hl. apply NoDup_fst_map_to_list.
  - rewrite <- Hl. by apply elem_of_map_to_list.
Qed.

Definition environ_names : list string :=
  ["GARDEN_CGROUP_PATH"; "GARDEN_NETWORK_INTERFACE_PREFIX"; "GARDEN_TAG"; "GARDEN_IPTABLES_ALLOW_HOST_ACCESS";
   "GARDEN_IPTABLES_FILTER_INPUT_CHAIN"; "GARDEN_IPTABLES_FILTER_FORWARD_CHAIN";
   "GARDEN_IPTABLES_FILTER_DEFAULT_CHAIN"; "GARDEN_IPTABLES_FILTER_INSTANCE_PREFIX";
   "GARDEN_IPTABLES_NAT_PREROUTING_CHAIN"; "GARDEN_IPTABLES_NAT_POSTROUTING_CHAIN";
   "GARDEN_IPTABLES_NAT_INSTANCE_PREFIX"].

Lemma environ_names_ok : Forall env_key environ_names.
Proof. apply (bool_decide_unpack _). by vm_compute. Qed.

Lemma Environ_wf config : env_wf (Config_Environ config).
Proof.
  intros k v Hk. apply elem_of_list_to_map_2 in Hk.
  apply (Forall_forall env_key environ_names); [apply environ_names_ok|].
  apply (list_elem_of_fmap_2 fst) in Hk. exact Hk.
Qed.

(** Whatever environment a command of the server already has, the scripts
    it runs see the server's own configuration: each variable of [Environ] has
    its value in the environment that [withEnv] gives the command. *)
Theorem withEnv_wins os_environ config cmd k v :
  Config_Environ config !! k = Some v ->
  getenv (cmd_Env (withEnv os_environ (Config_Environ config) cmd)) k = Some v.
Proof.
  intros Hk. unfold withEnv. cbn [cmd_Env]. rewrite getenv_app.
  by rewrite (getenv_Array _ _ v (Environ_wf config) Hk).
Qed.

Lemma withEnv_wins_witness :
  getenv (cmd_Env (withEnv ["GARDEN_TAG=other"] (Config_Environ (NewConfig "7" true)) (Command "net.sh" []))) "GARDEN_TAG"
  = Some "7".
Proof. apply withEnv_wins. vm_compute. reflexivity. Defined.
