(* ===== verification/IPTables.v ===== *)
(** * iptables chains and the container filter (src/network/iptables, src/network/filter.go)

    Every operation builds [/sbin/iptables] commands and runs them. The wrapper
    that logs the commands ([logging.Runner]) runs them unchanged and is left
    out; an error message contains the error of the command, not its output. *)
From S2P Require Import Prelude GoStrings GoNet World.

(** ** Rules of the API (garden) *)

(** [garden.Protocol]: the four constants, or another value of the integer type. *)
Inductive Protocol := ProtocolAll | ProtocolTCP | ProtocolUDP | ProtocolICMP | ProtocolOther (n : Z).

#[export] Instance Protocol_eq_dec : EqDecision Protocol.
Proof. solve_decision. Defined.

Definition protocols (p : Protocol) : option string :=
  match p with
  | ProtocolAll => Some "all"
  | ProtocolTCP => Some "tcp"
  | ProtocolICMP => Some "icmp"
  | ProtocolUDP => Some "udp"
  | ProtocolOther _ => None
  end.

(** A nil address is [None]. *)
Record IPRange := mkIPRange { range_Start : option IP; range_End : option IP }.
Record PortRange := mkPortRange { port_Start : Z; port_End : Z }.
Record ICMPControl := mkICMP { icmp_Type : Z; icmp_Code : option Z }.

Record NetOutRule := mkRule {
  r_Protocol : Protocol;
  r_Networks : list IPRange;
  r_Ports : list PortRange;
  r_ICMPs : option ICMPControl;
  r_Log : bool
}.

(** ** Chains *)

Record chain := mkChain { ch_name : string; logChainName : string; useKernelLogging : bool }.

Definition NewGlobalChain (name : string) : chain := mkChain name "" false.
Definition NewLoggingChain (name : string) (kernel : bool) : chain := mkChain name (name +:+ "-log") kernel.

Record singleRule := mkSingle {
  s_Protocol : Protocol;
  s_Networks : option IPRange;
  s_Ports : option PortRange;
  s_ICMPs : option ICMPControl;
  s_Log : bool
}.

Definition iptables (args : list string) : Call := Run (Command "/sbin/iptables" args).

Definition buildLogParams (ch : chain) (logPrefix : string) : list string :=
  if useKernelLogging ch then ["--jump"; "LOG"; "--log-prefix"; logPrefix]
  else ["--jump"; "NFLOG"; "--nflog-prefix"; logPrefix; "--nflog-group"; "1"].

Definition allowsPort (p : Protocol) : bool := bool_decide (p = ProtocolTCP \/ p = ProtocolUDP).

Definition network_params (network : option IPRange) : list string :=
  match network with
  | Some (mkIPRange (Some s) (Some e)) => ["-m"; "iprange"; "--dst-range"; IP_String s +:+ "-" +:+ IP_String e]
  | Some (mkIPRange (Some s) None) => ["--destination"; IP_String s]
  | Some (mkIPRange None (Some e)) => ["--destination"; IP_String e]
  | _ => []
  end.

Definition port_params (ports : option PortRange) : list string :=
  match ports with
  | Some p =>
      if negb (port_End p =? port_Start p)
      then ["--destination-port"; FormatUint (port_Start p) 10 +:+ ":" +:+ FormatUint (port_End p) 10]
      else ["--destination-port"; FormatUint (port_Start p) 10]
  | None => []
  end.

Definition icmp_params (icmps : option ICMPControl) : list string :=
  match icmps with
  | Some i =>
      let icmpType := FormatUint (icmp_Type i) 10 in
      let icmpType :=
        match icmp_Code i with
        | Some code => FormatUint (icmp_Type i) 10 +:+ "/" +:+ FormatUint code 10
        | None => icmpType
        end in
      ["--icmp-type"; icmpType]
  | None => []
  end.

(** The arguments of the command of [prependSingleRule]. *)
Definition single_params (ch : chain) (protocolString : string) (r : singleRule) : list string :=
  ["-w"; "-I"; ch_name ch; "1"; "--protocol"; protocolString]
  ++ network_params (s_Networks r) ++ port_params (s_Ports r) ++ icmp_params (s_ICMPs r)
  ++ (if s_Log r then ["--goto"; logChainName ch] else ["--jump"; "RETURN"]).

(** [strings.ToUpper] on ASCII. *)
Definition upper_char (c : ascii) : ascii :=
  let n := nat_of_ascii c in if ((97 <=? n) && (n <=? 122))%nat then ascii_of_nat (n - 32) else c.
Fixpoint ToUpper (s : string) : string :=
  match s with "" => "" | String c s' => String (upper_char c) (ToUpper s') end.

(** [rule]: the filter or NAT rule of [AppendRule] and its relatives. *)
Record rule := mkRuleSpec {
  typ : string;
  source : string;
  destination : string;
  to : option IP;
  jump : string
}.

Definition flags (action chain_name : string) (n : rule) : list string :=
  let r := ["-w"] in
  let r := if decide (typ n = "") then r else r ++ ["-t"; typ n] in
  let r := r ++ [action; chain_name] in
  let r := if decide (source n = "") then r else r ++ ["--source"; source n] in
  let r := if decide (destination n = "") then r else r ++ ["--destination"; destination n] in
  let r := r ++ ["--jump"; jump n] in
  match to n with Some ip => r ++ ["--to"; IP_String ip] | None => r end.

Section Chain.
Context (env : Env).
Local Open Scope go_scope.

Definition rule_create (n : rule) (chain_name : string) : M World unit := call_ env (iptables (flags "-A" chain_name n)).
Definition rule_destroy (n : rule) (chain_name : string) : M World unit := call_ env (iptables (flags "-D" chain_name n)).

Definition AppendRule (ch : chain) (source destination jump : string) : M World unit :=
  rule_create (mkRuleSpec "" source destination None jump) (ch_name ch).
Definition DeleteRule (ch : chain) (source destination jump : string) : M World unit :=
  rule_destroy (mkRuleSpec "" source destination None jump) (ch_name ch).
Definition AppendNatRule (ch : chain) (source destination jump : string) (to : option IP) : M World unit :=
  rule_create (mkRuleSpec "nat" source destination to jump) (ch_name ch).
Definition DeleteNatRule (ch : chain) (source destination jump : string) (to : option IP) : M World unit :=
  rule_destroy (mkRuleSpec "nat" source destination to jump) (ch_name ch).

Definition chain_TearDown (ch : chain) : M World unit :=
  if decide (logChainName ch = "") then panic "cannot tear down chains without associated log chains"
  else
    do! ignore (call_ env (iptables ["-w"; "-F"; logChainName ch])) in
    do! ignore (call_ env (iptables ["-w"; "-X"; logChainName ch])) in
    ret tt.

Definition chain_Setup (ch : chain) (logPrefix : string) : M World unit :=
  if decide (logChainName ch = "") then panic "cannot set up chains without associated log chains"
  else
    do! ignore (chain_TearDown ch) in
    do! map_err (Wrapf "iptables: log chain setup: %v" []) (call_ env (iptables ["-w"; "-N"; logChainName ch])) in
    let appendFlags := ["-w"; "-A"; logChainName ch; "-m"; "conntrack"; "--ctstate"; "NEW,UNTRACKED,INVALID";
                        "--protocol"; "tcp"] in
    do! map_err (Wrapf "iptables: log chain setup: %v" [])
          (call_ env (iptables (appendFlags ++ buildLogParams ch logPrefix))) in
    map_err (Wrapf "iptables: log chain setup: %v" [])
      (call_ env (iptables ["-w"; "-A"; logChainName ch; "--jump"; "RETURN"])).

Definition prependSingleRule (ch : chain) (r : singleRule) : M World unit :=
  match protocols (s_Protocol r) with
  | None => fail (Errorv "invalid protocol: %d" [match s_Protocol r with ProtocolOther n => Itoa n | _ => "" end])
  | Some protocolString =>
      map_err (Wrapf "iptables: %v, %v" []) (call_ env (iptables (single_params ch protocolString r)))
  end.

(** The indices of [for j := 0; j < len(l) || j == 0; j++]. *)
Definition indices_once {A} (l : list A) : list nat := seq 0 (Nat.max 1 (length l)).

(** The struct passed to [prependSingleRule] in the turn [(j, i)]. *)
Definition single_at (r : NetOutRule) (j i : nat) : singleRule :=
  {| s_Protocol := r_Protocol r;
     s_Networks := if decide (0 < length (r_Networks r))%nat then r_Networks r !! j else None;
     s_Ports := if decide (0 < length (r_Ports r))%nat then r_Ports r !! i else None;
     s_ICMPs := r_ICMPs r;
     s_Log := r_Log r |}.

Definition PrependFilterRule (ch : chain) (r : NetOutRule) : M World unit :=
  if bool_decide (0 < length (r_Ports r))%nat && negb (allowsPort (r_Protocol r)) then
    fail (Errorv "Ports cannot be specified for Protocol %s" [ToUpper (default "" (protocols (r_Protocol r)))])
  else
    for_each (fun j => for_each (fun i => prependSingleRule ch (single_at r j i)) (indices_once (r_Ports r)))
      (indices_once (r_Networks r)).

(** ** filter.go *)

Definition filter_Setup (ch : chain) (logPrefix : string) : M World unit :=
  map_err (Wrapf "network: log chain setup: %v" []) (chain_Setup ch logPrefix).
Definition filter_TearDown (ch : chain) : M World unit := ignore (chain_TearDown ch).
Definition filter_NetOut (ch : chain) (r : NetOutRule) : M World unit := PrependFilterRule ch r.
End Chain.

(** ** What [NetOut] asks of iptables *)

Lemma for_each_app {S A} (f : A -> M S unit) l1 l2 s :
  for_each f (l1 ++ l2) s = bind (for_each f l1) (fun _ => for_each f l2) s.
Proof.
  revert s. induction l1 as [|x l1 IH]; intros s; [done|]. cbn [app for_each].
  rewrite !bind_eq. destruct (f x s) as [[] s']; [|done|done]. rewrite IH. by rewrite bind_eq.
Qed.

(** Nested loops are one loop over the pairs, the outer index first. *)
Lemma for_each_nested {S A B} (f : A -> B -> M S unit) l k s :
  for_each (fun a => for_each (f a) k) l s =
  for_each (fun ab => f ab.1 ab.2) (l ≫= fun a => (fun b => (a, b)) <$> k) s.
Proof.
  revert s. induction l as [|a l IH]; intros s; [done|].
  cbn [for_each mbind list_bind]. rewrite for_each_app, !bind_eq.
  replace (for_each (fun ab => f ab.1 ab.2) ((fun b => (a, b)) <$> k) s) with (for_each (f a) k s).
  - destruct (for_each (f a) k s) as [[] s']; [apply IH|done|done].
  - clear IH. revert s. induction k as [|b k IH]; intros s; [done|]. cbn [for_each fmap list_fmap].
    rewrite !bind_eq. cbn [fst snd]. destruct (f a b s) as [[] s']; [apply IH|done|done].
Qed.

(** A loop of calls whose errors are wrapped. *)
Lemma for_each_calls {A} env g (f : A -> Call) l w r w' :
  for_each (fun x => map_err g (call_ env (f x))) l w = (r, w') ->
  (r = Ok tt /\ w' = w ++ (f <$> l)) \/
  (exists l1 x l2 e, l = l1 ++ x :: l2 /\ r = Err e /\ w' = w ++ (f <$> l1) ++ [f x]).
Proof.
  revert w. induction l as [|x l IH]; intros w.
  - intros [= <- <-]. left. by rewrite app_nil_r.
  - cbn [for_each]. rewrite bind_eq, map_err_eq, call__eq. destruct (env w (f x)) as [o|e].
    + intros [[-> ->]|(l1 & y & l2 & e & -> & -> & ->)]%IH; [left|right].
      * by rewrite <- (assoc_L (++)).
      * exists (x :: l1), y, l2, e. by rewrite <- (assoc_L (++)).
    + intros [= <- <-]. right. by exists [], x, l, (g e).
Qed.

Definition choices {A} (l : list A) : list (option A) := match l with [] => [None] | _ => Some <$> l end.

(** One command for each network and each port range of the rule; an empty list
    of networks or ports stands for any. *)
Definition netout_commands (ch : chain) (p : string) (r : NetOutRule) : list Call :=
  n ← choices (r_Networks r);
  q ← choices (r_Ports r);
  [iptables (single_params ch p (mkSingle (r_Protocol r) n q (r_ICMPs r) (r_Log r)))].

Definition netout_valid (r : NetOutRule) : Prop :=
  (r_Ports r = [] \/ r_Protocol r = ProtocolTCP \/ r_Protocol r = ProtocolUDP) /\
  is_Some (protocols (r_Protocol r)).

Lemma choices_indices {A B} (l : list A) (f : option A -> B) :
  (fun i => f (if decide (0 < length l)%nat then l !! i else None)) <$> indices_once l = f <$> choices l.
Proof.
  destruct l as [|x l]; [done|]. unfold indices_once, choices. rewrite Nat.max_r by (cbn; lia).
  transitivity ((fun i => f ((x :: l) !! i)) <$> seq 0 (length (x :: l))).
  { apply list_fmap_ext. intros i z _. by rewrite decide_True by (cbn; lia). }
  rewrite <- list_fmap_compose. generalize (x :: l) as k. clear.
  intros k. revert f. induction k as [|y k IH] using rev_ind; intros f; [done|].
  rewrite length_app, Nat.add_comm. cbn [length]. rewrite seq_S, !fmap_app. cbn [fmap list_fmap]. f_equal.
  - rewrite <- IH. apply list_fmap_ext. intros i z Hz. apply lookup_seq in Hz as [-> Hi]. cbn. by rewrite lookup_app_l by lia.
  - cbn. by rewrite lookup_app_r, Nat.sub_diag by lia.
Qed.

Lemma bind_fmap_l {A B C} (l : list A) (f : A -> B) (g : B -> list C) : (f <$> l) ≫= g = l ≫= (g ∘ f).
Proof. induction l as [|x l IH]; [done|]. cbn. by rewrite <- IH. Qed.

Lemma fmap_bind_l {A B C} (l : list A) (f : A -> list B) (g : B -> C) : g <$> (l ≫= f) = l ≫= fun x => g <$> f x.
Proof. induction l as [|x l IH]; [done|]. cbn. by rewrite fmap_app, <- IH. Qed.

Lemma bind_singleton {A B} (l : list A) (f : A -> B) : (l ≫= fun x => [f x]) = f <$> l.
Proof. induction l as [|x l IH]; [done|]. cbn. by rewrite <- IH. Qed.

Lemma netout_commands_indices ch p r :
  (fun ji => iptables (single_params ch p (single_at r ji.1 ji.2))) <$>
    (indices_once (r_Networks r) ≫= fun j => (fun i => (j, i)) <$> indices_once (r_Ports r)) =
  netout_commands ch p r.
Proof.
  unfold netout_commands. rewrite fmap_bind_l.
  set (F := fun n => (fun q => iptables (single_params ch p (mkSingle (r_Protocol r) n q (r_ICMPs r) (r_Log r))))
                       <$> choices (r_Ports r)).
  transitivity (choices (r_Networks r) ≫= F); [|by apply list_bind_ext; [intros n; unfold F; by rewrite bind_singleton|]].
  transitivity (concat (F <$> choices (r_Networks r))); [|clear; by induction (choices (r_Networks r)); cbn; congruence].
  rewrite <- choices_indices.
  transitivity (concat ((fun j => F (if decide (0 < length (r_Networks r))%nat then r_Networks r !! j else None))
                         <$> indices_once (r_Networks r))); [|done].
  generalize (indices_once (r_Networks r)). intros l. induction l as [|j l IH]; [done|]. cbn. f_equal; [|exact IH].
  unfold F. rewrite <- choices_indices, <- list_fmap_compose. done.
Qed.

(** C38: [NetOut] on every rule. A rule with ports for a protocol without ports,
    or with an unknown protocol, is refused before any command runs. Any other
    rule runs one command per network and port range, in order, each with that
    network and those ports; it succeeds when all of them do, and otherwise
    stops at the first that fails. *)
Theorem netout_runs_product env ch r w :
  (~ netout_valid r -> exists e, filter_NetOut env ch r w = (Err e, w)) /\
  (forall p, netout_valid r -> protocols (r_Protocol r) = Some p ->
     filter_NetOut env ch r w = (Ok tt, w ++ netout_commands ch p r) \/
     exists l1 c l2 e, netout_commands ch p r = l1 ++ c :: l2 /\
       filter_NetOut env ch r w = (Err e, w ++ l1 ++ [c])).
Proof.
  unfold filter_NetOut, PrependFilterRule, netout_valid, allowsPort. split.
  - intros Hinv. case_bool_decide as Hports; case_bool_decide as Hp; cbn [andb negb]; try (by eexists).
    all: assert (Hnone : protocols (r_Protocol r) = None)
      by (apply eq_None_not_Some; intros Hs; apply Hinv; split; [|done];
          destruct (r_Ports r); [by left|]; try (by right); exfalso; apply Hports; cbn; lia).
    all: rewrite for_each_nested; unfold indices_once;
      destruct (Nat.max 1 (length (r_Networks r))) as [|a] eqn:Ea; [lia|];
      destruct (Nat.max 1 (length (r_Ports r))) as [|b] eqn:Eb; [lia|];
      cbn; rewrite bind_eq; unfold prependSingleRule; cbn; rewrite Hnone; by eexists.
  - intros p [Hports _] Hp. rewrite (bool_decide_ext _ (r_Ports r <> [])) by (destruct (r_Ports r); cbn; split; try done; lia).
    assert (Hguard : bool_decide (r_Ports r <> []) && negb (bool_decide (r_Protocol r = ProtocolTCP \/ r_Protocol r = ProtocolUDP)) = false).
    { apply andb_false_iff. destruct Hports as [H|H]; [left; by apply bool_decide_eq_false; intros ?|right].
      by rewrite bool_decide_true. }
    rewrite Hguard, for_each_nested.
    set (run := for_each _ _ _). assert (Hrun : run = for_each (fun ji => map_err (Wrapf "iptables: %v, %v" [])
       (call_ env (iptables (single_params ch p (single_at r ji.1 ji.2)))))
       (indices_once (r_Networks r) ≫= fun j => (fun i => (j, i)) <$> indices_once (r_Ports r)) w).
    { unfold run, prependSingleRule. cbn [s_Protocol single_at]. by rewrite Hp. }
    rewrite Hrun. clear run Hrun. destruct (for_each _ _ w) as [res w'] eqn:E.
    rewrite <- netout_commands_indices.
    apply for_each_calls in E as [[-> ->]|(l1 & x & l2 & e & Hl & -> & ->)]; [by left|right].
    rewrite Hl, fmap_app. eexists _, _, _, e. split; [done|done].
Qed.

Definition sample_rule : NetOutRule :=
  mkRule ProtocolTCP [mkIPRange (Some [10; 0; 0; 1]) None; mkIPRange (Some [10; 0; 0; 2]) (Some [10; 0; 0; 9])]
    [mkPortRange 80 80; mkPortRange 8080 8090] None false.

Lemma netout_runs_product_witness :
  let ch := NewLoggingChain "c" false in
  filter_NetOut env_ok ch sample_rule [] = (Ok tt, [] ++ netout_commands ch "tcp" sample_rule) \/
  exists l1 c l2 e, netout_commands ch "tcp" sample_rule = l1 ++ c :: l2 /\
    filter_NetOut env_ok ch sample_rule [] = (Err e, [] ++ l1 ++ [c]).
Proof.
  apply (proj2 (netout_runs_product env_ok (NewLoggingChain "c" false) sample_rule [])); [|reflexivity].
  split; [right; by left|by eexists].
Defined.

Example sample_rule_commands :
  snd (filter_NetOut env_ok (NewLoggingChain "c" false) sample_rule []) =
  iptables <$> [["-w"; "-I"; "c"; "1"; "--protocol"; "tcp"; "--destination"; "10.0.0.1"; "--destination-port"; "80"; "--jump"; "RETURN"];
   ["-w"; "-I"; "c"; "1"; "--protocol"; "tcp"; "--destination"; "10.0.0.1"; "--destination-port"; "8080:8090"; "--jump"; "RETURN"];
   ["-w"; "-I"; "c"; "1"; "--protocol"; "tcp"; "-m"; "iprange"; "--dst-range"; "10.0.0.2-10.0.0.9"; "--destination-port"; "80"; "--jump"; "RETURN"];
   ["-w"; "-I"; "c"; "1"; "--protocol"; "tcp"; "-m"; "iprange"; "--dst-range"; "10.0.0.2-10.0.0.9"; "--destination-port"; "8080:8090"; "--jump"; "RETURN"]].
Proof. vm_compute. reflexivity. Qed.
