(* ===== verification/IPTablesManager.v ===== *)
(** * The iptables manager of a container (src/linux_container/iptables_manager)

    [filterChain] and [natChain] implement the interface [Chain]; the manager
    sets a list of chains up and tears it down. Its theorems hold for any
    chains. *)
From S2P Require Import Prelude GoStrings GoNet World Sysconfig IPTables.

(** The interface [Chain]. *)
Record ContainerChain := mkContainerChain {
  cc_Setup : string -> string -> IP -> IPNet -> M World unit;
  cc_Teardown : string -> M World unit
}.

(** A double quote. *)
Definition dq : string := String (ascii_of_nat 34) "".

Definition iptables_ (args : list string) : Call := Run (Command "iptables" args).
Definition sh (script : string) : Call := Run (Command "sh" ["-c"; script]).

(** ** filter.go *)

Definition filter_setup_commands (cfg : IPTablesFilterConfig) (containerID bridgeName : string) (ip : IP)
    (network : IPNet) : list Call :=
  let instanceChain := Filter_InstancePrefix cfg +:+ containerID in
  [iptables_ ["--wait"; "-N"; instanceChain];
   iptables_ ["--wait"; "-A"; instanceChain; "-s"; IPNet_String network; "-d"; IPNet_String network; "-j"; "ACCEPT"];
   iptables_ ["--wait"; "-A"; instanceChain; "--goto"; DefaultChain cfg];
   iptables_ ["--wait"; "-I"; ForwardChain cfg; "2"; "--in-interface"; bridgeName; "--source"; IP_String ip;
              "--goto"; instanceChain]].

Definition filter_teardown_commands (cfg : IPTablesFilterConfig) (containerID : string) : list Call :=
  let instanceChain := Filter_InstancePrefix cfg +:+ containerID in
  [sh ("iptables --wait -S " +:+ ForwardChain cfg +:+ " 2> /dev/null | grep " +:+ dq +:+ "\-g " +:+ instanceChain
       +:+ "\b" +:+ dq +:+ " | sed -e " +:+ dq +:+ "s/-A/-D/" +:+ dq
       +:+ " | xargs --no-run-if-empty --max-lines=1 iptables --wait");
   sh ("iptables --wait -F " +:+ instanceChain +:+ " 2> /dev/null || true");
   sh ("iptables --wait -X " +:+ instanceChain +:+ " 2> /dev/null || true")].

(** ** nat.go *)

Definition nat_setup_commands (cfg : IPTablesNATConfig) (containerID : string) (network : IPNet) : list Call :=
  let instanceChain := NAT_InstancePrefix cfg +:+ containerID in
  [iptables_ ["--wait"; "--table"; "nat"; "-N"; instanceChain];
   iptables_ ["--wait"; "--table"; "nat"; "-A"; PreroutingChain cfg; "--jump"; instanceChain];
   sh ("(iptables --wait --table nat -S " +:+ PostroutingChain cfg +:+ " | grep " +:+ dq +:+ "\-j MASQUERADE\b" +:+ dq
       +:+ " | grep -q -F -- " +:+ dq +:+ "-s " +:+ IPNet_String network +:+ dq
       +:+ ") || iptables --wait --table nat -A " +:+ PostroutingChain cfg +:+ " --source " +:+ IPNet_String network
       +:+ " ! --destination " +:+ IPNet_String network +:+ " --jump MASQUERADE")].

Definition nat_teardown_commands (cfg : IPTablesNATConfig) (containerID : string) : list Call :=
  let instanceChain := NAT_InstancePrefix cfg +:+ containerID in
  [sh ("iptables --wait --table nat -S " +:+ PreroutingChain cfg +:+ " 2> /dev/null | grep " +:+ dq +:+ "\-j "
       +:+ instanceChain +:+ "\b" +:+ dq +:+ " | sed -e " +:+ dq +:+ "s/-A/-D/" +:+ dq
       +:+ " | xargs --no-run-if-empty --max-lines=1 iptables --wait --table nat");
   sh ("iptables --wait --table nat -F " +:+ instanceChain +:+ " 2> /dev/null || true");
   sh ("iptables --wait --table nat -X " +:+ instanceChain +:+ " 2> /dev/null || true")].

Section Manager.
Context (env : Env).
Local Open Scope go_scope.

Definition filterChain_Setup cfg (containerID bridgeName : string) (ip : IP) (network : IPNet) : M World unit :=
  for_each (fun cmd => map_err (Wrapf "iptables_manager: filter: %s" []) (call_ env cmd))
    (filter_setup_commands cfg containerID bridgeName ip network).

Definition filterChain_Teardown cfg (containerID : string) : M World unit :=
  for_each (fun cmd => map_err (Wrapf "iptables_manager: filter: %s" []) (call_ env cmd))
    (filter_teardown_commands cfg containerID).

(** A command that fails is run a second time. *)
Definition natChain_Setup cfg (containerID bridgeName : string) (ip : IP) (network : IPNet) : M World unit :=
  for_each (fun cmd =>
    let! r := attempt (call_ env cmd) in
    match r with
    | inl _ => ret tt
    | inr _ => map_err (Wrapf "iptables_manager: nat: %s" []) (call_ env cmd)
    end) (nat_setup_commands cfg containerID network).

Definition natChain_Teardown cfg (containerID : string) : M World unit :=
  for_each (fun cmd => map_err (Wrapf "iptables_manager: nat: %s" []) (call_ env cmd))
    (nat_teardown_commands cfg containerID).

Definition NewFilterChain cfg : ContainerChain := mkContainerChain (filterChain_Setup cfg) (filterChain_Teardown cfg).
Definition NewNATChain cfg : ContainerChain := mkContainerChain (natChain_Setup cfg) (natChain_Teardown cfg).
End Manager.

(** ** iptables_manager.go *)

(** The loop of [ContainerTeardown] with the last error so far. *)
Fixpoint teardown_loop (chains : list ContainerChain) (containerID : string) (lastErr : option error) : M World unit :=
  match chains with
  | [] => match lastErr with Some e => fail e | None => ret tt end
  | chain :: chains' =>
      bind (attempt (cc_Teardown chain containerID)) (fun r =>
        teardown_loop chains' containerID (match r with inr e => Some e | inl _ => lastErr end))
  end.

Definition ContainerTeardown (chains : list ContainerChain) (containerID : string) : M World unit :=
  teardown_loop chains containerID None.

(** The loop of [ContainerSetup]: [before] are the chains already set up. *)
Fixpoint setup_loop (before chains : list ContainerChain) (containerID bridgeName : string) (ip : IP) (network : IPNet)
    : M World unit :=
  match chains with
  | [] => ret tt
  | chain :: chains' =>
      bind (attempt (cc_Setup chain containerID bridgeName ip network)) (fun r =>
        match r with
        | inr err =>
            bind (for_each (fun c => ignore (cc_Teardown c containerID)) before) (fun _ => fail err)
        | inl _ => setup_loop (before ++ [chain]) chains' containerID bridgeName ip network
        end)
  end.

Definition ContainerSetup (chains : list ContainerChain) (containerID bridgeName : string) (ip : IP) (network : IPNet)
    : M World unit :=
  bind (ContainerTeardown chains containerID) (fun _ => setup_loop [] chains containerID bridgeName ip network).

(** ** Properties *)

(** Chains whose teardown does not panic. *)
Definition total_teardown (c : ContainerChain) : Prop := forall id w m, (cc_Teardown c id w).1 <> Panic m.

Definition teardown_world (id : string) (w : World) (c : ContainerChain) : World := (cc_Teardown c id w).2.

(** The last error among the results of the teardowns, in order. *)
Fixpoint last_error (chains : list ContainerChain) (id : string) (w : World) (acc : option error) : option error :=
  match chains with
  | [] => acc
  | c :: cs => last_error cs id (teardown_world id w c)
                 (match (cc_Teardown c id w).1 with Err e => Some e | _ => acc end)
  end.

Lemma teardown_loop_spec chains id : Forall total_teardown chains -> forall w acc,
  teardown_loop chains id acc w =
    (match last_error chains id w acc with Some e => Err e | None => Ok tt end,
     foldl (teardown_world id) w chains).
Proof.
  induction 1 as [|c cs Hc _ IH]; intros w acc; [by destruct acc|].
  cbn [teardown_loop foldl last_error]. rewrite bind_eq, attempt_eq.
  change (teardown_world id w c) with (cc_Teardown c id w).2.
  pose proof (Hc id w) as Hp. destruct (cc_Teardown c id w) as [[u|e|m] w']; cbn [fst snd] in *;
    [apply IH|apply IH|by destruct (Hp m)].
Qed.

Lemma for_each_teardown chains id : Forall total_teardown chains -> forall w,
  for_each (fun c => ignore (cc_Teardown c id)) chains w = (Ok tt, foldl (teardown_world id) w chains).
Proof.
  induction 1 as [|c cs Hc _ IH]; intros w; [done|]. cbn [for_each foldl]. rewrite bind_eq, ignore_eq.
  change (teardown_world id w c) with (cc_Teardown c id w).2. pose proof (Hc id w) as Hp.
  destruct (cc_Teardown c id w) as [[u|e|m] w']; cbn [fst snd] in *; [apply IH|apply IH|by destruct (Hp m)].
Qed.

(** Setting up the chains one after the other without an error. *)
Fixpoint all_set_up (chains : list ContainerChain) (id br : string) (ip : IP) (net : IPNet) (w : World) : option World :=
  match chains with
  | [] => Some w
  | c :: cs => match cc_Setup c id br ip net w with (Ok _, w') => all_set_up cs id br ip net w' | _ => None end
  end.

Lemma setup_loop_spec pre c post id br ip net : Forall total_teardown pre -> forall before w w1 e w2,
  Forall total_teardown before ->
  all_set_up pre id br ip net w = Some w1 -> cc_Setup c id br ip net w1 = (Err e, w2) ->
  setup_loop before (pre ++ c :: post) id br ip net w =
    (Err e, foldl (teardown_world id) w2 (before ++ pre)).
Proof.
  induction 1 as [|x pre Hx _ IH]; intros before w w1 e w2 Hb Hpre Hc; cbn in Hpre.
  - injection Hpre as ->. cbn [app setup_loop]. rewrite bind_eq, attempt_eq, Hc, bind_eq, for_each_teardown by done.
    by rewrite app_nil_r.
  - destruct (cc_Setup x id br ip net w) as [[u|?|?] w'] eqn:E; [|done|done].
    cbn [app setup_loop]. rewrite bind_eq, attempt_eq, E.
    rewrite (IH (before ++ [x]) w' w1 e w2); [by rewrite <- (assoc_L (++))| |done|done].
    apply Forall_app. split; [done|by apply Forall_singleton].
Qed.

(** [ContainerTeardown] tears every chain down, whatever fails, in order, and
    reports the last error. *)
Theorem teardown_reaches_every_chain chains id w :
  Forall total_teardown chains ->
  ContainerTeardown chains id w =
    (match last_error chains id w None with Some e => Err e | None => Ok tt end,
     foldl (teardown_world id) w chains).
Proof. intros H. by apply teardown_loop_spec. Qed.

(** When a chain cannot be set up, [ContainerSetup] tears the chains set up
    before it down again, in order, and returns the error of that chain; the
    chains after it are not touched. *)
Theorem setup_rolls_back pre c post id br ip net w w0 w1 e w2 :
  Forall total_teardown (pre ++ c :: post) ->
  ContainerTeardown (pre ++ c :: post) id w = (Ok tt, w0) ->
  all_set_up pre id br ip net w0 = Some w1 ->
  cc_Setup c id br ip net w1 = (Err e, w2) ->
  ContainerSetup (pre ++ c :: post) id br ip net w = (Err e, foldl (teardown_world id) w2 pre).
Proof.
  intros Ht H0 H1 H2. unfold ContainerSetup. rewrite bind_eq, H0.
  apply Forall_app in Ht as [Hpre _]. by apply (setup_loop_spec pre c post id br ip net Hpre [] w0 w1).
Qed.

(** The chains of the source never panic in [Teardown]. *)
Lemma for_each_total {A} env g (f : A -> Call) l w m : (for_each (fun x => map_err g (call_ env (f x))) l w).1 <> Panic m.
Proof.
  destruct (for_each _ l w) as [r w'] eqn:E.
  apply for_each_calls in E as [[-> _]|(? & ? & ? & ? & _ & -> & _)]; done.
Qed.

Lemma filter_total env cfg : total_teardown (NewFilterChain env cfg).
Proof. intros id w m. apply (for_each_total env _ (fun c => c)). Qed.

Lemma nat_total env cfg : total_teardown (NewNATChain env cfg).
Proof. intros id w m. apply (for_each_total env _ (fun c => c)). Qed.

(** The chains of a server with tag 1, in the order main.go adds them, on a host
    where [iptables -N] fails in the nat table. *)
Definition sample_chains (env : Env) : list ContainerChain :=
  let cfg := cfg_IPTables (NewConfig "1" false) in [NewFilterChain env (cfg_Filter cfg); NewNATChain env (cfg_NAT cfg)].

Definition nat_fails : Env := fun _ c =>
  match c with
  | Run cmd => if decide (take 4 (cmd_Args cmd) = ["--wait"; "--table"; "nat"; "-N"]) then inr (Errorf "exit status 1") else inl ""
  | _ => inl ""
  end.

Lemma teardown_reaches_every_chain_witness :
  ContainerTeardown (sample_chains nat_fails) "c1" [] =
    (match last_error (sample_chains nat_fails) "c1" [] None with Some e => Err e | None => Ok tt end,
     foldl (teardown_world "c1") [] (sample_chains nat_fails)).
Proof.
  apply teardown_reaches_every_chain. constructor; [apply filter_total|constructor; [apply nat_total|constructor]].
Defined.

Lemma setup_rolls_back_witness :
  exists e w2, ContainerSetup (sample_chains nat_fails) "c1" "br" [10; 0; 0; 2] (mkIPNet [10; 0; 0; 0] [255; 255; 255; 252]) []
    = (Err e, foldl (teardown_world "c1") w2 (take 1 (sample_chains nat_fails))).
Proof.
  eexists _, _. eapply (setup_rolls_back (take 1 (sample_chains nat_fails))).
  - constructor; [apply filter_total|constructor; [apply nat_total|constructor]].
  - vm_compute. reflexivity.
  - vm_compute. reflexivity.
  - vm_compute. reflexivity.
Defined.
