(* ===== verification/Bandwidth.v ===== *)
(** * Bandwidth limits (src/linux_container/bandwidth_manager) *)
From S2P Require Import Prelude GoStrings World.

(** ** Regular expressions

    The two patterns of the source are sequences of literals, [\d+], [[0-9a-f]+]
    and [[KMG]?], some of them groups. [many] is the greedy [+] with the
    backtracking of Go's leftmost-first matching. *)

Inductive item :=
| Chr (c : ascii)
| Many (p : ascii -> bool) (group : bool)
| Opt (p : ascii -> bool) (group : bool).

Definition lit (s : string) : list item := Chr <$> chars s.

Fixpoint many (p : ascii -> bool) (k : string -> option (list string)) (acc s : string) : option (string * list string) :=
  match s with
  | "" => None
  | String c s' =>
      if p c then
        let acc' := acc +:+ String c "" in
        match many p k acc' s' with
        | Some r => Some r
        | None => match k s' with Some caps => Some (acc', caps) | None => None end
        end
      else None
  end.

Fixpoint match_items (l : list item) (s : string) : option (list string) :=
  match l with
  | [] => Some []
  | Chr c :: l' =>
      match s with
      | String d s' => if decide (c = d) then match_items l' s' else None
      | "" => None
      end
  | Many p group :: l' =>
      match many p (match_items l') "" s with
      | Some (cap, caps) => Some (if group then cap :: caps else caps)
      | None => None
      end
  | Opt p group :: l' =>
      let skip := match match_items l' s with Some caps => Some (if group then "" :: caps else caps) | None => None end in
      match s with
      | String d s' =>
          if p d then
            match match_items l' s' with
            | Some caps => Some (if group then String d "" :: caps else caps)
            | None => skip
            end
          else skip
      | "" => skip
      end
  end.

(** [FindStringSubmatch]: the groups of the leftmost match. *)
Fixpoint FindStringSubmatch (l : list item) (s : string) : option (list string) :=
  match match_items l s with
  | Some caps => Some caps
  | None => match s with "" => None | String _ s' => FindStringSubmatch l s' end
  end.

Definition is_digit (c : ascii) : bool := digit_val c <? 10.
Definition is_hex (c : ascii) : bool := digit_val c <? 16.
Definition is_unit (c : ascii) : bool := bool_decide (c = "K"%char \/ c = "M"%char \/ c = "G"%char).

Definition rate_pattern : list item :=
  lit " rate " ++ [Many is_digit true; Opt is_unit true] ++ lit "bit burst "
  ++ [Many is_digit true; Opt is_unit true] ++ lit "b".
Definition IN_RATE_PATTERN : list item :=
  lit "qdisc tbf " ++ [Many is_hex false] ++ lit ": root refcnt " ++ [Many is_digit false] ++ rate_pattern.
Definition OUT_RATE_PATTERN : list item := lit "police 0x" ++ [Many is_hex false] ++ rate_pattern.

(** ** The manager *)

Record BandwidthLimits := mkBandwidth { RateInBytesPerSecond : Z; BurstRateInBytesPerSecond : Z }.
Record ContainerBandwidthStat := mkBandwidthStat { InRate : Z; InBurst : Z; OutRate : Z; OutBurst : Z }.

(** [^] is exclusive or in Go: [1024 ^ 2] and [1024 ^ 3] are constants of the source. *)
Definition convertUnits (num : Z) (unit : string) : Z :=
  if decide (unit = "K") then u64 (num * 1024)
  else if decide (unit = "M") then u64 (num * Z.lxor 1024 2)
  else if decide (unit = "G") then u64 (num * Z.lxor 1024 3)
  else num.

Section Manager.
Context (env : Env) (containerPath containerID : string).
Local Open Scope go_scope.

Definition Bandwidth_SetLimits (limits : BandwidthLimits) : M World unit :=
  call_ env (Run (mkCmd (path_join [containerPath; "net_rate.sh"]) []
    ["BURST=" +:+ FormatUint (BurstRateInBytesPerSecond limits) 10;
     "RATE=" +:+ FormatUint (u64 (RateInBytesPerSecond limits * 8)) 10] "")).

(** Rate and burst from the output of [net.sh], or zeros when it does not match. *)
Definition parse_rate (pattern : list item) (out : string) : result (Z * Z) :=
  match FindStringSubmatch pattern out with
  | Some [rate; rateUnit; burst; burstUnit] =>
      res_bind (ParseUint rate) (fun r =>
      res_bind (ParseUint burst) (fun b =>
      Ok (convertUnits r rateUnit / 8, convertUnits b burstUnit)))
  | _ => Ok (0, 0)
  end.

Definition net_info (which : string) : Call :=
  Run (mkCmd (path_join [containerPath; "net.sh"]) [which] ["ID=" +:+ containerID] "").

Definition Bandwidth_GetLimits : M World ContainerBandwidthStat :=
  let! egressOut := call env (net_info "get_egress_info") in
  let! ' (inRate, inBurst) := lift (parse_rate IN_RATE_PATTERN egressOut) in
  let! ingressOut := call env (net_info "get_ingress_info") in
  let! ' (outRate, outBurst) := lift (parse_rate OUT_RATE_PATTERN ingressOut) in
  ret (mkBandwidthStat inRate inBurst outRate outBurst).
End Manager.

(** ** Matching a line of the kernel's report *)

Lemma many_run p k caps acc t c rest :
  Forall (fun x => p x = true) (chars t) -> t <> "" -> p c = false -> k (String c rest) = Some caps ->
  many p k acc (t +:+ String c rest) = Some (acc +:+ t, caps).
Proof.
  intros Ht Hne Hc Hk. revert acc. induction t as [|d t IH]; intros acc; [done|].
  cbn in Ht. apply Forall_cons in Ht as [Hd Ht]. rewrite app_String. cbn [many]. rewrite Hd.
  destruct (decide (t = "")) as [->|Hnt].
  - change ("" +:+ String c rest) with (String c rest). cbn [many]. by rewrite Hc, Hk.
  - rewrite IH by done. by rewrite app_assoc_string.
Qed.

Lemma match_lit s l rest : match_items (lit s ++ l) (s +:+ rest) = match_items l rest.
Proof.
  induction s as [|c s IH]; [done|]. change (lit (String c s)) with (Chr c :: lit s). rewrite app_String.
  cbn [app match_items]. by rewrite decide_True.
Qed.

Lemma FormatUint_digits n : Forall (fun c => is_digit c = true) (chars (FormatUint n 10)).
Proof.
  unfold FormatUint. assert (Hr : Forall (fun d => 0 <= d < 10) (digits (S (Z.to_nat (Z.log2 n))) 10 n []))
    by (apply digits_range; [lia|constructor]).
  induction Hr as [|d ds Hd _ IH]; cbn; [constructor|]. constructor; [|done].
  unfold is_digit. rewrite digit_val_char by lia. apply Z.ltb_lt. lia.
Qed.

(** The units the kernel prints. *)
Definition unit_ok (u : string) : Prop := u = "" \/ u = "K" \/ u = "M" \/ u = "G".

Lemma match_number_unit n u l c rest caps :
  unit_ok u -> is_digit c = false -> is_unit c = false -> match_items l (String c rest) = Some caps ->
  match_items (Many is_digit true :: Opt is_unit true :: l) (FormatUint n 10 +:+ u +:+ String c rest)
  = Some (FormatUint n 10 :: u :: caps).
Proof.
  intros Hu Hd Hun Hl. cbn [match_items].
  assert (Hrun : forall d r, is_digit d = false ->
    match_items (Opt is_unit true :: l) (String d r) = Some (u :: caps) ->
    many is_digit (match_items (Opt is_unit true :: l)) "" (FormatUint n 10 +:+ String d r)
    = Some (FormatUint n 10, u :: caps)).
  { intros d r Hdd Hm. by rewrite (many_run _ _ (u :: caps)); [|apply FormatUint_digits|apply FormatUint_nonempty|..]. }
  destruct Hu as [->|Hu].
  - change ("" +:+ String c rest) with (String c rest). rewrite Hrun; [done|done|]. cbn [match_items]. by rewrite Hun, Hl.
  - destruct Hu as [->|[->| ->]]; rewrite app_String, Hrun; try done;
      change ("" +:+ String c rest) with (String c rest); cbn [match_items]; rewrite Hl; done.
Qed.

(** What the factors of the source are. *)
Definition unit_factor (u : string) : Z :=
  if decide (u = "K") then 1024 else if decide (u = "M") then 1026 else if decide (u = "G") then 1027 else 1.

Lemma convertUnits_factor n u : is_u64 n -> unit_ok u -> convertUnits n u = u64 (n * unit_factor u).
Proof.
  intros Hn [->|[->|[->| ->]]]; unfold convertUnits, unit_factor; repeat (case_decide; [done|]); try done.
  cbn. by rewrite Z.mul_1_r, u64_small.
Qed.

(** The line [tc] prints for the queue of a container. *)
Definition egress_line (n : Z) (u : string) (m : Z) (v rest : string) : string :=
  "qdisc tbf 8001: root refcnt 2 rate " +:+ FormatUint n 10 +:+ u +:+ "bit burst " +:+ FormatUint m 10 +:+ v +:+ "b" +:+ rest.

Lemma parse_egress n u m v rest : is_u64 n -> is_u64 m -> unit_ok u -> unit_ok v ->
  parse_rate IN_RATE_PATTERN (egress_line n u m v rest) =
    Ok (u64 (n * unit_factor u) / 8, u64 (m * unit_factor v)).
Proof.
  intros Hn Hm Hu Hv. unfold parse_rate.
  assert (Hmatch : match_items IN_RATE_PATTERN (egress_line n u m v rest) =
                   Some [FormatUint n 10; u; FormatUint m 10; v]).
  { unfold IN_RATE_PATTERN, egress_line.
    change ("qdisc tbf 8001: root refcnt 2 rate " +:+ ?x)
      with ("qdisc tbf " +:+ ("8001" +:+ String ":"%char (" root refcnt 2 rate " +:+ x))).
    rewrite match_lit. cbn [app match_items].
    rewrite (many_run _ _ [FormatUint n 10; u; FormatUint m 10; v]); [done|apply (bool_decide_unpack _); by vm_compute|done|done|].
    change (String ":"%char (" root refcnt 2 rate " +:+ ?x)) with (": root refcnt " +:+ ("2" +:+ String " "%char ("rate " +:+ x))).
    rewrite match_lit. cbn [app match_items].
    rewrite (many_run _ _ [FormatUint n 10; u; FormatUint m 10; v]); [done|apply (bool_decide_unpack _); by vm_compute|done|done|].
    unfold rate_pattern. change (String " "%char ("rate " +:+ ?x)) with (" rate " +:+ x). rewrite match_lit.
    cbn [app]. change ("bit burst " +:+ ?x) with (String "b"%char ("it burst " +:+ x)).
    apply match_number_unit; [done|done|done|].
    change (String "b"%char ("it burst " +:+ ?x)) with ("bit burst " +:+ x). rewrite match_lit. cbn [app].
    change ("b" +:+ ?x) with (String "b"%char x). by apply match_number_unit. }
  assert (Hfind : FindStringSubmatch IN_RATE_PATTERN (egress_line n u m v rest) =
                  Some [FormatUint n 10; u; FormatUint m 10; v])
    by (unfold FindStringSubmatch; destruct (egress_line n u m v rest); cbn [FindStringSubmatch]; by rewrite Hmatch).
  rewrite Hfind, !ParseUint_FormatUint by done. cbn [res_bind]. by rewrite !convertUnits_factor.
Qed.

(** What [GetLimits] reports for a queue of rate [n][u]bit and burst [m][v]b.
    Plain numbers and kilo-units are converted as meant; for M and G the code
    multiplies by 1026 and 1027, because the caret of [1024 ^ 2] and
    [1024 ^ 3] is exclusive or in Go, not a power. *)
Theorem bandwidth_units env path id w n u m v rest :
  is_u64 n -> is_u64 m -> unit_ok u -> unit_ok v ->
  env w (net_info path id "get_egress_info") = inl (egress_line n u m v rest) ->
  env (w ++ [net_info path id "get_egress_info"]) (net_info path id "get_ingress_info") = inl "" ->
  fst (Bandwidth_GetLimits env path id w) =
    Ok (mkBandwidthStat (u64 (n * unit_factor u) / 8) (u64 (m * unit_factor v)) 0 0).
Proof.
  intros Hn Hm Hu Hv He Hi. unfold Bandwidth_GetLimits.
  rewrite bind_eq, call_eq, He. rewrite bind_eq. unfold lift at 1. rewrite parse_egress by done.
  rewrite bind_eq, call_eq, Hi. done.
Qed.

Lemma bandwidth_units_witness :
  fst (Bandwidth_GetLimits
    (fun _ c => if decide (c = net_info "/c" "x" "get_egress_info") then inl (egress_line 8 "M" 2 "K" " lat 25.0ms") else inl "")
    "/c" "x" []) = Ok (mkBandwidthStat (u64 (8 * unit_factor "M") / 8) (u64 (2 * unit_factor "K")) 0 0).
Proof.
  apply (bandwidth_units _ "/c" "x" [] 8 "M" 2 "K" " lat 25.0ms");
    [unfold is_u64; lia|unfold is_u64; lia|right; right; by left|right; by left|vm_compute; reflexivity..].
Defined.
