(* ===== verification/Metrics.v ===== *)
(** * Container metrics (src/linux_container/metrics.go)

    The statistics files of the kernel are words in pairs, a name and a number.
    Words are separated by white space ([bufio.ScanWords]). *)
From S2P Require Import Prelude GoStrings World.

(** [garden.ContainerMemoryStat] *)
Record MemoryStat := mkMemoryStat {
  m_Cache : Z;
  m_Rss : Z;
  m_MappedFile : Z;
  m_Pgpgin : Z;
  m_Pgpgout : Z;
  m_Swap : Z;
  m_Pgfault : Z;
  m_Pgmajfault : Z;
  m_InactiveAnon : Z;
  m_ActiveAnon : Z;
  m_InactiveFile : Z;
  m_ActiveFile : Z;
  m_Unevictable : Z;
  m_HierarchicalMemoryLimit : Z;
  m_HierarchicalMemswLimit : Z;
  m_TotalCache : Z;
  m_TotalRss : Z;
  m_TotalMappedFile : Z;
  m_TotalPgpgin : Z;
  m_TotalPgpgout : Z;
  m_TotalSwap : Z;
  m_TotalPgfault : Z;
  m_TotalPgmajfault : Z;
  m_TotalInactiveAnon : Z;
  m_TotalActiveAnon : Z;
  m_TotalInactiveFile : Z;
  m_TotalActiveFile : Z;
  m_TotalUnevictable : Z;
  m_TotalUsageTowardLimit : Z
}.

Definition zero_memory : MemoryStat := mkMemoryStat 0 0 0 0 0 0 0 0 0 0 0 0 0 0 0 0 0 0 0 0 0 0 0 0 0 0 0 0 0.

(** [garden.ContainerCPUStat] *)
Record CPUStat := mkCPUStat { cpu_Usage : Z; cpu_User : Z; cpu_System : Z }.

(** [garden.ContainerNetworkStat] *)
Record NetworkStat := mkNetworkStat { RxBytes : Z; TxBytes : Z }.

(** The loop of [scanner.Scan()]: a name without a value ends it, a value that is
    no number is skipped with its name. *)
Fixpoint scan_pairs {A} (set : string -> Z -> A -> A) (ws : list string) (stat : A) : A :=
  match ws with
  | field :: v :: ws' =>
      match ParseUint v with
      | Ok value => scan_pairs set ws' (set field value stat)
      | _ => scan_pairs set ws' stat
      end
  | _ => stat
  end.

Definition set_Cache (v : Z) (s : MemoryStat) : MemoryStat :=
  mkMemoryStat v (m_Rss s) (m_MappedFile s) (m_Pgpgin s) (m_Pgpgout s) (m_Swap s) (m_Pgfault s) (m_Pgmajfault s) (m_InactiveAnon s) (m_ActiveAnon s) (m_InactiveFile s) (m_ActiveFile s) (m_Unevictable s) (m_HierarchicalMemoryLimit s) (m_HierarchicalMemswLimit s) (m_TotalCache s) (m_TotalRss s) (m_TotalMappedFile s) (m_TotalPgpgin s) (m_TotalPgpgout s) (m_TotalSwap s) (m_TotalPgfault s) (m_TotalPgmajfault s) (m_TotalInactiveAnon s) (m_TotalActiveAnon s) (m_TotalInactiveFile s) (m_TotalActiveFile s) (m_TotalUnevictable s) (m_TotalUsageTowardLimit s).
Definition set_Rss (v : Z) (s : MemoryStat) : MemoryStat :=
  mkMemoryStat (m_Cache s) v (m_MappedFile s) (m_Pgpgin s) (m_Pgpgout s) (m_Swap s) (m_Pgfault s) (m_Pgmajfault s) (m_InactiveAnon s) (m_ActiveAnon s) (m_InactiveFile s) (m_ActiveFile s) (m_Unevictable s) (m_HierarchicalMemoryLimit s) (m_HierarchicalMemswLimit s) (m_TotalCache s) (m_TotalRss s) (m_TotalMappedFile s) (m_TotalPgpgin s) (m_TotalPgpgout s) (m_TotalSwap s) (m_TotalPgfault s) (m_TotalPgmajfault s) (m_TotalInactiveAnon s) (m_TotalActiveAnon s) (m_TotalInactiveFile s) (m_TotalActiveFile s) (m_TotalUnevictable s) (m_TotalUsageTowardLimit s).
Definition set_MappedFile (v : Z) (s : MemoryStat) : MemoryStat :=
  mkMemoryStat (m_Cache s) (m_Rss s) v (m_Pgpgin s) (m_Pgpgout s) (m_Swap s) (m_Pgfault s) (m_Pgmajfault s) (m_InactiveAnon s) (m_ActiveAnon s) (m_InactiveFile s) (m_ActiveFile s) (m_Unevictable s) (m_HierarchicalMemoryLimit s) (m_HierarchicalMemswLimit s) (m_TotalCache s) (m_TotalRss s) (m_TotalMappedFile s) (m_TotalPgpgin s) (m_TotalPgpgout s) (m_TotalSwap s) (m_TotalPgfault s) (m_TotalPgmajfault s) (m_TotalInactiveAnon s) (m_TotalActiveAnon s) (m_TotalInactiveFile s) (m_TotalActiveFile s) (m_TotalUnevictable s) (m_TotalUsageTowardLimit s).
Definition set_Pgpgin (v : Z) (s : MemoryStat) : MemoryStat :=
  mkMemoryStat (m_Cache s) (m_Rss s) (m_MappedFile s) v (m_Pgpgout s) (m_Swap s) (m_Pgfault s) (m_Pgmajfault s) (m_InactiveAnon s) (m_ActiveAnon s) (m_InactiveFile s) (m_ActiveFile s) (m_Unevictable s) (m_HierarchicalMemoryLimit s) (m_HierarchicalMemswLimit s) (m_TotalCache s) (m_TotalRss s) (m_TotalMappedFile s) (m_TotalPgpgin s) (m_TotalPgpgout s) (m_TotalSwap s) (m_TotalPgfault s) (m_TotalPgmajfault s) (m_TotalInactiveAnon s) (m_TotalActiveAnon s) (m_TotalInactiveFile s) (m_TotalActiveFile s) (m_TotalUnevictable s) (m_TotalUsageTowardLimit s).
Definition set_Pgpgout (v : Z) (s : MemoryStat) : MemoryStat :=
  mkMemoryStat (m_Cache s) (m_Rss s) (m_MappedFile s) (m_Pgpgin s) v (m_Swap s) (m_Pgfault s) (m_Pgmajfault s) (m_InactiveAnon s) (m_ActiveAnon s) (m_InactiveFile s) (m_ActiveFile s) (m_Unevictable s) (m_HierarchicalMemoryLimit s) (m_HierarchicalMemswLimit s) (m_TotalCache s) (m_TotalRss s) (m_TotalMappedFile s) (m_TotalPgpgin s) (m_TotalPgpgout s) (m_TotalSwap s) (m_TotalPgfault s) (m_TotalPgmajfault s) (m_TotalInactiveAnon s) (m_TotalActiveAnon s) (m_TotalInactiveFile s) (m_TotalActiveFile s) (m_TotalUnevictable s) (m_TotalUsageTowardLimit s).
Definition set_Swap (v : Z) (s : MemoryStat) : MemoryStat :=
  mkMemoryStat (m_Cache s) (m_Rss s) (m_MappedFile s) (m_Pgpgin s) (m_Pgpgout s) v (m_Pgfault s) (m_Pgmajfault s) (m_InactiveAnon s) (m_ActiveAnon s) (m_InactiveFile s) (m_ActiveFile s) (m_Unevictable s) (m_HierarchicalMemoryLimit s) (m_HierarchicalMemswLimit s) (m_TotalCache s) (m_TotalRss s) (m_TotalMappedFile s) (m_TotalPgpgin s) (m_TotalPgpgout s) (m_TotalSwap s) (m_TotalPgfault s) (m_TotalPgmajfault s) (m_TotalInactiveAnon s) (m_TotalActiveAnon s) (m_TotalInactiveFile s) (m_TotalActiveFile s) (m_TotalUnevictable s) (m_TotalUsageTowardLimit s).
Definition set_Pgfault (v : Z) (s : MemoryStat) : MemoryStat :=
  mkMemoryStat (m_Cache s) (m_Rss s) (m_MappedFile s) (m_Pgpgin s) (m_Pgpgout s) (m_Swap s) v (m_Pgmajfault s) (m_InactiveAnon s) (m_ActiveAnon s) (m_InactiveFile s) (m_ActiveFile s) (m_Unevictable s) (m_HierarchicalMemoryLimit s) (m_HierarchicalMemswLimit s) (m_TotalCache s) (m_TotalRss s) (m_TotalMappedFile s) (m_TotalPgpgin s) (m_TotalPgpgout s) (m_TotalSwap s) (m_TotalPgfault s) (m_TotalPgmajfault s) (m_TotalInactiveAnon s) (m_TotalActiveAnon s) (m_TotalInactiveFile s) (m_TotalActiveFile s) (m_TotalUnevictable s) (m_TotalUsageTowardLimit s).
Definition set_Pgmajfault (v : Z) (s : MemoryStat) : MemoryStat :=
  mkMemoryStat (m_Cache s) (m_Rss s) (m_MappedFile s) (m_Pgpgin s) (m_Pgpgout s) (m_Swap s) (m_Pgfault s) v (m_InactiveAnon s) (m_ActiveAnon s) (m_InactiveFile s) (m_ActiveFile s) (m_Unevictable s) (m_HierarchicalMemoryLimit s) (m_HierarchicalMemswLimit s) (m_TotalCache s) (m_TotalRss s) (m_TotalMappedFile s) (m_TotalPgpgin s) (m_TotalPgpgout s) (m_TotalSwap s) (m_TotalPgfault s) (m_TotalPgmajfault s) (m_TotalInactiveAnon s) (m_TotalActiveAnon s) (m_TotalInactiveFile s) (m_TotalActiveFile s) (m_TotalUnevictable s) (m_TotalUsageTowardLimit s).
Definition set_InactiveAnon (v : Z) (s : MemoryStat) : MemoryStat :=
  mkMemoryStat (m_Cache s) (m_Rss s) (m_MappedFile s) (m_Pgpgin s) (m_Pgpgout s) (m_Swap s) (m_Pgfault s) (m_Pgmajfault s) v (m_ActiveAnon s) (m_InactiveFile s) (m_ActiveFile s) (m_Unevictable s) (m_HierarchicalMemoryLimit s) (m_HierarchicalMemswLimit s) (m_TotalCache s) (m_TotalRss s) (m_TotalMappedFile s) (m_TotalPgpgin s) (m_TotalPgpgout s) (m_TotalSwap s) (m_TotalPgfault s) (m_TotalPgmajfault s) (m_TotalInactiveAnon s) (m_TotalActiveAnon s) (m_TotalInactiveFile s) (m_TotalActiveFile s) (m_TotalUnevictable s) (m_TotalUsageTowardLimit s).
Definition set_ActiveAnon (v : Z) (s : MemoryStat) : MemoryStat :=
  mkMemoryStat (m_Cache s) (m_Rss s) (m_MappedFile s) (m_Pgpgin s) (m_Pgpgout s) (m_Swap s) (m_Pgfault s) (m_Pgmajfault s) (m_InactiveAnon s) v (m_InactiveFile s) (m_ActiveFile s) (m_Unevictable s) (m_HierarchicalMemoryLimit s) (m_HierarchicalMemswLimit s) (m_TotalCache s) (m_TotalRss s) (m_TotalMappedFile s) (m_TotalPgpgin s) (m_TotalPgpgout s) (m_TotalSwap s) (m_TotalPgfault s) (m_TotalPgmajfault s) (m_TotalInactiveAnon s) (m_TotalActiveAnon s) (m_TotalInactiveFile s) (m_TotalActiveFile s) (m_TotalUnevictable s) (m_TotalUsageTowardLimit s).
Definition set_InactiveFile (v : Z) (s : MemoryStat) : MemoryStat :=
  mkMemoryStat (m_Cache s) (m_Rss s) (m_MappedFile s) (m_Pgpgin s) (m_Pgpgout s) (m_Swap s) (m_Pgfault s) (m_Pgmajfault s) (m_InactiveAnon s) (m_ActiveAnon s) v (m_ActiveFile s) (m_Unevictable s) (m_HierarchicalMemoryLimit s) (m_HierarchicalMemswLimit s) (m_TotalCache s) (m_TotalRss s) (m_TotalMappedFile s) (m_TotalPgpgin s) (m_TotalPgpgout s) (m_TotalSwap s) (m_TotalPgfault s) (m_TotalPgmajfault s) (m_TotalInactiveAnon s) (m_TotalActiveAnon s) (m_TotalInactiveFile s) (m_TotalActiveFile s) (m_TotalUnevictable s) (m_TotalUsageTowardLimit s).
Definition set_ActiveFile (v : Z) (s : MemoryStat) : MemoryStat :=
  mkMemoryStat (m_Cache s) (m_Rss s) (m_MappedFile s) (m_Pgpgin s) (m_Pgpgout s) (m_Swap s) (m_Pgfault s) (m_Pgmajfault s) (m_InactiveAnon s) (m_ActiveAnon s) (m_InactiveFile s) v (m_Unevictable s) (m_HierarchicalMemoryLimit s) (m_HierarchicalMemswLimit s) (m_TotalCache s) (m_TotalRss s) (m_TotalMappedFile s) (m_TotalPgpgin s) (m_TotalPgpgout s) (m_TotalSwap s) (m_TotalPgfault s) (m_TotalPgmajfault s) (m_TotalInactiveAnon s) (m_TotalActiveAnon s) (m_TotalInactiveFile s) (m_TotalActiveFile s) (m_TotalUnevictable s) (m_TotalUsageTowardLimit s).
Definition set_Unevictable (v : Z) (s : MemoryStat) : MemoryStat :=
  mkMemoryStat (m_Cache s) (m_Rss s) (m_MappedFile s) (m_Pgpgin s) (m_Pgpgout s) (m_Swap s) (m_Pgfault s) (m_Pgmajfault s) (m_InactiveAnon s) (m_ActiveAnon s) (m_InactiveFile s) (m_ActiveFile s) v (m_HierarchicalMemoryLimit s) (m_HierarchicalMemswLimit s) (m_TotalCache s) (m_TotalRss s) (m_TotalMappedFile s) (m_TotalPgpgin s) (m_TotalPgpgout s) (m_TotalSwap s) (m_TotalPgfault s) (m_TotalPgmajfault s) (m_TotalInactiveAnon s) (m_TotalActiveAnon s) (m_TotalInactiveFile s) (m_TotalActiveFile s) (m_TotalUnevictable s) (m_TotalUsageTowardLimit s).
Definition set_HierarchicalMemoryLimit (v : Z) (s : MemoryStat) : MemoryStat :=
  mkMemoryStat (m_Cache s) (m_Rss s) (m_MappedFile s) (m_Pgpgin s) (m_Pgpgout s) (m_Swap s) (m_Pgfault s) (m_Pgmajfault s) (m_InactiveAnon s) (m_ActiveAnon s) (m_InactiveFile s) (m_ActiveFile s) (m_Unevictable s) v (m_HierarchicalMemswLimit s) (m_TotalCache s) (m_TotalRss s) (m_TotalMappedFile s) (m_TotalPgpgin s) (m_TotalPgpgout s) (m_TotalSwap s) (m_TotalPgfault s) (m_TotalPgmajfault s) (m_TotalInactiveAnon s) (m_TotalActiveAnon s) (m_TotalInactiveFile s) (m_TotalActiveFile s) (m_TotalUnevictable s) (m_TotalUsageTowardLimit s).
Definition set_HierarchicalMemswLimit (v : Z) (s : MemoryStat) : MemoryStat :=
  mkMemoryStat (m_Cache s) (m_Rss s) (m_MappedFile s) (m_Pgpgin s) (m_Pgpgout s) (m_Swap s) (m_Pgfault s) (m_Pgmajfault s) (m_InactiveAnon s) (m_ActiveAnon s) (m_InactiveFile s) (m_ActiveFile s) (m_Unevictable s) (m_HierarchicalMemoryLimit s) v (m_TotalCache s) (m_TotalRss s) (m_TotalMappedFile s) (m_TotalPgpgin s) (m_TotalPgpgout s) (m_TotalSwap s) (m_TotalPgfault s) (m_TotalPgmajfault s) (m_TotalInactiveAnon s) (m_TotalActiveAnon s) (m_TotalInactiveFile s) (m_TotalActiveFile s) (m_TotalUnevictable s) (m_TotalUsageTowardLimit s).
Definition set_TotalCache (v : Z) (s : MemoryStat) : MemoryStat :=
  mkMemoryStat (m_Cache s) (m_Rss s) (m_MappedFile s) (m_Pgpgin s) (m_Pgpgout s) (m_Swap s) (m_Pgfault s) (m_Pgmajfault s) (m_InactiveAnon s) (m_ActiveAnon s) (m_InactiveFile s) (m_ActiveFile s) (m_Unevictable s) (m_HierarchicalMemoryLimit s) (m_HierarchicalMemswLimit s) v (m_TotalRss s) (m_TotalMappedFile s) (m_TotalPgpgin s) (m_TotalPgpgout s) (m_TotalSwap s) (m_TotalPgfault s) (m_TotalPgmajfault s) (m_TotalInactiveAnon s) (m_TotalActiveAnon s) (m_TotalInactiveFile s) (m_TotalActiveFile s) (m_TotalUnevictable s) (m_TotalUsageTowardLimit s).
Definition set_TotalRss (v : Z) (s : MemoryStat) : MemoryStat :=
  mkMemoryStat (m_Cache s) (m_Rss s) (m_MappedFile s) (m_Pgpgin s) (m_Pgpgout s) (m_Swap s) (m_Pgfault s) (m_Pgmajfault s) (m_InactiveAnon s) (m_ActiveAnon s) (m_InactiveFile s) (m_ActiveFile s) (m_Unevictable s) (m_HierarchicalMemoryLimit s) (m_HierarchicalMemswLimit s) (m_TotalCache s) v (m_TotalMappedFile s) (m_TotalPgpgin s) (m_TotalPgpgout s) (m_TotalSwap s) (m_TotalPgfault s) (m_TotalPgmajfault s) (m_TotalInactiveAnon s) (m_TotalActiveAnon s) (m_TotalInactiveFile s) (m_TotalActiveFile s) (m_TotalUnevictable s) (m_TotalUsageTowardLimit s).
Definition set_TotalMappedFile (v : Z) (s : MemoryStat) : MemoryStat :=
  mkMemoryStat (m_Cache s) (m_Rss s) (m_MappedFile s) (m_Pgpgin s) (m_Pgpgout s) (m_Swap s) (m_Pgfault s) (m_Pgmajfault s) (m_InactiveAnon s) (m_ActiveAnon s) (m_InactiveFile s) (m_ActiveFile s) (m_Unevictable s) (m_HierarchicalMemoryLimit s) (m_HierarchicalMemswLimit s) (m_TotalCache s) (m_TotalRss s) v (m_TotalPgpgin s) (m_TotalPgpgout s) (m_TotalSwap s) (m_TotalPgfault s) (m_TotalPgmajfault s) (m_TotalInactiveAnon s) (m_TotalActiveAnon s) (m_TotalInactiveFile s) (m_TotalActiveFile s) (m_TotalUnevictable s) (m_TotalUsageTowardLimit s).
Definition set_TotalPgpgin (v : Z) (s : MemoryStat) : MemoryStat :=
  mkMemoryStat (m_Cache s) (m_Rss s) (m_MappedFile s) (m_Pgpgin s) (m_Pgpgout s) (m_Swap s) (m_Pgfault s) (m_Pgmajfault s) (m_InactiveAnon s) (m_ActiveAnon s) (m_InactiveFile s) (m_ActiveFile s) (m_Unevictable s) (m_HierarchicalMemoryLimit s) (m_HierarchicalMemswLimit s) (m_TotalCache s) (m_TotalRss s) (m_TotalMappedFile s) v (m_TotalPgpgout s) (m_TotalSwap s) (m_TotalPgfault s) (m_TotalPgmajfault s) (m_TotalInactiveAnon s) (m_TotalActiveAnon s) (m_TotalInactiveFile s) (m_TotalActiveFile s) (m_TotalUnevictable s) (m_TotalUsageTowardLimit s).
Definition set_TotalPgpgout (v : Z) (s : MemoryStat) : MemoryStat :=
  mkMemoryStat (m_Cache s) (m_Rss s) (m_MappedFile s) (m_Pgpgin s) (m_Pgpgout s) (m_Swap s) (m_Pgfault s) (m_Pgmajfault s) (m_InactiveAnon s) (m_ActiveAnon s) (m_InactiveFile s) (m_ActiveFile s) (m_Unevictable s) (m_HierarchicalMemoryLimit s) (m_HierarchicalMemswLimit s) (m_TotalCache s) (m_TotalRss s) (m_TotalMappedFile s) (m_TotalPgpgin s) v (m_TotalSwap s) (m_TotalPgfault s) (m_TotalPgmajfault s) (m_TotalInactiveAnon s) (m_TotalActiveAnon s) (m_TotalInactiveFile s) (m_TotalActiveFile s) (m_TotalUnevictable s) (m_TotalUsageTowardLimit s).
Definition set_TotalSwap (v : Z) (s : MemoryStat) : MemoryStat :=
  mkMemoryStat (m_Cache s) (m_Rss s) (m_MappedFile s) (m_Pgpgin s) (m_Pgpgout s) (m_Swap s) (m_Pgfault s) (m_Pgmajfault s) (m_InactiveAnon s) (m_ActiveAnon s) (m_InactiveFile s) (m_ActiveFile s) (m_Unevictable s) (m_HierarchicalMemoryLimit s) (m_HierarchicalMemswLimit s) (m_TotalCache s) (m_TotalRss s) (m_TotalMappedFile s) (m_TotalPgpgin s) (m_TotalPgpgout s) v (m_TotalPgfault s) (m_TotalPgmajfault s) (m_TotalInactiveAnon s) (m_TotalActiveAnon s) (m_TotalInactiveFile s) (m_TotalActiveFile s) (m_TotalUnevictable s) (m_TotalUsageTowardLimit s).
Definition set_TotalPgfault (v : Z) (s : MemoryStat) : MemoryStat :=
  mkMemoryStat (m_Cache s) (m_Rss s) (m_MappedFile s) (m_Pgpgin s) (m_Pgpgout s) (m_Swap s) (m_Pgfault s) (m_Pgmajfault s) (m_InactiveAnon s) (m_ActiveAnon s) (m_InactiveFile s) (m_ActiveFile s) (m_Unevictable s) (m_HierarchicalMemoryLimit s) (m_HierarchicalMemswLimit s) (m_TotalCache s) (m_TotalRss s) (m_TotalMappedFile s) (m_TotalPgpgin s) (m_TotalPgpgout s) (m_TotalSwap s) v (m_TotalPgmajfault s) (m_TotalInactiveAnon s) (m_TotalActiveAnon s) (m_TotalInactiveFile s) (m_TotalActiveFile s) (m_TotalUnevictable s) (m_TotalUsageTowardLimit s).
Definition set_TotalPgmajfault (v : Z) (s : MemoryStat) : MemoryStat :=
  mkMemoryStat (m_Cache s) (m_Rss s) (m_MappedFile s) (m_Pgpgin s) (m_Pgpgout s) (m_Swap s) (m_Pgfault s) (m_Pgmajfault s) (m_InactiveAnon s) (m_ActiveAnon s) (m_InactiveFile s) (m_ActiveFile s) (m_Unevictable s) (m_HierarchicalMemoryLimit s) (m_HierarchicalMemswLimit s) (m_TotalCache s) (m_TotalRss s) (m_TotalMappedFile s) (m_TotalPgpgin s) (m_TotalPgpgout s) (m_TotalSwap s) (m_TotalPgfault s) v (m_TotalInactiveAnon s) (m_TotalActiveAnon s) (m_TotalInactiveFile s) (m_TotalActiveFile s) (m_TotalUnevictable s) (m_TotalUsageTowardLimit s).
Definition set_TotalInactiveAnon (v : Z) (s : MemoryStat) : MemoryStat :=
  mkMemoryStat (m_Cache s) (m_Rss s) (m_MappedFile s) (m_Pgpgin s) (m_Pgpgout s) (m_Swap s) (m_Pgfault s) (m_Pgmajfault s) (m_InactiveAnon s) (m_ActiveAnon s) (m_InactiveFile s) (m_ActiveFile s) (m_Unevictable s) (m_HierarchicalMemoryLimit s) (m_HierarchicalMemswLimit s) (m_TotalCache s) (m_TotalRss s) (m_TotalMappedFile s) (m_TotalPgpgin s) (m_TotalPgpgout s) (m_TotalSwap s) (m_TotalPgfault s) (m_TotalPgmajfault s) v (m_TotalActiveAnon s) (m_TotalInactiveFile s) (m_TotalActiveFile s) (m_TotalUnevictable s) (m_TotalUsageTowardLimit s).
Definition set_TotalActiveAnon (v : Z) (s : MemoryStat) : MemoryStat :=
  mkMemoryStat (m_Cache s) (m_Rss s) (m_MappedFile s) (m_Pgpgin s) (m_Pgpgout s) (m_Swap s) (m_Pgfault s) (m_Pgmajfault s) (m_InactiveAnon s) (m_ActiveAnon s) (m_InactiveFile s) (m_ActiveFile s) (m_Unevictable s) (m_HierarchicalMemoryLimit s) (m_HierarchicalMemswLimit s) (m_TotalCache s) (m_TotalRss s) (m_TotalMappedFile s) (m_TotalPgpgin s) (m_TotalPgpgout s) (m_TotalSwap s) (m_TotalPgfault s) (m_TotalPgmajfault s) (m_TotalInactiveAnon s) v (m_TotalInactiveFile s) (m_TotalActiveFile s) (m_TotalUnevictable s) (m_TotalUsageTowardLimit s).
Definition set_TotalInactiveFile (v : Z) (s : MemoryStat) : MemoryStat :=
  mkMemoryStat (m_Cache s) (m_Rss s) (m_MappedFile s) (m_Pgpgin s) (m_Pgpgout s) (m_Swap s) (m_Pgfault s) (m_Pgmajfault s) (m_InactiveAnon s) (m_ActiveAnon s) (m_InactiveFile s) (m_ActiveFile s) (m_Unevictable s) (m_HierarchicalMemoryLimit s) (m_HierarchicalMemswLimit s) (m_TotalCache s) (m_TotalRss s) (m_TotalMappedFile s) (m_TotalPgpgin s) (m_TotalPgpgout s) (m_TotalSwap s) (m_TotalPgfault s) (m_TotalPgmajfault s) (m_TotalInactiveAnon s) (m_TotalActiveAnon s) v (m_TotalActiveFile s) (m_TotalUnevictable s) (m_TotalUsageTowardLimit s).
Definition set_TotalActiveFile (v : Z) (s : MemoryStat) : MemoryStat :=
  mkMemoryStat (m_Cache s) (m_Rss s) (m_MappedFile s) (m_Pgpgin s) (m_Pgpgout s) (m_Swap s) (m_Pgfault s) (m_Pgmajfault s) (m_InactiveAnon s) (m_ActiveAnon s) (m_InactiveFile s) (m_ActiveFile s) (m_Unevictable s) (m_HierarchicalMemoryLimit s) (m_HierarchicalMemswLimit s) (m_TotalCache s) (m_TotalRss s) (m_TotalMappedFile s) (m_TotalPgpgin s) (m_TotalPgpgout s) (m_TotalSwap s) (m_TotalPgfault s) (m_TotalPgmajfault s) (m_TotalInactiveAnon s) (m_TotalActiveAnon s) (m_TotalInactiveFile s) v (m_TotalUnevictable s) (m_TotalUsageTowardLimit s).
Definition set_TotalUnevictable (v : Z) (s : MemoryStat) : MemoryStat :=
  mkMemoryStat (m_Cache s) (m_Rss s) (m_MappedFile s) (m_Pgpgin s) (m_Pgpgout s) (m_Swap s) (m_Pgfault s) (m_Pgmajfault s) (m_InactiveAnon s) (m_ActiveAnon s) (m_InactiveFile s) (m_ActiveFile s) (m_Unevictable s) (m_HierarchicalMemoryLimit s) (m_HierarchicalMemswLimit s) (m_TotalCache s) (m_TotalRss s) (m_TotalMappedFile s) (m_TotalPgpgin s) (m_TotalPgpgout s) (m_TotalSwap s) (m_TotalPgfault s) (m_TotalPgmajfault s) (m_TotalInactiveAnon s) (m_TotalActiveAnon s) (m_TotalInactiveFile s) (m_TotalActiveFile s) v (m_TotalUsageTowardLimit s).
Definition set_TotalUsageTowardLimit (v : Z) (s : MemoryStat) : MemoryStat :=
  mkMemoryStat (m_Cache s) (m_Rss s) (m_MappedFile s) (m_Pgpgin s) (m_Pgpgout s) (m_Swap s) (m_Pgfault s) (m_Pgmajfault s) (m_InactiveAnon s) (m_ActiveAnon s) (m_InactiveFile s) (m_ActiveFile s) (m_Unevictable s) (m_HierarchicalMemoryLimit s) (m_HierarchicalMemswLimit s) (m_TotalCache s) (m_TotalRss s) (m_TotalMappedFile s) (m_TotalPgpgin s) (m_TotalPgpgout s) (m_TotalSwap s) (m_TotalPgfault s) (m_TotalPgmajfault s) (m_TotalInactiveAnon s) (m_TotalActiveAnon s) (m_TotalInactiveFile s) (m_TotalActiveFile s) (m_TotalUnevictable s) v.

(** The [switch] of [parseMemoryStat]. *)
Definition set_memory (field : string) (value : Z) (stat : MemoryStat) : MemoryStat :=
  if decide (field = "cache") then set_Cache value stat else
  if decide (field = "rss") then set_Rss value stat else
  if decide (field = "mapped_file") then set_MappedFile value stat else
  if decide (field = "pgpgin") then set_Pgpgin value stat else
  if decide (field = "pgpgout") then set_Pgpgout value stat else
  if decide (field = "swap") then set_Swap value stat else
  if decide (field = "pgfault") then set_Pgfault value stat else
  if decide (field = "pgmajfault") then set_Pgmajfault value stat else
  if decide (field = "inactive_anon") then set_InactiveAnon value stat else
  if decide (field = "active_anon") then set_ActiveAnon value stat else
  if decide (field = "inactive_file") then set_InactiveFile value stat else
  if decide (field = "active_file") then set_ActiveFile value stat else
  if decide (field = "unevictable") then set_Unevictable value stat else
  if decide (field = "hierarchical_memory_limit") then set_HierarchicalMemoryLimit value stat else
  if decide (field = "hierarchical_memsw_limit") then set_HierarchicalMemswLimit value stat else
  if decide (field = "total_cache") then set_TotalCache value stat else
  if decide (field = "total_rss") then set_TotalRss value stat else
  if decide (field = "total_mapped_file") then set_TotalMappedFile value stat else
  if decide (field = "total_pgpgin") then set_TotalPgpgin value stat else
  if decide (field = "total_pgpgout") then set_TotalPgpgout value stat else
  if decide (field = "total_swap") then set_TotalSwap value stat else
  if decide (field = "total_pgfault") then set_TotalPgfault value stat else
  if decide (field = "total_pgmajfault") then set_TotalPgmajfault value stat else
  if decide (field = "total_inactive_anon") then set_TotalInactiveAnon value stat else
  if decide (field = "total_active_anon") then set_TotalActiveAnon value stat else
  if decide (field = "total_inactive_file") then set_TotalInactiveFile value stat else
  if decide (field = "total_active_file") then set_TotalActiveFile value stat else
  if decide (field = "total_unevictable") then set_TotalUnevictable value stat else
  stat.

Definition parseMemoryStat (contents : string) : MemoryStat :=
  let stat := scan_pairs set_memory (String.words contents) zero_memory in
  set_TotalUsageTowardLimit
    (u64 (m_TotalRss stat + u64 (m_TotalCache stat - m_TotalInactiveFile stat))) stat.

Definition set_cpu (field : string) (value : Z) (stat : CPUStat) : CPUStat :=
  if decide (field = "user") then mkCPUStat (cpu_Usage stat) value (cpu_System stat)
  else if decide (field = "system") then mkCPUStat (cpu_Usage stat) (cpu_User stat) value
  else stat.

Definition parseCPUStat (usage statContents : string) : CPUStat :=
  match ParseUint (trim is_newline usage) with
  | Ok cpuUsage => scan_pairs set_cpu (String.words statContents) (mkCPUStat cpuUsage 0 0)
  | _ => mkCPUStat 0 0 0
  end.

(** ** The fields by name *)

Definition memory_fields : list (string * (MemoryStat -> Z)) :=
  [("cache", m_Cache);
   ("rss", m_Rss);
   ("mapped_file", m_MappedFile);
   ("pgpgin", m_Pgpgin);
   ("pgpgout", m_Pgpgout);
   ("swap", m_Swap);
   ("pgfault", m_Pgfault);
   ("pgmajfault", m_Pgmajfault);
   ("inactive_anon", m_InactiveAnon);
   ("active_anon", m_ActiveAnon);
   ("inactive_file", m_InactiveFile);
   ("active_file", m_ActiveFile);
   ("unevictable", m_Unevictable);
   ("hierarchical_memory_limit", m_HierarchicalMemoryLimit);
   ("hierarchical_memsw_limit", m_HierarchicalMemswLimit);
   ("total_cache", m_TotalCache);
   ("total_rss", m_TotalRss);
   ("total_mapped_file", m_TotalMappedFile);
   ("total_pgpgin", m_TotalPgpgin);
   ("total_pgpgout", m_TotalPgpgout);
   ("total_swap", m_TotalSwap);
   ("total_pgfault", m_TotalPgfault);
   ("total_pgmajfault", m_TotalPgmajfault);
   ("total_inactive_anon", m_TotalInactiveAnon);
   ("total_active_anon", m_TotalActiveAnon);
   ("total_inactive_file", m_TotalInactiveFile);
   ("total_active_file", m_TotalActiveFile);
   ("total_unevictable", m_TotalUnevictable)].

(** Setting a field by its name changes that field only. *)
Lemma set_memory_get : Forall (fun kg => forall field v s,
  kg.2 (set_memory field v s) = if decide (field = kg.1) then v else kg.2 s) memory_fields.
Proof.
  unfold memory_fields, set_memory. repeat constructor; intros field v s; cbn [fst snd];
    repeat (case_decide; [subst; try reflexivity; done|]); try reflexivity; done.
Qed.

(** The value of the last pair with the given name whose value is a number. *)
Fixpoint last_value (k : string) (ws : list string) (acc : Z) : Z :=
  match ws with
  | field :: v :: ws' =>
      last_value k ws' (match ParseUint v with Ok n => if decide (field = k) then n else acc | _ => acc end)
  | _ => acc
  end.

Lemma scan_pairs_get {A} (set : string -> Z -> A -> A) (get : A -> Z) k :
  (forall field v s, get (set field v s) = if decide (field = k) then v else get s) ->
  forall n ws stat, (length ws <= n)%nat -> get (scan_pairs set ws stat) = last_value k ws (get stat).
Proof.
  intros Hset. induction n as [|n IH]; intros [|f [|v ws]] stat Hl; cbn in Hl; try done; [lia|].
  cbn [scan_pairs last_value]. destruct (ParseUint v) as [x| |]; rewrite IH by lia; [by rewrite Hset|done|done].
Qed.

(** [parseMemoryStat] on any contents: each of the 28 statistics has the
    value of the last pair with its name, and 0 when there is none; the usage
    that counts against the limit is the sum the kernel's accounting defines,
    in 64-bit arithmetic. *)
Theorem memory_stat_fields contents :
  let st := parseMemoryStat contents in
  Forall (fun kg => kg.2 st = last_value kg.1 (String.words contents) 0) memory_fields /\
  m_TotalUsageTowardLimit st =
    u64 (last_value "total_rss" (String.words contents) 0 +
         u64 (last_value "total_cache" (String.words contents) 0 -
              last_value "total_inactive_file" (String.words contents) 0)).
Proof.
  cbn zeta. set (ws := String.words contents).
  assert (Hf : Forall (fun kg => kg.2 (scan_pairs set_memory ws zero_memory) = last_value kg.1 ws 0) memory_fields).
  { assert (H0 : Forall (fun kg : string * (MemoryStat -> Z) => kg.2 zero_memory = 0) memory_fields) by (repeat constructor).
    eapply Forall_impl; [apply Forall_and; split; [apply set_memory_get|exact H0]|].
    intros [k g] [Hset Hz]. cbn [fst snd] in *.
    by rewrite (scan_pairs_get _ g k Hset (length ws)), Hz. }
  unfold parseMemoryStat. fold ws. set (stat := scan_pairs set_memory ws zero_memory) in *. split.
  - unfold memory_fields in *. repeat (apply Forall_cons in Hf as [Hx Hf]; apply Forall_cons; split; [exact Hx|clear Hx]). constructor.
  - cbn. unfold memory_fields in Hf. rewrite !Forall_cons in Hf. cbn [fst snd] in Hf.
    destruct_and! Hf. by repeat match goal with H : _ = last_value _ _ _ |- _ => rewrite <- H; clear H end.
Qed.
