(* ===== verification/Cgroups.v ===== *)
(** * Control groups (src/linux_container/cgroups_manager)

    The manager writes and reads the control files of one container; where they
    are depends on the cgroup of the server itself, which a [CgroupReader]
    finds in [/proc/self/cgroup]. The manager is modelled over the interface:
    [node] is the reader's [CgroupNode]. *)
From S2P Require Import Prelude GoStrings World.

(** ** cgroup_reader.go *)

(** [findCgroupEntry]: the first line that contains the name and a colon. *)
Definition findCgroupEntry (contents subsystem : string) : string :=
  match List.find (fun line => contains line (subsystem +:+ ":")) (split newline contents) with
  | Some line => line
  | None => ""
  end.

(** What [CgroupNode] does with the contents of the file. *)
Definition cgroup_of (contents subsystem : string) : result string :=
  let line := findCgroupEntry contents subsystem in
  if decide (line = "") then Err (Errorv "cgroups_manager: requested subsystem %s does not exist" [subsystem])
  else match split ":"%char line with
       | [_; _; c] => Ok c
       | _ => Err (Errorv "cgroups_manager: cgroup file malformed: %s" [contents])
       end.

Section Reader.
Context (env : Env) (Path : string).
Local Open Scope go_scope.

(** The state of a [LinuxCgroupReader]: whether its file is open. *)
Definition CgroupNode (subsystem : string) : M (bool * World) string :=
  let! opened := gets id in
  do! (if opened : bool then ret tt
       else do! map_err (Wrapf "cgroups_manager: opening file: %s" []) (eff (call_ env (Sys "open" [Path]))) in
            update (fun _ => true)) in
  do! map_err (Wrapf "cgroups_manager: seeking start of file: %s" []) (eff (call_ env (Sys "seek" [Path; "0"]))) in
  let! contents := map_err (Wrapf "cgroups_manager: reading file: %s" []) (eff (call env (ReadFile Path))) in
  lift (cgroup_of contents subsystem).
End Reader.

(** ** container_cgroups_manager.go *)

Section Manager.
Context (env : Env) (node : string -> M World string) (cgroupsPath containerID : string).
Local Open Scope go_scope.

Definition SubsystemPath (subsystem : string) : M World string :=
  let! cgroupNode := node subsystem in
  ret (path_join [cgroupsPath; subsystem; cgroupNode; "instance-" +:+ containerID]).

Definition Cgroups_Set (subsystem name value : string) : M World unit :=
  let! cgroupPath := map_err (Wrapf "cgroups_manager: set: %s" []) (SubsystemPath subsystem) in
  call_ env (WriteFile (path_join [cgroupPath; name]) value).

Definition Cgroups_Get (subsystem name : string) : M World string :=
  let! cgroupPath := map_err (Wrapf "cgroups_manager: get: %s" []) (SubsystemPath subsystem) in
  let! body := call env (ReadFile (path_join [cgroupPath; name])) in
  ret (trim is_newline body).

(** [cpuset.cpus] and [cpuset.mems] are copied from the parent group. *)
Definition copy_cpuset (subsystem subsystemPath file : string) : M World unit :=
  let src := path_join [cgroupsPath; subsystem; file] in
  let dst := path_join [subsystemPath; file] in
  do! map_err (Wrapf "cgroups: initialize cpuset: %s" []) (call_ env (Sys "open" [src])) in
  do! map_err (Wrapf "cgroups: initialize cpuset: %s" []) (call_ env (Sys "openfile" [dst])) in
  let! data := call env (ReadFile src) in
  call_ env (WriteFile dst data).

Definition Cgroups_Setup (subsystems : list string) : M World unit :=
  for_each (fun subsystem =>
    let! subsystemPath := SubsystemPath subsystem in
    do! call_ env (MkdirAll subsystemPath) in
    if decide (subsystem = "cpuset")
    then for_each (copy_cpuset subsystem subsystemPath) ["cpuset.cpus"; "cpuset.mems"]
    else ret tt) subsystems.

Definition Cgroups_Add (pid : Z) (subsystems : list string) : M World unit :=
  for_each (fun subsystem =>
    let! subsystemPath := SubsystemPath subsystem in
    let tasks := path_join [subsystemPath; "tasks"] in
    do! call_ env (Sys "openfile" [tasks]) in
    call_ env (Sys "append" [tasks; Itoa pid +:+ String newline ""])) subsystems.
End Manager.

(** ** Reading back what was written *)

(** The data of the last [WriteFile] of a path in a history. *)
Fixpoint last_write (path : string) (h : World) : option string :=
  match h with
  | [] => None
  | c :: h' =>
      match last_write path h' with
      | Some d => Some d
      | None => match c with WriteFile p d => if decide (p = path) then Some d else None | _ => None end
      end
  end.

Lemma last_write_app p h h' :
  last_write p (h ++ h') = match last_write p h' with Some d => Some d | None => last_write p h end.
Proof.
  induction h as [|c h IH]; cbn; [by destruct (last_write p h')|]. rewrite IH. by destruct (last_write p h').
Qed.

(** The documented behaviour of files: reading one gives what was last written. *)
Definition reads_back (env : Env) : Prop :=
  forall w p d, last_write p w = Some d -> env w (ReadFile p) = inl d.

(** A reader whose answer for a subsystem does not change and which writes no file. *)
Definition stable_node (node : string -> M World string) (subsystem n : string) : Prop :=
  forall w, exists l, node subsystem w = (Ok n, w ++ l) /\ forall p, last_write p l = None.

Lemma SubsystemPath_stable node path id sub n w : stable_node node sub n ->
  exists l, SubsystemPath node path id sub w = (Ok (path_join [path; sub; n; "instance-" +:+ id]), w ++ l) /\
            forall p, last_write p l = None.
Proof.
  intros H. destruct (H w) as (l & Hl & Hp). exists l. split; [|done]. unfold SubsystemPath. by rewrite bind_eq, Hl.
Qed.

Lemma trim_left_none p s : Forall (fun c => p c = false) (chars s) -> trim_left p s = s.
Proof. destruct s as [|c s]; [done|]. intros [Hc _]%Forall_cons. cbn. by rewrite Hc. Qed.

Lemma chars_rev_app s t : chars (String.rev_app s t) = reverse (chars s) ++ chars t.
Proof.
  revert t. induction s as [|c s IH]; intros t; [done|]. cbn [String.rev_app]. rewrite IH. cbn [chars].
  by rewrite reverse_cons, <- (assoc_L (++)).
Qed.

Lemma chars_rev s : chars (String.rev s) = reverse (chars s).
Proof. unfold String.rev. rewrite chars_rev_app. cbn. by rewrite app_nil_r. Qed.

Lemma trim_none p s : Forall (fun c => p c = false) (chars s) -> trim p s = s.
Proof.
  intros H. unfold trim. rewrite (trim_left_none p s) by done.
  rewrite trim_left_none by (rewrite chars_rev; by apply Forall_reverse).
  apply chars_inj. by rewrite !chars_rev, reverse_involutive.
Qed.

Lemma FormatUint_no_newline n : 0 <= n -> Forall (fun c => is_newline c = false) (chars (FormatUint n 10)).
Proof.
  intros Hn. apply Forall_forall. intros c Hc. unfold is_newline. apply bool_decide_eq_false. intros ->.
  revert Hc. apply FormatUint_chars; [done|by vm_compute].
Qed.

(** A number written to a control file and read back by [Get]. *)
Lemma Get_Set env node path id sub n name v w w1 : reads_back env -> stable_node node sub n -> 0 <= v ->
  Cgroups_Set env node path id sub name (FormatUint v 10) w = (Ok tt, w1) ->
  exists w2, Cgroups_Get env node path id sub name w1 = (Ok (FormatUint v 10), w2).
Proof.
  intros Hr Hs Hv. unfold Cgroups_Set, Cgroups_Get.
  destruct (SubsystemPath_stable node path id sub n w Hs) as (l & Hl & _).
  rewrite bind_eq, map_err_eq, Hl, call__eq. set (f := path_join _).
  destruct (env (w ++ l) _) as [o|e]; [|done]. intros [= <-].
  destruct (SubsystemPath_stable node path id sub n ((w ++ l) ++ [WriteFile f (FormatUint v 10)]) Hs) as (l2 & Hl2 & Hn2).
  rewrite bind_eq, map_err_eq, Hl2. fold f. rewrite bind_eq, call_eq, (Hr _ _ (FormatUint v 10)).
  - eexists. unfold ret. rewrite trim_none by (by apply FormatUint_no_newline). done.
  - rewrite !last_write_app, Hn2. cbn. by rewrite decide_True.
Qed.

(** A subsystem that shares its hierarchy with another one is found only
    when it is the last of the list: in the cgroup file of a host that mounts
    cpu and cpuacct together, as [cpu,cpuacct], the cpu subsystem is reported
    not to exist, although its group is on that line. *)
Theorem comounted_subsystem_not_found path rest :
  newline ∉ chars path -> contains path "cpu:" = false ->
  Forall (fun line => contains line "cpu:" = false) (split newline rest) ->
  cgroup_of ("4:cpu,cpuacct:" +:+ path +:+ String newline rest) "cpu" =
    Err (Errorv "cgroups_manager: requested subsystem %s does not exist" ["cpu"]) /\
  (":"%char ∉ chars path -> cgroup_of ("4:cpu,cpuacct:" +:+ path +:+ String newline rest) "cpuacct" = Ok path).
Proof.
  intros Hn Hp Hrest. unfold cgroup_of, findCgroupEntry.
  rewrite <- app_assoc_string, split_app.
  2: { rewrite chars_app, not_elem_of_app. split; [|done]. apply (bool_decide_unpack _). by vm_compute. }
  cbn [List.find]. split.
  - replace (contains ("4:cpu,cpuacct:" +:+ path) ("cpu" +:+ ":")) with false by (symmetry; exact Hp).
    assert (Hf : List.find (fun line => contains line ("cpu" +:+ ":")) (split newline rest) = None).
    { induction Hrest as [|l ls Hl _ IH]; [done|]. cbn [List.find].
      change ("cpu" +:+ ":") with "cpu:" in *. by rewrite Hl. }
    by rewrite Hf.
  - intros Hc. replace (contains ("4:cpu,cpuacct:" +:+ path) ("cpuacct" +:+ ":")) with true by done.
    rewrite decide_False by done.
    change ("4:cpu,cpuacct:" +:+ path) with ("4" +:+ String ":"%char ("cpu,cpuacct" +:+ String ":"%char path)).
    rewrite split_app by (apply (bool_decide_unpack _); by vm_compute).
    rewrite split_app by (apply (bool_decide_unpack _); by vm_compute).
    by rewrite split_none.
Qed.

Lemma comounted_subsystem_not_found_witness :
  cgroup_of ("4:cpu,cpuacct:" +:+ "/" +:+ String newline "3:memory:/") "cpu" =
    Err (Errorv "cgroups_manager: requested subsystem %s does not exist" ["cpu"]).
Proof.
  apply (comounted_subsystem_not_found "/" "3:memory:/");
    [apply (bool_decide_unpack _); by vm_compute|reflexivity|repeat constructor].
Defined.
