(* ===== verification/ProcessTracker.v ===== *)
(** * The process tracker (src/process_tracker)

    The tracker maps process IDs to [Process] objects. Each process has a linker
    goroutine which connects to the process's socket, waits for its exit and
    then removes it from the map; [sync.Once] makes the linker run once per
    object. The model has a heap of [Process] objects, the map of pointers to
    them and the goroutines, and a step relation that interleaves the calls of
    clients with the steps of the goroutines. Closing a channel that is closed
    panics in Go: the model counts the closings. *)
From S2P Require Import Prelude GoStrings World ProcessEnv RLimits Bandwidth IPTablesManager.

(** ** Commands and signals (process.go, link_signaller.go, namespaced_signaller.go) *)

Record WindowSize := mkWindowSize { ws_Columns : Z; ws_Rows : Z }.
Record TTYSpec := mkTTY { tty_WindowSize : option WindowSize }.

Definition process_sock (containerPath id : string) : string :=
  path_join [containerPath; "processes"; id +:+ ".sock"].

(** The command [Spawn] starts for [cmd]. *)
Definition spawn_cmd (containerPath id : string) (cmd : Cmd) (tty : option TTYSpec) : Cmd :=
  let spawnPath := path_join [containerPath; "bin"; "iodaemon"] in
  let bashFlags := ["-c"; spawnPath +:+ " " +:+ dq +:+ "$@" +:+ dq +:+ " &"; spawnPath] in
  let bashFlags :=
    match tty with
    | Some t =>
        let bashFlags := bashFlags ++ ["-tty"] in
        match tty_WindowSize t with
        | Some w => bashFlags ++ ["-windowColumns=" +:+ Itoa (ws_Columns w); "-windowRows=" +:+ Itoa (ws_Rows w)]
        | None => bashFlags
        end
    | None => bashFlags
    end in
  let bashFlags := bashFlags ++ ["spawn"; process_sock containerPath id] in
  mkCmd "bash" (bashFlags ++ cmd_Path cmd :: cmd_Args cmd) (cmd_Env cmd) "".

(** [garden.Signal]: its two constants, or another value. *)
Inductive Signal := SignalTerminate | SignalKill | SignalOther (n : Z).
Definition SIGKILL : Z := 9.
Definition SIGTERM : Z := 15.

Definition signal_number (s : Signal) : result Z :=
  match s with
  | SignalKill => Ok SIGKILL
  | SignalTerminate => Ok SIGTERM
  | SignalOther n => Err (Errorv "process_tracker: failed to send signal: unknown signal: %d" [Itoa n])
  end.

Inductive Signaller := LinkSignaller | NamespacedSignaller (ContainerPath : string) (timeout_ms : Z).

(** [fmt.Sprintf("%d.pid", request.Pid)] where [Pid] is a string: the verb does
    not fit the operand, and the formatted text says so. *)
Definition pidfile_name (Pid : string) : string := "%!d(string=" +:+ Pid +:+ ").pid".

(** [fmt.Sscanf(s, "%d", &pid)] into an [int], where the text may have a sign. *)
Definition Sscanf_int (s : string) : option Z :=
  match trim_left (fun c => is_space c && negb (is_newline c)) s with
  | String c s' =>
      if decide (c = "-"%char) then
        match ParseUint (scan_digits s') with Ok v => if v <=? 9223372036854775808 then Some (- v) else None | _ => None end
      else
        let t := if decide (c = "+"%char) then s' else String c s' in
        match ParseUint (scan_digits t) with Ok v => if v <? 9223372036854775808 then Some v else None | _ => None end
  | "" => None
  end.

Section Signallers.
Context (env : Env).
Local Open Scope go_scope.

(** [os.Open] is tried once every 100 ms; the error reported is the last one. *)
Fixpoint openPIDFile (iterations : nat) (pidFilePath : string) (err : error) : M World unit :=
  match iterations with
  | O => fail (Wrapf "linux_backend: can't open PID file: %s" [] err)
  | S n =>
      let! r := attempt (call_ env (Sys "open" [pidFilePath])) in
      match r with inl _ => ret tt | inr e => openPIDFile n pidFilePath e end
  end.

(** [pidFile.Read]: an error or no bytes is tried again. *)
Fixpoint readPIDFile (iterations : nat) (pidFilePath : string) : M World string :=
  match iterations with
  | O => fail (Errorf "linux_backend: can't read PID file: is empty or non existent")
  | S n =>
      let! r := attempt (call env (ReadFile pidFilePath)) in
      match r with
      | inl (String c s) => ret (String c s)
      | _ => do! ignore (call_ env (Sys "seek" [pidFilePath; "0"])) in readPIDFile n pidFilePath
      end
  end.

Definition PidFromFile (pidFilePath : string) (timeout_ms : Z) : M World Z :=
  let n := Z.to_nat (timeout_ms / 100) in
  do! openPIDFile n pidFilePath (Errorf "%!s(<nil>)") in
  let! fileContent := readPIDFile n pidFilePath in
  match Sscanf_int fileContent with
  | Some pid => ret pid
  | None => fail (Errorf "linux_backend: can't parse PID file content: %v")
  end.

(** [signaller.Signal(request)] for the process [pid] over its link. *)
Definition Signaller_Signal (s : Signaller) (pid : string) (sig : Z) : M World unit :=
  match s with
  | LinkSignaller => call_ env (Sys "link.SendMsg" [pid; Itoa sig])
  | NamespacedSignaller path timeout =>
      let pidfile := path_join [path; "processes"; pidfile_name pid] in
      let! p := PidFromFile pidfile timeout in
      call_ env (Run (Command (path_join [path; "bin/wsh"])
        ["--socket"; path_join [path; "run/wshd.sock"]; "--user"; "root"; "kill"; "-" +:+ Itoa sig; Itoa p]))
  end.
End Signallers.

(** ** Processes and the tracker (process.go, process_tracker.go) *)

(** The state of [runningLink], the [sync.Once]. *)
Inductive OncePhase := NotStarted | Running | Done.

#[export] Instance OncePhase_eq_dec : EqDecision OncePhase.
Proof. solve_decision. Defined.

Record Process := mkProcess {
  proc_id : string;
  proc_signaller : Signaller;
  runningLink : OncePhase;
  linked : nat;               (* how often the channel has been closed *)
  exited : nat;
  exitStatus : Z;
  exitErr : option error
}.

Definition NewProcess (id : string) (signaller : Signaller) : Process :=
  mkProcess id signaller NotStarted 0 0 0 None.

(** A goroutine running [t.link(id)]. *)
Inductive Thread :=
| LinkStart (id : string)                 (* before the lookup *)
| InLink (id : string) (p : positive)     (* in [process.Link()], before the once *)
| RunLinker (id : string) (p : positive)  (* in [runLinker], before the link is created *)
| Waiting (id : string) (p : positive)    (* in [p.link.Wait()] *)
| Unregister (id : string).               (* before the deferred [unregister] *)

Record processTracker := mkTracker {
  heap : gmap positive Process;
  next_ptr : positive;
  processes : gmap string positive;
  threads : list Thread
}.

Definition Tracker_New : processTracker := mkTracker ∅ 1 ∅ [].

Definition set_processes (m : gmap string positive) (t : processTracker) : processTracker :=
  mkTracker (heap t) (next_ptr t) m (threads t).
Definition set_heap (h : gmap positive Process) (t : processTracker) : processTracker :=
  mkTracker h (next_ptr t) (processes t) (threads t).
Definition spawn_thread (th : Thread) (t : processTracker) : processTracker :=
  mkTracker (heap t) (next_ptr t) (processes t) (threads t ++ [th]).

(** A new object under the ID. *)
Definition register (id : string) (s : Signaller) (t : processTracker) : processTracker :=
  mkTracker (<[next_ptr t := NewProcess id s]> (heap t)) (Pos.succ (next_ptr t))
    (<[id := next_ptr t]> (processes t)) (threads t).

(** [Run]: [ready] and [active] are what [Spawn] sends on its channels. *)
Definition Tracker_Run (id : string) (s : Signaller) (ready active : option error) (t : processTracker)
    : result string * processTracker :=
  let t := register id s t in
  match ready with
  | Some err => (Err err, t)
  | None =>
      let t := spawn_thread (LinkStart id) t in
      match active with
      | Some err => (Err err, t)
      | None => (Ok id, t)
      end
  end.

Definition Tracker_Attach (id : string) (t : processTracker) : result string * processTracker :=
  match processes t !! id with
  | Some _ => (Ok id, spawn_thread (LinkStart id) t)
  | None => (Err (UnknownProcessError id), t)
  end.

Definition Tracker_Restore (id : string) (s : Signaller) (t : processTracker) : processTracker :=
  spawn_thread (LinkStart id) (register id s t).

(** The IDs of [ActiveProcesses], in some order. *)
Definition ActiveProcesses (t : processTracker) : list string := (map_to_list (processes t)).*1.

Definition unregister (id : string) (t : processTracker) : processTracker := set_processes (delete id (processes t)) t.

(** [completed]: the status, the error, and [close(p.exited)]. *)
Definition completed (status : Z) (err : option error) (p : Process) : Process :=
  mkProcess (proc_id p) (proc_signaller p) (runningLink p) (linked p) (S (exited p)) status err.

(** [p.link = link; close(p.linked)] *)
Definition link_up (p : Process) : Process :=
  mkProcess (proc_id p) (proc_signaller p) (runningLink p) (S (linked p)) (exited p) (exitStatus p) (exitErr p).

Definition set_once (o : OncePhase) (p : Process) : Process :=
  mkProcess (proc_id p) (proc_signaller p) o (linked p) (exited p) (exitStatus p) (exitErr p).

(** One step of a goroutine, with the answer of the world it waits for; the
    thread it becomes, or [None] when it ends. [sync.Once] lets the first caller
    in, blocks others while it runs, and lets them pass when it is done. *)
Inductive thread_step : Thread -> processTracker -> option Thread -> processTracker -> Prop :=
  | link_unknown id t : processes t !! id = None -> thread_step (LinkStart id) t None t
  | link_known id p t : processes t !! id = Some p -> thread_step (LinkStart id) t (Some (InLink id p)) t
  | once_first id p o t : heap t !! p = Some o -> runningLink o = NotStarted ->
      thread_step (InLink id p) t (Some (RunLinker id p)) (set_heap (<[p := set_once Running o]> (heap t)) t)
  | once_done id p o t : heap t !! p = Some o -> runningLink o = Done ->
      thread_step (InLink id p) t (Some (Unregister id)) t
  | link_failed id p o err t : heap t !! p = Some o ->
      thread_step (RunLinker id p) t (Some (Unregister id))
        (set_heap (<[p := set_once Done (completed (-1) (Some err) o)]> (heap t)) t)
  | link_created id p o t : heap t !! p = Some o ->
      thread_step (RunLinker id p) t (Some (Waiting id p)) (set_heap (<[p := link_up o]> (heap t)) t)
  | process_exited id p o status err t : heap t !! p = Some o ->
      thread_step (Waiting id p) t (Some (Unregister id))
        (set_heap (<[p := set_once Done (completed status err o)]> (heap t)) t)
  | unregistered id t : thread_step (Unregister id) t None (unregister id t).

Inductive tracker_step : processTracker -> processTracker -> Prop :=
  | client_run id s ready active r t t' : Tracker_Run id s ready active t = (r, t') -> tracker_step t t'
  | client_attach id r t t' : Tracker_Attach id t = (r, t') -> tracker_step t t'
  | client_restore id s t : tracker_step t (Tracker_Restore id s t)
  | goroutine l1 th l2 th' t t' : threads t = l1 ++ th :: l2 -> thread_step th t th' t' ->
      tracker_step t (mkTracker (heap t') (next_ptr t') (processes t') (l1 ++ option_list th' ++ l2)).

(** [Signal] and [SetTTY] wait for the link: [None] while they block. *)
Definition Process_Signal (env : Env) (sig : Signal) (p : Process) : option (M World unit) :=
  if decide (linked p = 0%nat) then None
  else Some (bind (lift (signal_number sig)) (fun n => Signaller_Signal env (proc_signaller p) (proc_id p) n)).

Definition Process_Wait (p : Process) : option (result Z) :=
  if decide (exited p = 0%nat) then None
  else Some (match exitErr p with Some e => Err e | None => Ok (exitStatus p) end).

(** ** The linker of a process runs once *)

(** How many goroutines are in [runLinker] of the object, before and after its
    link exists. *)
Definition creating (p : positive) (th : Thread) : nat :=
  match th with RunLinker _ q => if decide (p = q) then 1 else 0 | _ => 0 end%nat.
Definition waiting (p : positive) (th : Thread) : nat :=
  match th with Waiting _ q => if decide (p = q) then 1 else 0 | _ => 0 end%nat.
Definition total (f : Thread -> nat) (l : list Thread) : nat := sum_list_with f l.
Arguments total : simpl never.

Definition proc_ok (o : Process) (a b : nat) : Prop :=
  match runningLink o with
  | NotStarted => a = 0 /\ b = 0 /\ linked o = 0 /\ exited o = 0
  | Running => exited o = 0 /\ (a = 1 /\ b = 0 /\ linked o = 0 \/ a = 0 /\ b = 1 /\ linked o = 1)
  | Done => a = 0 /\ b = 0 /\ exited o = 1 /\ linked o <= 1
  end%nat.

Record tracker_inv (t : processTracker) : Prop := {
  ti_objects : forall p o, heap t !! p = Some o ->
    proc_ok o (total (creating p) (threads t)) (total (waiting p) (threads t));
  ti_fresh : forall p, (next_ptr t <= p)%positive ->
    heap t !! p = None /\ total (creating p) (threads t) = 0%nat /\ total (waiting p) (threads t) = 0%nat
}.

Lemma total_app f l1 l2 : total f (l1 ++ l2) = (total f l1 + total f l2)%nat.
Proof. unfold total. by rewrite sum_list_with_app. Qed.

Lemma total_cons f th l : total f (th :: l) = (f th + total f l)%nat.
Proof. done. Qed.

Lemma Tracker_New_inv : tracker_inv Tracker_New.
Proof. split; cbn; [intros p o H; by rewrite lookup_empty in H|done]. Qed.

Lemma register_inv id s t : tracker_inv t -> tracker_inv (register id s t).
Proof.
  intros [Ho Hf]. split; cbn.
  - intros p o [[<- <-]|[_ Hp]]%lookup_insert_Some; [|by apply Ho].
    destruct (Hf (next_ptr t)) as (_ & -> & ->); [lia|]. done.
  - intros p Hp. destruct (Hf p) as (Hn & Hc & Hw); [lia|]. rewrite lookup_insert_ne by lia. done.
Qed.

Lemma spawn_inv id t : tracker_inv t -> tracker_inv (spawn_thread (LinkStart id) t).
Proof.
  intros [Ho Hf]. split; cbn.
  - intros p o Hp. rewrite !total_app. unfold total at 2 4. cbn. rewrite !Nat.add_0_r. by apply Ho.
  - intros p Hp. rewrite !total_app. unfold total at 2 4. cbn. rewrite !Nat.add_0_r. by apply Hf.
Qed.

(** A goroutine changes the object it works on only. *)
Lemma goroutine_inv l1 th l2 th' t t' : tracker_inv t -> threads t = l1 ++ th :: l2 ->
  thread_step th t th' t' ->
  tracker_inv (mkTracker (heap t') (next_ptr t') (processes t') (l1 ++ option_list th' ++ l2)).
Proof.
  intros [Ho Hf] Hth Hstep.
  assert (Hc : forall p, total (creating p) (threads t) = (creating p th + total (creating p) (l1 ++ l2))%nat)
    by (intros p; rewrite Hth, !total_app, total_cons; lia).
  assert (Hw : forall p, total (waiting p) (threads t) = (waiting p th + total (waiting p) (l1 ++ l2))%nat)
    by (intros p; rewrite Hth, !total_app, total_cons; lia).
  setoid_rewrite Hc in Ho. setoid_rewrite Hw in Ho. setoid_rewrite Hc in Hf. setoid_rewrite Hw in Hf.
  clear Hc Hw Hth.
  assert (Hlt : forall p o, heap t !! p = Some o -> (p < next_ptr t)%positive).
  { intros p o Hp. destruct (decide (p < next_ptr t)%positive); [done|]. destruct (Hf p); [lia|congruence]. }
  assert (Hc : forall p, total (creating p) (l1 ++ option_list th' ++ l2) =
    (match th' with Some x => creating p x | None => 0 end + total (creating p) (l1 ++ l2))%nat)
    by (intros p; rewrite !total_app; destruct th'; cbn [option_list]; rewrite ?total_cons; unfold total at 2; cbn; lia).
  assert (Hw : forall p, total (waiting p) (l1 ++ option_list th' ++ l2) =
    (match th' with Some x => waiting p x | None => 0 end + total (waiting p) (l1 ++ l2))%nat)
    by (intros p; rewrite !total_app; destruct th'; cbn [option_list]; rewrite ?total_cons; unfold total at 2; cbn; lia).
  split; cbn [heap next_ptr threads]; intros p; rewrite Hc, Hw; clear Hc Hw;
    revert Ho Hf Hlt; destruct Hstep; intros Ho Hf Hlt; cbn -[decide] in *.
  all: try (intros o'; rewrite lookup_insert_Some; intros [[<- <-]|[Hne Hp]];
    [specialize (Ho _ _ H)|specialize (Ho _ _ Hp)]; cbn -[decide] in *;
    rewrite ?decide_True in * by done; rewrite ?decide_False in * by congruence; cbn in *; try exact Ho;
    unfold proc_ok in *; cbn; repeat case_match; try done; lia).
  all: try (intros Hge; destruct (Hf p Hge) as (Hn & Hc & Hw); rewrite ?lookup_insert_ne by (specialize (Hlt _ _ H); lia);
    repeat case_decide; subst; try congruence; split_and!; try done; lia).
  all: try (intros o' Hp; specialize (Ho _ _ Hp); exact Ho).
Qed.

Lemma tracker_step_inv t t' : tracker_inv t -> tracker_step t t' -> tracker_inv t'.
Proof.
  intros Hinv Hstep. revert Hinv. destruct Hstep as [id s ready active r t t' H|id r t t' H|id s t|l1 th l2 th' t t' Hth H]; intros Hinv.
  - unfold Tracker_Run in H. pose proof (register_inv id s t Hinv) as Hr.
    destruct ready; [by injection H as <- <-|]. pose proof (spawn_inv id _ Hr) as Hs.
    destruct active; by injection H as <- <-.
  - unfold Tracker_Attach in H. destruct (processes t !! id); injection H as <- <-; [by apply spawn_inv|done].
  - by apply spawn_inv, register_inv.
  - by eapply goroutine_inv.
Qed.

Lemma tracker_reachable_inv t : rtc tracker_step Tracker_New t -> tracker_inv t.
Proof.
  intros Hrun. pose proof Tracker_New_inv as H0. revert H0.
  induction Hrun as [|x y z Hstep _ IH]; intros H0; [done|]. by apply IH, (tracker_step_inv x).
Qed.

(** C17: however clients and goroutines interleave, the linker of a process runs
    at most once: neither of its channels is closed twice, so no goroutine
    panics, and the process counts as exited exactly when its linker is done. *)
Theorem linker_runs_once t p o :
  rtc tracker_step Tracker_New t -> heap t !! p = Some o ->
  (linked o <= 1)%nat /\ (exited o <= 1)%nat /\ (exited o = 1%nat <-> runningLink o = Done).
Proof.
  intros Hrun Hp. pose proof (ti_objects _ (tracker_reachable_inv t Hrun) p o Hp) as H. unfold proc_ok in H.
  destruct (runningLink o); split_and!; (split; [|congruence]) || idtac; intuition lia || intuition congruence.
Qed.

(** A process is started, its linker connects, the process exits with status 3. *)
Definition sample_tracker : processTracker :=
  mkTracker {[1%positive := mkProcess "7" LinkSignaller Done 1 1 3 None]} 2 {["7" := 1%positive]} [Unregister "7"].

Lemma sample_tracker_reachable : rtc tracker_step Tracker_New sample_tracker.
Proof.
  eapply rtc_l; [eapply (client_run "7" LinkSignaller None None); reflexivity|].
  eapply rtc_l; [eapply (goroutine []); [reflexivity|eapply link_known; reflexivity]|].
  eapply rtc_l; [eapply (goroutine []); [reflexivity|eapply once_first; reflexivity]|].
  eapply rtc_l; [eapply (goroutine []); [reflexivity|eapply link_created; reflexivity]|].
  eapply rtc_l; [eapply (goroutine []); [reflexivity|eapply (process_exited "7" _ _ 3 None); reflexivity]|].
  match goal with |- rtc _ ?x _ => replace x with sample_tracker by (vm_compute; reflexivity) end.
  apply rtc_refl.
Qed.

Lemma linker_runs_once_witness :
  let o := mkProcess "7" LinkSignaller Done 1 1 3 None in
  (linked o <= 1)%nat /\ (exited o <= 1)%nat /\ (exited o = 1%nat <-> runningLink o = Done).
Proof. apply (linker_runs_once sample_tracker 1%positive); [apply sample_tracker_reachable|reflexivity]. Defined.

(** An exit status is final: once [Wait] returns for a process, no step of
    any client or goroutine changes what it returns. *)
Theorem exit_status_final t t' p o r :
  rtc tracker_step Tracker_New t -> tracker_step t t' ->
  heap t !! p = Some o -> Process_Wait o = Some r ->
  exists o', heap t' !! p = Some o' /\ Process_Wait o' = Some r.
Proof.
  intros Hrun Hstep Hp Hr. pose proof (tracker_reachable_inv t Hrun) as Hinv.
  assert (Hlt : (p < next_ptr t)%positive).
  { destruct (decide (p < next_ptr t)%positive); [done|]. destruct (ti_fresh _ Hinv p); [lia|congruence]. }
  pose proof (ti_objects _ Hinv p o Hp) as Hok.
  assert (Hdone : runningLink o = Done /\ total (creating p) (threads t) = 0%nat /\ total (waiting p) (threads t) = 0%nat).
  { unfold Process_Wait in Hr. case_decide; [done|]. unfold proc_ok in Hok. destruct (runningLink o); intuition lia. }
  destruct Hdone as (Hd & Hnc & Hnw). clear Hinv Hok Hrun. revert Hp Hlt Hnc Hnw.
  destruct Hstep as [id s ready active r' t t' H|id r' t t' H|id s t|l1 th l2 th' t t' Hth H]; intros Hp Hlt Hnc Hnw.
  - exists o. split; [|done]. unfold Tracker_Run in H. destruct ready, active; injection H as <- <-; cbn;
      by rewrite lookup_insert_ne by lia.
  - exists o. split; [|done]. unfold Tracker_Attach in H. by destruct (processes t !! id); injection H as <- <-.
  - exists o. split; [|done]. cbn. by rewrite lookup_insert_ne by lia.
  - rewrite Hth, total_app, total_cons in Hnc, Hnw. exists o. split; [|done]. cbn [heap]. clear Hth. revert Hp Hlt.
    destruct H; intros Hp Hlt; cbn [heap set_heap unregister set_processes]; try done;
      (rewrite lookup_insert_ne; [done|]); intros ->; cbn -[decide] in Hnc, Hnw; repeat case_decide;
      try congruence; lia.
Qed.

Lemma exit_status_final_witness :
  exists o', heap (mkTracker (heap sample_tracker) 2 (delete "7" (processes sample_tracker)) []) !! 1%positive = Some o' /\ Process_Wait o' = Some (Ok 3).
Proof.
  eapply (exit_status_final sample_tracker); [apply sample_tracker_reachable| |reflexivity|reflexivity].
  exact (goroutine [] (Unregister "7") [] None sample_tracker _ eq_refl (unregistered "7" sample_tracker)).
Defined.

(** The goroutines that can still remove an ID from the map. *)
Definition mentions (id : string) (th : Thread) : Prop :=
  match th with LinkStart i | InLink i _ | RunLinker i _ | Waiting i _ | Unregister i => i = id end.

(** Steps of goroutines only. *)
Inductive background_step : processTracker -> processTracker -> Prop :=
  | background l1 th l2 th' t t' : threads t = l1 ++ th :: l2 -> thread_step th t th' t' ->
      background_step t (mkTracker (heap t') (next_ptr t') (processes t') (l1 ++ option_list th' ++ l2)).

(** A process that could not be started stays in the map: when [Spawn]
    reports an error before the process is ready, [Run] returns the error but
    leaves the new object registered, no goroutine exists that would remove it,
    and so [ActiveProcesses] lists it for ever. *)
Theorem failed_run_stays_registered id s err t :
  Forall (fun th => ~ mentions id th) (threads t) ->
  exists t', Tracker_Run id s (Some err) None t = (Err err, t') /\
    forall t'', rtc background_step t' t'' -> id ∈ ActiveProcesses t''.
Proof.
  intros Hth. eexists. split; [reflexivity|]. intros t'' Hrun.
  assert (Hk : forall u u', Forall (fun th => ~ mentions id th) (threads u) /\ is_Some (processes u !! id) ->
    rtc background_step u u' -> is_Some (processes u' !! id)).
  { intros u u' H0 Hr. induction Hr as [u|u v w Hstep _ IH]; [apply H0|]. apply IH. clear IH. revert H0.
    destruct Hstep as [l1 th l2 th' u v Hl Hs]. intros [Hno Hin]. rewrite Hl in Hno. cbn [threads processes].
    apply Forall_app in Hno as [H1 H2]. apply Forall_cons in H2 as [Hm H2]. clear Hl. revert Hin.
    destruct Hs; intros Hin; (split; [apply Forall_app; split; [done|]|]);
      cbn [option_list app processes set_heap unregister set_processes] in *; try done;
      try (constructor; done). by rewrite lookup_delete_ne by (cbn in Hm; congruence). }
  destruct (Hk (register id s t) t'') as [p Hp]; [|done|].
  - split; [done|]. cbn. rewrite lookup_insert_eq. by eexists.
  - unfold ActiveProcesses. apply list_elem_of_fmap. exists (id, p). split; [done|]. by apply elem_of_map_to_list.
Qed.

Lemma failed_run_stays_registered_witness :
  exists t', Tracker_Run "7" LinkSignaller (Some (Errorf "failed to read ready: EOF")) None Tracker_New
             = (Err (Errorf "failed to read ready: EOF"), t') /\
    forall t'', rtc background_step t' t'' -> "7" ∈ ActiveProcesses t''.
Proof. apply failed_run_stays_registered. constructor. Defined.

(** For a container of the old format, the file from which the signaller
    reads the process's PID is never the file the process was started with:
    the name is formatted from a string with the verb for numbers. *)
Theorem pidfile_names_differ id n : 0 <= n -> id = FormatUint n 10 -> pidfile_name id <> FormatUint n 10 +:+ ".pid".
Proof.
  intros Hn -> Heq. apply (f_equal chars) in Heq. unfold pidfile_name in Heq. rewrite !chars_app in Heq.
  pose proof (FormatUint_chars n "%"%char Hn ltac:(by vm_compute)) as Hc.
  pose proof (FormatUint_nonempty n 10) as Hne. destruct (FormatUint n 10) as [|c s]; [done|].
  cbn in Heq. injection Heq as Hc' _. apply Hc. rewrite <- Hc'. cbn. left.
Qed.

Lemma pidfile_names_differ_witness : pidfile_name "12" <> "12" +:+ ".pid".
Proof. apply (pidfile_names_differ "12" 12); [lia|reflexivity]. Defined.
