(* ===== verification/FanWriters.v ===== *)
(** * Stream fan-in and fan-out (src/process_tracker/writer)

    [fanIn] joins several sources into one sink, which is added later; its lock
    makes each [Write] and [Close] one step. [fanOut] copies each write to every
    sink. The sinks are interfaces: [sink] gives the answer of a sink's [Write]
    after what it has been sent so far. *)
From S2P Require Import Prelude GoStrings.

Inductive SinkEvent := SinkWrite (data : string) | SinkClose.

#[export] Instance SinkEvent_eq_dec : EqDecision SinkEvent.
Proof. solve_decision. Defined.

(** ** fan_in.go *)

(** [log] is what the sink has been sent. *)
Record fanIn := mkFanIn { hasSink : bool; fi_closed : bool; log : list SinkEvent }.

Definition NewFanIn : fanIn := mkFanIn false false [].

Section FanIn.
Context (sink : list SinkEvent -> string -> Z * option error) (sink_close : list SinkEvent -> option error).

(** [None]: the call blocks until there is a sink. *)
Definition FanIn_Write (data : string) (fw : fanIn) : option ((Z * option error) * fanIn) :=
  if hasSink fw then
    if fi_closed fw then Some ((0, Some (Errorf "write after close")), fw)
    else Some (sink (log fw) data, mkFanIn true false (log fw ++ [SinkWrite data]))
  else None.

Definition FanIn_Close (fw : fanIn) : option (option error * fanIn) :=
  if hasSink fw then
    if fi_closed fw then Some (Some (Errorf "already closed"), fw)
    else Some (sink_close (log fw), mkFanIn true true (log fw ++ [SinkClose]))
  else None.

Definition FanIn_AddSink (fw : fanIn) : result fanIn :=
  if hasSink fw then Panic "close of closed channel" else Ok (mkFanIn true (fi_closed fw) (log fw)).

(** The goroutine of [AddSource] on the chunks its source delivers: [io.Copy]
    stops at the first error or short write; without one, the fan-in is closed. *)
Fixpoint copy_source (chunks : list string) (fw : fanIn) : option fanIn :=
  match chunks with
  | [] => match FanIn_Close fw with Some (_, fw') => Some fw' | None => None end
  | c :: chunks' =>
      match FanIn_Write c fw with
      | Some ((n, None), fw') =>
          if n =? Z.of_nat (String.length c) then copy_source chunks' fw' else Some fw'
      | Some ((_, Some _), fw') => Some fw'
      | None => None
      end
  end.

Inductive fanin_step : fanIn -> fanIn -> Prop :=
  | fi_write data r fw fw' : FanIn_Write data fw = Some (r, fw') -> fanin_step fw fw'
  | fi_close r fw fw' : FanIn_Close fw = Some (r, fw') -> fanin_step fw fw'
  | fi_add fw fw' : FanIn_AddSink fw = Ok fw' -> fanin_step fw fw'.

(** What a sink may be sent: writes, and at most one close, which is last. *)
Definition sink_protocol (fw : fanIn) : Prop :=
  exists ws, log fw = (SinkWrite <$> ws) ++ (if fi_closed fw then [SinkClose] else []) /\
             (hasSink fw = false -> fi_closed fw = false /\ ws = []).

Lemma fanin_step_protocol fw fw' : sink_protocol fw -> fanin_step fw fw' -> sink_protocol fw'.
Proof.
  intros (ws & Hl & Hs) Hstep. revert Hl Hs. destruct Hstep as [data r fw fw' H|r fw fw' H|fw fw' H]; intros Hl Hs.
  - unfold FanIn_Write in H. destruct (hasSink fw) eqn:Hh; [|done]. destruct (fi_closed fw) eqn:Hc; injection H as <- <-.
    + exists ws. split; [rewrite Hc; exact Hl|]. by rewrite Hh.
    + exists (ws ++ [data]). split; [|done]. cbn. rewrite Hl, fmap_app, !app_nil_r. done.
  - unfold FanIn_Close in H. destruct (hasSink fw) eqn:Hh; [|done]. destruct (fi_closed fw) eqn:Hc; injection H as <- <-.
    + exists ws. split; [rewrite Hc; exact Hl|]. by rewrite Hh.
    + exists ws. split; [|done]. cbn. by rewrite Hl, app_nil_r.
  - unfold FanIn_AddSink in H. destruct (hasSink fw) eqn:Hh; [done|]. injection H as <-. destruct Hs as [Hc ->]; [done|].
    exists []. cbn. split; [by rewrite Hl|done].
Qed.

(** Whatever writers and closers do, concurrently or not, the process's
    standard input sees a sequence of writes and after them at most one close. *)
Theorem stdin_closed_once fw : rtc fanin_step NewFanIn fw -> sink_protocol fw.
Proof.
  intros Hrun. assert (H0 : sink_protocol NewFanIn) by (by exists []).
  induction Hrun as [|x y z Hstep _ IH]; [done|]. by apply IH, (fanin_step_protocol x).
Qed.
End FanIn.

Definition sink_ok : list SinkEvent -> string -> Z * option error := fun _ d => (Z.of_nat (String.length d), None).

Lemma stdin_closed_once_witness : sink_protocol (mkFanIn true true [SinkWrite "a"; SinkClose]).
Proof.
  apply (stdin_closed_once sink_ok (fun _ => None)).
  eapply rtc_l; [by apply fi_add|]. eapply rtc_l; [by eapply (fi_write _ _ "a")|]. eapply rtc_l; [by eapply fi_close|].
  apply rtc_refl.
Defined.

(** ** fan_out.go *)

(** The logs of the sinks, in the order they were added. *)
Definition fanOut : Type := list (list string).

Definition FanOut_AddSink (w : fanOut) : fanOut := w ++ [[]].

(** The answers of the sinks are dropped. *)
Definition FanOut_Write (data : string) (w : fanOut) : Z * fanOut :=
  (Z.of_nat (String.length data), (fun l => l ++ [data]) <$> w).
