(* ===== verification/Spawn.v ===== *)
(** * Starting processes in the daemon (src/container_daemon/spawn.go)

    initd starts a process with pipes or a terminal for its streams and one more
    pipe for its exit status, keeps the ends of the process until it has finished
    and gives the other ends away. The state has the files that initd holds open
    and the goroutines that wait for processes. A file is an object of its own,
    not a number of the kernel that is used again. *)
From S2P Require Import Prelude GoStrings World ProcessEnv RLimits IPTablesManager ProcessTracker.

Definition File : Type := nat.

(** What [handleCompletion] needs of a process. *)
Record Completion := mkCompletion {
  co_pid : Z;
  co_exitW : File;
  co_stdout : option File;
  co_stderr : option File
}.

Record Daemon := mkDaemon {
  next_file : File;
  open_files : gset File;
  running : list Completion
}.

(** [exec.Cmd] with its streams and the terminal attributes. *)
Record ExecCmd := mkExecCmd {
  ec_Cmd : Cmd;
  ec_Stdin : option File;
  ec_Stdout : option File;
  ec_Stderr : option File;
  ec_Setctty : bool;
  ec_Setsid : bool
}.

Definition plain (cmd : Cmd) : ExecCmd := mkExecCmd cmd None None None false false.

Definition open_two (d : Daemon) : Daemon :=
  mkDaemon (S (S (next_file d))) ({[next_file d; S (next_file d)]} ∪ open_files d) (running d).
Definition close_file (f : File) (d : Daemon) : Daemon := mkDaemon (next_file d) (open_files d ∖ {[f]}) (running d).
Definition add_running (c : Completion) (d : Daemon) : Daemon := mkDaemon (next_file d) (open_files d) (running d ++ [c]).

Section Spawn.
Context (env : Env).
Local Open Scope go_scope.

(** [os.Pipe], [pty.Open]: two new files, or an error. *)
Definition open_pair (what : string) : M (Daemon * World) (File * File) :=
  do! eff (call_ env (Sys what [])) in
  let! n := gets next_file in
  do! update open_two in
  ret (n, S n).

Definition Close (f : File) : M (Daemon * World) unit := update (close_file f).

(** [tryClose]: an [io.Writer] that is a file can be closed, nil cannot. *)
Definition tryClose (w : option File) : M (Daemon * World) unit :=
  match w with Some f => Close f | None => ret tt end.

(** The world answers [Start] with the process ID in decimal. *)
Definition wireExit (cmd : ExecCmd) : M (Daemon * World) (File * Z) :=
  let! ' (exitR, exitW) := map_err (Wrapf "container_daemon: create pipe: %s" []) (open_pair "os.Pipe") in
  let! answer := map_err (Wrapf "container_daemon: start: %s" []) (eff (call env (Start (ec_Cmd cmd)))) in
  let pid := default 0 (Sscanf_int answer) in
  do! update (add_running (mkCompletion pid exitW (ec_Stdout cmd) (ec_Stderr cmd))) in
  ret (exitR, pid).

(** The goroutine, once the process has ended with [status]: the deferred calls
    run in the opposite order. *)
Definition handleCompletion (c : Completion) (status : Z) : M (Daemon * World) unit :=
  do! eff (ignore (call_ env (Sys "exitW.Write" [Itoa (Z.of_nat (co_exitW c)); Itoa status]))) in
  do! (if decide (co_stderr c = co_stdout c) then ret tt else tryClose (co_stderr c)) in
  do! tryClose (co_stdout c) in
  Close (co_exitW c).

Definition spawnWithTty (cmd : Cmd) : M (Daemon * World) (list File * Z) :=
  let! ' (pty, tty) := map_err (Wrapf "container_daemon: open pipe: %s" []) (open_pair "PTY.Open") in
  let cmd := mkExecCmd cmd (Some tty) (Some tty) (Some tty) true true in
  let! ' (exitFd, pid) := on_err (wireExit cmd) (do! Close pty in Close tty) in
  ret ([pty; exitFd], pid).

Definition spawnNoninteractive (cmd : Cmd) : M (Daemon * World) (list File * Z) :=
  let pipe := map_err (Wrapf "container_daemon: create pipe: %s" []) (open_pair "os.Pipe") in
  let! ' (r0, w0) := pipe in
  let! ' (r1, w1) := pipe in
  let! ' (r2, w2) := pipe in
  let cmd := mkExecCmd cmd (Some r0) (Some w1) (Some w2) false false in
  let! ' (exitStatusR, pid) := on_err (wireExit cmd) (for_each Close [r0; w0; r1; w1; r2; w2]) in
  ret ([w0; r1; r2; exitStatusR], pid).

(** The files of the process, and its ID ([cmd.Process.Pid]). *)
Definition Spawn (cmd : Cmd) (tty : bool) : M (Daemon * World) (list File * Z) :=
  if tty then spawnWithTty cmd else spawnNoninteractive cmd.
End Spawn.

(** ** Which files stay open *)

Definition files_fresh (d : Daemon) : Prop := forall f, f ∈ open_files d -> (f < next_file d)%nat.

Definition close_files (fs : list File) (d : Daemon) : Daemon := foldl (fun d f => close_file f d) d fs.

Section Descriptors.
Context (env : Env).

Lemma open_pair_eq what d w : open_pair env what (d, w) =
  match env w (Sys what []) with
  | inl _ => (Ok (next_file d, S (next_file d)), (open_two d, w ++ [Sys what []]))
  | inr e => (Err e, (d, w ++ [Sys what []]))
  end.
Proof. unfold open_pair. rewrite bind_eq, eff_eq, call__eq. by destruct (env w _). Qed.

Lemma Close_eq f d w : Close f (d, w) = (Ok tt, (close_file f d, w)).
Proof. done. Qed.

Lemma close_all_eq fs : forall d w, for_each Close fs (d, w) = (Ok tt, (close_files fs d, w)).
Proof. induction fs as [|f fs IH]; intros d w; [done|]. cbn [for_each]. rewrite bind_eq, Close_eq. apply IH. Qed.

Lemma open_close_files fs d : open_files (close_files fs d) = open_files d ∖ list_to_set fs.
Proof.
  revert d. induction fs as [|f fs IH]; intros d; [cbn; set_solver|].
  change (close_files (f :: fs) d) with (close_files fs (close_file f d)). rewrite IH. cbn. set_solver.
Qed.

Lemma running_close_files fs d : running (close_files fs d) = running d.
Proof. revert d. induction fs as [|f fs IH]; intros d; [done|]. apply (IH (close_file f d)). Qed.

(** What the goroutine of a process leaves open. *)
Definition completion_files (c : Completion) : list File :=
  from_option (fun f => [f]) [] (if decide (co_stderr c = co_stdout c) then None else co_stderr c) ++
  from_option (fun f => [f]) [] (co_stdout c) ++ [co_exitW c].

Lemma handleCompletion_open c status d w :
  open_files (fst (snd (handleCompletion env c status (d, w)))) = open_files d ∖ list_to_set (completion_files c).
Proof.
  rewrite <- open_close_files. unfold handleCompletion, completion_files. rewrite bind_eq, eff_eq, ignore_eq, call__eq.
  destruct (env w _); case_decide; destruct (co_stderr c), (co_stdout c); done.
Qed.

Lemma wireExit_eq cmd d w : wireExit env cmd (d, w) =
  match env w (Sys "os.Pipe" []) with
  | inr e => (Err (Wrapf "container_daemon: create pipe: %s" [] e), (d, w ++ [Sys "os.Pipe" []]))
  | inl _ =>
      match env (w ++ [Sys "os.Pipe" []]) (Start (ec_Cmd cmd)) with
      | inr e => (Err (Wrapf "container_daemon: start: %s" [] e), (open_two d, w ++ [Sys "os.Pipe" []; Start (ec_Cmd cmd)]))
      | inl answer =>
          (Ok (next_file d, default 0 (Sscanf_int answer)),
           (add_running (mkCompletion (default 0 (Sscanf_int answer)) (S (next_file d)) (ec_Stdout cmd) (ec_Stderr cmd)) (open_two d),
            w ++ [Sys "os.Pipe" []; Start (ec_Cmd cmd)]))
      end
  end.
Proof.
  unfold wireExit. rewrite bind_eq, map_err_eq, open_pair_eq. destruct (env w _); [|done].
  rewrite bind_eq, map_err_eq, eff_eq, call_eq. destruct (env _ (Start _)); cbn; by rewrite <- (assoc_L (++)).
Qed.
End Descriptors.

Arguments close_files : simpl never.
Arguments handleCompletion : simpl never.

(** Equalities of sets of files that differ by new ones. *)
Ltac files_tac Hf :=
  let x := fresh "x" in let Hx := fresh "Hx" in
  intros x; match goal with |- context [open_files ?d] => destruct (decide (x ∈ open_files d)) as [Hx|Hx] end;
  [pose proof (Hf x Hx)|]; set_unfold; intuition (try lia).

Lemma leak_bound (l : list File) (X Y : gset File) : (length l <= 4)%nat -> (forall x, x ∈ Y -> x ∈ X \/ x ∈ l) -> (size (Y ∖ X) <= 4)%nat.
Proof.
  intros Hl HY. etransitivity; [|exact Hl]. etransitivity; [|apply (size_list_to_set_le l)].
  apply subseteq_size. intros x Hx. rewrite elem_of_list_to_set. set_solver.
Qed.

(** What a failed [Spawn] leaves: the files of [l] may stay open. *)
Lemma spawn_failed (l : list File) d d1 : running d1 = running d -> (length l <= 4)%nat ->
  (forall x, x ∈ open_files d -> x ∈ open_files d1) -> (forall x, x ∈ open_files d1 -> x ∈ open_files d \/ x ∈ l) ->
  running d1 = running d /\ open_files d ⊆ open_files d1 /\ (size (open_files d1 ∖ open_files d) <= 4)%nat.
Proof. intros Hr Hl H1 H2. split_and!; [done|exact H1|by apply (leak_bound l)]. Qed.

Lemma tty_descriptors env cmd d w : files_fresh d ->
  match spawnWithTty env cmd (d, w) with
  | (Ok (files, pid), (d1, w1)) =>
      length files = 2%nat /\ NoDup files /\ (forall f, f ∈ files -> f ∉ open_files d /\ f ∈ open_files d1) /\
      exists c, running d1 = running d ++ [c] /\ co_pid c = pid /\
        forall status w2, open_files (fst (snd (handleCompletion env c status (close_files files d1, w2)))) = open_files d
  | (Err _, (d1, w1)) => running d1 = running d /\ open_files d ⊆ open_files d1 /\ (size (open_files d1 ∖ open_files d) <= 4)%nat
  | (Panic _, _) => False
  end.
Proof.
  intros Hf. unfold spawnWithTty. rewrite bind_eq, map_err_eq, open_pair_eq. destruct (env w _) as [o|e].
  - rewrite bind_eq, on_err_eq, wireExit_eq. destruct (env _ (Sys "os.Pipe" _)) as [o'|e]; [destruct (env _ (Start _)) as [pid|e]|].
    + cbn. split; [done|]. split; [repeat constructor; set_unfold; lia|]. split.
      { intros f Hin. assert (Hn : f ∉ open_files d) by (intros Hx%Hf; set_unfold; lia). set_unfold. intuition. }
      eexists. split; [done|]. split; [done|]. intros status w2.
      rewrite handleCompletion_open, open_close_files. unfold completion_files. cbn. rewrite decide_True by done. cbn. apply set_eq. files_tac Hf.
    + apply (spawn_failed [S (S (next_file d)); S (S (S (next_file d)))]); cbn; [done|lia|files_tac Hf|files_tac Hf].
    + apply (spawn_failed []); cbn; [done|lia|files_tac Hf|files_tac Hf].
  - apply (spawn_failed []); cbn; [done|lia|done|by left].
Qed.

Lemma noninteractive_descriptors env cmd d w : files_fresh d ->
  match spawnNoninteractive env cmd (d, w) with
  | (Ok (files, pid), (d1, w1)) =>
      length files = 4%nat /\ NoDup files /\ (forall f, f ∈ files -> f ∉ open_files d /\ f ∈ open_files d1) /\
      exists c, running d1 = running d ++ [c] /\ co_pid c = pid /\
        forall status w2, open_files (fst (snd (handleCompletion env c status (close_files files d1, w2)))) =
          open_files d ∪ {[next_file d]}
  | (Err _, (d1, w1)) => running d1 = running d /\ open_files d ⊆ open_files d1 /\ (size (open_files d1 ∖ open_files d) <= 4)%nat
  | (Panic _, _) => False
  end.
Proof.
  intros Hf. unfold spawnNoninteractive. rewrite bind_eq, map_err_eq, open_pair_eq.
  destruct (env w _) as [o|e]; [|apply (spawn_failed []); cbn; [done|lia|done|by left]].
  rewrite bind_eq, map_err_eq, open_pair_eq.
  destruct (env _ (Sys "os.Pipe" _)) as [o'|e]; [|apply (spawn_failed [next_file d; S (next_file d)]); cbn; [done|lia|files_tac Hf|files_tac Hf]].
  rewrite bind_eq, map_err_eq, open_pair_eq. set (n := next_file d).
  destruct (env _ (Sys "os.Pipe" _)) as [o''|e]; [|apply (spawn_failed [n; S n; S (S n); S (S (S n))]); cbn; [done|lia|files_tac Hf|files_tac Hf]].
  rewrite bind_eq, on_err_eq, wireExit_eq. destruct (env _ (Sys "os.Pipe" _)) as [o3|e]; [destruct (env _ (Start _)) as [pid|e]|].
  - cbn. fold n. split; [done|]. split; [repeat constructor; set_unfold; lia|]. split.
    { intros f Hin. assert (Hn : f ∉ open_files d) by (intros Hx%Hf; set_unfold; lia). set_unfold. intuition. }
    eexists. split; [done|]. split; [done|]. intros status w2.
    rewrite handleCompletion_open, open_close_files. unfold completion_files. cbn. rewrite decide_False by (intros [= ?]; lia). cbn.
    apply set_eq. files_tac Hf.
  - rewrite close_all_eq. apply (spawn_failed [S (S (S (S (S (S n))))); S (S (S (S (S (S (S n))))))]); rewrite ?running_close_files, ?open_close_files; cbn; fold n; [done|lia|files_tac Hf|files_tac Hf].
  - rewrite close_all_eq. apply (spawn_failed []); rewrite ?running_close_files, ?open_close_files; cbn; fold n; [done|lia|files_tac Hf|files_tac Hf].
Qed.

(** C24: the files of a process, on every branch of [Spawn]. When it succeeds, the
    caller gets new files (a terminal and the exit status, or three streams and
    the exit status) and a goroutine waits for the process; after the caller has
    closed its files and the goroutine has run, everything that was opened is
    closed again, except, without a terminal, the read end of the standard input,
    which nothing closes. When it fails no goroutine runs, nothing that was open
    before is closed, and at most two pipes stay open. *)
Theorem spawn_descriptors env cmd tty d w : files_fresh d ->
  match Spawn env cmd tty (d, w) with
  | (Ok (files, pid), (d1, w1)) =>
      length files = (if tty then 2%nat else 4%nat) /\ NoDup files /\
      (forall f, f ∈ files -> f ∉ open_files d /\ f ∈ open_files d1) /\
      exists c, running d1 = running d ++ [c] /\ co_pid c = pid /\
        forall status w2, open_files (fst (snd (handleCompletion env c status (close_files files d1, w2)))) =
          open_files d ∪ (if tty then ∅ else {[next_file d]})
  | (Err _, (d1, w1)) => running d1 = running d /\ open_files d ⊆ open_files d1 /\ (size (open_files d1 ∖ open_files d) <= 4)%nat
  | (Panic _, _) => False
  end.
Proof.
  intros Hf. destruct tty; cbn [Spawn].
  - pose proof (tty_descriptors env cmd d w Hf) as H. destruct (spawnWithTty env cmd (d, w)) as [[[files pid]|e|p] [d1 w1]]; [|done|done].
    destruct H as (Hl & Hnd & Hnew & c & Hr & Hp & Hc). split_and!; [done|done|done|]. exists c. split_and!; [done|done|].
    intros status w2. rewrite Hc. set_solver.
  - by apply noninteractive_descriptors.
Qed.

(** Every call succeeds and the process gets the ID 7. *)
Definition env_pid7 : Env := fun _ c => match c with Start _ => inl "7" | _ => inl "" end.

Lemma spawn_descriptors_witness :
  match Spawn env_pid7 (Command "/bin/ls" []) false (mkDaemon 3%nat {[0%nat; 1%nat; 2%nat]} [], []) with
  | (Ok (files, pid), (d1, w1)) =>
      length files = 4%nat /\ exists c, running d1 = [c] /\ co_pid c = pid /\
        forall status w2, open_files (fst (snd (handleCompletion env_pid7 c status (close_files files d1, w2)))) =
          {[0%nat; 1%nat; 2%nat]} ∪ {[3%nat]}
  | _ => False
  end.
Proof.
  assert (Hf : files_fresh (mkDaemon 3%nat {[0%nat; 1%nat; 2%nat]} [])) by (intros f; cbn; set_unfold; lia).
  destruct (spawn_descriptors env_pid7 (Command "/bin/ls" []) false _ [] Hf) as (Hl & _ & _ & c & Hr & Hp & Hc).
  split; [exact Hl|]. exists c. split; [exact Hr|]. split; [exact Hp|exact Hc].
Defined.
