(* ===== verification/Reaper.v ===== *)
(** * The process reaper (src/containerizer/system/process_reaper_linux.go)

    The init process of a container starts processes and reaps every process
    that ends in the container, also the orphans it inherits. [Start] holds the
    lock while it starts the process and registers a channel for it; [reap]
    calls wait4 without the lock and then looks the channel up under it, so the
    two are separate steps here. The kernel is part of the state: a process ID
    is in use from the start of its process until wait4 returns it. *)
From S2P Require Import Prelude.

(** Which process a process ID stands for: one that [Start] made, known by its
    channel, or one that something else in the container made. *)
Inductive Origin := Started (ch : positive) | Foreign.

(** A process of the kernel: running, or ended with a status. *)
Record KernelProcess := mkKernel { kp_origin : Origin; kp_status : option Z }.

(** A [chan int] with a buffer of one, and how often it was received from. *)
Record ProcessReaper := mkReaper {
  kernel : gmap Z KernelProcess;
  waiting_ : gmap Z positive;
  monitoredPids : gset Z;
  chans : gmap positive (list Z);
  next_chan : positive;
  in_reap : option (Z * Z * Origin)      (* what wait4 returned and [reap] has not dealt with *)
}.

Definition StartReaper : ProcessReaper := mkReaper ∅ ∅ ∅ ∅ 1 None.

Definition set_kernel (k : gmap Z KernelProcess) (p : ProcessReaper) : ProcessReaper :=
  mkReaper k (waiting_ p) (monitoredPids p) (chans p) (next_chan p) (in_reap p).
Definition set_in_reap (x : option (Z * Z * Origin)) (p : ProcessReaper) : ProcessReaper :=
  mkReaper (kernel p) (waiting_ p) (monitoredPids p) (chans p) (next_chan p) x.

(** [Start] when the command starts with the process ID [pid]. *)
Definition Reaper_Start (pid : Z) (p : ProcessReaper) : ProcessReaper :=
  let ch := next_chan p in
  mkReaper (<[pid := mkKernel (Started ch) None]> (kernel p)) (<[pid := ch]> (waiting_ p)) ({[pid]} ∪ monitoredPids p)
    (<[ch := []]> (chans p)) (Pos.succ ch) (in_reap p).

Definition waitChan (pid : Z) (p : ProcessReaper) : option positive := waiting_ p !! pid.

Definition unmonitorPid (pid : Z) (p : ProcessReaper) : ProcessReaper :=
  mkReaper (kernel p) (waiting_ p) (monitoredPids p ∖ {[pid]}) (chans p) (next_chan p) (in_reap p).

(** The body of the loop of [reap] after wait4 returned [wpid] and [status]. A
    send on a full channel blocks the reaper: [None]. *)
Definition reap_one (wpid status : Z) (p : ProcessReaper) : option ProcessReaper :=
  match waitChan wpid p with
  | Some ch =>
      if decide (wpid ∈ monitoredPids p) then
        match chans p !! ch with
        | Some [] =>
            Some (unmonitorPid wpid (mkReaper (kernel p) (waiting_ p) (monitoredPids p) (<[ch := [status]]> (chans p))
                                       (next_chan p) None))
        | _ => None
        end
      else Some (set_in_reap None p)
  | None => Some (set_in_reap None p)
  end.

(** [Wait]: the channel it receives from; a panic for a process never started. *)
Definition Reaper_Wait (pid : Z) (p : ProcessReaper) : result positive :=
  match waitChan pid p with
  | Some ch => Ok ch
  | None => Panic "waited on a process that was never started"
  end.

(** The receive; a [byte] of the status. [None]: it blocks. *)
Definition receive (ch : positive) (p : ProcessReaper) : option (Z * ProcessReaper) :=
  match chans p !! ch with
  | Some (status :: rest) =>
      Some (u8 status, mkReaper (kernel p) (waiting_ p) (monitoredPids p) (<[ch := rest]> (chans p)) (next_chan p) (in_reap p))
  | _ => None
  end.

(** The status with which the process of a channel ended, as the kernel knows it. *)
Inductive Event := Ended (ch : positive) (status : Z) | Received (ch : positive) (status : Z).

(** Steps, with what they show. [reuse] allows the kernel to give a process ID
    away between wait4 and the rest of [reap]. *)
Inductive reaper_step (reuse : bool) : ProcessReaper -> list Event -> ProcessReaper -> Prop :=
  | rs_start pid p : kernel p !! pid = None ->
      (reuse = false -> forall s o, in_reap p <> Some (pid, s, o)) ->
      reaper_step reuse p [] (Reaper_Start pid p)
  | rs_fork pid p : kernel p !! pid = None ->
      reaper_step reuse p [] (set_kernel (<[pid := mkKernel Foreign None]> (kernel p)) p)
  | rs_exit pid o status p : kernel p !! pid = Some (mkKernel o None) ->
      reaper_step reuse p (match o with Started ch => [Ended ch status] | Foreign => [] end)
        (set_kernel (<[pid := mkKernel o (Some status)]> (kernel p)) p)
  | rs_wait4 pid o status p : kernel p !! pid = Some (mkKernel o (Some status)) -> in_reap p = None ->
      reaper_step reuse p [] (set_in_reap (Some (pid, status, o)) (set_kernel (delete pid (kernel p)) p))
  | rs_reap pid o status p p' : in_reap p = Some (pid, status, o) -> reap_one pid status p = Some p' ->
      reaper_step reuse p [] p'
  | rs_receive ch status p p' : receive ch p = Some (status, p') -> reaper_step reuse p [Received ch status] p'.

(** Runs and what they showed. *)
Inductive reaper_run (reuse : bool) : ProcessReaper -> list Event -> Prop :=
  | rr_new : reaper_run reuse StartReaper []
  | rr_step p es e p' : reaper_run reuse p es -> reaper_step reuse p e p' -> reaper_run reuse p' (es ++ e).

(** ** Delivery *)

(** The statuses with which the process of a channel ended, and those received. *)
Definition ends (ch : positive) (es : list Event) : list Z :=
  omap (fun e => match e with Ended c s => if decide (c = ch) then Some s else None | _ => None end) es.
Definition recvs (ch : positive) (es : list Event) : list Z :=
  omap (fun e => match e with Received c s => if decide (c = ch) then Some s else None | _ => None end) es.

Lemma ends_app ch es e : ends ch (es ++ e) = ends ch es ++ ends ch e.
Proof. apply omap_app. Qed.
Lemma recvs_app ch es e : recvs ch (es ++ e) = recvs ch es ++ recvs ch e.
Proof. apply omap_app. Qed.

(** Where the process of a channel is. *)
Definition in_kernel (p : ProcessReaper) (ch : positive) : Prop :=
  exists pid st, kernel p !! pid = Some (mkKernel (Started ch) st).
Definition in_flight (p : ProcessReaper) (ch : positive) : Prop :=
  exists pid s, in_reap p = Some (pid, s, Started ch).

Record reaper_inv (p : ProcessReaper) (es : list Event) : Prop := {
  ri_kernel : forall pid ch st, kernel p !! pid = Some (mkKernel (Started ch) st) ->
    waiting_ p !! pid = Some ch /\ pid ∈ monitoredPids p /\ chans p !! ch = Some [] /\
    ends ch es = option_list st /\ recvs ch es = [];
  ri_flight : forall pid s ch, in_reap p = Some (pid, s, Started ch) ->
    waiting_ p !! pid = Some ch /\ pid ∈ monitoredPids p /\ chans p !! ch = Some [] /\ ends ch es = [s] /\ recvs ch es = [] /\
    forall c st, kernel p !! pid <> Some (mkKernel (Started c) st);
  ri_foreign : forall pid s, in_reap p = Some (pid, s, Foreign) -> pid ∉ monitoredPids p;
  ri_monitored : forall pid, pid ∈ monitoredPids p ->
    (exists ch st, kernel p !! pid = Some (mkKernel (Started ch) st)) \/ (exists ch s, in_reap p = Some (pid, s, Started ch));
  ri_inj : forall pid pid' ch, waiting_ p !! pid = Some ch -> waiting_ p !! pid' = Some ch -> pid = pid';
  ri_fresh : forall ch, (next_chan p <= ch)%positive ->
    chans p !! ch = None /\ forall pid, waiting_ p !! pid <> Some ch;
  ri_none : forall ch, chans p !! ch = None -> ends ch es = [] /\ recvs ch es = [];
  ri_chan : forall ch buf, chans p !! ch = Some buf ->
    in_kernel p ch \/ in_flight p ch \/
    (exists s, buf = [s] /\ ends ch es = [s] /\ recvs ch es = []) \/
    (exists s, buf = [] /\ ends ch es = [s] /\ recvs ch es = [u8 s])
}.

Lemma StartReaper_inv : reaper_inv StartReaper [].
Proof.
  split; cbn; intros *; try (rewrite lookup_empty; done); try done; try set_solver.
Qed.

Lemma start_inv pid p es : kernel p !! pid = None -> (forall s o, in_reap p <> Some (pid, s, o)) ->
  reaper_inv p es -> reaper_inv (Reaper_Start pid p) es.
Proof.
  intros Hnone Hnf [H1 H2 H3 H4 H5 H6 H8 H7]. destruct (H6 (next_chan p) ltac:(lia)) as (Hc & Hw), (H8 _ Hc) as (He & Hr).
  split; cbn.
  - intros pid' ch st [[<- [= <- <-]]|[Hne Hk]]%lookup_insert_Some.
    + rewrite !lookup_insert_eq. split_and!; [done|set_solver|done|by rewrite He|done].
    + destruct (H1 _ _ _ Hk) as (K1 & K2 & K3 & K4 & K5). rewrite lookup_insert_ne by done.
      rewrite lookup_insert_ne by congruence. split_and!; [done|set_solver|done|done|done].
  - intros pid' s ch Hf. destruct (H2 _ _ _ Hf) as (K1 & K2 & K3 & K4 & K5 & K6).
    assert (pid <> pid') by (intros ->; by apply (Hnf s (Started ch))). split_and!; try done.
    + by rewrite lookup_insert_ne.
    + set_solver.
    + by rewrite lookup_insert_ne by congruence.
    + intros c st. rewrite lookup_insert_ne by done. apply K6.
  - intros pid' s Hf. assert (pid <> pid') by (intros ->; by apply (Hnf s Foreign)). apply H3 in Hf. set_solver.
  - intros pid' [->%elem_of_singleton|Hm]%elem_of_union; [left; rewrite lookup_insert_eq; eauto|].
    destruct (decide (pid = pid')) as [->|Hne]; [left; rewrite lookup_insert_eq; eauto|].
    rewrite lookup_insert_ne by done. by apply H4.
  - intros pid1 pid2 ch [[<- <-]|[Hne1 K1]]%lookup_insert_Some [[Hx Hy]|[Hne2 K2]]%lookup_insert_Some; [done| | |eauto].
    + by apply Hw in K2.
    + subst. by apply Hw in K1.
  - intros ch Hle. destruct (H6 ch ltac:(lia)) as (K1 & K4). rewrite lookup_insert_ne by lia.
    split; [done|]. intros pid' [[_ <-]|[_ ?]]%lookup_insert_Some; [lia|by apply (K4 pid')].
  - intros ch [Hne K]%lookup_insert_None. by apply H8.
  - intros ch buf [[<- <-]|[Hne K]]%lookup_insert_Some.
    + left. exists pid, None. apply lookup_insert_eq.
    + destruct (H7 _ _ K) as [(pid' & st & Hk)|[?|?]]; [left|by right; left|by right; right].
      exists pid', st. cbn. rewrite lookup_insert_ne; [done|]. intros ->. by rewrite Hnone in Hk.
Qed.

Lemma fork_inv pid p es : kernel p !! pid = None -> reaper_inv p es ->
  reaper_inv (set_kernel (<[pid := mkKernel Foreign None]> (kernel p)) p) es.
Proof.
  intros Hnone [H1 H2 H3 H4 H5 H6 H8 H7]. split; cbn; try done.
  - intros pid' ch st [[_ [=]]|[_ Hk]]%lookup_insert_Some. by apply H1.
  - intros pid' s ch Hf. destruct (H2 _ _ _ Hf) as (K1 & K2 & K3 & K4 & K5 & K6). split_and!; try done.
    intros c st [[_ [=]]|[_ Hk]]%lookup_insert_Some. by apply (K6 c st).
  - intros pid' Hm. destruct (H4 _ Hm) as [(ch & st & Hk)|?]; [left|by right].
    exists ch, st. rewrite lookup_insert_ne; [done|]. intros ->. by rewrite Hnone in Hk.
  - intros ch buf Hb. destruct (H7 _ _ Hb) as [(pid' & st & Hk)|?]; [left|by right].
    exists pid', st. cbn. rewrite lookup_insert_ne; [done|]. intros ->. by rewrite Hnone in Hk.
Qed.

(** An event of one channel does not show on another. *)
Lemma ends_other ch c s es : c <> ch -> ends ch (es ++ [Ended c s]) = ends ch es.
Proof. intros Hne. rewrite ends_app. cbn. by rewrite decide_False, app_nil_r. Qed.
Lemma recvs_other ch c s es : c <> ch -> recvs ch (es ++ [Received c s]) = recvs ch es.
Proof. intros Hne. rewrite recvs_app. cbn. by rewrite decide_False, app_nil_r. Qed.
Lemma ends_received ch c s es : ends ch (es ++ [Received c s]) = ends ch es.
Proof. rewrite ends_app. cbn. by rewrite app_nil_r. Qed.
Lemma recvs_ended ch c s es : recvs ch (es ++ [Ended c s]) = recvs ch es.
Proof. rewrite recvs_app. cbn. by rewrite app_nil_r. Qed.

Lemma exit_foreign_inv pid status p es : kernel p !! pid = Some (mkKernel Foreign None) -> reaper_inv p es ->
  reaper_inv (set_kernel (<[pid := mkKernel Foreign (Some status)]> (kernel p)) p) es.
Proof.
  intros Hpid [H1 H2 H3 H4 H5 H6 H8 H7]. split; cbn; try done.
  - intros pid' ch st [[_ [=]]|[_ Hk]]%lookup_insert_Some. by apply H1.
  - intros pid' s ch Hf. destruct (H2 _ _ _ Hf) as (K1 & K2 & K3 & K4 & K5 & K6). split_and!; try done.
    intros c st [[_ [=]]|[_ Hk]]%lookup_insert_Some. by apply (K6 c st).
  - intros pid' Hm. destruct (H4 _ Hm) as [(ch & st & Hk)|?]; [left|by right].
    exists ch, st. rewrite lookup_insert_ne; [done|]. intros ->. by rewrite Hpid in Hk.
  - intros ch buf Hb. destruct (H7 _ _ Hb) as [(pid' & st & Hk)|?]; [left|by right].
    exists pid', st. cbn. rewrite lookup_insert_ne; [done|]. intros ->. by rewrite Hpid in Hk.
Qed.

Lemma exit_started_inv pid c status p es : kernel p !! pid = Some (mkKernel (Started c) None) -> reaper_inv p es ->
  reaper_inv (set_kernel (<[pid := mkKernel (Started c) (Some status)]> (kernel p)) p) (es ++ [Ended c status]).
Proof.
  intros Hpid [H1 H2 H3 H4 H5 H6 H8 H7]. destruct (H1 _ _ _ Hpid) as (P1 & P2 & P3 & P4 & P5).
  split; cbn; try done.
  - intros pid' ch st [[<- [= <- <-]]|[Hne Hk]]%lookup_insert_Some.
    + rewrite recvs_ended, ends_app, P4. cbn. rewrite decide_True by done. done.
    + destruct (H1 _ _ _ Hk) as (K1 & K2 & K3 & K4 & K5).
      rewrite recvs_ended, ends_other by (intros ->; apply Hne; by apply (H5 _ _ ch)). done.
  - intros pid' s ch Hf. destruct (H2 _ _ _ Hf) as (K1 & K2 & K3 & K4 & K5 & K6).
    assert (pid <> pid') by (intros ->; by apply (K6 c None)).
    rewrite recvs_ended, ends_other, lookup_insert_ne by (done || (intros ->; by apply H, (H5 _ _ ch))).
    by split_and!.
  - intros pid' Hm. destruct (decide (pid = pid')) as [->|Hne]; [left; rewrite lookup_insert_eq; eauto|].
    rewrite lookup_insert_ne by done. by apply H4.
  - intros ch Hc. rewrite recvs_ended, ends_other by congruence. by apply H8.
  - intros ch buf Hb. destruct (decide (c = ch)) as [<-|Hne].
    + left. exists pid, (Some status). apply lookup_insert_eq.
    + rewrite recvs_ended, ends_other by done. destruct (H7 _ _ Hb) as [(pid' & st & Hk)|?]; [left|by right].
      exists pid', st. cbn. rewrite lookup_insert_ne; [done|]. intros ->. rewrite Hpid in Hk. by injection Hk as ->.
Qed.

Lemma wait4_inv pid o status p es : kernel p !! pid = Some (mkKernel o (Some status)) -> in_reap p = None ->
  reaper_inv p es -> reaper_inv (set_in_reap (Some (pid, status, o)) (set_kernel (delete pid (kernel p)) p)) es.
Proof.
  intros Hpid Hnone [H1 H2 H3 H4 H5 H6 H8 H7]. split; cbn; try done.
  - intros pid' ch st [_ Hk]%lookup_delete_Some. by apply H1.
  - intros pid' s ch [= <- <- ->]. destruct (H1 _ _ _ Hpid) as (K1 & K2 & K3 & K4 & K5). split_and!; try done.
    intros c st. by rewrite lookup_delete_eq.
  - intros pid' s [= <- <- ->] Hm. destruct (H4 _ Hm) as [(ch & st & Hk)|(ch & s' & Hf)]; congruence.
  - intros pid' Hm. destruct (H4 _ Hm) as [(ch & st & Hk)|(ch & s' & Hf)]; [|congruence].
    destruct (decide (pid = pid')) as [<-|Hne]; [right|left; exists ch, st; by rewrite lookup_delete_ne].
    rewrite Hpid in Hk. injection Hk as -> <-. eauto.
  - intros ch buf Hb. destruct (H7 _ _ Hb) as [(pid' & st & Hk)|[(? & ? & ?)|?]]; [|congruence|by right; right].
    destruct (decide (pid = pid')) as [<-|Hne]; [right; left|left; exists pid', st; cbn; by rewrite lookup_delete_ne].
    rewrite Hpid in Hk. injection Hk as -> <-. by exists pid, status.
Qed.

(** The reaper sends the status of a process that [Start] made on its channel,
    which is empty, and passes over the others. *)
Lemma reap_one_eq pid status o p es : reaper_inv p es -> in_reap p = Some (pid, status, o) ->
  reap_one pid status p = Some (match o with
    | Started ch => unmonitorPid pid (mkReaper (kernel p) (waiting_ p) (monitoredPids p) (<[ch := [status]]> (chans p)) (next_chan p) None)
    | Foreign => set_in_reap None p
    end).
Proof.
  intros Hinv Hf. unfold reap_one, waitChan. destruct o as [ch|].
  - destruct (ri_flight _ _ Hinv _ _ _ Hf) as (-> & Hm & -> & _). by rewrite decide_True.
  - apply (ri_foreign _ _ Hinv) in Hf. destruct (waiting_ p !! pid); [|done]. by rewrite decide_False.
Qed.

Lemma reap_inv pid o status p p' es : in_reap p = Some (pid, status, o) -> reap_one pid status p = Some p' ->
  reaper_inv p es -> reaper_inv p' es.
Proof.
  intros Hf Hr Hinv. rewrite (reap_one_eq _ _ _ _ _ Hinv Hf) in Hr. injection Hr as <-.
  destruct Hinv as [H1 H2 H3 H4 H5 H6 H8 H7]. destruct o as [c|].
  2: { split; cbn; try done.
       - intros pid' Hm. destruct (H4 _ Hm) as [?|(ch & s & Hf')]; [by left|congruence].
       - intros ch buf Hb. destruct (H7 _ _ Hb) as [?|[(? & ? & ?)|?]]; [by left|congruence|by right; right]. }
  destruct (H2 _ _ _ Hf) as (K1 & K2 & K3 & K4 & K5 & K6). split; cbn; try done.
  - intros pid' ch st Hk. destruct (H1 _ _ _ Hk) as (L1 & L2 & L3 & L4 & L5).
    assert (pid <> pid') by (intros ->; by apply (K6 ch st)).
    rewrite lookup_insert_ne by (intros ->; by apply H, (H5 _ _ ch)). split_and!; try done. set_solver.
  - intros pid' [Hm Hne]%elem_of_difference. destruct (H4 _ Hm) as [?|(ch & s & Hf')]; [by left|].
    rewrite Hf in Hf'. injection Hf' as -> _ _. set_solver.
  - intros ch Hle. destruct (H6 _ Hle) as (L1 & L4). rewrite lookup_insert_ne by congruence. done.
  - intros ch [Hne K]%lookup_insert_None. by apply H8.
  - intros ch buf [[<- <-]|[Hne Hb]]%lookup_insert_Some; [right; right; left; by exists status|].
    destruct (H7 _ _ Hb) as [?|[(? & ? & Hf')|?]]; [by left|congruence|by right; right].
Qed.

Lemma receive_inv ch r p p' es : receive ch p = Some (r, p') -> reaper_inv p es ->
  reaper_inv p' (es ++ [Received ch r]).
Proof.
  unfold receive. intros Hr [H1 H2 H3 H4 H5 H6 H8 H7].
  destruct (chans p !! ch) as [[|s rest]|] eqn:Hb; [done| |done]. injection Hr as <- <-.
  destruct (H7 _ _ Hb) as [(pid & st & Hk)|[(pid & s' & Hf)|[(s' & Hs & He & Hn)|(s' & Hs & _)]]].
  { destruct (H1 _ _ _ Hk) as (_ & _ & ? & _). congruence. }
  { destruct (H2 _ _ _ Hf) as (_ & _ & ? & _). congruence. }
  2: done.
  injection Hs as -> ->.
  split; cbn; try done.
  - intros pid c st Hk. destruct (H1 _ _ _ Hk) as (L1 & L2 & L3 & L4 & L5).
    rewrite ends_received, recvs_other, lookup_insert_ne by congruence. done.
  - intros pid s c Hf. destruct (H2 _ _ _ Hf) as (L1 & L2 & L3 & L4 & L5 & L6).
    rewrite ends_received, recvs_other, lookup_insert_ne by congruence. done.
  - intros c Hle. destruct (H6 _ Hle) as (L1 & L4). rewrite lookup_insert_ne by congruence. done.
  - intros c [Hne K]%lookup_insert_None. rewrite ends_received, recvs_other by done. by apply H8.
  - intros c buf [[<- <-]|[Hne Hc]]%lookup_insert_Some.
    + right; right; right. exists s'. rewrite ends_received, recvs_app, Hn. cbn. by rewrite decide_True.
    + rewrite ends_received, recvs_other by done. apply (H7 _ _ Hc).
Qed.

Lemma reaper_step_inv p e p' es : reaper_step false p e p' -> reaper_inv p es -> reaper_inv p' (es ++ e).
Proof.
  intros Hs Hinv. destruct Hs as [pid p Hk Hnf|pid p Hk|pid o status p Hk|pid o status p Hk Hn|pid o status p p' Hf Hr|ch r p p' Hr];
    rewrite ?app_nil_r.
  - apply start_inv; [done|by apply Hnf|done].
  - by apply fork_inv.
  - destruct o as [c|]; [by apply exit_started_inv|rewrite app_nil_r; by apply exit_foreign_inv].
  - by apply wait4_inv.
  - by eapply reap_inv.
  - by eapply receive_inv.
Qed.

Lemma reaper_run_inv p es : reaper_run false p es -> reaper_inv p es.
Proof. induction 1; [apply StartReaper_inv|by eapply reaper_step_inv]. Qed.

(** C23: the reaper delivers exit statuses. As long as the kernel does not give a
    process ID away while [reap] is dealing with it: a process that was started
    and has ended is still to be reaped, or its status lies in its channel, or
    its status (its lowest byte) was received from the channel; it is received
    at most once, nothing else is ever received from the channel, and the
    reaper never blocks on a send. *)
Theorem reaper_delivers p es :
  reaper_run false p es ->
  (forall ch s, ends ch es = [s] ->
     (exists pid, kernel p !! pid = Some (mkKernel (Started ch) (Some s))) \/ (exists pid, in_reap p = Some (pid, s, Started ch)) \/
     chans p !! ch = Some [s] \/ recvs ch es = [u8 s]) /\
  (forall ch, recvs ch es = [] \/ exists s, ends ch es = [s] /\ recvs ch es = [u8 s]) /\
  (forall pid s o, in_reap p = Some (pid, s, o) -> is_Some (reap_one pid s p)).
Proof.
  intros Hinv%reaper_run_inv. split_and!.
  - intros ch s He. destruct (chans p !! ch) as [buf|] eqn:Hb.
    2: { apply (ri_none _ _ Hinv) in Hb as [He' _]. congruence. }
    destruct (ri_chan _ _ Hinv _ _ Hb) as [(pid & st & Hk)|[(pid & s' & Hf)|[(s' & -> & He' & _)|(s' & _ & He' & Hr)]]].
    + destruct (ri_kernel _ _ Hinv _ _ _ Hk) as (_ & _ & _ & He' & _). rewrite He in He'. destruct st; [|done].
      injection He' as ->. left. eauto.
    + destruct (ri_flight _ _ Hinv _ _ _ Hf) as (_ & _ & _ & He' & _). rewrite He in He'. injection He' as ->. eauto.
    + rewrite He in He'. injection He' as ->. eauto.
    + rewrite He in He'. injection He' as ->. eauto.
  - intros ch. destruct (chans p !! ch) as [buf|] eqn:Hb; [|left; by apply (ri_none _ _ Hinv)].
    destruct (ri_chan _ _ Hinv _ _ Hb) as [(pid & st & Hk)|[(pid & s' & Hf)|[(s' & -> & He' & ?)|(s' & _ & He' & Hr)]]]; eauto.
    + left. apply (ri_kernel _ _ Hinv _ _ _ Hk).
    + left. apply (ri_flight _ _ Hinv _ _ _ Hf).
  - intros pid s o Hf. rewrite (reap_one_eq _ _ _ _ _ Hinv Hf). eauto.
Qed.

(** A process that is started as process 7, ends with 3 and is reaped. *)
Definition reaped7 : ProcessReaper :=
  mkReaper ∅ {[7 := 1%positive]} ∅ {[1%positive := [3]]} 2 None.

Lemma reaped7_run : reaper_run false reaped7 [Ended 1 3].
Proof.
  eapply (rr_step _ _ [Ended 1 3] []); [eapply (rr_step _ _ [Ended 1 3] [])|].
  1: eapply (rr_step _ _ [] [Ended 1 3]); [eapply (rr_step _ _ [] []); [apply rr_new|]|].
  - by apply (rs_start _ 7).
  - apply (rs_exit _ 7 (Started 1) 3). reflexivity.
  - eapply (rs_wait4 _ 7 (Started 1) 3); reflexivity.
  - eapply (rs_reap _ 7 (Started 1) 3); [reflexivity|vm_compute; reflexivity].
Qed.

Lemma reaper_delivers_witness :
  (exists pid, kernel reaped7 !! pid = Some (mkKernel (Started 1) (Some 3))) \/ (exists pid, in_reap reaped7 = Some (pid, 3, Started 1)) \/
  chans reaped7 !! 1%positive = Some [3] \/ recvs 1 [Ended 1 3] = [u8 3].
Proof. apply (reaper_delivers reaped7 [Ended 1 3]); [apply reaped7_run|reflexivity]. Defined.

(** wait4 frees the process ID before [reap] looks the channel up. When [Start] is
    given the same ID in between, the status of the old process goes to the
    channel of the new one, which is still running and is no longer monitored:
    its own status will be dropped, and the waiter of the old process waits
    forever. *)
Theorem reaper_pid_reuse_misdelivers :
  exists p es, reaper_run true p es /\ ends 1 es = [3] /\ recvs 1 es = [] /\ chans p !! 1%positive = Some [] /\
    ends 2 es = [] /\ recvs 2 es = [3] /\ kernel p !! 7 = Some (mkKernel (Started 2) None) /\ 7 ∉ monitoredPids p.
Proof.
  eexists _, _. split.
  - eapply rr_step; [eapply rr_step; [eapply rr_step; [eapply rr_step; [eapply rr_step; [eapply rr_step; [apply rr_new|]|]|]|]|]|].
    + by apply (rs_start _ 7).
    + apply (rs_exit _ 7 (Started 1) 3). reflexivity.
    + eapply (rs_wait4 _ 7 (Started 1) 3); reflexivity.
    + apply (rs_start _ 7); [reflexivity|done].
    + eapply (rs_reap _ 7 (Started 1) 3); [reflexivity|vm_compute; reflexivity].
    + eapply (rs_receive _ 2 3). vm_compute. reflexivity.
  - split_and!; try (vm_compute; reflexivity). apply (bool_decide_unpack _). vm_compute. done.
Qed.
