(* ===== verification/Namespaces.v ===== *)
(** * User IDs and namespaces (src/sysinfo, src/containerizer/system/namespacing_execer_linux.go)

    The server maps the users of an unprivileged container to users of the host:
    root to the greatest valid ID, every other ID below it to itself. The greatest
    ID is read from the ID maps of the server's own namespace. *)
From S2P Require Import Prelude GoStrings World ProcessEnv RLimits.

(** ** max_valid_uid.go *)

(** A signed number of [fmt.Sscanf] and what follows it. *)
Definition scan_int (s : string) : option (Z * string) :=
  let s := trim_left (fun c => is_space c && negb (is_newline c)) s in
  let '(neg, t) := match s with String c t => if decide (c = "-"%char) then (true, t) else if decide (c = "+"%char) then (false, t) else (false, s) | _ => (false, s) end in
  let ds := scan_digits t in
  match ParseUint ds with
  | Ok v =>
      if (if neg : bool then 9223372036854775808 <? v else 9223372036854775808 <=? v) then None
      else Some (if neg : bool then - v else v, String.substring (String.length ds) (String.length t - String.length ds) t)
  | _ => None
  end.

(** A blank of the format: the input has one too, or is at its end. *)
Definition scan_blank (s : string) : option string :=
  match s with "" => Some s | String c _ => if is_space c then Some s else None end.

Definition Sscanf_ddd (s : string) : option (Z * Z * Z) :=
  match scan_int s with
  | Some (a, s) =>
      match scan_blank s with
      | Some s =>
          match scan_int s with
          | Some (b, s) =>
              match scan_blank s with
              | Some s => match scan_int s with Some (c, _) => Some (a, b, c) | None => None end
              | None => None
              end
          | None => None
          end
      | None => None
      end
  | None => None
  end.

(** [bufio.ScanLines]: without the empty text after the last newline. *)
Fixpoint scan_lines (l : list string) : list string :=
  match l with
  | [] => []
  | [x] => if decide (x = "") then [] else [x]
  | x :: l' => x :: scan_lines l'
  end.

Definition int_ (z : Z) : Z := int64 (u64 z).

Fixpoint max_valid (m : Z) (ls : list string) : result Z :=
  match ls with
  | [] => Ok m
  | line :: ls' =>
      match Sscanf_ddd line with
      | Some (container, host, size) => max_valid (Z.max m (int_ (container + size - 1))) ls'
      | None => Err (Errorv "%s while parsing line %s" [line])
      end
  end.

Section IDs.
Context (env : Env).
Local Open Scope go_scope.

Definition MaxValid (file : string) : M World Z :=
  let! contents := call env (ReadFile file) in
  lift (max_valid 0 (scan_lines (split newline contents))).

Definition must_id (m : M World Z) : M World Z := fun w =>
  match m w with (Err _, w') => (Panic "sysinfo", w') | x => x end.

Definition MustGetMaxValidUID : M World Z := must_id (MaxValid "/proc/self/uid_map").
Definition MustGetMaxValidGID : M World Z := must_id (MaxValid "/proc/self/gid_map").

(** [sysinfo.Min(sysinfo.MustGetMaxValidUID(), sysinfo.MustGetMaxValidGID())] *)
Definition max_id : M World Z :=
  let! uid := MustGetMaxValidUID in
  let! gid := MustGetMaxValidGID in
  ret (Z.min uid gid).

(** ** provider.go: the world answers with the total in kilobytes *)

Definition fromKBytesToBytes (kbytes : Z) : Z := u64 (kbytes * 1024).

Definition TotalMemory : M World Z :=
  let! out := call env (Sys "sigar.Mem.Get" []) in lift (ParseUint out).
Definition TotalDisk (depotPath : string) : M World Z :=
  let! out := call env (Sys "sigar.FileSystemUsage.Get" [depotPath]) in
  let! total := lift (ParseUint out) in
  ret (fromKBytesToBytes total).

(** ** namespacing_execer_linux.go *)

Record IDMap := mkIDMap { ContainerID : Z; HostID : Z; Size : Z }.

Definition makeSysProcIDMap (maxUid : Z) : list IDMap := [mkIDMap 0 maxUid 1; mkIDMap 1 1 (maxUid - 1)].

Record SysProcAttr := mkAttr {
  Cloneflags : Z;
  UidMappings : list IDMap;
  GidMappings : list IDMap;
  Credential : option (Z * Z)
}.

Definition CLONE_NEWNS : Z := 131072.
Definition CLONE_NEWUTS : Z := 67108864.
Definition CLONE_NEWIPC : Z := 134217728.
Definition CLONE_NEWUSER : Z := 268435456.
Definition CLONE_NEWPID : Z := 536870912.
Definition CLONE_NEWNET : Z := 1073741824.

Definition exec_attr (Privileged : bool) (MaxUID : Z) : SysProcAttr :=
  let flags := CLONE_NEWIPC in
  let flags := Z.lor flags CLONE_NEWNET in
  let flags := Z.lor flags CLONE_NEWNS in
  let flags := Z.lor flags CLONE_NEWUTS in
  let flags := Z.lor flags CLONE_NEWPID in
  if Privileged then mkAttr flags [] [] None
  else mkAttr (Z.lor flags CLONE_NEWUSER) (makeSysProcIDMap MaxUID) (makeSysProcIDMap MaxUID) (Some (0, 0)).

(** The attributes as the arguments of a call. *)
Definition map_text (m : IDMap) : string := Itoa (ContainerID m) +:+ ":" +:+ Itoa (HostID m) +:+ ":" +:+ Itoa (Size m).
Definition attr_text (a : SysProcAttr) : list string :=
  ["cloneflags"; Itoa (Cloneflags a); "uidmap"] ++ (map_text <$> UidMappings a) ++ ["gidmap"] ++ (map_text <$> GidMappings a).

(** The world answers with the process ID in decimal. *)
Definition NamespacingExecer_Exec (Privileged : bool) (MaxUID : Z) (binPath : string) (args : list string) : M World string :=
  map_err (Wrapf "system: failed to start the supplied command: %s" [])
    (call env (Sys "CommandRunner.Start" (attr_text (exec_attr Privileged MaxUID) ++ binPath :: args))).
End IDs.

(** ** What the maps mean

    The kernel's translation (user_namespaces(7)): the ID of the host that stands
    for an ID of the container, if a line of the map covers it. *)

Definition to_host (maps : list IDMap) (id : Z) : option Z :=
  match filter (fun m => ContainerID m <= id < ContainerID m + Size m) maps with
  | m :: _ => Some (HostID m + (id - ContainerID m))
  | [] => None
  end.

Lemma to_host_map maxUid id :
  to_host (makeSysProcIDMap maxUid) id =
    if decide (id = 0) then Some maxUid else if decide (1 <= id < maxUid) then Some id else None.
Proof.
  unfold to_host, makeSysProcIDMap. rewrite !filter_cons, filter_nil. cbn [ContainerID HostID Size].
  repeat case_decide; cbn; first [exfalso; lia | done | f_equal; lia].
Qed.

(** The ID read from a map is the end of one of its ranges, or 0, and no range ends
    later. *)
Lemma max_valid_spec ls : forall m0 m, max_valid m0 ls = Ok m ->
  m0 <= m /\ (m = m0 \/ exists line c h s, line ∈ ls /\ Sscanf_ddd line = Some (c, h, s) /\ m = int_ (c + s - 1)) /\
  (forall line c h s, line ∈ ls -> Sscanf_ddd line = Some (c, h, s) -> int_ (c + s - 1) <= m).
Proof.
  induction ls as [|line ls IH]; intros m0 m; cbn [max_valid].
  - intros [= <-]. split_and!; [lia|by left|]. by intros ? ? ? ? []%elem_of_nil.
  - destruct (Sscanf_ddd line) as [[[c h] s]|] eqn:Hl; [|done]. intros (Hge & Hor & Hall)%IH. split_and!.
    + lia.
    + destruct Hor as [->|(line' & c' & h' & s' & Hin & Hs & ->)].
      * destruct (Z.max_spec m0 (int_ (c + s - 1))) as [[_ ->]|[_ ->]]; [right|by left].
        exists line, c, h, s. split_and!; [left|done|done].
      * right. exists line', c', h', s'. split_and!; [by right|done|done].
    + intros line' c' h' s' [->|Hin]%elem_of_cons Hs; [|by eapply Hall]. rewrite Hl in Hs. injection Hs as <- <- <-. lia.
Qed.

(** [u] is what [MaxValid] makes of the text of a map: the greatest end of its ranges,
    or 0 when there is none above. *)
Definition greatest_end (text : string) (u : Z) : Prop :=
  let ls := scan_lines (split newline text) in
  0 <= u /\ (u = 0 \/ exists line c h s, line ∈ ls /\ Sscanf_ddd line = Some (c, h, s) /\ u = int_ (c + s - 1)) /\
  forall line, line ∈ ls -> exists c h s, Sscanf_ddd line = Some (c, h, s) /\ int_ (c + s - 1) <= u.

Lemma max_valid_parses ls : forall m0 m, max_valid m0 ls = Ok m -> forall line, line ∈ ls -> is_Some (Sscanf_ddd line).
Proof.
  induction ls as [|l ls IH]; intros m0 m; cbn [max_valid]; [by intros _ line ?%elem_of_nil|].
  destruct (Sscanf_ddd l) as [[[c h] s]|] eqn:Hl; [|done]. intros H line [->|Hin]%elem_of_cons; [by rewrite Hl|by eapply IH].
Qed.

Lemma must_MaxValid env file w u w' : must_id (MaxValid env file) w = (Ok u, w') ->
  w' = w ++ [ReadFile file] /\ exists text, env w (ReadFile file) = inl text /\ greatest_end text u.
Proof.
  unfold must_id, MaxValid. rewrite bind_eq, call_eq. destruct (env w _) as [text|e]; [|done]. unfold lift.
  destruct (max_valid 0 _) as [m|e|p] eqn:E; [|done|done]. intros [= <- <-]. split; [done|]. exists text. split; [done|].
  destruct (max_valid_spec _ _ _ E) as (H0 & Hor & Hall). split_and!; [done|done|]. intros line Hin.
  destruct (max_valid_parses _ _ _ E _ Hin) as [[[c h] s] Hl]. exists c, h, s. split; [done|]. by eapply Hall.
Qed.

Lemma max_id_Ok env w m w' : max_id env w = (Ok m, w') -> exists u g uids gids,
  env w (ReadFile "/proc/self/uid_map") = inl uids /\ greatest_end uids u /\
  env (w ++ [ReadFile "/proc/self/uid_map"]) (ReadFile "/proc/self/gid_map") = inl gids /\ greatest_end gids g /\ m = Z.min u g.
Proof.
  unfold max_id, MustGetMaxValidUID, MustGetMaxValidGID. intros (u & w1 & Hu & H)%bind_Ok.
  apply bind_Ok in H as (g & w2 & Hg & [= <- _]). apply must_MaxValid in Hu as (-> & uids & Hu & Hut).
  apply must_MaxValid in Hg as (_ & gids & Hg & Hgt). by exists u, g, uids, gids.
Qed.

(** C32: what an unprivileged container can do to the users of the host. The server
    reads the greatest user and group of its own maps; [m] is the smaller of the
    two. The container is cloned with namespaces of its own for IPC, network,
    mounts, host name, processes and users. The IDs in it are 0 and those below
    [m], and no others; no two of them are the same user of the host; root of the
    container is the user [m] of the host, and no other ID of it is. None of them
    is root of the host, but for one case: where the maps of the server end at 0,
    so that [m] is 0, root of the container is root of the host. The code does not
    look for gaps in the maps, so that a user that an ID is mapped to need not be
    one that the server's own maps cover; it is never above their ends. *)
Theorem container_users_confined env w m w' : max_id env w = (Ok m, w') ->
  let a := exec_attr false m in
  (exists u g uids gids, env w (ReadFile "/proc/self/uid_map") = inl uids /\ greatest_end uids u /\
     env (w ++ [ReadFile "/proc/self/uid_map"]) (ReadFile "/proc/self/gid_map") = inl gids /\ greatest_end gids g /\
     m = Z.min u g) /\
  Forall (fun flag => Z.land (Cloneflags a) flag = flag)
    [CLONE_NEWIPC; CLONE_NEWNET; CLONE_NEWNS; CLONE_NEWUTS; CLONE_NEWPID; CLONE_NEWUSER] /\
  GidMappings a = UidMappings a /\
  (forall id, is_Some (to_host (UidMappings a) id) <-> id = 0 \/ 0 <= id < m) /\
  (forall id h, to_host (UidMappings a) id = Some h -> 0 <= h <= m /\ (h = m <-> id = 0) /\ (h = 0 <-> m = 0)) /\
  (forall id id' h, to_host (UidMappings a) id = Some h -> to_host (UidMappings a) id' = Some h -> id = id').
Proof.
  intros Hm%max_id_Ok. cbn zeta. split; [done|]. destruct Hm as (u & g & uids & gids & _ & [Hu _] & _ & [Hg _] & Hm).
  split; [by repeat constructor|]. split; [done|]. cbn [exec_attr UidMappings]. split_and!.
  - intros id. rewrite to_host_map. repeat case_decide; split; first [done | lia | intros [? [=]] | by eexists | (intros; exfalso; lia)].
  - intros id h. rewrite to_host_map. repeat case_decide; intros [= <-]; lia.
  - intros id id' h. rewrite !to_host_map. repeat case_decide; intros [=]; intros [=]; lia.
Qed.

(** A host with the maps of the first namespace, and one whose only user is root. *)
Definition full_host : Env := fun _ _ => inl ("         0          0 4294967295" +:+ String newline "").
Definition root_host : Env := fun _ _ => inl ("0 1000 1" +:+ String newline "").

Lemma container_users_confined_witness :
  max_id full_host [] = (Ok 4294967294, [ReadFile "/proc/self/uid_map"; ReadFile "/proc/self/gid_map"]) /\
  (forall id h, to_host (UidMappings (exec_attr false 4294967294)) id = Some h -> h <> 0) /\
  max_id root_host [] = (Ok 0, [ReadFile "/proc/self/uid_map"; ReadFile "/proc/self/gid_map"]) /\
  (forall id h, to_host (UidMappings (exec_attr false 0)) id = Some h -> h = 0).
Proof.
  assert (H1 : max_id full_host [] = (Ok 4294967294, [ReadFile "/proc/self/uid_map"; ReadFile "/proc/self/gid_map"])) by (vm_compute; reflexivity).
  assert (H2 : max_id root_host [] = (Ok 0, [ReadFile "/proc/self/uid_map"; ReadFile "/proc/self/gid_map"])) by (vm_compute; reflexivity).
  split; [exact H1|]. split; [|split; [exact H2|]]; intros id h Hh.
  - apply (container_users_confined full_host [] _ _ H1) in Hh. lia.
  - apply (container_users_confined root_host [] _ _ H2) in Hh. lia.
Defined.
