(* ===== verification/NetworkConfig.v ===== *)
(** * Network configuration (src/network/configure.go, src/linux_backend/hooks.go, src/hook/hooks.go)

    How the two ends of a container's network are set up: [ConfigureHost] in the
    hook that runs on the host after the child was cloned, [ConfigureContainer]
    in the child. Both work on the interfaces of [NetworkConfigurer], as in the
    source. The errors keep the fields of the types of errors.go. *)
From S2P Require Import Prelude GoStrings GoNet World ProcessEnv RLimits Sysconfig Bandwidth IPTablesManager ProcessTracker.

(** ** configure.go *)

Record HostConfig := mkHostConfig {
  hc_HostIntf : string;
  hc_BridgeName : string;
  hc_BridgeIP : IP;
  hc_ContainerIntf : string;
  hc_ContainerPid : Z;
  hc_Subnet : IPNet;
  hc_Mtu : Z
}.

Record ContainerConfig := mkContainerConfig {
  cc_Hostname : string;
  cc_ContainerIntf : string;
  cc_ContainerIP : IP;
  cc_GatewayIP : IP;
  cc_Subnet : IPNet;
  cc_Mtu : Z
}.

Definition lookup_intf (name : string) : Call := Sys "link.InterfaceByName" [name].
Definition link_up_ (intf : string) : Call := Sys "link.SetUp" [intf].
Definition set_mtu (intf : string) (mtu : Z) : Call := Sys "link.SetMTU" [intf; Itoa mtu].
Definition add_ip (intf : string) (ip : IP) (subnet : IPNet) : Call := Sys "link.AddIP" [intf; IP_String ip; IPNet_String subnet].

(** The interfaces that [NetworkConfigurer] is made of; interfaces of the host
    are known by their names. *)
Record NetworkConfigurer (St : Type) := mkConfigurer {
  nc_SetHostname : string -> M St unit;
  nc_Veth_Create : string -> string -> M St (string * string);
  nc_AddIP : string -> IP -> IPNet -> M St unit;
  nc_AddDefaultGW : string -> IP -> M St unit;
  nc_SetUp : string -> M St unit;
  nc_SetMTU : string -> Z -> M St unit;
  nc_SetNs : string -> Z -> M St unit;
  nc_InterfaceByName : string -> M St (option string);
  nc_Bridge_Create : string -> IP -> IPNet -> M St string;
  nc_Bridge_Add : string -> string -> M St unit
}.
Arguments nc_SetHostname {_} _ _.
Arguments nc_Veth_Create {_} _ _ _.
Arguments nc_AddIP {_} _ _ _ _.
Arguments nc_AddDefaultGW {_} _ _ _.
Arguments nc_SetUp {_} _ _.
Arguments nc_SetMTU {_} _ _ _.
Arguments nc_SetNs {_} _ _ _.
Arguments nc_InterfaceByName {_} _ _.
Arguments nc_Bridge_Create {_} _ _ _ _.
Arguments nc_Bridge_Add {_} _ _ _.

Section Configure.
Context {St : Type} (nc : NetworkConfigurer St).
Local Open Scope go_scope.

(** The look-up of an interface that has to be there; [not_found] gets the error
    of the look-up, if there is one. *)
Definition find_intf (name : string) (not_found : option error -> error) : M St string :=
  let! r := attempt (nc_InterfaceByName nc name) in
  match r with
  | inl (Some intf) => ret intf
  | inl None => fail (not_found None)
  | inr err => fail (not_found (Some err))
  end.

Definition configureBridgeIntf (name : string) (ip : IP) (subnet : IPNet) : M St string :=
  let! bridge := find_intf name (fun _ => Wrapf "BridgeDetectionError" [name; IP_String ip; IPNet_String subnet] (Errorf "look up existing bridge")) in
  do! map_err (Wrapf "LinkUpError" [bridge; "bridge"]) (nc_SetUp nc bridge) in
  ret bridge.

Definition configureVethPair (hostName containerName : string) : M St (string * string) :=
  map_err (Wrapf "VethPairCreationError" [hostName; containerName]) (nc_Veth_Create nc hostName containerName).

Definition configureHostIntf (intf bridge : string) (mtu : Z) : M St unit :=
  do! map_err (Wrapf "MTUError" [intf; Itoa mtu]) (nc_SetMTU nc intf mtu) in
  do! map_err (Wrapf "AddToBridgeError" [bridge; intf]) (nc_Bridge_Add nc bridge intf) in
  map_err (Wrapf "LinkUpError" [intf; "host"]) (nc_SetUp nc intf).

Definition ConfigureHost (config : HostConfig) : M St unit :=
  let! bridge := configureBridgeIntf (hc_BridgeName config) (hc_BridgeIP config) (hc_Subnet config) in
  let! ' (host, container) := configureVethPair (hc_HostIntf config) (hc_ContainerIntf config) in
  do! configureHostIntf host bridge (hc_Mtu config) in
  map_err (Wrapf "SetNsFailedError" [container; Itoa (hc_ContainerPid config)]) (nc_SetNs nc container (hc_ContainerPid config)).

(** [FindLinkError] has no cause when the link does not exist. *)
Definition FindLinkError (role name : string) (cause : option error) : error :=
  match cause with Some err => Wrapf "FindLinkError" [role; name] err | None => Errorv "FindLinkError" [role; name] end.

Definition configureContainerIntf (name : string) (ip gatewayIP : IP) (subnet : IPNet) (mtu : Z) : M St unit :=
  let! intf := find_intf name (FindLinkError "container" name) in
  do! map_err (Wrapf "ConfigureLinkError" ["container"; intf; IP_String ip; IPNet_String subnet]) (nc_AddIP nc intf ip subnet) in
  do! map_err (Wrapf "LinkUpError" [intf; "container"]) (nc_SetUp nc intf) in
  do! map_err (Wrapf "ConfigureDefaultGWError" [intf; IP_String gatewayIP]) (nc_AddDefaultGW nc intf gatewayIP) in
  map_err (Wrapf "MTUError" [intf; Itoa mtu]) (nc_SetMTU nc intf mtu).

Definition configureLoopbackIntf : M St unit :=
  let! lo := find_intf "lo" (FindLinkError "loopback" "lo") in
  match ParseCIDR "127.0.0.1/8" with
  | Ok (ip, subnet) =>
      do! map_err (Wrapf "ConfigureLinkError" ["loopback"; lo; IP_String ip; IPNet_String subnet]) (nc_AddIP nc lo ip subnet) in
      map_err (Wrapf "LinkUpError" [lo; "loopback"]) (nc_SetUp nc lo)
  | _ => panic "can't parse 127.0.0.1/8 as a CIDR"
  end.

Definition ConfigureContainer (config : ContainerConfig) : M St unit :=
  do! configureLoopbackIntf in
  do! configureContainerIntf (cc_ContainerIntf config) (cc_ContainerIP config) (cc_GatewayIP config) (cc_Subnet config) (cc_Mtu config) in
  nc_SetHostname nc (cc_Hostname config).

(** ** hooks.go and initc's setupNetwork *)

Definition cfg_get (config : ProcEnv) (key : string) : string := default "" (config !! key).

(** [os_PID] is the variable that [Create] sets before it runs the hook. *)
Definition configureHostNetwork (config : ProcEnv) (os_PID : string) : M St unit :=
  let! ' (_, ipNet) := lift (ParseCIDR (cfg_get config "network_cidr")) in
  let! mtu := lift (ParseInt (cfg_get config "container_iface_mtu")) in
  match Sscanf_int os_PID with
  | None => fail (Errorf "linux_backend: can't parse PID string from ENV: %v")
  | Some containerPid =>
      ConfigureHost (mkHostConfig (cfg_get config "network_host_iface") (cfg_get config "bridge_iface")
        (ParseIP (cfg_get config "network_host_ip")) (cfg_get config "network_container_iface") containerPid ipNet mtu)
  end.

Definition container_config (config : ProcEnv) (ipNet : IPNet) (mtu : Z) : ContainerConfig :=
  mkContainerConfig (cfg_get config "id") (cfg_get config "network_container_iface") (ParseIP (cfg_get config "network_container_ip"))
    (ParseIP (cfg_get config "network_host_ip")) ipNet mtu.

(** The function of hooks.go that nothing calls any more, and its successor in
    initc, which differs in the texts of the errors only. *)
Definition configureContainerNetwork (config : ProcEnv) : M St unit :=
  let! ' (_, ipNet) := lift (ParseCIDR (cfg_get config "network_cidr")) in
  let! mtu := lift (ParseInt (cfg_get config "container_iface_mtu")) in
  ConfigureContainer (container_config config ipNet mtu).

Definition setupNetwork (config : ProcEnv) : M St unit :=
  let! ' (_, ipNet) := map_err (Wrapf "initc: failed to parse network CIDR: %s" []) (lift (ParseCIDR (cfg_get config "network_cidr"))) in
  let! mtu := map_err (Wrapf "initc: failed to parse container interface MTU: %s" []) (lift (ParseInt (cfg_get config "container_iface_mtu"))) in
  map_err (Wrapf "initc: failed to configure container network: %s" []) (ConfigureContainer (container_config config ipNet mtu)).
End Configure.

(** ** The order of the calls

    The collaborators as calls of the world, which answers a look-up with an
    empty text when the interface exists. *)
Definition world_net (env : Env) : NetworkConfigurer World := {|
  nc_SetHostname h := call_ env (Sys "SetHostname" [h]);
  nc_Veth_Create h c := bind (call_ env (Sys "veth.Create" [h; c])) (fun _ => ret (h, c));
  nc_AddIP intf ip subnet := call_ env (add_ip intf ip subnet);
  nc_AddDefaultGW intf ip := call_ env (Sys "link.AddDefaultGW" [intf; IP_String ip]);
  nc_SetUp intf := call_ env (link_up_ intf);
  nc_SetMTU intf mtu := call_ env (set_mtu intf mtu);
  nc_SetNs intf pid := call_ env (Sys "link.SetNs" [intf; Itoa pid]);
  nc_InterfaceByName name := bind (call env (lookup_intf name)) (fun out => ret (if decide (out = "") then Some name else None));
  nc_Bridge_Create name ip subnet := bind (call_ env (Sys "bridge.Create" [name; IP_String ip; IPNet_String subnet])) (fun _ => ret name);
  nc_Bridge_Add bridge intf := call_ env (Sys "bridge.Add" [bridge; intf])
|}.

Lemma find_intf_Ok env name e w i w' : find_intf (world_net env) name e w = (Ok i, w') -> i = name.
Proof.
  unfold find_intf. rewrite bind_eq, attempt_eq. cbn [world_net nc_InterfaceByName]. rewrite bind_eq, call_eq.
  destruct (env w (lookup_intf name)) as [out|e']; cbn; [case_decide; by intros [= <- _]|done].
Qed.

Lemma runs_find env name e : runs (find_intf (world_net env) name e) [lookup_intf name].
Proof.
  intros w r w'. unfold find_intf. rewrite bind_eq, attempt_eq. cbn [world_net nc_InterfaceByName]. rewrite bind_eq, call_eq.
  destruct (env w (lookup_intf name)) as [out|e']; cbn; [case_decide|]; intros [= <- <-]; try done; by exists [lookup_intf name].
Qed.

(** A look-up, and what is done with the interface. *)
Lemma runs_find_bind {B} env name e (k : string -> M World B) l :
  runs (k name) l -> runs (bind (find_intf (world_net env) name e) k) (lookup_intf name :: l).
Proof. intros Hk. apply (runs_bind_value _ _ [_]); [apply runs_find|]. by intros w a w' ->%find_intf_Ok. Qed.

Ltac runs_tac :=
  repeat first [ progress intros | apply runs_find_bind | apply runs_map_err | apply runs_call_ | apply runs_ret
               | (apply (runs_bind _ _ [_])) ].

Definition host_calls (c : HostConfig) : list Call :=
  [lookup_intf (hc_BridgeName c); link_up_ (hc_BridgeName c); Sys "veth.Create" [hc_HostIntf c; hc_ContainerIntf c];
   set_mtu (hc_HostIntf c) (hc_Mtu c); Sys "bridge.Add" [hc_BridgeName c; hc_HostIntf c]; link_up_ (hc_HostIntf c);
   Sys "link.SetNs" [hc_ContainerIntf c; Itoa (hc_ContainerPid c)]].

Definition container_calls (c : ContainerConfig) : list Call :=
  [lookup_intf "lo"; add_ip "lo" (v4InV6Prefix ++ [127; 0; 0; 1]) (mkIPNet [127; 0; 0; 0] [255; 0; 0; 0]); link_up_ "lo";
   lookup_intf (cc_ContainerIntf c); add_ip (cc_ContainerIntf c) (cc_ContainerIP c) (cc_Subnet c); link_up_ (cc_ContainerIntf c);
   Sys "link.AddDefaultGW" [cc_ContainerIntf c; IP_String (cc_GatewayIP c)]; set_mtu (cc_ContainerIntf c) (cc_Mtu c);
   Sys "SetHostname" [cc_Hostname c]].

Lemma runs_ConfigureContainer env c : runs (ConfigureContainer (world_net env) c) (container_calls c).
Proof.
  unfold ConfigureContainer, configureLoopbackIntf, configureContainerIntf.
  change (ParseCIDR "127.0.0.1/8") with (Ok (v4InV6Prefix ++ [127; 0; 0; 1], mkIPNet [127; 0; 0; 0] [255; 0; 0; 0])).
  unfold container_calls.
  apply (runs_bind _ _ [_; _; _]); [runs_tac|intros _]. apply (runs_bind _ _ [_; _; _; _; _]); [runs_tac|runs_tac].
Qed.

Lemma runs_configureBridgeIntf env name ip subnet : runs (configureBridgeIntf (world_net env) name ip subnet) [lookup_intf name; link_up_ name].
Proof. apply runs_find_bind, (runs_bind _ _ [_] []); runs_tac. Qed.

Lemma configureBridgeIntf_Ok env name ip subnet w b w' : configureBridgeIntf (world_net env) name ip subnet w = (Ok b, w') -> b = name.
Proof. intros (i & w1 & ->%find_intf_Ok & (_ & w2 & _ & [= <- _])%bind_Ok)%bind_Ok. done. Qed.

Lemma runs_configureVethPair env host cont : runs (configureVethPair (world_net env) host cont) [Sys "veth.Create" [host; cont]].
Proof. apply runs_map_err, (runs_bind _ _ [_] []); runs_tac. Qed.

Lemma configureVethPair_Ok env host cont w p w' : configureVethPair (world_net env) host cont w = (Ok p, w') -> p = (host, cont).
Proof.
  unfold configureVethPair. rewrite map_err_eq. cbn [world_net nc_Veth_Create]. rewrite bind_eq, call__eq. by destruct (env w _) as [o|e]; intros [= <- _].
Qed.

Lemma runs_ConfigureHost env c : runs (ConfigureHost (world_net env) c) (host_calls c).
Proof.
  unfold host_calls. apply (runs_bind_value _ _ [_; _]); [apply runs_configureBridgeIntf|].
  intros ? bridge ? ->%configureBridgeIntf_Ok. apply (runs_bind_value _ _ [_]); [apply runs_configureVethPair|].
  intros ? [host cont] ? [= -> ->]%configureVethPair_Ok.
  apply (runs_bind _ _ [_; _; _]); [|runs_tac]. unfold configureHostIntf. runs_tac.
Qed.

(** The host's side of a container's network is set up in one order,
    whatever fails: the bridge is looked up and brought up, the pair is made, the
    host's end gets its MTU, joins the bridge and is brought up, and only then
    the container's end is moved into the container's namespace. Success means
    that all of it was done, a failure stops at the call that failed, and there
    is no panic. *)
Theorem host_network_order env c w :
  match ConfigureHost (world_net env) c w with
  | (Ok _, w') => w' = w ++ host_calls c
  | (Err _, w') => exists l1, l1 `prefix_of` host_calls c /\ w' = w ++ l1
  | (Panic _, _) => False
  end.
Proof.
  destruct (ConfigureHost (world_net env) c w) as [r w'] eqn:E. pose proof (runs_ConfigureHost env c _ _ _ E). by destruct r.
Qed.

(** The network configuration that initc reads from the container's, if it can. *)
Definition network_of (config : ProcEnv) : option ContainerConfig :=
  match ParseCIDR (cfg_get config "network_cidr"), ParseInt (cfg_get config "container_iface_mtu") with
  | Ok (_, ipNet), Ok mtu => Some (container_config config ipNet mtu)
  | _, _ => None
  end.

(** However [setupNetwork] ends, it has made the calls of [ConfigureContainer] in
    order up to some point, and all of them when it succeeded. *)
Lemma setupNetwork_calls env config w r w' : setupNetwork (world_net env) config w = (r, w') ->
  exists l, w' = w ++ l /\ l `prefix_of` from_option container_calls [] (network_of config) /\
    (r = Ok tt -> exists n, network_of config = Some n /\ l = container_calls n).
Proof.
  unfold setupNetwork, network_of. rewrite bind_eq, map_err_eq. unfold lift.
  destruct (ParseCIDR _) as [[ip ipNet]|e|p];
    [|intros [= <- <-]; exists []; rewrite app_nil_r; split_and!; [done|apply prefix_nil|done]..].
  rewrite bind_eq, map_err_eq. destruct (ParseInt _) as [mtu|e|p];
    [|intros [= <- <-]; exists []; rewrite app_nil_r; split_and!; [done|apply prefix_nil|done]..].
  cbn [from_option]. set (n := container_config config ipNet mtu).
  intros Hrun. apply (runs_map_err _ _ _ (runs_ConfigureContainer env n)) in Hrun. destruct r as [[]|e|p]; [| |done].
  - exists (container_calls n). eauto.
  - destruct Hrun as (l & Hl & ->). by exists l.
Qed.
