(* ===== verification/Hooks.v ===== *)
(** * The hook program (src/hook, src/hook/hook, src/linux_backend/hooks.go)

    wshd runs the program [lib/hook] of a container with the name of a phase, once
    before and once after it has made the namespaces. The program registers its
    hooks in a set and runs the one of the phase; what fails in a hook is a panic,
    which wshd sees as a failed command. *)
From S2P Require Import Prelude GoStrings GoFlag GoNet World ProcessEnv RLimits System ProcessTracker NetworkConfig.

(** ** hooks.go: sets of hooks *)

Notation Phase := string (only parsing).

Definition PARENT_BEFORE_CLONE : Phase := "parent-before-clone".
Definition PARENT_AFTER_CLONE : Phase := "parent-after-clone".
Definition CHILD_AFTER_PIVOT : Phase := "child-after-pivot".

Definition Hook : Type := M World unit.
Notation HookSet := (gmap string Hook).

Definition HookSet_Main (h : HookSet) (phase : Phase) : M World unit :=
  match h !! phase with
  | Some fn => fn
  | None => panic ("hooks: no such hook: " +:+ phase)
  end.

Definition HookSet_Register (h : HookSet) (name : Phase) (fn : Hook) : result HookSet :=
  match h !! name with
  | Some _ => Panic ("hooks: already registered hook: " +:+ name)
  | None => Ok (<[name := fn]> h)
  end.

(** [Main] of the package takes the first argument without a check. *)
Definition hook_Main (h : HookSet) (args : list string) : M World unit :=
  match args with
  | [] => panic "runtime error: index out of range"
  | phase :: _ => HookSet_Main h phase
  end.

Section Hooks.
Context (env : Env).
Local Open Scope go_scope.

(** ** linux_backend/hooks.go *)

Definition must (m : M World unit) : M World unit := or_panic "hook failed" m.

(** [os_PID]: the environment variable that wshd sets. *)
Definition RegisterHooks (hs : HookSet) (config : ProcEnv) (os_PID : string) (configurer : NetworkConfigurer World) : result HookSet :=
  res_bind (HookSet_Register hs PARENT_BEFORE_CLONE (must (call_ env (Run (Command "./hook-parent-before-clone.sh" []))))) (fun hs =>
  HookSet_Register hs PARENT_AFTER_CLONE
    (do! must (call_ env (Run (Command "./hook-parent-after-clone.sh" []))) in
     must (configureHostNetwork configurer config os_PID))).

(** ** hook/main.go *)

(** [defer d]: [d] runs however [m] ends, and its error is dropped. *)
Definition deferred {A} (d : M World unit) (m : M World A) : M World A := fun w =>
  match m w with (r, w1) => match ignore d w1 with (Panic p, w2) => (Panic p, w2) | (_, w2) => (r, w2) end end.

(** What the logging package adds to the flags. *)
Context (lager_flags : list (string * FlagKind)).

(** The part of [main] that runs in the directory of the program. *)
Definition hook_body (args : list string) (os_PID : string) : M World Z :=
  let! r := attempt (EnvFromFile env "../etc/config") in
  match r with
  | inr _ => panic "error reading config file in hook: %s"
  | inl config =>
      let! hs := lift (RegisterHooks ∅ config os_PID (world_net env)) in
      do! hook_Main hs args in
      ret 0
  end.

(** The program [arg0] with [args]; the result is its exit status. *)
Definition hook_main (arg0 : string) (args : list string) (os_PID : string) : M World Z :=
  match Parse lager_flags args with
  | Ok _ =>
      let! wd := attempt (call env (Sys "os.Getwd" [])) in
      match wd with
      | inr _ => panic "os.Getwd"
      | inl oldWd =>
          do! ignore (call_ env (Sys "os.Chdir" [path_dir arg0])) in
          deferred (call_ env (Sys "os.Chdir" [oldWd])) (hook_body args os_PID)
      end
  | _ => ret 2
  end.
End Hooks.

(** ** What a phase does *)

(** The configuration of the host's side that a hook reads, if it can. *)
Definition host_config_of (config : ProcEnv) (os_PID : string) : option HostConfig :=
  match ParseCIDR (cfg_get config "network_cidr"), ParseInt (cfg_get config "container_iface_mtu"), Sscanf_int os_PID with
  | Ok (_, ipNet), Ok mtu, Some pid =>
      Some (mkHostConfig (cfg_get config "network_host_iface") (cfg_get config "bridge_iface") (ParseIP (cfg_get config "network_host_ip"))
        (cfg_get config "network_container_iface") pid ipNet mtu)
  | _, _, _ => None
  end.

(** The calls of the hook of a phase; none for a phase without one, which includes
    a configuration that cannot be read. *)
Definition hook_calls (config : ProcEnv) (os_PID : string) (phase : Phase) : option (list Call) :=
  if decide (phase = PARENT_BEFORE_CLONE) then Some [Run (Command "./hook-parent-before-clone.sh" [])]
  else if decide (phase = PARENT_AFTER_CLONE) then
    (fun c => Run (Command "./hook-parent-after-clone.sh" []) :: host_calls c) <$> host_config_of config os_PID
  else None.

(** A hook makes its calls in order and ends, or panics after some of them. *)
Definition hook_runs (m : M World unit) (l : option (list Call)) : Prop := forall w r w', m w = (r, w') ->
  match r with
  | Ok _ => exists l', l = Some l' /\ w' = w ++ l'
  | Err _ => False
  | Panic _ => exists l1, w' = w ++ l1
  end.

Lemma hook_runs_must m l : runs m l -> hook_runs (must m) (Some l).
Proof.
  intros Hm w r w' H%(musts_or_panic _ _ _ Hm). destruct r as [a|e|p]; [eauto|done|]. destruct H as (l1 & _ & ->). eauto.
Qed.

Lemma hook_runs_bind m1 m2 l1 l2 :
  hook_runs m1 (Some l1) -> hook_runs m2 l2 -> hook_runs (bind m1 (fun _ => m2)) (app l1 <$> l2).
Proof.
  intros H1 H2 w r w'. rewrite bind_eq. destruct (m1 w) as [[a|e|p] w1] eqn:E; apply H1 in E; [|done|by intros [= <- <-]].
  destruct E as (l' & [= <-] & ->). intros H%H2. destruct r as [b|e|p]; [|done|].
  - destruct H as (l' & -> & ->). exists (l1 ++ l'). by rewrite (assoc_L (++)).
  - destruct H as (l' & ->). exists (l1 ++ l'). by rewrite (assoc_L (++)).
Qed.

Lemma hook_runs_host env config pid :
  hook_runs (must (configureHostNetwork (world_net env) config pid)) (host_calls <$> host_config_of config pid).
Proof.
  intros w r w'. unfold must, or_panic, configureHostNetwork, host_config_of. rewrite bind_eq. unfold lift.
  destruct (ParseCIDR _) as [[ip n]|e|p]; [|intros [= <- <-]; exists []; by rewrite app_nil_r..].
  rewrite bind_eq. destruct (ParseInt _) as [mtu|e|p]; [|intros [= <- <-]; exists []; by rewrite app_nil_r..].
  destruct (Sscanf_int pid) as [n'|]; [|intros [= <- <-]; exists []; by rewrite app_nil_r].
  apply (hook_runs_must _ _ (runs_ConfigureHost env _)).
Qed.

(** The set that the program registers has the hooks of the two phases. *)
Lemma registered_hooks env config pid : exists hs, RegisterHooks env ∅ config pid (world_net env) = Ok hs /\
  forall phase, hook_runs (HookSet_Main hs phase) (hook_calls config pid phase).
Proof.
  unfold RegisterHooks, HookSet_Register. rewrite lookup_empty. cbn [res_bind]. rewrite lookup_insert_ne, lookup_empty by done.
  eexists. split; [done|]. intros phase. unfold HookSet_Main, hook_calls. repeat case_decide; subst; simplify_map_eq.
  - apply hook_runs_must, runs_call_.
  - pose proof (hook_runs_bind _ _ _ _ (hook_runs_must _ _ (runs_call_ env (Run (Command "./hook-parent-after-clone.sh" []))))
      (hook_runs_host env config pid)) as Hb. by destruct (host_config_of config pid).
  - intros w r w' [= <- <-]. exists []. by rewrite app_nil_r.
Qed.

Lemma hook_body_runs env phase rest pid w r w' : hook_body env (phase :: rest) pid w = (r, w') ->
  exists l, w' = w ++ ReadFile "../etc/config" :: l /\
    match r with
    | Ok code => code = 0 /\ exists config, hook_calls config pid phase = Some l /\ fst (EnvFromFile env "../etc/config" w) = Ok config
    | Err _ => False
    | Panic _ => True
    end.
Proof.
  unfold hook_body. rewrite bind_eq, attempt_eq. unfold EnvFromFile. rewrite bind_eq, map_err_eq, call_eq.
  destruct (env w (ReadFile "../etc/config")) as [text|e]; [|intros [= <- <-]; by exists []]. unfold lift.
  destruct (NewEnv _) as [config|e|p] eqn:Hc; [|intros [= <- <-]; by exists []..]. rewrite bind_eq.
  destruct (registered_hooks env config pid) as (hs & -> & Hhs). rewrite bind_eq. cbn [hook_Main].
  destruct (HookSet_Main hs phase _) as [[[]|e|p] w1] eqn:Hm; apply Hhs in Hm; [|done|].
  - destruct Hm as (l & Hl & ->). intros [= <- <-]. exists l. rewrite <- (assoc_L (++)). split; [done|]. split; [done|]. by exists config.
  - destruct Hm as (l & ->). intros [= <- <-]. exists l. by rewrite <- (assoc_L (++)).
Qed.

(** The hook program, as wshd runs it with the name of a phase. It ends without a
    failure only when the phase has a hook, its configuration could be read, and
    every call of the hook was made, in order: for the phase after the clone that is
    the script and then the whole set-up of the host's side of the network. Nothing
    runs for any other phase, [CHILD_AFTER_PIVOT] included. Every failure is a panic,
    and however the hook ends, the working directory is set back. *)
Theorem hook_program env flags arg0 phase pid w old r w' :
  read_flag phase = NoFlag -> env w (Sys "os.Getwd" []) = inl old -> hook_main env flags arg0 [phase] pid w = (r, w') ->
  exists l, w' = w ++ [Sys "os.Getwd" []; Sys "os.Chdir" [path_dir arg0]; ReadFile "../etc/config"] ++ l ++ [Sys "os.Chdir" [old]] /\
    match r with
    | Ok code => code = 0 /\ exists config, hook_calls config pid phase = Some l /\
        fst (EnvFromFile env "../etc/config" (w ++ [Sys "os.Getwd" []; Sys "os.Chdir" [path_dir arg0]])) = Ok config
    | Err _ => False
    | Panic _ => True
    end.
Proof.
  intros Hflag Hwd. unfold hook_main. cbn [Parse]. rewrite Hflag. rewrite bind_eq, attempt_eq, call_eq, Hwd.
  rewrite bind_eq, ignore_eq, call__eq. rewrite <- (assoc_L (++)).
  assert (Hrest : deferred (call_ env (Sys "os.Chdir" [old])) (hook_body env [phase] pid)
    (w ++ [Sys "os.Getwd" []; Sys "os.Chdir" [path_dir arg0]]) = (r, w') -> exists l,
    w' = w ++ [Sys "os.Getwd" []; Sys "os.Chdir" [path_dir arg0]; ReadFile "../etc/config"] ++ l ++ [Sys "os.Chdir" [old]] /\
    match r with
    | Ok code => code = 0 /\ exists config, hook_calls config pid phase = Some l /\
        fst (EnvFromFile env "../etc/config" (w ++ [Sys "os.Getwd" []; Sys "os.Chdir" [path_dir arg0]])) = Ok config
    | Err _ => False
    | Panic _ => True
    end).
  { unfold deferred. destruct (hook_body _ _ _ _) as [r1 w1] eqn:Hb. apply hook_body_runs in Hb as (l & -> & Hr).
    rewrite ignore_eq, call__eq. intros Hd. exists l. rewrite <- !(assoc_L (++)) in Hd.
    destruct (env _ (Sys "os.Chdir" [old])); by injection Hd as <- <-. }
  by destruct (env _ (Sys "os.Chdir" [path_dir arg0])).
Qed.

(** An example: the configuration of a container that the pool has set up. *)
Definition sample_etc_config : string :=
  join (String newline "") ["id=c1"; "network_cidr=10.254.0.0/30"; "network_host_ip=10.254.0.1"; "network_container_ip=10.254.0.2";
    "network_host_iface=w1c1-0"; "network_container_iface=w1c1-1"; "bridge_iface=w1b-0"; "container_iface_mtu=1500"; "root_uid=0"].

Definition env_hook : Env := fun _ c =>
  match c with ReadFile _ => inl sample_etc_config | Sys "os.Getwd" _ => inl "/" | _ => inl "" end.

Example hook_program_example :
  match hook_main env_hook [] "/depot/c1/lib/hook" [PARENT_AFTER_CLONE] "42" [] with
  | (r, w) => r = Ok 0 /\ length w = 12%nat /\ w !! 1%nat = Some (Sys "os.Chdir" ["/depot/c1/lib"]) /\ last w = Some (Sys "os.Chdir" ["/"])
  end.
Proof. vm_compute. done. Qed.

(** A flag before the phase is accepted by [flag.Parse] and then taken for the phase. *)
Lemma hook_flag_taken_for_phase env flags arg0 flag rest pid w r w' :
  flag <> PARENT_BEFORE_CLONE -> flag <> PARENT_AFTER_CLONE -> is_ok (Parse flags (flag :: rest)) = true ->
  hook_main env flags arg0 (flag :: rest) pid w = (r, w') -> exists m, r = Panic m.
Proof.
  intros H1 H2 Hp. unfold hook_main. destruct (Parse flags (flag :: rest)) as [x| |]; [|done|done].
  rewrite bind_eq, attempt_eq, call_eq. destruct (env w _) as [old|e]; [|intros [= <- <-]; eauto].
  rewrite bind_eq, ignore_eq, call__eq. intros H.
  assert (Hd : exists w1, deferred (call_ env (Sys "os.Chdir" [old])) (hook_body env (flag :: rest) pid) w1 = (r, w'))
    by (destruct (env _ (Sys "os.Chdir" [path_dir arg0])); eauto).
  clear H. destruct Hd as [w1 Hd]. revert Hd. unfold deferred. destruct (hook_body _ _ _ _) as [r1 w2] eqn:Hb.
  apply hook_body_runs in Hb as (l & -> & Hr). rewrite ignore_eq, call__eq.
  destruct r1 as [c|e|m]; [|done|destruct (env _ _); intros [= <- _]; eauto].
  destruct Hr as (_ & config & Hl & _). unfold hook_calls in Hl. by rewrite !decide_False in Hl by done.
Qed.
