(* ===== verification/NetworkPath.v ===== *)
(** * The network of a container, from the host to the container

    The configurer of src/network/configure.go on the devices of
    src/network/devices, as src/network/configure_linux.go puts them together, for
    the two processes that use it: the hook on the host and initc in the namespaces
    of the container. Each process sees the interfaces of its own network
    namespace; netlink is a record of calls on the state of the kernel, with the
    effect that each call has when it succeeds. *)
From S2P Require Import Prelude GoStrings GoNet World ProcessEnv Devices ProcessTracker NetworkConfig Hooks.

(** ** What the kernel keeps

    An interface belongs to a namespace, which is named by a process in it. *)
Record Dev := mkDev {
  dev_up : bool;
  dev_mtu : Z;
  dev_master : option string;
  dev_peer : option string;
  dev_addrs : list (IP * IPNet)
}.

Record Net := mkNet {
  net_devs : gmap (Z * string) Dev;
  net_gw : gmap Z (string * string);
  net_hostname : gmap Z string
}.

Definition has (n : Z) (name : string) (k : Net) : Prop := is_Some (net_devs k !! (n, name)).

Definition on_dev (n : Z) (name : string) (f : Dev -> Dev) (k : Net) : Net :=
  mkNet (alter f (n, name) (net_devs k)) (net_gw k) (net_hostname k).

Definition up_dev (d : Dev) : Dev := mkDev true (dev_mtu d) (dev_master d) (dev_peer d) (dev_addrs d).
Definition mtu_dev (mtu : Z) (d : Dev) : Dev := mkDev (dev_up d) mtu (dev_master d) (dev_peer d) (dev_addrs d).
Definition master_dev (b : string) (d : Dev) : Dev := mkDev (dev_up d) (dev_mtu d) (Some b) (dev_peer d) (dev_addrs d).
Definition addr_dev (a : IP * IPNet) (d : Dev) : Dev := mkDev (dev_up d) (dev_mtu d) (dev_master d) (dev_peer d) (dev_addrs d ++ [a]).
(** An interface that changes its namespace is taken down and loses its addresses. *)
Definition moved_dev (d : Dev) : Dev := mkDev false (dev_mtu d) None (dev_peer d) [].

Definition new_veth (peer : string) : Dev := mkDev false 1500 None (Some peer) [].
Definition add_pair (n : Z) (h c : string) (k : Net) : Net :=
  mkNet (<[(n, h) := new_veth c]> (<[(n, c) := new_veth h]> (net_devs k))) (net_gw k) (net_hostname k).
Definition move (n pid : Z) (name : string) (k : Net) : Net :=
  mkNet (match net_devs k !! (n, name) with
         | Some d => <[(pid, name) := moved_dev d]> (delete (n, name) (net_devs k))
         | None => net_devs k
         end) (net_gw k) (net_hostname k).
Definition set_gw (n : Z) (ip name : string) (k : Net) : Net := mkNet (net_devs k) (<[n := (ip, name)]> (net_gw k)) (net_hostname k).
Definition name_host (n : Z) (h : string) (k : Net) : Net := mkNet (net_devs k) (net_gw k) (<[n := h]> (net_hostname k)).

Section Effects.
Context {St : Type} (view : St -> Net).

(** A call that can fail, and changes nothing then; when it succeeds, [pre] held
    and the kernel has changed as [f] says. *)
Definition effect {A} (m : M St A) (pre : Net -> Prop) (f : Net -> Net) : Prop := forall s r s', m s = (r, s') ->
  match r with
  | Ok _ => pre (view s) /\ view s' = f (view s)
  | Err _ => view s' = view s
  | Panic _ => False
  end.

(** netlink and sethostname in the namespace [n]. *)
Class NetlinkSem (n : Z) (nl : Netlink St) (sethostname : string -> M St unit) := {
  sem_up name : effect (NetworkLinkUp nl name) (has n name) (on_dev n name up_dev);
  sem_mtu name mtu : effect (NetworkSetMTU nl name mtu) (has n name) (on_dev n name (mtu_dev mtu));
  sem_ip name ip subnet : effect (NetworkLinkAddIp nl name ip subnet) (has n name) (on_dev n name (addr_dev (ip, subnet)));
  sem_gw ip name : effect (AddDefaultGw nl ip name) (has n name) (set_gw n ip name);
  sem_bridge slave bridge : effect (AddToBridge nl slave bridge) (fun k => has n slave k /\ has n bridge k) (on_dev n slave (master_dev bridge));
  sem_ns name pid : effect (NetworkSetNsPid nl name pid) (fun k => has n name k /\ ~ has pid name k) (move n pid name);
  sem_veth h c queue : effect (NetworkCreateVethPair nl h c queue) (fun k => h <> c /\ ~ has n h k /\ ~ has n c k) (add_pair n h c);
  sem_hostname h : effect (sethostname h) (fun _ => True) (name_host n h);
  sem_by_name name s r s' : net_InterfaceByName nl name s = (r, s') -> view s' = view s /\
    match r with Ok i => i = name /\ has n name (view s) | Err _ => True | Panic _ => False end;
  sem_interfaces s r s' : net_Interfaces nl s = (r, s') -> view s' = view s /\
    match r with Ok l => forall i, i ∈ l <-> has n i (view s) | Err _ => True | Panic _ => False end
}.

(** configure_linux.go: the devices behind the interfaces. *)
Definition NewConfigurer (nl : Netlink St) (SetHostname : string -> M St unit) : NetworkConfigurer St := {|
  nc_SetHostname := SetHostname;
  nc_Veth_Create := Veth_Create nl;
  nc_AddIP := Link_AddIP nl;
  nc_AddDefaultGW := Link_AddDefaultGW nl;
  nc_SetUp := Link_SetUp nl;
  nc_SetMTU := Link_SetMTU nl;
  nc_SetNs := Link_SetNs nl;
  nc_InterfaceByName := Link_InterfaceByName nl;
  nc_Bridge_Create := Bridge_Create nl;
  nc_Bridge_Add := Bridge_Add nl
|}.

Lemma effect_map_err {A} g (m : M St A) pre f : effect m pre f -> effect (map_err g m) pre f.
Proof. intros Hm s r s'. rewrite map_err_eq. destruct (m s) as [[a|e|p] s1] eqn:E; apply Hm in E; by intros [= <- <-]. Qed.

Lemma effect_Ok {A B} (m : M St A) pre f (k : A -> M St B) s b s'' : effect m pre f -> bind m k s = (Ok b, s'') ->
  exists a s', pre (view s) /\ view s' = f (view s) /\ k a s' = (Ok b, s'').
Proof. intros Hm (a & s' & H & Hk)%bind_Ok. apply Hm in H as [? ?]. eauto 6. Qed.

Section Namespace.
Context (n : Z) (nl : Netlink St) (SetHostname : string -> M St unit) `{!NetlinkSem n nl SetHostname}.
Notation nc := (NewConfigurer nl SetHostname).

Lemma find_link name e s i s' : find_intf nc name e s = (Ok i, s') -> i = name /\ view s' = view s /\ has n name (view s).
Proof.
  unfold find_intf. rewrite bind_eq, attempt_eq. cbn [NewConfigurer nc_InterfaceByName]. unfold Link_InterfaceByName, errF.
  rewrite bind_eq, map_err_eq. destruct (net_Interfaces nl s) as [[l|e'|p] s1] eqn:E; apply sem_interfaces in E as [Hv E]; [|done|done].
  cbn. destruct (filter (fun j => j = name) l) as [|j l'] eqn:Hf; cbn; [done|]. intros [= <- <-].
  assert (Hj : j ∈ filter (fun j => j = name) l) by (rewrite Hf; left). apply list_elem_of_filter in Hj as [-> Hj].
  split_and!; [done|done|by apply E].
Qed.

Lemma veth_pair h c s p s' : configureVethPair nc h c s = (Ok p, s') ->
  p = (h, c) /\ (h <> c /\ ~ has n h (view s) /\ ~ has n c (view s)) /\ view s' = add_pair n h c (view s).
Proof.
  unfold configureVethPair. rewrite map_err_eq. cbn [NewConfigurer nc_Veth_Create].
  destruct (Veth_Create nl h c s) as [[[a b]|e|q] s1] eqn:E; [|done|done]. intros [= <- <-]. revert E. unfold Veth_Create.
  intros (? & s2 & Hp & Hv & H)%(effect_Ok _ _ _ _ _ _ _ (effect_map_err _ _ _ _ (sem_veth h c 1))).
  apply bind_Ok in H as (i & s3 & Hi & H). apply bind_Ok in H as (j & s4 & Hj & [= <- <- <-]).
  rewrite map_err_eq in Hi, Hj. destruct (net_InterfaceByName nl h s2) as [ri s2'] eqn:Ei. apply sem_by_name in Ei as [Hv2 Ei].
  destruct ri; [|done|done]. simplify_eq. destruct Ei as [-> _].
  destruct (net_InterfaceByName nl c s3) as [rj s3'] eqn:Ej. apply sem_by_name in Ej as [Hv3 Ej].
  destruct rj; [|done|done]. simplify_eq. destruct Ej as [-> _]. destruct Hp as (? & ? & ?). split_and!; congruence.
Qed.

(** The kernel after the host's side was configured. *)
Definition host_net (c : HostConfig) (k : Net) : Net :=
  let h := hc_HostIntf c in
  move n (hc_ContainerPid c) (hc_ContainerIntf c) (on_dev n h up_dev (on_dev n h (master_dev (hc_BridgeName c))
    (on_dev n h (mtu_dev (hc_Mtu c)) (add_pair n h (hc_ContainerIntf c) (on_dev n (hc_BridgeName c) up_dev k))))).

Lemma host_configured c s s' : ConfigureHost nc c s = (Ok tt, s') ->
  view s' = host_net c (view s) /\ has n (hc_BridgeName c) (view s) /\ hc_HostIntf c <> hc_ContainerIntf c /\
  ~ has n (hc_HostIntf c) (view s) /\ ~ has n (hc_ContainerIntf c) (view s) /\
  ~ has (hc_ContainerPid c) (hc_ContainerIntf c) (on_dev n (hc_HostIntf c) up_dev (on_dev n (hc_HostIntf c) (master_dev (hc_BridgeName c))
    (on_dev n (hc_HostIntf c) (mtu_dev (hc_Mtu c)) (add_pair n (hc_HostIntf c) (hc_ContainerIntf c) (on_dev n (hc_BridgeName c) up_dev (view s)))))).
Proof.
  intros (b & s2 & Hb & H)%bind_Ok. apply bind_Ok in Hb as (b' & s1 & (-> & Hv1 & Hhas)%find_link & Hb).
  apply (effect_Ok _ _ _ _ _ _ _ (effect_map_err _ _ _ _ (effect_map_err _ _ _ _ (sem_up _)))) in Hb as ([] & s2' & _ & Hv2 & [= <- <-]).
  apply bind_Ok in H as ([h cont] & s3 & (Hp & Hno & Hv3)%veth_pair & H). injection Hp as -> ->.
  apply bind_Ok in H as ([] & s4 & Hi & H). revert Hi. unfold configureHostIntf.
  intros ([] & s5 & _ & Hv5 & Hi)%(effect_Ok _ _ _ _ _ _ _ (effect_map_err _ _ _ _ (effect_map_err _ _ _ _ (sem_mtu _ _)))).
  apply (effect_Ok _ _ _ _ _ _ _ (effect_map_err _ _ _ _ (sem_bridge _ _))) in Hi as ([] & s6 & _ & Hv6 & Hi).
  apply (effect_map_err _ _ _ _ (effect_map_err _ _ _ _ (sem_up _))) in Hi as [_ Hv7].
  apply (effect_map_err _ _ _ _ (effect_map_err _ _ _ _ (sem_ns _ _))) in H as [[_ Hfree] Hv8].
  rewrite Hv7, Hv6, Hv5, Hv3, Hv2, Hv1 in Hfree, Hv8. rewrite Hv2, Hv1 in Hno. unfold has in Hno. cbn [on_dev net_devs] in Hno.
  split; [exact Hv8|]. split; [done|]. destruct Hno as (? & Hh & Hc). rewrite !lookup_alter_is_Some in Hh, Hc. done.
Qed.

(** The kernel after the container's side was configured. *)
Definition loopback : IP * IPNet := (v4InV6Prefix ++ [127; 0; 0; 1], mkIPNet [127; 0; 0; 0] [255; 0; 0; 0]).

Definition container_net (c : ContainerConfig) (k : Net) : Net :=
  let i := cc_ContainerIntf c in
  name_host n (cc_Hostname c) (on_dev n i (mtu_dev (cc_Mtu c)) (set_gw n (IP_String (cc_GatewayIP c)) i
    (on_dev n i up_dev (on_dev n i (addr_dev (cc_ContainerIP c, cc_Subnet c)) (on_dev n "lo" up_dev (on_dev n "lo" (addr_dev loopback) k)))))).

Lemma container_configured c s s' : ConfigureContainer nc c s = (Ok tt, s') -> view s' = container_net c (view s) /\ has n "lo" (view s).
Proof.
  unfold ConfigureContainer. intros ([] & s2 & Hl & H)%bind_Ok. revert Hl. unfold configureLoopbackIntf.
  change (ParseCIDR "127.0.0.1/8") with (Ok loopback). unfold loopback at 1.
  intros (i & s1 & (-> & Hv1 & Hlo)%find_link & Hl)%bind_Ok.
  apply (effect_Ok _ _ _ _ _ _ _ (effect_map_err _ _ _ _ (effect_map_err _ _ _ _ (sem_ip _ _ _)))) in Hl as ([] & s3 & _ & Hv3 & Hl).
  apply (effect_map_err _ _ _ _ (effect_map_err _ _ _ _ (sem_up _))) in Hl as [_ Hv2].
  apply bind_Ok in H as ([] & s4 & Hc & H). apply sem_hostname in H as [_ Hv'].
  revert Hc. unfold configureContainerIntf. intros (i & s5 & (-> & Hv5 & _)%find_link & Hc)%bind_Ok.
  apply (effect_Ok _ _ _ _ _ _ _ (effect_map_err _ _ _ _ (effect_map_err _ _ _ _ (sem_ip _ _ _)))) in Hc as ([] & s6 & _ & Hv6 & Hc).
  apply (effect_Ok _ _ _ _ _ _ _ (effect_map_err _ _ _ _ (effect_map_err _ _ _ _ (sem_up _)))) in Hc as ([] & s7 & _ & Hv7 & Hc).
  apply (effect_Ok _ _ _ _ _ _ _ (effect_map_err _ _ _ _ (effect_map_err _ _ _ _ (sem_gw _ _)))) in Hc as ([] & s8 & _ & Hv8 & Hc).
  apply (effect_map_err _ _ _ _ (effect_map_err _ _ _ _ (sem_mtu _ _))) in Hc as [_ Hv9].
  split; [|done]. by rewrite Hv', Hv9, Hv8, Hv7, Hv6, Hv5, Hv2, Hv3, Hv1.
Qed.
End Namespace.
End Effects.

Lemma on_dev_eq n name f k : net_devs (on_dev n name f k) !! (n, name) = f <$> net_devs k !! (n, name).
Proof. apply lookup_alter_eq. Qed.

Lemma on_dev_ne n name f k key : (n, name) <> key -> net_devs (on_dev n name f k) !! key = net_devs k !! key.
Proof. apply lookup_alter_ne. Qed.

Lemma on_dev_has n name f k m i : has m i (on_dev n name f k) <-> has m i k.
Proof. unfold has, on_dev. cbn. apply lookup_alter_is_Some. Qed.

#[export] Hint Rewrite on_dev_eq on_dev_ne using (done || congruence) : network.

(** The interfaces after [host_net], under what its success implies. *)
Lemma host_net_lookups n c k : let pid := hc_ContainerPid c in let h := hc_HostIntf c in let ci := hc_ContainerIntf c in let b := hc_BridgeName c in
  has n b k -> h <> ci -> ~ has n h k -> ~ has n ci k -> ~ has pid ci (add_pair n h ci k) ->
  pid <> n /\ net_devs (host_net n c k) !! (n, h) = Some (mkDev true (hc_Mtu c) (Some b) (Some ci) []) /\
  net_devs (host_net n c k) !! (n, b) = up_dev <$> net_devs k !! (n, b) /\
  net_devs (host_net n c k) !! (pid, ci) = Some (mkDev false 1500 None (Some h) []) /\
  net_devs (host_net n c k) !! (n, ci) = None /\
  forall key, key <> (n, h) -> key <> (n, b) -> key <> (pid, ci) -> key <> (n, ci) -> net_devs (host_net n c k) !! key = net_devs k !! key.
Proof.
  intros pid h ci b Hb Hne Hh Hci Hfree. assert (Hpid : pid <> n).
  { intros E. apply Hfree. rewrite E. unfold has, add_pair. cbn. rewrite lookup_insert_ne by congruence. rewrite lookup_insert_eq. done. }
  assert (Hbh : b <> h) by (by intros E; apply Hh; rewrite <- E). assert (Hbc : b <> ci) by (by intros E; apply Hci; rewrite <- E).
  unfold host_net. fold pid h ci b.
  set (k1 := on_dev n h up_dev _). assert (Hk1 : forall key, key <> (n, h) -> key <> (n, ci) -> key <> (n, b) -> net_devs k1 !! key = net_devs k !! key).
  { intros key H1 H2 H3. unfold k1. rewrite !on_dev_ne by congruence. unfold add_pair. cbn. rewrite !lookup_insert_ne by congruence.
    apply lookup_alter_ne. congruence. }
  assert (Hc1 : net_devs k1 !! (n, ci) = Some (new_veth h)).
  { unfold k1. rewrite !on_dev_ne by congruence. cbn. rewrite lookup_insert_ne by congruence. apply lookup_insert_eq. }
  assert (Hh1 : net_devs k1 !! (n, h) = Some (mkDev true (hc_Mtu c) (Some b) (Some ci) [])).
  { unfold k1. rewrite !on_dev_eq. cbn. by rewrite lookup_insert_eq. }
  assert (Hb1 : net_devs k1 !! (n, b) = up_dev <$> net_devs k !! (n, b)).
  { unfold k1. rewrite !on_dev_ne by congruence. cbn. rewrite !lookup_insert_ne by congruence. apply lookup_alter_eq. }
  unfold move. rewrite Hc1. cbn [net_devs]. clearbody k1. split_and!; [done|..|intros key H1 H2 H3 H4].
  - by rewrite lookup_insert_ne, lookup_delete_ne by congruence.
  - by rewrite lookup_insert_ne, lookup_delete_ne by congruence.
  - by rewrite lookup_insert_eq.
  - rewrite lookup_insert_ne by congruence. apply lookup_delete_eq.
  - rewrite lookup_insert_ne, lookup_delete_ne by congruence. by apply Hk1.
Qed.

(** C33: the network of a container, set up by two programs that may fail at every
    call. When the hook on the host and then initc in the container's namespace have
    succeeded, the host's end of a new pair is up, has the MTU, and is in the bridge,
    which is up and otherwise as it was; the other end is in the container's
    namespace, and no longer on the host, is up, has the MTU and the container's
    address, and its default route goes to the host's address; the loopback device
    of the container is up with its address and the container has its name; no other
    interface was touched, on the host or in any container. *)
Theorem container_network_connected {St} (view : St -> Net) n pid nlh nlc seth setc config os_PID s s1 s2 :
  NetlinkSem view n nlh seth -> NetlinkSem view pid nlc setc ->
  Sscanf_int os_PID = Some pid -> cfg_get config "network_container_iface" <> "lo" ->
  configureHostNetwork (NewConfigurer nlh seth) config os_PID s = (Ok tt, s1) ->
  setupNetwork (NewConfigurer nlc setc) config s1 = (Ok tt, s2) ->
  let host := cfg_get config "network_host_iface" in
  let cont := cfg_get config "network_container_iface" in
  let bridge := cfg_get config "bridge_iface" in
  exists ip subnet mtu b lo,
    ParseCIDR (cfg_get config "network_cidr") = Ok (ip, subnet) /\ ParseInt (cfg_get config "container_iface_mtu") = Ok mtu /\
    net_devs (view s) !! (n, bridge) = Some b /\ net_devs (view s) !! (pid, "lo") = Some lo /\
    net_devs (view s2) !! (n, host) = Some (mkDev true mtu (Some bridge) (Some cont) []) /\
    net_devs (view s2) !! (n, bridge) = Some (up_dev b) /\
    net_devs (view s2) !! (n, cont) = None /\
    net_devs (view s2) !! (pid, cont) = Some (mkDev true mtu None (Some host) [(ParseIP (cfg_get config "network_container_ip"), subnet)]) /\
    net_devs (view s2) !! (pid, "lo") = Some (up_dev (addr_dev loopback lo)) /\
    net_gw (view s2) !! pid = Some (IP_String (ParseIP (cfg_get config "network_host_ip")), cont) /\
    net_hostname (view s2) !! pid = Some (cfg_get config "id") /\
    forall key, key ∉ [(n, host); (n, bridge); (n, cont); (pid, cont); (pid, "lo")] -> net_devs (view s2) !! key = net_devs (view s) !! key.
Proof.
  intros Hsh Hsc HPID Hlo Hhost Hcont host cont bridge. fold cont in Hlo. revert Hhost Hcont. unfold configureHostNetwork, setupNetwork.
  rewrite !bind_eq, map_err_eq. unfold lift. destruct (ParseCIDR _) as [[ip subnet]|e|p]; [|done|done].
  rewrite !bind_eq, map_err_eq. destruct (ParseInt _) as [mtu|e|p]; [|done|done]. rewrite HPID, map_err_eq.
  intros (Hv1 & Hb & Hne & Hh & Hc & Hfree)%(@host_configured _ view n _ _ Hsh). cbn in Hb, Hne, Hh, Hc, Hfree. fold host cont bridge in Hb, Hne, Hh, Hc, Hfree.
  set (hc := mkHostConfig _ _ _ _ _ _ _) in *. set (cc := container_config _ _ _).
  destruct (ConfigureContainer _ cc s1) as [[[]|e|p] s1'] eqn:E; [|done|done]. intros [= ->].
  apply (@container_configured _ view pid _ _ Hsc) in E as [Hv2 Hlo1].
  destruct (host_net_lookups n hc (view s) Hb Hne Hh Hc) as (Hpid & Lh & Lb & Lc & Lnc & Lo).
  { rewrite !on_dev_has in Hfree. intros Hx. apply Hfree. revert Hx. unfold has, add_pair. cbn.
    rewrite !lookup_insert_is_Some, lookup_alter_is_Some. done. }
  rewrite <- Hv1 in Lh, Lb, Lc, Lnc, Lo. subst hc. cbn in Lh, Lb, Lc, Lnc, Lo, Hpid. fold host cont bridge in Lh, Lb, Lc, Lnc, Lo.
  assert (Hl : net_devs (view s1) !! (pid, "lo") = net_devs (view s) !! (pid, "lo")) by (apply Lo; cbn; congruence).
  destruct Hlo1 as [lo Hlo1]. destruct Hb as [b Hb]. rewrite Hb in Lb. rewrite Hl in Hlo1.
  assert (Hother : forall key, key <> (pid, cont) -> key <> (pid, "lo") -> net_devs (view s2) !! key = net_devs (view s1) !! key).
  { intros key H1 H2. rewrite Hv2. unfold container_net, name_host, set_gw. cbn [net_devs cc_ContainerIntf container_config cc].
    fold cont. rewrite !on_dev_ne by congruence. cbn [net_devs]. by rewrite !on_dev_ne by congruence. }
  exists ip, subnet, mtu, b, lo. split_and!; try done.
  - rewrite Hother by congruence. exact Lh.
  - rewrite Hother by congruence. exact Lb.
  - rewrite Hother by congruence. exact Lnc.
  - rewrite Hv2. unfold container_net, name_host, set_gw. cbn [net_devs cc_ContainerIntf container_config cc]. fold cont.
    rewrite on_dev_eq. cbn [net_devs]. rewrite !on_dev_eq, !on_dev_ne, Lc by congruence. done.
  - rewrite Hv2. unfold container_net, name_host, set_gw. cbn [net_devs cc_ContainerIntf container_config cc]. fold cont.
    rewrite on_dev_ne by congruence. cbn [net_devs]. rewrite !on_dev_ne, !on_dev_eq, Hl, Hlo1 by congruence. done.
  - rewrite Hv2. cbn. apply lookup_insert_eq.
  - rewrite Hv2. cbn. apply lookup_insert_eq.
  - intros key Hk. rewrite !not_elem_of_cons in Hk. destruct Hk as (H1 & H2 & H3 & H4 & H5 & _). rewrite Hother by done. by apply Lo.
Qed.

(** ** A kernel *)

#[export] Instance has_dec n name k : Decision (has n name k).
Proof. unfold has. apply _. Defined.

(** A call that succeeds whenever it can. *)
Definition guarded (pre : Net -> Prop) `{forall k, Decision (pre k)} (f : Net -> Net) : M Net unit := fun k =>
  if decide (pre k) then (Ok tt, f k) else (Err (Errorf "netlink"), k).

Definition kernel_names (n : Z) (k : Net) : list string := (filter (fun key => key.1 = n) (map_to_list (net_devs k)).*1).*2.

Definition kernel_netlink (n : Z) : Netlink Net := {|
  NetworkLinkAdd name _ := guarded (fun k => ~ has n name k) (fun k => mkNet (<[(n, name) := mkDev false 1500 None None []]> (net_devs k)) (net_gw k) (net_hostname k));
  NetworkLinkAddIp name ip subnet := guarded (has n name) (on_dev n name (addr_dev (ip, subnet)));
  NetworkLinkUp name := guarded (has n name) (on_dev n name up_dev);
  NetworkSetMTU name mtu := guarded (has n name) (on_dev n name (mtu_dev mtu));
  NetworkSetNsPid name pid := guarded (fun k => has n name k /\ ~ has pid name k) (move n pid name);
  AddDefaultGw ip name := guarded (has n name) (set_gw n ip name);
  AddToBridge slave bridge := guarded (fun k => has n slave k /\ has n bridge k) (on_dev n slave (master_dev bridge));
  DeleteBridge name := guarded (has n name) (fun k => mkNet (delete (n, name) (net_devs k)) (net_gw k) (net_hostname k));
  NetworkCreateVethPair h c _ := guarded (fun k => h <> c /\ ~ has n h k /\ ~ has n c k) (add_pair n h c);
  net_InterfaceByName name := fun k => (if decide (has n name k) then Ok name else Err (Errorf "no such network interface"), k);
  net_Interfaces := fun k => (Ok (kernel_names n k), k)
|}.

Lemma guarded_effect pre `{forall k, Decision (pre k)} f : effect id (guarded pre f) pre f.
Proof. intros s r s'. unfold guarded. case_decide; by intros [= <- <-]. Qed.

#[export] Instance kernel_sem n : NetlinkSem id n (kernel_netlink n) (fun h => guarded (fun _ => True) (name_host n h)).
Proof.
  split; intros; try apply guarded_effect.
  - injection H as <- <-. split; [done|]. by case_decide.
  - injection H as <- <-. split; [done|]. intros i. unfold kernel_names, has. cbn [id]. rewrite list_elem_of_fmap. split.
    + intros ([m j] & -> & [Hm Hin]%list_elem_of_filter). cbn in Hm. subst m.
      apply list_elem_of_fmap in Hin as ([key d] & Hkey & Hin). cbn in Hkey. subst key. apply elem_of_map_to_list in Hin. by exists d.
    + intros [d Hd]. exists (n, i). split; [done|]. apply list_elem_of_filter. split; [done|]. apply list_elem_of_fmap.
      exists ((n, i), d). split; [done|]. by apply elem_of_map_to_list.
Qed.

Definition sample_net_config : ProcEnv :=
  match EnvFromFile env_hook "../etc/config" [] with (Ok config, _) => config | _ => ∅ end.

Definition sample_net : Net :=
  mkNet (<[(0, "w1b-0") := mkDev false 1500 None None []]> {[(42, "lo") := mkDev false 65536 None None []]}) ∅ ∅.

Definition sample_net_host : Net :=
  snd (configureHostNetwork (NewConfigurer (kernel_netlink 0) (fun h => guarded (fun _ => True) (name_host 0 h))) sample_net_config "42" sample_net).
Definition sample_net_both : Net :=
  snd (setupNetwork (NewConfigurer (kernel_netlink 42) (fun h => guarded (fun _ => True) (name_host 42 h))) sample_net_config sample_net_host).

Lemma container_network_connected_witness :
  cfg_get sample_net_config "network_host_ip" = "10.254.0.1" /\
  net_gw sample_net_both !! 42 = Some (IP_String (ParseIP (cfg_get sample_net_config "network_host_ip")), cfg_get sample_net_config "network_container_iface").
Proof.
  split; [vm_compute; reflexivity|].
  destruct (container_network_connected id 0 42 (kernel_netlink 0) (kernel_netlink 42) _ _ sample_net_config "42" sample_net sample_net_host
      sample_net_both (kernel_sem 0) (kernel_sem 42)) as (ip & subnet & mtu & b & lo & H);
    [reflexivity|vm_compute; discriminate|vm_compute; reflexivity|vm_compute; reflexivity|].
  destruct H as (_ & _ & _ & _ & _ & _ & _ & _ & _ & Hgw & _). exact Hgw.
Defined.
