(* ===== verification/Errors.v ===== *)
(** * The texts of errors

    The [Error] methods of the types that the repository declares, over a model of
    [fmt.Sprintf] for the verbs that they use: a text for an operand of the wrong
    kind, for a missing operand and for operands that are left over is what
    package fmt prints. Then which error the network configuration returns for
    which call that fails, by a table. *)
From S2P Require Import Prelude GoStrings GoNet World ProcessEnv RLimits Bandwidth IPTablesManager ProcessTracker NetworkConfig.

(** ** fmt.Sprintf *)

(** An operand: a string, an integer with its decimal text, or a value whose type
    has an [Error] or [String] method, with the name of its type and its text. *)
Inductive Arg := ArgS (s : string) | ArgD (text : string) | ArgV (type text : string).

Definition arg_text (a : Arg) : string := match a with ArgS s => s | ArgD t => t | ArgV _ t => t end.
Definition arg_type (a : Arg) : string := match a with ArgS _ => "string" | ArgD _ => "int" | ArgV t _ => t end.

(** What a verb makes of an operand. *)
Definition format_verb (verb : ascii) (a : Arg) : string :=
  let bad := "%!" +:+ String verb "(" +:+ arg_type a +:+ "=" +:+ arg_text a +:+ ")" in
  if decide (verb = "v"%char) then arg_text a
  else if decide (verb = "s"%char) then match a with ArgD _ => bad | _ => arg_text a end
  else if decide (verb = "d"%char) then match a with ArgD t => t | _ => bad end
  else bad.

Definition extra_args (args : list Arg) : string :=
  match args with
  | [] => ""
  | _ => "%!(EXTRA " +:+ join ", " ((fun a => arg_type a +:+ "=" +:+ arg_text a) <$> args) +:+ ")"
  end.

Fixpoint Sprintf (format : string) (args : list Arg) : string :=
  match format with
  | "" => extra_args args
  | String c rest =>
      if decide (c = "%"%char) then
        match rest with
        | "" => "%!(NOVERB)" +:+ extra_args args
        | String verb rest' =>
            if decide (verb = "%"%char) then String "%" (Sprintf rest' args)
            else match args with
                 | [] => "%!" +:+ String verb "(MISSING)" +:+ Sprintf rest' []
                 | a :: args' => format_verb verb a +:+ Sprintf rest' args'
                 end
        end
      else String c (Sprintf rest args)
  end.

(** ** The declared errors *)

Definition PoolExhaustedError_Error : string := "port pool is exhausted".
Definition PortTakenError_Error (port : Z) : string := Sprintf "port already acquired: %d" [ArgD (Itoa port)].
Definition UndefinedPropertyError_Error (key : string) : string := Sprintf "property does not exist: %s" [ArgS key].
Definition HandleExistsError_Error (handle : string) : string := Sprintf "handle already exists: %s" [ArgS handle].
Definition FailedToSnapshotError_Error (cause : Arg) : string := Sprintf "failed to save snapshot: %s" [cause].
Definition MaxContainersReachedError_Error (max : Z) : string := Sprintf "cannot create more than %d containers" [ArgD (Itoa max)].
Definition UnknownProcessError_Error (id : string) : string := Sprintf "process_tracker: unknown process: %s" [ArgS id].
Definition PipeSynchronizerError_Error (msg : string) : string := msg.
Definition ParseError_Error (cause : Arg) (line : string) : string := Sprintf ("%s while parsing line " +:+ dq +:+ "%s" +:+ dq) [cause; ArgS line].

(** The variables of subnets/errors.go. *)
Definition subnets_Error (e : error) : option string :=
  match e with
  | ErrInsufficientSubnets => Some "insufficient subnets remaining in the pool"
  | ErrInsufficientIPs => Some "insufficient IPs remaining in the pool"
  | ErrReleasedUnallocatedSubnet => Some "subnet is not allocated"
  | ErrOverlapsExistingSubnet => Some "subnet overlaps an existing subnet"
  | ErrInvalidIP => Some "the requested IP is not within the subnet"
  | ErrIPAlreadyAcquired => Some "the requested IP is already allocated"
  | ErrIpCannotBeNil => Some "the IP field cannot be empty"
  | ErrIPEqualsGateway => Some "a container IP must not equal the gateway IP"
  | ErrIPEqualsBroadcast => Some "a container IP must not equal the broadcast IP"
  | _ => None
  end.

(** ** network/errors.go *)

Definition fmtErr (msg : string) (args : list Arg) : string := Sprintf ("network: " +:+ msg) args.

Section Network.
(** The text of an interface under %v, which has all its fields. *)
Context (intf_v : string -> string).
Notation intf i := (ArgV "*net.Interface" (intf_v i)).

Definition VethPairCreationError_Error (cause : Arg) (host container : string) : string :=
  fmtErr "failed to create veth pair with host interface name '%s', container interface name '%s': %v" [ArgS host; ArgS container; cause].
Definition MTUError_Error (cause : Arg) (i mtu : string) : string :=
  fmtErr "failed to set interface '%v' mtu to %d" [intf i; ArgD mtu; cause].
Definition SetNsFailedError_Error (cause : Arg) (i pid : string) : string :=
  fmtErr "failed to move interface %v in to pid namespace %d: %v" [intf i; ArgD pid; cause].
Definition BridgeDetectionError_Error (cause : Arg) (name ip subnet : string) : string :=
  fmtErr "failed to find bridge with name '%s', IP '%s', subnet '%s': %v" [ArgS name; ArgV "net.IP" ip; ArgV "*net.IPNet" subnet; cause].
Definition AddToBridgeError_Error (cause : Arg) (bridge slave : string) : string :=
  fmtErr "failed to add slave %s to bridge %s: %v" [ArgS slave; ArgS bridge; cause].
Definition LinkUpError_Error (cause : Arg) (link role : string) : string :=
  fmtErr "failed to bring %s link %s up: %v" [ArgS role; ArgS link; cause].
Definition FindLinkError_Error (role name : string) : string :=
  fmtErr "failed to find %s link with name %s" [ArgS role; ArgS name].
Definition ConfigureLinkError_Error (role i ip subnet : string) : string :=
  fmtErr "failed to configure %s link (%v) to IP %v, subnet %v" [ArgS role; intf i; ArgV "net.IP" ip; ArgV "*net.IPNet" subnet].
Definition ConfigureDefaultGWError_Error (cause : Arg) (i ip : string) : string :=
  fmtErr "failed to set default gateway to IP %v via device %v" [ArgV "net.IP" ip; intf i; cause].
Definition DeleteLinkError_Error (cause : Arg) (role name : string) : string :=
  fmtErr "failed to delete %s link named %s: %v" [ArgS role; ArgS name; cause].

(** The text of an error of the network configuration; [arg] is the operand that
    the cause is. *)
Definition network_Error (arg : error -> Arg) (e : error) : option string :=
  match e with
  | Wrapf "VethPairCreationError" [h; c] cause => Some (VethPairCreationError_Error (arg cause) h c)
  | Wrapf "MTUError" [i; mtu] cause => Some (MTUError_Error (arg cause) i mtu)
  | Wrapf "SetNsFailedError" [i; pid] cause => Some (SetNsFailedError_Error (arg cause) i pid)
  | Wrapf "BridgeDetectionError" [name; ip; subnet] cause => Some (BridgeDetectionError_Error (arg cause) name ip subnet)
  | Wrapf "AddToBridgeError" [bridge; slave] cause => Some (AddToBridgeError_Error (arg cause) bridge slave)
  | Wrapf "LinkUpError" [link; role] cause => Some (LinkUpError_Error (arg cause) link role)
  | Wrapf "FindLinkError" [role; name] _ | Errorv "FindLinkError" [role; name] => Some (FindLinkError_Error role name)
  | Wrapf "ConfigureLinkError" [role; i; ip; subnet] _ => Some (ConfigureLinkError_Error role i ip subnet)
  | Wrapf "ConfigureDefaultGWError" [i; ip] cause => Some (ConfigureDefaultGWError_Error (arg cause) i ip)
  | _ => None
  end.
End Network.

(** The name of the PID file that the source prints a string into with %d. *)
Lemma pidfile_name_Sprintf pid : pidfile_name pid = Sprintf "%d.pid" [ArgS pid].
Proof.
  unfold pidfile_name. change (Sprintf "%d.pid" [ArgS pid]) with (("%!d(string=" +:+ pid +:+ ")") +:+ ".pid").
  by rewrite !app_assoc_string.
Qed.

(** ** The errors of the network configuration

    What the network configuration is to do and to report, as a table: the steps in
    their order, and for each the error that stands for its failure and the text of
    that error, written out. *)
Section Table.
Context (intf_v : string -> string) (arg : error -> Arg).

Inductive Step :=
  | Find (name : string) (report : option error -> error) (text : string)
  | Do (c : Call) (report : error -> error) (text : error -> string)
  | PassOn (c : Call).

Notation why e := (arg_text (arg e)).
Notation left_over e := ("%!(EXTRA " +:+ (arg_type (arg e) +:+ "=" +:+ arg_text (arg e)) +:+ ")").

Definition up (i role : string) : Step :=
  Do (link_up_ i) (Wrapf "LinkUpError" [i; role]) (fun e => "network: failed to bring " +:+ role +:+ " link " +:+ i +:+ " up: " +:+ why e).
Definition mtu_of (i : string) (mtu : Z) : Step :=
  Do (set_mtu i mtu) (Wrapf "MTUError" [i; Itoa mtu])
    (fun e => "network: failed to set interface '" +:+ intf_v i +:+ "' mtu to " +:+ Itoa mtu +:+ left_over e).
Definition find_link (role name : string) : Step :=
  Find name (FindLinkError role name) ("network: failed to find " +:+ role +:+ " link with name " +:+ name).
Definition address_of (role i : string) (ip : IP) (subnet : IPNet) : Step :=
  Do (add_ip i ip subnet) (Wrapf "ConfigureLinkError" [role; i; IP_String ip; IPNet_String subnet])
    (fun _ => "network: failed to configure " +:+ role +:+ " link (" +:+ intf_v i +:+ ") to IP " +:+ IP_String ip +:+ ", subnet " +:+ IPNet_String subnet).

Definition host_table (c : HostConfig) : list Step :=
  [Find (hc_BridgeName c)
     (fun _ => Wrapf "BridgeDetectionError" [hc_BridgeName c; IP_String (hc_BridgeIP c); IPNet_String (hc_Subnet c)] (Errorf "look up existing bridge"))
     ("network: failed to find bridge with name '" +:+ hc_BridgeName c +:+ "', IP '" +:+ IP_String (hc_BridgeIP c) +:+ "', subnet '" +:+
       IPNet_String (hc_Subnet c) +:+ "': " +:+ why (Errorf "look up existing bridge"));
   up (hc_BridgeName c) "bridge";
   Do (Sys "veth.Create" [hc_HostIntf c; hc_ContainerIntf c]) (Wrapf "VethPairCreationError" [hc_HostIntf c; hc_ContainerIntf c])
     (fun e => "network: failed to create veth pair with host interface name '" +:+ hc_HostIntf c +:+ "', container interface name '" +:+
       hc_ContainerIntf c +:+ "': " +:+ why e);
   mtu_of (hc_HostIntf c) (hc_Mtu c);
   Do (Sys "bridge.Add" [hc_BridgeName c; hc_HostIntf c]) (Wrapf "AddToBridgeError" [hc_BridgeName c; hc_HostIntf c])
     (fun e => "network: failed to add slave " +:+ hc_HostIntf c +:+ " to bridge " +:+ hc_BridgeName c +:+ ": " +:+ why e);
   up (hc_HostIntf c) "host";
   Do (Sys "link.SetNs" [hc_ContainerIntf c; Itoa (hc_ContainerPid c)]) (Wrapf "SetNsFailedError" [hc_ContainerIntf c; Itoa (hc_ContainerPid c)])
     (fun e => "network: failed to move interface " +:+ intf_v (hc_ContainerIntf c) +:+ " in to pid namespace " +:+ Itoa (hc_ContainerPid c) +:+
       ": " +:+ why e)].

Definition container_table (c : ContainerConfig) : list Step :=
  [find_link "loopback" "lo";
   address_of "loopback" "lo" (v4InV6Prefix ++ [127; 0; 0; 1]) (mkIPNet [127; 0; 0; 0] [255; 0; 0; 0]);
   up "lo" "loopback";
   find_link "container" (cc_ContainerIntf c);
   address_of "container" (cc_ContainerIntf c) (cc_ContainerIP c) (cc_Subnet c);
   up (cc_ContainerIntf c) "container";
   Do (Sys "link.AddDefaultGW" [cc_ContainerIntf c; IP_String (cc_GatewayIP c)])
     (Wrapf "ConfigureDefaultGWError" [cc_ContainerIntf c; IP_String (cc_GatewayIP c)])
     (fun e => "network: failed to set default gateway to IP " +:+ IP_String (cc_GatewayIP c) +:+ " via device " +:+ intf_v (cc_ContainerIntf c) +:+
       left_over e);
   mtu_of (cc_ContainerIntf c) (cc_Mtu c);
   PassOn (Sys "SetHostname" [cc_Hostname c])].

Definition step_call (s : Step) : Call :=
  match s with Find name _ _ => lookup_intf name | Do c _ _ => c | PassOn c => c end.

(** The error that a step reports for the answer of the host to its call, if the
    answer is a failure; a look-up also fails when it finds no interface. *)
Definition failure (s : Step) (answer : string + error) : option error :=
  match s, answer with
  | Find _ report _, inl "" => None
  | Find _ report _, inl _ => Some (report None)
  | Find _ report _, inr e => Some (report (Some e))
  | Do _ report _, inr e => Some (report e)
  | PassOn _, inr e => Some e
  | _, inl _ => None
  end.

(** The table followed up to the first failure. *)
Fixpoint follow (env : Env) (l : list Step) (w : World) : result unit * World :=
  match l with
  | [] => (Ok tt, w)
  | s :: l' =>
      match failure s (env w (step_call s)) with
      | Some e => (Err e, w ++ [step_call s])
      | None => follow env l' (w ++ [step_call s])
      end
  end.

(** The error of a step has the text that the table gives. *)
Definition texts_ok (s : Step) : Prop :=
  match s with
  | Find _ report text => forall cause, network_Error intf_v arg (report cause) = Some text
  | Do _ report text => forall cause, network_Error intf_v arg (report cause) = Some (text cause)
  | PassOn _ => True
  end.

(** The format of a text ends with an empty rest. *)
Ltac text_tac :=
  first [ reflexivity
        | match goal with |- Some _ = Some ?text => rewrite <- (app_nil_r_string text), !app_assoc_string; reflexivity end ].

Ltac texts_tac :=
  apply Forall_forall; intros s Hs; repeat (apply elem_of_cons in Hs as [->|Hs]); [..|by apply elem_of_nil in Hs];
  try done; intros cause; try match type of cause with option _ => destruct cause end; cbn -[IP_String IPNet_String Itoa]; text_tac.

Lemma host_texts c : Forall texts_ok (host_table c).
Proof. texts_tac. Qed.

Lemma container_texts c : Forall texts_ok (container_table c).
Proof. texts_tac. Qed.
End Table.

(** The steps of the code and those of a table side by side. *)
Lemma find_intf_eq env name report w :
  find_intf (world_net env) name report w =
    (match env w (lookup_intf name) with
     | inl "" => Ok name | inl _ => Err (report None) | inr e => Err (report (Some e)) end, w ++ [lookup_intf name]).
Proof.
  unfold find_intf. rewrite bind_eq, attempt_eq. cbn [world_net nc_InterfaceByName]. rewrite bind_eq, call_eq.
  by destruct (env w (lookup_intf name)) as [[|a out]|e].
Qed.

Lemma wrapped_eq env c report w :
  map_err report (call_ env c) w = (match env w c with inl _ => Ok tt | inr e => Err (report e) end, w ++ [c]).
Proof. rewrite map_err_eq, call__eq. by destruct (env w c). Qed.

Lemma configureVethPair_eq env h c w :
  configureVethPair (world_net env) h c w =
    (match env w (Sys "veth.Create" [h; c]) with inl _ => Ok (h, c) | inr e => Err (Wrapf "VethPairCreationError" [h; c] e) end,
     w ++ [Sys "veth.Create" [h; c]]).
Proof.
  unfold configureVethPair. rewrite map_err_eq. cbn [world_net nc_Veth_Create]. rewrite bind_eq, call__eq.
  by destruct (env w (Sys "veth.Create" [h; c])).
Qed.

(** The answer of the host that a result depends on first. *)
Ltac first_answer t := match t with match ?x with _ => _ end => first_answer x | _ => t end.

Ltac follow_tac :=
  repeat first
    [ progress cbn [follow failure step_call up mtu_of find_link address_of fst snd ret
                    nc_SetUp nc_SetMTU nc_Bridge_Add nc_SetNs nc_AddIP nc_AddDefaultGW nc_SetHostname world_net]
    | rewrite bind_eq | rewrite find_intf_eq | rewrite wrapped_eq | rewrite configureVethPair_eq | rewrite call__eq
    | match goal with |- _ = ?r => let x := first_answer r in
                      match x with _ _ (lookup_intf _) => destruct x as [[]|] | _ => destruct x as [?|] end; [|done..] end ]; try done.

(** C34: which error the network configuration returns. [ConfigureHost] and
    [ConfigureContainer] work through the steps of their tables in the order of the
    table and stop at the first call that the host refuses (a look-up is also refused
    when it finds no interface); the error is then the one that the table has for that
    step: its type, with the interface, the role, the addresses, the MTU or the process
    of the step in its fields and with the refusal as its cause. Two causes are not the
    refusal: a bridge that is not found always says 'look up existing bridge', and the
    error of setting the host name is passed on as it is, with no type of the package.
    The text of every other error is the one that the table writes out; that of a
    failed MTU and of a failed default route ends with a complaint of package fmt about
    an operand without a verb, and the texts about a link that is not found or not
    configured do not say why. *)
Theorem network_errors_typed env intf_v arg w :
  (forall c, ConfigureHost (world_net env) c w = follow env (host_table intf_v arg c) w /\
    Forall (texts_ok intf_v arg) (host_table intf_v arg c)) /\
  (forall c, ConfigureContainer (world_net env) c w = follow env (container_table intf_v arg c) w /\
    Forall (texts_ok intf_v arg) (container_table intf_v arg c)).
Proof.
  split; intros c; (split; [|by (apply host_texts || apply container_texts)]).
  - unfold ConfigureHost, configureBridgeIntf, configureHostIntf, host_table. follow_tac.
  - unfold ConfigureContainer, configureLoopbackIntf, configureContainerIntf, container_table.
    change (ParseCIDR "127.0.0.1/8") with (Ok (v4InV6Prefix ++ [127; 0; 0; 1], mkIPNet [127; 0; 0; 0] [255; 0; 0; 0])).
    follow_tac.
Qed.
