(* ===== verification/Listeners.v ===== *)
(** * Sockets and standard streams (src/container_daemon/unix_socket/listener.go, src/container_daemon/detach.go)

    The constructors and the small methods of a [Listener], with which wshd opens the
    socket of a container and initd takes it over, and [Detach], with which initd
    leaves the streams of wshd. Opened files are known by their paths. *)
From S2P Require Import Prelude GoStrings World.

(** ** listener.go *)

(** A [net.Listener]: its dynamic type decides whether it has a file. *)
Inductive NetListener := UnixListener (addr : string) | OtherListener (addr : string).

#[export] Instance NetListener_eq_dec : EqDecision NetListener.
Proof. solve_decision. Defined.

Record Listener := mkListener { l_listener : option NetListener }.

Section Listeners.
Context (env : Env).
Local Open Scope go_scope.

Definition NewListenerFromPath (socketPath : string) : M World Listener :=
  do! map_err (Wrapf "unix_socket: error creating socket: %v" []) (call_ env (Sys "net.Listen" ["unix"; socketPath])) in
  ret (mkListener (Some (UnixListener socketPath))).

(** The world answers with the network of the socket. *)
Definition NewListenerFromFile (socketFile : string) : M World Listener :=
  let! network := map_err (Wrapf "unix_socket: error creating listener: %v" []) (call env (Sys "net.FileListener" [socketFile])) in
  ret (mkListener (Some (if decide (network = "unix") then UnixListener socketFile else OtherListener socketFile))).

(** The type assertion fails for a listener that is not initialized, too. *)
Definition Listener_File (l : Listener) : M World string :=
  match l_listener l with
  | Some (UnixListener addr) => call env (Sys "UnixListener.File" [addr])
  | _ => fail (Errorv "unix_socket: incorrect listener type: %v" [])
  end.

Definition Listener_Close (l : Listener) : M World unit :=
  match l_listener l with
  | Some (UnixListener addr) | Some (OtherListener addr) => call_ env (Sys "listener.Close" [addr])
  | None => panic "runtime error: invalid memory address or nil pointer dereference"
  end.

(** ** detach.go *)

(** [must]: a file that cannot be opened is a panic. *)
Definition must_open (c : Call) : M World unit := or_panic "open" (call_ env c).

Definition dup2 (file fd : string) : Call := Sys "syscall.Dup2" [file; fd].

Definition Detach (redirectStdout redirectStderr : string) : M World unit :=
  do! ignore (call_ env (Sys "os.Chdir" ["/"])) in
  do! must_open (Sys "os.Open" ["/dev/null"]) in
  do! ignore (call_ env (dup2 "/dev/null" "0")) in
  do! must_open (Sys "os.OpenFile" [redirectStdout; "O_WRONLY|O_CREATE"; "0700"]) in
  do! ignore (call_ env (dup2 redirectStdout "1")) in
  do! must_open (Sys "os.OpenFile" [redirectStderr; "O_WRONLY|O_CREATE"; "0700"]) in
  ignore (call_ env (dup2 redirectStderr "2")).

Definition detach_calls (out err : string) : list Call :=
  [Sys "os.Chdir" ["/"]; Sys "os.Open" ["/dev/null"]; dup2 "/dev/null" "0"; Sys "os.OpenFile" [out; "O_WRONLY|O_CREATE"; "0700"]; dup2 out "1";
   Sys "os.OpenFile" [err; "O_WRONLY|O_CREATE"; "0700"]; dup2 err "2"].

(** [Detach] makes all its calls, or panics after some of them: when it succeeds,
    the three standard streams are the files it was given. *)
Lemma Detach_calls out err : musts (Detach out err) (detach_calls out err).
Proof.
  unfold Detach, detach_calls.
  repeat (apply (musts_bind _ _ [_]); [first [apply musts_ignore | apply musts_or_panic, runs_call_]|intros _]). apply musts_ignore.
Qed.
End Listeners.
