(* ===== verification/Containerizer.v ===== *)
(** * Making a container: host and child (src/containerizer)

    wshd on the host runs [Containerizer.Create]: it prepares the host, starts
    initc in new namespaces, runs the hooks and the pivot, tells the child to go
    on and waits for its answer. initc waits for the host, initialises the
    container, and becomes initd, which answers when it is ready. The two talk
    through a [PipeSynchronizer] each. The JSON codec of its messages is a
    parameter with the one law the protocol needs. *)
From S2P Require Import Prelude GoStrings GoFlag TextCodec World ProcessEnv RLimits Sysconfig System IPTablesManager Namespaces NetworkConfig Listeners.

(** ** pipe_synchronizer.go *)

Definition SignalSuccess_ : Z := 0.
Definition SignalError_ : Z := 1.

Record PipeSignal := mkSignal { sig_Type : Z; sig_Message : string }.

#[export] Instance PipeSignal_eq_dec : EqDecision PipeSignal.
Proof. solve_decision. Defined.

(** encoding/json on a [Signal]: the type comes back; the text may be changed,
    since bytes that are not valid UTF-8 are replaced. *)
Class SignalCodec := {
  marshal : PipeSignal -> string;
  unmarshal : string -> result PipeSignal;
  unmarshal_marshal s : exists m, unmarshal (marshal s) = Ok (mkSignal (sig_Type s) m)
}.

Definition IsSignalError (err : error) : bool := match err with PipeSynchronizerError _ => true | _ => false end.

(** A step with a function (nil when absent), with capabilities to limit, or with a script. *)
Inductive Step := FuncStep (f : option (M World unit)) | CapabilitiesStep (Drop : bool) (Limit : bool -> M World unit) | ShellRunnerStep (path : string).

Section Containerizer.
Context {codec : SignalCodec} (env : Env) (Error : error -> string).
Local Open Scope go_scope.

Definition sendSignal (signal : PipeSignal) : M World unit := call_ env (Sys "pipe.Write" [marshal signal]).
Definition SignalSuccess : M World unit := sendSignal (mkSignal SignalSuccess_ "").
Definition SignalError (err : error) : M World unit := sendSignal (mkSignal SignalError_ ("error: " +:+ Error err)).

(** The read of a message, a read error or the timeout is the world's answer. *)
Definition PipeSync_Wait (timeout : string) : M World unit :=
  let! msg := call env (Sys "pipe.Read" [timeout]) in
  let! signal := lift (unmarshal msg) in
  if sig_Type signal =? SignalError_ then fail (PipeSynchronizerError (sig_Message signal)) else ret tt.

(** ** Steps and [system.Initializer] *)

Definition FuncStep_Run (Func : option (M World unit)) : M World unit :=
  match Func with None => fail (Errorf "containerizer: callback function is not defined") | Some f => f end.

Definition CapabilitiesStep_Run (Drop : bool) (Limit : bool -> M World unit) : M World unit :=
  if Drop then map_err (Wrapf "containerizer: limitting capabilities: %s\n" []) (Limit false) else ret tt.

Definition ShellRunnerStep_Run (path : string) : M World unit :=
  let! r := attempt (call_ env (Sys "stat" [path])) in
  match r with
  | inr (NotExist _) => ret tt
  | _ =>
      do! map_err (Wrapf "starting command %s: %s" [path]) (call_ env (Start (Command "sh" [path]))) in
      map_err (Wrapf "runnng command %s: %s" [path]) (call_ env (Sys "runner.Wait" ["sh"; path]))
  end.

Definition Step_Run (s : Step) : M World unit :=
  match s with
  | FuncStep f => FuncStep_Run f
  | CapabilitiesStep drop Limit => CapabilitiesStep_Run drop Limit
  | ShellRunnerStep path => ShellRunnerStep_Run path
  end.

Definition Initializer_Init (steps : list Step) : M World unit := for_each Step_Run steps.

(** ** containerizer.go *)

Record Containerizer := mkContainerizer {
  InitBinPath : string;
  InitArgs : list string;
  Execer : string -> list string -> M World string;
  RootfsPath : string;
  BeforeCloneSteps : list Step;
  ContainerSteps : list Step;
  LibPath : string
}.

Definition wait_timeout : string := "2m0s".

(** [Exec] returns the process ID in decimal. *)
Definition Containerizer_Create (c : Containerizer) : M World unit :=
  do! map_err (Wrapf "containerizer: before clone initializer: %s" []) (Initializer_Init (BeforeCloneSteps c)) in
  do! map_err (Wrapf "containerizer: run `parent-before-clone`: %s. stderr: %s" [])
        (call_ env (Run (Command (path_join [LibPath c; "hook"]) ["parent-before-clone"]))) in
  let! pid := map_err (Wrapf "containerizer: create container: %s" [])
                (Execer c (InitBinPath c) (InitArgs c)) in
  do! map_err (Wrapf "containerizer: failed to set PID env var: %s" []) (call_ env (Sys "setenv" ["PID"; pid])) in
  do! map_err (Wrapf "containerizer: run `parent-after-clone`: %s. stderr: %s" [])
        (call_ env (Run (Command (path_join [LibPath c; "hook"]) ["parent-after-clone"]))) in
  do! map_err (Wrapf "containerizer: run pivotter: %s" [])
        (call_ env (Run (mkCmd (path_join [LibPath c; "pivotter"]) ["-rootfs"; RootfsPath c]
                           ["TARGET_NS_PID=" +:+ pid] ""))) in
  do! map_err (Wrapf "containerizer: send success singnal to the container: %s" []) SignalSuccess in
  map_err (Wrapf "containerizer: wait for container: %s" []) (PipeSync_Wait wait_timeout).

Definition signalErrorf {A} (format : string) (err : error) : M World A :=
  let err := Wrapf format [] err in
  let! r := attempt (SignalError err) in
  match r with
  | inl _ => fail err
  | inr signalErr => fail (Wrapf "containerizer: signal error: %s (while signalling %s)" [Error signalErr] err)
  end.

Definition Containerizer_Init (c : Containerizer) : M World unit :=
  let! r := attempt (Initializer_Init (ContainerSteps c)) in
  match r with
  | inl _ => ret tt
  | inr err => signalErrorf "containerizer: initializing the container: %s" err
  end.

(** ** initc and initd *)

Definition mount (type flags target data : string) : Step := FuncStep (Some (Mount_Mount env (mkMount type "" target flags data))).

(** The steps of initc for the configuration [cfg] of the container; [pid] is its own ID. *)
Definition initc_steps (pid : Z) (cfg : ProcEnv) : list Step :=
  let dropCapabilities := bool_decide (default "" (cfg !! "root_uid") <> "0") in
  [mount "tmpfs" "nodev" "/dev/shm" "";
   mount "proc" (if dropCapabilities then "nosuid,nodev,noexec,ro" else "nosuid,nodev,noexec") "/proc" "";
   mount "sysfs" "nosuid,nodev,noexec,ro" "/sys" "";
   mount "devpts" "" "/dev/pts" "newinstance,ptmxmode=0666";
   FuncStep (Some (Unmount_Unmount env "/tmp/garden-host"));
   FuncStep (Some (setupNetwork (world_net env) cfg));
   CapabilitiesStep dropCapabilities (ProcessCapabilities_Limit env pid)].

Definition initd_args (dropCapabilities : bool) (title : string) : list string :=
  ["initd"; "-dropCapabilities=" +:+ FormatBool dropCapabilities; "-title=" +:+ dq +:+ title +:+ dq].

(** How a program of the container goes on: it exits with a code, becomes the next
    one, or serves requests on a listener. *)
Inductive Outcome := Exit (code : Z) | Becomes (dropCapabilities : bool) | Serves (l : Listener).

Definition initc_main (pid : Z) (rootFsPath configFilePath title : string) : M World Outcome :=
  if decide (rootFsPath = "") then ret (Exit 1)
  else
    let! w := attempt (PipeSync_Wait wait_timeout) in
    match w with
    | inr _ => ret (Exit 8)
    | inl _ =>
        let! e := attempt (EnvFromFile env configFilePath) in
        match e with
        | inr _ => ret (Exit 3)
        | inl cfg =>
            let! i := attempt (Containerizer_Init (mkContainerizer "" [] (fun _ _ => panic "nil") rootFsPath [] (initc_steps pid cfg) "")) in
            match i with
            | inr _ => ret (Exit 2)
            | inl _ =>
                let drop := bool_decide (default "" (cfg !! "root_uid") <> "0") in
                do! ignore (call_ env (Sys "fcntl" ["4"; "F_SETFD"; "0"])) in
                do! ignore (call_ env (Sys "fcntl" ["5"; "F_SETFD"; "0"])) in
                let! x := attempt (call_ env (Sys "exec" (initd_args drop title))) in
                match x with inr _ => ret (Exit 3) | inl _ => ret (Becomes drop) end
            end
        end
    end.

(** initd up to the point where it serves requests. *)
Definition initd_body : M World Outcome :=
  do! Detach env "/dev/null" "/dev/null" in
  do! ignore (call_ env (Sys "fcntl" ["4"; "F_SETFD"; "FD_CLOEXEC"])) in
  let! l := attempt (NewListenerFromFile env "/dev/host.sock") in
  match l with
  | inr _ => ret (Exit 5)
  | inl listener =>
      do! ignore (call_ env (Sys "close" ["/dev/host.sock"])) in
      let! s := attempt SignalSuccess in
      match s with inr _ => ret (Exit 6) | inl _ => ret (Serves listener) end
  end.

(** A panic is recovered and becomes an exit. *)
Definition initd_start : M World Outcome := fun w =>
  match initd_body w with (Panic _, w') => (Ok (Exit 4), w') | x => x end.

(** ** wshd *)

Definition wshd_flags : list (string * FlagKind) :=
  [("lib", FString); ("root", FString); ("run", FString); ("userns", FString); ("title", FString)].

(** [argv0] is the path that wshd was started with. *)
Definition wshd_main (argv0 : string) (args : list string) : M World Ending :=
  match Parse wshd_flags args with
  | Ok (sets, _) =>
      let libPath := flag_value "lib" "./lib" sets in
      let rootFsPath := flag_value "root" "" sets in
      let socketPath := path_join [flag_value "run" "./run" sets; "wshd.sock"] in
      let userNs := flag_value "userns" "enabled" sets in
      if decide (rootFsPath = "") then ret (Exits 1)
      else
        let! binPath := attempt (call env (Sys "filepath.Abs" [path_dir argv0])) in
        match binPath with
        | inr _ => ret (Exits 6)
        | inl binPath =>
            let privileged := bool_decide (userNs = "" \/ userNs = "disabled") in
            let! p1 := attempt (call_ env (Sys "os.Pipe" [])) in
            match p1 with
            | inr _ => ret (Exits 5)
            | inl _ =>
                let! p2 := attempt (call_ env (Sys "os.Pipe" [])) in
                match p2 with
                | inr _ => ret (Exits 4)
                | inl _ =>
                    let! l := attempt (NewListenerFromPath env socketPath) in
                    match l with
                    | inr _ => ret (Exits 8)
                    | inl listener =>
                        let! f := attempt (Listener_File env listener) in
                        match f with
                        | inr _ => ret (Exits 9)
                        | inl _ =>
                            let! maxUID := max_id env in
                            let! r := attempt (Containerizer_Create (mkContainerizer (path_join [binPath; "initc"])
                              ["--root"; rootFsPath; "--config"; path_join [libPath; "../etc/config"]; "--title"; flag_value "title" "" sets]
                              (NamespacingExecer_Exec env privileged maxUID) rootFsPath [FuncStep (Some (RlimitsManager_Init env))] [] libPath)) in
                            match r with inr _ => ret (Exits 2) | inl _ => ret (Exits 0) end
                        end
                    end
                end
            end
        end
  | _ => ret (Exits 2)
  end.

(** The child: initc and what it becomes. *)
Definition child_main (pid : Z) (rootFsPath configFilePath title : string) : M World Outcome :=
  let! o := initc_main pid rootFsPath configFilePath title in
  match o with Becomes _ => initd_start | _ => ret o end.

(** ** The handshake *)

Definition success : PipeSignal := mkSignal SignalSuccess_ "".

(** Not the message that the child is ready. *)
Definition not_ready (c : Call) : Prop := c <> Sys "pipe.Write" [marshal success].

Lemma marshal_type s s' : marshal s = marshal s' -> sig_Type s = sig_Type s'.
Proof.
  intros Heq. destruct (unmarshal_marshal s) as [m Hs], (unmarshal_marshal s') as [m' Hs']. rewrite Heq, Hs' in Hs. by injection Hs.
Qed.

(** What holds of every call but a write to the pipe holds of the calls of initc's steps. *)
Lemma emits_setupNetwork P cfg : (forall n, Forall P (container_calls n)) -> emits P (setupNetwork (world_net env) cfg).
Proof.
  intros HP w r w' (l & -> & [l2 Hl] & _)%setupNetwork_calls. exists l. split; [done|].
  assert (Hall : Forall P (from_option container_calls [] (network_of cfg))) by (destruct (network_of cfg); [apply HP|constructor]).
  rewrite Hl in Hall. by apply Forall_app in Hall as [? _].
Qed.

Definition mount_calls (type flags target data : string) : list Call :=
  [Sys "os.MkdirAll" [target; "0700"]; Sys "mount" [type; target; type; flags; data]].

Lemma runs_mount type flags target data : runs (Step_Run (mount type flags target data)) (mount_calls type flags target data).
Proof.
  cbn [Step_Run mount FuncStep_Run]. unfold Mount_Mount. cbn [mt_SourcePath mt_Type mt_TargetPath mt_Flags mt_Data].
  rewrite decide_True by done. change (mount_calls type flags target data) with ([] ++ mount_calls type flags target data).
  apply runs_bind_value; [apply runs_ret|]. intros ? ? ? [= <- _].
  apply (runs_bind _ _ [_]); [apply runs_map_err, runs_call_|]. intros _.
  apply (runs_bind _ _ []); [apply runs_ret|]. intros _. apply runs_map_err, runs_call_.
Qed.

Lemma emits_initc_steps P pid cfg : (forall c, (forall args, c <> Sys "pipe.Write" args) -> P c) ->
  Forall (fun s => emits P (Step_Run s)) (initc_steps pid cfg).
Proof.
  intros HP. assert (Hm : forall t f g d, emits P (Step_Run (mount t f g d))).
  { intros t f g d. eapply runs_emits; [apply runs_mount|]. repeat constructor; by apply HP. }
  unfold initc_steps. repeat constructor; try apply Hm; cbn [Step_Run FuncStep_Run].
  - by apply emits_call_, HP.
  - apply emits_setupNetwork. intros n. repeat constructor; by apply HP.
  - unfold CapabilitiesStep_Run. case_match; [|apply emits_ret]. eapply emits_map_err, runs_emits; [apply runs_Limit|]. repeat constructor; by apply HP.
Qed.

Lemma initc_steps_not_ready pid cfg : Forall (fun s => emits not_ready (Step_Run s)) (initc_steps pid cfg).
Proof. apply emits_initc_steps. intros c Hc. apply Hc. Qed.

Lemma initc_not_ready pid root file title : emits not_ready (initc_main pid root file title).
Proof.
  unfold initc_main, Containerizer_Init, signalErrorf, SignalError, sendSignal, PipeSync_Wait, EnvFromFile, Initializer_Init.
  cbn [ContainerSteps].
  repeat first [ progress intros | apply emits_ret | apply emits_fail | apply emits_lift | apply emits_attempt | apply emits_map_err
               | apply emits_for_each, initc_steps_not_ready | (apply emits_call; done) | (apply emits_call_; done)
               | (apply emits_call_; intros [= Heq%marshal_type]; done) | apply emits_bind | case_match ].
Qed.

(** The calls of the steps of initc when they all succeed, for the network [n]. *)
Definition drops (cfg : ProcEnv) : bool := bool_decide (default "" (cfg !! "root_uid") <> "0").
Definition init_calls (pid : Z) (cfg : ProcEnv) (n : ContainerConfig) : list Call :=
  mount_calls "tmpfs" "nodev" "/dev/shm" "" ++
  mount_calls "proc" (if drops cfg then "nosuid,nodev,noexec,ro" else "nosuid,nodev,noexec") "/proc" "" ++
  mount_calls "sysfs" "nosuid,nodev,noexec,ro" "/sys" "" ++
  mount_calls "devpts" "" "/dev/pts" "newinstance,ptmxmode=0666" ++
  [Sys "unmount" ["/tmp/garden-host"; "MNT_DETACH"]] ++ container_calls n ++
  (if drops cfg then limit_calls pid false else []).

(** All that initc did when it becomes initd. *)
Definition initc_calls (pid : Z) (file title : string) (cfg : ProcEnv) (n : ContainerConfig) : list Call :=
  [Sys "pipe.Read" [wait_timeout]; ReadFile file] ++ init_calls pid cfg n ++
  [Sys "fcntl" ["4"; "F_SETFD"; "0"]; Sys "fcntl" ["5"; "F_SETFD"; "0"]; Sys "exec" (initd_args (drops cfg) title)].

Lemma steps_history pid cfg w w' : Initializer_Init (initc_steps pid cfg) w = (Ok tt, w') ->
  exists n, network_of cfg = Some n /\ w' = w ++ init_calls pid cfg n.
Proof.
  unfold Initializer_Init, initc_steps, init_calls. fold (drops cfg). cbn [for_each]. intros Hrun.
  do 4 (let E := fresh "E" in apply bind_Ok in Hrun as ([] & ? & E & Hrun); apply (runs_Ok _ _ _ _ _ (runs_mount _ _ _ _)) in E; subst).
  apply bind_Ok in Hrun as ([] & w1 & ->%call__Ok & Hrun).
  apply bind_Ok in Hrun as ([] & w1 & (l & -> & _ & Hnet)%setupNetwork_calls & Hrun).
  destruct (Hnet eq_refl) as (n & Hn & ->). exists n. split; [done|].
  apply bind_Ok in Hrun as ([] & w1 & Hcap & [= <-]). cbn [Step_Run] in Hcap. destruct (drops cfg).
  - apply (runs_Ok _ _ _ _ _ (runs_map_err _ _ _ (runs_Limit _ _ _))) in Hcap as ->. by rewrite <- !(assoc_L (++)).
  - injection Hcap as <-. by rewrite <- !(assoc_L (++)), app_nil_r.
Qed.

Lemma attempt_Ok {A} (m : M World A) w x w' : attempt m w = (Ok x, w') ->
  match x with inl a => m w = (Ok a, w') | inr e => m w = (Err e, w') end.
Proof. rewrite attempt_eq. destruct (m w) as [[a|e|p] w1]; [by intros [= <- <-]|by intros [= <- <-]|done]. Qed.

(** [cfg] is what the container's configuration file holds after the host was waited for. *)
Definition read_config (file : string) (w : World) (cfg : ProcEnv) : Prop :=
  fst (EnvFromFile env file (w ++ [Sys "pipe.Read" [wait_timeout]])) = Ok cfg.

(** initc only goes on to become initd when every step of it succeeded, and
    starts them after the host has told it to. *)
Lemma initc_becomes pid root file title w drop w' : initc_main pid root file title w = (Ok (Becomes drop), w') ->
  exists cfg n msg s, env w (Sys "pipe.Read" [wait_timeout]) = inl msg /\ unmarshal msg = Ok s /\ sig_Type s <> SignalError_ /\
    read_config file w cfg /\ network_of cfg = Some n /\ w' = w ++ initc_calls pid file title cfg n.
Proof.
  unfold initc_main. case_decide; [done|]. intros (x & w1 & Hw%attempt_Ok & H1)%bind_Ok. destruct x as [[]|]; [|done].
  unfold PipeSync_Wait in Hw. apply bind_Ok in Hw as (msg & w2 & Hread & Hw). apply bind_Ok in Hw as (s & w3 & [= Hs <-] & Hw).
  rewrite call_eq in Hread. destruct (env w (Sys "pipe.Read" [wait_timeout])) as [msg'|] eqn:Henv; [|done].
  injection Hread as -> <-. destruct (Z.eqb_spec (sig_Type s) SignalError_) as [|Hne]; [done|]. injection Hw as <-.
  apply bind_Ok in H1 as (x & w4 & He%attempt_Ok & H1). destruct x as [cfg|]; [|done].
  assert (Hread : read_config file w cfg) by (unfold read_config; by rewrite He).
  unfold EnvFromFile in He. apply bind_Ok in He as (f & w5 & Hf & [= Hcfg <-]). rewrite map_err_eq, call_eq in Hf.
  destruct (env _ (ReadFile file)); [|done]. injection Hf as -> <-.
  apply bind_Ok in H1 as (x & w6 & Hi%attempt_Ok & H1). destruct x as [[]|]; [|done].
  unfold Containerizer_Init in Hi. apply bind_Ok in Hi as (x & w7 & Hinit%attempt_Ok & Hi). cbn [ContainerSteps] in Hinit.
  destruct x as [[]|]; [|by apply bind_Ok in Hi as (y & w8 & _ & Hi); destruct y].
  injection Hi as <-. apply steps_history in Hinit as (n & Hn & ->).
  do 2 rewrite bind_eq, ignore_call in H1.
  apply bind_Ok in H1 as (x & w8 & Hx%attempt_Ok & H1). destruct x as [[]|]; [|done]. injection H1 as _ <-.
  apply call__Ok in Hx as ->. exists cfg, n, msg, s. split_and!; try done.
  unfold initc_calls. fold (drops cfg). by rewrite <- !(assoc_L (++)).
Qed.

(** What initd does until the host knows that it is ready. *)
Definition initd_ready_calls : list Call :=
  detach_calls "/dev/null" "/dev/null" ++ [Sys "fcntl" ["4"; "F_SETFD"; "FD_CLOEXEC"]; Sys "net.FileListener" ["/dev/host.sock"];
    Sys "close" ["/dev/host.sock"]; Sys "pipe.Write" [marshal success]].

(** A call that is no message. *)
Definition no_message (c : Call) : Prop := forall args, c <> Sys "pipe.Write" args.

Lemma initd_calls w r w' : initd_start w = (r, w') -> exists l, w' = w ++ l /\ (Forall no_message l \/ l = initd_ready_calls).
Proof.
  unfold initd_start, initd_body. rewrite bind_eq. destruct (Detach env "/dev/null" "/dev/null" w) as [[[]|e|p] w1] eqn:Hd;
    apply Detach_calls in Hd; [|done|].
  - subst w1. rewrite bind_eq. destruct (ignore _ _) as [[[]|e|p] w1] eqn:H1; apply musts_ignore in H1; [|done|].
    2: { destruct H1 as (l1 & Hl1 & ->). intros [= <- <-]. eexists. rewrite <- (assoc_L (++)). split; [reflexivity|]. left.
         apply Forall_app. split; [by repeat constructor|]. destruct Hl1 as [l2 Hl1].
         assert (Hf : Forall no_message [Sys "fcntl" ["4"; "F_SETFD"; "FD_CLOEXEC"]]) by (by repeat constructor).
         rewrite Hl1 in Hf. by apply Forall_app in Hf as [? _]. }
    subst w1. rewrite bind_eq, attempt_eq. unfold NewListenerFromFile. rewrite bind_eq, map_err_eq, call_eq.
    destruct (env _ (Sys "net.FileListener" _)); [|intros [= <- <-]; eexists; rewrite <- !(assoc_L (++)); split; [reflexivity|left; by repeat constructor]].
    cbn [ret]. rewrite bind_eq. destruct (ignore _ _) as [[[]|e|p] w1] eqn:H2; rewrite ignore_eq, call__eq in H2;
      (destruct (env _ (Sys "close" _)); [|]); try done; injection H2 as <-.
    all: rewrite bind_eq, attempt_eq; unfold SignalSuccess, sendSignal; fold success; rewrite call__eq; destruct (env _ (Sys "pipe.Write" _));
        intros [= <- <-]; eexists; rewrite <- !(assoc_L (++)); (split; [reflexivity|by right]).
  - destruct Hd as (l & [l2 Hl] & ->). intros [= <- <-]. exists l. split; [done|]. left.
    assert (Hnr : Forall no_message (detach_calls "/dev/null" "/dev/null")) by (by repeat constructor).
    rewrite Hl in Hnr. by apply Forall_app in Hnr as [? _].
Qed.

(** The child writes that it is ready only after it has a listener. *)
Lemma child_ready pid root file title w o w' : child_main pid root file title w = (o, w') ->
  Sys "pipe.Write" [marshal success] ∈ w' -> Sys "pipe.Write" [marshal success] ∉ w ->
  exists cfg n, read_config file w cfg /\ network_of cfg = Some n /\ w' = w ++ initc_calls pid file title cfg n ++ initd_ready_calls.
Proof.
  intros Hrun Hin Hout.
  assert (Hno : forall w1, (exists l, w1 = w ++ l /\ Forall not_ready l) -> Sys "pipe.Write" [marshal success] ∉ w1).
  { intros w1 (l & -> & Hl) [?|Hl']%elem_of_app; [done|]. rewrite Forall_forall in Hl. by apply (Hl _ Hl'). }
  unfold child_main in Hrun. rewrite bind_eq in Hrun. destruct (initc_main pid root file title w) as [[[code|drop|l]|e|p] w1] eqn:Ei;
    pose proof (initc_not_ready _ _ _ _ _ _ _ Ei) as Hnr.
  1,3,4,5: injection Hrun as _ <-; by apply Hno in Hnr.
  destruct (initc_becomes _ _ _ _ _ _ _ Ei) as (cfg & n & msg & s & _ & _ & _ & Hc & Hn & ->). exists cfg, n. split; [done|]. split; [done|].
  apply initd_calls in Hrun as (l & -> & [Hl| ->]); [|by rewrite (assoc_L (++))].
  destruct Hnr as (l0 & Hl0 & Hf). exfalso. apply (Hno ((w ++ initc_calls pid file title cfg n) ++ l)); [|done].
  rewrite Hl0. exists (l0 ++ l). rewrite (assoc_L (++)). split; [done|]. apply Forall_app. split; [done|].
  eapply Forall_impl; [exact Hl|]. intros c Hno' ->. by destruct (Hno' [marshal success]).
Qed.

(** The messages the child may write. *)
Definition child_message (c : Call) : Prop := forall msg, c = Sys "pipe.Write" [msg] ->
  msg = marshal success \/ exists m, msg = marshal (mkSignal SignalError_ m).

Lemma child_messages pid root file title : emits child_message (child_main pid root file title).
Proof.
  assert (Hsteps : forall cfg, Forall (fun s => emits child_message (Step_Run s)) (initc_steps pid cfg)).
  { intros cfg. apply emits_initc_steps. intros c Hc msg ->. by destruct (Hc [msg]). }
  assert (Hd : emits child_message initd_start).
  { intros w r w' (l & -> & Hl)%initd_calls. exists l. split; [done|]. destruct Hl as [Hl| ->].
    - eapply Forall_impl; [exact Hl|]. intros c Hc msg ->. by destruct (Hc [msg]).
    - repeat (apply Forall_cons; split; [done || (intros msg [= <-]; by left)|]). done. }
  unfold child_main, initc_main, Containerizer_Init, signalErrorf, SignalSuccess, SignalError, sendSignal, PipeSync_Wait,
    EnvFromFile, Initializer_Init. cbn [ContainerSteps].
  repeat first [ progress intros | apply emits_ret | apply emits_fail | apply emits_lift | apply emits_attempt | apply emits_map_err
               | apply emits_for_each, Hsteps | apply Hd | (apply emits_call; done) | (apply emits_call_; done)
               | (apply emits_call_; intros ? [= <-]; first [by left | by right; eexists]) | apply emits_bind | case_match ].
Qed.

(** When [Create] succeeds, the message it read was no error. *)
Lemma create_read c w w' : Containerizer_Create c w = (Ok tt, w') ->
  exists h msg s, env h (Sys "pipe.Read" [wait_timeout]) = inl msg /\ unmarshal msg = Ok s /\ sig_Type s <> SignalError_.
Proof.
  unfold Containerizer_Create. intros Hrun. do 7 (apply bind_Ok in Hrun as (? & ? & _ & Hrun)).
  rewrite map_err_eq in Hrun. destruct (PipeSync_Wait _ _) as [[[]|e|p] w1] eqn:Hw; [|done|done].
  unfold PipeSync_Wait in Hw. apply bind_Ok in Hw as (msg & w2 & Hread & Hw). apply bind_Ok in Hw as (s & w3 & [= Hs <-] & Hw).
  rewrite call_eq in Hread. destruct (env _ _) as [msg'|] eqn:Henv; [|done]. injection Hread as -> <-.
  destruct (Z.eqb_spec (sig_Type s) SignalError_); [done|]. by eexists _, msg, s.
Qed.

(** wshd exits with 0 only when [Create] succeeded. *)
Lemma wshd_created argv0 args w w' : wshd_main argv0 args w = (Ok (Exits 0), w') ->
  exists c w1, Containerizer_Create c w1 = (Ok tt, w').
Proof.
  unfold wshd_main. destruct (Parse wshd_flags args) as [[sets rest]|e|p]; [|done|done]. case_decide; [done|].
  intros Hrun. do 5 (let x := fresh "x" in apply bind_Ok in Hrun as (x & ? & _ & Hrun); destruct x; [|done]).
  apply bind_Ok in Hrun as (maxUID & ? & _ & Hrun). apply bind_Ok in Hrun as (r & w1 & Hc%attempt_Ok & Hrun).
  destruct r as [[]|]; [|done]. injection Hrun as <-. eauto.
Qed.
End Containerizer.

(** C31: wshd reports success only when the container is ready. Host and child
    fail wherever they like; all that is assumed of the pipe is that what the
    host reads from it the child wrote. Then, if wshd exits with 0, the child had
    waited for the host, read its configuration, run all its steps in order (the
    file systems, the network that the configuration gives, and the capabilities
    dropped unless the container is privileged), become initd, and listens on its
    socket. *)
Theorem create_ok_child_ready {codec : SignalCodec} henv cenv Error argv0 args pid root file title w w' o wc :
  wshd_main henv argv0 args w = (Ok (Exits 0), w') ->
  child_main cenv Error pid root file title [] = (o, wc) ->
  (forall h msg, henv h (Sys "pipe.Read" [wait_timeout]) = inl msg -> Sys "pipe.Write" [msg] ∈ wc) ->
  exists cfg n, read_config cenv file [] cfg /\ network_of cfg = Some n /\ wc = initc_calls pid file title cfg n ++ initd_ready_calls.
Proof.
  intros (c & w1 & (h & msg & s & Hread & Hs & Hne)%create_read)%wshd_created Hchild Hpipe. apply Hpipe in Hread.
  destruct (child_messages _ _ _ _ _ _ _ _ _ Hchild) as (l & Hl & Hmsgs). cbn in Hl. subst l. rewrite Forall_forall in Hmsgs.
  destruct (Hmsgs _ Hread _ eq_refl) as [->|[m ->]].
  - apply (child_ready cenv Error _ _ _ _ _ _ _ Hchild Hread). apply not_elem_of_nil.
  - destruct (unmarshal_marshal (mkSignal SignalError_ m)) as [m' Hm]. rewrite Hm in Hs. injection Hs as <-. by destruct Hne.
Qed.

(** A codec, for the example. *)
Definition text_unmarshal (x : string) : result PipeSignal :=
  match (text_decode x : option (Z * string)) with
  | Some (t, m) => Ok (mkSignal t m)
  | None => Err (Errorf "invalid character")
  end.

Lemma text_roundtrip s : exists m, text_unmarshal (text_encode (sig_Type s, sig_Message s)) = Ok (mkSignal (sig_Type s) m).
Proof. unfold text_unmarshal. rewrite text_decode_encode. by eexists. Qed.

#[export] Instance text_signals : SignalCodec :=
  {| marshal s := text_encode (sig_Type s, sig_Message s); unmarshal := text_unmarshal; unmarshal_marshal := text_roundtrip |}.

(** Every call succeeds, both sides read that the other one is ready, and the
    container is in 10.254.0.0/30. *)
Definition example_config : string :=
  "network_cidr=10.254.0.0/30" +:+ String newline ("container_iface_mtu=1500" +:+ String newline "root_uid=10000").
Definition env_handshake : Env := fun _ c =>
  match c with
  | Sys "pipe.Read" _ => inl (marshal success)
  | ReadFile "/etc/config" => inl example_config
  | ReadFile "/proc/sys/fs/nr_open" => inl "1048576"
  | ReadFile _ => inl "0 0 4294967295"
  | _ => inl ""
  end.
Definition wshd_example : list string := ["--root"; "/rootfs"; "--title=wshd"].

Lemma create_ok_child_ready_witness :
  exists w' o wc, wshd_main env_handshake "/bin/wshd" wshd_example [] = (Ok (Exits 0), w') /\
    child_main env_handshake (fun _ => "") 1 "/rootfs" "/etc/config" "wshd" [] = (o, wc) /\
    exists cfg n, read_config env_handshake "/etc/config" [] cfg /\ network_of cfg = Some n /\
      wc = initc_calls 1 "/etc/config" "wshd" cfg n ++ initd_ready_calls.
Proof.
  eexists _, _, _. split; [vm_compute; reflexivity|]. split; [vm_compute; reflexivity|].
  eapply (create_ok_child_ready env_handshake env_handshake (fun _ => "") "/bin/wshd" wshd_example 1
           "/rootfs" "/etc/config" "wshd" []); [vm_compute; reflexivity|vm_compute; reflexivity|].
  intros h msg [= <-]. apply (bool_decide_unpack _). vm_compute. done.
Defined.
