(* ===== verification/Container.v ===== *)
(** * The container (src/linux_container, src/linux_backend/resources.go)

    A [LinuxContainer] is a spec that its operations update, a grace time, a
    counter of process IDs, a process tracker and an out-of-memory notifier.
    Its operations also use the server's port pool, so they are state passing
    over the container, the pool and the world. Each mutex of the source guards
    the fields one operation reads or writes, and every operation is one step
    here. The collaborators the repository does not define (the quota manager,
    the network statistics) are calls of the world. *)
From S2P Require Import Prelude GoStrings GoNet World ProcessEnv RLimits Subnets PortPool IPTables.
From S2P Require Import IPTablesManager Bandwidth Cgroups Metrics ProcessTracker.

(** ** resources.go and snapshot.go *)

Record MemoryLimits := mkMemoryLimits { LimitInBytes : Z }.
Record CPULimits := mkCPULimits { LimitInShares : Z }.
Record DiskLimits := mkDiskLimits { InodeSoft : Z; InodeHard : Z; ByteSoft : Z; ByteHard : Z; Scope : Z }.

#[export] Instance MemoryLimits_eq_dec : EqDecision MemoryLimits.
Proof. solve_decision. Defined.
#[export] Instance CPULimits_eq_dec : EqDecision CPULimits.
Proof. solve_decision. Defined.
#[export] Instance DiskLimits_eq_dec : EqDecision DiskLimits.
Proof. solve_decision. Defined.
#[export] Instance BandwidthLimits_eq_dec : EqDecision BandwidthLimits.
Proof. solve_decision. Defined.

Record Limits := mkContainerLimits {
  l_Memory : option MemoryLimits;
  l_Disk : option DiskLimits;
  l_Bandwidth : option BandwidthLimits;
  l_CPU : option CPULimits
}.

Record NetInSpec := mkNetIn { HostPort : Z; ContainerPort : Z }.

Inductive State := StateBorn | StateActive | StateStopped | StateOther (s : string).

#[export] Instance State_eq_dec : EqDecision State.
Proof. solve_decision. Defined.

Record Resources := mkResources {
  RootUID : Z;
  res_Network : option Network;
  Bridge : string;
  Ports : list Z;
  ExternalIP : IP
}.

Definition NewResources (rootuid : Z) (network : option Network) (bridge : string) (ports : list Z) (externalIP : IP)
    : Resources := mkResources rootuid network bridge ports externalIP.

Definition AddPort (port : Z) (r : Resources) : Resources :=
  mkResources (RootUID r) (res_Network r) (Bridge r) (Ports r ++ [port]) (ExternalIP r).

(** [Network.MarshalJSON] and [UnmarshalJSON], as the two texts in the object. *)
Definition Network_MarshalJSON (n : Network) : string * string := (IP_String (nw_IP n), IPNet_String (nw_Subnet n)).

Definition Network_UnmarshalJSON (j : string * string) : result Network :=
  let ip := ParseIP j.1 in
  res_bind (ParseCIDR j.2) (fun '(_, subnet) => Ok (mkNetwork subnet ip)).

(** [garden.BindMount] *)
Record BindMount := mkBindMount { SrcPath : string; DstPath : string; ModeRW : bool; OriginContainer : bool }.

(** [garden.ContainerSpec] with the limits a client asks for. *)
Record ContainerSpec := mkContainerSpec {
  Handle : string;
  GraceTime : Z;
  RootFSPath : string;
  BindMounts : list BindMount;
  spec_Network : string;
  Properties : gmap string string;
  spec_Env : list string;
  Privileged : bool;
  spec_Limits : MemoryLimits * DiskLimits * BandwidthLimits * CPULimits
}.

(** [semver.Version], as far as the program compares it. *)
Definition Version : Type := Z * Z * Z.
Definition MissingVersion : Version := (0, 0, 0).

Record LinuxContainerSpec := mkLinuxSpec {
  ID : string;
  ContainerPath : string;
  ContainerRootFSPath : string;
  spec_Resources : Resources;
  spec_State : State;
  Events : list string;
  spec_ContainerSpec : ContainerSpec;
  Limits_ : Limits;
  Processes : list Z;
  NetIns : list NetInSpec;
  NetOuts : list NetOutRule;
  spec_Version : Version
}.

Record ContainerSnapshot := mkSnapshot {
  snap_ID : string;
  snap_Handle : string;
  snap_RootFSPath : string;
  snap_GraceTime : Z;
  snap_State : State;
  snap_Events : list string;
  snap_Limits : Limits;
  snap_RootUID : Z;
  snap_Network : option Network;
  snap_Bridge : string;
  snap_Ports : list Z;
  snap_Processes : list Z;
  snap_NetIns : list NetInSpec;
  snap_NetOuts : list NetOutRule;
  snap_Properties : gmap string string;
  snap_EnvVars : list string
}.

(** ** linux_container.go: the object *)

Record LinuxContainer := mkContainer {
  c_spec : LinuxContainerSpec;
  c_graceTime : Z;
  currentProcessID : Z;
  processTracker_ : processTracker;
  oom_cmd : option Cmd
}.

Definition NewLinuxContainer (spec : LinuxContainerSpec) : LinuxContainer :=
  mkContainer spec (GraceTime (spec_ContainerSpec spec)) 0 Tracker_New None.

(** Updates of one field. *)
Definition with_spec (f : LinuxContainerSpec -> LinuxContainerSpec) (c : LinuxContainer) : LinuxContainer :=
  mkContainer (f (c_spec c)) (c_graceTime c) (currentProcessID c) (processTracker_ c) (oom_cmd c).

Definition set_state (x : State) (s : LinuxContainerSpec) : LinuxContainerSpec :=
  mkLinuxSpec (ID s) (ContainerPath s) (ContainerRootFSPath s) (spec_Resources s) x (Events s) (spec_ContainerSpec s)
    (Limits_ s) (Processes s) (NetIns s) (NetOuts s) (spec_Version s).
Definition set_resources (x : Resources) (s : LinuxContainerSpec) : LinuxContainerSpec :=
  mkLinuxSpec (ID s) (ContainerPath s) (ContainerRootFSPath s) x (spec_State s) (Events s) (spec_ContainerSpec s)
    (Limits_ s) (Processes s) (NetIns s) (NetOuts s) (spec_Version s).
Definition add_event (ev : string) (s : LinuxContainerSpec) : LinuxContainerSpec :=
  mkLinuxSpec (ID s) (ContainerPath s) (ContainerRootFSPath s) (spec_Resources s) (spec_State s) (Events s ++ [ev])
    (spec_ContainerSpec s) (Limits_ s) (Processes s) (NetIns s) (NetOuts s) (spec_Version s).
Definition set_limits (x : Limits) (s : LinuxContainerSpec) : LinuxContainerSpec :=
  mkLinuxSpec (ID s) (ContainerPath s) (ContainerRootFSPath s) (spec_Resources s) (spec_State s) (Events s)
    (spec_ContainerSpec s) x (Processes s) (NetIns s) (NetOuts s) (spec_Version s).
Definition add_netin (x : NetInSpec) (s : LinuxContainerSpec) : LinuxContainerSpec :=
  mkLinuxSpec (ID s) (ContainerPath s) (ContainerRootFSPath s) (spec_Resources s) (spec_State s) (Events s)
    (spec_ContainerSpec s) (Limits_ s) (Processes s) (NetIns s ++ [x]) (NetOuts s) (spec_Version s).
Definition add_netout (x : NetOutRule) (s : LinuxContainerSpec) : LinuxContainerSpec :=
  mkLinuxSpec (ID s) (ContainerPath s) (ContainerRootFSPath s) (spec_Resources s) (spec_State s) (Events s)
    (spec_ContainerSpec s) (Limits_ s) (Processes s) (NetIns s) (NetOuts s ++ [x]) (spec_Version s).
Definition set_gspec (x : ContainerSpec) (s : LinuxContainerSpec) : LinuxContainerSpec :=
  mkLinuxSpec (ID s) (ContainerPath s) (ContainerRootFSPath s) (spec_Resources s) (spec_State s) (Events s) x
    (Limits_ s) (Processes s) (NetIns s) (NetOuts s) (spec_Version s).
Definition set_properties (x : gmap string string) (g : ContainerSpec) : ContainerSpec :=
  mkContainerSpec (Handle g) (GraceTime g) (RootFSPath g) (BindMounts g) (spec_Network g) x (spec_Env g) (Privileged g)
    (spec_Limits g).
Definition set_env (x : list string) (g : ContainerSpec) : ContainerSpec :=
  mkContainerSpec (Handle g) (GraceTime g) (RootFSPath g) (BindMounts g) (spec_Network g) (Properties g) x (Privileged g)
    (spec_Limits g).

(** ** Pure operations *)

(** [ProcessIDPool] *)
Definition Next (current : Z) : Z * Z := let n := u32 (current + 1) in (n, n).
Definition ProcessIDPool_Restore (id current : Z) : Z := if current <=? id then id else current.

Definition props (c : LinuxContainer) : gmap string string := Properties (spec_ContainerSpec (c_spec c)).

Definition Property (key : string) (c : LinuxContainer) : result string :=
  match props c !! key with Some value => Ok value | None => Err (UndefinedPropertyError key) end.

Definition put_properties (m : gmap string string) : LinuxContainer -> LinuxContainer :=
  with_spec (fun s => set_gspec (set_properties m (spec_ContainerSpec s)) s).

Definition SetProperty (key value : string) (c : LinuxContainer) : LinuxContainer :=
  put_properties (<[key := value]> (props c)) c.

Definition RemoveProperty (key : string) (c : LinuxContainer) : result unit * LinuxContainer :=
  match props c !! key with
  | None => (Err (UndefinedPropertyError key), c)
  | Some _ => (Ok tt, put_properties (delete key (props c)) c)
  end.

Definition HasProperties (properties : gmap string string) (c : LinuxContainer) : bool :=
  forallb (fun kv => bool_decide (props c !! kv.1 = Some kv.2)) (map_to_list properties).

Definition SetGraceTime (graceTime : Z) (c : LinuxContainer) : LinuxContainer :=
  mkContainer (c_spec c) graceTime (currentProcessID c) (processTracker_ c) (oom_cmd c).

Definition processSignaller (c : LinuxContainer) : Signaller :=
  if decide (spec_Version (c_spec c) = MissingVersion)
  then NamespacedSignaller (ContainerPath (c_spec c)) 10000
  else LinkSignaller.

(** [garden.ContainerInfo] *)
Record ContainerInfo := mkInfo {
  info_State : State;
  info_Events : list string;
  info_Properties : gmap string string;
  info_ContainerPath : string;
  info_ProcessIDs : list string;
  info_MappedPorts : list (Z * Z);
  info_ContainerIP : string;
  info_HostIP : string;
  info_ExternalIP : string
}.

(** A nil network is a nil dereference. *)
Definition network_of (c : LinuxContainer) : result Network :=
  match res_Network (spec_Resources (c_spec c)) with
  | Some n => Ok n
  | None => Panic "invalid memory address or nil pointer dereference"
  end.

Definition Info (c : LinuxContainer) : result ContainerInfo :=
  res_bind (network_of c) (fun n =>
  res_bind (GatewayIP (nw_Subnet n)) (fun gw =>
  Ok {| info_State := spec_State (c_spec c);
        info_Events := Events (c_spec c);
        info_Properties := props c;
        info_ContainerPath := ContainerPath (c_spec c);
        info_ProcessIDs := ActiveProcesses (processTracker_ c);
        info_MappedPorts := (fun s => (HostPort s, ContainerPort s)) <$> NetIns (c_spec c);
        info_ContainerIP := IP_String (nw_IP n);
        info_HostIP := IP_String gw;
        info_ExternalIP := IP_String (ExternalIP (spec_Resources (c_spec c))) |})).

(** [strconv.Atoi] on the IDs the tracker holds. *)
Definition Atoi (s : string) : option Z := match ParseUint s with Ok n => Some n | _ => None end.

Definition Snapshot (c : LinuxContainer) : result ContainerSnapshot :=
  match mapM Atoi (ActiveProcesses (processTracker_ c)) with
  | None => Panic "process id not a number"
  | Some pids =>
      let s := c_spec c in
      Ok {| snap_ID := ID s; snap_Handle := Handle (spec_ContainerSpec s); snap_RootFSPath := ContainerRootFSPath s;
            snap_GraceTime := GraceTime (spec_ContainerSpec s); snap_State := spec_State s; snap_Events := Events s;
            snap_Limits := Limits_ s; snap_RootUID := RootUID (spec_Resources s);
            snap_Network := res_Network (spec_Resources s); snap_Bridge := Bridge (spec_Resources s);
            snap_Ports := Ports (spec_Resources s); snap_Processes := u32 <$> pids; snap_NetIns := NetIns s;
            snap_NetOuts := NetOuts s; snap_Properties := props c;
            snap_EnvVars := spec_Env (spec_ContainerSpec s) |}
  end.

(** [filepath.Dir] and [filepath.Base]. *)
Fixpoint trim_slashes (l : list string) : list string :=
  match l with "" :: l' => trim_slashes l' | _ => l end.
Definition path_dir (p : string) : string :=
  match reverse (split "/"%char p) with
  | _ :: rest => path_clean (join "/" (reverse rest) +:+ (if decide (rest = []) then "" else "/"))
  | [] => "."
  end.
Definition path_base (p : string) : string :=
  if decide (p = "") then "."
  else match trim_slashes (reverse (split "/"%char p)) with x :: _ => x | [] => "/" end.
Definition has_suffix_slash (p : string) : bool := bool_decide (last_char p = Some "/"%char).

(** ** Operations with effects *)

Definition CS : Type := LinuxContainer * PortPool.

Definition getc : M (CS * World) LinuxContainer := gets fst.
Definition modc (f : LinuxContainer -> LinuxContainer) : M (CS * World) unit := update (fun s => (f s.1, s.2)).
Definition with_ports {A} (m : M PortPool A) : M (CS * World) A :=
  zoom (fun s => s.1.2) (fun p s => ((s.1.1, p), s.2)) m.

Definition setState (x : State) : M (CS * World) unit := modc (with_spec (set_state x)).
Definition registerEvent (event : string) : M (CS * World) unit := modc (with_spec (add_event event)).

Definition set_oom (cmd : option Cmd) (c : LinuxContainer) : LinuxContainer :=
  mkContainer (c_spec c) (c_graceTime c) (currentProcessID c) (processTracker_ c) cmd.
Definition set_pid (n : Z) (c : LinuxContainer) : LinuxContainer :=
  mkContainer (c_spec c) (c_graceTime c) n (processTracker_ c) (oom_cmd c).
Definition set_tracker (t : processTracker) (c : LinuxContainer) : LinuxContainer :=
  mkContainer (c_spec c) (c_graceTime c) (currentProcessID c) t (oom_cmd c).

Definition limits_of (c : LinuxContainer) : Limits := Limits_ (c_spec c).
Definition put_limits (l : Limits) : M (CS * World) unit := modc (with_spec (set_limits l)).

(** [garden.ProcessSpec] *)
Record ProcessSpec := mkProcessSpec {
  ps_Path : string;
  ps_Args : list string;
  ps_Env : list string;
  ps_Dir : string;
  ps_User : string;
  ps_Limits : ResourceLimits;
  ps_TTY : option TTYSpec
}.

(** [if p != nil { cmd.Env = append(cmd.Env, ...) }] for each limit, in the order of running.go. *)
Definition setRLimitsEnv (rlimits : ResourceLimits) (env : list string) : list string :=
  let env := append_limit env "RLIMIT_AS" (As rlimits) in
  let env := append_limit env "RLIMIT_CORE" (Core rlimits) in
  let env := append_limit env "RLIMIT_CPU" (Cpu rlimits) in
  let env := append_limit env "RLIMIT_DATA" (Data rlimits) in
  let env := append_limit env "RLIMIT_FSIZE" (Fsize rlimits) in
  let env := append_limit env "RLIMIT_LOCKS" (Locks rlimits) in
  let env := append_limit env "RLIMIT_MEMLOCK" (Memlock rlimits) in
  let env := append_limit env "RLIMIT_MSGQUEUE" (Msgqueue rlimits) in
  let env := append_limit env "RLIMIT_NICE" (Nice rlimits) in
  let env := append_limit env "RLIMIT_NOFILE" (Nofile rlimits) in
  let env := append_limit env "RLIMIT_NPROC" (Nproc rlimits) in
  let env := append_limit env "RLIMIT_RSS" (Rss rlimits) in
  let env := append_limit env "RLIMIT_RTPRIO" (Rtprio rlimits) in
  let env := append_limit env "RLIMIT_SIGPENDING" (Sigpending rlimits) in
  append_limit env "RLIMIT_STACK" (Stack rlimits).

(** The arguments of wsh for a process: [processEnv] is the merged environment. *)
Definition wsh_args (c : LinuxContainer) (spec : ProcessSpec) (processEnv : ProcEnv) (processID : Z) : list string :=
  let cp := ContainerPath (c_spec c) in
  let args := ["--socket"; path_join [cp; "run"; "wshd.sock"]; "--readSignals"; "--user"; ps_User spec] in
  let args := args ++ (Env_Array processEnv ≫= fun envVar => ["--env"; envVar]) in
  let args := if decide (ps_Dir spec = "") then args else args ++ ["--dir"; ps_Dir spec] in
  let args := if decide (spec_Version (c_spec c) = MissingVersion)
              then args ++ ["--pidfile"; path_join [cp; "processes"; FormatUint processID 10 +:+ ".pid"]]
              else args in
  args ++ ps_Path spec :: ps_Args spec.

(** The command that [Run] starts. *)
Definition run_cmd (c : LinuxContainer) (spec : ProcessSpec) (processEnv : ProcEnv) (processID : Z) : Cmd :=
  let wsh := mkCmd (path_join [ContainerPath (c_spec c); "bin"; "wsh"]) (wsh_args c spec processEnv processID)
               (setRLimitsEnv (ps_Limits spec) []) "" in
  spawn_cmd (ContainerPath (c_spec c)) (FormatUint processID 10) wsh (ps_TTY spec).

(** [garden.ContainerMetrics]; the disk usage is what the quota manager answers. *)
Record ContainerMetrics := mkMetrics {
  met_Memory : MemoryStat;
  met_CPU : CPUStat;
  met_Disk : string;
  met_Network : NetworkStat
}.

Section Container.
(** The world, the server's PATH, the cgroup reader and root, the iptables chains
    and the filter chain of the container, and the decoder of the interface's
    counters. *)
Context (env : Env) (os_PATH : string) (node : string -> M World string) (cgroupsPath : string)
  (chains : list ContainerChain) (ch : chain) (decode_stats : string -> NetworkStat).
Local Open Scope go_scope.

(** *** oom_notifier.go *)

Definition Watch : M (CS * World) unit :=
  let! c := getc in
  match oom_cmd c with
  | Some _ => ret tt
  | None =>
      let oomPath := path_join [ContainerPath (c_spec c); "bin"; "oom"] in
      let! memorySubsystemPath := map_err (Wrapf "linux_container: startOomNotifier: %s" [])
                                    (eff (SubsystemPath node cgroupsPath (ID (c_spec c)) "memory")) in
      let cmd := Command oomPath [memorySubsystemPath] in
      do! modc (set_oom (Some cmd)) in
      eff (call_ env (Start cmd))
  end.

Definition Unwatch : M (CS * World) unit :=
  let! c := getc in
  match oom_cmd c with
  | Some cmd => ignore (eff (call_ env (Sys "runner.Kill" (cmd_Path cmd :: cmd_Args cmd))))
  | None => ret tt
  end.

(** *** linux_container.go *)

Definition Cleanup : M (CS * World) unit := Unwatch.

Definition Stop (kill : bool) : M (CS * World) unit :=
  let! c := getc in
  do! eff (call_ env (Run (Command (path_join [ContainerPath (c_spec c); "stop.sh"])
                                   (if kill then ["-w"; "0"] else [])))) in
  do! Cleanup in
  setState StateStopped.

(** The goroutine of the notifier when its command ends: without an error the
    container ran out of memory. *)
Definition oom_fired (err : option error) : M (CS * World) unit :=
  do! modc (set_oom None) in
  match err with
  | Some _ => ret tt
  | None => do! registerEvent "out of memory" in ignore (Stop true)
  end.

Definition container_setup (id bridge : string) (n : result Network) : M (CS * World) unit :=
  let! nw := lift n in eff (ContainerSetup chains id bridge (nw_IP nw) (nw_Subnet nw)).

Definition Container_Start : M (CS * World) unit :=
  let! c := getc in
  do! map_err (Wrapf "container: start: %v" [])
        (container_setup (ID (c_spec c)) (Bridge (spec_Resources (c_spec c))) (network_of c)) in
  do! map_err (Wrapf "container: start: %v" [])
        (eff (call_ env (Run (mkCmd (path_join [ContainerPath (c_spec c); "start.sh"]) []
                                ["id=" +:+ ID (c_spec c); "PATH=" +:+ os_PATH] "")))) in
  setState StateActive.

Definition NetIn (hostPort containerPort : Z) : M (CS * World) (Z * Z) :=
  let! hostPort :=
    (if hostPort =? 0 then
       let! randomPort := with_ports PortPool_Acquire in
       do! modc (with_spec (fun s => set_resources (AddPort randomPort (spec_Resources s)) s)) in
       ret randomPort
     else ret hostPort) in
  let containerPort := if containerPort =? 0 then hostPort else containerPort in
  let! c := getc in
  do! eff (call_ env (Run (mkCmd (path_join [ContainerPath (c_spec c); "net.sh"]) ["in"]
        ["HOST_PORT=" +:+ FormatUint hostPort 10; "CONTAINER_PORT=" +:+ FormatUint containerPort 10;
         "PATH=" +:+ os_PATH] ""))) in
  do! modc (with_spec (add_netin (mkNetIn hostPort containerPort))) in
  ret (hostPort, containerPort).

Definition NetOut (r : NetOutRule) : M (CS * World) unit :=
  do! eff (filter_NetOut env ch r) in
  modc (with_spec (add_netout r)).

(** *** limits.go *)

Definition LimitBandwidth (limits : BandwidthLimits) : M (CS * World) unit :=
  let! c := getc in
  do! eff (Bandwidth_SetLimits env (ContainerPath (c_spec c)) limits) in
  let! c := getc in
  let l := limits_of c in
  put_limits (mkContainerLimits (l_Memory l) (l_Disk l) (Some limits) (l_CPU l)).

Definition CurrentBandwidthLimits (c : LinuxContainer) : BandwidthLimits :=
  default (mkBandwidth 0 0) (l_Bandwidth (limits_of c)).

Definition LimitDisk (limits : DiskLimits) : M (CS * World) unit :=
  let! c := getc in
  do! eff (call_ env (Sys "quota.SetLimits" [ContainerRootFSPath (c_spec c); FormatUint (InodeSoft limits) 10;
        FormatUint (InodeHard limits) 10; FormatUint (ByteSoft limits) 10; FormatUint (ByteHard limits) 10;
        FormatUint (Scope limits) 10])) in
  let! c := getc in
  let l := limits_of c in
  put_limits (mkContainerLimits (l_Memory l) (Some limits) (l_Bandwidth l) (l_CPU l)).

Definition cg_set (subsystem name value : string) : M (CS * World) unit :=
  let! c := getc in eff (Cgroups_Set env node cgroupsPath (ID (c_spec c)) subsystem name value).
Definition cg_get (subsystem name : string) : M (CS * World) string :=
  let! c := getc in eff (Cgroups_Get env node cgroupsPath (ID (c_spec c)) subsystem name).

Definition LimitMemory (limits : MemoryLimits) : M (CS * World) unit :=
  do! Watch in
  let limit := FormatUint (LimitInBytes limits) 10 in
  do! ignore (cg_set "memory" "memory.limit_in_bytes" limit) in
  do! ignore (cg_set "memory" "memory.memsw.limit_in_bytes" limit) in
  do! cg_set "memory" "memory.limit_in_bytes" limit in
  let! c := getc in
  let l := limits_of c in
  put_limits (mkContainerLimits (Some limits) (l_Disk l) (l_Bandwidth l) (l_CPU l)).

Definition CurrentMemoryLimits : M (CS * World) MemoryLimits :=
  let! limitInBytes := cg_get "memory" "memory.limit_in_bytes" in
  let! numericLimit := lift (ParseUint limitInBytes) in
  ret (mkMemoryLimits numericLimit).

Definition LimitCPU (limits : CPULimits) : M (CS * World) unit :=
  do! cg_set "cpu" "cpu.shares" (FormatUint (LimitInShares limits) 10) in
  let! c := getc in
  let l := limits_of c in
  put_limits (mkContainerLimits (l_Memory l) (l_Disk l) (l_Bandwidth l) (Some limits)).

Definition CurrentCPULimits : M (CS * World) CPULimits :=
  let! actualLimitInShares := cg_get "cpu" "cpu.shares" in
  let! numericLimit := lift (ParseUint actualLimitInShares) in
  ret (mkCPULimits numericLimit).

(** *** metrics.go *)

Definition Container_Metrics : M (CS * World) ContainerMetrics :=
  let! c := getc in
  let! diskStat := eff (call env (Sys "quota.GetUsage" [ContainerRootFSPath (c_spec c)])) in
  let! cpuStat := cg_get "cpuacct" "cpuacct.stat" in
  let! cpuUsage := cg_get "cpuacct" "cpuacct.usage" in
  let! memoryStat := cg_get "memory" "memory.stat" in
  let! host := attempt (eff (call env (Sys "netStats.Statistics" [ID (c_spec c)]))) in
  let hostNetworkStat := match host with inl s => decode_stats s | inr _ => mkNetworkStat 0 0 end in
  ret {| met_Memory := parseMemoryStat memoryStat;
         met_CPU := parseCPUStat cpuUsage cpuStat;
         met_Disk := diskStat;
         met_Network := mkNetworkStat (TxBytes hostNetworkStat) (RxBytes hostNetworkStat) |}.

(** *** running.go *)

(** What [Spawn] sends on [ready] and [active]. *)
Definition spawn (cmd : Cmd) : M World (option error * option error) :=
  let! started := attempt (do! call_ env (Sys "spawn.StdoutPipe" []) in call_ env (Start cmd)) in
  match started with
  | inr e => ret (Some e, None)
  | inl _ =>
      let! r := attempt (call_ env (Sys "spawn.ready" (cmd_Args cmd))) in
      match r with
      | inr e => ret (Some (Wrapf "failed to read ready: %s" [] e), None)
      | inl _ =>
          let! a := attempt (call_ env (Sys "spawn.active" (cmd_Args cmd))) in
          match a with
          | inr e => ret (None, Some (Wrapf "failed to read active: %s" [] e))
          | inl _ => ret (None, None)
          end
      end
  end.

Definition Container_Run (spec : ProcessSpec) : M (CS * World) string :=
  if decide (ps_User spec = "") then fail (Errorf "A User for the process to run as must be specified.")
  else
    let! specEnv := lift (NewEnv (ps_Env spec)) in
    let! c := getc in
    let! procEnv := lift (NewEnv (spec_Env (spec_ContainerSpec (c_spec c)))) in
    let processEnv := Env_Merge procEnv specEnv in
    let '(processID, next) := Next (currentProcessID c) in
    do! modc (set_pid next) in
    let id := FormatUint processID 10 in
    let! ' (ready, active) := eff (spawn (run_cmd c spec processEnv processID)) in
    let! c := getc in
    let '(r, t) := Tracker_Run id (processSignaller c) ready active (processTracker_ c) in
    do! modc (set_tracker t) in
    lift r.

Definition Container_Attach (processID : string) : M (CS * World) string :=
  let! c := getc in
  let '(r, t) := Tracker_Attach processID (processTracker_ c) in
  do! modc (set_tracker t) in
  lift r.

(** *** Streams *)

(** The PID of the container's init process; [fmt.Fscanf] of its PID file. *)
Definition wshd_pid (c : LinuxContainer) : M (CS * World) Z :=
  let! contents := eff (call env (ReadFile (path_join [ContainerPath (c_spec c); "run"; "wshd.pid"]))) in
  match Sscanf_int contents with Some pid => ret pid | None => fail (Errorf "expected integer") end.

Definition StreamIn (path user : string) (tar : string) : M (CS * World) unit :=
  let! c := getc in
  let! pid := wshd_pid c in
  let user := if decide (user = "") then "root" else user in
  map_err (Wrapf "error streaming in: %v. Output: %s" [])
    (eff (call_ env (Run (mkCmd (path_join [ContainerPath (c_spec c); "bin"; "nstar"])
      [path_join [ContainerPath (c_spec c); "bin"; "tar"]; Itoa pid; user; path] [] tar)))).

Definition StreamOut (path user : string) : M (CS * World) string :=
  let! c := getc in
  let workingDir := if has_suffix_slash path then path else path_dir path in
  let compressArg := if has_suffix_slash path then "." else path_base path in
  let! pid := wshd_pid c in
  let user := if decide (user = "") then "root" else user in
  do! eff (call_ env (Sys "pipe" [])) in
  eff (call env (Background (Command (path_join [ContainerPath (c_spec c); "bin"; "nstar"])
    [path_join [ContainerPath (c_spec c); "bin"; "tar"]; Itoa pid; user; workingDir; compressArg]))).

(** *** Restore *)

Definition restore_process (signaller : Signaller) (id : Z) : M (CS * World) unit :=
  modc (fun c => set_tracker (Tracker_Restore (FormatUint id 10) signaller (processTracker_ c))
                   (set_pid (ProcessIDPool_Restore id (currentProcessID c)) c)).

Definition Container_Restore (snapshot : LinuxContainerSpec) : M (CS * World) unit :=
  do! setState (spec_State snapshot) in
  do! modc (with_spec (fun s => set_gspec (set_env (spec_Env (spec_ContainerSpec snapshot)) (spec_ContainerSpec s)) s)) in
  do! for_each registerEvent (Events snapshot) in
  do! (match l_Memory (Limits_ snapshot) with Some m => LimitMemory m | None => ret tt end) in
  let! c := getc in
  do! for_each (restore_process (processSignaller c)) (Processes snapshot) in
  do! container_setup (ID snapshot) (Bridge (spec_Resources snapshot))
        (match res_Network (spec_Resources snapshot) with
         | Some n => Ok n | None => Panic "invalid memory address or nil pointer dereference" end) in
  do! for_each (fun i => bind (NetIn (HostPort i) (ContainerPort i)) (fun _ => ret tt)) (NetIns snapshot) in
  for_each NetOut (NetOuts snapshot).
End Container.
