(* ===== verification/ContainerTheorems.v ===== *)
(** * Theorems on the container *)
From S2P Require Import Prelude GoStrings GoNet IPv4 World ProcessEnv RLimits Subnets PortPool IPTables.
From S2P Require Import Sysconfig IPTablesManager Bandwidth Cgroups Metrics ProcessTracker Container.

(** ** Snapshots of the network *)

Lemma ParseIP_dotted z : ParseIP (dotted (bytes4 z)) = v4InV6Prefix ++ bytes4 z.
Proof. unfold ParseIP. by rewrite parseIPv4_dotted. Qed.

(** A container's network survives its snapshot: decoding the JSON texts
    of an IPv4 network gives the same subnet and an equal address (in the
    16-byte form [ParseIP] returns). *)
Theorem network_json_roundtrip b q ip z :
  canonical b q -> is4 ip z ->
  exists ip', Network_UnmarshalJSON (Network_MarshalJSON (mkNetwork (net4 b q) ip)) = Ok (mkNetwork (net4 b q) ip') /\
    IP_Equal ip' ip = true /\ is4 ip' z.
Proof.
  intros Hc Hz. unfold Network_UnmarshalJSON, Network_MarshalJSON. cbn [fst snd nw_IP nw_Subnet].
  rewrite ParseCIDR_net4 by done. cbn [res_bind]. rewrite (IP_String_is4 _ _ Hz), ParseIP_dotted.
  eexists. split; [done|]. assert (H16 : is4 (v4InV6Prefix ++ bytes4 z) z) by apply (is4_16 z), Hz.
  split; [|exact H16]. rewrite (Equal_is4 _ _ _ _ H16 Hz). by apply bool_decide_eq_true.
Qed.

Lemma network_json_roundtrip_witness :
  exists ip', Network_UnmarshalJSON (Network_MarshalJSON (mkNetwork (net4 184418304 30) (bytes4 184418306)))
    = Ok (mkNetwork (net4 184418304 30) ip') /\ IP_Equal ip' (bytes4 184418306) = true /\ is4 ip' 184418306.
Proof.
  apply network_json_roundtrip; [split; [lia|split; [unfold is_u32; lia|reflexivity]]|].
  apply is4_4. unfold is_u32. lia.
Defined.

(** ** Properties of a container *)

Lemma forallb_subset (m p : gmap string string) :
  forallb (fun kv => bool_decide (m !! kv.1 = Some kv.2)) (map_to_list p) = true <-> p ⊆ m.
Proof.
  rewrite forallb_forall, map_subseteq_spec. split.
  - intros H k v Hk. specialize (H (k, v)). rewrite <- list_elem_of_In, elem_of_map_to_list in H.
    by apply (bool_decide_eq_true_1 _ (H Hk)).
  - intros H [k v] Hin. rewrite <- list_elem_of_In, elem_of_map_to_list in Hin. apply bool_decide_eq_true. by apply H.
Qed.

(** The properties of a container behave as a map: a value set under a key
    is read back and other keys keep theirs, removing a key makes it undefined
    and fails when it already was, and a container matches a set of properties
    exactly when it has all of them with these values. *)
Theorem container_properties c k v k' p :
  Property k (SetProperty k v c) = Ok v /\
  (k' <> k -> Property k' (SetProperty k v c) = Property k' c) /\
  (forall c', RemoveProperty k c = (Ok tt, c') ->
     Property k c' = Err (UndefinedPropertyError k) /\ (k' <> k -> Property k' c' = Property k' c)) /\
  (forall e, Property k c = Err e -> RemoveProperty k c = (Err (UndefinedPropertyError k), c)) /\
  (HasProperties p c = true <-> p ⊆ props c).
Proof.
  unfold Property, SetProperty, RemoveProperty, HasProperties. split_and!.
  - cbn. by rewrite lookup_insert_eq.
  - intros Hne. cbn. by rewrite lookup_insert_ne.
  - intros c' Hr. destruct (props c !! k) eqn:E; [|done]. injection Hr as <-. cbn. rewrite lookup_delete_eq. split; [done|].
    intros Hne. by rewrite lookup_delete_ne.
  - intros e. by destruct (props c !! k) eqn:E.
  - apply forallb_subset.
Qed.

(** ** Process IDs *)

Lemma restore_max ids cur : cur <= foldl (fun c i => ProcessIDPool_Restore i c) cur ids /\
  Forall (fun i => i <= foldl (fun c i => ProcessIDPool_Restore i c) cur ids) ids.
Proof.
  revert cur. induction ids as [|i ids IH]; intros cur; cbn; [split; [lia|constructor]|].
  destruct (IH (ProcessIDPool_Restore i cur)) as [Hc Hf].
  assert (Hi : i <= ProcessIDPool_Restore i cur /\ cur <= ProcessIDPool_Restore i cur)
    by (unfold ProcessIDPool_Restore; destruct (Z.leb_spec cur i); lia).
  split; [lia|constructor; [lia|done]].
Qed.

Lemma restore_in ids cur : foldl (fun c i => ProcessIDPool_Restore i c) cur ids = cur \/
  foldl (fun c i => ProcessIDPool_Restore i c) cur ids ∈ ids.
Proof.
  revert cur. induction ids as [|i ids IH]; intros cur; cbn; [by left|].
  destruct (IH (ProcessIDPool_Restore i cur)) as [->|?]; [|right; by right].
  unfold ProcessIDPool_Restore. destruct (cur <=? i); [right; by left|by left].
Qed.

(** A process started after a restart does not take the ID of a restored
    one: the next ID is above every restored ID, as long as the 32-bit counter
    does not wrap. *)
Theorem process_ids_fresh ids :
  Forall (fun i => 0 <= i < 4294967295) ids ->
  (Next (foldl (fun c i => ProcessIDPool_Restore i c) 0 ids)).1 ∉ ids.
Proof.
  intros Hids Hin. destruct (restore_max ids 0) as [H0 Hmax]. set (m := foldl _ 0 ids) in *.
  assert (Hm : m < 4294967295).
  { destruct (restore_in ids 0) as [Heq|Hm]; [unfold m; lia|]. rewrite Forall_forall in Hids. apply (Hids m Hm). }
  rewrite Forall_forall in Hmax. specialize (Hmax _ Hin). unfold Next in Hmax. cbn in Hmax.
  rewrite u32_small in Hmax by (unfold is_u32; lia). lia.
Qed.

Lemma process_ids_fresh_witness : (Next (foldl (fun c i => ProcessIDPool_Restore i c) 0 [3; 9; 4])).1 ∉ [3; 9; 4].
Proof. apply process_ids_fresh. repeat constructor; lia. Defined.

(** ** Restoring *)

Section Restore.
Context (env : Env) (os_PATH : string) (node : string -> M World string) (cgroupsPath : string)
  (chains : list ContainerChain) (ch : chain).

Definition lists (c : LinuxContainer) := (Events (c_spec c), NetIns (c_spec c), NetOuts (c_spec c)).
Definition lists_of (s : CS * World) := lists s.1.1.

Lemma LimitMemory_keeps m : keeps lists_of (LimitMemory env node cgroupsPath m).
Proof. unfold LimitMemory, Watch, cg_set, put_limits, getc, modc, eff. keeps_tac. Qed.

Lemma registerEvents_spec evs s : exists s', for_each registerEvent evs s = (Ok tt, s') /\
  lists s'.1.1 = (Events (c_spec s.1.1) ++ evs, NetIns (c_spec s.1.1), NetOuts (c_spec s.1.1)).
Proof.
  revert s. induction evs as [|e evs IH]; intros s; cbn [for_each].
  - exists s. split; [done|]. by rewrite app_nil_r.
  - rewrite bind_eq. unfold registerEvent at 1, modc, update. destruct s as [[c p] w]. cbn [fst snd].
    destruct (IH ((with_spec (add_event e) c, p), w)) as (s' & -> & Hs'). exists s'. split; [done|].
    rewrite Hs'. cbn. by rewrite <- (assoc_L (++)).
Qed.

(** A port mapping with given ports. *)
Lemma NetIn_spec hp cp s r s' : hp <> 0 -> cp <> 0 -> NetIn env os_PATH hp cp s = (Ok r, s') ->
  lists s'.1.1 = (Events (c_spec s.1.1), NetIns (c_spec s.1.1) ++ [mkNetIn hp cp], NetOuts (c_spec s.1.1)).
Proof.
  intros Hh Hc. unfold NetIn. destruct (Z.eqb_spec hp 0) as [|_]; [done|]. destruct (Z.eqb_spec cp 0) as [|_]; [done|].
  destruct s as [[c p] w]. rewrite bind_eq. unfold ret at 1. rewrite bind_eq. unfold getc, gets. cbn [fst].
  rewrite bind_eq, eff_eq, call__eq. destruct (env w _); [|done]. by intros [= <- <-].
Qed.

Lemma NetIns_spec ins : Forall (fun i => HostPort i <> 0 /\ ContainerPort i <> 0) ins -> forall s s',
  for_each (fun i => bind (NetIn env os_PATH (HostPort i) (ContainerPort i)) (fun _ => ret tt)) ins s = (Ok tt, s') ->
  lists s'.1.1 = (Events (c_spec s.1.1), NetIns (c_spec s.1.1) ++ ins, NetOuts (c_spec s.1.1)).
Proof.
  induction 1 as [|i ins [Hh Hc] _ IH]; intros s s'; cbn [for_each].
  - intros [= <-]. by rewrite app_nil_r.
  - intros ([] & s1 & H1 & H2)%bind_Ok. apply bind_Ok in H1 as (x & s2 & Hn & [= ->]).
    apply NetIn_spec in Hn; [|done|done]. apply IH in H2. rewrite H2. unfold lists in Hn.
    injection Hn as -> -> ->. rewrite <- (assoc_L (++)). by destruct i.
Qed.

Lemma NetOuts_spec outs : forall s s', for_each (NetOut env ch) outs s = (Ok tt, s') ->
  lists s'.1.1 = (Events (c_spec s.1.1), NetIns (c_spec s.1.1), NetOuts (c_spec s.1.1) ++ outs).
Proof.
  induction outs as [|o outs IH]; intros s s'; cbn [for_each].
  - intros [= <-]. by rewrite app_nil_r.
  - intros ([] & s1 & H1 & H2)%bind_Ok. apply bind_Ok in H1 as ([] & s2 & Hf & Hm). apply IH in H2. rewrite H2.
    assert (Hk : lists_of s2 = lists_of s) by (revert Hf; unfold eff; apply (fun K : keeps lists_of _ => K); keeps_tac). destruct s2 as [[c2 p2] w2]. injection Hm as <-.
    unfold lists_of, lists in Hk. cbn in *.
    injection Hk as -> -> ->. by rewrite <- (assoc_L (++)).
Qed.

(** Restoring doubles the records of a container: the object is made from
    the snapshot's spec, with its events and rules, and [Restore] registers each
    of them again, so after a successful restore every event, port mapping and
    net-out rule of the snapshot is recorded twice. *)
Theorem restore_doubles_records spec pp w c' pp' w' :
  Forall (fun i => HostPort i <> 0 /\ ContainerPort i <> 0) (NetIns spec) ->
  Container_Restore env os_PATH node cgroupsPath chains ch spec ((NewLinuxContainer spec, pp), w) = (Ok tt, ((c', pp'), w')) ->
  Events (c_spec c') = Events spec ++ Events spec /\
  NetIns (c_spec c') = NetIns spec ++ NetIns spec /\
  NetOuts (c_spec c') = NetOuts spec ++ NetOuts spec.
Proof.
  intros Hin. unfold Container_Restore.
  intros ([] & s1 & H1 & H)%bind_Ok. injection H1 as <-.
  apply bind_Ok in H as ([] & s2 & H2 & H). injection H2 as <-.
  apply bind_Ok in H as ([] & s3 & H3 & H). edestruct registerEvents_spec as (s3' & E3 & L3). rewrite E3 in H3.
  injection H3 as ->. clear E3.
  apply bind_Ok in H as ([] & s4 & H4 & H).
  assert (L4 : lists s4.1.1 = lists s3.1.1) by (destruct (l_Memory _); [exact (LimitMemory_keeps _ _ _ _ H4)|by injection H4 as <-]).
  apply bind_Ok in H as (c & s5 & H5 & H). injection H5 as _ <-.
  apply bind_Ok in H as ([] & s6 & H6 & H).
  apply (keeps_for_each lists_of) in H6; [|intros x; unfold restore_process, modc; keeps_tac].
  apply bind_Ok in H as ([] & s7 & H7 & H).
  assert (L7 : lists s7.1.1 = lists s6.1.1) by (revert H7; unfold container_setup, eff; apply (fun K : keeps lists_of _ => K); keeps_tac).
  apply bind_Ok in H as ([] & s8 & H8 & H). apply NetIns_spec in H8; [|done]. apply NetOuts_spec in H.
  unfold lists_of in H6. rewrite L4, L3 in H6. rewrite H6 in L7. unfold lists in *. cbn in *.
  injection L7 as E1 E2 E3. rewrite E1, E2, E3 in H8. injection H8 as F1 F2 F3. rewrite F1, F2, F3 in H.
  by injection H as -> -> ->.
Qed.
End Restore.

Definition node_root : string -> M World string := fun _ => ret "/".

Definition sample_gspec : ContainerSpec :=
  mkContainerSpec "h" 0 "" [] "" ∅ [] false (mkMemoryLimits 0, mkDiskLimits 0 0 0 0 0, mkBandwidth 0 0, mkCPULimits 0).

Definition sample_spec : LinuxContainerSpec :=
  {| ID := "c1"; ContainerPath := "/depot/c1"; ContainerRootFSPath := "/rootfs";
     spec_Resources := mkResources 0 (Some (mkNetwork (net4 184418304 30) (bytes4 184418306))) "br" [60000] [];
     spec_State := StateActive; Events := ["party"]; spec_ContainerSpec := sample_gspec;
     Limits_ := mkContainerLimits (Some (mkMemoryLimits 1024)) None None None; Processes := [1; 5];
     NetIns := [mkNetIn 60000 8080]; NetOuts := [mkRule ProtocolAll [] [] None false]; spec_Version := (1, 0, 0) |}.

Definition empty_ports : PortPool := {| pp_start := 60000; pp_size := 1; pp_pool := []; pp_state := mkState 0 |}.

Lemma restore_doubles_records_witness :
  exists c' pp' w',
    Container_Restore env_ok "/bin" node_root "/cg" [] (NewLoggingChain "c1" false) sample_spec
      ((NewLinuxContainer sample_spec, empty_ports), []) = (Ok tt, ((c', pp'), w')) /\
    Events (c_spec c') = ["party"; "party"] /\
    NetIns (c_spec c') = [mkNetIn 60000 8080; mkNetIn 60000 8080] /\
    NetOuts (c_spec c') = NetOuts sample_spec ++ NetOuts sample_spec.
Proof.
  eexists _, _, _. split; [vm_compute; reflexivity|].
  eapply (restore_doubles_records env_ok "/bin" node_root "/cg" [] (NewLoggingChain "c1" false) sample_spec empty_ports []);
    [repeat constructor; cbn; lia|vm_compute; reflexivity].
Defined.

(** ** Limits *)

Section Limits.
Context (env : Env) (node : string -> M World string) (cgroupsPath : string).

Lemma cg_get_eq sub name c p w : cg_get env node cgroupsPath sub name ((c, p), w) =
  match Cgroups_Get env node cgroupsPath (ID (c_spec c)) sub name w with (r, w') => (r, ((c, p), w')) end.
Proof. done. Qed.

Lemma cg_set_eq sub name v c p w : cg_set env node cgroupsPath sub name v ((c, p), w) =
  match Cgroups_Set env node cgroupsPath (ID (c_spec c)) sub name v w with (r, w') => (r, ((c, p), w')) end.
Proof. done. Qed.

Lemma put_limits_eq l c p w : put_limits l ((c, p), w) = (Ok tt, ((with_spec (set_limits l) c, p), w)).
Proof. done. Qed.

(** The last three steps of a memory limit. *)
Lemma LimitMemory_last m s s' : LimitMemory env node cgroupsPath m s = (Ok tt, s') ->
  exists c p w w1, Cgroups_Set env node cgroupsPath (ID (c_spec c)) "memory" "memory.limit_in_bytes"
      (FormatUint (LimitInBytes m) 10) w = (Ok tt, w1) /\
    s' = ((with_spec (set_limits (mkContainerLimits (Some m) (l_Disk (limits_of c)) (l_Bandwidth (limits_of c))
             (l_CPU (limits_of c)))) c, p), w1).
Proof.
  unfold LimitMemory. intros ([] & s1 & _ & H)%bind_Ok. apply bind_Ok in H as ([] & s2 & _ & H).
  apply bind_Ok in H as ([] & s3 & _ & H). apply bind_Ok in H as ([] & s4 & H4 & H).
  apply bind_Ok in H as (c & s5 & H5 & H). destruct s3 as [[c3 p3] w3]. rewrite cg_set_eq in H4.
  destruct (Cgroups_Set _ _ _ _ _ _ _ w3) as [r w1] eqn:E. injection H4 as -> <-. injection H5 as <- <-.
  rewrite put_limits_eq in H. injection H as <-. by exists c3, p3, w3, w1.
Qed.

(** C36: a limit that was set is the limit that is reported: after a successful
    [LimitMemory] or [LimitCPU], the corresponding query returns it and the
    container records it, on a host whose files read back what was written. *)
Theorem limits_read_back n n' mem cpu s s1 s1' :
  reads_back env -> stable_node node "memory" n -> stable_node node "cpu" n' ->
  is_u64 (LimitInBytes mem) -> is_u64 (LimitInShares cpu) ->
  LimitMemory env node cgroupsPath mem s = (Ok tt, s1) -> LimitCPU env node cgroupsPath cpu s = (Ok tt, s1') ->
  (exists s2, CurrentMemoryLimits env node cgroupsPath s1 = (Ok mem, s2)) /\ l_Memory (limits_of s1.1.1) = Some mem /\
  (exists s2, CurrentCPULimits env node cgroupsPath s1' = (Ok cpu, s2)) /\ l_CPU (limits_of s1'.1.1) = Some cpu.
Proof.
  intros Hr Hsm Hsc Hm Hc Hmem Hcpu.
  apply LimitMemory_last in Hmem as (c & p & w & w1 & Hset & ->).
  destruct (Get_Set env node cgroupsPath (ID (c_spec c)) "memory" n "memory.limit_in_bytes" _ w w1 Hr Hsm (proj1 Hm) Hset)
    as (w2 & Hget).
  unfold LimitCPU in Hcpu. apply bind_Ok in Hcpu as ([] & s4 & H4 & H). destruct s as [[c0 p0] w0]. rewrite cg_set_eq in H4.
  destruct (Cgroups_Set _ _ _ _ _ _ _ w0) as [r w1'] eqn:E. injection H4 as -> <-.
  apply bind_Ok in H as (c1 & s5 & H5 & H). injection H5 as <- <-. rewrite put_limits_eq in H. injection H as <-.
  destruct (Get_Set env node cgroupsPath (ID (c_spec c0)) "cpu" n' "cpu.shares" _ w0 w1' Hr Hsc (proj1 Hc) E) as (w2' & Hget').
  split_and!; [| done | | done].
  - unfold CurrentMemoryLimits. rewrite bind_eq, cg_get_eq. cbn [c_spec with_spec set_limits ID]. rewrite Hget.
    rewrite bind_eq. unfold lift. rewrite ParseUint_FormatUint by done. eexists. unfold ret. by destruct mem.
  - unfold CurrentCPULimits. rewrite bind_eq, cg_get_eq. cbn [c_spec with_spec set_limits ID]. rewrite Hget'.
    rewrite bind_eq. unfold lift. rewrite ParseUint_FormatUint by done. eexists. unfold ret. by destruct cpu.
Qed.
End Limits.

(** A host with files that read back, on which everything else succeeds. *)
Definition env_files : Env := fun h c =>
  match c with ReadFile p => match last_write p h with Some d => inl d | None => inl "" end | _ => inl "" end.

Lemma env_files_reads_back : reads_back env_files.
Proof. intros w p d H. cbn. by rewrite H. Qed.

Lemma node_root_stable sub : stable_node node_root sub "/".
Proof. intros w. exists []. split; [by rewrite app_nil_r|done]. Qed.

Lemma limits_read_back_witness :
  exists s1 s1',
  (exists s2, CurrentMemoryLimits env_files node_root "/cg" s1 = (Ok (mkMemoryLimits 4096), s2)) /\
  l_Memory (limits_of s1.1.1) = Some (mkMemoryLimits 4096) /\
  (exists s2, CurrentCPULimits env_files node_root "/cg" s1' = (Ok (mkCPULimits 2), s2)) /\
  l_CPU (limits_of s1'.1.1) = Some (mkCPULimits 2).
Proof.
  eexists _, _. eapply (limits_read_back env_files node_root "/cg" "/" "/" (mkMemoryLimits 4096) (mkCPULimits 2)
                  ((NewLinuxContainer sample_spec, empty_ports), []));
    [apply env_files_reads_back|apply node_root_stable|apply node_root_stable|unfold is_u64; cbn; lia|unfold is_u64; cbn; lia
    |vm_compute; reflexivity|vm_compute; reflexivity].
Defined.

(** ** The out-of-memory notifier *)

(** When the notifier's command cannot be started, the notifier stays
    marked as running: the first [Watch] returns the error, every later one
    returns success without starting anything, so a memory limit set after it
    reports no out-of-memory event. *)
Theorem watch_after_failed_start env node cgroupsPath c p w path w1 e :
  oom_cmd c = None ->
  SubsystemPath node cgroupsPath (ID (c_spec c)) "memory" w = (Ok path, w1) ->
  env w1 (Start (Command (path_join [ContainerPath (c_spec c); "bin"; "oom"]) [path])) = inr e ->
  exists s, Watch env node cgroupsPath ((c, p), w) = (Err e, s) /\
            Watch env node cgroupsPath s = (Ok tt, s).
Proof.
  intros Hc Hp He. unfold Watch. rewrite bind_eq. unfold getc, gets. cbn [fst]. rewrite Hc.
  rewrite bind_eq, map_err_eq, eff_eq, Hp. rewrite bind_eq. unfold modc, update. cbn [fst snd].
  rewrite eff_eq, call__eq, He. eexists. split; [reflexivity|]. done.
Qed.

Lemma watch_after_failed_start_witness :
  exists s, Watch (fun _ _ => inr (Errorf "no such file")) node_root "/cg" ((NewLinuxContainer sample_spec, empty_ports), [])
            = (Err (Errorf "no such file"), s) /\
            Watch (fun _ _ => inr (Errorf "no such file")) node_root "/cg" s = (Ok tt, s).
Proof.
  eapply (watch_after_failed_start _ _ _ (NewLinuxContainer sample_spec)); [reflexivity|reflexivity|reflexivity].
Defined.

(** ** Life cycle *)

(** Commands that are run one after the other up to the first that the host
    refuses, with its error. *)
Inductive commands (env : Env) : World -> list Call -> option error -> World -> Prop :=
  | commands_end w : commands env w [] None w
  | commands_ran w c out l r w' : env w c = inl out -> commands env (w ++ [c]) l r w' -> commands env w (c :: l) r w'
  | commands_refused w c e l : env w c = inr e -> commands env w (c :: l) (Some e) (w ++ [c]).

(** The same when a command that is refused is run once more. *)
Inductive commands_again (env : Env) : World -> list Call -> option error -> World -> Prop :=
  | again_end w : commands_again env w [] None w
  | again_ran w c out l r w' : env w c = inl out -> commands_again env (w ++ [c]) l r w' -> commands_again env w (c :: l) r w'
  | again_second w c e out l r w' : env w c = inr e -> env (w ++ [c]) c = inl out ->
      commands_again env ((w ++ [c]) ++ [c]) l r w' -> commands_again env w (c :: l) r w'
  | again_refused w c e e' l : env w c = inr e -> env (w ++ [c]) c = inr e' ->
      commands_again env w (c :: l) (Some e') ((w ++ [c]) ++ [c]).

(** The outcome of a sequence of commands as a result, with what its error is wrapped in. *)
Definition outcome (g : error -> error) (o : option error) : result unit := match o with Some e => Err (g e) | None => Ok tt end.

Lemma for_each_commands env g l w :
  exists o, commands env w l o (for_each (fun c => map_err g (call_ env c)) l w).2 /\
    (for_each (fun c => map_err g (call_ env c)) l w).1 = outcome g o.
Proof.
  revert w. induction l as [|c l IH]; intros w; [exists None; by repeat constructor|].
  cbn [for_each]. rewrite bind_eq, map_err_eq, call__eq. destruct (env w c) as [out|e] eqn:E; cbn.
  - destruct (IH (w ++ [c])) as (o & Ho & Hr). exists o. split; [by econstructor|done].
  - exists (Some e). by split; [constructor|].
Qed.

Lemma natChain_Setup_commands env cfg id br ip net w :
  exists o, commands_again env w (nat_setup_commands cfg id net) o (natChain_Setup env cfg id br ip net w).2 /\
    (natChain_Setup env cfg id br ip net w).1 = outcome (Wrapf "iptables_manager: nat: %s" []) o.
Proof.
  unfold natChain_Setup. generalize (nat_setup_commands cfg id net) as l. intros l. revert w.
  induction l as [|c l IH]; intros w; [exists None; by repeat constructor|].
  cbn [for_each]. rewrite bind_eq, bind_eq, attempt_eq, call__eq. destruct (env w c) as [out|e] eqn:E; cbn [fst snd ret].
  { destruct (IH (w ++ [c])) as (o & Ho & Hr). exists o. split; [by econstructor|done]. }
  rewrite map_err_eq, call__eq. destruct (env (w ++ [c]) c) as [out|e'] eqn:E'; cbn.
  - destruct (IH ((w ++ [c]) ++ [c])) as (o & Ho & Hr). exists o. split; [by eapply again_second|done].
  - exists (Some e'). by split; [econstructor|].
Qed.

Section Lifecycle.
Context (env : Env) (os_PATH : string) (filter : IPTablesFilterConfig) (nat : IPTablesNATConfig) (c : LinuxContainer) (p : PortPool).
Notation id := (ID (c_spec c)).
Notation forget_filter := (filter_teardown_commands filter id).
Notation forget_nat := (nat_teardown_commands nat id).
Notation make_filter n := (filter_setup_commands filter id (Bridge (spec_Resources (c_spec c))) (nw_IP n) (nw_Subnet n)).
Notation make_nat n := (nat_setup_commands nat id (nw_Subnet n)).
Notation failed e := (Err (Wrapf "container: start: %v" [] e)).
Notation filter_error := (Wrapf "iptables_manager: filter: %s" []).
Notation nat_error := (Wrapf "iptables_manager: nat: %s" []).

Definition start_script : Call :=
  Run (mkCmd (path_join [ContainerPath (c_spec c); "start.sh"]) [] ["id=" +:+ id; "PATH=" +:+ os_PATH] "").

Definition stop_script (kill : bool) : Call :=
  Run (Command (path_join [ContainerPath (c_spec c); "stop.sh"]) (if kill then ["-w"; "0"] else [])).

(** The chains of the container are forgotten and made again, up to the history [w']. *)
Definition rules_made (n : Network) (w w' : World) : Prop :=
  exists w3, commands env w (forget_filter ++ forget_nat ++ make_filter n) None w3 /\ commands_again env w3 (make_nat n) None w'.

(** How a start goes, from the history [w]: its result, the container and its ports
    after it, and the history. *)
Inductive start_run (w : World) : result unit * (CS * World) -> Prop :=
  | start_ok n w1 out : network_of c = Ok n -> rules_made n w w1 -> env w1 start_script = inl out ->
      start_run w (Ok tt, ((with_spec (set_state StateActive) c, p), w1 ++ [start_script]))
  | start_refused n w1 e : network_of c = Ok n -> rules_made n w w1 -> env w1 start_script = inr e ->
      start_run w (failed e, ((c, p), w1 ++ [start_script]))
  | start_nat_refused n w1 w2 e o w3 : network_of c = Ok n ->
      commands env w (forget_filter ++ forget_nat ++ make_filter n) None w1 ->
      commands_again env w1 (make_nat n) (Some e) w2 -> commands env w2 forget_filter o w3 ->
      start_run w (failed (nat_error e), ((c, p), w3))
  | start_filter_refused n w1 w2 e : network_of c = Ok n ->
      commands env w (forget_filter ++ forget_nat) None w1 -> commands env w1 (make_filter n) (Some e) w2 ->
      start_run w (failed (filter_error e), ((c, p), w2))
  | start_not_forgotten n w1 w2 o e : network_of c = Ok n ->
      commands env w forget_filter o w1 -> commands env w1 forget_nat (Some e) w2 ->
      start_run w (failed (nat_error e), ((c, p), w2))
  | start_filter_not_forgotten n w1 w2 e : network_of c = Ok n ->
      commands env w forget_filter (Some e) w1 -> commands env w1 forget_nat None w2 ->
      start_run w (failed (filter_error e), ((c, p), w2))
  | start_no_network e : network_of c = Err e -> start_run w (failed e, ((c, p), w))
  | start_bad_network m : network_of c = Panic m -> start_run w (Panic m, ((c, p), w)).

Lemma commands_app w l1 l2 w1 o w2 : commands env w l1 None w1 -> commands env w1 l2 o w2 -> commands env w (l1 ++ l2) o w2.
Proof. intros H. remember None as none eqn:Hn. revert Hn. induction H; intros Hn H2; [done| |done]. by econstructor; eauto. Qed.

Notation chains := [NewFilterChain env filter; NewNATChain env nat].

(** Both chains are forgotten, whatever is refused, and the last refusal is the error. *)
Lemma ContainerTeardown_run w : exists o1 w1 o2 w2,
  commands env w forget_filter o1 w1 /\ commands env w1 forget_nat o2 w2 /\
  ContainerTeardown chains id w =
    (match o2, o1 with Some e, _ => Err (nat_error e) | None, Some e => Err (filter_error e) | None, None => Ok tt end, w2).
Proof.
  destruct (for_each_commands env filter_error forget_filter w) as (o1 & Ho1 & Hr1).
  destruct (for_each _ _ w) as [r1 w1] eqn:E1. destruct (for_each_commands env nat_error forget_nat w1) as (o2 & Ho2 & Hr2).
  destruct (for_each _ _ w1) as [r2 w2] eqn:E2. cbn [fst snd] in *. subst r1 r2. exists o1, w1, o2, w2. split_and!; [done..|].
  unfold ContainerTeardown. cbn [teardown_loop NewFilterChain NewNATChain cc_Teardown]. rewrite bind_eq, attempt_eq.
  unfold filterChain_Teardown. rewrite E1. unfold natChain_Teardown.
  destruct o1; cbn [outcome]; rewrite bind_eq, attempt_eq, E2; by destruct o2.
Qed.

(** The chains are made one after the other; the filter chain is forgotten again when
    the nat chain cannot be made. *)
Lemma setup_loop_run n w : exists o1 w1,
  commands env w (make_filter n) o1 w1 /\
  match o1 with
  | Some e => setup_loop [] chains id (Bridge (spec_Resources (c_spec c))) (nw_IP n) (nw_Subnet n) w = (Err (filter_error e), w1)
  | None => exists o2 w2, commands_again env w1 (make_nat n) o2 w2 /\
      match o2 with
      | Some e => exists o3 w3, commands env w2 forget_filter o3 w3 /\
          setup_loop [] chains id (Bridge (spec_Resources (c_spec c))) (nw_IP n) (nw_Subnet n) w = (Err (nat_error e), w3)
      | None => setup_loop [] chains id (Bridge (spec_Resources (c_spec c))) (nw_IP n) (nw_Subnet n) w = (Ok tt, w2)
      end
  end.
Proof.
  destruct (for_each_commands env filter_error (make_filter n) w) as (o1 & Ho1 & Hr1).
  destruct (for_each _ _ w) as [r1 w1] eqn:E1. cbn [fst snd] in *. subst r1. exists o1, w1. split; [done|].
  cbn [setup_loop app NewFilterChain NewNATChain cc_Setup cc_Teardown]. rewrite bind_eq, attempt_eq. unfold filterChain_Setup. rewrite E1.
  destruct o1 as [e1|]; [done|]. cbn [outcome]. rewrite bind_eq, attempt_eq.
  destruct (natChain_Setup_commands env nat id (Bridge (spec_Resources (c_spec c))) (nw_IP n) (nw_Subnet n) w1) as (o2 & Ho2 & Hr2).
  destruct (natChain_Setup _ _ _ _ _ _ w1) as [r2 w2]. cbn [fst snd] in *. subst r2. exists o2, w2. split; [done|].
  destruct o2 as [e2|]; [|done]. destruct (for_each_commands env filter_error forget_filter w2) as (o3 & Ho3 & Hr3).
  cbn [outcome for_each]. rewrite bind_eq, bind_eq, ignore_eq. cbn [NewFilterChain cc_Teardown]. unfold filterChain_Teardown.
  destruct (for_each _ _ w2) as [r3 w3]. cbn [fst snd] in *. subst r3. exists o3, w3. split; [done|]. by destruct o3.
Qed.

Lemma Container_Start_run w : start_run w (Container_Start env os_PATH chains ((c, p), w)).
Proof.
  unfold Container_Start, container_setup. rewrite bind_eq. unfold getc, gets. cbn [fst].
  rewrite bind_eq, map_err_eq, bind_eq. unfold lift. destruct (network_of c) as [n|e|m] eqn:Hn; [|by constructor..].
  rewrite eff_eq. unfold ContainerSetup. rewrite bind_eq. destruct (ContainerTeardown_run w) as (o1 & w1 & o2 & w2 & H1 & H2 & ->).
  destruct o2 as [e2|]; [by eapply start_not_forgotten|]. destruct o1 as [e1|]; [by eapply start_filter_not_forgotten|].
  pose proof (commands_app _ _ _ _ _ _ H1 H2) as Ht. destruct (setup_loop_run n w2) as (o3 & w3 & H3 & Hr3).
  destruct o3 as [e3|]; [rewrite Hr3; by eapply start_filter_refused|]. pose proof (commands_app _ _ _ _ _ _ Ht H3) as Hs.
  rewrite <- (assoc_L (++)) in Hs. destruct Hr3 as (o4 & w4 & H4 & Hr4).
  destruct o4 as [e4|]; [destruct Hr4 as (o5 & w5 & H5 & ->); by eapply start_nat_refused|]. rewrite Hr4.
  rewrite bind_eq, map_err_eq, eff_eq, call__eq. destruct (env w4 _) eqn:E; cbn; [eapply start_ok|eapply start_refused]; try done; by eexists.
Qed.
End Lifecycle.

(** C35: the start and the stop of a container on every branch: the commands in
    their order, the result, and the container after it. [Container_Start] first
    forgets the two iptables chains of the container, both of them whatever is refused,
    then makes the filter chain and the nat chain, whose commands are run once more
    when they are refused, and then runs the start script; only when all of it went
    well the container is active. The first refusal ends it, is its error and leaves
    the container as it was; when it is one of the nat chain, the filter chain is
    forgotten again. [Stop] runs the stop script; when that is refused, this is the
    error and nothing else happens; otherwise the notifier of memory, if there is one,
    is killed, and the container is stopped even when the notifier cannot be killed.
    The chains are those that the server is built with. *)
Theorem lifecycle env os_PATH filter nat kill c p w :
  start_run env os_PATH filter nat c p w
    (Container_Start env os_PATH [NewFilterChain env filter; NewNATChain env nat] ((c, p), w)) /\
  Stop env kill ((c, p), w) =
    match env w (stop_script c kill) with
    | inr e => (Err e, ((c, p), w ++ [stop_script c kill]))
    | inl _ => (Ok tt, ((with_spec (set_state StateStopped) c, p),
        (w ++ [stop_script c kill]) ++
        match oom_cmd c with Some cmd => [Sys "runner.Kill" (cmd_Path cmd :: cmd_Args cmd)] | None => [] end))
    end.
Proof.
  split; [apply Container_Start_run|]. unfold Stop, Cleanup, Unwatch. rewrite bind_eq. unfold getc, gets at 1. cbn [fst].
  rewrite bind_eq, eff_eq, call__eq. fold (stop_script c kill). destruct (env w _) as [o|e]; [|done].
  rewrite bind_eq, bind_eq. unfold gets. cbn [fst]. destruct (oom_cmd c); [|by rewrite app_nil_r].
  rewrite ignore_eq, eff_eq, call__eq. by destruct (env _ _).
Qed.
