(* ===== verification/ContainerDaemon.v ===== *)
(** * The daemon inside the container (src/container_daemon)

    initd serves two requests: run a process and signal a process. [Handle]
    decodes a request, prepares the command of a process ([PrepareCmd]) and
    spawns it. The user database is a parameter; the JSON codec of the messages
    is the class [WireCodec], with what the protocol needs of it. *)
From S2P Require Import Prelude GoStrings World ProcessEnv RLimits Sysconfig ProcessTracker Container Spawn.

Definition DefaultRootPATH : string := "/usr/local/sbin:/usr/local/bin:/usr/sbin:/usr/bin:/sbin:/bin".
Definition DefaultUserPath : string := "/usr/local/bin:/usr/bin:/bin".

(** ** prepare.go *)

(** [os/user.User], as far as it is used. *)
Record OSUser := mkOSUser { os_Uid : string; os_Gid : string; os_HomeDir : string }.

Record parsedUser := mkParsedUser { username : string; uid : Z; gid : Z; homeDir : string }.

(** [fmt.Sscanf(s, "%d", &x)] into a [uint32]. *)
Definition Sscanf_uint32 (s : string) : option Z :=
  match Sscanf_d s with Some v => if v <? 4294967296 then Some v else None | None => None end.

(** [if _, has := env[k]; !has { env[k] = v }] *)
Definition set_default (k v : string) (env : ProcEnv) : ProcEnv :=
  match env !! k with Some _ => env | None => <[k := v]> env end.

Definition createEnvironment (specEnv : list string) (usr : parsedUser) : result ProcEnv :=
  match NewEnv specEnv with
  | Err e => Err (Wrapf "invalid environment %v: %s" specEnv e)
  | Panic m => Panic m
  | Ok env =>
      let env := <["USER" := username usr]> env in
      let env := set_default "HOME" (homeDir usr) env in
      let env := set_default "PATH" (if uid usr =? 0 then DefaultRootPATH else DefaultUserPath) env in
      Ok env
  end.

(** ** Requests and responses (daemon.go) *)

Inductive Request :=
| ProcessRequest (data : string)
| SignalRequest (data : string)
| UnknownRequest (Type_ : Z).

Record ResponseMessage := mkResponse { resp_Type : Z; resp_Files : list File; resp_Pid : Z; resp_ErrMessage : string }.

Definition ProcessResponse : Z := 1.
Definition SignalResponse : Z := 3.

(** Text that encoding/json does not have to change. *)
Definition is_ascii (s : string) : Prop := Forall (fun c => (nat_of_ascii c < 128)%nat) (chars s).

#[export] Instance is_ascii_dec s : Decision (is_ascii s).
Proof. unfold is_ascii. apply _. Defined.

Definition spec_ascii (spec : ProcessSpec) : Prop :=
  Forall is_ascii (ps_Path spec :: ps_Dir spec :: ps_User spec :: ps_Args spec ++ ps_Env spec).

(** encoding/json on the messages. It replaces bytes that are not valid UTF-8, so
    texts come back unchanged when they are ASCII, and a text that is not empty
    does not become empty; numbers come back. An object that is cut short does
    not decode. The files are not part of the text of a response. *)
Class WireCodec := {
  marshal_request : Request -> string;
  decode_request : string -> result Request;
  marshal_process : ProcessSpec -> string;
  decode_process : string -> result ProcessSpec;
  marshal_signal : Z * Z -> string;
  decode_signal : string -> result (Z * Z);
  marshal_response : ResponseMessage -> string;
  decode_response : string -> result ResponseMessage;
  request_roundtrip r : decode_request (marshal_request r) = Ok r;
  process_roundtrip spec : spec_ascii spec -> decode_process (marshal_process spec) = Ok spec;
  signal_roundtrip p : decode_signal (marshal_signal p) = Ok p;
  response_roundtrip r : exists m, decode_response (marshal_response r) = Ok (mkResponse (resp_Type r) [] (resp_Pid r) m) /\
    (is_ascii (resp_ErrMessage r) -> m = resp_ErrMessage r) /\ (m = "" <-> resp_ErrMessage r = "");
  response_nonempty r : marshal_response r <> "";
  response_cut r n : (n < String.length (marshal_response r))%nat -> exists e, decode_response (String.substring 0 n (marshal_response r)) = Err e
}.

(** user.go: an entry of the user database, as the library for it gives it. *)
Record UserEntry := mkUserEntry { ue_Uid : Z; ue_Gid : Z; ue_Home : string }.

(** [LibContainerUser.Lookup] with the library's [LookupUser]; the user that comes
    with an error is not looked at. *)
Definition LibContainerUser_Lookup (LookupUser : string -> result UserEntry) (name : string) : result (option OSUser) :=
  match LookupUser name with
  | Ok u => Ok (Some (mkOSUser (Itoa (ue_Uid u)) (Itoa (ue_Gid u)) (ue_Home u)))
  | Err e => Err e
  | Panic m => Panic m
  end.

Section Daemon.
Context {codec : WireCodec} (env : Env) (Users_Lookup : string -> result (option OSUser)) (AlwaysDropCapabilities : bool).
Local Open Scope go_scope.

Definition parseUser (name : string) : result parsedUser :=
  match Users_Lookup name with
  | Ok (Some u) =>
      match Sscanf_uint32 (os_Uid u) with
      | None => Err (Errorv "failed to parse uid %q" [os_Uid u])
      | Some uid =>
          match Sscanf_uint32 (os_Gid u) with
          | None => Err (Errorv "failed to parse gid %q" [os_Gid u])
          | Some gid => Ok (mkParsedUser name uid gid (os_HomeDir u))
          end
      end
  | Ok None => Err (Errorv "failed to lookup user %s" [name])
  | Err e => Err (Wrapf "lookup user %s: %s" [name] e)
  | Panic m => Panic m
  end.

Definition drop_capabilities (spec : ProcessSpec) : bool := AlwaysDropCapabilities || negb (bool_decide (ps_User spec = "root")).

Definition PrepareCmd (spec : ProcessSpec) : result Cmd :=
  let rlimitsEnv := EncodeLimits (ps_Limits spec) in
  match parseUser (ps_User spec) with
  | Err e => Err (Wrapf "container_daemon: %s" [] e)
  | Panic m => Panic m
  | Ok usr =>
      match createEnvironment (ps_Env spec) usr with
      | Err e => Err (Wrapf "container_daemon: %s" [] e)
      | Panic m => Panic m
      | Ok env =>
          let dir := if decide (ps_Dir spec = "") then homeDir usr else ps_Dir spec in
          Ok (mkCmd "/proc/self/exe"
                (["proc_starter"; "-dropCapabilities=" +:+ FormatBool (drop_capabilities spec);
                  "-extendedWhitelist=" +:+ FormatBool (negb AlwaysDropCapabilities);
                  "-rlimits=" +:+ rlimitsEnv; "-uid=" +:+ FormatUint (uid usr) 10; "-gid=" +:+ FormatUint (gid usr) 10;
                  "-workDir=" +:+ dir; "--"; ps_Path spec] ++ ps_Args spec)
                (Env_Array env) "")
      end
  end.

(** *** signaller.go *)

Definition ProcessSignaller_Signal (pid signal : Z) : M World unit :=
  do! map_err (Wrapf "container_daemon: signaller: find process: pid: %d, %s" [Itoa pid])
        (call_ env (Sys "os.FindProcess" [Itoa pid])) in
  map_err (Wrapf "container_daemon: signaller: signal process: pid: %d, %s" [Itoa pid])
    (call_ env (Sys "process.Signal" [Itoa pid; Itoa signal])).

(** *** daemon.go *)

Definition handle_request (text : string) : M (Daemon * World) ResponseMessage :=
  let! request := map_err (Wrapf "container_daemon: decode message spec: %s" []) (lift (decode_request text)) in
  match request with
  | ProcessRequest data =>
      let! spec := map_err (Wrapf "container_daemon: json unmarshal process spec: %s" []) (lift (decode_process data)) in
      let! cmd := lift (PrepareCmd spec) in
      let! ' (files, pid) := Spawn env cmd (bool_decide (is_Some (ps_TTY spec))) in
      ret (mkResponse ProcessResponse files pid "")
  | SignalRequest data =>
      let! ' (pid, signal) := map_err (Wrapf "container_daemon: json unmarshal signal spec: %s" []) (lift (decode_signal data)) in
      do! eff (ProcessSignaller_Signal pid signal) in
      ret (mkResponse SignalResponse [] 0 "")
  | UnknownRequest t => fail (Errorv "container_daemon: unknown message: %s" [Itoa t])
  end.

(** The deferred [recover]: a panic becomes an error of the request. *)
Definition Handle_ (text : string) : M (Daemon * World) ResponseMessage := fun w =>
  match handle_request text w with
  | (Panic m, w') => (Err (Errorv "container_daemon: recovered panic: %s" [m]), w')
  | x => x
  end.
End Daemon.

(** ** What a process is given *)

(** The environments that [NewEnv] accepts have names that an array can carry. *)
Lemma NewEnv_loop_wf l : forall e e', env_wf e -> NewEnv_loop e l = Ok e' -> env_wf e'.
Proof.
  induction l as [|x l IH]; intros e e' Hwf; cbn; [by intros [= <-]|].
  case_decide; [done|]. destruct (cut "="%char x) as [k [v|]] eqn:Hcut; [|done]. case_decide as Hk; [done|].
  intros Hrun. eapply IH; [|exact Hrun]. apply map_Forall_insert_2; [|done]. split; [done|].
  apply cut_spec in Hcut. naive_solver.
Qed.

Lemma NewEnv_wf l e : NewEnv l = Ok e -> env_wf e.
Proof. apply NewEnv_loop_wf. intros k v. by rewrite lookup_empty. Qed.

Lemma set_default_lookup k v e k' :
  set_default k v e !! k' = if decide (k' = k) then Some (default v (e !! k)) else e !! k'.
Proof.
  unfold set_default. destruct (e !! k) as [x|] eqn:Hk; case_decide as Hd; subst; cbn; [done|done|apply lookup_insert_eq|].
  by apply lookup_insert_ne.
Qed.

Lemma set_default_wf k v e : env_key k -> env_wf e -> env_wf (set_default k v e).
Proof. intros Hk He. unfold set_default. case_match; [done|]. by apply map_Forall_insert_2. Qed.

Lemma env_key_ok k : bool_decide (k <> "" /\ "="%char ∉ chars k) = true -> env_key k.
Proof. intros H%bool_decide_eq_true. exact H. Qed.

Lemma createEnvironment_spec l usr e' : createEnvironment l usr = Ok e' ->
  exists e, NewEnv l = Ok e /\ env_wf e' /\ e' !! "USER" = Some (username usr) /\
    e' !! "HOME" = Some (default (homeDir usr) (e !! "HOME")) /\
    e' !! "PATH" = Some (default (if uid usr =? 0 then DefaultRootPATH else DefaultUserPath) (e !! "PATH")) /\
    forall k, k ∉ ["USER"; "HOME"; "PATH"] -> e' !! k = e !! k.
Proof.
  unfold createEnvironment. destruct (NewEnv l) as [e|?|?] eqn:He; [|done|done]. intros [= <-]. exists e. split; [done|].
  apply NewEnv_wf in He. split.
  { do 2 (apply set_default_wf; [by apply env_key_ok|]). apply map_Forall_insert_2; [by apply env_key_ok|exact He]. }
  split_and!.
  - rewrite !set_default_lookup, !decide_False by done. apply lookup_insert_eq.
  - rewrite !set_default_lookup, decide_False, decide_True, lookup_insert_ne by done. done.
  - rewrite !set_default_lookup, decide_True, decide_False, lookup_insert_ne by done. done.
  - intros k Hk. rewrite !not_elem_of_cons in Hk. rewrite !set_default_lookup, !decide_False by naive_solver.
    apply lookup_insert_ne. naive_solver.
Qed.

(** The IDs of the database come through the texts unchanged. *)
Lemma parseUser_libcontainer LookupUser name u : LookupUser name = Ok u -> is_u32 (ue_Uid u) -> is_u32 (ue_Gid u) ->
  parseUser (LibContainerUser_Lookup LookupUser) name = Ok (mkParsedUser name (ue_Uid u) (ue_Gid u) (ue_Home u)).
Proof.
  intros Hu [? ?] [? ?]. unfold parseUser, LibContainerUser_Lookup. rewrite Hu. cbn [os_Uid os_Gid os_HomeDir]. unfold Sscanf_uint32, Itoa.
  rewrite !(proj2 (Z.ltb_ge _ 0)), !Sscanf_FormatUint by (unfold is_u64; lia). by rewrite !(proj2 (Z.ltb_lt _ 4294967296)) by lia.
Qed.

Lemma parseUser_name lookup name usr : parseUser lookup name = Ok usr -> username usr = name.
Proof.
  unfold parseUser. destruct (lookup name) as [[u|]|?|?]; [|done..]. destruct (Sscanf_uint32 (os_Uid u)); [|done].
  destruct (Sscanf_uint32 (os_Gid u)); [|done]. by intros [= <-].
Qed.

Lemma drop_capabilities_eq always spec :
  drop_capabilities always spec = if decide (ps_User spec = "root" /\ always = false) then false else true.
Proof.
  unfold drop_capabilities. destruct always; [by rewrite decide_False by naive_solver|].
  destruct (decide (ps_User spec = "root")) as [Hr|Hr];
    [by rewrite bool_decide_eq_true_2, decide_True|rewrite bool_decide_eq_false_2, decide_False by naive_solver; done].
Qed.

(** The environment of the command. *)
Lemma prepared_env lookup always spec cmd usr : PrepareCmd lookup always spec = Ok cmd -> parseUser lookup (ps_User spec) = Ok usr ->
  exists e e', NewEnv (ps_Env spec) = Ok e /\ NewEnv (cmd_Env cmd) = Ok e' /\ e' !! "USER" = Some (ps_User spec) /\
    e' !! "HOME" = Some (default (homeDir usr) (e !! "HOME")) /\
    e' !! "PATH" = Some (default (if uid usr =? 0 then DefaultRootPATH else DefaultUserPath) (e !! "PATH")) /\
    forall k, k ∉ ["USER"; "HOME"; "PATH"] -> e' !! k = e !! k.
Proof.
  intros Hcmd Hu. unfold PrepareCmd in Hcmd. rewrite Hu in Hcmd.
  destruct (createEnvironment (ps_Env spec) usr) as [e'|?|?] eqn:He; [|done|done]. injection Hcmd as <-.
  destruct (createEnvironment_spec _ _ _ He) as (e & Hnew & Hwf' & Huser & Hhome & Hpath & Hrest).
  exists e, e'. cbn [cmd_Env]. split_and!; try done; [apply NewEnv_perm; [done|apply sort_Strings_perm]|].
  rewrite Huser. f_equal. by eapply parseUser_name.
Qed.

(** What the daemon runs for a request to run a process: it drops the
    capabilities of every user but root, and of root too unless the container is
    privileged; it passes on exactly the resource limits asked for; the process
    sees its user's name, the home directory and path of the request or else
    those of the user, and otherwise the environment of the request. *)
Theorem prepared_command lookup always spec cmd :
  limits_wf (ps_Limits spec) -> PrepareCmd lookup always spec = Ok cmd ->
  exists usr e e' t,
    parseUser lookup (ps_User spec) = Ok usr /\ NewEnv (ps_Env spec) = Ok e /\ NewEnv (cmd_Env cmd) = Ok e' /\
    e' !! "USER" = Some (ps_User spec) /\
    e' !! "HOME" = Some (default (homeDir usr) (e !! "HOME")) /\
    e' !! "PATH" = Some (default (if uid usr =? 0 then DefaultRootPATH else DefaultUserPath) (e !! "PATH")) /\
    (forall k, k ∉ ["USER"; "HOME"; "PATH"] -> e' !! k = e !! k) /\
    cmd_Args cmd !! 1%nat = Some ("-dropCapabilities=" +:+
      (if decide (ps_User spec = "root" /\ always = false) then "false" else "true")) /\
    cmd_Args cmd !! 3%nat = Some ("-rlimits=" +:+ t) /\ DecodeLimits t = ps_Limits spec.
Proof.
  intros Hwf Hcmd. pose proof Hcmd as Hcmd'. unfold PrepareCmd in Hcmd'.
  destruct (parseUser lookup (ps_User spec)) as [usr|?|?] eqn:Hu in Hcmd'; [|done|done].
  destruct (prepared_env _ _ _ _ _ Hcmd Hu) as (e & e' & Hnew & Henv & Huser & Hhome & Hpath & Hrest).
  destruct (createEnvironment (ps_Env spec) usr) in Hcmd'; [|done|done]. injection Hcmd' as <-.
  exists usr, e, e', (EncodeLimits (ps_Limits spec)). cbn [cmd_Env cmd_Args] in *. split_and!; try done.
  - rewrite drop_capabilities_eq. by destruct (decide (ps_User spec = "root" /\ always = false)).
  - by apply DecodeLimits_EncodeLimits.
Qed.

Definition sample_process : ProcessSpec :=
  {| ps_Path := "/bin/ls"; ps_Args := ["-l"]; ps_Env := ["A=1"; "HOME=/tmp"]; ps_Dir := ""; ps_User := "vcap";
     ps_Limits := sample_limits; ps_TTY := None |}.

Definition sample_users : string -> result (option OSUser) := fun _ => Ok (Some (mkOSUser "1000" "1000" "/home/vcap")).

Definition prepared : Cmd := Eval vm_compute in
  match PrepareCmd sample_users false sample_process with Ok c => c | _ => mkCmd "" [] [] "" end.

Lemma prepared_command_witness :
  exists e' t, NewEnv (cmd_Env prepared) = Ok e' /\ e' !! "USER" = Some "vcap" /\ e' !! "HOME" = Some "/tmp" /\
    cmd_Args prepared !! 1%nat = Some "-dropCapabilities=true" /\
    cmd_Args prepared !! 3%nat = Some ("-rlimits=" +:+ t) /\ DecodeLimits t = sample_limits.
Proof.
  destruct (prepared_command sample_users false sample_process prepared) as (usr & e & e' & t & Hu & He & He' & H1 & H2 & _ & _ & H3 & H4 & H5);
    [|vm_compute; reflexivity|].
  - repeat constructor; unfold is_u64; cbn; try done; vm_compute; intuition congruence.
  - exists e', t. split_and!; [exact He'|exact H1| |exact H3|exact H4|exact H5].
    rewrite H2. vm_compute in He. injection He as <-. reflexivity.
Defined.
