(* ===== verification/UnixSocket.v ===== *)
(** * The socket of the daemon (src/container_daemon/unix_socket)

    A client connects, writes one request and reads one response of at most 2048
    bytes together with the descriptors of the process's files. The two sides are
    put together here: what the listener writes for a request and what the
    connector makes of it. *)
From S2P Require Import Prelude GoStrings TextCodec World RLimits ProcessTracker Spawn Container ContainerDaemon.

Section Socket.
Context {codec : WireCodec} (env : Env) (Users_Lookup : string -> result (option OSUser)) (AlwaysDropCapabilities : bool).
(** The [Error] method, whose text goes over the socket. *)
Context (Error : error -> string).
Local Open Scope go_scope.

(** ** listener.go *)

(** The bytes and the files that are written; the files are closed after that,
    whether the write succeeded or not. *)
Definition writeData (response : ResponseMessage) : M (Daemon * World) (string * list File) :=
  let data := marshal_response response in
  do! eff (ignore (call_ env (Sys "conn.WriteMsgUnix" [data]))) in
  do! for_each Close (resp_Files response) in
  ret (data, resp_Files response).

(** The goroutine of a connection, for the request [text]. *)
Definition serve_conn (text : string) : M (Daemon * World) (string * list File) :=
  let! r := attempt (Handle_ env Users_Lookup AlwaysDropCapabilities text) in
  writeData (match r with inl response => response | inr err => mkResponse 0 [] 0 (Error err) end).

(** ** connector.go *)

(** What the socket does for one connection of a client. *)
Record Exchange := mkExchange {
  ex_dial : result unit;
  ex_write : result unit;
  ex_read : result (string * list File)
}.

Definition readData (read : result (string * list File)) : result ResponseMessage :=
  match read with
  | Err e => Err (Wrapf "unix_socket: failed to read unix msg: %s (read: %d, %d)" [] e)
  | Panic m => Panic m
  | Ok (data, fds) =>
      let b := String.substring 0 2048 data in
      if decide (b = "") then Err (Errorf "unix_socket: No response received")
      else
        match decode_response b with
        | Err e => Err (Wrapf "unix_socket: Unmarshal failed: %s" [] e)
        | Panic m => Panic m
        | Ok r =>
            if decide (resp_ErrMessage r = "") then Ok (mkResponse (resp_Type r) fds (resp_Pid r) "")
            else Err (Errorf (resp_ErrMessage r))
        end
  end.

Definition Connect (x : Exchange) : result ResponseMessage :=
  match ex_dial x with
  | Err e => Err (Wrapf "unix_socket: connect to server socket: %s" [] e)
  | Panic m => Panic m
  | Ok _ =>
      match ex_write x with
      | Err e => Err (Wrapf "unix_socket: failed to write to connection: %s" [] e)
      | Panic m => Panic m
      | Ok _ => readData (ex_read x)
      end
  end.

(** The exchange in which nothing fails and the client reads what was written. *)
Definition exchange_of (written : string * list File) : Exchange := mkExchange (Ok tt) (Ok tt) (Ok written).

(** ** The two sides together *)

Lemma Handle_no_panic text s p s' : Handle_ env Users_Lookup AlwaysDropCapabilities text s <> (Panic p, s').
Proof. unfold Handle_. by destruct (handle_request _ _ _ _ s) as [[]]. Qed.

Lemma Handle_ErrMessage text s r s' : Handle_ env Users_Lookup AlwaysDropCapabilities text s = (Ok r, s') -> resp_ErrMessage r = "".
Proof.
  unfold Handle_. destruct (handle_request _ _ _ text s) as [[a|e|p] s1] eqn:H; [|done|done]. intros [= <- <-]. revert H.
  unfold handle_request. intros (req & s2 & _ & H)%bind_Ok. destruct req as [data|data|t]; [| |done].
  - apply bind_Ok in H as (spec & s3 & _ & H). apply bind_Ok in H as (cmd & s4 & _ & H).
    apply bind_Ok in H as ([files pid] & s5 & _ & [= <- _]). done.
  - apply bind_Ok in H as ([pid sig] & s3 & _ & H). apply bind_Ok in H as (? & s4 & _ & [= <- _]). done.
Qed.

Lemma serve_conn_eq text d w : exists w',
  serve_conn text (d, w) =
    match Handle_ env Users_Lookup AlwaysDropCapabilities text (d, w) with
    | (Ok r, (d1, w1)) => (Ok (marshal_response r, resp_Files r), (close_files (resp_Files r) d1, w'))
    | (Err e, (d1, w1)) => (Ok (marshal_response (mkResponse 0 [] 0 (Error e)), []), (d1, w'))
    | (Panic p, s) => (Panic p, s)
    end.
Proof.
  unfold serve_conn. rewrite bind_eq, attempt_eq.
  destruct (Handle_ _ _ _ text (d, w)) as [[r|e|p] [d1 w1]]; [| |by exists w].
  - exists (w1 ++ [Sys "conn.WriteMsgUnix" [marshal_response r]]). unfold writeData.
    rewrite bind_eq, eff_eq, ignore_eq, call__eq. destruct (env w1 _); by rewrite bind_eq, close_all_eq.
  - exists (w1 ++ [Sys "conn.WriteMsgUnix" [marshal_response (mkResponse 0 [] 0 (Error e))]]). unfold writeData.
    rewrite bind_eq, eff_eq, ignore_eq, call__eq. by destruct (env w1 _).
Qed.

Lemma substring_all s : forall n, (String.length s <= n)%nat -> String.substring 0 n s = s.
Proof. induction s as [|c s IH]; intros [|n] Hn; cbn in *; [done|done|lia|]. f_equal. apply IH. lia. Qed.

Lemma substring_nonempty s n : s <> "" -> String.substring 0 (S n) s <> "".
Proof. by destruct s. Qed.

(** What the client reads of a response that the listener wrote. *)
Lemma readData_response r fds : 
  if decide (String.length (marshal_response r) <= 2048)%nat then
    if decide (resp_ErrMessage r = "") then readData (Ok (marshal_response r, fds)) = Ok (mkResponse (resp_Type r) fds (resp_Pid r) "")
    else exists m, readData (Ok (marshal_response r, fds)) = Err (Errorf m) /\ m <> "" /\ (is_ascii (resp_ErrMessage r) -> m = resp_ErrMessage r)
  else exists e, readData (Ok (marshal_response r, fds)) = Err (Wrapf "unix_socket: Unmarshal failed: %s" [] e).
Proof.
  unfold readData. pose proof (substring_nonempty _ 2047 (response_nonempty r)) as Hne.
  destruct (decide (String.length (marshal_response r) <= 2048)%nat) as [Hl|Hl]; rewrite (decide_False _ _ Hne).
  - rewrite substring_all by done. destruct (response_roundtrip r) as (m & -> & Hm & Hempty). cbn [resp_ErrMessage resp_Type resp_Pid].
    destruct (decide (resp_ErrMessage r = "")) as [He|He].
    + by rewrite decide_True by (by apply Hempty).
    + rewrite decide_False by (by rewrite Hempty). exists m. split_and!; [done|by rewrite Hempty|done].
  - destruct (response_cut r 2048) as [e ->]; [lia|]. by exists e.
Qed.
End Socket.

(** C26: a request over the socket, on every branch. The client gets exactly the
    response of the daemon with the files of the process, or an error with the
    text of the daemon's error. There are two exceptions: an error without a text
    arrives as a success without files, and a response of more than 2048 bytes
    arrives as an error of the decoder, whatever it said. *)
Theorem connect_roundtrip {codec : WireCodec} env lookup always Error text d w :
  match Handle_ env lookup always text (d, w), serve_conn env lookup always Error text (d, w) with
  | (Ok r, _), (Ok written, _) =>
      if decide (String.length (marshal_response r) <= 2048)%nat then Connect (exchange_of written) = Ok r
      else exists e, Connect (exchange_of written) = Err (Wrapf "unix_socket: Unmarshal failed: %s" [] e)
  | (Err e, _), (Ok written, _) =>
      if decide (String.length (marshal_response (mkResponse 0 [] 0 (Error e))) <= 2048)%nat then
        if decide (Error e = "") then Connect (exchange_of written) = Ok (mkResponse 0 [] 0 "")
        else exists m, Connect (exchange_of written) = Err (Errorf m) /\ m <> "" /\ (is_ascii (Error e) -> m = Error e)
      else exists e', Connect (exchange_of written) = Err (Wrapf "unix_socket: Unmarshal failed: %s" [] e')
  | _, _ => False
  end.
Proof.
  destruct (serve_conn_eq env lookup always Error text d w) as [w' Hs]. rewrite Hs.
  destruct (Handle_ env lookup always text (d, w)) as [[r|e|p] [d1 w1]] eqn:Hh; [| |by apply Handle_no_panic in Hh].
  - apply Handle_ErrMessage in Hh. pose proof (readData_response r (resp_Files r)) as Hr. rewrite (decide_True _ _ Hh) in Hr.
    case_decide; [|exact Hr]. etransitivity; [exact Hr|]. destruct r; cbn in Hh |- *. by rewrite Hh.
  - exact (readData_response (mkResponse 0 [] 0 (Error e)) []).
Qed.

(** ** A codec that satisfies the laws *)

Definition limits_list (r : ResourceLimits) : list (option Z) :=
  [As r; Core r; Cpu r; Data r; Fsize r; Locks r; Memlock r; Msgqueue r; Nice r; Nofile r; Nproc r; Rss r; Rtprio r; Sigpending r; Stack r].

Definition limits_of_list (l : list (option Z)) : ResourceLimits :=
  let g i := mjoin (l !! i) in
  {| As := g 0%nat; Core := g 1%nat; Cpu := g 2%nat; Data := g 3%nat; Fsize := g 4%nat; Locks := g 5%nat; Memlock := g 6%nat;
     Msgqueue := g 7%nat; Nice := g 8%nat; Nofile := g 9%nat; Nproc := g 10%nat; Rss := g 11%nat; Rtprio := g 12%nat;
     Sigpending := g 13%nat; Stack := g 14%nat |}.

Definition tty_tuple (t : TTYSpec) : option (Z * Z) := (fun w => (ws_Columns w, ws_Rows w)) <$> tty_WindowSize t.
Definition tty_of (t : option (Z * Z)) : TTYSpec := mkTTY ((fun p => mkWindowSize p.1 p.2) <$> t).

Definition spec_tuple (s : ProcessSpec) :=
  (ps_Path s, ps_Args s, ps_Env s, ps_Dir s, ps_User s, limits_list (ps_Limits s), tty_tuple <$> ps_TTY s).
Definition spec_of (t : string * list string * list string * string * string * list (option Z) * option (option (Z * Z))) : ProcessSpec :=
  match t with (p, a, e, d, u, l, tty) => mkProcessSpec p a e d u (limits_of_list l) (tty_of <$> tty) end.

Lemma spec_of_tuple s : spec_of (spec_tuple s) = s.
Proof. destruct s as [p a e d u [] [[[[]|]]|]]; reflexivity. Qed.

Definition request_sum (r : Request) : string + string + Z :=
  match r with ProcessRequest s => inl (inl s) | SignalRequest s => inl (inr s) | UnknownRequest t => inr t end.
Definition request_of (x : string + string + Z) : Request :=
  match x with inl (inl s) => ProcessRequest s | inl (inr s) => SignalRequest s | inr t => UnknownRequest t end.

Definition response_of (x : Z * Z * string) : ResponseMessage := match x with (t, p, m) => mkResponse t [] p m end.

Definition decode_text `{Countable A} {B} (f : A -> B) (s : string) : result B :=
  match text_decode s with Some a => Ok (f a) | None => Err (Errorf "unexpected end of JSON input") end.

#[export] Program Instance text_wire : WireCodec := {|
  marshal_request r := text_encode (request_sum r); decode_request := decode_text request_of;
  marshal_process s := text_encode (spec_tuple s); decode_process := decode_text spec_of;
  marshal_signal p := text_encode p; decode_signal := decode_text (A := Z * Z) id;
  marshal_response r := text_encode (resp_Type r, resp_Pid r, resp_ErrMessage r); decode_response := decode_text response_of
|}.
Next Obligation. intros r. unfold decode_text. rewrite text_decode_encode. by destruct r. Qed.
Next Obligation. intros s _. unfold decode_text. by rewrite text_decode_encode, spec_of_tuple. Qed.
Next Obligation. intros p. unfold decode_text. by rewrite text_decode_encode. Qed.
Next Obligation. intros r. unfold decode_text. rewrite text_decode_encode. by exists (resp_ErrMessage r). Qed.
Next Obligation. intros r. apply text_encode_nonempty. Qed.
Next Obligation. intros r n Hn. unfold decode_text. rewrite text_decode_cut by done. by eexists. Qed.

(** The request to send signal 9 to process 7. *)
Definition signal_text : string := marshal_request (SignalRequest (marshal_signal (7, 9))).
Definition signal_written : string * list File := Eval vm_compute in (marshal_response (mkResponse SignalResponse [] 0 ""), []).

Lemma connect_roundtrip_witness :
  fst (serve_conn env_pid7 sample_users true (fun _ => "failed") signal_text (mkDaemon 3%nat ∅ [], [])) = Ok signal_written /\
  Connect (exchange_of signal_written) = Ok (mkResponse SignalResponse [] 0 "").
Proof.
  assert (Hs : fst (serve_conn env_pid7 sample_users true (fun _ => "failed") signal_text (mkDaemon 3%nat ∅ [], [])) = Ok signal_written)
    by (vm_compute; reflexivity).
  assert (Hh : fst (Handle_ env_pid7 sample_users true signal_text (mkDaemon 3%nat ∅ [], [])) = Ok (mkResponse SignalResponse [] 0 ""))
    by (vm_compute; reflexivity).
  split; [exact Hs|].
  pose proof (connect_roundtrip env_pid7 sample_users true (fun _ => "failed") signal_text (mkDaemon 3%nat ∅ []) []) as H.
  destruct (serve_conn _ _ _ _ _ _) as [written s1]. cbn in Hs. subst written.
  destruct (Handle_ _ _ _ _ _) as [r s2]. cbn in Hh. subst r. rewrite decide_True in H; [exact H|]. vm_compute. lia.
Defined.
