(* ===== verification/Serve.v ===== *)
(** * initd serving its clients (src/container_daemon/daemon.go, src/container_daemon/unix_socket/listener.go)

    [Run] accepts connections for as long as it can; a goroutine handles the request
    of each connection, writes the response with the files of the process, closes
    its copies of the files and then the connection. Other goroutines wait for the
    processes and close the files that belong to them. All share the files of
    initd; they are a step relation here, in which a goroutine can be overtaken by
    the others between any two of its parts. *)
From S2P Require Import Prelude GoStrings World RLimits ProcessTracker Listeners Spawn Container ContainerDaemon UnixSocket.

(** Where the goroutine of a connection is: before it has handled the request, before
    it has written the response, before it closes the connection, and past it. *)
Inductive ConnPc :=
| CRead
| CRespond (response : ResponseMessage)
| CWrote (data : string) (files : list File)
| CClosed (data : string) (files : list File).

Record Conn := mkConn { cn_request : string; cn_pc : ConnPc }.

(** initd: the connections that it has accepted, what [Run] has returned, and its state. *)
Record Serving := mkServing {
  sv_conns : list Conn;
  sv_end : option error;
  sv_daemon : Daemon;
  sv_world : World
}.

Section Serve.
Context {codec : WireCodec} (env : Env) (Users_Lookup : string -> result (option OSUser)) (AlwaysDropCapabilities : bool).
Context (Error : error -> string).

(** What the goroutine makes of the result of [Handle]. *)
Definition response_for (r : ResponseMessage + error) : ResponseMessage :=
  match r with inl response => response | inr err => mkResponse 0 [] 0 (Error err) end.

(** [ContainerDaemon.Run] on the error of [Listen]. *)
Definition Run_error (err : error) : error := Wrapf "container_daemon: listening for connections: %s" [] err.
Definition accept_error (err : error) : error := Wrapf "container_daemon: Failure while accepting: %v" [] err.

(** A listener that is not initialized ends [Run] at once. *)
Definition serve_start (l : Listener) (d : Daemon) (w : World) : Serving :=
  mkServing [] (match l_listener l with
                | Some _ => None
                | None => Some (Run_error (Errorf "unix_socket: listener is not initialized"))
                end) d w.

(** The request [text] is what the decoder of a new connection reads. *)
Inductive serve_step : Serving -> Serving -> Prop :=
| serve_accept text conns d w :
    serve_step (mkServing conns None d w) (mkServing (conns ++ [mkConn text CRead]) None d w)
| serve_accept_fails err conns d w :
    serve_step (mkServing conns None d w) (mkServing conns (Some (Run_error (accept_error err))) d w)
| serve_handle i text r conns e d w d' w' :
    conns !! i = Some (mkConn text CRead) ->
    attempt (Handle_ env Users_Lookup AlwaysDropCapabilities text) (d, w) = (Ok r, (d', w')) ->
    serve_step (mkServing conns e d w) (mkServing (<[i := mkConn text (CRespond (response_for r))]> conns) e d' w')
| serve_write i text response data files conns e d w d' w' :
    conns !! i = Some (mkConn text (CRespond response)) ->
    writeData env response (d, w) = (Ok (data, files), (d', w')) ->
    serve_step (mkServing conns e d w) (mkServing (<[i := mkConn text (CWrote data files)]> conns) e d' w')
| serve_close i text data files conns e d w :
    conns !! i = Some (mkConn text (CWrote data files)) ->
    serve_step (mkServing conns e d w) (mkServing (<[i := mkConn text (CClosed data files)]> conns) e d (w ++ [Sys "conn.Close" []]))
| serve_process_ends l1 c l2 status conns e n fs w d' w' :
    handleCompletion env c status (mkDaemon n fs (l1 ++ l2), w) = (Ok tt, (d', w')) ->
    serve_step (mkServing conns e (mkDaemon n fs (l1 ++ c :: l2)) w) (mkServing conns e d' w').

(** ** Whose files are whose *)

(** The files that a goroutine will still use. *)
Definition conn_files (c : Conn) : list File := match cn_pc c with CRespond r => resp_Files r | _ => [] end.
Definition held (conns : list Conn) (d : Daemon) : list File := (conns ≫= conn_files) ++ (running d ≫= completion_files).

(** The response that was made for a request, by initd in some state. *)
Definition made_for (text : string) (response : ResponseMessage) : Prop :=
  exists s r s', attempt (Handle_ env Users_Lookup AlwaysDropCapabilities text) s = (Ok r, s') /\ response = response_for r.

Definition conn_ok (c : Conn) : Prop :=
  match cn_pc c with
  | CRead => True
  | CRespond r => made_for (cn_request c) r
  | CWrote data files | CClosed data files => exists r, made_for (cn_request c) r /\ data = marshal_response r /\ files = resp_Files r
  end.

Definition serve_inv (s : Serving) : Prop :=
  files_fresh (sv_daemon s) /\ NoDup (held (sv_conns s) (sv_daemon s)) /\
  Forall (fun f => f ∈ open_files (sv_daemon s)) (held (sv_conns s) (sv_daemon s)) /\ Forall conn_ok (sv_conns s).

Lemma next_close_files fs d : next_file (close_files fs d) = next_file d.
Proof. revert d. induction fs as [|f fs IH]; intros d; [done|]. apply (IH (close_file f d)). Qed.

(** What [Spawn] adds: the files of the caller and those of the goroutine of the
    process are new, open and all different; when it fails, it closes nothing. *)
Lemma spawn_files cmd tty d w : files_fresh d ->
  match Spawn env cmd tty (d, w) with
  | (Ok (files, _), (d1, _)) => files_fresh d1 /\ open_files d ⊆ open_files d1 /\
      exists c, running d1 = running d ++ [c] /\ NoDup (files ++ completion_files c) /\
        Forall (fun f => f ∉ open_files d /\ f ∈ open_files d1) (files ++ completion_files c)
  | (Err _, (d1, _)) => files_fresh d1 /\ open_files d ⊆ open_files d1 /\ running d1 = running d
  | (Panic _, _) => False
  end.
Proof.
  intros Hf. assert (Hnew : forall f, (next_file d <= f)%nat -> f ∉ open_files d) by (intros f Hle Hin%Hf; lia).
  destruct tty; cbn [Spawn]; unfold spawnWithTty, spawnNoninteractive.
  - rewrite bind_eq, map_err_eq, open_pair_eq. destruct (env w _) as [o|e]; [|done].
    rewrite bind_eq, on_err_eq, wireExit_eq. destruct (env _ (Sys "os.Pipe" _)) as [o'|e]; [destruct (env _ (Start _)) as [pid|e]|].
    + cbn. split; [unfold files_fresh; cbn; files_tac Hf|]. split; [set_solver|]. eexists. split; [done|]. unfold completion_files. cbn. rewrite decide_True by done. cbn.
      split; [repeat constructor; set_unfold; lia|]. repeat constructor; (apply Hnew; lia) || set_solver.
    + cbn. split; [unfold files_fresh; cbn; files_tac Hf|]. split; [files_tac Hf|done].
    + cbn. split; [unfold files_fresh; cbn; files_tac Hf|]. split; [files_tac Hf|done].
  - rewrite bind_eq, map_err_eq, open_pair_eq. destruct (env w _) as [o|e]; [|done].
    rewrite bind_eq, map_err_eq, open_pair_eq.
    destruct (env _ (Sys "os.Pipe" _)) as [o'|e]; [|cbn; split; [unfold files_fresh; cbn; files_tac Hf|split; [files_tac Hf|done]]].
    rewrite bind_eq, map_err_eq, open_pair_eq. set (n := next_file d) in *.
    destruct (env _ (Sys "os.Pipe" _)) as [o''|e]; [|cbn; fold n; split; [unfold files_fresh; cbn; fold n; files_tac Hf|split; [files_tac Hf|done]]].
    rewrite bind_eq, on_err_eq, wireExit_eq. destruct (env _ (Sys "os.Pipe" _)) as [o3|e]; [destruct (env _ (Start _)) as [pid|e]|].
    + cbn. fold n. split; [unfold files_fresh; cbn; fold n; files_tac Hf|]. split; [set_solver|]. eexists. split; [done|]. unfold completion_files. cbn.
      rewrite decide_False by (intros [= ?]; lia). cbn.
      split; [repeat constructor; set_unfold; lia|]. repeat constructor; (apply Hnew; lia) || set_solver.
    + rewrite close_all_eq. unfold files_fresh. rewrite running_close_files, next_close_files, open_close_files. cbn. fold n. split; [files_tac Hf|].
      split; [files_tac Hf|done].
    + rewrite close_all_eq. unfold files_fresh. rewrite running_close_files, next_close_files, open_close_files. cbn. fold n. split; [files_tac Hf|].
      split; [files_tac Hf|done].
Qed.

Lemma handle_files text d w r d' w' : files_fresh d ->
  attempt (Handle_ env Users_Lookup AlwaysDropCapabilities text) (d, w) = (Ok r, (d', w')) ->
  files_fresh d' /\ open_files d ⊆ open_files d' /\
  exists new, running d' = running d ++ new /\ NoDup (resp_Files (response_for r) ++ (new ≫= completion_files)) /\
    Forall (fun f => f ∉ open_files d /\ f ∈ open_files d') (resp_Files (response_for r) ++ (new ≫= completion_files)).
Proof.
  intros Hf. rewrite attempt_eq. unfold Handle_, handle_request.
  assert (Hsame : forall e, files_fresh d /\ open_files d ⊆ open_files d /\ exists new : list Completion, running d = running d ++ new /\
    NoDup (resp_Files (response_for (inr e)) ++ (new ≫= completion_files)) /\
    Forall (fun f => f ∉ open_files d /\ f ∈ open_files d) (resp_Files (response_for (inr e)) ++ (new ≫= completion_files))).
  { intros e. split; [done|]. split; [done|]. exists []. rewrite app_nil_r. split; [done|]. split; constructor. }
  rewrite bind_eq, map_err_eq. unfold lift. destruct (decode_request text) as [[data|data|t]|e|p];
    [|rewrite bind_eq, map_err_eq|intros [= <- <- <-]; apply Hsame..].
  - rewrite bind_eq, map_err_eq. destruct (decode_process data) as [spec|e|p]; [|intros [= <- <- <-]; apply Hsame..].
    rewrite bind_eq. destruct (PrepareCmd _ _ spec) as [cmd|e|p]; [|intros [= <- <- <-]; apply Hsame..].
    rewrite bind_eq. set (tty := bool_decide (is_Some (ps_TTY spec))). pose proof (spawn_files cmd tty d w Hf) as Hs.
    destruct (Spawn env cmd tty (d, w)) as [[[files pid]|e|p] [d1 w1]]; [| |done]; intros [= <- <- <-].
    + destruct Hs as (Hf1 & Hsub & c & Hr & Hnd & Hnew). split; [done|]. split; [done|]. exists [c]. cbn. rewrite app_nil_r. done.
    + destruct Hs as (Hf1 & Hsub & Hr). split; [done|]. split; [done|]. exists []. rewrite app_nil_r. split; [done|]. split; constructor.
  - destruct (decode_signal data) as [[pid sig]|e|p]; [|intros [= <- <- <-]; apply Hsame..].
    rewrite bind_eq, eff_eq. destruct (ProcessSignaller_Signal _ _ _ _) as [[[]|e|p] w1]; intros [= <- <- <-]; [|apply Hsame..].
    apply (Hsame (Errorf "")).
Qed.

Lemma insert_split (conns : list Conn) i c : conns !! i = Some c ->
  exists l1 l2, conns = l1 ++ c :: l2 /\ forall c', <[i := c']> conns = l1 ++ c' :: l2.
Proof.
  intros Hi. exists (take i conns), (drop (S i) conns). split; [by rewrite take_drop_middle|].
  intros c'. apply insert_take_drop. by eapply lookup_lt_Some.
Qed.

Lemma held_split l1 c l2 d : held (l1 ++ c :: l2) d ≡ₚ conn_files c ++ held (l1 ++ l2) d.
Proof. unfold held. rewrite !bind_app, bind_cons. solve_Permutation. Qed.

Lemma conn_ok_split l1 c l2 : Forall conn_ok (l1 ++ c :: l2) <-> conn_ok c /\ Forall conn_ok (l1 ++ l2).
Proof. rewrite !Forall_app, Forall_cons. tauto. Qed.

Lemma writeData_eq r d w : exists w', writeData env r (d, w) = (Ok (marshal_response r, resp_Files r), (close_files (resp_Files r) d, w')).
Proof.
  unfold writeData. rewrite bind_eq, eff_eq, ignore_eq, call__eq. destruct (env w _); rewrite bind_eq, close_all_eq; by eexists.
Qed.

Lemma handleCompletion_eq c status d w : exists w',
  handleCompletion env c status (d, w) = (Ok tt, (close_files (completion_files c) d, w')).
Proof.
  unfold handleCompletion, completion_files. rewrite bind_eq, eff_eq, ignore_eq, call__eq.
  destruct (env w _); case_decide; destruct (co_stderr c), (co_stdout c); by eexists.
Qed.

Lemma close_fresh fs d : files_fresh d -> files_fresh (close_files fs d).
Proof. intros Hf f. rewrite open_close_files, next_close_files. intros [Hin _]%elem_of_difference. by apply Hf. Qed.

(** The files of one goroutine can be closed without touching those of the others. *)
Lemma close_others mine others (X : gset File) : NoDup (mine ++ others) -> Forall (fun f => f ∈ X) (mine ++ others) ->
  NoDup others /\ Forall (fun f => f ∈ X ∖ list_to_set mine) others.
Proof.
  intros (_ & Hdisj & Hnd)%NoDup_app [_ Hin]%Forall_app. split; [done|]. rewrite Forall_forall in Hin |- *.
  intros f Hf. apply elem_of_difference. split; [by apply Hin|]. rewrite elem_of_list_to_set. intros Hm. by apply (Hdisj f).
Qed.

Lemma serve_inv_step s s' : serve_inv s -> serve_step s s' -> serve_inv s'.
Proof.
  intros (Hf & Hnd & Hop & Hok) Hs. destruct Hs as [text conns d w|err conns d w|i text r conns e d w d' w' Hi Hh|
    i text response data files conns e d w d' w' Hi Hw|i text data files conns e d w Hi|l1 c l2 status conns e n fs w d' w' Hc];
    unfold serve_inv in *; cbn [sv_daemon sv_conns] in *.
  - unfold held in *. rewrite bind_app. cbn. rewrite app_nil_r. split_and!; [done..|]. apply Forall_app. by repeat constructor.
  - done.
  - destruct (insert_split _ _ _ Hi) as (l1 & l2 & -> & Hins). rewrite Hins. apply conn_ok_split in Hok as [_ Hok].
    destruct (handle_files _ _ _ _ _ _ Hf Hh) as (Hf' & Hsub & new & Hr & Hnew & Hfresh).
    rewrite held_split in Hnd, Hop. cbn [conn_files cn_pc app] in Hnd, Hop.
    assert (Hheld : held (l1 ++ mkConn text (CRespond (response_for r)) :: l2) d' ≡ₚ
      (resp_Files (response_for r) ++ (new ≫= completion_files)) ++ held (l1 ++ l2) d).
    { rewrite held_split. unfold held. rewrite Hr, !bind_app. cbn [conn_files cn_pc]. solve_Permutation. }
    rewrite Hheld. split_and!; [done| | |].
    + apply NoDup_app. split; [done|]. split; [|done]. intros f Hin Hold. rewrite Forall_forall in Hop, Hfresh.
      by destruct (Hfresh f Hin) as [Hno _]; apply Hno, Hop.
    + apply Forall_app. split; [by eapply Forall_impl; [exact Hfresh|intros f [_ ?]]|].
      eapply Forall_impl; [exact Hop|]. intros f. apply Hsub.
    + apply conn_ok_split. split; [|done]. by exists (d, w), r, (d', w').
  - destruct (insert_split _ _ _ Hi) as (l1 & l2 & -> & Hins). rewrite Hins. apply conn_ok_split in Hok as [Hme Hok].
    destruct (writeData_eq response d w) as [w1 Hwr]. rewrite Hwr in Hw. injection Hw as <- <- <- <-.
    rewrite held_split in Hnd, Hop. cbn [conn_files cn_pc] in Hnd, Hop. destruct (close_others _ _ _ Hnd Hop) as [Hnd' Hop'].
    rewrite held_split. cbn [conn_files cn_pc app]. unfold held in *. rewrite running_close_files, open_close_files.
    split_and!; [by apply close_fresh|done|done|]. apply conn_ok_split. split; [|done]. by exists response.
  - destruct (insert_split _ _ _ Hi) as (l1 & l2 & -> & Hins). rewrite Hins. apply conn_ok_split in Hok as [Hme Hok].
    rewrite held_split in Hnd, Hop |- *. split_and!; [done..|]. apply conn_ok_split. by split.
  - destruct (handleCompletion_eq c status (mkDaemon n fs (l1 ++ l2)) w) as [w1 Hco]. rewrite Hco in Hc. injection Hc as <- <-.
    assert (Hheld : held conns (mkDaemon n fs (l1 ++ c :: l2)) ≡ₚ completion_files c ++ held conns (mkDaemon n fs (l1 ++ l2))).
    { unfold held. cbn [running]. rewrite !bind_app, bind_cons. solve_Permutation. }
    rewrite Hheld in Hnd, Hop. destruct (close_others _ _ _ Hnd Hop) as [Hnd' Hop']. unfold held in *.
    rewrite running_close_files, open_close_files. split_and!; [by apply close_fresh|done..].
Qed.

Lemma serve_inv_run s s' : rtc serve_step s s' -> serve_inv s -> serve_inv s'.
Proof. induction 1 as [|s1 s2 s3 Hs _ IH]; [done|]. intros H. by eapply IH, serve_inv_step. Qed.

(** [Run] returns only with an error, and only for one of two reasons. *)
Definition end_ok (s : Serving) : Prop := forall e, sv_end s = Some e ->
  e = Run_error (Errorf "unix_socket: listener is not initialized") \/ exists err, e = Run_error (accept_error err).

Lemma end_ok_run s s' : rtc serve_step s s' -> end_ok s -> end_ok s'.
Proof.
  induction 1 as [|s1 s2 s3 Hs _ IH]; [done|]. intros H. apply IH. destruct Hs; try exact H. intros e [= <-]. right. by eexists.
Qed.

(** The files of one goroutine are open and nobody else's. *)
Lemma held_mine conns d i c f : NoDup (held conns d) -> conns !! i = Some c -> f ∈ conn_files c ->
  (forall j c', conns !! j = Some c' -> f ∈ conn_files c' -> i = j) /\ (forall co, co ∈ running d -> f ∉ completion_files co).
Proof.
  intros Hnd Hi Hf. assert (Hsp : held conns d ≡ₚ conn_files c ++ held (delete i conns) d).
  { rewrite <- (take_drop_middle conns i c Hi) at 1. rewrite delete_take_drop. apply held_split. }
  rewrite Hsp in Hnd. apply NoDup_app in Hnd as (_ & Hdisj & _). specialize (Hdisj f Hf). unfold held in Hdisj.
  rewrite not_elem_of_app, !list_elem_of_bind in Hdisj. destruct Hdisj as [Hc Hr]. split.
  - intros j c' Hj Hf'. destruct (decide (i = j)) as [|Hij]; [done|]. destruct Hc. exists c'. split; [done|].
    apply list_elem_of_lookup. destruct (decide (j < i)%nat).
    + exists j. by rewrite list_lookup_delete_lt.
    + exists (pred j). rewrite list_lookup_delete_ge by lia. by replace (S (pred j)) with j by lia.
  - intros co Hco Hf'. apply Hr. by exists co.
Qed.
End Serve.

(** C25: initd serves any number of clients at once. In every state it can reach,
    however the goroutines of the connections and those of the processes interleave
    and whatever fails, the files of a response that is still to be written are open,
    are in no other response, and are not closed by the goroutine of any process;
    what a connection was sent is the response to its own request with its own
    files, and it is sent once. [Run] returns only when a connection cannot be
    accepted or the listener was not initialized, and always with an error. *)
Theorem initd_serves {codec : WireCodec} env lookup always Error l d w s :
  files_fresh d -> running d = [] -> rtc (serve_step env lookup always Error) (serve_start l d w) s ->
  (forall i c f, sv_conns s !! i = Some c -> f ∈ conn_files c ->
     f ∈ open_files (sv_daemon s) /\ (forall j c', sv_conns s !! j = Some c' -> f ∈ conn_files c' -> i = j) /\
     (forall co, co ∈ running (sv_daemon s) -> f ∉ completion_files co)) /\
  (forall i text data files, sv_conns s !! i = Some (mkConn text (CWrote data files)) \/ sv_conns s !! i = Some (mkConn text (CClosed data files)) ->
     exists response, made_for env lookup always Error text response /\ data = marshal_response response /\ files = resp_Files response) /\
  (forall e, sv_end s = Some e ->
     e = Run_error (Errorf "unix_socket: listener is not initialized") \/ exists err, e = Run_error (accept_error err)).
Proof.
  intros Hf Hr Hrun. assert (Hi : serve_inv env lookup always Error s).
  { eapply serve_inv_run; [exact Hrun|]. unfold serve_inv, serve_start, held. cbn. rewrite Hr. split_and!; [done|constructor..]. }
  destruct Hi as (_ & Hnd & Hop & Hok). rewrite Forall_forall in Hop. rewrite Forall_forall in Hok. split_and!.
  - intros i c f Hc Hin. split; [|by eapply held_mine]. apply Hop. unfold held. apply elem_of_app. left.
    apply list_elem_of_bind. exists c. split; [done|]. by eapply list_elem_of_lookup_2.
  - intros i text data files [H|H]; apply list_elem_of_lookup_2 in H; by apply (Hok _ H).
  - apply (end_ok_run _ _ _ _ _ _ Hrun). intros e. cbn. destruct (l_listener l); [done|]. intros [= <-]. by left.
Qed.

(** Two clients ask for a process each, and both requests are handled before a response is written. *)
Definition sample_request : string := marshal_request (ProcessRequest (marshal_process sample_process)).
Definition initd_fresh : Daemon := mkDaemon 3%nat {[0%nat; 1%nat; 2%nat]} [].

Definition sample_handled (s : Daemon * World) : (ResponseMessage + error) * (Daemon * World) :=
  match attempt (Handle_ env_pid7 sample_users true sample_request) s with (Ok r, s') => (r, s') | (_, s') => (inr (Errorf ""), s') end.
Definition sample_first := Eval vm_compute in sample_handled (initd_fresh, []).
Definition sample_second := Eval vm_compute in sample_handled (snd sample_first).
Definition sample_conn (r : ResponseMessage + error) : Conn := mkConn sample_request (CRespond (response_for (fun _ => "failed") r)).
Definition sample_serving : Serving :=
  mkServing [sample_conn (fst sample_first); sample_conn (fst sample_second)] None (fst (snd sample_second)) (snd (snd sample_second)).

Lemma initd_serves_witness :
  rtc (serve_step env_pid7 sample_users true (fun _ => "failed"))
    (serve_start (mkListener (Some (UnixListener "wshd.sock"))) initd_fresh []) sample_serving /\
  conn_files (sample_conn (fst sample_first)) = [4%nat; 5%nat; 7%nat; 9%nat] /\ 4%nat ∉ conn_files (sample_conn (fst sample_second)).
Proof.
  assert (Hrun : rtc (serve_step env_pid7 sample_users true (fun _ => "failed"))
    (serve_start (mkListener (Some (UnixListener "wshd.sock"))) initd_fresh []) sample_serving).
  { eapply rtc_l; [apply (serve_accept _ _ _ _ sample_request)|]. eapply rtc_l; [apply (serve_accept _ _ _ _ sample_request)|].
    eapply rtc_l; [apply (serve_handle _ _ _ _ 0%nat sample_request (fst sample_first) _ _ _ _ (fst (snd sample_first)) (snd (snd sample_first)));
      [reflexivity|vm_compute; reflexivity]|].
    apply rtc_once. apply (serve_handle _ _ _ _ 1%nat sample_request (fst sample_second)); [reflexivity|vm_compute; reflexivity]. }
  split; [exact Hrun|]. split; [reflexivity|].
  intros H4. assert (Hf : files_fresh initd_fresh) by (intros f; cbn; set_unfold; lia).
  destruct (initd_serves env_pid7 sample_users true (fun _ => "failed") _ initd_fresh [] _ Hf eq_refl Hrun) as (Hfiles & _ & _).
  destruct (Hfiles 0%nat _ 4%nat eq_refl) as (_ & Honly & _); [left|]. discriminate (Honly 1%nat _ eq_refl H4).
Defined.
