(* ===== verification/Client.v ===== *)
(** * The client of the daemon (src/container_daemon/process.go, src/container_daemon/wsh)

    wsh asks the daemon for a process, copies its streams and exits with its
    status. The request and the files are functions; the goroutines that copy the
    streams and read the exit status, and [Wait], which gives the copies some time
    to finish, are a step relation over the pipes. *)
From S2P Require Import Prelude GoStrings GoFlag World ProcessEnv RLimits ProcessTracker Spawn Container ContainerDaemon UnixSocket.

Definition UnknownExitStatus : Z := 255.

(** ** process.go: Start, Signal, Cleanup *)

(** Which streams of [garden.ProcessIO] are given. *)
Record ProcessIO := mkIO { io_Stdin : bool; io_Stdout : bool; io_Stderr : bool }.

(** A goroutine that copies: into the process, and whether it closes the file at
    the end of the input, or out of it. *)
Inductive Copy := CopyIn (dst : File) (closes : bool) | CopyOut (src : File) (to_stderr : bool).

(** A client's process after [Start]; [termState], which is set on the way, is the
    state of the operations. *)
Record Started := mkStarted {
  st_pid : Z;
  st_exitFd : File;
  st_copies : list Copy;
  st_signalLoop : bool
}.

(** The copies that [stream] counts in [streaming]. *)
Definition is_out (c : Copy) : bool := match c with CopyOut _ _ => true | CopyIn _ _ => false end.
Definition streaming (st : Started) : nat := length (filter (fun c => is_out c = true) (st_copies st)).

Section Process.
Context {codec : WireCodec} (env : Env).
Local Open Scope go_scope.

Definition process_request (spec : ProcessSpec) : Request := ProcessRequest (marshal_process spec).
Definition signal_request (pid sig : Z) : Request := SignalRequest (marshal_signal (pid, sig)).

Definition Process_Signal (pid sig : Z) (connect : Request -> result ResponseMessage) : result unit :=
  match connect (signal_request pid sig) with
  | Ok _ => Ok tt
  | Err e => Err (Wrapf "container_daemon: connect to some socket: %s" [] e)
  | Panic m => Panic m
  end.

(** The world answers with the size; its errors are not looked at. *)
(** term.go: the terminals are those of another package. *)
Definition TermPkg_GetWinsize (fd : string) : M World string := call env (Sys "term.GetWinsize" [fd]).
Definition TermPkg_SetWinsize (fd size : string) : M World unit := call_ env (Sys "term.SetWinsize" [fd; size]).
Definition TermPkg_SetRawTerminal (fd : string) : M World string := call env (Sys "term.SetRawTerminal" [fd]).
Definition TermPkg_RestoreTerminal (fd state : string) : M World unit := call_ env (Sys "term.RestoreTerminal" [fd; state]).

Definition syncWindowSize (ptyFd : File) : M World unit :=
  let! winsize := attempt (TermPkg_GetWinsize "0") in
  ignore (TermPkg_SetWinsize (Itoa (Z.of_nat ptyFd)) (match winsize with inl w => w | inr _ => "" end)).

Definition setupPty (ptyFd : File) : M (option string * World) unit :=
  let! state := eff (attempt (TermPkg_SetRawTerminal "0")) in
  do! update (fun _ => match state with inl st => Some st | inr _ => None end) in
  eff (syncWindowSize ptyFd).

Definition fwdOverPty (io : ProcessIO) (ptyFd : File) : list Copy :=
  (if io_Stdout io then [CopyOut ptyFd false] else []) ++ (if io_Stdin io then [CopyIn ptyFd false] else []).

Definition fwdNoninteractive (io : ProcessIO) (stdinFd stdoutFd stderrFd : File) : list Copy :=
  (if io_Stdin io then [CopyIn stdinFd true] else []) ++ (if io_Stdout io then [CopyOut stdoutFd false] else []) ++
  (if io_Stderr io then [CopyOut stderrFd true] else []).

(** The files are indexed without a check of their number. *)
Definition Process_Start (spec : ProcessSpec) (io : ProcessIO) (readSignals : bool) (connect : Request -> result ResponseMessage)
    : M (option string * World) Started :=
  match connect (process_request spec) with
  | Err e => fail (Wrapf "container_daemon: connect to socket: %s" [] e)
  | Panic m => panic m
  | Ok response =>
      match ps_TTY spec with
      | Some _ =>
          match resp_Files response with
          | [] => panic "runtime error: index out of range"
          | pty :: rest =>
              do! setupPty pty in
              match rest with
              | [] => panic "runtime error: index out of range"
              | exitFd :: _ => ret (mkStarted (resp_Pid response) exitFd (fwdOverPty io pty) readSignals)
              end
          end
      | None =>
          match resp_Files response with
          | i :: o :: e :: exitFd :: _ => ret (mkStarted (resp_Pid response) exitFd (fwdNoninteractive io i o e) readSignals)
          | _ => panic "runtime error: index out of range"
          end
      end
  end.

Definition Process_Cleanup (termState : option string) : M World unit :=
  match termState with
  | Some s => ignore (TermPkg_RestoreTerminal "0" s)
  | None => ret tt
  end.
End Process.

(** ** wsh/main.go *)

Definition wsh_flags : list (string * FlagKind) :=
  [("socket", FString); ("user", FString); ("dir", FString); ("readSignals", FBool); ("env", FList); ("rsh", FBool)].

(** [fmt.Sscanf] leaves the zero of a number that it cannot read. *)
Definition getRLimitFromEnv (getenv : string -> string) (envVar : string) : option Z :=
  if decide (getenv envVar = "") then None else Some (default 0 (Sscanf_d (getenv envVar))).

Definition getRlimits (getenv : string -> string) : ResourceLimits :=
  {| As := getRLimitFromEnv getenv "RLIMIT_AS"; Core := getRLimitFromEnv getenv "RLIMIT_CORE"; Cpu := getRLimitFromEnv getenv "RLIMIT_CPU";
     Data := getRLimitFromEnv getenv "RLIMIT_DATA"; Fsize := getRLimitFromEnv getenv "RLIMIT_FSIZE"; Locks := getRLimitFromEnv getenv "RLIMIT_LOCKS";
     Memlock := getRLimitFromEnv getenv "RLIMIT_MEMLOCK"; Msgqueue := getRLimitFromEnv getenv "RLIMIT_MSGQUEUE"; Nice := getRLimitFromEnv getenv "RLIMIT_NICE";
     Nofile := getRLimitFromEnv getenv "RLIMIT_NOFILE"; Nproc := getRLimitFromEnv getenv "RLIMIT_NPROC"; Rss := getRLimitFromEnv getenv "RLIMIT_RSS";
     Rtprio := getRLimitFromEnv getenv "RLIMIT_RTPRIO"; Sigpending := getRLimitFromEnv getenv "RLIMIT_SIGPENDING"; Stack := getRLimitFromEnv getenv "RLIMIT_STACK" |}.

(** What wsh asks for: the socket, whether signals are read, and the process. *)
Definition wsh_request (getenv : string -> string) (terminal : bool) (args : list string) : result (string * bool * ProcessSpec) :=
  match Parse wsh_flags args with
  | Ok (sets, extraArgs) =>
      let extraArgs := match extraArgs with [] => ["/bin/sh"] | _ => extraArgs end in
      Ok (flag_value "socket" "./run/wshd.sock" sets, flag_bool "readSignals" false sets,
          {| ps_Path := default "" (head extraArgs); ps_Args := tail extraArgs; ps_Env := flag_list "env" sets; ps_Dir := flag_value "dir" "" sets;
             ps_User := flag_value "user" "root" sets; ps_Limits := getRlimits getenv;
             ps_TTY := if terminal then Some (mkTTY None) else None |})
  | Err e => Err e
  | Panic m => Panic m
  end.

(** ** Wait and the goroutines *)

(** A stream of the process on its way to the client: what is in the pipe, whether
    its write end is closed, what has been copied, and whether the copy is done. *)
Record Stream := mkStream { s_pending : string; s_closed : bool; s_copied : string; s_done : bool }.

Definition new_stream : Stream := mkStream "" false "" false.

(** What happens on the other side: writes and closings of a stream by its index,
    and the end of the process, or of the daemon that should report it. *)
Inductive RemoteAct := RWrite (i : nat) (b : string) | RClose (i : nat) | RExit (status : Z) | RDie.

(** The main goroutine: in [<-p.exitCode], in the [select], or past it. *)
Inductive MainPc := WaitExit | InSelect (code : Z) | Returned (code : Z) (timed_out : bool).

Record Client := mkClient {
  c_script : list RemoteAct;        (* what the other side has still to do *)
  c_streams : list Stream;
  c_exit : option (option Z);       (* the exit pipe: its byte, or closed without one *)
  c_code : option Z;                (* what the reader of the pipe sends on the channel *)
  c_main : MainPc
}.

Definition client_start (script : list RemoteAct) (n : nat) : Client := mkClient script (replicate n new_stream) None None WaitExit.

Definition remote_act (a : RemoteAct) (c : Client) : Client :=
  match a with
  | RWrite i b =>
      mkClient (c_script c) (alter (fun s => if s_closed s then s else mkStream (s_pending s +:+ b) false (s_copied s) (s_done s)) i (c_streams c))
        (c_exit c) (c_code c) (c_main c)
  | RClose i =>
      mkClient (c_script c) (alter (fun s => mkStream (s_pending s) true (s_copied s) (s_done s)) i (c_streams c)) (c_exit c) (c_code c) (c_main c)
  | RExit b => mkClient (c_script c) (c_streams c) (match c_exit c with None => Some (Some b) | e => e end) (c_code c) (c_main c)
  | RDie => mkClient (c_script c) (c_streams c) (match c_exit c with None => Some None | e => e end) (c_code c) (c_main c)
  end.

Definition set_script (l : list RemoteAct) (c : Client) : Client := mkClient l (c_streams c) (c_exit c) (c_code c) (c_main c).
Definition set_stream (i : nat) (s : Stream) (c : Client) : Client := mkClient (c_script c) (<[i := s]> (c_streams c)) (c_exit c) (c_code c) (c_main c).
Definition set_main (m : MainPc) (c : Client) : Client := mkClient (c_script c) (c_streams c) (c_exit c) (c_code c) m.

(** wsh runs until [Wait] returns. *)
Definition returned (c : Client) : Prop := match c_main c with Returned _ _ => True | _ => False end.

#[export] Instance returned_dec c : Decision (returned c).
Proof. unfold returned. destruct (c_main c); apply _. Defined.

(** The steps of wsh and of what it talks to, in any order. A copy writes to the
    standard output or error of wsh, and here every such write succeeds: a copy that
    could not write would end early, and what is left of its stream would be lost. *)
Inductive client_step (c : Client) : Client -> Prop :=
| step_remote a l : ~ returned c -> c_script c = a :: l -> client_step c (remote_act a (set_script l c))
| step_copy i s b1 b2 : ~ returned c -> c_streams c !! i = Some s -> s_done s = false -> s_pending s = b1 +:+ b2 -> b1 <> "" ->
    client_step c (set_stream i (mkStream b2 (s_closed s) (s_copied s +:+ b1) false) c)
| step_eof i s : ~ returned c -> c_streams c !! i = Some s -> s_done s = false -> s_pending s = "" -> s_closed s = true ->
    client_step c (set_stream i (mkStream "" true (s_copied s) true) c)
| step_read_exit b : ~ returned c -> c_exit c = Some b -> c_code c = None ->
    client_step c (mkClient (c_script c) (c_streams c) (c_exit c) (Some (default UnknownExitStatus b)) (c_main c))
| step_receive code : c_main c = WaitExit -> c_code c = Some code -> client_step c (set_main (InSelect code) c)
| step_done code : c_main c = InSelect code -> Forall (fun s => s_done s = true) (c_streams c) -> client_step c (set_main (Returned code false) c)
| step_timeout code : c_main c = InSelect code -> client_step c (set_main (Returned code true) c).

(** *** What the other side did *)

(** All that is written to a stream before it is closed, and the status. *)
Fixpoint written (i : nat) (l : list RemoteAct) : string :=
  match l with
  | [] => ""
  | RWrite j b :: l' => if decide (j = i) then b +:+ written i l' else written i l'
  | RClose j :: l' => if decide (j = i) then "" else written i l'
  | _ :: l' => written i l'
  end.

Fixpoint status_of (l : list RemoteAct) : option Z :=
  match l with
  | [] => None
  | RExit b :: _ => Some b
  | RDie :: _ => Some UnknownExitStatus
  | _ :: l' => status_of l'
  end.

Definition outcome (c : Client) : option Z :=
  match c_code c, c_exit c with
  | Some code, _ => Some code
  | None, Some b => Some (default UnknownExitStatus b)
  | None, None => status_of (c_script c)
  end.

(** Nothing is lost or put out of order, and the status is the one of the process. *)
Record client_inv (W : nat -> string) (st : option Z) (c : Client) : Prop := {
  inv_stream i s : c_streams c !! i = Some s -> s_copied s +:+ s_pending s +:+ (if s_closed s then "" else written i (c_script c)) = W i;
  inv_done i s : c_streams c !! i = Some s -> s_done s = true -> s_pending s = "" /\ s_closed s = true;
  inv_status : outcome c = st;
  inv_main : match c_main c with
             | WaitExit => True
             | InSelect code => c_code c = Some code
             | Returned code t => c_code c = Some code /\ (t = false -> Forall (fun s => s_done s = true) (c_streams c))
             end
}.

Lemma client_inv_start script n : client_inv (fun i => written i script) (status_of script) (client_start script n).
Proof.
  split; cbn; [|  |done|done]; intros i s [-> _]%lookup_replicate; [|done]. cbn. done.
Qed.

(** A step of the other side on one stream. *)
Lemma alter_inv (f : Stream -> Stream) (j : nat) (l : list Stream) (i : nat) s' : alter f j l !! i = Some s' ->
  exists s, l !! i = Some s /\ s' = if decide (i = j) then f s else s.
Proof.
  destruct (decide (i = j)) as [->|Hne].
  - rewrite list_lookup_alter_eq. intros (s & Hs & ->)%fmap_Some. eauto.
  - rewrite list_lookup_alter_ne by done. eauto.
Qed.

Lemma client_inv_remote W st a l c : c_script c = a :: l -> ~ returned c -> client_inv W st c -> client_inv W st (remote_act a (set_script l c)).
Proof.
  intros Hs Hr [H1 H2 H3 H4]. rewrite Hs in H1. unfold outcome in H3. rewrite Hs in H3.
  destruct a as [j b|j|b|]; split; cbn in *; unfold returned in Hr.
  - intros i s' (s & Hl & ->)%alter_inv. specialize (H1 _ _ Hl). repeat case_decide; subst; try done.
    revert H1. destruct (s_closed s) eqn:Hc; cbn; rewrite ?Hc; intros <-; [done|]. by rewrite app_assoc_string.
  - intros i s' (s & Hl & ->)%alter_inv. specialize (H2 _ _ Hl). case_decide; [|done].
    destruct (s_closed s) eqn:Hc; cbn; intros Hd; destruct (H2 Hd); naive_solver.
  - done.
  - by destruct (c_main c).
  - intros i s' (s & Hl & ->)%alter_inv. specialize (H1 _ _ Hl). repeat case_decide; subst; try done. revert H1. cbn. by destruct (s_closed s).
  - intros i s' (s & Hl & ->)%alter_inv. specialize (H2 _ _ Hl). case_decide; [|done]. cbn. naive_solver.
  - done.
  - by destruct (c_main c).
  - done.
  - done.
  - unfold outcome. cbn. by destruct (c_code c), (c_exit c).
  - done.
  - done.
  - done.
  - unfold outcome. cbn. by destruct (c_code c), (c_exit c).
  - done.
Qed.

Lemma client_inv_set W st c i s s' : c_streams c !! i = Some s -> ~ returned c ->
  s_copied s' +:+ s_pending s' = s_copied s +:+ s_pending s -> s_closed s' = s_closed s ->
  (s_done s' = true -> s_pending s' = "" /\ s_closed s' = true) -> client_inv W st c -> client_inv W st (set_stream i s' c).
Proof.
  intros Hl Hr Heq Hc Hd [H1 H2 H3 H4]. split; cbn.
  - intros k t. destruct (decide (k = i)) as [->|Hne]; [|rewrite list_lookup_insert_ne by done; apply H1].
    rewrite list_lookup_insert_eq by (by eapply lookup_lt_Some). intros [= <-]. rewrite <- (H1 _ _ Hl), Hc, <- !app_assoc_string. by rewrite Heq.
  - intros k t. destruct (decide (k = i)) as [->|Hne]; [|rewrite list_lookup_insert_ne by done; apply H2].
    rewrite list_lookup_insert_eq by (by eapply lookup_lt_Some). by intros [= <-].
  - done.
  - unfold returned in Hr. by destruct (c_main c).
Qed.

Lemma client_inv_step W st c c' : client_inv W st c -> client_step c c' -> client_inv W st c'.
Proof.
  intros HI Hstep. destruct Hstep as [a l Hr Hs|i s b1 b2 Hr Hl Hd Hp Hb|i s Hr Hl Hd Hp Hc|b Hr He Hn|code Hm Hc|code Hm Hall|code Hm].
  - by apply client_inv_remote.
  - apply (client_inv_set _ _ _ _ s); cbn; [done|done| |done|done|done]. by rewrite Hp, app_assoc_string.
  - apply (client_inv_set _ _ _ _ s); cbn; [done|done|by rewrite Hp|done|done|done].
  - destruct HI as [H1 H2 H3 H4]. split; cbn; [done|done| |].
    + unfold outcome in *. cbn. by rewrite Hn, He in H3.
    + unfold returned in Hr. destruct (c_main c); [done|congruence|done].
  - destruct HI as [H1 H2 H3 H4]. split; done.
  - destruct HI as [H1 H2 H3 H4]. rewrite Hm in H4. split; done.
  - destruct HI as [H1 H2 H3 H4]. rewrite Hm in H4. split; done.
Qed.

Lemma client_inv_run W st c c' : rtc client_step c c' -> client_inv W st c -> client_inv W st c'.
Proof. induction 1 as [|c1 c2 c3 Hstep _ IH]; [done|]. intros HI. eapply IH, client_inv_step; eauto. Qed.

(** C18: what [Wait] returns and what the client has seen of the output, for every
    interleaving of the process, the copies and the time-out. The exit code is
    the status of the process, or 255 when the daemon ended before it could
    report one; of every stream the client has a beginning of what was written,
    in order; and all of it when [Wait] did not time out. The standard output and
    error of wsh, to which the streams are copied, take every write. *)
Theorem wait_result script n c code timed_out : rtc client_step (client_start script n) c -> c_main c = Returned code timed_out ->
  status_of script = Some code /\
  forall i s, c_streams c !! i = Some s ->
    (exists rest, written i script = s_copied s +:+ rest) /\ (timed_out = false -> s_copied s = written i script).
Proof.
  intros Hrun Hm. eapply client_inv_run in Hrun as [H1 H2 H3 H4]; [|apply client_inv_start]. rewrite Hm in H4. destruct H4 as [Hc Hall].
  split. { unfold outcome in H3. by rewrite Hc in H3. }
  intros i s Hs. specialize (H1 _ _ Hs). split; [by eexists|]. intros Ht. specialize (Hall Ht).
  rewrite Forall_lookup in Hall. destruct (H2 _ _ Hs (Hall _ _ Hs)) as [Hp Hcl]. rewrite Hp, Hcl in H1. rewrite <- H1. by rewrite !app_nil_r_string.
Qed.

(** *** [Wait] returns *)

Definition act_size (a : RemoteAct) : nat := match a with RWrite _ b => S (String.length b) | _ => 1 end.
Definition stream_size (s : Stream) : nat := String.length (s_pending s) + (if s_done s then 0 else 1).
Definition main_size (m : MainPc) : nat := match m with WaitExit => 2 | InSelect _ => 1 | Returned _ _ => 0 end.

(** What there is still to do. *)
Definition client_size (c : Client) : nat :=
  sum_list_with act_size (c_script c) + sum_list_with stream_size (c_streams c) +
  (match c_code c with None => 1 | Some _ => 0 end) + main_size (c_main c).

Lemma sum_list_insert (l : list Stream) i s s' : l !! i = Some s ->
  (sum_list_with stream_size (<[i := s']> l) + stream_size s = sum_list_with stream_size l + stream_size s')%nat.
Proof.
  intros Hl. rewrite insert_take_drop by (by eapply lookup_lt_Some). rewrite <- (take_drop_middle _ _ _ Hl) at 3.
  rewrite !sum_list_with_app. cbn -[stream_size]. lia.
Qed.

Lemma alter_size (f : Stream -> Stream) k (i : nat) (l : list Stream) : (forall s, (stream_size (f s) <= stream_size s + k)%nat) ->
  (sum_list_with stream_size (alter f i l) <= sum_list_with stream_size l + k)%nat.
Proof. intros Hf. revert i. induction l as [|x l IH]; intros [|i]; cbn -[stream_size]; [lia|lia|specialize (Hf x); lia|specialize (IH i); lia]. Qed.

Lemma client_step_smaller c c' : client_step c c' -> (client_size c' < client_size c)%nat.
Proof.
  destruct 1 as [a l Hr Hs|i s b1 b2 Hr Hl Hd Hp Hb|i s Hr Hl Hd Hp Hc|b Hr He Hn|code Hm Hc|code Hm Hall|code Hm];
    unfold client_size; cbn [c_script c_streams c_code c_main set_stream set_main].
  - rewrite Hs. cbn [sum_list_with]. destruct a as [j b|j|b|]; cbn -[sum_list_with alter].
    + pose proof (alter_size (fun s => if s_closed s then s else mkStream (s_pending s +:+ b) false (s_copied s) (s_done s))
        (String.length b) j (c_streams c)) as H. enough (Hf : forall s, (stream_size (if s_closed s then s
          else mkStream (s_pending s +:+ b) false (s_copied s) (s_done s)) <= stream_size s + String.length b)%nat) by (apply H in Hf; lia).
      intros s. destruct (s_closed s); unfold stream_size; cbn; [lia|]. rewrite length_app_string. lia.
    + pose proof (alter_size (fun s => mkStream (s_pending s) true (s_copied s) (s_done s)) 0 j (c_streams c)) as H.
      enough (Hf : forall s, (stream_size (mkStream (s_pending s) true (s_copied s) (s_done s)) <= stream_size s + 0)%nat) by (apply H in Hf; lia).
      intros s. unfold stream_size. cbn. lia.
    + lia.
    + lia.
  - apply (sum_list_insert _ _ _ (mkStream b2 (s_closed s) (s_copied s +:+ b1) false)) in Hl. unfold stream_size in Hl at 2 4. cbn in Hl.
    rewrite Hd, Hp, length_app_string in Hl. destruct b1; [done|]. cbn in Hl. lia.
  - apply (sum_list_insert _ _ _ (mkStream "" true (s_copied s) true)) in Hl. unfold stream_size in Hl at 2 4. cbn in Hl.
    rewrite Hd, Hp in Hl. cbn in Hl. lia.
  - rewrite Hn. lia.
  - rewrite Hm. cbn. lia.
  - rewrite Hm. cbn. lia.
  - rewrite Hm. cbn. lia.
Qed.

(** C19: [Wait] returns: when the process ends, or the daemon does, every run of
    the client comes to the end of [Wait], whatever is chosen at each step; no
    stream that stays open and no output that is not read can hold it up. *)
Theorem wait_returns script n : is_Some (status_of script) -> inevitable client_step returned (client_start script n).
Proof.
  intros [st Hst]. apply (inevitable_measure _ _ (client_inv (fun i => written i script) (Some st)) client_size).
  - intros c. apply returned_dec.
  - intros c c' Hc Hstep. split; [by eapply client_inv_step|by apply client_step_smaller].
  - intros c [_ _ Hout _] Hr. unfold returned in Hr. destruct (c_main c) as [|code|code t] eqn:Hm; [|eexists; by eapply step_timeout|done].
    assert (Hr' : ~ returned c) by (unfold returned; by rewrite Hm). unfold outcome in Hout.
    destruct (c_code c) as [code|] eqn:Hc; [eexists; by eapply step_receive|].
    destruct (c_exit c) as [b|] eqn:He; [eexists; by eapply step_read_exit|].
    destruct (c_script c) as [|a l] eqn:Hs; [done|]. eexists. by eapply step_remote.
  - rewrite <- Hst. apply client_inv_start.
Qed.

(** A process that writes and ends with status 3. *)
Definition sample_script : list RemoteAct := [RWrite 0 "hi"; RClose 0; RExit 3].
Definition sample_end : Client := mkClient [] [mkStream "" true "hi" true] (Some (Some 3)) (Some 3) (Returned 3 false).

Lemma sample_run : rtc client_step (client_start sample_script 1) sample_end.
Proof.
  do 3 (eapply rtc_l; [apply step_remote; [by intros []|reflexivity]|]). cbn.
  eapply rtc_l; [eapply (step_copy _ 0%nat _ "hi" ""); [by intros []|reflexivity|reflexivity|reflexivity|done]|].
  eapply rtc_l; [eapply (step_eof _ 0%nat); [by intros []|reflexivity|reflexivity|reflexivity|reflexivity]|].
  eapply rtc_l; [apply (step_read_exit _ (Some 3)); [by intros []|reflexivity|reflexivity]|].
  eapply rtc_l; [apply (step_receive _ 3); reflexivity|].
  eapply rtc_l; [apply (step_done _ 3); [reflexivity|by repeat constructor]|]. apply rtc_refl.
Qed.

Lemma wait_result_witness : status_of sample_script = Some 3 /\ s_copied (mkStream "" true "hi" true) = written 0 sample_script.
Proof.
  destruct (wait_result sample_script 1 sample_end 3 false sample_run eq_refl) as [H1 H2]. split; [exact H1|].
  destruct (H2 0%nat (mkStream "" true "hi" true) eq_refl) as [_ H3]. exact (H3 eq_refl).
Defined.

Lemma wait_returns_witness : inevitable client_step returned (client_start sample_script 1).
Proof. apply wait_returns. by exists 3. Defined.

(** ** The end of wsh *)

(** wsh has a process to wait for, or ends: 2 for a wrong command line, 255 when
    the process could not be started; the deferred call restores the terminal and
    exits with 255 also when the files of the response are too few. *)
Inductive WshState := WshExits (code : Z) | WshWaits (st : Started) (termState : option string).

Definition wsh_main {codec : WireCodec} (env : Env) (getenv : string -> string) (terminal : bool) (args : list string)
    (connect : string -> Request -> result ResponseMessage) : M World WshState := fun w =>
  match wsh_request getenv terminal args with
  | Ok (socket, readSignals, spec) =>
      match Process_Start env spec (mkIO true true true) readSignals (connect socket) (None, w) with
      | (Ok st, (termState, w')) => (Ok (WshWaits st termState), w')
      | (_, (termState, w')) => bind (Process_Cleanup env termState) (fun _ => ret (WshExits UnknownExitStatus)) w'
      end
  | _ => (Ok (WshExits 2), w)
  end.

(** The end of a wsh that has waited. *)
Definition wsh_exit (env : Env) (termState : option string) (code : Z) : M World WshState :=
  bind (Process_Cleanup env termState) (fun _ => ret (WshExits code)).
