(* ===== verification/RunPath.v ===== *)
(** * How a client's process comes to run

    A request to run a process goes through six programs: the server builds a
    command line for wsh and wraps it for iodaemon; iodaemon starts wsh; wsh reads
    its flags and its environment and sends a request to initd; initd prepares a
    command line for proc_starter; proc_starter reads it and becomes the process.
    This file puts the models of these programs together. *)
From S2P Require Import Prelude GoStrings GoFlag World ProcessEnv RLimits Sysconfig System ProcessTracker Spawn.
From S2P Require Import Container ContainerTheorems ContainerDaemon UnixSocket Client.

(** ** iodaemon's command line (iodaemon/cmd/iodaemon/main.go)

    The text of the time-out is not interpreted: the server never sets it. *)

Definition iodaemon_flags : list (string * FlagKind) :=
  [("timeout", FDuration); ("tty", FBool); ("windowColumns", FInt); ("windowRows", FInt)].

(** What iodaemon is told to spawn. *)
Record IODaemonArgs := mkIODaemonArgs {
  ia_tty : bool;
  ia_columns : Z;
  ia_rows : Z;
  ia_socket : string;
  ia_argv : list string
}.

(** An error exits with 2 when the flags are wrong and with 1 when the rest is. *)
Definition iodaemon_main (args : list string) : result (IODaemonArgs + Ending) :=
  match Parse iodaemon_flags args with
  | Ok (sets, others) =>
      match others with
      | [] => Panic "runtime error: index out of range"
      | cmd :: rest =>
          if decide (cmd = "spawn") then
            match rest with
            | socket :: (path :: argv) => Ok (inl (mkIODaemonArgs (flag_bool "tty" false sets) (flag_int "windowColumns" 80 sets)
                                          (flag_int "windowRows" 24 sets) socket (path :: argv)))
            | _ => Ok (inr (Exits 1))
            end
          else Ok (inr (Exits 1))
      end
  | Err _ => Ok (inr (Exits 2))
  | Panic m => Panic m
  end.

(** [bash -c 'iodaemon "$@" &' iodaemon args]: the arguments after the name. *)
Definition bash_args (cmd : Cmd) : list string := drop 3 (cmd_Args cmd).

(** ** The environment of a command *)

(** [exec.Cmd]: an empty list of variables means the environment of the parent. *)
Definition child_env (cmdEnv parent : list string) : list string := match cmdEnv with [] => parent | l => l end.

(** [os.Getenv]: the first entry of the name. *)
Fixpoint getenv_of (env : list string) (name : string) : string :=
  match env with
  | [] => ""
  | e :: env' => match cut "="%char e with (k, Some v) => if decide (k = name) then v else getenv_of env' name | _ => getenv_of env' name end
  end.

(** *** The resource limits pass through the environment of wsh *)

Lemma setRLimitsEnv_table r : setRLimitsEnv r [] = limit_text <$> present (limit_table r).
Proof. rewrite <- (app_nil_l (limit_text <$> _)), <- append_limit_table. done. Qed.

Lemma getenv_limit_texts l name : Forall encodable l ->
  getenv_of (limit_text <$> l) name = match (list_to_map l : gmap string Z) !! name with Some v => FormatUint v 10 | None => "" end.
Proof.
  intros Hl. induction Hl as [|[k v] l (Hk & _ & Hv) Hl IH]; [done|]. cbn [fst snd] in *.
  rewrite fmap_cons. cbn [getenv_of]. change (limit_text (k, v)) with (k +:+ String "="%char (FormatUint v 10)). rewrite cut_app by done.
  rewrite list_to_map_cons. case_decide as Hd; [subst; by rewrite lookup_insert_eq|]. rewrite lookup_insert_ne by done. exact IH.
Qed.

(** No variable of the environment is a limit. *)
Definition no_limits (env : list string) : Prop := forall k, k ∈ (limit_table empty_limits).*1 -> getenv_of env k = "".

Lemma limit_from_env r parent k v : limits_wf r -> no_limits parent -> (k, v) ∈ limit_table r ->
  getRLimitFromEnv (getenv_of (child_env (setRLimitsEnv r []) parent)) k = v.
Proof.
  intros Hwf Hp Hin. pose proof (present_lookup _ _ _ (proj1 (names_ok r)) Hin) as Hl.
  assert (Hg : getenv_of (child_env (setRLimitsEnv r []) parent) k = match v with Some x => FormatUint x 10 | None => "" end).
  { rewrite setRLimitsEnv_table. pose proof (getenv_limit_texts _ k (present_encodable r Hwf)) as He. rewrite Hl in He.
    destruct (present (limit_table r)) as [|x l] eqn:Hpr; [|exact He]. cbn in Hl |- *. rewrite lookup_empty in Hl. subst v.
    apply Hp. change (k ∈ (limit_table r).*1). apply list_elem_of_fmap. by exists (k, None). }
  unfold getRLimitFromEnv. rewrite Hg. destruct v as [x|]; [|by rewrite decide_True].
  rewrite decide_False by apply FormatUint_nonempty. rewrite Sscanf_FormatUint; [done|].
  exact (proj1 (Forall_forall _ _) Hwf _ Hin).
Qed.

Lemma getRlimits_env r parent : limits_wf r -> no_limits parent -> getRlimits (getenv_of (child_env (setRLimitsEnv r []) parent)) = r.
Proof.
  intros Hwf Hp. pose proof (limit_from_env r parent) as H. unfold getRlimits. destruct r.
  f_equal; (apply H; [done|done|]); repeat first [left | right].
Qed.

(** ** The command line of wsh *)

(** A path that wsh does not take for a flag. *)
Definition plain_path (s : string) : Prop := forall t, s <> String "-" t.

Definition env_sets (l : list string) : list (string * string) := (fun e => ("env", e)) <$> l.

Lemma Parse_env l args sets others : Parse wsh_flags args = Ok (sets, others) ->
  Parse wsh_flags ((l ≫= fun e => ["--env"; e]) ++ args) = Ok (env_sets l ++ sets, others).
Proof.
  intros H. induction l as [|e l IH]; [exact H|]. change ((e :: l) ≫= _) with (["--env"; e] ++ (l ≫= fun e => ["--env"; e])).
  rewrite <- (assoc_L (++)). cbn [app].
  apply (Parse_value wsh_flags "env" FList); [flag_tac..|exact IH].
Qed.

Definition wsh_sets (c : LinuxContainer) (spec : ProcessSpec) (processEnv : ProcEnv) : list (string * string) :=
  [("socket", path_join [ContainerPath (c_spec c); "run"; "wshd.sock"]); ("readSignals", "true"); ("user", ps_User spec)] ++
  env_sets (Env_Array processEnv) ++ (if decide (ps_Dir spec = "") then [] else [("dir", ps_Dir spec)]).

Lemma wsh_args_parse c spec processEnv id : spec_Version (c_spec c) <> MissingVersion -> plain_path (ps_Path spec) ->
  Parse wsh_flags (wsh_args c spec processEnv id) = Ok (wsh_sets c spec processEnv, ps_Path spec :: ps_Args spec).
Proof.
  intros Hv Hp. unfold wsh_args, wsh_sets. rewrite (decide_False (P := spec_Version _ = _)) by done.
  assert (Hend : Parse wsh_flags ((if decide (ps_Dir spec = "") then [] else ["--dir"; ps_Dir spec]) ++ ps_Path spec :: ps_Args spec) =
            Ok (if decide (ps_Dir spec = "") then [] else [("dir", ps_Dir spec)], ps_Path spec :: ps_Args spec)).
  { case_decide; cbn [app]; [by apply Parse_args|].
    apply (Parse_value wsh_flags "dir" FString); [flag_tac..|by apply Parse_args]. }
  apply (Parse_env (Env_Array processEnv)) in Hend.
  assert (Hargs : forall l : list string, (if decide (ps_Dir spec = "") then l else l ++ ["--dir"; ps_Dir spec]) ++ ps_Path spec :: ps_Args spec =
            l ++ (if decide (ps_Dir spec = "") then [] else ["--dir"; ps_Dir spec]) ++ ps_Path spec :: ps_Args spec).
  { intros l. case_decide; [done|]. by rewrite <- (assoc_L (++)). }
  rewrite Hargs, <- (assoc_L (++)). cbn [app].
  apply (Parse_value wsh_flags "socket" FString); [flag_tac..|]. apply (Parse_bool wsh_flags "readSignals"); [flag_tac..|].
  apply (Parse_value wsh_flags "user" FString); [flag_tac..|exact Hend].
Qed.

Lemma fold_env_sets {A} (f : A -> string * string -> A) l : (forall a e, f a ("env", e) = a) -> forall a, foldl f a (env_sets l) = a.
Proof. intros Hf. induction l as [|e l IH]; intros a; [done|]. cbn. by rewrite Hf, IH. Qed.

Lemma flag_value_wsh c spec e name d : name <> "env" ->
  flag_value name d (wsh_sets c spec e) =
    flag_value name d ([("socket", path_join [ContainerPath (c_spec c); "run"; "wshd.sock"]); ("readSignals", "true"); ("user", ps_User spec)] ++
                       (if decide (ps_Dir spec = "") then [] else [("dir", ps_Dir spec)])).
Proof.
  intros Hn. unfold flag_value, wsh_sets. rewrite !foldl_app, fold_env_sets; [done|]. intros a x. cbn. by rewrite decide_False.
Qed.

Lemma flag_list_wsh c spec e : flag_list "env" (wsh_sets c spec e) = Env_Array e.
Proof.
  unfold flag_list, wsh_sets. rewrite !filter_app, !fmap_app. rewrite (filter_cons_False _ (_, _)), (filter_cons_False _ (_, _)), (filter_cons_False _ (_, _)) by done.
  cbn [filter list_filter fmap list_fmap app].
  assert (Hd : (filter (fun kv : string * string => kv.1 = "env") (if decide (ps_Dir spec = "") then [] else [("dir", ps_Dir spec)])).*2 = []).
  { case_decide; [done|]. by rewrite filter_cons_False. }
  rewrite Hd, app_nil_r. induction (Env_Array e) as [|x l IH]; [done|]. cbn [env_sets fmap list_fmap]. rewrite filter_cons_True by done.
  rewrite fmap_cons. f_equal. exact IH.
Qed.

(** What wsh asks the daemon for is what [Run] was asked for, with the environment
    of the container merged in. *)
Lemma wsh_request_run c spec processEnv id parent terminal :
  spec_Version (c_spec c) <> MissingVersion -> plain_path (ps_Path spec) -> limits_wf (ps_Limits spec) -> no_limits parent ->
  wsh_request (getenv_of (child_env (setRLimitsEnv (ps_Limits spec) []) parent)) terminal (wsh_args c spec processEnv id) =
    Ok (path_join [ContainerPath (c_spec c); "run"; "wshd.sock"], true,
        mkProcessSpec (ps_Path spec) (ps_Args spec) (Env_Array processEnv) (ps_Dir spec) (ps_User spec) (ps_Limits spec)
          (if terminal then Some (mkTTY None) else None)).
Proof.
  intros Hv Hp Hl Hn. unfold wsh_request. rewrite wsh_args_parse by done. rewrite getRlimits_env by done.
  rewrite !flag_value_wsh by done. rewrite flag_list_wsh. cbn [head tail default].
  assert (Hb : flag_bool "readSignals" false (wsh_sets c spec processEnv) = true).
  { unfold flag_bool, wsh_sets. rewrite !foldl_app, fold_env_sets by (intros; by rewrite decide_False). by case_decide. }
  rewrite Hb. unfold flag_value. case_decide as Hd; cbn; [by rewrite Hd|done].
Qed.

(** ** The command line of proc_starter *)

Definition starter_sets (always : bool) (spec : ProcessSpec) (usr : parsedUser) : list (string * string) :=
  [("dropCapabilities", FormatBool (drop_capabilities always spec)); ("extendedWhitelist", FormatBool (negb always));
   ("rlimits", EncodeLimits (ps_Limits spec)); ("uid", FormatUint (uid usr) 10); ("gid", FormatUint (gid usr) 10);
   ("workDir", if decide (ps_Dir spec = "") then homeDir usr else ps_Dir spec)].

Lemma parse_digits_nonneg whole s : forall n v, 0 <= n -> parse_digits whole s n = Ok v -> 0 <= v.
Proof.
  induction s as [|c s IH]; intros n v Hn; cbn [parse_digits]; [by intros [= <-]|]. cbn zeta.
  assert (0 <= digit_val c) by (unfold digit_val; repeat case_match; lia). repeat case_match; try done. apply IH. lia.
Qed.

Lemma Sscanf_d_nonneg s v : Sscanf_d s = Some v -> 0 <= v.
Proof.
  induction s as [|c s IH]; [done|]. cbn [Sscanf_d]. case_match; [done|]. case_match; [done|].
  destruct (ParseUint _) as [x|?|?] eqn:Hp; [|done|done]. intros [= <-]. unfold ParseUint in Hp.
  destruct (scan_digits _); [done|]. by eapply parse_digits_nonneg; [|exact Hp].
Qed.

Lemma parseUser_ids lookup name usr : parseUser lookup name = Ok usr -> is_u32 (uid usr) /\ is_u32 (gid usr).
Proof.
  assert (Hs : forall s v, Sscanf_uint32 s = Some v -> is_u32 v).
  { intros s v. unfold Sscanf_uint32. destruct (Sscanf_d s) as [x|] eqn:Hx; [|done]. apply Sscanf_d_nonneg in Hx.
    destruct (Z.ltb_spec x 4294967296); [|done]. intros [= <-]. unfold is_u32. lia. }
  unfold parseUser. destruct (lookup name) as [[u|]|?|?]; [|done..].
  destruct (Sscanf_uint32 (os_Uid u)) eqn:H1; [|done]. destruct (Sscanf_uint32 (os_Gid u)) eqn:H2; [|done]. intros [= <-]. eauto.
Qed.

Lemma starter_args_parse lookup always spec cmd : PrepareCmd lookup always spec = Ok cmd ->
  exists usr, parseUser lookup (ps_User spec) = Ok usr /\
    Parse proc_starter_flags (tail (cmd_Args cmd)) = Ok (starter_sets always spec usr, ps_Path spec :: ps_Args spec).
Proof.
  unfold PrepareCmd. destruct (parseUser lookup (ps_User spec)) as [usr|?|?] eqn:Hu; [|done|done].
  destruct (createEnvironment _ _); [|done|done]. intros [= <-]. exists usr. split; [done|]. cbn [tail cmd_Args app].
  destruct (parseUser_ids _ _ _ Hu) as [Huid Hgid]. unfold is_u32 in *.
  assert (Hint : forall n, 0 <= n < 4294967296 -> flag_accepts FInt (FormatUint n 10) = true).
  { intros n Hn. unfold flag_accepts. by rewrite ParseInt_FormatUint by lia. }
  assert (Hbool : forall b, flag_accepts FBool (FormatBool b) = true) by (intros []; by vm_compute).
  unfold starter_sets.
  apply (Parse_eq_value proc_starter_flags "dropCapabilities" FBool); [flag_tac|flag_tac|apply Hbool|].
  apply (Parse_eq_value proc_starter_flags "extendedWhitelist" FBool); [flag_tac|flag_tac|apply Hbool|].
  apply (Parse_eq_value proc_starter_flags "rlimits" FString); [flag_tac..|].
  apply (Parse_eq_value proc_starter_flags "uid" FInt); [flag_tac|flag_tac|by apply Hint|].
  apply (Parse_eq_value proc_starter_flags "gid" FInt); [flag_tac|flag_tac|by apply Hint|].
  apply (Parse_eq_value proc_starter_flags "workDir" FString); [flag_tac..|]. apply Parse_end.
Qed.

(** ** All programs together *)

(** The command that initd starts for the command that the server started:
    iodaemon reads the arguments that bash passes on, wsh is started with a terminal
    if iodaemon has one, and initd gets the request of wsh. *)
Definition run_pipeline {codec : WireCodec} (lookup : string -> result (option OSUser)) (always : bool) (parent : list string) (cmd : Cmd)
    : result Cmd :=
  match iodaemon_main (bash_args cmd) with
  | Ok (inl a) =>
      match wsh_request (getenv_of (child_env (cmd_Env cmd) parent)) (ia_tty a) (tail (ia_argv a)) with
      | Ok (_, _, spec) => res_bind (decode_process (marshal_process spec)) (PrepareCmd lookup always)
      | Err e => Err e
      | Panic m => Panic m
      end
  | Ok (inr _) => Err (Errorf "iodaemon: exit")
  | Err e => Err e
  | Panic m => Panic m
  end.

Lemma Parse_spawn args : Parse iodaemon_flags ("spawn" :: args) = Ok ([], "spawn" :: args).
Proof. by apply Parse_args. Qed.

(** A window size that its flags can carry. *)
Definition tty_ok (tty : option TTYSpec) : Prop :=
  match tty with Some (mkTTY (Some w)) => 0 <= ws_Columns w < 9223372036854775808 /\ 0 <= ws_Rows w < 9223372036854775808 | _ => True end.

Lemma Itoa_nonneg n : 0 <= n -> Itoa n = FormatUint n 10.
Proof. intros Hn. unfold Itoa. by destruct (Z.ltb_spec n 0); [lia|]. Qed.

Lemma iodaemon_spawn cp id wsh tty : tty_ok tty ->
  exists cols rows, iodaemon_main (bash_args (spawn_cmd cp id wsh tty)) =
    Ok (inl (mkIODaemonArgs (bool_decide (is_Some tty)) cols rows (process_sock cp id) (cmd_Path wsh :: cmd_Args wsh))).
Proof.
  intros Ht. unfold bash_args, spawn_cmd, iodaemon_main. cbn [cmd_Args].
  destruct tty as [[[[cols rows]|]]|]; cbn [tty_WindowSize ws_Columns ws_Rows app drop] in *.
  - destruct Ht as [Hc Hr]. cbn in Hc, Hr. rewrite !Itoa_nonneg by lia.
    assert (Hint : forall n, 0 <= n < 9223372036854775808 -> flag_accepts FInt (FormatUint n 10) = true).
    { intros n Hn. unfold flag_accepts. by rewrite ParseInt_FormatUint. }
    match goal with |- context [Parse iodaemon_flags ?l] => assert (Hp : Parse iodaemon_flags l =
      Ok ([("tty", "true"); ("windowColumns", FormatUint cols 10); ("windowRows", FormatUint rows 10)],
          "spawn" :: process_sock cp id :: cmd_Path wsh :: cmd_Args wsh)) end.
    { apply (Parse_bool_1 iodaemon_flags "tty"); [flag_tac..|].
      apply (Parse_eq_value iodaemon_flags "windowColumns" FInt); [flag_tac|flag_tac|by apply Hint|].
      apply (Parse_eq_value iodaemon_flags "windowRows" FInt); [flag_tac|flag_tac|by apply Hint|]. apply Parse_spawn. }
    rewrite Hp. by eexists _, _.
  - by eexists _, _.
  - by eexists _, _.
Qed.

(** The calls of proc_starter for a request of the client. *)
Definition process_calls (pid : Z) (always : bool) (spec : ProcessSpec) (usr : parsedUser) (fds path : string) : list Call :=
  let dir := if decide (ps_Dir spec = "") then homeDir usr else ps_Dir spec in
  [Sys "ioutil.ReadDir" ["/proc/self/fd"]] ++ fd_calls fds ++ rlimit_calls (ps_Limits spec) ++
  (if decide (ps_User spec = "root" /\ always = false) then [] else limit_calls pid (negb always)) ++
  [Sys "setgid" [Itoa (gid usr)]; Sys "setuid" [Itoa (uid usr)]; Sys "os.MkdirAll" [dir; "0755"]; Sys "chdir" [dir];
   Sys "exec.LookPath" [ps_Path spec]; Sys "exec" (path :: ps_Path spec :: ps_Args spec)].

Lemma flag_bool_FormatBool name d b : flag_bool name d [(name, FormatBool b)] = b.
Proof. unfold flag_bool. cbn. rewrite decide_True by done. by destruct b. Qed.

(** The flags that proc_starter reads are the values that initd wrote. *)
Lemma starter_flags always spec usr : limits_wf (ps_Limits spec) -> is_u32 (uid usr) -> is_u32 (gid usr) ->
  let sets := starter_sets always spec usr in
  DecodeLimits (flag_value "rlimits" "" sets) = ps_Limits spec /\
  flag_bool "dropCapabilities" true sets = drop_capabilities always spec /\ flag_bool "extendedWhitelist" false sets = negb always /\
  flag_int "uid" (-1) sets = uid usr /\ flag_int "gid" (-1) sets = gid usr /\
  flag_value "workDir" "" sets = (if decide (ps_Dir spec = "") then homeDir usr else ps_Dir spec).
Proof.
  intros Hl Hu Hg. unfold is_u32 in *. cbn zeta. unfold starter_sets, flag_value, flag_bool, flag_int. cbn -[DecodeLimits ParseInt ParseBool FormatBool FormatUint].
  eval_names. rewrite DecodeLimits_EncodeLimits by done.
  assert (Hb : forall b d, default d (ParseBool (FormatBool b)) = b) by (intros [] ?; by vm_compute). rewrite !Hb.
  rewrite !ParseInt_FormatUint by lia. done.
Qed.

(** The request that wsh sends for a process of the container. *)
Definition sent_spec (spec : ProcessSpec) (processEnv : ProcEnv) : ProcessSpec :=
  mkProcessSpec (ps_Path spec) (ps_Args spec) (Env_Array processEnv) (ps_Dir spec) (ps_User spec) (ps_Limits spec)
    (if bool_decide (is_Some (ps_TTY spec)) then Some (mkTTY None) else None).

Lemma run_pipeline_eq {codec : WireCodec} lookup always parent c spec processEnv id :
  spec_Version (c_spec c) <> MissingVersion -> plain_path (ps_Path spec) -> limits_wf (ps_Limits spec) -> tty_ok (ps_TTY spec) ->
  no_limits parent -> spec_ascii (sent_spec spec processEnv) ->
  run_pipeline lookup always parent (run_cmd c spec processEnv id) = PrepareCmd lookup always (sent_spec spec processEnv).
Proof.
  intros Hv Hp Hl Ht Hn Ha. unfold run_pipeline, run_cmd.
  destruct (iodaemon_spawn (ContainerPath (c_spec c)) (FormatUint id 10)
    (mkCmd (path_join [ContainerPath (c_spec c); "bin"; "wsh"]) (wsh_args c spec processEnv id) (setRLimitsEnv (ps_Limits spec) []) "") _ Ht)
    as (cols & rows & ->).
  cbn [ia_tty ia_argv tail cmd_Args spawn_cmd cmd_Env]. rewrite wsh_request_run by done. fold (sent_spec spec processEnv).
  by rewrite process_roundtrip.
Qed.

(** C8: a process runs as it was asked for. The command that [Run] starts goes
    through bash, iodaemon, wsh and the socket to initd, and what initd starts
    for it, proc_starter with its command line, becomes the client's program with
    the client's arguments only after: every other descriptor is marked to be
    closed, exactly the limits asked for are set, the capabilities are dropped
    (unless root asked, in a privileged container), the group and then the user of
    the name asked for are taken, and the working directory is entered. Its
    environment is that of the container and the request, with the user's name and
    defaults. *)
Theorem process_runs_as_asked {codec : WireCodec} env lookup always parent c spec processEnv id pid cmd o w' l :
  spec_Version (c_spec c) <> MissingVersion -> plain_path (ps_Path spec) -> limits_wf (ps_Limits spec) -> tty_ok (ps_TTY spec) ->
  no_limits parent -> env_wf processEnv -> spec_ascii (sent_spec spec processEnv) ->
  run_pipeline lookup always parent (run_cmd c spec processEnv id) = Ok cmd ->
  proc_starter_start env pid (tail (cmd_Args cmd)) [] = (o, w') -> Sys "exec" l ∈ w' ->
  exists usr fds path e,
    parseUser lookup (ps_User spec) = Ok usr /\ l = path :: ps_Path spec :: ps_Args spec /\
    w' = process_calls pid always spec usr fds path /\ NewEnv (cmd_Env cmd) = Ok e /\
    e !! "USER" = Some (ps_User spec) /\ e !! "HOME" = Some (default (homeDir usr) (processEnv !! "HOME")) /\
    e !! "PATH" = Some (default (if uid usr =? 0 then DefaultRootPATH else DefaultUserPath) (processEnv !! "PATH")) /\
    forall k, k ∉ ["USER"; "HOME"; "PATH"] -> e !! k = processEnv !! k.
Proof.
  intros Hv Hp Hl Ht Hn Hwf Ha. rewrite run_pipeline_eq by done. intros Hcmd Hrun Hin.
  destruct (starter_args_parse _ _ _ _ Hcmd) as (usr & Hu & Hparse).
  destruct (proc_starter_exec _ _ _ _ _ _ Hrun Hin) as (sets & program & rest & fds & path & Hparse' & _ & -> & ->).
  rewrite Hparse in Hparse'. injection Hparse' as <- <- <-.
  destruct (parseUser_ids _ _ _ Hu) as [Huid Hgid].
  destruct (prepared_env _ _ _ _ _ Hcmd Hu) as (e0 & e & He0 & He & Huser & Hhome & Hpath & Hrest).
  cbn [sent_spec ps_Env ps_User] in *. rewrite (NewEnv_perm processEnv) in He0 by (done || apply sort_Strings_perm).
  injection He0 as <-. exists usr, fds, path, e. split_and!; try done.
  destruct (starter_flags always (sent_spec spec processEnv) usr Hl Huid Hgid) as (F1 & F2 & F3 & F4 & F5 & F6).
  unfold starter_calls, process_calls. rewrite F1, F2, F3, F4, F5, F6. cbn [sent_spec ps_Limits ps_Dir ps_Path ps_Args].
  rewrite drop_capabilities_eq. cbn [ps_User sent_spec]. by destruct (decide (ps_User spec = "root" /\ always = false)).
Qed.

(** ** An example: [ls -l] in a container of the current version *)

Definition run_container : LinuxContainer :=
  NewLinuxContainer (mkLinuxSpec "id" "/depot/id" "/rootfs" (mkResources 0 None "" [] []) StateActive [] sample_gspec
    (mkContainerLimits None None None None) [] [] [] (1, 0, 0)).

Definition run_env : ProcEnv := {["A" := "1"; "HOME" := "/tmp"]}.

Definition env_starts : Env := fun _ c =>
  match c with
  | Sys "ioutil.ReadDir" _ => inl ("0" +:+ String newline ("1" +:+ String newline ("2" +:+ String newline "5")))
  | Sys "exec.LookPath" _ => inl "/usr/bin/ls"
  | _ => inl ""
  end.

Definition run_prepared : Cmd := Eval vm_compute in
  match PrepareCmd sample_users true (sent_spec sample_process run_env) with Ok c => c | _ => mkCmd "" [] [] "" end.
Definition run_history : World := Eval vm_compute in snd (proc_starter_start env_starts 7 (tail (cmd_Args run_prepared)) []).

Lemma process_runs_as_asked_witness :
  exists usr fds path e, parseUser sample_users "vcap" = Ok usr /\
    ["/usr/bin/ls"; "/bin/ls"; "-l"] = path :: "/bin/ls" :: ["-l"] /\
    run_history = process_calls 7 true sample_process usr fds path /\ NewEnv (cmd_Env run_prepared) = Ok e /\ e !! "USER" = Some "vcap".
Proof.
  assert (Hl : limits_wf sample_limits) by (repeat constructor; unfold is_u64; cbn; try done; vm_compute; intuition congruence).
  assert (Hn : no_limits []) by (intros k _; reflexivity).
  assert (Ha : spec_ascii (sent_spec sample_process run_env)) by (apply (bool_decide_unpack _); vm_compute; exact I).
  assert (Hw : env_wf run_env) by (apply (bool_decide_unpack _); vm_compute; exact I).
  assert (Hp : plain_path "/bin/ls") by (intros t [=]).
  destruct (process_runs_as_asked env_starts sample_users true [] run_container sample_process run_env 1 7 run_prepared
    (Ok Execs) run_history ["/usr/bin/ls"; "/bin/ls"; "-l"]) as (usr & fds & path & e & H1 & H2 & H3 & H4 & H5 & _);
    [intros [=]|exact Hp|exact Hl|exact I|exact Hn|exact Hw|exact Ha| |vm_compute; reflexivity|apply (bool_decide_unpack _); vm_compute; exact I|].
  - rewrite run_pipeline_eq; [vm_compute; reflexivity|intros [=]|exact Hp|exact Hl|exact I|exact Hn|exact Ha].
  - exists usr, fds, path, e. split_and!; assumption.
Defined.
