(* ===== verification/IODaemon.v ===== *)
(** * iodaemon and its link (src/iodaemon)

    iodaemon runs wsh for a process of a container and outlives the server. A
    server links to it through a socket: it gets the output and the exit status as
    files, and sends input, window sizes and messages as gob values over the
    connection. *)
From S2P Require Import Prelude GoStrings World ProcessEnv RLimits Bandwidth IPTablesManager ProcessTracker Spawn Namespaces Container.

(** ** link/writer.go *)

Record Input := mkInput {
  in_StdinData : string;
  in_EOF : bool;
  in_WindowSize : option WindowSize;
  in_Msg : option string
}.

(** The methods of [Writer] that send something. *)
Inductive WriterOp :=
| WWrite (d : string)
| WClose
| WSetWindowSize (cols rows : Z)
| WSendMsg (msg : string).

Definition input_of (op : WriterOp) : Input :=
  match op with
  | WWrite d => mkInput d false None None
  | WClose => mkInput "" true None None
  | WSetWindowSize cols rows => mkInput "" false (Some (mkWindowSize cols rows)) None
  | WSendMsg msg => mkInput "" false None (Some msg)
  end.

(** encoding/gob does not transmit an empty slice: it arrives as nil. *)
Definition gob (i : Input) : Input :=
  mkInput (in_StdinData i) (in_EOF i) (in_WindowSize i) (match in_Msg i with Some "" => None | m => m end).

(** ** daemon.go and winsize.go *)

Definition SIGHUP : Z := 1.
Definition SIGWINCH : Z := 28.

(** What the daemon does to its child: the standard input, the size of its
    terminal, the signals and the messages on the extra descriptor. *)
Record Child := mkChild {
  ch_stdin : string;
  ch_closed : bool;
  ch_winsize : list (Z * Z);
  ch_signals : list Z;
  ch_extra : list string
}.

Definition new_child : Child := mkChild "" false [] [] [].

Definition send_signal (sig : Z) (c : Child) : Child := mkChild (ch_stdin c) (ch_closed c) (ch_winsize c) (ch_signals c ++ [sig]) (ch_extra c).

(** The terminal keeps two bytes of each number; the call fails on a closed file
    and on a pipe. *)
Definition setWinSize (isatty : bool) (cols rows : Z) (c : Child) : Child :=
  if ch_closed c || negb isatty then c else mkChild (ch_stdin c) (ch_closed c) (ch_winsize c ++ [(u16 cols, u16 rows)]) (ch_signals c) (ch_extra c).

(** [broken]: nobody reads the standard input any more. *)
Definition handle (WithTty broken : bool) (input : Input) (c : Child) : result unit * Child :=
  match in_WindowSize input with
  | Some w => (Ok tt, send_signal SIGWINCH (setWinSize WithTty (ws_Columns w) (ws_Rows w) c))
  | None =>
      if in_EOF input then
        let c' := mkChild (ch_stdin c) true (ch_winsize c) (ch_signals c) (ch_extra c) in
        let c' := if WithTty then send_signal SIGHUP c' else c' in
        (if ch_closed c then Err (Errorf "invalid argument") else Ok tt, c')
      else
        match in_Msg input with
        | Some m => (Ok tt, mkChild (ch_stdin c) (ch_closed c) (ch_winsize c) (ch_signals c) (ch_extra c ++ [m]))
        | None =>
            if ch_closed c || broken then (Err (Errorf "write"), c)
            else (Ok tt, mkChild (ch_stdin c +:+ in_StdinData input) false (ch_winsize c) (ch_signals c) (ch_extra c))
        end
  end.

(** The inputs of a connection, up to its end; the result says whether the daemon
    closed it because an input failed. [broken n] is the state of the reader
    before the input with the number [n]. *)
Fixpoint HandleConnection (WithTty : bool) (broken : nat -> bool) (n : nat) (inputs : list Input) (c : Child) : bool * Child :=
  match inputs with
  | [] => (false, c)
  | input :: inputs' =>
      match handle WithTty (broken n) input c with
      | (Ok _, c') => HandleConnection WithTty broken (S n) inputs' c'
      | (_, c') => (true, c')
      end
  end.

(** ** The contract of the link

    What a client means by its calls. *)

Definition stdin_of (ops : list WriterOp) : string := foldr (fun op acc => match op with WWrite d => d +:+ acc | _ => acc end) "" ops.
Definition closes (ops : list WriterOp) : bool := existsb (fun op => match op with WClose => true | _ => false end) ops.
Definition messages (ops : list WriterOp) : list string := omap (fun op => match op with WSendMsg m => Some m | _ => None end) ops.

(** The window sizes that the terminal is set to: until the input is closed. *)
Fixpoint sizes (WithTty : bool) (ops : list WriterOp) : list (Z * Z) :=
  match ops with
  | [] => []
  | WSetWindowSize c r :: ops' => (if WithTty then [(u16 c, u16 r)] else []) ++ sizes WithTty ops'
  | WClose :: _ => []
  | _ :: ops' => sizes WithTty ops'
  end.

Definition signals_of (WithTty : bool) (ops : list WriterOp) : list Z :=
  omap (fun op => match op with WSetWindowSize _ _ => Some SIGWINCH | WClose => if WithTty then Some SIGHUP else None | _ => None end) ops.

(** A client that writes nothing after it has closed the input, and no message
    that is empty. *)
Fixpoint orderly (ops : list WriterOp) : Prop :=
  match ops with
  | [] => True
  | WClose :: ops' => Forall (fun op => match op with WWrite _ | WClose => False | WSendMsg m => m <> "" | _ => True end) ops'
  | WSendMsg m :: ops' => m <> "" /\ orderly ops'
  | _ :: ops' => orderly ops'
  end.

Lemma setWinSize_open tty cols rows c : ch_closed c = false ->
  setWinSize tty cols rows c = mkChild (ch_stdin c) false (ch_winsize c ++ if tty then [(u16 cols, u16 rows)] else []) (ch_signals c) (ch_extra c).
Proof. intros Hc. unfold setWinSize. rewrite Hc. destruct c, tty; cbn in *; subst; [done|]. by rewrite app_nil_r. Qed.

Lemma setWinSize_closed tty cols rows c : ch_closed c = true -> setWinSize tty cols rows c = c.
Proof. intros Hc. unfold setWinSize. by rewrite Hc. Qed.

Lemma handle_closed tty ops : forall n c, ch_closed c = true ->
  Forall (fun op => match op with WWrite _ | WClose => False | WSendMsg m => m <> "" | _ => True end) ops ->
  HandleConnection tty (fun _ => false) n (gob ∘ input_of <$> ops) c =
    (false, mkChild (ch_stdin c) true (ch_winsize c) (ch_signals c ++ signals_of tty ops) (ch_extra c ++ messages ops)).
Proof.
  induction ops as [|op ops IH]; intros n c Hc Hall.
  - destruct c; cbn in *. by rewrite Hc, !app_nil_r.
  - apply Forall_cons in Hall as [Hop Hall]. destruct op as [d| |cols rows|m]; try done; cbn.
    + rewrite setWinSize_closed by done. rewrite IH by done. cbn. by rewrite <- (assoc_L (++)).
    + destruct m as [|a m]; [done|]. cbn. rewrite IH by done. cbn. by rewrite <- (assoc_L (++)).
Qed.

Lemma handle_open tty ops : forall n c, ch_closed c = false -> orderly ops ->
  HandleConnection tty (fun _ => false) n (gob ∘ input_of <$> ops) c =
    (false, mkChild (ch_stdin c +:+ stdin_of ops) (closes ops) (ch_winsize c ++ sizes tty ops) (ch_signals c ++ signals_of tty ops)
       (ch_extra c ++ messages ops)).
Proof.
  induction ops as [|op ops IH]; intros n c Hc Ho.
  - destruct c; cbn in *. by rewrite Hc, app_nil_r_string, !app_nil_r.
  - destruct op as [d| |cols rows|m]; cbn [fmap list_fmap HandleConnection].
    + cbn. rewrite Hc. cbn. rewrite IH by done. cbn. by rewrite app_assoc_string.
    + cbn. rewrite Hc. cbn. assert (Hs : stdin_of ops = "").
      { clear -Ho. cbn in Ho. induction Ho as [|op l Hop Hl IH]; [done|]. by destruct op. }
      destruct tty; cbn; (rewrite handle_closed; [|done|done]); cbn; fold (stdin_of ops); rewrite Hs, app_nil_r_string, app_nil_r; [by rewrite <- (assoc_L (++))|done].
    + cbn. rewrite setWinSize_open by done. rewrite IH by done. cbn. by rewrite <- !(assoc_L (++)).
    + destruct Ho as [Hm Ho]. destruct m as [|a m]; [done|]. cbn. rewrite IH by done. cbn. by rewrite <- (assoc_L (++)).
Qed.

(** C22: the link as its clients may use it. A client that writes nothing after
    closing the input and sends no empty message, to a child that reads its
    input, is never cut off; the child's standard input is exactly what was
    written, in order, and is closed exactly when the client closed it; every
    message arrives on the extra descriptor and every window size that comes
    before the closing on the terminal, cut to 16 bits; the signals are one
    SIGWINCH for each size and SIGHUP for the closing of a terminal. *)
Theorem link_delivers tty n ops : orderly ops ->
  HandleConnection tty (fun _ => false) n (gob ∘ input_of <$> ops) new_child =
    (false, mkChild (stdin_of ops) (closes ops) (sizes tty ops) (signals_of tty ops) (messages ops)).
Proof. intros Ho. by rewrite handle_open. Qed.

Definition sample_ops : list WriterOp := [WWrite "ls"; WSetWindowSize 80 65560; WSendMsg "{}"; WWrite "!"; WClose; WSendMsg "{}"].

Lemma link_delivers_witness :
  HandleConnection true (fun _ => false) 0 (gob ∘ input_of <$> sample_ops) new_child =
    (false, mkChild "ls!" true [(80, 24)] [SIGWINCH; SIGHUP] ["{}"; "{}"]).
Proof. rewrite (link_delivers true 0 sample_ops); [vm_compute; reflexivity|]. repeat constructor; done. Defined.

(** An empty message is taken for an empty write, which ends the connection once
    the input is closed. *)
Lemma empty_message_cuts : HandleConnection false (fun _ => false) 0 (gob ∘ input_of <$> [WClose; WSendMsg ""; WSendMsg "{}"]) new_child =
  (true, mkChild "" true [] [] []).
Proof. done. Qed.

(** ** wirer.go *)

Record Wires := mkWires {
  wi_stdinR : option File; wi_stdinW : option File;
  wi_stdoutR : option File; wi_stdoutW : option File;
  wi_stderrR : option File; wi_stderrW : option File
}.

Definition no_wires : Wires := mkWires None None None None None None.

(** What [Wire] leaves in the command and returns. *)
Record Wired := mkWired {
  wd_wires : Wires;
  wd_extraFdR : File;
  wd_extraFdW : File;
  wd_Setctty : bool;
  wd_Setsid : bool
}.

Section Wirer.
Context (env : Env).
Local Open Scope go_scope.

Definition createPipes : M (Daemon * World) Wires :=
  let! ' (stderrR, stderrW) := open_pair env "os.Pipe" in
  let! ' (stdinR, stdinW) := open_pair env "os.Pipe" in
  let! ' (stdoutR, stdoutW) := open_pair env "os.Pipe" in
  ret (mkWires (Some stdinR) (Some stdinW) (Some stdoutR) (Some stdoutW) (Some stderrR) (Some stderrW)).

Definition open_one (d : Daemon) : Daemon := mkDaemon (S (next_file d)) ({[next_file d]} ∪ open_files d) (running d).

Definition createTtyPty (windowColumns windowRows : Z) : M (Daemon * World) Wires :=
  do! eff (call_ env (Sys "os.Open" ["/dev/null"])) in
  let! stderrR := gets next_file in
  do! update open_one in
  let! ' (pty, tty) := open_pair env "pty.Open" in
  do! eff (ignore (call_ env (Sys "ioctl TIOCSWINSZ" [Itoa (u16 windowRows); Itoa (u16 windowColumns)]))) in
  ret (mkWires (Some tty) (Some pty) (Some pty) (Some tty) (Some stderrR) (Some tty)).

(** The error of [createTtyPty] and [createPipes] is not looked at: the files are
    nil then. *)
Definition Wire (WithTty : bool) (WindowColumns WindowRows : Z) : M (Daemon * World) Wired :=
  let! ' (extraFdR, extraFdW) := open_pair env "os.Pipe" in
  let! r := attempt (if WithTty then createTtyPty WindowColumns WindowRows else createPipes) in
  ret (mkWired (match r with inl ws => ws | inr _ => no_wires end) extraFdR extraFdW WithTty WithTty).

(** *** The start of [Spawn] (iodaemon.go)

    An old socket is removed, and must be if it is there. *)

Definition listen (socketPath : string) : M (Daemon * World) unit :=
  let! r := attempt (eff (call_ env (Sys "os.Remove" [socketPath]))) in
  match r with
  | inr (NotExist _) | inl _ =>
      do! eff (call_ env (MkdirAll (path_dir socketPath))) in
      eff (call_ env (Sys "net.Listen" ["unix"; socketPath]))
  | inr e => fail e
  end.

(** child_linux.go *)
Record ChildCmd := mkChildCmd { cc_Path : string; cc_Args : list string; cc_Pdeathsig : Z }.

(** The child is killed when iodaemon dies. *)
Definition child (executablePath : string) (argv : list string) : ChildCmd := mkChildCmd executablePath argv SIGKILL.

(** What the goroutines of [Spawn] work with: the command, its files and the pipe
    of the exit status. *)
Record Spawned := mkSpawned {
  sp_cmd : ChildCmd;
  sp_wired : Wired;
  sp_statusR : File;
  sp_statusW : File
}.

Definition Spawn_setup (socketPath : string) (argv : list string) (WithTty : bool) (cols rows : Z) : M (Daemon * World) Spawned :=
  do! listen socketPath in
  match argv with
  | [] => panic "runtime error: index out of range"
  | name :: _ =>
      let! executablePath := eff (call env (Sys "exec.LookPath" [name])) in
      let! wired := Wire WithTty cols rows in
      let! ' (statusR, statusW) := open_pair env "os.Pipe" in
      ret (mkSpawned (child executablePath argv) wired statusR statusW)
  end.
End Wirer.

(** *** link.go *)

(** What the socket does for a new link; the control messages of the answer are
    given by the files each of them carries. *)
Record LinkExchange := mkLinkExchange {
  lx_dial : result unit;
  lx_read : result unit;
  lx_scms : result (list (result (list File)))
}.

Record LinkFiles := mkLinkFiles { lstdout : File; lstderr : File; lstatus : File }.

Definition Link_Create (x : LinkExchange) : result LinkFiles :=
  match lx_dial x with
  | Err e => Err (Wrapf "failed to connect to i/o daemon: %s" [] e)
  | Panic m => Panic m
  | Ok _ =>
      match lx_read x with
      | Err e => Err (Wrapf "failed to read unix msg: %s (read: %d, %d)" [] e)
      | Panic m => Panic m
      | Ok _ =>
          match lx_scms x with
          | Err e => Err (Wrapf "failed to parse socket control message: %s" [] e)
          | Panic m => Panic m
          | Ok [] => Err (Errorf "no socket control messages sent")
          | Ok (scm :: _) =>
              match scm with
              | Err e => Err (Wrapf "failed to parse unix rights: %s" [] e)
              | Panic m => Panic m
              | Ok fds =>
                  match fds with
                  | [out; err; status] => Ok (mkLinkFiles out err status)
                  | _ => Err (Errorv "invalid number of fds; need 3, got %d" [Itoa (Z.of_nat (length fds))])
                  end
              end
          end
      end
  end.

(** [fmt.Fscanf(r, "%d\n", &x)]: a number, then a newline or the end. *)
Definition Fscanf_d_nl (s : string) : result Z :=
  match scan_int s with
  | Some (v, "") => Ok v
  | Some (v, String c _) => if is_newline c then Ok v else Err (Errorf "newline in format does not match input")
  | None => Err (Errorf "expected integer")
  end.

(** [status] is all that comes through the pipe of the exit status; the streams
    have ended. *)
Definition Link_Wait (status : string) : result Z :=
  match Fscanf_d_nl status with
  | Ok v => Ok v
  | Err e => Err (Wrapf "could not determine exit status: %s" [] e)
  | Panic m => Panic m
  end.
