(* ===== verification/IOSpawn.v ===== *)
(** * The life of an iodaemon (src/iodaemon/iodaemon.go)

    [Spawn] has two threads. One accepts the clients, one after the other: it
    gives each of them the files of the child, starts the child for the first one
    and says so on the notification stream, and then handles the inputs. The main
    one waits for the child to be started, or gives up after a time-out, and
    reports the exit status of the child. The model is a step relation over both,
    the child and the clients; the clients that will connect are given with what
    they send, and may come at any time. *)
From S2P Require Import Prelude GoStrings World ProcessEnv RLimits ProcessTracker Spawn Namespaces Container.
From S2P Require Import ContainerDaemon Client IODaemon.

(** ** The end of the child *)

Inductive WaitStatus := Exited (code : Z) | Signaled (sig : Z).

(** [syscall.WaitStatus.ExitStatus] *)
Definition ExitStatus (ws : WaitStatus) : Z := match ws with Exited code => code | Signaled _ => -1 end.

(** What is written to the pipe of the exit status: [byte(ws.ExitStatus())]. *)
Definition status_line (ws : WaitStatus) : string := Itoa (u8 (ExitStatus ws)) +:+ String newline "".

(** ** The state *)

(** The accepting thread, with the inputs of its client. *)
Inductive AcceptPc :=
| AReady
| AAccept
| ALinked (k : list Input)    (* before [once.Do] *)
| AStarted (k : list Input)   (* after [cmd.Start] *)
| AActive (k : list Input)    (* after "active" *)
| ALaunch (k : list Input)    (* in [launched <- true] *)
| AHandle (k : list Input)
| AStopped.

(** The main thread; [IOExit] is the end of the program. *)
Inductive IOMain := IOSelect | IOWait | IOReport (ws : WaitStatus) | IOExit (code : Z).

Record IODaemonState := mkIOD {
  d_main : IOMain;
  d_acc : AcceptPc;
  d_once : bool;
  d_notify : list string;
  d_notify_open : bool;
  d_started : nat;                (* how often the child was started *)
  d_child : Child;
  d_exit : option WaitStatus;
  d_status : string;              (* what was written to the status pipe *)
  d_linked : nat;                 (* how many clients got the files *)
  d_clients : list (list Input)
}.

Definition io_start (clients : list (list Input)) : IODaemonState :=
  mkIOD IOSelect AReady false [] true 0 new_child None "" 0 clients.

Definition set_d_main (m : IOMain) (d : IODaemonState) : IODaemonState :=
  mkIOD m (d_acc d) (d_once d) (d_notify d) (d_notify_open d) (d_started d) (d_child d) (d_exit d) (d_status d) (d_linked d) (d_clients d).
Definition set_acc (a : AcceptPc) (d : IODaemonState) : IODaemonState :=
  mkIOD (d_main d) a (d_once d) (d_notify d) (d_notify_open d) (d_started d) (d_child d) (d_exit d) (d_status d) (d_linked d) (d_clients d).
Definition set_child (c : Child) (d : IODaemonState) : IODaemonState :=
  mkIOD (d_main d) (d_acc d) (d_once d) (d_notify d) (d_notify_open d) (d_started d) c (d_exit d) (d_status d) (d_linked d) (d_clients d).
Definition set_clients (linked : nat) (l : list (list Input)) (d : IODaemonState) : IODaemonState :=
  mkIOD (d_main d) (d_acc d) (d_once d) (d_notify d) (d_notify_open d) (d_started d) (d_child d) (d_exit d) (d_status d) linked l.
Definition set_exit (ws : WaitStatus) (d : IODaemonState) : IODaemonState :=
  mkIOD (d_main d) (d_acc d) (d_once d) (d_notify d) (d_notify_open d) (d_started d) (d_child d) (Some ws) (d_status d) (d_linked d) (d_clients d).

(** [fmt.Fprintln(notifyStream, s)]: an error is dropped. *)
Definition notify (s : string) (d : IODaemonState) : IODaemonState :=
  mkIOD (d_main d) (d_acc d) (d_once d) (if d_notify_open d then d_notify d ++ [s] else d_notify d) (d_notify_open d) (d_started d) (d_child d)
    (d_exit d) (d_status d) (d_linked d) (d_clients d).
Definition close_notify (d : IODaemonState) : IODaemonState :=
  mkIOD (d_main d) (d_acc d) (d_once d) (d_notify d) false (d_started d) (d_child d) (d_exit d) (d_status d) (d_linked d) (d_clients d).
Definition cmd_Start (d : IODaemonState) : IODaemonState :=
  mkIOD (d_main d) (d_acc d) (d_once d) (d_notify d) (d_notify_open d) (S (d_started d)) (d_child d) (d_exit d) (d_status d) (d_linked d) (d_clients d).
Definition once_done (d : IODaemonState) : IODaemonState :=
  mkIOD (d_main d) (d_acc d) true (d_notify d) (d_notify_open d) (d_started d) (d_child d) (d_exit d) (d_status d) (d_linked d) (d_clients d).
Definition write_status (ws : WaitStatus) (d : IODaemonState) : IODaemonState :=
  mkIOD (d_main d) (d_acc d) (d_once d) (d_notify d) (d_notify_open d) (d_started d) (d_child d) (d_exit d) (d_status d +:+ status_line ws) (d_linked d) (d_clients d).

Definition io_exited (d : IODaemonState) : Prop := match d_main d with IOExit _ => True | _ => False end.

#[export] Instance io_exited_dec d : Decision (io_exited d).
Proof. unfold io_exited. destruct (d_main d); apply _. Defined.

(** Can the files of the child be sent: [Wire] made them, and the one of the
    standard output is open. With a terminal it is the same file as the standard
    input's, which [handle] closes. *)
Definition rights_ok (WithTty wired : bool) (d : IODaemonState) : bool := wired && negb (WithTty && ch_closed (d_child d)).

(** ** The steps *)

Section Steps.
Context (WithTty wired : bool).

(** [child_exit] may happen as soon as the child was started, and need not: a child that
    runs for ever is one of which that step is never taken. *)
Inductive io_step (d : IODaemonState) : IODaemonState -> Prop :=
(* the accepting thread *)
| acc_ready : ~ io_exited d -> d_acc d = AReady -> io_step d (set_acc AAccept (notify "ready" d))
| acc_accept k l : ~ io_exited d -> d_acc d = AAccept -> d_clients d = k :: l -> rights_ok WithTty wired d = true ->
    io_step d (set_acc (ALinked k) (set_clients (S (d_linked d)) l d))
| acc_fail k l : ~ io_exited d -> d_acc d = AAccept -> d_clients d = k :: l -> io_step d (set_acc AStopped (set_clients (d_linked d) l d))
| acc_start k : ~ io_exited d -> d_acc d = ALinked k -> d_once d = false -> io_step d (set_acc (AStarted k) (cmd_Start d))
| acc_panic k : ~ io_exited d -> d_acc d = ALinked k -> d_once d = false -> io_step d (set_d_main (IOExit 2) d)
| acc_active k : ~ io_exited d -> d_acc d = AStarted k -> io_step d (set_acc (AActive k) (notify "active" d))
| acc_close k : ~ io_exited d -> d_acc d = AActive k -> io_step d (set_acc (ALaunch k) (close_notify d))
| acc_launched k : d_main d = IOSelect -> d_acc d = ALaunch k -> io_step d (set_d_main IOWait (set_acc (AHandle k) (once_done d)))
| acc_again k : ~ io_exited d -> d_acc d = ALinked k -> d_once d = true -> io_step d (set_acc (AHandle k) d)
| acc_input i k broken r c : ~ io_exited d -> d_acc d = AHandle (i :: k) -> handle WithTty broken i (d_child d) = (r, c) ->
    io_step d (set_acc (match r with Ok _ => AHandle k | _ => AReady end) (set_child c d))
| acc_end : ~ io_exited d -> d_acc d = AHandle [] -> io_step d (set_acc AReady d)
(* the child *)
| child_exit ws : ~ io_exited d -> d_started d <> 0%nat -> d_exit d = None -> io_step d (set_exit ws d)
(* the main thread *)
| main_timeout : d_main d = IOSelect -> io_step d (set_d_main (IOExit 2) d)
| main_waited ws : d_main d = IOWait -> d_exit d = Some ws -> io_step d (set_d_main (IOReport ws) d)
| main_report ws : d_main d = IOReport ws -> io_step d (set_d_main (IOExit 0) (write_status ws d)).

(** ** What holds in every state *)

Definition before_start (a : AcceptPc) : bool := match a with AReady | AAccept | ALinked _ | AStopped => true | _ => false end.

Definition notified (d : IODaemonState) : list string :=
  match d_acc d with
  | AReady => if d_once d then ["ready"; "active"] else []
  | AStarted _ => ["ready"]
  | AActive _ | ALaunch _ | AHandle _ => ["ready"; "active"]
  | _ => if d_once d then ["ready"; "active"] else ["ready"]
  end.

(** The child was started, or is being. *)
Definition has_started (d : IODaemonState) : bool := d_once d || negb (before_start (d_acc d)).

Record io_inv (d : IODaemonState) : Prop := {
  io_started : d_started d = if has_started d then 1%nat else 0%nat;
  io_notify : d_notify d = notified d;
  io_open : d_notify_open d = negb (d_once d || match d_acc d with ALaunch _ => true | _ => false end);
  io_once : match d_acc d with AStarted _ | AActive _ | ALaunch _ => d_once d = false | AHandle _ => d_once d = true | _ => True end;
  io_linked : match d_acc d with AReady | AAccept | AStopped => d_once d = true -> (0 < d_linked d)%nat | _ => (0 < d_linked d)%nat end;
  io_exit : d_exit d <> None -> d_started d = 1%nat;
  io_main : match d_main d with
            | IOSelect => d_once d = false /\ d_status d = ""
            | IOWait => d_once d = true /\ d_status d = ""
            | IOReport ws => d_once d = true /\ d_exit d = Some ws /\ d_status d = ""
            | IOExit code =>
                (code = 2 /\ d_once d = false /\ d_status d = "") \/
                (code = 0 /\ exists ws, d_exit d = Some ws /\ d_status d = status_line ws)
            end
}.

Lemma io_inv_start clients : io_inv (io_start clients).
Proof. by split. Qed.

Lemma io_inv_step d d' : io_inv d -> io_step d d' -> io_inv d'.
Proof.
  intros [H1 H2 H3 H4 H5 H6 H7] Hstep.
  destruct Hstep; destruct d as [m a o nt no st ch ex sta li cl]; unfold io_exited, notified, has_started in *; cbn in *; subst.
  all: try (destruct r; cbn).
  all: split; unfold notified, has_started; cbn in *.
  all: try destruct m; destruct_and?; try destruct o; simplify_eq/=; try done; try naive_solver lia.
  by destruct (before_start a).
Qed.

Lemma io_inv_run d d' : rtc io_step d d' -> io_inv d -> io_inv d'.
Proof. induction 1 as [|d1 d2 d3 Hstep _ IH]; [done|]. intros HI. eapply IH, io_inv_step; eauto. Qed.

(** ** Every run ends *)

Definition main_weight (m : IOMain) : nat := match m with IOSelect => 3 | IOWait => 2 | IOReport _ => 1 | IOExit _ => 0 end.
Definition acc_weight (a : AcceptPc) : nat :=
  match a with
  | AStopped => 0 | AAccept => 1 | AReady => 2
  | AHandle k => 3 + length k | ALaunch k => 4 + length k | AActive k => 5 + length k | AStarted k => 6 + length k | ALinked k => 7 + length k
  end.
Definition io_weight (d : IODaemonState) : nat :=
  main_weight (d_main d) + acc_weight (d_acc d) + sum_list_with (fun k : list Input => 10 + length k)%nat (d_clients d) +
  (match d_exit d with None => 1 | Some _ => 0 end).

Lemma io_step_lighter d d' : io_step d d' -> (io_weight d' < io_weight d)%nat.
Proof.
  destruct 1; destruct d as [m a o nt no st ch ex sta li cl]; unfold io_exited, io_weight in *; cbn in *; subst; cbn.
  all: try (destruct r; cbn); try (destruct m; cbn); try done; lia.
Qed.
End Steps.

(** The steps of iodaemon alone, while the child runs on, or has ended. *)
Definition own_step (tty wired : bool) (d d' : IODaemonState) : Prop := io_step tty wired d d' /\ d_exit d' = d_exit d.

(** iodaemon is in [cmd.Wait], and its child is running. *)
Definition waits_for_child (d : IODaemonState) : Prop := d_main d = IOWait /\ d_started d = 1%nat /\ d_exit d = None.

#[export] Instance waits_for_child_dec d : Decision (waits_for_child d).
Proof.
  unfold waits_for_child. destruct (d_main d); [right; by intros [[=] _]| |right; by intros [[=] _]|right; by intros [[=] _]].
  destruct (decide (d_started d = 1%nat)); [|right; naive_solver]. destruct (d_exit d); [right; naive_solver|by left].
Defined.

(** A state of a run that is not at its end has a step of iodaemon, or it waits. *)
Lemma own_progress tty wired d : io_inv d -> ~ io_exited d -> ~ waits_for_child d -> exists d', own_step tty wired d d'.
Proof.
  intros HI Hno Hw. unfold io_exited in Hno. destruct (d_main d) as [| |ws|code] eqn:Hm; [| | |done].
  - eexists. split; [by apply main_timeout|done].
  - destruct (d_exit d) as [ws|] eqn:He; [eexists; split; [by eapply main_waited|done]|]. destruct Hw. unfold waits_for_child. split_and!; [done| |done].
    rewrite (io_started _ HI). destruct HI as [_ _ _ _ _ _ HI]. rewrite Hm in HI. destruct HI as [Ho _]. unfold has_started. by rewrite Ho.
  - eexists. split; [by eapply main_report|done].
Qed.

(** C21: iodaemon comes to an end when its child does. From every state of every
    run, with any clients, and however the steps of its threads and the clients are
    chosen: as long as the child does not end, the program comes to its exit or to
    the point where its main thread waits for a child that runs (where it stays
    for as long as the child does); and once the child has ended it comes to its
    exit. No client can keep it from reporting and ending. *)
Theorem iodaemon_ends tty wired clients d : rtc (io_step tty wired) (io_start clients) d ->
  inevitable (own_step tty wired) (fun d => io_exited d \/ waits_for_child d) d /\
  (d_exit d <> None -> inevitable (io_step tty wired) io_exited d).
Proof.
  intros Hrun. apply io_inv_run in Hrun as HI; [|apply io_inv_start]. split.
  - apply (inevitable_measure _ _ io_inv io_weight); [|..|exact HI].
    + intros d1. apply (_ : Decision (io_exited d1 \/ waits_for_child d1)).
    + intros d1 d2 HI1 [Hs _]. split; [by eapply io_inv_step|by eapply io_step_lighter].
    + intros d1 HI1 Hno. apply own_progress; [done|naive_solver..].
  - intros Hex. apply (inevitable_measure _ _ (fun d => io_inv d /\ d_exit d <> None) io_weight); [| | |done].
    + intros d1. apply io_exited_dec.
    + intros d1 d2 [HI1 He] Hs. split; [split; [by eapply io_inv_step|]|by eapply io_step_lighter]. by destruct Hs.
    + intros d1 [HI1 He] Hno. destruct (own_progress tty wired d1 HI1 Hno) as (d2 & Hs & _); [|by exists d2]. by intros (_ & _ & ?).
Qed.

(** C20: what iodaemon does at most once and in which order, in every state of
    every run: the child is started at most once, and only after a client has the
    files; the notification stream carries "ready" and then "active", the second
    only when the child was started; the status pipe has a text only when the
    program ends with 0, and then it is the line of the child's status. *)
Theorem iodaemon_once tty wired clients d : rtc (io_step tty wired) (io_start clients) d ->
  (d_started d <= 1)%nat /\ (d_started d = 1%nat -> (0 < d_linked d)%nat) /\
  d_notify d `prefix_of` ["ready"; "active"] /\ (d_notify d = ["ready"; "active"] -> d_started d = 1%nat) /\
  (d_status d <> "" -> d_main d = IOExit 0) /\
  match d_main d with
  | IOExit code => (code = 0 /\ exists ws, d_exit d = Some ws /\ d_status d = status_line ws) \/ (code = 2 /\ d_status d = "")
  | _ => True
  end.
Proof.
  intros Hrun. eapply io_inv_run in Hrun as [H1 H2 H3 H4 H5 H6 H7]; [|apply io_inv_start].
  unfold notified, has_started in *. split_and!.
  - rewrite H1. destruct (d_once d || _); lia.
  - rewrite H1. destruct (d_acc d), (d_once d); cbn; try done; intros; auto.
  - rewrite H2. destruct (d_acc d), (d_once d); try done; try (by exists ["active"]); by exists ["ready"; "active"].
  - rewrite H1, H2. destruct (d_acc d), (d_once d); done.
  - destruct (d_main d) as [| |ws|code]; destruct_and?; try done. naive_solver.
  - destruct (d_main d) as [| |ws|code]; naive_solver.
Qed.

Definition sample_inputs : list Input := [gob (input_of (WWrite "x"))].

(** The run with one client up to the closing of the notification stream. *)
Lemma sample_launch : rtc (io_step false true) (io_start [sample_inputs])
  (mkIOD IOSelect (ALaunch sample_inputs) false ["ready"; "active"] false 1 new_child None "" 1 []).
Proof.
  eapply rtc_l; [apply acc_ready; [by intros []|reflexivity]|].
  eapply rtc_l; [eapply acc_accept; [by intros []|reflexivity..]|].
  eapply rtc_l; [eapply acc_start; [by intros []|reflexivity..]|].
  eapply rtc_l; [eapply acc_active; [by intros []|reflexivity]|].
  eapply rtc_l; [eapply acc_close; [by intros []|reflexivity]|]. apply rtc_refl.
Qed.

Definition sample_done (ws : WaitStatus) : IODaemonState :=
  mkIOD (IOExit 0) (AHandle sample_inputs) true ["ready"; "active"] false 1 new_child (Some ws) (status_line ws) 1 [].

Lemma sample_done_run ws : rtc (io_step false true) (io_start [sample_inputs]) (sample_done ws).
Proof.
  etrans; [apply sample_launch|].
  eapply rtc_l; [eapply acc_launched; reflexivity|].
  eapply rtc_l; [apply (child_exit _ _ _ ws); [by intros []|done|reflexivity]|].
  eapply rtc_l; [eapply main_waited; reflexivity|].
  eapply rtc_l; [eapply main_report; reflexivity|]. apply rtc_refl.
Qed.

(** The child runs: iodaemon waits; and after the child has ended, it exits. *)
Definition sample_waiting : IODaemonState :=
  mkIOD IOWait (AHandle sample_inputs) true ["ready"; "active"] false 1 new_child None "" 1 [].

Lemma sample_waiting_run : rtc (io_step false true) (io_start [sample_inputs]) sample_waiting.
Proof. etrans; [apply sample_launch|]. apply rtc_once. by eapply (acc_launched _ _ (mkIOD IOSelect (ALaunch sample_inputs) false ["ready"; "active"] false 1 new_child None "" 1 [])). Qed.

Lemma iodaemon_ends_witness :
  inevitable (own_step false true) (fun d => io_exited d \/ waits_for_child d) (io_start [sample_inputs]) /\
  waits_for_child sample_waiting /\ inevitable (io_step false true) io_exited (set_exit (Exited 3) sample_waiting).
Proof.
  split; [apply (iodaemon_ends false true [sample_inputs]), rtc_refl|]. split; [by split|].
  apply (iodaemon_ends false true [sample_inputs]); [|done]. eapply rtc_r; [apply sample_waiting_run|].
  apply child_exit; [by intros []|done|done].
Defined.

Lemma iodaemon_once_witness : exists ws, d_exit (sample_done (Exited 3)) = Some ws /\ d_status (sample_done (Exited 3)) = status_line ws.
Proof.
  destruct (iodaemon_once false true [sample_inputs] (sample_done (Exited 3)) (sample_done_run (Exited 3))) as (_ & _ & _ & _ & _ & [[_ H]|[H _]]).
  - exact H.
  - discriminate H.
Defined.

(** ** The time-out can come after the notification *)

(** A client that connects in time can be told "active" by an iodaemon that then
    ends with the time-out, and takes the child with it: the [select] may take
    either branch when both are ready, and the time also runs while the child is
    being started. *)
Lemma active_then_timeout : exists d, rtc (io_step false true) (io_start [sample_inputs]) d /\
  d_notify d = ["ready"; "active"] /\ d_started d = 1%nat /\ d_main d = IOExit 2 /\ d_status d = "".
Proof.
  eexists. split; [|split_and!].
  - eapply rtc_r; [apply sample_launch|]. apply main_timeout. reflexivity.
  - reflexivity.
  - reflexivity.
  - reflexivity.
  - reflexivity.
Qed.

(** *** A terminal whose input is closed cannot be linked again *)

Lemma handle_keeps_closed tty broken i c r c' : handle tty broken i c = (r, c') -> ch_closed c = true -> ch_closed c' = true.
Proof.
  intros H Hc. unfold handle in H. destruct (in_WindowSize i); [injection H as <- <-; cbn; by rewrite setWinSize_closed|].
  destruct (in_EOF i); [injection H as <- <-; by destruct tty|]. destruct (in_Msg i); [by injection H as <- <-|].
  rewrite Hc in H. by injection H as <- <-.
Qed.

Lemma closed_terminal_step wired d d' : io_step true wired d d' -> ch_closed (d_child d) = true ->
  ch_closed (d_child d') = true /\ d_linked d' = d_linked d.
Proof.
  intros Hstep Hc. destruct Hstep; cbn; try done.
  - match goal with H : rights_ok _ _ _ = true |- _ => unfold rights_ok in H; rewrite Hc in H; cbn in H; rewrite andb_false_r in H; done end.
  - split; [|done]. by eapply handle_keeps_closed.
Qed.

Lemma closed_terminal_run wired d d' : rtc (io_step true wired) d d' -> ch_closed (d_child d) = true ->
  d_linked d' = d_linked d.
Proof.
  induction 1 as [|d1 d2 d3 Hstep _ IH]; [done|]. intros Hc. destruct (closed_terminal_step _ _ _ Hstep Hc) as [Hc' <-]. by apply IH.
Qed.

(** ** The exit status, from the process to the server *)

Lemma Link_Wait_line ws : Link_Wait (status_line ws) = Ok (u8 (ExitStatus ws)).
Proof.
  assert (Hall : forallb (fun k => bool_decide (Link_Wait (Itoa (Z.of_nat k) +:+ String newline "") = Ok (Z.of_nat k))) (seq 0 256) = true)
    by (vm_compute; reflexivity).
  unfold status_line. pose proof (u8_range (ExitStatus ws)) as Hr. unfold is_u8 in Hr. rewrite forallb_forall in Hall.
  specialize (Hall (Z.to_nat (u8 (ExitStatus ws)))). rewrite Z2Nat.id in Hall by lia.
  apply bool_decide_eq_true_1 in Hall; [done|]. apply in_seq. lia.
Qed.

(** The status that the parent of wsh sees when it exits: its low byte. *)
Definition wsh_status (s : WshState) : option WaitStatus := match s with WshExits code => Some (Exited (u8 code)) | WshWaits _ _ => None end.

Lemma wsh_exit_code env termState code w : fst (wsh_exit env termState code w) = Ok (WshExits code).
Proof.
  unfold wsh_exit, Process_Cleanup, TermPkg_RestoreTerminal. rewrite bind_eq. destruct termState; [|done]. rewrite ignore_eq, call__eq. by destruct (env w _).
Qed.

(** C9: the exit status of a process on its way to the server, over three
    programs, for every run of them that ends. A process that ends with a status,
    whatever the interleaving with its output: [Wait] of the client returns in wsh,
    wsh exits with it, and when this wsh is the child whose end iodaemon has reported
    (it exits with 0 then), [Wait] of the server's link returns that status. When
    iodaemon exits with 0 its child has ended, and the link returns the status of the
    child. When iodaemon ends in any other way (it could not start its child, or no
    client has connected in time, whether a child was started or not and whether it has
    ended or not), the link reports an error instead of a status. *)
Theorem exit_status_end_to_end env script n c tty wired clients d :
  rtc client_step (client_start script n) c -> rtc (io_step tty wired) (io_start clients) d -> io_exited d ->
  (forall code timed_out termState w st, c_main c = Returned code timed_out -> is_u8 code -> fst (wsh_exit env termState code w) = Ok st ->
     status_of script = Some code /\
     (d_main d = IOExit 0 -> d_exit d = wsh_status st -> Link_Wait (d_status d) = Ok code)) /\
  (d_main d = IOExit 0 -> exists ws, d_exit d = Some ws /\ Link_Wait (d_status d) = Ok (u8 (ExitStatus ws))) /\
  (d_main d <> IOExit 0 -> exists e, Link_Wait (d_status d) = Err e).
Proof.
  intros Hc Hd He. eapply client_inv_run in Hc as [_ _ Hout Hclient]; [|apply client_inv_start].
  eapply io_inv_run in Hd as [_ _ _ _ _ _ Hmain]; [|apply io_inv_start]. unfold io_exited in He.
  destruct (d_main d) as [| |ws|x]; try done.
  assert (Hline : IOExit x = IOExit 0 -> exists ws, d_exit d = Some ws /\ Link_Wait (d_status d) = Ok (u8 (ExitStatus ws))).
  { intros [= ->]. destruct Hmain as [([=] & _)|(_ & ws & Hws & ->)]. exists ws. split; [done|]. apply Link_Wait_line. }
  split_and!; [|done|].
  - intros code timed_out termState w st Hm Hb Hst. rewrite Hm in Hclient. destruct Hclient as [Hcode _].
    unfold outcome in Hout. rewrite Hcode in Hout. split; [done|]. rewrite wsh_exit_code in Hst. injection Hst as <-.
    intros H0 Hex. destruct (Hline H0) as (ws & Hws & ->). rewrite Hws in Hex. injection Hex as ->. cbn. by rewrite !u8_small by (apply u8_range || done).
  - intros Hne. destruct Hmain as [(_ & _ & ->)|(-> & _)]; [by eexists|done].
Qed.

(** An iodaemon that gave up with its child running. *)
Definition sample_timeout : IODaemonState :=
  mkIOD (IOExit 2) (ALaunch sample_inputs) false ["ready"; "active"] false 1 new_child None "" 1 [].

Lemma exit_status_end_to_end_witness :
  status_of sample_script = Some 3 /\ Link_Wait (d_status (sample_done (Exited 3))) = Ok 3 /\
  exists e, Link_Wait (d_status sample_timeout) = Err e.
Proof.
  destruct (exit_status_end_to_end env_ok sample_script 1 sample_end false true [sample_inputs] (sample_done (Exited 3))
    sample_run (sample_done_run (Exited 3)) I) as (H & _ & _).
  destruct (H 3 false None [] (WshExits 3) eq_refl ltac:(unfold is_u8; lia) eq_refl) as [H1 H2]. split; [exact H1|]. split; [by apply H2|].
  apply (exit_status_end_to_end env_ok sample_script 1 sample_end false true [sample_inputs] sample_timeout sample_run); [|exact I|done].
  eapply rtc_r; [apply sample_launch|]. by apply (main_timeout _ _ (mkIOD IOSelect (ALaunch sample_inputs) false ["ready"; "active"] false 1 new_child None "" 1 [])).
Defined.

(** A child that a signal ended cannot be told from one that exited with 255. *)
Lemma signal_is_255 sig : Link_Wait (status_line (Signaled sig)) = Ok 255.
Proof. exact (Link_Wait_line (Signaled sig)). Qed.
