(* ===== verification/SignalPath.v ===== *)
(** * How a signal comes to a process

    A client's signal goes through four programs: the server writes a message to
    the link (process_tracker/link_signaller.go), iodaemon passes it on to the
    extra descriptor of wsh (iodaemon/daemon.go), wsh reads it and asks initd
    (container_daemon/process.go, signalLoop), and initd sends the signal
    (container_daemon/signaller.go). This file puts the models together. *)
From S2P Require Import Prelude GoStrings TextCodec World ProcessEnv RLimits IPTablesManager ProcessTracker Spawn.
From S2P Require Import Container ContainerDaemon UnixSocket Client IODaemon.

(** ** The message

    JSON values follow one another in the stream without a separator. *)
Class SignalMsgCodec := {
  marshal_msg : Z -> string;
  next_msg : string -> option (Z * string);
  next_msg_marshal n rest : next_msg (marshal_msg n +:+ rest) = Some (n, rest);
  marshal_msg_nonempty n : marshal_msg n <> ""
}.

Section Loop.
Context {mc : SignalMsgCodec}.

(** [LinkSignaller.Signal] *)
Definition LinkSignaller_Signal (sig : Z) : WriterOp := WSendMsg (marshal_msg sig).

(** The signals that [signalLoop] reads from all that has come so far. *)
Fixpoint signalLoop (fuel : nat) (s : string) : list Z :=
  match fuel with
  | O => []
  | S fuel' => match next_msg s with Some (sig, rest) => sig :: signalLoop fuel' rest | None => [] end
  end.

Definition concat_strings (l : list string) : string := foldr String.append "" l.

(** One more turn than there are bytes is enough. *)
Lemma signalLoop_reads sigs : (next_msg "" = None) -> forall fuel, (String.length (concat_strings (marshal_msg <$> sigs)) < fuel)%nat ->
  signalLoop fuel (concat_strings (marshal_msg <$> sigs)) = sigs.
Proof.
  intros Hnil. induction sigs as [|n sigs IH]; intros [|fuel] Hf; cbn in Hf |- *; try lia; [by rewrite Hnil|].
  rewrite next_msg_marshal. f_equal. apply IH. rewrite length_app_string in Hf. pose proof (marshal_msg_nonempty n) as Hn.
  unfold concat_strings. destruct (marshal_msg n); [done|]. cbn in Hf. lia.
Qed.
End Loop.

(** ** The server's calls on a link *)

Inductive ServerOp := SInput (op : WriterOp) | SSignal (s : Signal).

(** No call of a client but [Signal] sends a message. *)
Definition server_ops {mc : SignalMsgCodec} (op : ServerOp) : list WriterOp :=
  match op with
  | SInput (WSendMsg _) => []
  | SInput op => [op]
  | SSignal s => match signal_number s with Ok n => [LinkSignaller_Signal n] | _ => [] end
  end.

Definition server_signals (op : ServerOp) : list Z :=
  match op with SSignal s => match signal_number s with Ok n => [n] | _ => [] end | _ => [] end.

Lemma messages_server {mc : SignalMsgCodec} sops : messages (sops ≫= server_ops) = marshal_msg <$> (sops ≫= server_signals).
Proof.
  unfold messages. induction sops as [|op sops IH]; [done|]. rewrite !bind_cons, omap_app, fmap_app, IH. f_equal.
  destruct op as [[]|s]; try done. cbn. by destruct (signal_number s).
Qed.

(** ** The daemon *)

(** The signals that initd has sent. *)
Definition signals_sent (w : World) : list (string * string) :=
  omap (fun c => match c with Sys "process.Signal" [pid; sig] => Some (pid, sig) | _ => None end) w.

Section Deliver.
Context {codec : WireCodec} (env : Env) (lookup : string -> result (option OSUser)) (always : bool) (Error : error -> string).

(** wsh asks for one signal after the other. *)
Definition deliver (pid : Z) (sigs : list Z) : M (Daemon * World) unit :=
  for_each (fun sig => bind (serve_conn env lookup always Error (marshal_request (signal_request pid sig))) (fun _ => ret tt)) sigs.

Lemma serve_signal pid sig d w : (forall h, exists o, env h (Sys "os.FindProcess" [Itoa pid]) = inl o) ->
  exists a w', serve_conn env lookup always Error (marshal_request (signal_request pid sig)) (d, w) = (Ok a, (d, w')) /\
    signals_sent w' = signals_sent w ++ [(Itoa pid, Itoa sig)].
Proof.
  intros Hfind. unfold serve_conn. rewrite bind_eq, attempt_eq. unfold Handle_, handle_request.
  rewrite bind_eq, map_err_eq. unfold lift. rewrite request_roundtrip. cbn [signal_request]. rewrite bind_eq, map_err_eq, signal_roundtrip.
  rewrite bind_eq, eff_eq. unfold ProcessSignaller_Signal. rewrite bind_eq, map_err_eq, call__eq. destruct (Hfind w) as [o ->].
  rewrite map_err_eq, call__eq. destruct (env _ (Sys "process.Signal" _)) as [o'|e]; cbn [ret];
    unfold writeData; rewrite bind_eq, eff_eq, ignore_eq, call__eq; destruct (env _ (Sys "conn.WriteMsgUnix" _)); cbn;
    eexists _, _; (split; [reflexivity|]); unfold signals_sent; rewrite !omap_app; cbn; by rewrite ?app_nil_r.
Qed.

Lemma deliver_sends pid sigs : (forall h, exists o, env h (Sys "os.FindProcess" [Itoa pid]) = inl o) -> forall d w,
  exists w', deliver pid sigs (d, w) = (Ok tt, (d, w')) /\ signals_sent w' = signals_sent w ++ ((fun sig => (Itoa pid, Itoa sig)) <$> sigs).
Proof.
  intros Hfind. induction sigs as [|sig sigs IH]; intros d w; [exists w; by rewrite app_nil_r|].
  unfold deliver. cbn [for_each]. rewrite bind_eq, bind_eq. destruct (serve_signal pid sig d w Hfind) as (a & w1 & -> & H1). cbn [ret].
  destruct (IH d w1) as (w2 & H2 & H3). exists w2. split; [exact H2|]. rewrite H3, H1, <- (assoc_L (++)). done.
Qed.
End Deliver.

(** C10: signals on their way from a client to a process, over four programs. When
    the server's calls on a link write nothing after closing the input, then,
    whatever input and window sizes they are mixed with, wsh reads exactly the
    signals that the client sent, in their order, and initd sends each of them once
    to the process of wsh. *)
Theorem signals_end_to_end {mc : SignalMsgCodec} {codec : WireCodec} env lookup always Error tty sops pid d w :
  next_msg "" = None -> orderly (sops ≫= server_ops) -> (forall h, exists o, env h (Sys "os.FindProcess" [Itoa pid]) = inl o) ->
  match HandleConnection tty (fun _ => false) 0 (gob ∘ input_of <$> (sops ≫= server_ops)) new_child with
  | (cut_off, child) =>
      let stream := concat_strings (ch_extra child) in
      let sigs := signalLoop (S (String.length stream)) stream in
      cut_off = false /\ sigs = sops ≫= server_signals /\
      exists w', deliver env lookup always Error pid sigs (d, w) = (Ok tt, (d, w')) /\
        signals_sent w' = signals_sent w ++ ((fun sig => (Itoa pid, Itoa sig)) <$> (sops ≫= server_signals))
  end.
Proof.
  intros Hnil Ho Hfind. rewrite handle_open by done. cbn [ch_extra new_child app]. rewrite messages_server.
  rewrite signalLoop_reads by (done || lia). split; [done|]. split; [done|]. by apply deliver_sends.
Qed.

(** ** An example *)

Fixpoint next_bits (s : string) : option (positive * string) :=
  match s with
  | "" => None
  | String c s =>
      if decide (c = "."%char) then Some (xH, s)
      else match next_bits s with Some (p, rest) => Some (if decide (c = "0"%char) then xO p else xI p, rest) | None => None end
  end.

Lemma next_bits_app p rest : next_bits (bits p +:+ rest) = Some (p, rest).
Proof.
  induction p as [p IH|p IH|]; cbn [bits]; [change (String "1" (bits p) +:+ rest) with (String "1" (bits p +:+ rest))|
    change (String "0" (bits p) +:+ rest) with (String "0" (bits p +:+ rest))|done]; cbn [next_bits]; by rewrite IH.
Qed.

Definition text_next (s : string) : option (Z * string) :=
  match next_bits s with Some (p, rest) => (fun n : Z => (n, rest)) <$> countable.decode p | None => None end.

Lemma text_next_encode n rest : text_next (text_encode n +:+ rest) = Some (n, rest).
Proof. unfold text_next, text_encode. by rewrite next_bits_app, countable.decode_encode. Qed.

#[export] Instance text_msg : SignalMsgCodec :=
  {| marshal_msg := text_encode; next_msg := text_next; next_msg_marshal := text_next_encode; marshal_msg_nonempty := text_encode_nonempty |}.

Definition sample_sops : list ServerOp := [SInput (WWrite "x"); SSignal SignalTerminate; SInput WClose; SSignal (SignalOther 3); SSignal SignalKill].

Lemma signals_end_to_end_witness : exists w', 
  deliver env_ok sample_users true (fun _ => "failed") 7 (sample_sops ≫= server_signals) (mkDaemon 3%nat ∅ [], []) = (Ok tt, (mkDaemon 3%nat ∅ [], w')) /\
  signals_sent w' = [("7", "15"); ("7", "9")].
Proof.
  pose proof (signals_end_to_end env_ok sample_users true (fun _ => "failed") false sample_sops 7 (mkDaemon 3%nat ∅ []) [] eq_refl) as H.
  destruct (HandleConnection _ _ _ _ _) as [cut_off child].
  destruct H as (_ & Hs & w' & Hd & Hw).
  - repeat constructor; vm_compute; discriminate.
  - intros h. by eexists.
  - rewrite Hs in Hd. exists w'. split; [exact Hd|]. rewrite Hw. vm_compute. reflexivity.
Defined.
