(* ===== verification/Winsize.v ===== *)
(** * Window sizes on their way to a process

    A client sets the size of a terminal on the server (process_tracker/process.go,
    SetTTY); iodaemon sets it on the terminal of wsh and signals wsh
    (iodaemon/daemon.go); wsh copies the size of its own terminal to the pseudo
    terminal of the process, once when it starts and once for each signal that it
    gets (container_daemon/process.go, syncWindowSize and sigwinchLoop). The channel
    for the signals has room for one, and a signal that does not fit is dropped.
    The goroutines of wsh and iodaemon are a step relation. *)
From S2P Require Import Prelude GoStrings World ProcessTracker IODaemon.

(** ** process_tracker/process.go *)

(** [SetTTY] waits until the process is linked: [None] while it does. *)
Definition Process_SetTTY (p : Process) (tty : TTYSpec) : option (list WriterOp) :=
  if decide (linked p = 0%nat) then None
  else Some (match tty_WindowSize tty with Some w => [WSetWindowSize (ws_Columns w) (ws_Rows w)] | None => [] end).

(** ** The threads *)

Notation Size := (Z * Z)%type.

(** A copy of the size: before [GetWinsize], and before [SetWinsize]. *)
Inductive SyncPc := SyncGet | SyncSet (winsize : Size).

(** The main goroutine in [setupPty]; the loop is started before its own copy. *)
Inductive SetupPc := Setup (pc : SyncPc) | SetupDone.

(** [sigwinchLoop]: in [<-p.SigwinchCh], or in [syncWindowSize]. *)
Inductive LoopPc := LoopWait | LoopSync (pc : SyncPc).

Record Winsize := mkWinsize {
  wz_script : list Size;       (* the sizes that iodaemon has still to set *)
  wz_term : Size;              (* the terminal of wsh *)
  wz_unsent : bool;            (* iodaemon has set a size and not sent the signal *)
  wz_chan : bool;              (* a signal is in the channel *)
  wz_main : SetupPc;
  wz_loop : LoopPc;
  wz_pty : option Size         (* the pseudo terminal of the process *)
}.

Definition winsize_start (init : Size) (script : list Size) : Winsize :=
  mkWinsize script init false false (Setup SyncGet) LoopWait None.

Inductive winsize_step : Winsize -> Winsize -> Prop :=
| step_resize sz l t ch m lp pty :
    winsize_step (mkWinsize (sz :: l) t false ch m lp pty) (mkWinsize l sz true ch m lp pty)
| step_signal l t ch m lp pty :
    winsize_step (mkWinsize l t true ch m lp pty) (mkWinsize l t false true m lp pty)
| step_main_get l t u ch lp pty :
    winsize_step (mkWinsize l t u ch (Setup SyncGet) lp pty) (mkWinsize l t u ch (Setup (SyncSet t)) lp pty)
| step_main_set l t u ch sz lp pty :
    winsize_step (mkWinsize l t u ch (Setup (SyncSet sz)) lp pty) (mkWinsize l t u ch SetupDone lp (Some sz))
| step_loop_receive l t u m pty :
    winsize_step (mkWinsize l t u true m LoopWait pty) (mkWinsize l t u false m (LoopSync SyncGet) pty)
| step_loop_get l t u ch m pty :
    winsize_step (mkWinsize l t u ch m (LoopSync SyncGet) pty) (mkWinsize l t u ch m (LoopSync (SyncSet t)) pty)
| step_loop_set l t u ch m sz pty :
    winsize_step (mkWinsize l t u ch m (LoopSync (SyncSet sz)) pty) (mkWinsize l t u ch m LoopWait (Some sz)).

(** Nothing is left to do. *)
Definition settled (z : Winsize) : Prop :=
  wz_script z = [] /\ wz_unsent z = false /\ wz_chan z = false /\ wz_main z = SetupDone /\ wz_loop z = LoopWait.

(** The size that the terminal has in the end. *)
Definition final_size (z : Winsize) : Size := default (wz_term z) (last (wz_script z)).

Lemma final_size_step z z' : winsize_step z z' -> final_size z' = final_size z.
Proof. destruct 1 as [sz l| | | | | |]; unfold final_size; cbn; [|done..]. rewrite last_cons. by destruct (last l). Qed.

(** All sizes that are on their way are sizes that the terminal had or will have, and
    the process's terminal has one of them once the set-up is done. *)
Definition known_sizes (S : list Size) (z : Winsize) : Prop :=
  wz_term z ∈ S /\ Forall (fun sz => sz ∈ S) (wz_script z) /\ (forall sz, wz_main z = Setup (SyncSet sz) -> sz ∈ S) /\
  (forall sz, wz_loop z = LoopSync (SyncSet sz) -> sz ∈ S) /\
  match wz_pty z with Some sz => sz ∈ S | None => wz_main z <> SetupDone end.

Lemma known_sizes_step S z z' : winsize_step z z' -> known_sizes S z -> known_sizes S z'.
Proof.
  destruct 1; unfold known_sizes; cbn; rewrite ?Forall_cons; intros (Ht & Hs & Hm & Hl & Hp); split_and!; try tauto;
    try (intros ? [=]; by subst); try (by destruct pty). - by apply Hm. - by apply Hl.
Qed.

(** Once the set-up is done, and as long as the process does not have the last size,
    a size to be set, a signal or a copy of the size of the terminal is on its way. *)
Definition winsize_inv (z : Winsize) : Prop :=
  wz_main z = SetupDone /\
  (wz_script z <> [] \/ wz_unsent z = true \/ wz_chan z = true \/ wz_loop z = LoopSync SyncGet \/ wz_loop z = LoopSync (SyncSet (wz_term z)) \/
   (wz_pty z = Some (wz_term z) /\ wz_loop z = LoopWait)).

Lemma winsize_inv_step z z' : winsize_step z z' -> winsize_inv z -> winsize_inv z'.
Proof. destruct 1; unfold winsize_inv; cbn; intros [? H]; split; try done; naive_solver. Qed.

(** ** Every run settles *)

Definition sync_weight (pc : SyncPc) : nat := match pc with SyncGet => 2 | SyncSet _ => 1 end.
Definition winsize_weight (z : Winsize) : nat :=
  10 * length (wz_script z) + (if wz_unsent z then 9 else 0) + (if wz_chan z then 4 else 0) +
  match wz_main z with Setup pc => sync_weight pc | SetupDone => 0 end + match wz_loop z with LoopSync pc => sync_weight pc | LoopWait => 0 end.

Lemma winsize_weight_step z z' : winsize_step z z' -> (winsize_weight z' < winsize_weight z)%nat.
Proof. destruct 1; unfold winsize_weight; cbn; repeat case_match; lia. Qed.

#[export] Instance SyncPc_eq_dec : EqDecision SyncPc.
Proof. solve_decision. Defined.
#[export] Instance SetupPc_eq_dec : EqDecision SetupPc.
Proof. solve_decision. Defined.
#[export] Instance LoopPc_eq_dec : EqDecision LoopPc.
Proof. solve_decision. Defined.
#[export] Instance settled_dec z : Decision (settled z).
Proof. unfold settled. apply _. Defined.

Lemma winsize_progress z : ~ settled z -> exists z', winsize_step z z'.
Proof.
  intros Hn. destruct z as [script t u ch m lp pty]. unfold settled in Hn. cbn in *.
  destruct m as [[|sz]|]; [eexists; apply step_main_get|eexists; apply step_main_set|].
  destruct lp as [|[|sz]]; [|eexists; apply step_loop_get|eexists; apply step_loop_set].
  destruct u; [eexists; apply step_signal|]. destruct script as [|sz l]; [|eexists; apply step_resize].
  destruct ch; [eexists; apply step_loop_receive|]. by destruct Hn.
Qed.

(** Every run settles in a state that has what the steps keep. *)
Lemma winsize_settles (P : Winsize -> Prop) z : (forall z z', winsize_step z z' -> P z -> P z') -> P z ->
  inevitable winsize_step (fun z => settled z /\ P z) z.
Proof.
  intros Hstep HP. apply inevitable_and; [done|done|]. apply (inevitable_measure _ _ (fun _ => True) winsize_weight).
  - intros z'. apply decide. apply _.
  - intros z1 z2 _ Hs. split; [done|by apply winsize_weight_step].
  - intros z1 _. apply winsize_progress.
  - done.
Qed.

Lemma winsize_late init script z : rtc winsize_step (winsize_start init script) z -> wz_main z = SetupDone -> wz_script z <> [] ->
  inevitable winsize_step (fun z => settled z /\ wz_pty z = Some (default init (last script))) z.
Proof.
  intros Hrun Hm Hs. set (last_size := default init (last script)). assert (Hf : final_size z = last_size).
  { change last_size with (final_size (winsize_start init script)). clear Hm Hs. induction Hrun as [|z1 z2 z3 Hstep _ IH]; [done|].
    by rewrite IH, (final_size_step _ _ Hstep). }
  eapply inevitable_impl; [|apply (winsize_settles (fun z => winsize_inv z /\ final_size z = last_size))].
  - intros z' (Hset & [_ Hi] & Hf'). split; [done|]. destruct Hset as (Hsc & Hu & Hc & _ & Hl). unfold final_size in Hf'.
    rewrite Hsc in Hf'. cbn in Hf'. rewrite Hsc, Hu, Hc, Hl in Hi. rewrite <- Hf'. naive_solver.
  - intros z1 z2 Hstep [Hi Hf']. split; [by eapply winsize_inv_step|]. by rewrite (final_size_step _ _ Hstep).
  - split; [|done]. split; [done|]. by left.
Qed.

Lemma winsize_early init script :
  inevitable winsize_step (fun z => settled z /\ exists sz, wz_pty z = Some sz /\ sz ∈ init :: script) (winsize_start init script).
Proof.
  eapply inevitable_impl; [|apply (winsize_settles (known_sizes (init :: script)))].
  - intros z (Hset & _ & _ & _ & _ & Hp). split; [done|]. destruct (wz_pty z) as [sz|]; [by exists sz|]. by destruct Hp, Hset as (_ & _ & _ & ? & _).
  - intros z z'. apply known_sizes_step.
  - unfold known_sizes, winsize_start. cbn. split_and!; [left|apply Forall_forall; intros sz Hsz; by right|done|done|done].
Qed.

(** ** The whole way *)

(** The calls of a client on a process with a terminal. *)
Inductive TTYCall := CallSetTTY (tty : TTYSpec) | CallInput (d : string) | CallMsg (m : string).

Definition tty_ops (p : Process) (c : TTYCall) : list WriterOp :=
  match c with
  | CallSetTTY tty => default [] (Process_SetTTY p tty)
  | CallInput d => [WWrite d]
  | CallMsg m => [WSendMsg m]
  end.

(** The size that was asked for last. *)
Definition asked_size (c : TTYCall) : option Size :=
  match c with CallSetTTY (mkTTY (Some w)) => Some (ws_Columns w, ws_Rows w) | _ => None end.

Lemma tty_ops_orderly p calls : Forall (fun c => match c with CallMsg m => m <> "" | _ => True end) calls -> orderly (calls ≫= tty_ops p).
Proof.
  induction 1 as [|c calls Hc Hall IH]; [done|]. rewrite bind_cons. destruct c as [[[w|]]|d|m]; cbn; unfold Process_SetTTY;
    try case_decide; cbn; by try split.
Qed.

Lemma tty_ops_sizes p calls : linked p <> 0%nat ->
  sizes true (calls ≫= tty_ops p) = (fun s : Size => (u16 s.1, u16 s.2)) <$> omap asked_size calls.
Proof.
  intros Hl. induction calls as [|c calls IH]; [done|]. rewrite bind_cons. destruct c as [[[w|]]|d|m]; cbn; unfold Process_SetTTY;
    rewrite ?decide_False by done; cbn; by rewrite ?IH.
Qed.

(** C11: the size of a process's terminal follows its client, over three programs.
    Whatever sizes a client sets on a linked process with a terminal, mixed with
    input and messages, and however iodaemon, the main goroutine and the loop of wsh
    interleave, every run comes to rest, with the process's terminal at one of the
    sizes that were set or the one it was started with, cut to 16 bits. From every
    state in which wsh has set its terminal up and a size is still to be set, every
    run comes to rest with the size that was set last: signals that the full channel
    drops are never missed. *)
Theorem window_size_settles p cols rows calls :
  linked p <> 0%nat -> Forall (fun c => match c with CallMsg m => m <> "" | _ => True end) calls ->
  match HandleConnection true (fun _ => false) 0 (gob ∘ input_of <$> (calls ≫= tty_ops p)) new_child with
  | (cut_off, child) =>
      let start := winsize_start (u16 cols, u16 rows) (ch_winsize child) in
      let cut s := (u16 s.1, u16 s.2) in
      let asked := omap asked_size calls in
      cut_off = false /\
      inevitable winsize_step (fun z => settled z /\ exists sz, wz_pty z = Some (cut sz) /\ sz ∈ (cols, rows) :: asked) start /\
      forall z, rtc winsize_step start z -> wz_main z = SetupDone -> wz_script z <> [] ->
        inevitable winsize_step (fun z => settled z /\ wz_pty z = Some (cut (default (cols, rows) (last asked)))) z
  end.
Proof.
  intros Hl Hm. rewrite handle_open by (done || by apply tty_ops_orderly). cbn [ch_winsize new_child app]. split; [done|].
  rewrite tty_ops_sizes by done. set (cut := fun s : Size => (u16 s.1, u16 s.2)). change (u16 cols, u16 rows) with (cut (cols, rows)). split.
  - eapply inevitable_impl; [|apply winsize_early]. intros z (Hset & sz & Hp & Hin). split; [done|].
    rewrite <- (fmap_cons cut) in Hin. apply list_elem_of_fmap in Hin as (sz' & -> & Hin). by exists sz'.
  - intros z Hrun Hs Hsc. pose proof (winsize_late _ _ _ Hrun Hs Hsc) as H. rewrite fmap_last in H. by destruct (last (omap asked_size calls)).
Qed.

Definition linked_process : Process := mkProcess "1" LinkSignaller Running 1 0 0 None.
Definition sample_tty_calls : list TTYCall :=
  [CallInput "ls"; CallSetTTY (mkTTY (Some (mkWindowSize 100 40))); CallSetTTY (mkTTY None); CallSetTTY (mkTTY (Some (mkWindowSize 120 65560)))].

(** wsh has set its terminal up before the first size arrives. *)
Definition sample_set_up : Winsize := mkWinsize [(100, 40); (120, 24)] (80, 24) false false SetupDone LoopWait (Some (80, 24)).

Lemma window_size_settles_witness :
  inevitable winsize_step (fun z => settled z /\ wz_pty z = Some (120, 24)) sample_set_up.
Proof.
  pose proof (window_size_settles linked_process 80 24 sample_tty_calls) as H.
  destruct H as (_ & _ & H); [done|repeat constructor|]. apply (H sample_set_up); [|done..].
  eapply rtc_l; [apply step_main_get|]. apply rtc_once, step_main_set.
Defined.

(** A size that arrives during the set-up can be lost: wsh reads the first size, the
    terminal changes, the loop copies the new size, and then the main goroutine sets
    the first one. Nothing is left to do and the process has the wrong size. *)
Theorem window_size_race init sz : init <> sz ->
  exists z, rtc winsize_step (winsize_start init [sz]) z /\ settled z /\ wz_term z = sz /\ wz_pty z = Some init.
Proof.
  intros Hne. exists (mkWinsize [] sz false false SetupDone LoopWait (Some init)). split; [|done].
  eapply rtc_l; [apply step_main_get|]. eapply rtc_l; [apply step_resize|]. eapply rtc_l; [apply step_signal|].
  eapply rtc_l; [apply step_loop_receive|]. eapply rtc_l; [apply step_loop_get|]. eapply rtc_l; [apply step_loop_set|].
  eapply rtc_l; [apply step_main_set|]. apply rtc_refl.
Qed.
