(* ===== verification/ResourcePool.v ===== *)
(** * The resource pool (src/resource_pool/resource_pool.go)

    [Acquire] takes what a container needs, first from the pools in memory (a
    network, later ports), then on the host (directories, a root file system, a
    bridge, the create script), and gives everything back when a step fails;
    [Release] undoes it; [Restore] takes the resources of a snapshot again.

    The goroutine of [Acquire] that sets the container's filter chain up runs
    here when it is started; its commands and those of the other steps touch
    different things, and its result is used where the source receives it.
    The root file system provider, the quota manager and [MkdirChown] are
    interfaces or other packages: their calls go to the world. *)
From S2P Require Import Prelude GoStrings GoNet World ProcessEnv Sysconfig Subnets PortPool BridgeMgr.
From S2P Require Import IPTables IPTablesManager Container.

Record LinuxResourcePool := mkRP {
  rp_subnets : pool;
  rp_ports : PortPool;
  rp_bridges : mgr;
  rp_nextID : Z          (* [containerNum] of [generateContainerIDs] *)
}.

Definition with_subnets {A} (m : M pool A) : M (LinuxResourcePool * World) A :=
  zoom (fun s => rp_subnets s.1)
       (fun x s => (mkRP x (rp_ports s.1) (rp_bridges s.1) (rp_nextID s.1), s.2)) m.
Definition with_port_pool {A} (m : M PortPool A) : M (LinuxResourcePool * World) A :=
  zoom (fun s => rp_ports s.1)
       (fun x s => (mkRP (rp_subnets s.1) x (rp_bridges s.1) (rp_nextID s.1), s.2)) m.
Definition with_bridges {A} (m : M (mgr * World) A) : M (LinuxResourcePool * World) A :=
  zoom (fun s => (rp_bridges s.1, s.2))
       (fun x s => (mkRP (rp_subnets s.1) (rp_ports s.1) x.1 (rp_nextID s.1), x.2)) m.

(** [generateContainerIDs] *)
Definition container_id (containerNum : Z) : string := base32_name 11 containerNum.

Definition next_id : M (LinuxResourcePool * World) string := fun s =>
  (Ok (container_id (rp_nextID s.1)),
   (mkRP (rp_subnets s.1) (rp_ports s.1) (rp_bridges s.1) (rp_nextID s.1 + 1), s.2)).

Definition getHandle (handle id : string) : string := if decide (handle = "") then id else handle.

Definition shouldCleanRootfs (rootFSProvider : string) : bool :=
  existsb (fun provider => bool_decide (provider = rootFSProvider))
    ["docker-local-aufs"; "docker-local-vfs"; "docker-remote-aufs"; "docker-remote-vfs"; "docker-composite";
     "invalid-rootfs-provider"].

Definition suffixIfNeeded (spec : string) : string := if contains spec "/" then spec else spec +:+ "/30".

Definition parseNetworkSpec (spec : string) : result (SubnetSelector * IPSelector) :=
  if decide (spec = "") then Ok (DynamicSubnetSelector, DynamicIPSelector)
  else
    res_bind (ParseCIDR (suffixIfNeeded spec)) (fun '(specifiedIP, ipn) =>
    Ok (StaticSubnetSelector ipn,
        if negb (IP_Equal specifiedIP (NetworkIP ipn)) then StaticIPSelector specifiedIP else DynamicIPSelector)).

(** What the server is configured with. [filter_of] is [ProvideFilter]; the other
    functions stand for packages the repository only calls: [url_Parse] of
    net/url, [semver_Make], and the decoder of the provider's answer. *)
Record PoolConfig := mkPoolConfig {
  binPath : string;
  depotPath : string;
  allowNetworks : list string;
  denyNetworks : list string;
  pool_externalIP : IP;
  mtu : Z;
  mapped_root : Z;
  chains_of : list ContainerChain;
  filter_of : string -> chain;
  defaultChain : chain;
  currentVersion : Version;
  currentVersion_text : string;
  pool_PATH : string;
  url_Parse : string -> result string;
  semver_Make : string -> result Version;
  rootfs_reply : string -> string * list string
}.

Section Pool.
Context (env : Env) (cfg : PoolConfig).
Local Open Scope go_scope.

Definition releasePoolResources (resources : Resources) : M (LinuxResourcePool * World) unit :=
  do! for_each (fun port => with_port_pool (PortPool_Release port)) (Ports resources) in
  match res_Network resources with
  | Some n => ignore (with_subnets (Subnets_Release n))
  | None => ret tt
  end.

Definition acquireUID (privileged : bool) (r : Resources) : Resources :=
  mkResources (if privileged then 0 else mapped_root cfg) (res_Network r) (Bridge r) (Ports r) (ExternalIP r).

Definition set_network (n : Network) (r : Resources) : Resources :=
  mkResources (RootUID r) (Some n) (Bridge r) (Ports r) (ExternalIP r).
Definition set_bridge (b : string) (r : Resources) : Resources :=
  mkResources (RootUID r) (res_Network r) b (Ports r) (ExternalIP r).

Definition acquirePoolResources (spec : ContainerSpec) : M (LinuxResourcePool * World) Resources :=
  let resources := NewResources 0 None "" [] (pool_externalIP cfg) in
  let! ' (subnet, ip) := map_err (Wrapf "create container: invalid network spec: %v" [])
                           (lift (parseNetworkSpec (spec_Network spec))) in
  let resources := acquireUID (Privileged spec) resources in
  let! network := on_err (with_subnets (Subnets_Acquire subnet ip)) (releasePoolResources resources) in
  ret (set_network network resources).

(** *** The host *)

Definition file_of (id name : string) : string := path_join [depotPath cfg; id; name].

Definition saveBridgeName (id bridgeName : string) : M World unit := call_ env (WriteFile (file_of id "bridge-name") bridgeName).
Definition saveRootFSProvider (id provider : string) : M World unit :=
  call_ env (WriteFile (file_of id "rootfs-provider") provider).
Definition saveContainerVersion (id : string) : M World unit :=
  call_ env (WriteFile (file_of id "version") (currentVersion_text cfg)).

Definition restoreContainerVersion (id : string) : M World Version :=
  let! r := attempt (call env (ReadFile (file_of id "version"))) in
  match r with
  | inl content => lift (semver_Make cfg content)
  | inr (NotExist _) => ret MissingVersion
  | inr e => fail e
  end.

Definition writeBindMounts (containerPath rootFSPath : string) (bindMounts : list BindMount) (mkdirUID : Z) : M World unit :=
  let hook := path_join [containerPath; "lib"; "hook-parent-before-clone.sh"] in
  for_each (fun bm =>
    let dstMount := path_join [rootFSPath; DstPath bm] in
    let srcPath := if OriginContainer bm then path_join [rootFSPath; SrcPath bm] else SrcPath bm in
    let mode := if ModeRW bm then "rw" else "ro" in
    do! call_ env (Run (Command "bash" ["-c"; "echo >> " +:+ hook])) in
    do! call_ env (Sys "MkdirChown" [dstMount; FormatUint (u32 mkdirUID) 10; FormatUint (u32 mkdirUID) 10; "0755"]) in
    do! call_ env (Run (Command "bash" ["-c"; "echo mount -n --bind " +:+ srcPath +:+ " " +:+ dstMount +:+ " >> " +:+ hook])) in
    call_ env (Run (Command "bash"
      ["-c"; "echo mount -n --bind -o remount," +:+ mode +:+ " " +:+ srcPath +:+ " " +:+ dstMount +:+ " >> " +:+ hook])))
    bindMounts.

Definition releaseSystemResources (id : string) : M (LinuxResourcePool * World) unit :=
  let! bridgeName := attempt (eff (call env (ReadFile (file_of id "bridge-name")))) in
  do! (match bridgeName with
       | inl name => map_err (Wrapf "containerpool: release bridge %s: %v" [name]) (with_bridges (BridgeMgr_Release env name id))
       | inr _ => ret tt
       end) in
  let! r := attempt (eff (call env (ReadFile (file_of id "rootfs-provider")))) in
  let rootFSProvider := match r with inl p => p | inr _ => "invalid-rootfs-provider" end in
  do! eff (ContainerTeardown (chains_of cfg) id) in
  do! eff (call_ env (Run (Command (path_join [binPath cfg; "destroy.sh"]) [path_join [depotPath cfg; id]]))) in
  do! (if shouldCleanRootfs rootFSProvider then eff (call_ env (Sys "rootfs.Destroy" [id])) else ret tt) in
  eff (filter_TearDown env (filter_of cfg id)).

Definition tryReleaseSystemResources (id : string) : M (LinuxResourcePool * World) unit := ignore (releaseSystemResources id).

Definition setupRootfs (spec : ContainerSpec) (id : string) (resources : Resources)
    : M (LinuxResourcePool * World) (string * ProcEnv) :=
  let! rootFSURL := lift (url_Parse cfg (RootFSPath spec)) in
  let '(_, disk, _, _) := spec_Limits spec in
  let! reply := eff (call env (Sys "rootfs.Create" [id; rootFSURL; FormatBool (negb (RootUID resources =? 0));
                       Itoa (int64 (ByteHard disk)); FormatUint (Scope disk) 10])) in
  let '(rootFSPath, rootFSEnvVars) := rootfs_reply cfg reply in
  let! rootFSProcessEnv := lift (NewEnv rootFSEnvVars) in
  ret (rootFSPath, rootFSProcessEnv).

(** The bridge name is set in the resources, also when saving it fails. *)
Definition setupBridge (id : string) (n : Network) : M (LinuxResourcePool * World) string :=
  let! bridge := with_bridges (Reserve env (nw_Subnet n) id) in
  do! eff (saveBridgeName id bridge) in
  ret bridge.

Definition setupContainerDirectories (spec : ContainerSpec) (id : string) (resources : Resources) (n : Network)
    : M (LinuxResourcePool * World) (string * ProcEnv * string) :=
  let! ' (rootFSPath, rootFSEnvVars) := setupRootfs spec id resources in
  let! bridge := on_err (setupBridge id n) (eff (call_ env (Sys "rootfs.Destroy" [id]))) in
  ret (rootFSPath, rootFSEnvVars, bridge).

Definition create_env (id rootFSPath : string) (gw : IP) (n : Network) (resources : Resources) : ProcEnv :=
  list_to_map [
    ("id", id);
    ("rootfs_path", rootFSPath);
    ("network_host_ip", IP_String gw);
    ("network_container_ip", IP_String (nw_IP n));
    ("network_cidr_suffix", Itoa (Mask_Size (net_Mask (nw_Subnet n))).1);
    ("network_cidr", IPNet_String (nw_Subnet n));
    ("external_ip", IP_String (pool_externalIP cfg));
    ("container_iface_mtu", Itoa (mtu cfg));
    ("bridge_iface", Bridge resources);
    ("root_uid", FormatUint (u64 (RootUID resources)) 10);
    ("PATH", pool_PATH cfg)].

Definition acquireSystemResources (spec : ContainerSpec) (id : string) (resources : Resources) (n : Network)
    : M (LinuxResourcePool * World) (string * ProcEnv * Resources) :=
  let containerPath := path_join [depotPath cfg; id] in
  do! map_err (Wrapf "resource_pool: creating container directory: %v" []) (eff (call_ env (MkdirAll containerPath))) in
  let! ' (rootFSPath, rootFSEnvVars, bridge) :=
    on_err (setupContainerDirectories spec id resources n) (eff (call_ env (RemoveAll containerPath))) in
  let resources := set_bridge bridge resources in
  let! gw := lift (GatewayIP (nw_Subnet n)) in
  do! on_err (
        do! eff (call_ env (Run (mkCmd (path_join [binPath cfg; "create.sh"]) [containerPath]
                                   (Env_Array (create_env id rootFSPath gw n resources)) ""))) in
        do! eff (saveRootFSProvider id "docker-composite") in
        do! eff (saveContainerVersion id) in
        eff (writeBindMounts containerPath rootFSPath (BindMounts spec) (RootUID resources)))
      (tryReleaseSystemResources id) in
  ret (rootFSPath, rootFSEnvVars, resources).

(** *** The operations *)

Definition Pool_MaxContainers (p : LinuxResourcePool) : Z := Subnets_Capacity (rp_subnets p).

(** The part of [Acquire] under the deferred clean-up. *)
Definition acquire_container (spec : ContainerSpec) (id handle : string) (resources : Resources) (n : Network)
    (iptables : unit + error) : M (LinuxResourcePool * World) LinuxContainerSpec :=
  let! ' (containerRootFSPath, rootFSEnv, resources) := acquireSystemResources spec id resources n in
  match iptables with
  | inr err => do! tryReleaseSystemResources id in fail (Wrapf "resource_pool: set up filter: %v" [] err)
  | inl _ =>
      let! specEnv := on_err (lift (NewEnv (spec_Env spec))) (tryReleaseSystemResources id) in
      let gspec := mkContainerSpec handle (GraceTime spec) (RootFSPath spec) (BindMounts spec) (spec_Network spec)
                     (Properties spec) (Env_Array (Env_Merge rootFSEnv specEnv)) (Privileged spec) (spec_Limits spec) in
      ret {| ID := id; ContainerPath := path_join [depotPath cfg; id]; ContainerRootFSPath := containerRootFSPath;
             spec_Resources := resources; Events := []; spec_Version := currentVersion cfg; spec_State := StateBorn;
             spec_ContainerSpec := gspec; Limits_ := mkContainerLimits None None None None; Processes := [];
             NetIns := []; NetOuts := [] |}
  end.

Definition Pool_Acquire (spec : ContainerSpec) : M (LinuxResourcePool * World) LinuxContainerSpec :=
  let! id := next_id in
  let handle := getHandle (Handle spec) id in
  let! iptables := attempt (eff (filter_Setup env (filter_of cfg id) handle)) in
  let! resources := acquirePoolResources spec in
  match res_Network resources with
  | None => panic "invalid memory address or nil pointer dereference"
  | Some n => on_err (acquire_container spec id handle resources n iptables) (releasePoolResources resources)
  end.

(** The loop that takes the snapshot's ports again; on the first failure the
    network and all ports of the snapshot are released. *)
Fixpoint restore_ports (todo all : list Z) (n : Network) : M (LinuxResourcePool * World) unit :=
  match todo with
  | [] => ret tt
  | port :: todo' =>
      let! r := attempt (with_port_pool (PortPool_Remove port)) in
      match r with
      | inl _ => restore_ports todo' all n
      | inr err =>
          do! ignore (with_subnets (Subnets_Release n)) in
          do! for_each (fun port => with_port_pool (PortPool_Release port)) all in
          fail err
      end
  end.

Definition Pool_Restore (snapshot : ContainerSnapshot) : M (LinuxResourcePool * World) LinuxContainerSpec :=
  let id := snap_ID snapshot in
  match snap_Network snapshot with
  | None => panic "invalid memory address or nil pointer dereference"
  | Some n =>
      do! with_subnets (Subnets_Remove n) in
      do! on_err (with_bridges (Rereserve (snap_Bridge snapshot) (nw_Subnet n) id)) (with_subnets (Subnets_Release n)) in
      do! restore_ports (snap_Ports snapshot) (snap_Ports snapshot) n in
      let! version := eff (restoreContainerVersion id) in
      ret {| ID := id; ContainerPath := path_join [depotPath cfg; id]; ContainerRootFSPath := snap_RootFSPath snapshot;
             spec_State := snap_State snapshot; Events := snap_Events snapshot;
             spec_ContainerSpec := mkContainerSpec (snap_Handle snapshot) (snap_GraceTime snapshot) "" [] ""
               (snap_Properties snapshot) [] false
               (mkMemoryLimits 0, mkDiskLimits 0 0 0 0 0, Bandwidth.mkBandwidth 0 0, mkCPULimits 0);
             spec_Resources := NewResources (snap_RootUID snapshot) (Some n) (snap_Bridge snapshot) (snap_Ports snapshot)
               (pool_externalIP cfg);
             Limits_ := snap_Limits snapshot; NetIns := snap_NetIns snapshot; NetOuts := snap_NetOuts snapshot;
             Processes := snap_Processes snapshot; spec_Version := version |}
  end.

Definition Pool_Release (container : LinuxContainerSpec) : M (LinuxResourcePool * World) unit :=
  do! releaseSystemResources (ID container) in
  releasePoolResources (spec_Resources container).

Definition setupIPTables : M World unit :=
  do! for_each (fun n => if decide (n = "") then ret tt
                         else map_err (Wrapf "resource_pool: setting up allow rules in iptables: %v" [])
                                (AppendRule env (defaultChain cfg) "" n "RETURN")) (allowNetworks cfg) in
  for_each (fun n => if decide (n = "") then ret tt
                     else map_err (Wrapf "resource_pool: setting up deny rules in iptables: %v" [])
                            (AppendRule env (defaultChain cfg) "" n "REJECT")) (denyNetworks cfg).

Definition Pool_Setup : M World unit :=
  do! call_ env (Run (mkCmd (path_join [binPath cfg; "setup.sh"]) []
        ["CONTAINER_DEPOT_PATH=" +:+ depotPath cfg; "PATH=" +:+ pool_PATH cfg] "")) in
  do! map_err (Wrapf "resource_pool: enable disk quotas: %s" []) (call_ env (Sys "quota.Setup" [])) in
  setupIPTables.

Definition pruneEntry (id : string) : M (LinuxResourcePool * World) unit := ignore (releaseSystemResources id).

(** [keep] maps the IDs of the live containers; the directory listing is one name per line. *)
Definition Pool_Prune (keep : gset string) : M (LinuxResourcePool * World) unit :=
  let! entries := map_err (Wrapf "Cannot read path %q: %s" [depotPath cfg])
                    (eff (call env (Sys "readdir" [depotPath cfg]))) in
  do! for_each (fun id => if decide (id = "tmp" \/ id ∈ keep) then ret tt else pruneEntry id)
        (filter (fun e => e <> "") (split newline entries)) in
  ignore (with_bridges (Prune env)).
End Pool.
