(* ===== verification/ResourcePoolTheorems.v ===== *)
(** * Theorems on the resource pool *)
From S2P Require Import Prelude GoStrings GoNet IPv4 World ProcessEnv Sysconfig Subnets SubnetsProofs.
From S2P Require Import SubnetPool SubnetTheorems PortPool BridgeMgr IPTables IPTablesManager Container.
From S2P Require Import ResourcePool.

(** The pools in memory that hand out networks and ports. *)
Definition pools (s : LinuxResourcePool * World) : pool * PortPool := (rp_subnets s.1, rp_ports s.1).

Lemma PortPool_Release_Ok port p : exists p', PortPool_Release port p = (Ok tt, p').
Proof. unfold PortPool_Release. repeat case_match; eauto. Qed.

Section Frames.
Context (env : Env) (cfg : PoolConfig).

Lemma releaseSystemResources_keeps id : keeps pools (releaseSystemResources env cfg id).
Proof. unfold releaseSystemResources, with_bridges, eff. keeps_tac. Qed.

Lemma acquireSystemResources_keeps spec id r n : keeps pools (acquireSystemResources env cfg spec id r n).
Proof.
  unfold acquireSystemResources, setupContainerDirectories, setupRootfs, setupBridge, tryReleaseSystemResources, with_bridges, eff.
  repeat first [apply releaseSystemResources_keeps | progress keeps_tac].
Qed.

Lemma acquire_container_keeps spec id handle r n ipt : keeps pools (acquire_container env cfg spec id handle r n ipt).
Proof.
  unfold acquire_container, tryReleaseSystemResources.
  repeat first [apply releaseSystemResources_keeps | apply acquireSystemResources_keeps | progress keeps_tac].
Qed.

Lemma acquireSystemResources_bridge spec id r n s a b r' s' :
  acquireSystemResources env cfg spec id r n s = (Ok (a, b, r'), s') -> exists br, r' = set_bridge br r.
Proof.
  unfold acquireSystemResources. intros (u & s1 & _ & H)%bind_Ok. apply bind_Ok in H as ([[x y] br] & s2 & _ & H).
  apply bind_Ok in H as (gw & s3 & _ & H). apply bind_Ok in H as (v & s4 & _ & H). injection H as _ _ <- _. by exists br.
Qed.

Lemma releasePoolResources_network rp w n uid br ip :
  releasePoolResources (mkResources uid (Some n) br [] ip) (rp, w) =
    match Subnets_Release n (rp_subnets rp) with
    | (Panic m, p) => (Panic m, (mkRP p (rp_ports rp) (rp_bridges rp) (rp_nextID rp), w))
    | (_, p) => (Ok tt, (mkRP p (rp_ports rp) (rp_bridges rp) (rp_nextID rp), w))
    end.
Proof.
  unfold releasePoolResources. cbn [Ports for_each res_Network]. rewrite bind_eq. unfold ret at 1. rewrite ignore_eq.
  unfold with_subnets, zoom. cbn [fst snd]. by destruct (Subnets_Release n (rp_subnets rp)) as [[] ?].
Qed.

Lemma releasePoolResources_nothing rp w uid br ip :
  releasePoolResources (mkResources uid None br [] ip) (rp, w) = (Ok tt, (rp, w)).
Proof. done. Qed.

(** What [acquirePoolResources] does: nothing when it fails, and the network of a
    successful [Acquire] otherwise. *)
Lemma acquirePoolResources_spec spec rp w r s :
  acquirePoolResources cfg spec (rp, w) = (r, s) ->
  match r with
  | Ok res => exists sn i n p, parseNetworkSpec (spec_Network spec) = Ok (sn, i) /\
      Subnets_Acquire sn i (rp_subnets rp) = (Ok n, p) /\
      s = (mkRP p (rp_ports rp) (rp_bridges rp) (rp_nextID rp), w) /\
      res = mkResources (RootUID res) (Some n) "" [] (pool_externalIP cfg)
  | _ => pools s = pools (rp, w)
  end.
Proof.
  unfold acquirePoolResources. rewrite bind_eq, map_err_eq. unfold lift.
  destruct (parseNetworkSpec (spec_Network spec)) as [[sn i]|e|m]; [|by intros [= <- <-]..].
  rewrite bind_eq, on_err_eq. unfold with_subnets, zoom. cbn [fst snd].
  destruct (Subnets_Acquire sn i (rp_subnets rp)) as [[n|e|m] p] eqn:E.
  - intros [= <- <-]. by exists sn, i, n, p.
  - destruct (Acquire_fails _ _ _ _ _ E) as [[? ?]| ->]; [done|].
    unfold acquireUID, NewResources. cbn [res_Network Bridge Ports ExternalIP].
    rewrite releasePoolResources_nothing. by intros [= <- <-].
  - destruct (Acquire_fails _ _ _ _ _ E) as [[? ?]| ->]; [done|]. by intros [= <- <-].
Qed.

Lemma next_id_eq rp w : next_id (rp, w) =
  (Ok (container_id (rp_nextID rp)), (mkRP (rp_subnets rp) (rp_ports rp) (rp_bridges rp) (rp_nextID rp + 1), w)).
Proof. done. Qed.

(** [Acquire] up to the point where the network is taken. *)
Lemma Pool_Acquire_eq spec rp w :
  exists w1 ipt, 
  let rp1 := mkRP (rp_subnets rp) (rp_ports rp) (rp_bridges rp) (rp_nextID rp + 1) in
  let id := container_id (rp_nextID rp) in
  Pool_Acquire env cfg spec (rp, w) =
    bind (acquirePoolResources cfg spec) (fun resources =>
      match res_Network resources with
      | None => panic "invalid memory address or nil pointer dereference"
      | Some n => on_err (acquire_container env cfg spec id (getHandle (Handle spec) id) resources n ipt)
                    (releasePoolResources resources)
      end) (rp1, w1)
  \/ (exists m, (Pool_Acquire env cfg spec (rp, w)) = (Panic m, (rp1, w1))).
Proof.
  unfold Pool_Acquire. rewrite bind_eq, next_id_eq. rewrite bind_eq, attempt_eq, eff_eq.
  destruct (filter_Setup env (filter_of cfg _) _ w) as [[[]|e|m] w1].
  - exists w1, (inl tt). by left.
  - exists w1, (inr e). by left.
  - exists w1, (inl tt). right. by exists m.
Qed.
End Frames.

(** What [Acquire] does to the pools: the container of a successful call has the
    network that the subnet pool handed out and no ports; a failed call leaves
    both pools as they were. *)
Record acquired_spec (cfg : PoolConfig) (d r : Z) (spec : ContainerSpec) (rp rp' : LinuxResourcePool)
    (c : LinuxContainerSpec) : Prop := {
  as_id : ID c = container_id (rp_nextID rp);
  as_handle : Handle (spec_ContainerSpec c) = getHandle (Handle spec) (container_id (rp_nextID rp));
  as_ports : rp_ports rp' = rp_ports rp;
  as_network : exists n b q z zs uid br, acquired d r (rp_subnets rp) n (rp_subnets rp') b q z zs /\
    spec_Resources c = mkResources uid (Some n) br [] (pool_externalIP cfg);
  as_rules : NetIns c = []
}.

(** The selectors that a client's network spec gives are lawful. *)
Definition lawful_request (d r : Z) (spec : ContainerSpec) : Prop :=
  forall sn i, parseNetworkSpec (spec_Network spec) = Ok (sn, i) -> LawfulSubnet d r sn /\ LawfulIP i.

Lemma acquire_container_Ok env cfg spec id handle res n ipt s c s' :
  acquire_container env cfg spec id handle res n ipt s = (Ok c, s') ->
  (exists br, spec_Resources c = set_bridge br res) /\ ID c = id /\ Handle (spec_ContainerSpec c) = handle /\ NetIns c = [].
Proof.
  unfold acquire_container. intros ([[a1 a2] a3] & sa & Hsys & H)%bind_Ok.
  apply acquireSystemResources_bridge in Hsys as [br ->].
  destruct ipt; [|by apply bind_Ok in H as (? & ? & _ & ?)].
  apply bind_Ok in H as (? & ? & _ & H). injection H as <- _. split; [by exists br|done].
Qed.

Lemma Pool_Acquire_spec env cfg spec d r s x s' :
  pool_inv d r (rp_subnets s.1) -> lawful_request d r spec -> Pool_Acquire env cfg spec s = (x, s') ->
  match x with
  | Ok c => acquired_spec cfg d r spec s.1 s'.1 c
  | Err _ => pools s' = pools s
  | Panic _ => True
  end.
Proof.
  intros Hinv Hlaw. destruct s as [rp w]. destruct (Pool_Acquire_eq env cfg spec rp w) as (w1 & ipt & [->|[m ->]]);
    [|by intros [= <- <-]].
  cbn [fst] in Hinv. rewrite bind_eq.
  destruct (acquirePoolResources cfg spec _) as [[res|e1|m] s1] eqn:E; apply acquirePoolResources_spec in E;
    [|by intros [= <- <-]..].
  destruct E as (sn & i & n & p & Hp & Ha & -> & Hres). destruct (Hlaw _ _ Hp) as [Hsn Hi].
  cbn [rp_subnets rp_ports rp_bridges rp_nextID] in *.
  destruct (Acquire_acquired _ _ _ _ _ _ _ Hinv Hsn Hi Ha) as (b & q & z & zs & Hacq).
  rewrite Hres. cbn [res_Network]. rewrite on_err_eq.
  destruct (acquire_container _ _ _ _ _ _ _ _ _) as [[c|e1|m] [rp2 w2]] eqn:Eac; [| |by intros [= <- <-]];
    pose proof (acquire_container_keeps _ _ _ _ _ _ _ _ _ _ _ Eac) as Hk; unfold pools in Hk; cbn in Hk; injection Hk as Hs Hpp.
  - intros [= <- <-]. destruct (acquire_container_Ok _ _ _ _ _ _ _ _ _ _ _ Eac) as ([br Hr] & Hid & Hh & Hins).
    split; cbn; [done..| |done]. exists n, b, q, z, zs, (RootUID res), br. by rewrite Hs, Hr.
  - pose proof (Release_acquired _ _ _ _ _ _ _ _ _ Hinv Hacq) as Hrel.
    rewrite releasePoolResources_network, Hs, Hrel. intros [= <- <-]. unfold pools. cbn. by rewrite Hpp.
Qed.

(** What [Release] does to them. *)
Lemma release_ports_Ok l s : exists pp, for_each (fun port => with_port_pool (PortPool_Release port)) l s =
    (Ok tt, (mkRP (rp_subnets s.1) pp (rp_bridges s.1) (rp_nextID s.1), s.2)) /\
  for_each PortPool_Release l (rp_ports s.1) = (Ok tt, pp).
Proof.
  revert s. induction l as [|x l IH]; intros [[sn pp br id] w]; [by exists pp|]. cbn [for_each]. rewrite !bind_eq.
  unfold with_port_pool at 1, zoom. cbn [fst snd rp_ports rp_subnets rp_bridges rp_nextID].
  destruct (PortPool_Release_Ok x pp) as [q ->]. apply IH.
Qed.

Lemma Subnets_Release_total n p : exists x p', Subnets_Release n p = (x, p') /\ forall m, x <> Panic m.
Proof. unfold Subnets_Release. repeat case_match; by eexists _, _. Qed.

Lemma Pool_Release_spec env cfg c s x s' : Pool_Release env cfg c s = (x, s') ->
  match x with
  | Ok _ => for_each PortPool_Release (Ports (spec_Resources c)) (rp_ports s.1) = (Ok tt, rp_ports s'.1) /\
      match res_Network (spec_Resources c) with
      | Some n => exists y, Subnets_Release n (rp_subnets s.1) = (y, rp_subnets s'.1)
      | None => rp_subnets s'.1 = rp_subnets s.1
      end
  | Err _ => pools s' = pools s
  | Panic _ => True
  end.
Proof.
  unfold Pool_Release. rewrite bind_eq. destruct (releaseSystemResources env cfg (ID c) s) as [[[]|e1|m] s1] eqn:E;
    apply releaseSystemResources_keeps in E; [|by intros [= <- <-]..].
  unfold pools in E. injection E as Hsn Hpp. unfold releasePoolResources. rewrite bind_eq.
  destruct (release_ports_Ok (Ports (spec_Resources c)) s1) as (pp & -> & Hrel). rewrite Hpp in Hrel.
  destruct (res_Network (spec_Resources c)) as [n|]; [|by intros [= <- <-]].
  rewrite ignore_eq. unfold with_subnets, zoom. cbn [fst snd rp_subnets rp_ports]. rewrite Hsn.
  destruct (Subnets_Release_total n (rp_subnets s.1)) as (y & p' & Hy & Hnp). rewrite Hy.
  destruct y as [?|?|m]; [| |by destruct (Hnp m)]; intros [= <- <-]; cbn; eauto.
Qed.

(** Releasing a container right after it was acquired gives the pools before it. *)
Lemma acquired_released env cfg d r spec rp rp1 c w s3 : pool_inv d r (rp_subnets rp) ->
  acquired_spec cfg d r spec rp rp1 c -> Pool_Release env cfg c (rp1, w) = (Ok tt, s3) ->
  pools s3 = (rp_subnets rp, rp_ports rp).
Proof.
  intros Hinv [_ _ Hpp (n & b & q & z & zs & uid & br & Hacq & Hc) _] Hr%Pool_Release_spec. rewrite Hc in Hr. cbn in Hr.
  destruct Hr as [[= Hp] [y Hy]]. rewrite (Release_acquired _ _ _ _ _ _ _ _ _ Hinv Hacq) in Hy. injection Hy as _ Hs.
  unfold pools. by rewrite <- Hs, <- Hp, Hpp.
Qed.

(** C12: a failed [Acquire] leaves nothing behind in the pools: whatever step
    fails (the network spec, the pool, a directory, the root file system, the
    bridge, the create script, a bind mount, the filter chain, the
    environment), the subnet pool and the port pool are exactly what they were. *)
Theorem failed_acquire_releases_pools env cfg spec d r s e s' :
  reachable d r (rp_subnets s.1) -> lawful_request d r spec ->
  Pool_Acquire env cfg spec s = (Err e, s') -> pools s' = pools s.
Proof. intros Hr%reachable_inv Hlaw H. exact (Pool_Acquire_spec _ _ _ _ _ _ _ _ Hr Hlaw H). Qed.

(** [Release] gives back exactly what [Acquire] took: after a successful
    [Acquire] and a successful [Release] of the container, both pools are what
    they were before. *)
Theorem release_after_acquire env env' cfg spec d r s c s1 w2 s3 :
  reachable d r (rp_subnets s.1) -> lawful_request d r spec ->
  Pool_Acquire env cfg spec s = (Ok c, s1) ->
  Pool_Release env' cfg c (s1.1, w2) = (Ok tt, s3) -> pools s3 = pools s.
Proof.
  intros Hinv%reachable_inv Hlaw Ha%(Pool_Acquire_spec _ _ _ _ _ _ _ _ Hinv Hlaw) Hr.
  exact (acquired_released _ _ _ _ _ _ _ _ _ _ Hinv Ha Hr).
Qed.

(** A container whose host resources cannot be released keeps its network
    and its ports: a failed [Release] changes neither pool. *)
Theorem failed_release_keeps_pools env cfg c s e s' :
  Pool_Release env cfg c s = (Err e, s') -> pools s' = pools s.
Proof. exact (Pool_Release_spec env cfg c s (Err e) s'). Qed.

(** ** Network specs *)

Lemma contains_char s c : contains s (String c "") = bool_decide (c ∈ chars s).
Proof.
  induction s as [|d s IH]; [by rewrite bool_decide_false by (apply not_elem_of_nil)|].
  cbn [contains chars]. rewrite IH. cbn [has_prefix]. rewrite andb_true_r.
  repeat case_bool_decide; cbn; try done; set_solver.
Qed.

Lemma ParseCIDR_host z p : is_u32 z -> 0 <= p <= 32 ->
  ParseCIDR (dotted (bytes4 z) +:+ String "/" (FormatUint p 10)) =
    Ok (v4InV6Prefix ++ bytes4 z, net4 (z / net_size p * net_size p) p).
Proof.
  intros Hz Hp. unfold ParseCIDR. rewrite cut_app by (apply dotted_chars; [by vm_compute|done]).
  rewrite parseIPv4_dotted. rewrite <- (app_nil_r_string (FormatUint p 10)).
  rewrite dtoi_FormatUint by (lia || done).
  change (8 * 4) with 32. destruct (Z.ltb_spec 32 p); [lia|]. by rewrite IP_Mask_16.
Qed.

Lemma base_canonical z p : is_u32 z -> 0 <= p <= 32 -> canonical (z / net_size p * net_size p) p.
Proof.
  intros Hz Hp. pose proof (net_size_pos p ltac:(lia)) as Hs. unfold is_u32 in *.
  split; [done|]. split.
  - pose proof (Z.mul_div_le z (net_size p) Hs). pose proof (Z.div_pos z (net_size p)). unfold is_u32. nia.
  - fold (net_size p). apply Z.mod_mul. lia.
Qed.

(** ** The networks that [ParseCIDR] returns *)

Lemma scan_number_nonneg base s : 0 <= base -> forall n seen v rest, 0 <= n -> scan_number base s n seen = Some (v, rest) -> 0 <= v.
Proof.
  intros Hb. induction s as [|c s IH]; intros n seen v rest Hn; cbn [scan_number]; [destruct seen; by intros [= <- _]|]. cbn zeta.
  assert (0 <= digit_val c) by (unfold digit_val; repeat case_match; lia).
  destruct (digit_val c <? base); [destruct (16777215 <=? _); [done|]; apply IH; nia|]. destruct seen; by intros [= <- _].
Qed.

Lemma parse_octets_bytes k : forall first s l rest, parse_octets k first s = Some (l, rest) -> bytes l /\ length l = k.
Proof.
  induction k as [|k IH]; intros first s l rest; cbn [parse_octets]; [intros [= <- _]; by split; [constructor|]|].
  assert (Hd : forall t, match dtoi t with
            | Some (n, rest) => if 255 <? n then None else match parse_octets k false rest with Some (l, rest') => Some (n :: l, rest') | None => None end
            | None => None end = Some (l, rest) -> bytes l /\ length l = S k).
  { intros t. destruct (dtoi t) as [[n r]|] eqn:Hn; [|done]. apply (scan_number_nonneg 10) in Hn; [|lia|lia].
    destruct (Z.ltb_spec 255 n); [done|]. destruct (parse_octets k false r) as [[l' r']|] eqn:Ho; [|done]. intros [= <- <-].
    apply IH in Ho as [Hb <-]. split; [|done]. constructor; [unfold is_u8; lia|done]. }
  destruct first; [apply Hd|]. destruct s as [|[[] [] [] [] [] [] [] []] s]; try done. apply Hd.
Qed.

Lemma CIDRMask_128 n : 0 <= n <= 128 -> length (CIDRMask n 128) = 16%nat.
Proof.
  intros Hn. assert (Hall : forallb (fun k => Nat.eqb (length (CIDRMask (Z.of_nat k) 128)) 16) (seq 0 129) = true) by (vm_compute; reflexivity).
  rewrite forallb_forall in Hall. specialize (Hall (Z.to_nat n)). rewrite Z2Nat.id, Nat.eqb_eq in Hall by lia. apply Hall, in_seq. lia.
Qed.

Lemma ParseCIDR_v4 s ip net : ParseCIDR s = Ok (ip, net) -> length (net_Mask net) = 4%nat ->
  exists d r z, canonical d r /\ net = net4 d r /\ is4 ip z.
Proof.
  unfold ParseCIDR. destruct (cut "/" s) as [ipstr [maskstr|]]; [|done]. destruct (parseIPv4 ipstr) as [l|] eqn:H4.
  - destruct (dtoi maskstr) as [[n [|]]|] eqn:Hn; [|done|done]. apply (scan_number_nonneg 10) in Hn; [|lia|lia].
    change (8 * 4) with 32. destruct (Z.ltb_spec 32 n); [done|]. intros [= <- <-] _.
    unfold parseIPv4 in H4. destruct (parse_octets 4 true ipstr) as [[o [|]]|] eqn:Ho; simplify_eq. apply parse_octets_bytes in Ho as [Hb Hl].
    rewrite <- (bytes4_be o) by done. set (z := be o). assert (Hz : is_u32 z).
    { pose proof (be_range o Hb) as Hr. rewrite Hl in Hr. exact Hr. }
    exists (z / net_size n * net_size n), n, z. rewrite IP_Mask_16 by (lia || done).
    split; [by apply base_canonical|]. split; [done|]. by apply (is4_16 z).
  - destruct (parseIPv6 ipstr) as [l|]; [|done]. destruct (dtoi maskstr) as [[n [|]]|] eqn:Hn; [|done|done].
    apply (scan_number_nonneg 10) in Hn; [|lia|lia]. change (8 * 16) with 128. destruct (Z.ltb_spec 128 n); [done|]. intros [= <- <-].
    cbn [net_Mask]. rewrite CIDRMask_128 by lia. lia.
Qed.

(** A client that asks for an IPv4 network, for one that does not parse, or for none. *)
Definition ipv4_request (spec : ContainerSpec) : Prop := forall ip net,
  ParseCIDR (suffixIfNeeded (spec_Network spec)) = Ok (ip, net) -> length (net_Mask net) = 4%nat.

(** Such a client selects lawfully, whatever text it gives. *)
Lemma ipv4_lawful d r spec : ipv4_request spec -> lawful_request d r spec.
Proof.
  intros H4 sn i. unfold parseNetworkSpec. case_decide; [intros [= <- <-]; split; apply _|].
  destruct (ParseCIDR _) as [[ip net]|e|m] eqn:E; [|done|done]. cbn [res_bind]. intros [= <- <-].
  destruct (ParseCIDR_v4 _ _ _ E (H4 _ _ E)) as (b & q & z & Hc & -> & Hz). split; [by apply static_subnet_lawful|].
  destruct (negb _); [by eapply static_ip_lawful|apply _].
Qed.

(** The text of a requested network: an address with or without a prefix length. *)
Definition spec_text (z : Z) (p : option Z) : string :=
  dotted (bytes4 z) +:+ match p with Some p => String "/" (FormatUint p 10) | None => "" end.

Lemma parseNetworkSpec_text z p : is_u32 z -> 0 <= default 30 p <= 32 ->
  let q := default 30 p in
  let b := z / net_size q * net_size q in
  parseNetworkSpec (spec_text z p) =
    Ok (StaticSubnetSelector (net4 b q),
        if decide (z = b) then DynamicIPSelector else StaticIPSelector (v4InV6Prefix ++ bytes4 z)).
Proof.
  intros Hz Hp q b. unfold parseNetworkSpec.
  assert (Hne : spec_text z p <> "").
  { unfold spec_text. intros H. apply (f_equal chars) in H. rewrite chars_app in H. apply app_eq_nil in H as [H _].
    pose proof (parseIPv4_dotted z) as Hd. apply (chars_inj _ "") in H. by rewrite H in Hd. }
  rewrite decide_False by done.
  assert (Hsuf : suffixIfNeeded (spec_text z p) = dotted (bytes4 z) +:+ String "/" (FormatUint q 10)).
  { unfold suffixIfNeeded, spec_text. rewrite contains_char, chars_app. destruct p as [p|].
    - rewrite bool_decide_true; [done|]. cbn. set_solver.
    - rewrite bool_decide_false; [by rewrite app_nil_r_string|]. cbn. rewrite app_nil_r. apply dotted_chars; [by vm_compute|done]. }
  rewrite Hsuf, ParseCIDR_host by done. cbn [res_bind]. fold b. unfold NetworkIP. change (net_IP (net4 b q)) with (bytes4 b).
  assert (Hb : is_u32 b) by apply (base_canonical z q Hz Hp).
  assert (H16 : is4 (v4InV6Prefix ++ bytes4 z) z) by apply (is4_16 z), Hz.
  rewrite (Equal_is4 _ _ _ _ H16 (is4_4 b Hb)). case_bool_decide; case_decide; done.
Qed.

(** Every IPv4 network a client can ask for selects lawfully: the subnet of
    the given prefix length (30 when none is given), and the given address
    unless it is the network address, in which case the pool chooses one. *)
Theorem network_spec_lawful d r z p sn i :
  is_u32 z -> 0 <= default 30 p <= 32 -> parseNetworkSpec (spec_text z p) = Ok (sn, i) ->
  LawfulSubnet d r sn /\ LawfulIP i /\
  sn = StaticSubnetSelector (net4 (z / net_size (default 30 p) * net_size (default 30 p)) (default 30 p)).
Proof.
  intros Hz Hp. rewrite parseNetworkSpec_text by done. intros [= <- <-]. split_and!; [|case_decide|done].
  - apply static_subnet_lawful. by apply base_canonical.
  - apply dynamic_ip_lawful.
  - apply (static_ip_lawful _ z). apply (is4_16 z), Hz.
Qed.

Lemma network_spec_lawful_witness :
  LawfulSubnet 184418304 22 (StaticSubnetSelector (net4 (167772165 / net_size 24 * net_size 24) 24)) /\
  LawfulIP (StaticIPSelector (v4InV6Prefix ++ bytes4 167772165)) /\
  StaticSubnetSelector (net4 (167772165 / net_size 24 * net_size 24) 24) =
  StaticSubnetSelector (net4 (167772165 / net_size (default 30 (Some 24)) * net_size (default 30 (Some 24))) (default 30 (Some 24))).
Proof.
  apply (network_spec_lawful 184418304 22 167772165 (Some 24)); [unfold is_u32; lia|cbn; lia|].
  rewrite parseNetworkSpec_text by (unfold is_u32; cbn; lia). cbn zeta. cbn [default from_option id].
  by rewrite decide_False by (vm_compute; discriminate).
Defined.

(** ** Identifiers *)

(** Container IDs are unique as long as fewer than 2^55 containers are made. *)
Theorem container_ids_unique n m : 0 <= n -> 0 <= m -> n <> m -> Z.abs (n - m) < 2 ^ 55 -> container_id n <> container_id m.
Proof.
  intros Hn Hm Hne Hclose Heq. apply base32_name_eq in Heq; [|lia|done|done].
  change (55 - 5 * Z.of_nat 11) with 0 in Heq. change (32 ^ Z.of_nat 11) with (2 ^ 55) in Heq.
  change (2 ^ 0) with 1 in Heq. rewrite !Z.div_1_r in Heq.
  assert (Hd : (n - m) mod 2 ^ 55 = 0) by (rewrite Zminus_mod, Heq, Z.sub_diag; done).
  apply Z.mod_divide in Hd as [q Hq]; [|lia]. rewrite Hq, Z.abs_mul in Hclose. lia.
Qed.

(** ** Restore *)

(** Restoring a snapshot with a port that another container holds frees that
    port: [Restore] fails with the port taken, but on the way out it releases
    every port of the snapshot, also the ones it did not take, so the port is
    handed out again while the other container uses it. *)
Theorem failed_restore_frees_foreign_port env cfg s n br id port rootfs st ev lim uid pids ins outs props h g envs p1 b1 :
  let snap := mkSnapshot id h rootfs g st ev lim uid (Some n) br [port] pids ins outs props envs in
  pp_wf (rp_ports s.1) -> in_range (rp_ports s.1) port -> port ∉ pp_pool (rp_ports s.1) ->
  Subnets_Remove n (rp_subnets s.1) = (Ok tt, p1) ->
  Rereserve br (nw_Subnet n) id (rp_bridges s.1, s.2) = (Ok tt, b1) ->
  (forall m, (Subnets_Release n p1).1 <> Panic m) ->
  exists e s', Pool_Restore env cfg snap s = (Err e, s') /\ port ∈ pp_pool (rp_ports s'.1).
Proof.
  intros snap Hwf Hr Hn Hrem Hre Hnp. destruct s as [rp w]. cbn [fst snd] in *.
  unfold Pool_Restore. cbn [snap_Network snap snap_ID snap_Bridge snap_Ports].
  rewrite bind_eq. unfold with_subnets at 1, zoom at 1. cbn [fst snd]. rewrite Hrem.
  rewrite bind_eq, on_err_eq. unfold with_bridges, zoom at 1. cbn [fst snd rp_bridges rp_subnets rp_ports rp_nextID].
  rewrite Hre. rewrite bind_eq. cbn [restore_ports]. rewrite bind_eq, attempt_eq.
  unfold with_port_pool at 1, zoom at 1. cbn [fst snd rp_ports].
  assert (Hrm : PortPool_Remove port (rp_ports rp) = (Err (PortTakenError port), rp_ports rp)).
  { unfold PortPool_Remove. by rewrite (proj2 (find_port_None port (pp_pool (rp_ports rp))) Hn). }
  rewrite Hrm. cbn [fst snd]. rewrite bind_eq, ignore_eq. unfold with_subnets, zoom at 1. cbn [fst snd rp_subnets rp_ports rp_bridges rp_nextID].
  destruct (Subnets_Release n p1) as [[u|e|m] p2] eqn:Ep; [| |by destruct (Hnp m)].
  all: rewrite bind_eq; cbn [for_each]; rewrite bind_eq; unfold with_port_pool, zoom; cbn [fst snd rp_subnets rp_ports rp_bridges rp_nextID];
    unfold PortPool_Release; rewrite wf_limit by done; unfold in_range in Hr;
    destruct (Z.ltb_spec port (pp_start (rp_ports rp))); [lia|];
    destruct (Z.leb_spec (pp_start (rp_ports rp) + pp_size (rp_ports rp)) port); [lia|]; cbn [orb];
    rewrite (proj2 (find_port_None port (pp_pool (rp_ports rp))) Hn); eexists _, _; (split; [reflexivity|]);
    cbn; apply elem_of_app; right; by apply list_elem_of_singleton.
Qed.

(** ** Examples *)

Definition sample_config : PoolConfig := {|
  binPath := "/bin"; depotPath := "/depot"; allowNetworks := []; denyNetworks := []; pool_externalIP := [10; 0; 0; 1];
  mtu := 1500; mapped_root := 4294967294; chains_of := []; filter_of := fun id => NewLoggingChain ("w--instance-" +:+ id) false;
  defaultChain := NewGlobalChain "w--default"; currentVersion := (1, 0, 0); currentVersion_text := "1.0.0"; pool_PATH := "/bin";
  url_Parse := Ok; semver_Make := fun _ => Ok (1, 0, 0); rootfs_reply := fun _ => ("/rootfs", ["A=1"]) |}.

Definition sample_client : ContainerSpec :=
  mkContainerSpec "h" 0 "docker:///busybox" [] "" ∅ ["B=2"] false
    (mkMemoryLimits 0, mkDiskLimits 0 0 0 0 0, Bandwidth.mkBandwidth 0 0, mkCPULimits 0).

Definition sample_pool_state : LinuxResourcePool :=
  mkRP (NewSubnets sample_range) sample_pool (BridgeMgr_New "w1b-" 7) 42.

(** A host on which a given call fails. *)
Definition env_without (bad : Call -> bool) : Env := fun _ c => if bad c then inr (Errorf "exit status 1") else inl "".

Definition is_script (name : string) (c : Call) : bool :=
  match c with Run cmd => bool_decide (cmd_Path cmd = path_join ["/bin"; name]) | _ => false end.

Lemma fresh_reachable : reachable 184418304 22 (rp_subnets sample_pool_state).
Proof. split; [split; [lia|split; [unfold is_u32; lia|reflexivity]]|split; [lia|apply rtc_refl]]. Qed.

Lemma dynamic_spec_lawful : lawful_request 184418304 22 sample_client.
Proof. intros sn i [= <- <-]. split; apply _. Qed.

(** The create script fails. *)
Lemma failed_acquire_releases_pools_witness :
  exists e s', Pool_Acquire (env_without (is_script "create.sh")) sample_config sample_client (sample_pool_state, []) = (Err e, s') /\
    pools s' = pools (sample_pool_state, []).
Proof.
  eexists _, _. split; [vm_compute; reflexivity|].
  eapply (failed_acquire_releases_pools (env_without (is_script "create.sh")) sample_config sample_client 184418304 22);
    [apply fresh_reachable|apply dynamic_spec_lawful|vm_compute; reflexivity].
Defined.

Lemma release_after_acquire_witness :
  exists c s1 s3, Pool_Acquire env_ok sample_config sample_client (sample_pool_state, []) = (Ok c, s1) /\
    Pool_Release env_ok sample_config c (s1.1, []) = (Ok tt, s3) /\ pools s3 = pools (sample_pool_state, []).
Proof.
  eexists _, _, _. split; [vm_compute; reflexivity|]. split; [vm_compute; reflexivity|].
  eapply (release_after_acquire env_ok env_ok sample_config sample_client 184418304 22 (sample_pool_state, []) _ _ []);
    [apply fresh_reachable|apply dynamic_spec_lawful|vm_compute; reflexivity|vm_compute; reflexivity].
Defined.

Definition sample_live : LinuxContainerSpec :=
  {| ID := "c1"; ContainerPath := ""; ContainerRootFSPath := ""; spec_Resources := mkResources 0 None "" [100] [];
     spec_State := StateActive; Events := []; spec_ContainerSpec := sample_client;
     Limits_ := mkContainerLimits None None None None; Processes := []; NetIns := []; NetOuts := []; spec_Version := (1, 0, 0) |}.

Lemma failed_release_keeps_pools_witness :
  exists e s', Pool_Release (env_without (is_script "destroy.sh")) sample_config sample_live (sample_pool_state, []) = (Err e, s') /\
    pools s' = pools (sample_pool_state, []).
Proof.
  eexists _, _. split; [vm_compute; reflexivity|].
  eapply (failed_release_keeps_pools (env_without (is_script "destroy.sh")) sample_config sample_live (sample_pool_state, [])).
  vm_compute. reflexivity.
Defined.

Lemma container_ids_unique_witness : container_id 42 <> container_id 43.
Proof. apply container_ids_unique; [lia|lia|lia|vm_compute; reflexivity]. Defined.

(** Port 100 is held; a snapshot that lists it frees it. *)
Lemma failed_restore_frees_foreign_port_witness :
  let n := mkNetwork (slot 184418304 3) (bytes4 184418318) in
  let held := mkRP (NewSubnets sample_range) (set_pool sample_pool [101]) (BridgeMgr_New "w1b-" 7) 42 in
  exists e s', Pool_Restore env_ok sample_config
      (mkSnapshot "c2" "h" "" 0 StateActive [] (mkContainerLimits None None None None) 0 (Some n) "w1b-x" [100] [] [] [] ∅ [])
      (held, []) = (Err e, s') /\ 100 ∈ pp_pool (rp_ports s'.1).
Proof.
  intros n held. eapply (failed_restore_frees_foreign_port env_ok sample_config (held, []) n "w1b-x" "c2" 100).
  - split; cbn; [lia|lia|lia|apply NoDup_singleton|repeat constructor; cbn; lia].
  - split; cbn; lia.
  - cbn. set_solver.
  - vm_compute. reflexivity.
  - vm_compute. reflexivity.
  - intros m. vm_compute. discriminate.
Defined.

(** When the bridge name cannot be saved, [Acquire] fails but its bridge stays
    reserved: the file that would tell the clean-up which bridge to release is
    the one that could not be written, so the container that was never made
    remains an owner of the bridge. *)
Theorem failed_save_leaks_bridge :
  let bad c := match c with WriteFile p _ => bool_decide (p = path_join ["/depot"; container_id 42; "bridge-name"]) | _ => false end in
  exists e s', Pool_Acquire (env_without bad) sample_config sample_client (sample_pool_state, []) = (Err e, s') /\
    pools s' = pools (sample_pool_state, []) /\
    owners (rp_bridges s'.1) !! Generate "w1b-" 7 = Some [container_id 42] /\
    Destroy (Generate "w1b-" 7) ∉ s'.2.
Proof.
  cbn zeta. eexists _, _. split; [vm_compute; reflexivity|]. split_and!; [vm_compute; reflexivity|vm_compute; reflexivity|].
  apply (bool_decide_unpack _). vm_compute. done.
Qed.
