(* ===== verification/Backend.v ===== *)
(** * The backend (src/linux_backend/linux_backend.go, src/container_repository)

    The backend composes the resource pool, the container provider and the
    repository: [Create] checks the handle and the number of containers,
    acquires resources, starts the container, applies its limits and registers
    it; [Destroy] undoes it; [Stop] saves snapshots and [Start] restores them.
    A call runs as one step; [create_check] and [create_make] are the two parts
    of [Create] between which calls of other clients can run. The JSON codec of
    the snapshots is a parameter. *)
From S2P Require Import Prelude GoStrings GoNet World ProcessEnv Sysconfig Subnets PortPool BridgeMgr.
From S2P Require Import IPTables IPTablesManager Bandwidth Cgroups Metrics ProcessTracker Container.
From S2P Require Import ResourcePool.

(** ** in_memory_container_repository.go *)

Notation Repository := (gmap string LinuxContainer).

Definition handle_of (c : LinuxContainer) : string := Handle (spec_ContainerSpec (c_spec c)).

Definition Repo_Query (f : LinuxContainer -> bool) (store : Repository) : list LinuxContainer :=
  List.filter f (map_to_list store).*2.
Definition Repo_All (store : Repository) : list LinuxContainer := Repo_Query (fun _ => true) store.
Definition Repo_Add (c : LinuxContainer) (store : Repository) : Repository := <[handle_of c := c]> store.
Definition Repo_Delete (c : LinuxContainer) (store : Repository) : Repository := delete (handle_of c) store.
Definition Repo_FindByHandle (handle : string) (store : Repository) : result LinuxContainer :=
  match store !! handle with Some c => Ok c | None => Err (ContainerNotFoundError handle) end.

(** ** linux_backend.go *)

Record LinuxBackend := mkBackend { be_pool : LinuxResourcePool; be_repo : Repository }.

(** The configuration: [container_node] is the cgroup reader of a container,
    [json_*] the encoding of snapshots, [decode_net] of interface statistics. *)
Record BackendConfig := mkBackendConfig {
  be_cfg : PoolConfig;
  snapshotsPath : string;
  maxContainers : Z;
  cgroup_root : string;
  container_node : string -> M World string;
  json_encode : ContainerSnapshot -> string;
  json_decode : string -> result ContainerSnapshot;
  decode_net : string -> NetworkStat
}.

Definition with_pool {A} (m : M (LinuxResourcePool * World) A) : M (LinuxBackend * World) A :=
  zoom (fun s => (be_pool s.1, s.2)) (fun x s => (mkBackend x.1 (be_repo s.1), x.2)) m.
Definition put_repo (f : Repository -> Repository) : M (LinuxBackend * World) unit :=
  update (fun b => mkBackend (be_pool b) (f (be_repo b))).

(** Run an operation of the object [c]; it uses the port pool of the server. The
    object is returned with the result, also when the operation fails. *)
Definition on_container {A} (c : LinuxContainer) (m : M (CS * World) A)
    : M (LinuxBackend * World) ((A + error) * LinuxContainer) := fun s =>
  let b := s.1 in
  let put ports := mkBackend (mkRP (rp_subnets (be_pool b)) ports (rp_bridges (be_pool b)) (rp_nextID (be_pool b))) (be_repo b) in
  match m ((c, rp_ports (be_pool b)), s.2) with
  | (Ok a, ((c', ports), w)) => (Ok (inl a, c'), (put ports, w))
  | (Err e, ((c', ports), w)) => (Ok (inr e, c'), (put ports, w))
  | (Panic p, ((c', ports), w)) => (Panic p, (put ports, w))
  end.

Definition withProperties (ps : gmap string string) (c : LinuxContainer) : bool := HasProperties ps c.
Definition withHandles (handles : list string) (c : LinuxContainer) : bool :=
  existsb (fun e => bool_decide (e = handle_of c)) handles.

(** [garden.Capacity]; the system information provider answers in decimal. *)
Record Capacity := mkCapacity { MemoryInBytes : Z; DiskInBytes : Z; MaxContainers : Z }.

Section Backend.
Context (env : Env) (cfg : BackendConfig).
Local Open Scope go_scope.

Definition filter_chain (c : LinuxContainer) : chain := filter_of (be_cfg cfg) (ID (c_spec c)).

Definition Backend_Setup : M (LinuxBackend * World) unit := eff (Pool_Setup env (be_cfg cfg)).

Definition limit_if {A} `{EqDecision A} (x zero : A) (c : LinuxContainer) (m : M (CS * World) unit)
    : M (LinuxBackend * World) ((unit + error) * LinuxContainer) :=
  if decide (x = zero) then ret (inl tt, c) else on_container c m.

(** [ApplyLimits]: each limit that is not the zero value, up to the first error. *)
Definition ApplyLimits (c : LinuxContainer) (limits : MemoryLimits * DiskLimits * BandwidthLimits * CPULimits)
    : M (LinuxBackend * World) ((unit + error) * LinuxContainer) :=
  let '(memory, disk, bandwidth, cpu) := limits in
  let node := container_node cfg in let root := cgroup_root cfg in
  let! ' (r, c) := limit_if cpu (mkCPULimits 0) c (LimitCPU env node root cpu) in
  match r with inr e => ret (inr e, c) | inl _ =>
  let! ' (r, c) := limit_if disk (mkDiskLimits 0 0 0 0 0) c (LimitDisk env disk) in
  match r with inr e => ret (inr e, c) | inl _ =>
  let! ' (r, c) := limit_if bandwidth (mkBandwidth 0 0) c (LimitBandwidth env bandwidth) in
  match r with inr e => ret (inr e, c) | inl _ =>
  limit_if memory (mkMemoryLimits 0) c (LimitMemory env node root memory)
  end end end.

(** The two checks of [Create]. *)
Definition create_check (spec : ContainerSpec) : M (LinuxBackend * World) unit :=
  let! repo := gets be_repo in
  if bool_decide (Handle spec <> "") && is_ok (Repo_FindByHandle (Handle spec) repo)
  then fail (HandleExistsError (Handle spec))
  else if (0 <? maxContainers cfg) && (maxContainers cfg <=? Z.of_nat (length (Repo_All repo)))
  then fail (MaxContainersReachedError (maxContainers cfg))
  else ret tt.

Definition create_make (spec : ContainerSpec) : M (LinuxBackend * World) LinuxContainer :=
  let! containerSpec := with_pool (Pool_Acquire env (be_cfg cfg) spec) in
  let container := NewLinuxContainer containerSpec in
  let! ' (r, container) := on_container container (Container_Start env (pool_PATH (be_cfg cfg)) (chains_of (be_cfg cfg))) in
  match r with
  | inr err => do! ignore (with_pool (Pool_Release env (be_cfg cfg) containerSpec)) in fail err
  | inl _ =>
      let! ' (r, container) := ApplyLimits container (spec_Limits spec) in
      match r with
      | inr err => do! ignore (with_pool (Pool_Release env (be_cfg cfg) containerSpec)) in fail err
      | inl _ =>
          do! put_repo (Repo_Add container) in
          ret container
      end
  end.

Definition Backend_Create (spec : ContainerSpec) : M (LinuxBackend * World) LinuxContainer :=
  do! create_check spec in create_make spec.

(** [Destroy] after the look-up of its container. *)
Definition destroy_container (container : LinuxContainer) : M (LinuxBackend * World) unit :=
  do! put_repo (Repo_Delete container) in
  let! ' (r, container) := on_container container (Cleanup env) in
  match r with
  | inr err => fail err
  | inl _ => with_pool (Pool_Release env (be_cfg cfg) (c_spec container))
  end.

Definition Backend_Destroy (handle : string) : M (LinuxBackend * World) unit :=
  let! repo := gets be_repo in
  let! container := lift (Repo_FindByHandle handle repo) in
  destroy_container container.

(** A call of a container's method by a client that found it by its handle: the
    method changes the object the repository holds. *)
Definition on_handle {A} (handle : string) (m : M (CS * World) A) : M (LinuxBackend * World) A :=
  let! repo := gets be_repo in
  let! container := lift (Repo_FindByHandle handle repo) in
  let! ' (r, container) := on_container container m in
  do! put_repo (insert handle container) in
  match r with inl a => ret a | inr err => fail err end.

Definition Backend_Containers (ps : gmap string string) (b : LinuxBackend) : list LinuxContainer :=
  Repo_Query (withProperties ps) (be_repo b).

Definition Backend_Lookup (handle : string) (b : LinuxBackend) : result LinuxContainer :=
  Repo_FindByHandle handle (be_repo b).

Definition Backend_GraceTime (c : LinuxContainer) : Z := c_graceTime c.

(** An entry for each container, with its information or its error. *)
Definition BulkInfo (handles : list string) (b : LinuxBackend) : list (string * result ContainerInfo) :=
  (fun c => (handle_of c, Info c)) <$> Repo_Query (withHandles handles) (be_repo b).

Fixpoint bulk_metrics (cs : list LinuxContainer) : M (LinuxBackend * World) (list (string * (ContainerMetrics + error))) :=
  match cs with
  | [] => ret []
  | c :: cs' =>
      let! ' (r, _) := on_container c (Container_Metrics env (container_node cfg) (cgroup_root cfg) (decode_net cfg)) in
      let! rest := bulk_metrics cs' in
      ret ((handle_of c, r) :: rest)
  end.

Definition BulkMetrics (handles : list string) : M (LinuxBackend * World) (list (string * (ContainerMetrics + error))) :=
  let! repo := gets be_repo in bulk_metrics (Repo_Query (withHandles handles) repo).

Definition Ping : M (LinuxBackend * World) unit :=
  map_err (Wrapf "unrecoverable: %s" []) (eff (call_ env (Sys "healthcheck" []))).

Definition Backend_Capacity : M (LinuxBackend * World) Capacity :=
  let! mem := eff (call env (Sys "sysinfo.TotalMemory" [])) in
  let! totalMemory := lift (ParseUint mem) in
  let! disk := eff (call env (Sys "sysinfo.TotalDisk" [])) in
  let! totalDisk := lift (ParseUint disk) in
  let! b := gets id in
  let m := Pool_MaxContainers (be_pool b) in
  let m := if (0 <? maxContainers cfg) && (maxContainers cfg <? m) then maxContainers cfg else m in
  ret (mkCapacity totalMemory totalDisk m).

(** *** Snapshots *)

Definition saveSnapshot (c : LinuxContainer) : M (LinuxBackend * World) unit :=
  if decide (snapshotsPath cfg = "") then ret tt
  else
    let snapshotPath := path_join [snapshotsPath cfg; ID (c_spec c)] in
    do! map_err (Wrapf "failed to save snapshot: %s" []) (eff (call_ env (Sys "create" [snapshotPath]))) in
    let! snap := map_err (Wrapf "failed to save snapshot: %s" []) (lift (Snapshot c)) in
    do! map_err (Wrapf "failed to save snapshot: %s" []) (eff (call_ env (WriteFile snapshotPath (json_encode cfg snap)))) in
    eff (call_ env (Sys "close" [snapshotPath])).

(** [Stop]: every container is cleaned up and saved; errors are logged. *)
Fixpoint stop_all (cs : list LinuxContainer) : M (LinuxBackend * World) unit :=
  match cs with
  | [] => ret tt
  | c :: cs' =>
      let! ' (_, c) := on_container c (Cleanup env) in
      do! put_repo (Repo_Add c) in
      do! ignore (saveSnapshot c) in
      stop_all cs'
  end.

Definition Backend_Stop : M (LinuxBackend * World) unit :=
  let! repo := gets be_repo in stop_all (Repo_All repo).

(** The error of the container's own [Restore] is dropped. *)
Definition backend_restore (snapshot : string) : M (LinuxBackend * World) LinuxContainer :=
  let! snap := lift (json_decode cfg snapshot) in
  let! containerSpec := with_pool (Pool_Restore env (be_cfg cfg) snap) in
  let container := NewLinuxContainer containerSpec in
  let! ' (_, container) := on_container container
    (Container_Restore env (pool_PATH (be_cfg cfg)) (container_node cfg) (cgroup_root cfg) (chains_of (be_cfg cfg))
       (filter_chain container) containerSpec) in
  do! put_repo (Repo_Add container) in
  ret container.

Definition restoreSnapshots : M (LinuxBackend * World) unit :=
  let! r := attempt (eff (call env (Sys "readdir" [snapshotsPath cfg]))) in
  let entries := match r with inl out => filter (fun e => e <> "") (split newline out) | inr _ => [] end in
  for_each (fun name =>
    let snapshot := path_join [snapshotsPath cfg; name] in
    ignore (let! data := eff (call env (ReadFile snapshot)) in backend_restore data)) entries.

Definition Backend_Start : M (LinuxBackend * World) unit :=
  do! (if decide (snapshotsPath cfg = "") then ret tt
       else
         let! r := attempt (eff (call_ env (Sys "stat" [snapshotsPath cfg]))) in
         do! (match r with
              | inl _ => do! restoreSnapshots in ignore (eff (call_ env (RemoveAll (snapshotsPath cfg))))
              | inr _ => ret tt
              end) in
         eff (call_ env (MkdirAll (snapshotsPath cfg)))) in
  let! repo := gets be_repo in
  with_pool (Pool_Prune env (be_cfg cfg) (list_to_set ((fun c => ID (c_spec c)) <$> Repo_All repo))).
End Backend.
