(* ===== verification/Isolation.v ===== *)
(** * Isolation of containers

    The invariant of the server: every container in the repository owns a network
    and ports that no other one has. [Create], [Destroy] and the methods of the
    containers in the repository keep it, on a host that may fail at any point. The
    lemma on [Create] does not assume that its checks still hold when it makes the
    container, so it covers clients that race for a handle. The ports are those that
    the containers have from the pool; a host port that a client names itself in
    [NetIn] is not checked by the code, and not spoken of here. [Overlap] has the runs
    of calls that overlap. *)
From S2P Require Import Prelude GoStrings GoNet IPv4 World ProcessEnv RLimits Sysconfig Subnets SubnetsProofs.
From S2P Require Import SubnetPool SubnetTheorems PortPool BridgeMgr IPTables IPTablesManager Bandwidth.
From S2P Require Import Cgroups Metrics ProcessTracker Container ResourcePool ResourcePoolTheorems Backend.

(** ** What a container owns *)

Definition net_of (c : LinuxContainer) : option Network := res_Network (spec_Resources (c_spec c)).
Definition ports_of (c : LinuxContainer) : list Z := Ports (spec_Resources (c_spec c)).

(** The subnet pool has the address of [n] allocated in its subnet. *)
Definition holds (p : pool) (n : Network) : Prop :=
  exists ips, allocated p !! IPNet_String (nw_Subnet n) = Some ips /\ nw_IP n ∈ ips.

Record owns (p : LinuxResourcePool) (c : LinuxContainer) : Prop := {
  own_net : exists n b q, net_of c = Some n /\ nw_Subnet n = net4 b q /\ canonical b q /\ holds (rp_subnets p) n;
  own_ports : forall x, x ∈ ports_of c -> x ∉ pp_pool (rp_ports p)
}.

Definition separate (c c' : LinuxContainer) : Prop :=
  (forall n n', net_of c = Some n -> net_of c' = Some n' -> IP_Equal (nw_IP n) (nw_IP n') = false) /\
  (forall x, x ∈ ports_of c -> x ∉ ports_of c').

Record be_inv (d r : Z) (b : LinuxBackend) : Prop := {
  bi_subnets : pool_inv d r (rp_subnets (be_pool b));
  bi_ports : pp_wf (rp_ports (be_pool b));
  bi_owns : forall h c, be_repo b !! h = Some c -> handle_of c = h /\ owns (be_pool b) c;
  bi_separate : forall h h' c c', be_repo b !! h = Some c -> be_repo b !! h' = Some c' -> h <> h' -> separate c c'
}.

(** ** The pools *)

(** A new network is different from all that are held, which stay held. *)
Lemma acquired_holds d r p n p' b q z zs : pool_inv d r p -> acquired d r p n p' b q z zs ->
  holds p' n /\ forall n', holds p n' -> holds p' n' /\ IP_Equal (nw_IP n) (nw_IP n') = false /\ IP_Equal (nw_IP n') (nw_IP n) = false.
Proof.
  intros Hinv Hacq. pose proof (acquired_inv _ _ _ _ _ _ _ _ _ Hinv Hacq) as Hinv'.
  destruct Hacq as [Hn _ _ _ _ _ _ _ _ Hp]. rewrite <- Hn in Hp. set (k := IPNet_String (nw_Subnet n)) in *.
  set (ips := default [] (allocated p !! k)) in *.
  assert (Hk : allocated p' !! k = Some (ips ++ [nw_IP n])) by (rewrite Hp; apply lookup_insert_eq).
  assert (Hlast : (ips ++ [nw_IP n]) !! length ips = Some (nw_IP n)) by (by apply list_lookup_middle).
  split; [exists (ips ++ [nw_IP n]); split; [done|set_solver]|].
  intros n' (ips' & Hk' & [i Hi]%list_elem_of_lookup).
  assert (H' : exists ips1, allocated p' !! IPNet_String (nw_Subnet n') = Some ips1 /\ ips1 !! i = Some (nw_IP n') /\
                 (IPNet_String (nw_Subnet n') = k -> (i < length ips)%nat)).
  { rewrite Hp. cbn. destruct (decide (IPNet_String (nw_Subnet n') = k)) as [Heq|Hne].
    - rewrite Heq in *. assert (ips = ips') as Hips by (unfold ips; by rewrite Hk').
      exists (ips ++ [nw_IP n]). rewrite lookup_insert_eq. apply lookup_lt_Some in Hi as Hlt. rewrite <- Hips in *.
      split_and!; [done|by rewrite lookup_app_l|done].
    - exists ips'. by rewrite lookup_insert_ne. }
  destruct H' as (ips1 & Hl & Hi1 & Hlt). split.
  - exists ips1. split; [done|]. by eapply list_elem_of_lookup_2.
  - split; apply not_true_iff_false; intros Heq.
    + destruct (pool_exclusive _ _ _ _ _ _ _ _ _ _ _ Hinv' Hk Hlast Hl Hi1 Heq) as [H1 H2]. specialize (Hlt (eq_sym H1)). lia.
    + destruct (pool_exclusive _ _ _ _ _ _ _ _ _ _ _ Hinv' Hl Hi1 Hk Hlast Heq) as [H1 H2]. specialize (Hlt H1). lia.
Qed.

(** A release takes nothing. *)
Lemma release_takes_nothing n p x p' n' : Subnets_Release n p = (x, p') -> holds p' n' -> holds p n'.
Proof.
  unfold Subnets_Release. destruct (indexOf _ _) as [i|] eqn:Hi; [|by intros [= _ <-]].
  destruct (removeIPAtIndex _ i) as [red empty] eqn:Hred. apply indexOf_Some in Hi as (v & Hv & _).
  pose proof (removeIPAtIndex_perm _ _ _ Hv) as Hperm. rewrite Hred in Hperm. cbn [fst] in Hperm.
  destruct empty; intros [= _ <-] (ips & Hk & Hin); cbn in Hk.
  - apply lookup_delete_Some in Hk as [_ Hk]. by exists ips.
  - apply lookup_insert_Some in Hk as [[Hs <-]|[_ Hk]]; [|by exists ips].
    destruct (allocated p !! IPNet_String (nw_Subnet n)) as [ips|] eqn:Hp; [|cbn in Hv; by rewrite lookup_nil in Hv].
    exists ips. rewrite <- Hs. split; [done|]. cbn in Hperm. rewrite Hperm. by right.
Qed.

(** Releasing a network leaves the others held. *)
Lemma release_holds n p x p' n' : Subnets_Release n p = (x, p') ->
  IP_Equal (nw_IP n') (nw_IP n) = false -> holds p n' -> holds p' n'.
Proof.
  intros Hrel Hne (ips & Hk & Hin). revert Hrel. unfold Subnets_Release.
  destruct (indexOf _ _) as [i|] eqn:Hi; [|intros [= _ <-]; by exists ips].
  destruct (removeIPAtIndex _ i) as [red empty] eqn:Hred. apply indexOf_Some in Hi as (v & Hv & Hvn).
  pose proof (removeIPAtIndex_perm _ _ _ Hv) as Hperm. rewrite Hred in Hperm. cbn [fst] in Hperm.
  assert (empty = bool_decide (length (default [] (allocated p !! IPNet_String (nw_Subnet n))) = 1%nat)) as -> by (by injection Hred).
  destruct (decide (IPNet_String (nw_Subnet n') = IPNet_String (nw_Subnet n))) as [Heq|Hneq].
  - rewrite <- Heq, Hk in *. cbn [default from_option id] in *.
    assert (Hin' : nw_IP n' ∈ red).
    { rewrite Hperm in Hin. apply elem_of_cons in Hin as [Hv'|]; [|done]. rewrite Hv' in Hne. congruence. }
    case_bool_decide as Hlen; intros [= _ <-].
    + apply Permutation_length in Hperm. rewrite Hlen in Hperm. destruct red; [set_solver|done].
    + exists red. cbn. by rewrite Heq, lookup_insert_eq.
  - case_bool_decide; intros [= _ <-]; exists ips; cbn; split; try done.
    + by rewrite lookup_delete_ne.
    + by rewrite lookup_insert_ne.
Qed.

Lemma release_ports_free l : forall pp pp', pp_wf pp -> for_each PortPool_Release l pp = (Ok tt, pp') ->
  pp_wf pp' /\ forall x, x ∈ pp_pool pp' -> x ∈ pp_pool pp \/ x ∈ l.
Proof.
  induction l as [|y l IH]; intros pp pp' Hwf; [by intros [= <-]; auto|].
  cbn [for_each]. intros ([] & pp1 & H1 & H2)%bind_Ok.
  destruct (Release_refines _ _ _ _ Hwf H1) as (Hwf1 & _ & _ & Hf).
  destruct (IH _ _ Hwf1 H2) as [Hwf' Hin]. split; [done|]. intros x [Hx|Hx]%Hin; [|set_solver].
  rewrite <- elem_of_free, Hf in Hx. rewrite <- elem_of_free. case_decide; set_solver.
Qed.

Lemma release_ports_range l : forall pp pp', pp_wf pp -> for_each PortPool_Release l pp = (Ok tt, pp') -> range pp' = range pp.
Proof.
  induction l as [|y l IH]; intros pp pp' Hwf; [by intros [= <-]|]. cbn [for_each]. intros ([] & pp1 & H1 & H2)%bind_Ok.
  destruct (Release_refines _ _ _ _ Hwf H1) as (Hwf1 & HR & _). by rewrite (IH _ _ Hwf1 H2).
Qed.

Lemma acquire_port_free pp port pp' : pp_wf pp -> PortPool_Acquire pp = (Ok port, pp') ->
  pp_wf pp' /\ port ∈ pp_pool pp /\ forall x, x ∈ pp_pool pp' <-> x ∈ pp_pool pp /\ x <> port.
Proof.
  intros Hwf H. destruct (Acquire_refines _ _ _ Hwf H) as (Hwf' & _ & Hin & Hf).
  rewrite <- elem_of_free. split_and!; [done|done|]. intros x. rewrite <- !elem_of_free, Hf. set_solver.
Qed.

(** ** The methods of a container *)

(** The methods that change a container, and the goroutine of its notifier. *)
Inductive client_op :=
| OpNetIn (hostPort containerPort : Z)
| OpNetOut (rule : NetOutRule)
| OpStop (kill : bool)
| OpLimitMemory (limits : MemoryLimits)
| OpLimitCPU (limits : CPULimits)
| OpLimitDisk (limits : DiskLimits)
| OpLimitBandwidth (limits : BandwidthLimits)
| OpSetProperty (key value : string)
| OpRemoveProperty (key : string)
| OpSetGraceTime (graceTime : Z)
| OpRun (spec : ProcessSpec)
| OpAttach (processID : string)
| OpOutOfMemory (err : option error).

Section Ops.
Context (env : Env) (cfg : BackendConfig).
Local Open Scope go_scope.

Definition run_op (o : client_op) : M (CS * World) unit :=
  let node := container_node cfg in let root := cgroup_root cfg in let path := pool_PATH (be_cfg cfg) in
  match o with
  | OpNetIn hostPort containerPort => let! _ := NetIn env path hostPort containerPort in ret tt
  | OpNetOut rule => let! c := getc in NetOut env (filter_of (be_cfg cfg) (ID (c_spec c))) rule
  | OpStop kill => Stop env kill
  | OpLimitMemory limits => LimitMemory env node root limits
  | OpLimitCPU limits => LimitCPU env node root limits
  | OpLimitDisk limits => LimitDisk env limits
  | OpLimitBandwidth limits => LimitBandwidth env limits
  | OpSetProperty key value => modc (SetProperty key value)
  | OpRemoveProperty key => let! c := getc in let '(r, c) := RemoveProperty key c in do! modc (fun _ => c) in lift r
  | OpSetGraceTime graceTime => modc (SetGraceTime graceTime)
  | OpRun spec => let! _ := Container_Run env spec in ret tt
  | OpAttach processID => let! _ := Container_Attach processID in ret tt
  | OpOutOfMemory err => oom_fired env err
  end.

(** The part of the state that only [NetIn] changes, and that of it which it changes
    only when it takes a port. *)
Definition ground (s : CS * World) : Resources * string * PortPool * string :=
  (spec_Resources (c_spec s.1.1), handle_of s.1.1, s.1.2, ID (c_spec s.1.1)).
Definition footing (s : CS * World) : Resources * string * PortPool * string * list NetInSpec :=
  (ground s, NetIns (c_spec s.1.1)).

Lemma keeps_ground {A} (m : M (CS * World) A) : keeps footing m -> keeps ground m.
Proof. intros Hm s x s' H. apply Hm in H. change (fst (footing s') = fst (footing s)). by rewrite H. Qed.

Lemma Watch_footing node root : keeps footing (Watch env node root).
Proof. unfold Watch, getc, modc, eff. keeps_tac. Qed.

Lemma Cleanup_footing : keeps footing (Cleanup env).
Proof. unfold Cleanup, Unwatch, getc, eff. keeps_tac. Qed.

Lemma Stop_footing kill : keeps footing (Stop env kill).
Proof. unfold Stop, getc, eff, setState, modc. repeat first [apply Cleanup_footing | progress keeps_tac]. Qed.

Lemma LimitMemory_footing node root m : keeps footing (LimitMemory env node root m).
Proof.
  unfold LimitMemory, cg_set, getc, eff, put_limits, modc. repeat first [apply Watch_footing | progress keeps_tac].
Qed.

Lemma LimitCPU_footing node root m : keeps footing (LimitCPU env node root m).
Proof. unfold LimitCPU, cg_set, getc, eff, put_limits, modc. keeps_tac. Qed.

Lemma LimitDisk_footing m : keeps footing (LimitDisk env m).
Proof. unfold LimitDisk, getc, eff, put_limits, modc. keeps_tac. Qed.

Lemma LimitBandwidth_footing m : keeps footing (LimitBandwidth env m).
Proof. unfold LimitBandwidth, getc, eff, put_limits, modc. keeps_tac. Qed.

Lemma Start_footing path chains : keeps footing (Container_Start env path chains).
Proof. unfold Container_Start, container_setup, getc, eff, setState, modc. keeps_tac. Qed.

Lemma Run_footing spec : keeps footing (Container_Run env spec).
Proof. unfold Container_Run, getc, eff, modc. keeps_tac. Qed.

(** What a method of a container does to the ports: it takes at most one from the
    pool, which the container then has; a mapping that it records is from a port that
    was asked for or from the one that was taken. *)
Definition takes_port (s s' : CS * World) : Prop :=
  ground s' = ground s \/
  exists port, PortPool_Acquire s.1.2 = (Ok port, s'.1.2) /\ handle_of s'.1.1 = handle_of s.1.1 /\ ID (c_spec s'.1.1) = ID (c_spec s.1.1) /\
    spec_Resources (c_spec s'.1.1) = AddPort port (spec_Resources (c_spec s.1.1)).

Definition maps_port (s s' : CS * World) : Prop :=
  NetIns (c_spec s'.1.1) = NetIns (c_spec s.1.1) \/
  exists port cp, NetIns (c_spec s'.1.1) = NetIns (c_spec s.1.1) ++ [mkNetIn port cp] /\ (port <> 0 \/ fst (PortPool_Acquire s.1.2) = Ok port).

Lemma NetIn_footing path hp cp s r s' : NetIn env path hp cp s = (r, s') -> takes_port s s' /\ maps_port s s'.
Proof.
  destruct s as [[c pp] w]. unfold NetIn, takes_port, maps_port. cbn [fst snd]. match goal with |- bind _ ?k _ = _ -> _ => set (rest := k) end.
  assert (Hrest : forall port c1 pp1 w1 r1 s1, rest port ((c1, pp1), w1) = (r1, s1) -> s1.1 = (c1, pp1) \/
    exists cp', s1.1 = (with_spec (add_netin (mkNetIn port cp')) c1, pp1)).
  { intros port c1 pp1 w1 r1 s1. unfold rest, getc. rewrite bind_eq. unfold gets. cbn [fst]. rewrite bind_eq, eff_eq, call__eq.
    destruct (env w1 _); intros [= <- <-]; eauto. }
  clearbody rest. rewrite bind_eq. destruct (Z.eqb_spec hp 0) as [_|Hhp].
  2: { intros H%Hrest. destruct s' as [[c' pp'] w']. destruct H as [[= -> ->]|[cp' [= -> ->]]]; (split; [by left|]); [by left|right; eauto]. }
  rewrite bind_eq. unfold with_ports, zoom. cbn [fst snd]. destruct (PortPool_Acquire pp) as [[port|e|m] pp'] eqn:E.
  - rewrite bind_eq. unfold modc, update. cbn [fst snd]. unfold ret at 1. intros H%Hrest. destruct s' as [[c' pp1] w'].
    destruct H as [[= -> ->]|[cp' [= -> ->]]]; (split; [right; by exists port|]); [by left|right; eauto].
  - intros [= <- <-]. unfold PortPool_Acquire in E. destruct (pp_pool pp); simplify_eq/=. by split; left.
  - unfold PortPool_Acquire in E. by destruct (pp_pool pp).
Qed.

Lemma run_op_footing o s r s' : run_op o s = (r, s') -> takes_port s s' /\ maps_port s s'.
Proof.
  destruct o; cbn [run_op].
  { rewrite bind_eq. destruct (NetIn _ _ _ _ s) as [[?|?|?] s1] eqn:E; apply NetIn_footing in E; by intros [= <- <-]. }
  all: intros H; assert (Hf : footing s' = footing s); [|split; left; [by apply (f_equal fst) in Hf|by apply (f_equal snd) in Hf]].
  all: revert s r s' H; match goal with |- forall s r s', ?m s = _ -> _ => change (keeps footing m) end.
  - unfold NetOut, getc, eff, modc. keeps_tac.
  - apply Stop_footing.
  - apply LimitMemory_footing.
  - apply LimitCPU_footing.
  - apply LimitDisk_footing.
  - apply LimitBandwidth_footing.
  - unfold modc. keeps_tac.
  - intros [[c pp] w] r s'. unfold getc, RemoveProperty. rewrite bind_eq. unfold gets. cbn [fst].
    destruct (props c !! key); by intros [= <- <-].
  - unfold modc. keeps_tac.
  - repeat first [apply Run_footing | progress keeps_tac].
  - unfold Container_Attach, getc, modc. keeps_tac.
  - unfold oom_fired. apply keeps_bind; [unfold modc; keeps_tac|intros _]. destruct err; [apply keeps_ret|].
    apply keeps_bind; [unfold registerEvent, modc; keeps_tac|intros _]. apply keeps_ignore, Stop_footing.
Qed.
End Ops.

(** ** The calls of the backend *)

Section Steps.
Context (cfg : BackendConfig) (d r : Z).

(** A call that returns. *)
Definition returns {A} (x : result A) : Prop := match x with Panic _ => False | _ => True end.

Lemma on_container_eq {A} c (m : M (CS * World) A) b w :
  on_container c m (b, w) =
    let p := be_pool b in
    let put ports := mkBackend (mkRP (rp_subnets p) ports (rp_bridges p) (rp_nextID p)) (be_repo b) in
    match m ((c, rp_ports p), w) with
    | (Ok a, ((c', ports), w)) => (Ok (inl a, c'), (put ports, w))
    | (Err e, ((c', ports), w)) => (Ok (inr e, c'), (put ports, w))
    | (Panic m, ((c', ports), w)) => (Panic m, (put ports, w))
    end.
Proof. done. Qed.

(** The containers agree on their footing. *)
Definition alike (c c' : LinuxContainer) : Prop :=
  spec_Resources (c_spec c') = spec_Resources (c_spec c) /\ handle_of c' = handle_of c /\ ID (c_spec c') = ID (c_spec c) /\
  NetIns (c_spec c') = NetIns (c_spec c).

(** An operation that does not touch the container's footing. *)
Lemma on_container_footing {A} (m : M (CS * World) A) c b w x s' : keeps footing m ->
  on_container c m (b, w) = (x, s') ->
  be_repo s'.1 = be_repo b /\ be_pool s'.1 = be_pool b /\ (forall e, x <> Err e) /\
  forall y c', x = Ok (y, c') -> alike c c'.
Proof.
  intros Hk. rewrite on_container_eq. cbn zeta. destruct b as [[sn pp br id] repo]. cbn.
  destruct (m _) as [[a|e|p] [[c' pp'] w']] eqn:E; apply Hk in E; unfold footing, ground in E; cbn in E;
    injection E as H1 H2 H3 H4 H5; intros [= <- <-]; cbn; rewrite H3; split_and!; try done; by intros ? ? [= _ <-].
Qed.

Lemma with_pool_eq {A} (m : M (LinuxResourcePool * World) A) b w :
  with_pool m (b, w) = match m (be_pool b, w) with (x, (p, w')) => (x, (mkBackend p (be_repo b), w')) end.
Proof. unfold with_pool, zoom. cbn. by destruct (m _) as [x [p w']]. Qed.

(** What a container owns depends only on its resources. *)
Lemma owns_same p c c' : spec_Resources (c_spec c') = spec_Resources (c_spec c) -> owns p c -> owns p c'.
Proof. intros Hr [Hn Hp]. split; unfold net_of, ports_of in *; by rewrite Hr. Qed.

Lemma separate_same c1 c1' c2 c2' : spec_Resources (c_spec c1') = spec_Resources (c_spec c1) ->
  spec_Resources (c_spec c2') = spec_Resources (c_spec c2) -> separate c1 c2 -> separate c1' c2'.
Proof. intros H1 H2. unfold separate, net_of, ports_of. by rewrite H1, H2. Qed.

(** *** Limits *)

(** The object and the pools an operation on a container leaves. *)
Definition undisturbed {A} (m : M (LinuxBackend * World) (A * LinuxContainer)) (c : LinuxContainer) : Prop :=
  forall b w x s', m (b, w) = (x, s') ->
    be_repo s'.1 = be_repo b /\ be_pool s'.1 = be_pool b /\ (forall e, x <> Err e) /\
    forall y c', x = Ok (y, c') -> alike c c'.

Lemma undisturbed_ret {A} (y : A) c : undisturbed (ret (y, c)) c.
Proof. intros b w x s' [= <- <-]. split_and!; try done; by intros ? ? [= _ <-]. Qed.

Lemma undisturbed_limit {A} `{EqDecision A} (v zero : A) c m : keeps footing m -> undisturbed (limit_if v zero c m) c.
Proof.
  intros Hk b w x s'. unfold limit_if. case_decide; [apply undisturbed_ret|]. by apply on_container_footing.
Qed.

Lemma undisturbed_bind {A B} (m : M (LinuxBackend * World) (A * LinuxContainer))
    (k : A * LinuxContainer -> M (LinuxBackend * World) (B * LinuxContainer)) c :
  undisturbed m c -> (forall y c', undisturbed (k (y, c')) c') -> undisturbed (bind m k) c.
Proof.
  intros Hm Hk b w x s'. rewrite bind_eq. destruct (m (b, w)) as [[[y c1]|e|p] [b1 w1]] eqn:E;
    destruct (Hm _ _ _ _ E) as (H1 & H2 & H0 & H3); cbn in H1, H2.
  - intros H. destruct (Hk _ _ _ _ _ _ H) as (K1 & K2 & K0 & K3). specialize (H3 _ _ eq_refl).
    split_and!; [congruence|congruence|done|]. intros z c' Hx. specialize (K3 _ _ Hx). unfold alike in *. naive_solver congruence.
  - by destruct (H0 e).
  - intros [= <- <-]. by split_and!.
Qed.

Lemma ApplyLimits_undisturbed env c limits : undisturbed (ApplyLimits env cfg c limits) c.
Proof.
  destruct limits as [[[memory disk] bandwidth] cpu]. unfold ApplyLimits.
  repeat first
    [ apply undisturbed_ret
    | apply undisturbed_limit; first [apply LimitCPU_footing|apply LimitDisk_footing|apply LimitBandwidth_footing|apply LimitMemory_footing]
    | apply undisturbed_bind; [|intros [[]|?] ?] ].
Qed.

(** *** The invariant *)

(** A container that is not in the repository and shares nothing with those that are. *)
Definition detached (repo : Repository) (c : LinuxContainer) : Prop :=
  forall h c', repo !! h = Some c' -> separate c c' /\ separate c' c.

Lemma be_inv_pools p p' repo : rp_subnets p' = rp_subnets p -> rp_ports p' = rp_ports p ->
  be_inv d r (mkBackend p repo) -> be_inv d r (mkBackend p' repo).
Proof.
  intros Hs Hp [H1 H2 H3 H4]. split; cbn in *; [by rewrite Hs|by rewrite Hp| |done].
  intros h c Hc. destruct (H3 h c Hc) as [Hh [Hn Ho]]. split; [done|]. split; [by rewrite Hs|by rewrite Hp].
Qed.

Lemma acquire_inv env spec p repo w c p' w' :
  be_inv d r (mkBackend p repo) -> lawful_request d r spec ->
  Pool_Acquire env (be_cfg cfg) spec (p, w) = (Ok c, (p', w')) ->
  be_inv d r (mkBackend p' repo) /\ owns p' (NewLinuxContainer c) /\ detached repo (NewLinuxContainer c).
Proof.
  intros [H1 H2 H3 H4] Hlaw Ha. cbn in *.
  apply (Pool_Acquire_spec _ _ _ d r (p, w)) in Ha; [|done|done].
  destruct Ha as [_ _ Hpp (n & b & q & z & zs & uid & br & Hacq & Hc) _]. cbn [fst] in *.
  destruct (acquired_holds _ _ _ _ _ _ _ _ _ H1 Hacq) as [Hn Hothers].
  split_and!.
  - split; cbn; [by eapply acquired_inv|by rewrite Hpp| |done].
    intros h c' Hh. destruct (H3 h c' Hh) as [Heq [(n' & b' & q' & ? & ? & ? & Hh') Ho]]. split; [done|].
    split; [exists n', b', q'; split_and!; [done..|apply Hothers, Hh']|by rewrite Hpp].
  - split; [|unfold ports_of; cbn; rewrite Hc; set_solver].
    exists n, b, q. unfold net_of. cbn. rewrite Hc. split_and!; [done|apply Hacq|apply Hacq|done].
  - intros h c' Hh. destruct (H3 h c' Hh) as [_ [(n' & b' & q' & Hn' & _ & _ & Hh') _]].
    unfold separate, ports_of. unfold net_of at 1 4. cbn. rewrite Hc. cbn. rewrite Hn'.
    destruct (Hothers _ Hh') as (_ & Hne & Hne'). split; (split; [by intros ? ? [= <-] [= <-]|set_solver]).
Qed.

Lemma release_inv env c p repo w x p' w' :
  be_inv d r (mkBackend p repo) -> owns p c -> detached repo c -> returns x ->
  Pool_Release env (be_cfg cfg) (c_spec c) (p, w) = (x, (p', w')) -> be_inv d r (mkBackend p' repo).
Proof.
  intros Hinv [(n & b & q & Hn & _) _] Hdet Hret Hrel%Pool_Release_spec.
  destruct x as [[]|e|m]; [| |done]; cbn in Hrel.
  2: { unfold pools in Hrel. injection Hrel as H1 H2. by apply (be_inv_pools p). }
  unfold net_of in Hn. rewrite Hn in Hrel. destruct Hrel as [Hports [y Hnet]], Hinv as [H1 H2 H3 H4]. cbn in *.
  destruct (release_ports_free _ _ _ H2 Hports) as [Hwf Hfree].
  split; cbn; [by eapply Release_inv|done| |done].
  intros h c' Hh. destruct (H3 h c' Hh) as [Heq [(n' & b' & q' & Hn' & ? & ? & Hh') Ho]]. destruct (Hdet _ _ Hh) as [[_ Hs1] [Hs2 _]].
  split; [done|]. split.
  - exists n', b', q'. split_and!; try done. eapply release_holds; [done|by apply Hs2|done].
  - intros y' Hy [Hin|Hin]%Hfree; [by apply (Ho y')|by apply (Hs1 y')].
Qed.

Lemma add_inv c p repo : be_inv d r (mkBackend p repo) -> owns p c -> detached repo c ->
  be_inv d r (mkBackend p (Repo_Add c repo)).
Proof.
  intros [H1 H2 H3 H4] Hown Hdet. unfold Repo_Add. split; cbn in *; [done|done|..].
  - intros h c' [[<- <-]|[_ Hc]]%lookup_insert_Some; [done|by apply H3].
  - intros h h' c1 c2 [[<- <-]|[_ Hc]]%lookup_insert_Some [[<- <-]|[_ Hc']]%lookup_insert_Some Hne; [done| | |eauto].
    + by apply (Hdet _ _ Hc').
    + by apply (Hdet _ _ Hc).
Qed.

Lemma delete_inv_repo h c p repo : be_inv d r (mkBackend p repo) -> repo !! h = Some c ->
  be_inv d r (mkBackend p (Repo_Delete c repo)) /\ owns p c /\ detached (Repo_Delete c repo) c.
Proof.
  intros [H1 H2 H3 H4] Hc. destruct (H3 _ _ Hc) as [Hh Hown]. cbn in *. unfold Repo_Delete. rewrite Hh. split_and!; [|done|].
  - split; cbn; [done|done|..].
    + intros h' c' [_ Hc']%lookup_delete_Some. by apply H3.
    + intros h1 h2 c1 c2 [_ Hc1]%lookup_delete_Some [_ Hc2]%lookup_delete_Some. by apply H4.
  - intros h' c' [Hne Hc']%lookup_delete_Some. split; by eapply H4.
Qed.

(** A container built by a failed [Create] gives its network back. *)
Lemma give_up_inv env c e p repo w x b' w' :
  be_inv d r (mkBackend p repo) -> owns p (NewLinuxContainer c) -> detached repo (NewLinuxContainer c) -> returns x ->
  bind (ignore (with_pool (Pool_Release env (be_cfg cfg) c))) (fun _ => fail (A := LinuxContainer) e) (mkBackend p repo, w) =
    (x, (b', w')) -> be_inv d r b'.
Proof.
  intros Hinv Hown Hdet Hret. rewrite bind_eq, ignore_eq, with_pool_eq. cbn [be_pool be_repo].
  destruct (Pool_Release env (be_cfg cfg) c (p, w)) as [y [p1 w1]] eqn:E.
  destruct y as [?|?|?]; intros [= <- <- <-]; [| |done];
    eapply (release_inv env (NewLinuxContainer c)); try done; exact E || done.
Qed.

Lemma create_inv env spec x b w b' w' : be_inv d r b -> lawful_request d r spec ->
  create_make env cfg spec (b, w) = (x, (b', w')) -> returns x -> be_inv d r b'.
Proof.
  intros Hinv Hlaw. destruct b as [p repo]. unfold create_make. rewrite bind_eq, with_pool_eq. cbn [be_pool be_repo].
  destruct (Pool_Acquire env (be_cfg cfg) spec (p, w)) as [[c|e|m] [p1 w1]] eqn:Ea; [| |by intros [= <- <- <-]].
  2: { intros [= <- <- <-] _. apply (Pool_Acquire_spec _ _ _ d r (p, w)) in Ea; [|apply Hinv|done].
       unfold pools in Ea. injection Ea as H1 H2. by apply (be_inv_pools p). }
  destruct (acquire_inv _ _ _ _ _ _ _ _ Hinv Hlaw Ea) as (Hinv1 & Hown & Hdet). rewrite bind_eq.
  destruct (on_container (NewLinuxContainer c) _ _) as [[[y c1]|e|m] [[p2 repo2] w2]] eqn:Es;
    destruct (on_container_footing _ _ _ _ _ _ (Start_footing _ _ _) Es) as (Hr & Hp & _ & Hc); cbn in Hr, Hp; subst repo2 p2;
    [|by intros [= <- <- <-]..].
  destruct (Hc _ _ eq_refl) as (Hres1 & Hh1 & _).
  destruct y as [?|e]; [|intros H Hret; by eapply give_up_inv].
  rewrite bind_eq. destruct (ApplyLimits env cfg c1 _ _) as [[[y c2]|e|m] [[p2 repo2] w3]] eqn:El;
    destruct (ApplyLimits_undisturbed _ _ _ _ _ _ _ El) as (Hr & Hp & _ & Hc2); cbn in Hr, Hp; subst repo2 p2;
    [|by intros [= <- <- <-]..].
  destruct (Hc2 _ _ eq_refl) as (Hres2 & Hh2 & _).
  destruct y as [?|e]; [|intros H Hret; by eapply give_up_inv].
  rewrite bind_eq. unfold put_repo, update. cbn. intros [= _ <- _] _.
  assert (Hres : spec_Resources (c_spec c2) = spec_Resources (c_spec (NewLinuxContainer c))) by congruence.
  apply add_inv; [done|by eapply owns_same|]. intros h c' Hc'. destruct (Hdet h c' Hc').
  split; by eapply separate_same.
Qed.

Lemma destroy_inv env handle x b w b' w' : be_inv d r b ->
  Backend_Destroy env cfg handle (b, w) = (x, (b', w')) -> returns x -> be_inv d r b'.
Proof.
  intros Hinv. destruct b as [p repo]. unfold Backend_Destroy, destroy_container, Repo_FindByHandle.
  rewrite bind_eq. unfold gets at 1. cbn [fst be_repo]. rewrite bind_eq. unfold lift.
  destruct (repo !! handle) as [c|] eqn:Hc; [|by intros [= <- <- <-]].
  destruct (delete_inv_repo _ _ _ _ Hinv Hc) as (Hinv1 & Hown & Hdet).
  rewrite bind_eq. unfold put_repo, update. cbn [fst snd be_pool be_repo]. rewrite bind_eq.
  destruct (on_container c _ _) as [[[y c1]|e|m] [[p2 repo2] w2]] eqn:Es;
    destruct (on_container_footing _ _ _ _ _ _ (Cleanup_footing _) Es) as (Hr & Hp & _ & Hc1); cbn in Hr, Hp; subst repo2 p2;
    [|by intros [= <- <- <-]..].
  destruct (Hc1 _ _ eq_refl) as [Hres _]. destruct y as [?|e]; [|by intros [= <- <- <-]].
  rewrite with_pool_eq. cbn [be_pool be_repo].
  destruct (Pool_Release env (be_cfg cfg) _ _) as [y [p1 w1]] eqn:E. intros [= <- <- <-] Hret.
  eapply release_inv; [exact Hinv1|by eapply owns_same| |exact Hret|exact E].
  intros h c' Hc'. destruct (Hdet h c' Hc'). split; by eapply separate_same.
Qed.

(** A method that keeps the network and only takes ports that are free. *)
Lemma replace_inv h c c' p p' repo :
  be_inv d r (mkBackend p repo) -> repo !! h = Some c -> handle_of c' = handle_of c ->
  rp_subnets p' = rp_subnets p -> pp_wf (rp_ports p') -> net_of c' = net_of c ->
  (forall x, x ∈ pp_pool (rp_ports p') -> x ∈ pp_pool (rp_ports p) /\ x ∉ ports_of c') ->
  (forall x, x ∈ ports_of c' -> x ∈ ports_of c \/ x ∈ pp_pool (rp_ports p)) ->
  be_inv d r (mkBackend p' (<[h := c']> repo)).
Proof.
  intros [H1 H2 H3 H4] Hc Hh Hs Hwf Hn Hfree Hnew. cbn in *. destruct (H3 _ _ Hc) as [Hhc [Hnet Hports]].
  assert (Hsep : forall h' c2, repo !! h' = Some c2 -> h <> h' -> separate c' c2 /\ separate c2 c').
  { intros h' c2 Hc2 Hne. destruct (H4 _ _ _ _ Hc Hc2 Hne) as [S1 S2].
    destruct (H4 _ _ _ _ Hc2 Hc (not_eq_sym Hne)) as [S3 S4]. destruct (H3 _ _ Hc2) as [_ [_ Hp2]].
    unfold separate. rewrite Hn. split; (split; [done|]); intros x Hx.
    - destruct (Hnew x Hx) as [?|?]; [by apply S2|]. intros Hx2. by apply (Hp2 x).
    - intros Hx'. destruct (Hnew x Hx') as [?|?]; [by apply (S4 x)|by apply (Hp2 x)]. }
  split; cbn; [by rewrite Hs|done|..].
  - intros h' c2 [[<- <-]|[Hne Hc2]]%lookup_insert_Some.
    + split; [congruence|]. split; [by rewrite Hn, Hs|]. intros x Hx Hin. by destruct (Hfree x Hin).
    + destruct (H3 _ _ Hc2) as [? [? Hp2]]. split; [done|]. split; [by rewrite Hs|].
      intros x Hx [Hin _]%Hfree. by apply (Hp2 x).
  - intros h1 h2 c1 c2 [[<- <-]|[? Hc1]]%lookup_insert_Some [[<- <-]|[? Hc2]]%lookup_insert_Some Hne; [done| | |eauto].
    + by apply (Hsep _ _ Hc2).
    + apply (Hsep _ _ Hc1). done.
Qed.

Lemma method_inv env handle o x b w b' w' : be_inv d r b ->
  on_handle handle (run_op env cfg o) (b, w) = (x, (b', w')) -> returns x -> be_inv d r b'.
Proof.
  intros Hinv. destruct b as [p repo]. unfold on_handle, Repo_FindByHandle.
  rewrite bind_eq. unfold gets at 1. cbn [fst be_repo]. rewrite bind_eq. unfold lift.
  destruct (repo !! handle) as [c|] eqn:Hc; [|by intros [= <- <- <-]].
  rewrite bind_eq, on_container_eq. cbn zeta. cbn [be_pool be_repo].
  destruct (run_op env cfg o _) as [[a|e|m] [[c' pp] w1]] eqn:E; [| |by intros [= <- <- <-]].
  all: assert (Hb : b' = mkBackend (mkRP (rp_subnets p) pp (rp_bridges p) (rp_nextID p)) (<[handle := c']> repo) ->
         be_inv d r b');
    [intros ->|rewrite bind_eq; unfold put_repo, update; cbn; intros [= _ <- _] _; by apply Hb].
  all: pose proof (bi_ports _ _ _ Hinv) as Hwf; destruct (bi_owns _ _ _ Hinv _ _ Hc) as [_ [_ Hown]]; cbn in Hwf, Hown;
    apply run_op_footing in E as [[E|(port & Ha & Hh & _ & Hr)] _]; cbn in *;
    [unfold ground in E; cbn in E; injection E as Hr Hh ->|].
  1,3: apply (replace_inv handle c _ p); try done; unfold net_of, ports_of; cbn; rewrite Hr; try done; [|by left];
    intros y Hy; split; [done|]; intros Hp; by apply (Hown y).
  all: destruct (acquire_port_free _ _ _ Hwf Ha) as (Hwf' & Hin & Hiff);
    apply (replace_inv handle c _ p); try done; unfold net_of, ports_of; cbn; rewrite Hr; cbn; try done.
  1,3: intros y [Hy Hne]%Hiff; split; [done|]; rewrite not_elem_of_app, list_elem_of_singleton; (split; [|done]);
    intros Hp; by apply (Hown y).
  all: intros y [?| ->%list_elem_of_singleton]%elem_of_app; auto.
Qed.
End Steps.

(** A server that has just started: no container, a fresh subnet pool. *)
Definition fresh_backend (d r : Z) (ports : PortPool) (bridges : mgr) (id : Z) : LinuxBackend :=
  mkBackend (mkRP (NewSubnets (net4 d r)) ports bridges id) ∅.

Lemma fresh_inv d r ports bridges id : canonical d r -> r <= 30 -> pp_wf ports ->
  be_inv d r (fresh_backend d r ports bridges id).
Proof. intros Hc Hr Hp. split; cbn; [by apply NewSubnets_inv|done|..]; intros *; by rewrite lookup_empty. Qed.
