(* ===== verification/Overlap.v ===== *)
(** * Calls that overlap

    The clients of the backend call it at the same time (linux_backend/linux_backend.go).
    A call of [Create] or [Destroy] is a sequence of calls of its collaborators, the
    resource pool, the container and the repository; the steps of [ov_step] are these,
    each on a host that may fail, and the steps of different calls interleave in any
    order. One step is more than one call: [Destroy] finds its container and removes it
    from the repository. Between the two another [Destroy] of the same handle could find
    the container too, and both would release it; [double_destroy_frees_network] shows
    what comes of that, so the runs are those in which it does not happen. A call of
    [Acquire] or [Release] of the resource pool, and of a method of a container, is one
    step.

    What an invariant of the server has to look at is the pools and the list of the
    containers that hold something, be they in the repository or on the way into it or
    out of it. Each step is a [move] of these. *)
From S2P Require Import Prelude GoStrings GoNet IPv4 World ProcessEnv RLimits Sysconfig Subnets SubnetsProofs.
From S2P Require Import SubnetPool SubnetTheorems PortPool BridgeMgr IPTables IPTablesManager Bandwidth.
From S2P Require Import Cgroups Metrics ProcessTracker Container ResourcePool ResourcePoolTheorems Backend Isolation.

(** ** Calls on their way *)

(** What a call of [Create] or [Destroy] has still to do. *)
Inductive Pending :=
| ToStart (containerSpec : LinuxContainerSpec) (limits : MemoryLimits * DiskLimits * BandwidthLimits * CPULimits)
| ToLimit (containerSpec : LinuxContainerSpec) (limits : MemoryLimits * DiskLimits * BandwidthLimits * CPULimits) (c : LinuxContainer)
| ToAdd (c : LinuxContainer)
| ToGiveUp (containerSpec : LinuxContainerSpec) (err : error)
| ToDestroy (cleaned : bool) (c : LinuxContainer).

(** The container of a call. *)
Definition pending_container (pd : Pending) : LinuxContainer :=
  match pd with
  | ToStart containerSpec _ | ToLimit containerSpec _ _ | ToGiveUp containerSpec _ => NewLinuxContainer containerSpec
  | ToAdd c | ToDestroy _ c => c
  end.

Record System := mkSystem { sy_backend : LinuxBackend; sy_calls : list Pending }.

Section Steps.
Context (cfg : BackendConfig).

Inductive ov_step : System -> System -> Prop :=
| ov_acquire env spec x b w p' w' l : ipv4_request spec ->
    Pool_Acquire env (be_cfg cfg) spec (be_pool b, w) = (x, (p', w')) -> returns x ->
    ov_step (mkSystem b l)
      (mkSystem (mkBackend p' (be_repo b)) (match x with Ok containerSpec => ToStart containerSpec (spec_Limits spec) :: l | _ => l end))
| ov_start env containerSpec limits x c b w b' w' l1 l2 :
    on_container (NewLinuxContainer containerSpec) (Container_Start env (pool_PATH (be_cfg cfg)) (chains_of (be_cfg cfg))) (b, w) =
      (Ok (x, c), (b', w')) ->
    ov_step (mkSystem b (l1 ++ ToStart containerSpec limits :: l2))
      (mkSystem b' (l1 ++ match x with inl _ => ToLimit containerSpec limits c | inr err => ToGiveUp containerSpec err end :: l2))
| ov_limit env containerSpec limits x c c' b w b' w' l1 l2 :
    ApplyLimits env cfg c limits (b, w) = (Ok (x, c'), (b', w')) ->
    ov_step (mkSystem b (l1 ++ ToLimit containerSpec limits c :: l2))
      (mkSystem b' (l1 ++ match x with inl _ => ToAdd c' | inr err => ToGiveUp containerSpec err end :: l2))
| ov_add c b l1 l2 :
    ov_step (mkSystem b (l1 ++ ToAdd c :: l2)) (mkSystem (mkBackend (be_pool b) (Repo_Add c (be_repo b))) (l1 ++ l2))
| ov_give_up env containerSpec err x b w p' w' l1 l2 :
    Pool_Release env (be_cfg cfg) containerSpec (be_pool b, w) = (x, (p', w')) -> returns x ->
    ov_step (mkSystem b (l1 ++ ToGiveUp containerSpec err :: l2)) (mkSystem (mkBackend p' (be_repo b)) (l1 ++ l2))
| ov_remove handle c b l : Repo_FindByHandle handle (be_repo b) = Ok c ->
    ov_step (mkSystem b l) (mkSystem (mkBackend (be_pool b) (Repo_Delete c (be_repo b))) (ToDestroy false c :: l))
| ov_cleanup env x c c' b w b' w' l1 l2 : on_container c (Cleanup env) (b, w) = (Ok (x, c'), (b', w')) ->
    ov_step (mkSystem b (l1 ++ ToDestroy false c :: l2))
      (mkSystem b' (l1 ++ match x with inl _ => ToDestroy true c' :: l2 | inr _ => l2 end))
| ov_release env c x b w p' w' l1 l2 :
    Pool_Release env (be_cfg cfg) (c_spec c) (be_pool b, w) = (x, (p', w')) -> returns x ->
    ov_step (mkSystem b (l1 ++ ToDestroy true c :: l2)) (mkSystem (mkBackend p' (be_repo b)) (l1 ++ l2))
| ov_method env handle o x b w b' w' l :
    on_handle handle (run_op env cfg o) (b, w) = (x, (b', w')) -> returns x -> ov_step (mkSystem b l) (mkSystem b' l)
| ov_late_method env cleaned o x c c' b w b' w' l1 l2 :
    on_container c (run_op env cfg o) (b, w) = (Ok (x, c'), (b', w')) ->
    ov_step (mkSystem b (l1 ++ ToDestroy cleaned c :: l2)) (mkSystem b' (l1 ++ ToDestroy cleaned c' :: l2)).

(** ** A call alone

    The functions of the backend are runs of these steps: a call with which no other
    one overlaps. *)

Lemma give_up_steps env containerSpec (err : error) p repo w x b' w' l :
  bind (ignore (with_pool (Pool_Release env (be_cfg cfg) containerSpec))) (fun _ => fail (A := LinuxContainer) err) (mkBackend p repo, w) =
    (x, (b', w')) -> returns x -> ov_step (mkSystem (mkBackend p repo) (ToGiveUp containerSpec err :: l)) (mkSystem b' l).
Proof.
  rewrite bind_eq, ignore_eq, with_pool_eq. cbn [be_pool be_repo].
  destruct (Pool_Release env (be_cfg cfg) containerSpec (p, w)) as [y [p1 w1]] eqn:E.
  destruct y as [?|?|?]; intros [= <- <- <-]; [| |done]; intros _;
    eapply (ov_give_up _ _ _ _ (mkBackend p repo) _ _ _ [] l); first [exact E | done].
Qed.

Lemma create_steps env spec x b w b' w' l : ipv4_request spec -> create_make env cfg spec (b, w) = (x, (b', w')) -> returns x ->
  rtc ov_step (mkSystem b l) (mkSystem b' l).
Proof.
  intros Hspec. unfold create_make. rewrite bind_eq, with_pool_eq.
  destruct (Pool_Acquire env (be_cfg cfg) spec (be_pool b, w)) as [[c|e|m] [p1 w1]] eqn:Ea; [| |by intros [= <- <- <-]].
  2: { intros [= <- <- <-] _. apply rtc_once. by apply (ov_acquire _ _ _ _ _ _ _ l Hspec Ea). }
  intros H Hx. eapply rtc_l; [by apply (ov_acquire _ _ _ _ _ _ _ l Hspec Ea)|]. revert H. rewrite bind_eq.
  destruct (on_container (NewLinuxContainer c) _ _) as [[[y c1]|e|m] [[p2 repo2] w2]] eqn:Es;
    destruct (on_container_footing _ _ _ _ _ _ (Start_footing _ _ _) Es) as (_ & _ & Hne & _);
    [|by destruct (Hne e)|by intros [= <- <- <-]].
  intros H. eapply rtc_l; [by apply (ov_start _ _ _ _ _ _ _ _ _ [] l Es)|]. revert H.
  destruct y as [?|e]; [|intros H; apply rtc_once; by eapply give_up_steps]. rewrite bind_eq.
  destruct (ApplyLimits env cfg c1 _ _) as [[[y c2]|e|m] [[p3 repo3] w3]] eqn:El;
    destruct (ApplyLimits_undisturbed _ _ _ _ _ _ _ _ El) as (_ & _ & Hne2 & _);
    [|by destruct (Hne2 e)|by intros [= <- <- <-]].
  intros H. eapply rtc_l; [by apply (ov_limit _ _ _ _ _ _ _ _ _ _ [] l El)|]. revert H.
  destruct y as [?|e]; [|intros H; apply rtc_once; by eapply give_up_steps].
  rewrite bind_eq. unfold put_repo, update. cbn. intros [= _ <- _]. apply rtc_once, (ov_add c2 (mkBackend p3 repo3) [] l).
Qed.

Lemma destroy_steps env handle x b w b' w' l : Backend_Destroy env cfg handle (b, w) = (x, (b', w')) -> returns x ->
  rtc ov_step (mkSystem b l) (mkSystem b' l).
Proof.
  unfold Backend_Destroy, destroy_container. rewrite bind_eq. unfold gets at 1. cbn [fst]. rewrite bind_eq. unfold lift.
  destruct (Repo_FindByHandle handle (be_repo b)) as [c|e|m] eqn:Hc; [|by intros [= <- <- <-]|by intros [= <- <- <-]].
  intros H Hx. eapply rtc_l; [by apply (ov_remove handle c b l)|]. revert H.
  rewrite bind_eq. unfold put_repo, update. cbn [fst snd]. rewrite bind_eq.
  destruct (on_container c _ _) as [[[y c1]|e|m] [[p2 repo2] w2]] eqn:Es;
    destruct (on_container_footing _ _ _ _ _ _ (Cleanup_footing _) Es) as (_ & _ & Hne & _);
    [|by destruct (Hne e)|by intros [= <- <- <-]].
  intros H. eapply rtc_l; [by apply (ov_cleanup _ _ _ _ _ _ _ _ [] l Es)|]. revert H.
  destruct y as [?|e]; [|by intros [= <- <- <-]]. rewrite with_pool_eq. cbn [be_pool be_repo].
  destruct (Pool_Release env (be_cfg cfg) _ _) as [y [p1 w1]] eqn:E. intros [= <- <- <-].
  apply rtc_once. by apply (ov_release _ _ _ (mkBackend p2 repo2) _ _ _ [] l E).
Qed.
End Steps.

(** ** Moves *)

(** The containers of a system: those of the repository, and those of calls. *)
Definition registered (repo : Repository) : list LinuxContainer := (map_to_list repo).*2.
Definition live (s : System) : list LinuxContainer := registered (be_repo (sy_backend s)) ++ (pending_container <$> sy_calls s).

Lemma registered_delete (repo : Repository) h c : repo !! h = Some c -> registered repo ≡ₚ c :: registered (delete h repo).
Proof. intros Hc. unfold registered. by rewrite <- (map_to_list_delete repo h c Hc). Qed.

Lemma registered_insert (repo : Repository) h c : registered (<[h := c]> repo) ≡ₚ c :: registered (delete h repo).
Proof. unfold registered. rewrite <- insert_delete_eq, map_to_list_insert by apply lookup_delete_eq. done. Qed.

Lemma elem_of_registered (repo : Repository) c : c ∈ registered repo <-> exists h, repo !! h = Some c.
Proof.
  unfold registered. rewrite list_elem_of_fmap. split.
  - intros ([h c'] & -> & Hin%elem_of_map_to_list). by exists h.
  - intros [h Hc]. exists (h, c). split; [done|by apply elem_of_map_to_list].
Qed.

(** What a step does to the pools and to the containers, whose order does not matter. *)
Inductive move (cfg : BackendConfig) : LinuxResourcePool * list LinuxContainer -> LinuxResourcePool * list LinuxContainer -> Prop :=
| mv_same p p' L L' : rp_subnets p' = rp_subnets p -> rp_ports p' = rp_ports p -> L ≡ₚ L' -> move cfg (p, L) (p', L')
| mv_acquire env spec p w x p' w' L : ipv4_request spec -> Pool_Acquire env (be_cfg cfg) spec (p, w) = (x, (p', w')) -> returns x ->
    move cfg (p, L) (p', match x with Ok c => NewLinuxContainer c :: L | _ => L end)
| mv_change p c c' L : spec_Resources (c_spec c') = spec_Resources (c_spec c) -> NetIns (c_spec c') = NetIns (c_spec c) ->
    move cfg (p, c :: L) (p, c' :: L)
| mv_forget p c L : move cfg (p, c :: L) (p, L)
| mv_release env spec p w x p' w' c L : spec_Resources spec = spec_Resources (c_spec c) ->
    Pool_Release env (be_cfg cfg) spec (p, w) = (x, (p', w')) -> returns x -> move cfg (p, c :: L) (p', L)
| mv_method p c c' pp' w w' L : takes_port ((c, rp_ports p), w) ((c', pp'), w') -> maps_port ((c, rp_ports p), w) ((c', pp'), w') ->
    move cfg (p, c :: L) (mkRP (rp_subnets p) pp' (rp_bridges p) (rp_nextID p), c' :: L).

(** A call keeps what its container was made with. *)
Definition pending_ok (pd : Pending) : Prop :=
  match pd with ToLimit containerSpec _ c => alike (NewLinuxContainer containerSpec) c | _ => True end.

(** A container is registered under its handle. *)
Definition well_kept (s : System) : Prop :=
  (forall h c, be_repo (sy_backend s) !! h = Some c -> handle_of c = h) /\ Forall pending_ok (sy_calls s).

Definition holdings (s : System) : LinuxResourcePool * list LinuxContainer := (be_pool (sy_backend s), live s).

Lemma decide_returns {A} (x : result A) : returns x \/ exists m, x = Panic m.
Proof. destruct x; eauto; by left. Qed.

Section Moves.
Context (cfg : BackendConfig).

Lemma move_perm p L L' : L ≡ₚ L' -> move cfg (p, L) (p, L').
Proof. by apply mv_same. Qed.

Lemma moves_perm p p' L1 L2 L1' L2' : L1 ≡ₚ L1' -> L2' ≡ₚ L2 -> move cfg (p, L1') (p', L2') -> rtc (move cfg) (p, L1) (p', L2).
Proof. intros H1 H2 Hm. eapply rtc_l; [by apply move_perm|]. eapply rtc_l; [exact Hm|]. by apply rtc_once, move_perm. Qed.

Lemma live_split b l1 pd l2 : live (mkSystem b (l1 ++ pd :: l2)) ≡ₚ pending_container pd :: live (mkSystem b (l1 ++ l2)).
Proof. unfold live. cbn. rewrite !fmap_app. cbn. by rewrite <- !Permutation_middle. Qed.

(** A move of the container of one call, seen from the whole system. *)
Lemma call_moves b l1 pd l2 p' b' L' :
  live (mkSystem b' L') ≡ₚ p'.2 -> be_pool b' = p'.1 ->
  move cfg (be_pool b, pending_container pd :: live (mkSystem b (l1 ++ l2))) p' ->
  rtc (move cfg) (holdings (mkSystem b (l1 ++ pd :: l2))) (holdings (mkSystem b' L')).
Proof.
  intros HL Hp Hm. destruct p' as [p' L1]. cbn in *. unfold holdings. cbn [sy_backend]. rewrite Hp.
  eapply rtc_l; [apply move_perm, live_split|]. eapply rtc_l; [exact Hm|]. by apply rtc_once, move_perm.
Qed.

(** A method of a container, on its object. *)
Lemma on_container_op env o c b w x s' : on_container c (run_op env cfg o) (b, w) = (x, s') -> returns x ->
  exists y c' pp' w1 w2, x = Ok (y, c') /\ takes_port ((c, rp_ports (be_pool b)), w1) ((c', pp'), w2) /\
    maps_port ((c, rp_ports (be_pool b)), w1) ((c', pp'), w2) /\ handle_of c' = handle_of c /\
    s'.1 = mkBackend (mkRP (rp_subnets (be_pool b)) pp' (rp_bridges (be_pool b)) (rp_nextID (be_pool b))) (be_repo b).
Proof.
  rewrite on_container_eq. cbn zeta. destruct (run_op env cfg o _) as [y [[c' pp] w1]] eqn:E. apply run_op_footing in E as [Ht Hm].
  assert (Hh : handle_of c' = handle_of c).
  { destruct Ht as [Ht|(port & _ & Hh & _)]; [|exact Hh]. unfold ground in Ht. cbn in Ht. by injection Ht. }
  destruct y as [a|e|m]; [| |by intros [= <- <-]]; intros [= <- <-] _; (eexists _, c', pp, w, w1; split_and!; done).
Qed.

Lemma on_handle_op env h o b w x b' w' : on_handle h (run_op env cfg o) (b, w) = (x, (b', w')) -> returns x -> b' = b \/
  exists c c' pp' w1 w2, be_repo b !! h = Some c /\ takes_port ((c, rp_ports (be_pool b)), w1) ((c', pp'), w2) /\
    maps_port ((c, rp_ports (be_pool b)), w1) ((c', pp'), w2) /\ handle_of c' = handle_of c /\
    b' = mkBackend (mkRP (rp_subnets (be_pool b)) pp' (rp_bridges (be_pool b)) (rp_nextID (be_pool b))) (<[h := c']> (be_repo b)).
Proof.
  unfold on_handle, Repo_FindByHandle. rewrite bind_eq. unfold gets at 1. cbn [fst]. rewrite bind_eq. unfold lift.
  destruct (be_repo b !! h) as [c|] eqn:Hc; [|intros [= <- <- <-]; by left]. rewrite bind_eq.
  destruct (on_container c _ _) as [y [b1 w1]] eqn:E. destruct (decide_returns y) as [Hy|[m ->]]; [|by intros [= <- <- <-]].
  destruct (on_container_op _ _ _ _ _ _ _ E Hy) as (y1 & c' & pp & w2 & w3 & -> & Ht & Hm & Hh & Hb). cbn in Hb. subst b1.
  rewrite bind_eq. unfold put_repo, update. cbn. intros H _. right. exists c, c', pp, w2, w3. split_and!; try done.
  by destruct y1; injection H as _ <- _.
Qed.

Lemma step_moves s s' : ov_step cfg s s' -> well_kept s -> rtc (move cfg) (holdings s) (holdings s').
Proof.
  intros Hs [Hkept Hok]. destruct Hs as [env spec x b w p' w' l H4 Ha Hx|env cs lim x c b w b' w' l1 l2 Hst|env cs lim x c c' b w b' w' l1 l2 Hli
    |c b l1 l2|env cs err x b w p' w' l1 l2 Hr Hx|h c b l Hf|env x c c' b w b' w' l1 l2 Hcl|env c x b w p' w' l1 l2 Hr Hx
    |env h o x b w b' w' l Hm Hx|env cl o x c c' b w b' w' l1 l2 Hm].
  - unfold holdings, live. cbn. eapply rtc_l; [eapply mv_acquire; done|]. apply rtc_once, move_perm.
    destruct x as [cs|e|m]; [|done|done]. cbn. by rewrite Permutation_middle.
  - destruct (on_container_footing _ _ _ _ _ _ (Start_footing _ _ _) Hst) as (Hrepo & Hpool & _). cbn in Hrepo, Hpool.
    destruct b as [p repo], b' as [p' repo']. cbn in Hrepo, Hpool. subst p' repo'. unfold holdings, live. cbn.
    apply rtc_once, move_perm. rewrite !fmap_app. by destruct x.
  - destruct (ApplyLimits_undisturbed _ _ _ _ _ _ _ _ Hli) as (Hrepo & Hpool & _ & Hc). cbn in Hrepo, Hpool.
    destruct b as [p repo], b' as [p' repo']. cbn in Hrepo, Hpool. subst p' repo'.
    destruct (Hc _ _ eq_refl) as (Hr & _ & _ & Hn). cbn in Hok. rewrite Forall_app, Forall_cons in Hok. destruct Hok as (_ & (Hr0 & _ & _ & Hn0) & _). cbn in Hr0, Hn0.
    destruct x as [?|e].
    + eapply (call_moves _ _ _ _ (p, c' :: _)); [apply live_split|done|]. apply mv_change; cbn; congruence.
    + unfold holdings, live. cbn. apply rtc_once, move_perm. by rewrite !fmap_app.
  - unfold holdings, live. cbn. unfold Repo_Add. rewrite !fmap_app. cbn. destruct (be_repo b !! handle_of c) as [c0|] eqn:Hc.
    + eapply (moves_perm _ _ _ _ (c0 :: _)); [rewrite (registered_delete _ _ _ Hc); cbn; reflexivity| |apply mv_forget].
      rewrite registered_insert. cbn. by rewrite <- !Permutation_middle.
    + apply rtc_once, move_perm. rewrite registered_insert, delete_id by done. cbn. by rewrite <- !Permutation_middle.
  - eapply (call_moves _ _ _ _ (p', _)); [|done|eapply (mv_release _ _ cs); [done|exact Hr|done]]. done.
  - unfold Repo_FindByHandle in Hf. destruct (be_repo b !! h) as [c0|] eqn:Hc; [|done]. injection Hf as ->.
    pose proof (Hkept _ _ Hc) as Hh. unfold holdings, live. cbn. unfold Repo_Delete. rewrite Hh.
    apply rtc_once, move_perm. rewrite (registered_delete _ _ _ Hc). cbn. by rewrite Permutation_middle.
  - destruct (on_container_footing _ _ _ _ _ _ (Cleanup_footing _) Hcl) as (Hrepo & Hpool & _ & Hc). cbn in Hrepo, Hpool.
    destruct b as [p repo], b' as [p' repo']. cbn in Hrepo, Hpool. subst p' repo'. destruct (Hc _ _ eq_refl) as (Hr & _ & _ & Hn).
    destruct x as [?|e].
    + eapply (call_moves _ _ _ _ (p, c' :: _)); [apply live_split|done|]. by apply mv_change.
    + eapply (call_moves _ _ _ _ (p, _)); [|done|apply mv_forget]. done.
  - eapply (call_moves _ _ _ _ (p', _)); [|done|eapply (mv_release _ _ (c_spec c)); [done|exact Hr|done]]. done.
  - destruct (on_handle_op _ _ _ _ _ _ _ _ Hm Hx) as [->|(c & c' & pp & w2 & w3 & Hc & Ht & Hmp & Hh & Hb)]; [done|].
    subst b'. unfold holdings, live. cbn. eapply (moves_perm _ _ _ _ (c :: _) (c' :: _));
      [rewrite (registered_delete _ _ _ Hc); cbn; reflexivity|rewrite registered_insert; cbn; reflexivity|]. by eapply mv_method.
  - destruct (on_container_op _ _ _ _ _ _ _ Hm I) as (y1 & c1 & pp & w2 & w3 & [= <- <-] & Ht & Hmp & Hh & Hb). cbn in Hb. subst b'.
    eapply (call_moves _ _ _ _ (_, c' :: _)); [apply live_split| |by eapply mv_method]. done.
Qed.
End Moves.

Lemma step_well_kept cfg s s' : ov_step cfg s s' -> well_kept s -> well_kept s'.
Proof.
  intros Hs [Hkept Hok]. destruct Hs as [env spec x b w p' w' l H4 Ha Hx|env cs lim x c b w b' w' l1 l2 Hst|env cs lim x c c' b w b' w' l1 l2 Hli
    |c b l1 l2|env cs err x b w p' w' l1 l2 Hr Hx|h c b l Hf|env x c c' b w b' w' l1 l2 Hcl|env c x b w p' w' l1 l2 Hr Hx
    |env h o x b w b' w' l Hm Hx|env cl o x c c' b w b' w' l1 l2 Hm]; unfold well_kept; cbn in Hkept, Hok |- *; rewrite ?Forall_app, ?Forall_cons in Hok; rewrite ?Forall_app, ?Forall_cons.
  - split; [done|]. destruct x; [|done|done]. by apply Forall_cons.
  - destruct (on_container_footing _ _ _ _ _ _ (Start_footing _ _ _) Hst) as (Hrepo & _ & _ & Hc). cbn in Hrepo. rewrite Hrepo.
    split; [done|]. destruct Hok as (? & _ & ?). split_and!; [done| |done]. destruct x; [|done]. cbn. by eapply Hc.
  - destruct (ApplyLimits_undisturbed _ _ _ _ _ _ _ _ Hli) as (Hrepo & _). cbn in Hrepo. rewrite Hrepo.
    split; [done|]. destruct Hok as (? & _ & ?). split_and!; [done| |done]. by destruct x.
  - split; [|by destruct Hok as (? & _ & ?); split]. intros h c'. unfold Repo_Add. intros [[<- <-]|[_ ?]]%lookup_insert_Some; [done|by apply Hkept].
  - split; [done|by destruct Hok as (? & _ & ?); split].
  - split; [|done]. intros h' c'. unfold Repo_Delete. intros [_ ?]%lookup_delete_Some. by apply Hkept.
  - destruct (on_container_footing _ _ _ _ _ _ (Cleanup_footing _) Hcl) as (Hrepo & _). cbn in Hrepo. rewrite Hrepo.
    split; [done|]. destruct Hok as (? & _ & ?). split; [done|]. destruct x; [by apply Forall_cons|done].
  - split; [done|by destruct Hok as (? & _ & ?); split].
  - split; [|done]. destruct (on_handle_op _ _ _ _ _ _ _ _ _ Hm Hx) as [->|(c & c' & pp & w2 & w3 & Hc & _ & _ & Hh & ->)]; [done|].
    cbn. intros h' c0 [[<- <-]|[_ ?]]%lookup_insert_Some; [|by apply Hkept]. rewrite Hh. by apply Hkept.
  - destruct (on_container_op _ _ _ _ _ _ _ _ Hm I) as (y1 & c1 & pp & w2 & w3 & _ & _ & _ & _ & Hb). cbn in Hb. subst b'. cbn.
    split; [done|]. destruct Hok as (? & _ & ?). by split_and!.
Qed.

(** ** The invariant *)

Definition apart_containers (c c' : LinuxContainer) : Prop := separate c c' /\ separate c' c.

Fixpoint all_apart (L : list LinuxContainer) : Prop :=
  match L with [] => True | c :: L' => Forall (apart_containers c) L' /\ all_apart L' end.

(** What the containers hold is taken from the pools, and no two hold the same. *)
Record live_inv (d r : Z) (s : LinuxResourcePool * list LinuxContainer) : Prop := {
  lv_subnets : pool_inv d r (rp_subnets s.1);
  lv_ports : pp_wf (rp_ports s.1);
  lv_owns : Forall (owns s.1) s.2;
  lv_apart : all_apart s.2
}.

Lemma all_apart_perm L L' : L ≡ₚ L' -> all_apart L -> all_apart L'.
Proof.
  induction 1 as [|c L L' Hp IH|c c' L|L L' L'' _ IH1 _ IH2]; [done|..|by auto]; cbn.
  - intros [Hc HL]. split; [by rewrite <- Hp|by apply IH].
  - rewrite !Forall_cons. intros [[[? ?] ?] [? ?]]. by split_and!.
Qed.

Lemma owns_pools p p' c : rp_subnets p' = rp_subnets p -> rp_ports p' = rp_ports p -> owns p c -> owns p' c.
Proof. intros Hs Hp [Hn Ho]. split; [by rewrite Hs|by rewrite Hp]. Qed.

Lemma apart_same c1 c1' c2 : spec_Resources (c_spec c1') = spec_Resources (c_spec c1) -> apart_containers c1 c2 -> apart_containers c1' c2.
Proof. intros Hr [H1 H2]. by split; eapply separate_same. Qed.

Lemma live_inv_pools d r p p' L : rp_subnets p' = rp_subnets p -> rp_ports p' = rp_ports p -> live_inv d r (p, L) -> live_inv d r (p', L).
Proof.
  intros Hs Hp [H1 H2 H3 H4]. split; cbn in *; [by rewrite Hs|by rewrite Hp| |done]. eapply Forall_impl; [exact H3|].
  by intros; eapply owns_pools.
Qed.

Lemma acquire_live cfg d r env spec p w c p' w' L : live_inv d r (p, L) -> ipv4_request spec ->
  Pool_Acquire env (be_cfg cfg) spec (p, w) = (Ok c, (p', w')) -> live_inv d r (p', NewLinuxContainer c :: L).
Proof.
  intros [H1 H2 H3 H4] H6 Ha. pose proof (Pool_Acquire_spec _ _ _ d r (p, w) _ _ H1 (ipv4_lawful _ _ _ H6) Ha) as Hspec. cbn in *.
  destruct Hspec as [_ _ Hpp (n & b & q & z & zs & uid & br & Hacq & Hc) _]. cbn [fst] in *.
  destruct (acquired_holds _ _ _ _ _ _ _ _ _ H1 Hacq) as [Hn Hothers].
  assert (Hall : Forall (fun c' => owns p' c' /\ apart_containers (NewLinuxContainer c) c') L).
  { eapply Forall_impl; [exact H3|]. intros c' [(n' & b' & q' & Hn' & ? & ? & Hh') Ho]. destruct (Hothers _ Hh') as (Hk & Hne & Hne'). split.
    - split; [exists n', b', q'; by split_and!|by rewrite Hpp].
    - unfold apart_containers, separate, ports_of. unfold net_of at 1 4. cbn. rewrite Hc. cbn. rewrite Hn'.
      split; (split; [by intros ? ? [= <-] [= <-]|set_solver]). }
  apply Forall_and in Hall as [Hown Hap].
  split; cbn; [by eapply acquired_inv|by rewrite Hpp|constructor; [|done]|done].
  split; [|unfold ports_of; cbn; rewrite Hc; set_solver].
  exists n, b, q. unfold net_of. cbn. rewrite Hc. split_and!; [done|apply Hacq|apply Hacq|done].
Qed.

Lemma release_live cfg d r env spec p w x p' w' c L : live_inv d r (p, c :: L) -> spec_Resources spec = spec_Resources (c_spec c) ->
  Pool_Release env (be_cfg cfg) spec (p, w) = (x, (p', w')) -> returns x -> live_inv d r (p', L).
Proof.
  intros [H1 H2 H3 H4] Hr Hrel Hx. cbn in *. apply Forall_cons in H3 as [[(n & b & q & Hnet & _) _] H3]. destruct H4 as [Hap H4].
  apply Pool_Release_spec in Hrel. destruct x as [[]|e|m]; [| |done]; cbn in Hrel.
  2: { unfold pools in Hrel. injection Hrel as Hs Hp. by apply (live_inv_pools d r p). }
  unfold net_of in Hnet. rewrite Hr, Hnet in Hrel. destruct Hrel as [Hports [y Hnr]].
  destruct (release_ports_free _ _ _ H2 Hports) as [Hwf Hfree]. split; cbn; [by eapply Release_inv|done| |done].
  rewrite Forall_forall in H3, Hap |- *. intros c' Hin. destruct (H3 _ Hin) as [(n' & b' & q' & Hn' & ? & ? & Hh') Ho], (Hap _ Hin) as [[_ Hs1] [Hs2 _]].
  split; [|intros y' Hy [Hf|Hf]%Hfree; [by apply (Ho y')|by apply (Hs1 y')]].
  exists n', b', q'. split_and!; try done. eapply release_holds; [done|by apply Hs2|done].
Qed.

(** A method keeps the network and takes ports only that are free. *)
Lemma method_ports p c c' pp' w w' : pp_wf (rp_ports p) -> owns p c -> takes_port ((c, rp_ports p), w) ((c', pp'), w') ->
  pp_wf pp' /\ net_of c' = net_of c /\ (forall x, x ∈ pp_pool pp' -> x ∈ pp_pool (rp_ports p) /\ x ∉ ports_of c') /\
  (forall x, x ∈ ports_of c' -> x ∈ ports_of c \/ x ∈ pp_pool (rp_ports p)).
Proof.
  intros Hwf [_ Ho] Ht. unfold net_of, ports_of in *. destruct Ht as [Ht|(port & Ha & _ & _ & Hr)].
  - unfold ground in Ht. cbn in Ht. injection Ht as -> _ -> _. split_and!; [done|done| |by left].
    intros x Hx. split; [done|]. intros Hin. by apply (Ho x).
  - cbn in Ha, Hr. destruct (acquire_port_free _ _ _ Hwf Ha) as (Hwf' & Hin & Hiff). rewrite Hr. cbn. split_and!; [done|done|..].
    + intros x [Hx Hne]%Hiff. split; [done|]. rewrite not_elem_of_app, list_elem_of_singleton. split; [|done]. intros Hp. by apply (Ho x).
    + intros x [?| ->%list_elem_of_singleton]%elem_of_app; auto.
Qed.

Lemma method_live d r p c c' pp' w w' L : live_inv d r (p, c :: L) -> takes_port ((c, rp_ports p), w) ((c', pp'), w') ->
  live_inv d r (mkRP (rp_subnets p) pp' (rp_bridges p) (rp_nextID p), c' :: L).
Proof.
  intros [H1 H2 H3 H4] Ht. cbn in *. apply Forall_cons in H3 as [Hown H3]. destruct H4 as [Hap H4].
  destruct (method_ports _ _ _ _ _ _ H2 Hown Ht) as (Hwf & Hn & Hfree & Hnew). split; cbn; [done|done|constructor|split; [|done]].
  - split; cbn; [rewrite Hn; apply Hown|]. intros x Hx Hin. by destruct (Hfree x Hin).
  - eapply Forall_impl; [exact H3|]. intros c2 [? Hp2]. split; cbn; [done|]. intros x Hx [Hin _]%Hfree. by apply (Hp2 x).
  - rewrite Forall_forall in H3, Hap |- *. intros c2 Hin. destruct (H3 _ Hin) as [_ Hp2], (Hap _ Hin) as [[S1 S2] [S3 S4]].
    unfold apart_containers, separate. rewrite Hn. split; (split; [done|]); intros x Hx.
    + destruct (Hnew x Hx) as [?|?]; [by apply S2|]. intros Hx2. by apply (Hp2 x).
    + intros Hx'. destruct (Hnew x Hx') as [?|?]; [by apply (S4 x)|by apply (Hp2 x)].
Qed.

Lemma move_inv cfg d r s s' : move cfg s s' -> live_inv d r s -> live_inv d r s'.
Proof.
  intros Hm Hinv. destruct Hm as [p p' L L' Hs Hp HL|env spec p w x p' w' L H6 Ha Hx|p c c' L Hr Hn|p c L|env sp p w x p' w' c L Hr Hrel Hx
    |p c c' pp' w w' L Ht _].
  - eapply live_inv_pools; [done|done|]. destruct Hinv as [H1 H2 H3 H4]. split; cbn in *; [done|done|by rewrite <- HL|by eapply all_apart_perm].
  - destruct x as [c|e|m]; [by eapply acquire_live| |done].
    pose proof (Pool_Acquire_spec _ _ _ d r (p, w) _ _ (lv_subnets _ _ _ Hinv) (ipv4_lawful _ _ _ H6) Ha) as [= Hs Hp]. by apply (live_inv_pools d r p).
  - destruct Hinv as [H1 H2 H3 H4]. cbn in *. apply Forall_cons in H3 as [Ho H3]. destruct H4 as [Hap H4].
    split; cbn; [done|done|constructor; [by eapply owns_same|done]|split; [|done]].
    eapply Forall_impl; [exact Hap|]. intros c2. by apply apart_same.
  - destruct Hinv as [H1 H2 H3 H4]. cbn in *. apply Forall_cons in H3 as [_ H3]. by destruct H4.
  - by eapply release_live.
  - by eapply method_live.
Qed.

(** ** Runs *)

Section Runs.
Context (cfg : BackendConfig) (d r : Z).

Definition system_inv (s : System) : Prop := well_kept s /\ live_inv d r (holdings s).

Lemma moves_inv s s' : rtc (move cfg) s s' -> live_inv d r s -> live_inv d r s'.
Proof. induction 1; eauto using move_inv. Qed.

Lemma run_system_inv s s' : rtc (ov_step cfg) s s' -> system_inv s -> system_inv s'.
Proof.
  induction 1 as [|s1 s2 s3 Hs _ IH]; [done|]. intros [Hk Hl]. apply IH. split; [by eapply step_well_kept|].
  eapply moves_inv; [by apply step_moves|done].
Qed.

(** The containers of the repository alone. *)
Lemma system_be_inv s : system_inv s -> be_inv d r (sy_backend s).
Proof.
  destruct s as [b l]. intros [[Hk _] [H1 H2 H3 H4]]. unfold holdings, live in *. cbn in *. apply Forall_app in H3 as [H3 _].
  rewrite Forall_forall in H3. split; [done|done|..].
  - intros h c Hc. split; [by apply Hk|]. apply H3, elem_of_registered. by exists h.
  - intros h h' c c' Hc Hc' Hne. apply (all_apart_perm _ (c :: c' :: registered (delete h' (delete h (be_repo b))) ++ (pending_container <$> l))) in H4.
    + destruct H4 as [[[Hs _] _]%Forall_cons _]. done.
    + rewrite (registered_delete _ _ _ Hc). cbn. apply perm_skip. rewrite (registered_delete (delete h (be_repo b)) h' c') by (by rewrite lookup_delete_ne). done.
Qed.

Lemma be_system_inv b : be_inv d r b -> system_inv (mkSystem b []).
Proof.
  intros [H1 H2 H3 H4]. split; [split; [intros h c Hc; by apply (H3 h c)|constructor]|]. unfold holdings, live. cbn. rewrite app_nil_r.
  split; cbn; [done|done|apply Forall_forall; intros c [h Hc]%elem_of_registered; by apply (H3 h c)|].
  clear H1 H2 H3. revert H4. generalize (be_repo b). intros repo. induction repo as [|h c repo Hh IH] using map_ind; intros Hsep; [done|].
  eapply all_apart_perm; [symmetry; apply registered_insert|]. rewrite delete_id by done. cbn. split.
  - apply Forall_forall. intros c' [h' Hc']%elem_of_registered. assert (Hne : h <> h') by (intros ->; congruence).
    split; [apply (Hsep h h')|apply (Hsep h' h)]; rewrite ?lookup_insert_eq, ?lookup_insert_ne by done; done.
  - apply IH. intros h1 h2 c1 c2 Hc1 Hc2. apply (Hsep h1 h2); rewrite lookup_insert_ne by congruence; done.
Qed.

Lemma run_be_inv b s : rtc (ov_step cfg) (mkSystem b []) s -> be_inv d r b -> be_inv d r (sy_backend s).
Proof. intros Hrun Hb. by eapply system_be_inv, run_system_inv, be_system_inv. Qed.
End Runs.

(** ** Isolation *)

(** Two containers have different addresses, in one subnet or in subnets that do not
    overlap, their networks are taken from the pool, and no port that one has from the
    pool is the other's or free. *)
Definition isolated (p : LinuxResourcePool) (c c' : LinuxContainer) : Prop :=
  exists n n' x q x' q', net_of c = Some n /\ net_of c' = Some n' /\ nw_Subnet n = net4 x q /\ nw_Subnet n' = net4 x' q' /\
    IP_Equal (nw_IP n) (nw_IP n') = false /\ ((x, q) = (x', q') \/ disjoint4 x q x' q') /\
    holds (rp_subnets p) n /\ holds (rp_subnets p) n' /\
    (forall port, port ∈ ports_of c -> port ∉ ports_of c' /\ port ∉ pp_pool (rp_ports p)) /\
    (forall port, port ∈ ports_of c' -> port ∉ ports_of c /\ port ∉ pp_pool (rp_ports p)).

Lemma owned_isolated d r p c c' : pool_inv d r (rp_subnets p) -> owns p c -> owns p c' -> apart_containers c c' -> isolated p c c'.
Proof.
  intros Hp [(n & x & q & Hn & Hs & Hcan1 & Hh) Hports] [(n' & x' & q' & Hn' & Hs' & Hcan2 & Hh') Hports'] [[S1 S2] [_ S4]].
  exists n, n', x, q, x', q'. split_and!; eauto.
  destruct Hh as (ips & Hk & _), Hh' as (ips' & Hk' & _). rewrite Hs in Hk. rewrite Hs' in Hk'.
  destruct (inv_entries _ _ _ Hp _ _ Hk) as (b1 & q1 & zs1 & He1), (inv_entries _ _ _ Hp _ _ Hk') as (b2 & q2 & zs2 & He2).
  destruct (net4_inj _ _ _ _ Hcan1 (entry_canonical _ _ _ _ _ _ _ He1) (entry_key _ _ _ _ _ _ _ He1)) as [<- <-].
  destruct (net4_inj _ _ _ _ Hcan2 (entry_canonical _ _ _ _ _ _ _ He2) (entry_key _ _ _ _ _ _ _ He2)) as [<- <-].
  exact (inv_apart _ _ _ Hp _ _ _ _ _ _ _ _ _ _ Hk Hk' He1 He2).
Qed.

(** All containers of a system are isolated from each other. *)
Definition system_isolated (s : System) : Prop :=
  let b := sy_backend s in
  (forall h h' c c', be_repo b !! h = Some c -> be_repo b !! h' = Some c' -> h <> h' -> isolated (be_pool b) c c') /\
  (forall h c pd, be_repo b !! h = Some c -> pd ∈ sy_calls s -> isolated (be_pool b) c (pending_container pd)).

Lemma system_inv_isolated d r s : system_inv d r s -> system_isolated s.
Proof.
  intros Hs. split.
  - intros h h' c c' Hc Hc' Hne. destruct (system_be_inv _ _ _ Hs) as [Hp _ Hown Hsep].
    apply (owned_isolated d r); [done|by eapply Hown|by eapply Hown|]. split; [by apply (Hsep h h')|by apply (Hsep h' h)].
  - intros h c pd Hc Hpd. destruct Hs as [_ [Hp _ Hown Hap]]. destruct s as [b l]. cbn in *. apply list_elem_of_split in Hpd as (l1 & l2 & ->).
    assert (HL : live (mkSystem b (l1 ++ pd :: l2)) ≡ₚ c :: pending_container pd :: registered (delete h (be_repo b)) ++ (pending_container <$> (l1 ++ l2))).
    { rewrite live_split. unfold live. cbn. rewrite (registered_delete _ _ _ Hc). cbn. apply perm_swap. }
    apply (all_apart_perm _ _ HL) in Hap. rewrite HL in Hown. apply Forall_cons in Hown as [Hc1 [Hc2 _]%Forall_cons].
    destruct Hap as [[Hap _]%Forall_cons _]. by apply (owned_isolated d r).
Qed.

(** A server that has just started, and any run of it. *)
Lemma run_isolated cfg d r b s : be_inv d r b -> rtc (ov_step cfg) (mkSystem b []) s -> system_isolated s.
Proof. intros Hb Hrun. by eapply system_inv_isolated, run_system_inv, be_system_inv. Qed.
