(* ===== verification/BackendTheorems.v ===== *)
(** * Theorems on the backend *)
From S2P Require Import Prelude GoStrings GoNet IPv4 World ProcessEnv RLimits Sysconfig Subnets SubnetsProofs.
From S2P Require Import SubnetPool SubnetTheorems PortPool BridgeMgr IPTables IPTablesManager Bandwidth.
From S2P Require Import Cgroups Metrics ProcessTracker Container ContainerTheorems ResourcePool.
From S2P Require Import ResourcePoolTheorems Backend Isolation Overlap.

(** ** Examples *)

Definition sample_backend : BackendConfig := {|
  be_cfg := sample_config; snapshotsPath := "/snapshots"; maxContainers := 1; cgroup_root := "/cg"; container_node := node_root;
  json_encode := fun _ => ""; json_decode := fun _ => Err (Errorf "unexpected end of JSON input");
  decode_net := fun _ => mkNetworkStat 0 0 |}.

Definition client (handle : string) : ContainerSpec :=
  mkContainerSpec handle 0 "docker:///busybox" [] "" ∅ [] false
    (mkMemoryLimits 0, mkDiskLimits 0 0 0 0 0, mkBandwidth 0 0, mkCPULimits 512).

Lemma client_ipv4 h : ipv4_request (client h).
Proof. intros ip net. vm_compute. discriminate. Qed.

Lemma client_lawful h : lawful_request 184418304 22 (client h).
Proof. apply ipv4_lawful, client_ipv4. Qed.

Lemma sample_range_ok : canonical 184418304 22.
Proof. split; [lia|split; [unfold is_u32; lia|reflexivity]]. Qed.

Definition sample_server : LinuxBackend := fresh_backend 184418304 22 sample_pool (BridgeMgr_New "w1b-" 7) 42.

(** The server after one, and after two, clients made a container. *)
Definition after {A} (m : M (LinuxBackend * World) A) (b : LinuxBackend) : LinuxBackend := (m (b, [])).2.1.
Definition server1 : LinuxBackend := Eval vm_compute in after (create_make env_ok sample_backend (client "a")) sample_server.
Definition server2 : LinuxBackend := Eval vm_compute in after (create_make env_ok sample_backend (client "b")) server1.
Definition server3 : LinuxBackend := Eval vm_compute in
  after (on_handle "a" (run_op env_ok sample_backend (OpNetIn 0 8080))) server2.

(** One call after the other, up to [server3]. *)
Lemma server3_steps cfg : be_cfg cfg = sample_config -> cgroup_root cfg = "/cg" -> container_node cfg = node_root ->
  rtc (ov_step cfg) (mkSystem sample_server []) (mkSystem server3 []).
Proof.
  destruct cfg as [c path max root node enc dec dnet]. cbn. intros -> -> ->.
  etrans; [eapply (create_steps _ env_ok (client "a") _ sample_server []); [apply client_ipv4|vm_compute; reflexivity|done]|].
  etrans; [eapply (create_steps _ env_ok (client "b") _ server1 []); [apply client_ipv4|vm_compute; reflexivity|done]|].
  apply rtc_once. eapply (ov_method _ env_ok "a" (OpNetIn 0 8080) _ server2 []); [vm_compute; reflexivity|done].
Qed.

Lemma server3_reached : rtc (ov_step sample_backend) (mkSystem sample_server []) (mkSystem server3 []).
Proof. by apply server3_steps. Qed.

(** Another client destroys the second container while a third one is being made:
    both calls have taken some of their steps. *)
Definition server4 : LinuxBackend := Eval vm_compute in after (with_pool (Pool_Acquire env_ok sample_config (client "c"))) server3.
Definition given : LinuxContainerSpec := Eval vm_compute in
  match fst (Pool_Acquire env_ok sample_config (client "c") (be_pool server3, [])) with Ok containerSpec => containerSpec | _ => sample_live end.
Definition removed : LinuxContainer := Eval vm_compute in default (NewLinuxContainer given) (be_repo server3 !! "b").
Definition overlapped : System :=
  mkSystem (mkBackend (be_pool server4) (Repo_Delete removed (be_repo server3))) [ToDestroy false removed; ToStart given (spec_Limits (client "c"))].

Lemma overlapped_reached : rtc (ov_step sample_backend) (mkSystem sample_server []) overlapped.
Proof.
  etrans; [apply server3_reached|].
  apply (rtc_l _ _ (mkSystem (mkBackend (be_pool server4) (be_repo server3)) [ToStart given (spec_Limits (client "c"))])); [|apply rtc_once].
  - apply (ov_acquire sample_backend env_ok (client "c") (Ok given) server3 [] (be_pool server4)
      (Pool_Acquire env_ok sample_config (client "c") (be_pool server3, [])).2.2 []); [apply client_ipv4|vm_compute; reflexivity|done].
  - apply (ov_remove _ "b" removed (mkBackend (be_pool server4) (be_repo server3))). vm_compute. reflexivity.
Qed.

(** ** Isolation *)

(** C1: in every state that calls of [Create], [Destroy] and container methods can
    reach, however they overlap and on a host that may fail at any point, two
    containers of the repository have different addresses, in the same subnet or
    in subnets that do not overlap, have no port of the pool in common, and the
    pools hold what they have; the same holds between a container of the repository
    and one that a call of [Create] or [Destroy] has in its hands. The conditions: the
    clients ask for IPv4 networks or for none; no two calls of [Destroy] for one
    handle find the same container before one of them has removed it (the code does
    not exclude that: [double_destroy_frees_network]); calls of the resource pool and
    of a container's methods run one at a time. The ports are those from the pool: host
    ports that clients name in [NetIn] are not checked by the code. *)
Theorem containers_isolated cfg d r ports bridges id s :
  canonical d r -> r <= 30 -> pp_wf ports -> rtc (ov_step cfg) (mkSystem (fresh_backend d r ports bridges id) []) s ->
  system_isolated s.
Proof. intros Hcan Hr Hpp. apply run_isolated with d r. by apply fresh_inv. Qed.

(** Two containers, the first with a mapped port; and the first beside one that is
    being destroyed and one that is being made. *)
Lemma containers_isolated_witness :
  (exists c c', be_repo server3 !! "a" = Some c /\ be_repo server3 !! "b" = Some c' /\ ports_of c <> [] /\ isolated (be_pool server3) c c') /\
  (exists c, be_repo (sy_backend overlapped) !! "a" = Some c /\ length (sy_calls overlapped) = 2%nat /\
    forall pd, pd ∈ sy_calls overlapped -> isolated (be_pool (sy_backend overlapped)) c (pending_container pd)).
Proof.
  split; [do 2 eexists|eexists].
  - split; [vm_compute; reflexivity|]. split; [vm_compute; reflexivity|]. split; [done|].
    eapply (proj1 (containers_isolated sample_backend 184418304 22 sample_pool (BridgeMgr_New "w1b-" 7) 42 (mkSystem server3 []) sample_range_ok
      ltac:(lia) sample_pool_wf server3_reached) "a" "b"); [vm_compute; reflexivity|vm_compute; reflexivity|done].
  - split; [vm_compute; reflexivity|]. split; [vm_compute; reflexivity|].
    intros pd. eapply (proj2 (containers_isolated sample_backend 184418304 22 sample_pool (BridgeMgr_New "w1b-" 7) 42 overlapped sample_range_ok
      ltac:(lia) sample_pool_wf overlapped_reached) "a"). vm_compute. reflexivity.
Defined.

(** ** Create *)

Definition be_pools (b : LinuxBackend) : pool * PortPool := (rp_subnets (be_pool b), rp_ports (be_pool b)).

(** The network of a container that could not be made is given back, unless the
    host resources of the container cannot be released. *)
Lemma give_up_pools env cfg c e b w x b' w' p0 : 
  bind (ignore (with_pool (Pool_Release env (be_cfg cfg) c))) (fun _ => fail (A := LinuxContainer) e) (b, w) = (x, (b', w')) ->
  (forall s', Pool_Release env (be_cfg cfg) c (be_pool b, w) = (Ok tt, s') -> pools s' = p0) ->
  (forall m, x <> Panic m) ->
  be_repo b' = be_repo b /\ x = Err e /\
  (be_pools b' = p0 \/ exists e', Pool_Release env (be_cfg cfg) c (be_pool b, w) = (Err e', (be_pool b', w'))).
Proof.
  rewrite bind_eq, ignore_eq, with_pool_eq. destruct (Pool_Release _ _ _ _) as [[[]|e1|m] [p1 w1]] eqn:E;
    intros [= <- <- <-] Hp Hnp; split_and!; try done; [left|right; eauto|by destruct (Hnp m)..].
  by specialize (Hp _ eq_refl).
Qed.

(** [Create] of [spec] from [b] to [b'] was given the container [c], and the release of
    [c] with which the call ends was refused by the host. *)
Definition release_refused (env : Env) (cfg : BackendConfig) (spec : ContainerSpec) (b : LinuxBackend) (w : World)
    (b' : LinuxBackend) (w' : World) : Prop :=
  exists c p1 w1 w2 e, Pool_Acquire env (be_cfg cfg) spec (be_pool b, w) = (Ok c, (p1, w1)) /\
    Pool_Release env (be_cfg cfg) c (p1, w2) = (Err e, (be_pool b', w')).

(** What [Create] does once its checks are made. *)
Lemma create_make_outcomes env cfg d r spec b w x b' w' :
  be_inv d r b -> lawful_request d r spec -> create_make env cfg spec (b, w) = (x, (b', w')) -> (forall m, x <> Panic m) ->
  match x with
  | Ok c => handle_of c = getHandle (Handle spec) (container_id (rp_nextID (be_pool b))) /\
            be_repo b' = <[handle_of c := c]> (be_repo b)
  | _ => be_repo b' = be_repo b /\
         (be_pools b' = be_pools b \/ release_refused env cfg spec b w b' w')
  end.
Proof.
  intros Hinv Hlaw. unfold create_make. rewrite bind_eq, with_pool_eq.
  unfold release_refused. destruct (Pool_Acquire env (be_cfg cfg) spec (be_pool b, w)) as [[c|e|m] [p1 w1]] eqn:Ea;
    [| |by intros [= <- <- <-] Hnp; destruct (Hnp m)]; pose proof Ea as Ea0;
    apply (Pool_Acquire_spec _ _ _ d r (be_pool b, w)) in Ea; try apply Hinv; try exact Hlaw.
  2: { intros [= <- <- <-] _. split; [done|]. left. exact Ea. }
  pose proof (fun w s3 => acquired_released env _ _ _ _ _ _ _ w s3 (bi_subnets _ _ _ Hinv) Ea) as Hback.
  cbn [fst] in *. rewrite bind_eq.
  destruct (on_container (NewLinuxContainer c) _ _) as [[[y c1]|e|m] [[p2 repo2] w2]] eqn:Es;
    destruct (on_container_footing _ _ _ _ _ _ (Start_footing _ _ _) Es) as (Hr & Hp & Hne & Hc); cbn in Hr, Hp; subst repo2 p2;
    [|by destruct (Hne e)|by intros [= <- <- <-] Hnp; destruct (Hnp m)].
  destruct (Hc _ _ eq_refl) as (_ & Hh1 & _).
  assert (Hfail : forall b' w3 w' x e, bind (ignore (with_pool (Pool_Release env (be_cfg cfg) c)))
       (fun _ => fail (A := LinuxContainer) e) (mkBackend p1 (be_repo b), w3) = (x, (b', w')) -> (forall m, x <> Panic m) ->
     be_repo b' = be_repo b /\ x = Err e /\
     (be_pools b' = be_pools b \/ exists c' p' w1' w2 e, (Ok c, (p1, w1)) = (Ok c', (p', w1')) /\
        Pool_Release env (be_cfg cfg) c' (p', w2) = (Err e, (be_pool b', w')))).
  { intros b1 w3 w4 x1 e1 H Hnp. destruct (give_up_pools _ _ _ _ _ _ _ _ _ (be_pools b) H) as (? & ? & [?|(e' & He)]);
      [apply Hback|done|eauto|split_and!; [done|done|right; by exists c, p1, w1, w3, e']]. }
  destruct y as [?|e]; [|intros H Hnp; destruct (Hfail _ _ _ _ _ H Hnp) as (? & -> & ?); done].
  rewrite bind_eq. destruct (ApplyLimits env cfg c1 _ _) as [[[y c2]|e|m] [[p2 repo2] w3]] eqn:El;
    destruct (ApplyLimits_undisturbed _ _ _ _ _ _ _ _ El) as (Hr & Hp & Hne2 & Hc2); cbn in Hr, Hp; subst repo2 p2;
    [|by destruct (Hne2 e)|by intros [= <- <- <-] Hnp; destruct (Hnp m)].
  destruct y as [?|e]; [|intros H Hnp; destruct (Hfail _ _ _ _ _ H Hnp) as (? & -> & ?); done].
  rewrite bind_eq. unfold put_repo, update. cbn. intros [= <- <- _] _. destruct (Hc2 _ _ eq_refl) as (_ & Hh2 & _). cbn.
  split; [|done]. rewrite Hh2, Hh1. apply (as_handle _ _ _ _ _ _ _ Ea).
Qed.

Lemma Repo_All_length (repo : Repository) : length (Repo_All repo) = size repo.
Proof.
  unfold Repo_All, Repo_Query. rewrite <- length_map_to_list, <- (length_fmap snd). f_equal.
  induction ((map_to_list repo).*2) as [|c l IH]; [done|]. cbn. by rewrite IH.
Qed.

(** The checks of [Create]. *)
Lemma create_check_eq cfg spec b w : create_check cfg spec (b, w) =
  ((if bool_decide (Handle spec <> "" /\ is_Some (be_repo b !! Handle spec)) then Err (HandleExistsError (Handle spec))
    else if bool_decide (0 < maxContainers cfg <= Z.of_nat (size (be_repo b))) then Err (MaxContainersReachedError (maxContainers cfg))
    else Ok tt), (b, w)).
Proof.
  unfold create_check. rewrite bind_eq. unfold gets, Repo_FindByHandle. cbn [fst]. rewrite Repo_All_length, bool_decide_and.
  assert (Hmax : (0 <? maxContainers cfg) && (maxContainers cfg <=? Z.of_nat (size (be_repo b))) =
                 bool_decide (0 < maxContainers cfg <= Z.of_nat (size (be_repo b)))).
  { destruct (Z.ltb_spec 0 (maxContainers cfg)), (Z.leb_spec (maxContainers cfg) (Z.of_nat (size (be_repo b))));
      case_bool_decide; try done; lia. }
  rewrite Hmax. destruct (be_repo b !! Handle spec) as [c|]; cbn [is_ok].
  - rewrite (bool_decide_true (is_Some _)) by eauto. by repeat case_match.
  - rewrite (bool_decide_false (is_Some _)) by (by intros [? ?]). by repeat case_match.
Qed.

(** C3: [Create] on every branch. It refuses a handle in use and a container over
    the maximum before it touches anything. Otherwise it either returns a
    container that the repository then has under its handle (the client's, or
    the container's ID when the client gave none) beside all the others, or it
    fails, and then the repository is what it was, and so are the pools, unless
    the host refused, in this very call, to release what this container had been
    given. *)
Theorem create_outcomes env cfg d r spec b w x b' w' :
  be_inv d r b -> lawful_request d r spec -> Backend_Create env cfg spec (b, w) = (x, (b', w')) -> (forall m, x <> Panic m) ->
  if bool_decide (Handle spec <> "" /\ is_Some (be_repo b !! Handle spec))
  then x = Err (HandleExistsError (Handle spec)) /\ (b', w') = (b, w)
  else if bool_decide (0 < maxContainers cfg <= Z.of_nat (size (be_repo b)))
  then x = Err (MaxContainersReachedError (maxContainers cfg)) /\ (b', w') = (b, w)
  else match x with
       | Ok c => handle_of c = getHandle (Handle spec) (container_id (rp_nextID (be_pool b))) /\
                 be_repo b' = <[handle_of c := c]> (be_repo b)
       | _ => be_repo b' = be_repo b /\
              (be_pools b' = be_pools b \/ release_refused env cfg spec b w b' w')
       end.
Proof.
  intros Hinv Hlaw. unfold Backend_Create. rewrite bind_eq, create_check_eq.
  do 2 (case_bool_decide; [by intros [= <- <- <-]|]). by apply (create_make_outcomes env cfg d r).
Qed.

Definition cgroup_write (c : Call) : bool := match c with WriteFile p _ => has_prefix "/cg" p | _ => false end.

Definition refused : result LinuxContainer * (LinuxBackend * World) := Eval vm_compute in
  Backend_Create (env_without cgroup_write) sample_backend (client "a") (sample_server, []).

(** A client's CPU limit is refused, and the host releases the container: nothing is
    left. *)
Lemma create_outcomes_witness :
  Backend_Create (env_without cgroup_write) sample_backend (client "a") (sample_server, []) = refused /\
  is_ok refused.1 = false /\ be_repo refused.2.1 = be_repo sample_server /\ be_pools refused.2.1 = be_pools sample_server.
Proof.
  split; [vm_compute; reflexivity|]. split; [reflexivity|].
  destruct (create_outcomes (env_without cgroup_write) sample_backend 184418304 22 (client "a") sample_server [] refused.1 refused.2.1 refused.2.2
    (fresh_inv _ _ _ _ _ sample_range_ok ltac:(lia) sample_pool_wf) (client_lawful "a") ltac:(vm_compute; reflexivity)
    ltac:(done)) as [Hrepo [Hpools|(c & p1 & w1 & w2 & e & Ha & Hr)]]; [by split|exfalso].
  revert Ha. vm_compute. intros Ha. injection Ha as <- <- _. revert Hr. vm_compute. discriminate.
Defined.

(** ** Destroy *)

Lemma release_ports_in l : forall pp pp', pp_wf pp -> for_each PortPool_Release l pp = (Ok tt, pp') ->
  forall x, x ∈ pp_pool pp \/ x ∈ l /\ in_range pp x -> x ∈ pp_pool pp'.
Proof.
  induction l as [|y l IH]; intros pp pp' Hwf; [intros [= <-]; set_solver|].
  cbn [for_each]. intros ([] & pp1 & H1 & H2)%bind_Ok x Hx.
  destruct (Release_refines _ _ _ _ Hwf H1) as (Hwf1 & HR & _ & Hf).
  apply (IH _ _ Hwf1 H2). rewrite <- elem_of_free, Hf.
  assert (HR1 : in_range pp1 x <-> in_range pp x) by (rewrite <- !elem_of_range by done; by rewrite HR).
  rewrite HR1. destruct Hx as [Hx|[[->|Hx]%elem_of_cons Hr]].
  - left. rewrite <- elem_of_free in Hx. case_decide; set_solver.
  - left. rewrite decide_True by (by apply elem_of_range). set_solver.
  - by right.
Qed.

(** A network that the pool holds is released. *)
Lemma release_held d r n p x p' : pool_inv d r p -> holds p n -> Subnets_Release n p = (x, p') -> x = Ok tt /\ ~ holds p' n.
Proof.
  intros Hinv (ips & Hk & Hin). unfold Subnets_Release. rewrite Hk. cbn [default from_option id].
  destruct (inv_entries _ _ _ Hinv _ _ Hk) as (b & q & zs & He).
  pose proof Hin as [j Hj]%list_elem_of_lookup.
  destruct (Forall2_lookup_l _ _ _ _ _ (entry_ips _ _ _ _ _ _ _ He) Hj) as (z & _ & Hz).
  assert (Hself : IP_Equal (nw_IP n) (nw_IP n) = true) by (rewrite (Equal_is4 _ _ _ _ Hz Hz); by apply bool_decide_true).
  assert (Hnd : NoDup ips).
  { apply NoDup_alt. intros i i' ip Hi Hi'. destruct (Forall2_lookup_l _ _ _ _ _ (entry_ips _ _ _ _ _ _ _ He) Hi) as (y & _ & Hy).
    eapply (pool_exclusive _ _ _ _ _ _ _ _ _ _ _ Hinv Hk Hi Hk Hi'). rewrite (Equal_is4 _ _ _ _ Hy Hy). by apply bool_decide_true. }
  destruct (indexOf ips (nw_IP n)) as [i|] eqn:Hi.
  2: { exfalso. clear -Hi Hj Hself. revert j Hj Hi. induction ips as [|v l IH]; intros [|j]; cbn; try done.
       - intros [= ->]. by rewrite Hself.
       - intros Hj. destruct (IP_Equal v (nw_IP n)); [done|]. intros Hi%fmap_None. by eapply IH. }
  apply indexOf_Some in Hi as (v & Hv & Hvn).
  destruct (pool_exclusive _ _ _ _ _ _ _ _ _ _ _ Hinv Hk Hv Hk Hj Hvn) as [_ ->]. rewrite Hj in Hv. injection Hv as <-.
  pose proof (removeIPAtIndex_perm _ _ _ Hj) as Hperm. unfold removeIPAtIndex in *. cbn [fst] in Hperm.
  rewrite Hperm in Hnd. apply NoDup_cons in Hnd as [Hnot _].
  case_bool_decide; intros [= <- <-]; (split; [done|]); intros (ips' & Hk' & Hin'); cbn in Hk'.
  - by rewrite lookup_delete_eq in Hk'.
  - rewrite lookup_insert_eq in Hk'. by injection Hk' as <-.
Qed.

Lemma destroy_unknown env cfg handle b w : be_repo b !! handle = None ->
  Backend_Destroy env cfg handle (b, w) = (Err (ContainerNotFoundError handle), (b, w)).
Proof.
  intros Hc. unfold Backend_Destroy, Repo_FindByHandle. rewrite bind_eq. unfold gets at 1. cbn [fst]. rewrite bind_eq. unfold lift. by rewrite Hc.
Qed.

(** What [Destroy] does to the repository and to the pools. *)
Lemma destroy_effect env cfg d r handle c b w x b' w' :
  be_inv d r b -> be_repo b !! handle = Some c -> Backend_Destroy env cfg handle (b, w) = (x, (b', w')) ->
  be_repo b' = delete handle (be_repo b) /\
  match x with
  | Ok _ => for_each PortPool_Release (ports_of c) (rp_ports (be_pool b)) = (Ok tt, rp_ports (be_pool b')) /\
      exists n y, net_of c = Some n /\ holds (rp_subnets (be_pool b)) n /\ Subnets_Release n (rp_subnets (be_pool b)) = (y, rp_subnets (be_pool b'))
  | Err _ => be_pools b' = be_pools b
  | Panic _ => True
  end.
Proof.
  intros Hinv Hc. destruct b as [p repo]. cbn [be_repo be_pool] in *. unfold Backend_Destroy, destroy_container, Repo_FindByHandle.
  rewrite bind_eq. unfold gets at 1. cbn [fst be_repo]. rewrite bind_eq. unfold lift. rewrite Hc.
  destruct (bi_owns _ _ _ Hinv _ _ Hc) as [Hh [(n & b1 & q & Hn & _ & _ & Hhold) _]].
  rewrite bind_eq. unfold put_repo, update. cbn [fst snd be_pool be_repo]. unfold Repo_Delete. rewrite Hh, bind_eq.
  destruct (on_container c _ _) as [[[y c1]|e|m] [[p2 repo2] w2]] eqn:Es;
    destruct (on_container_footing _ _ _ _ _ _ (Cleanup_footing _) Es) as (Hr & Hp & _ & Hc1); cbn in Hr, Hp; subst repo2 p2;
    [|by intros [= <- <- <-]..].
  destruct (Hc1 _ _ eq_refl) as [Hres _]. destruct y as [?|e]; [|by intros [= <- <- <-]].
  rewrite with_pool_eq. cbn [be_pool be_repo].
  destruct (Pool_Release env (be_cfg cfg) _ _) as [y [p1 w1]] eqn:E. intros [= <- <- <-]. split; [done|].
  apply Pool_Release_spec in E. rewrite Hres in E. cbn [fst] in E. destruct y as [[]|e|m]; [|exact E|done].
  unfold net_of in *. rewrite Hn in E. destruct E as [Hports [y Hrel]]. split; [done|]. by exists n, y.
Qed.

(** C4: [Destroy] on every branch. An unknown handle is reported and nothing is
    touched. A known one is gone from the repository whatever happens, beside
    which nothing else changes there; when [Destroy] succeeds its network is
    released and its ports are free again, and when it fails they stay taken. *)
Theorem destroy_outcomes env cfg d r handle b w x b' w' :
  be_inv d r b -> Backend_Destroy env cfg handle (b, w) = (x, (b', w')) ->
  match be_repo b !! handle with
  | None => x = Err (ContainerNotFoundError handle) /\ (b', w') = (b, w)
  | Some c =>
      be_repo b' = delete handle (be_repo b) /\
      match x with
      | Ok _ => (forall n, net_of c = Some n -> ~ holds (rp_subnets (be_pool b')) n) /\
                (forall port, port ∈ ports_of c -> in_range (rp_ports (be_pool b)) port -> port ∈ pp_pool (rp_ports (be_pool b')))
      | Err _ => be_pools b' = be_pools b
      | Panic _ => True
      end
  end.
Proof.
  intros Hinv Hd. destruct (be_repo b !! handle) as [c|] eqn:Hc.
  - destruct (destroy_effect _ _ _ _ _ _ _ _ _ _ _ Hinv Hc Hd) as [Hrepo Hx]. split; [done|]. destruct x as [[]|e|m]; [|done|done].
    destruct Hx as (Hports & n & y & Hn & Hhold & Hrel). split.
    + rewrite Hn. intros n' [= <-]. by apply (release_held _ _ _ _ _ _ (bi_subnets _ _ _ Hinv) Hhold Hrel).
    + intros port Hport Hrange. eapply release_ports_in; [apply (bi_ports _ _ _ Hinv)|exact Hports|]. right. done.
  - rewrite destroy_unknown in Hd by done. by injection Hd as <- <- <-.
Qed.

Lemma server3_inv : be_inv 184418304 22 server3.
Proof.
  apply (run_be_inv sample_backend 184418304 22 _ _ server3_reached), fresh_inv; [apply sample_range_ok|lia|apply sample_pool_wf].
Qed.

Definition destroyed : result unit * (LinuxBackend * World) := Eval vm_compute in
  Backend_Destroy env_ok sample_backend "a" (server3, []).

Lemma destroy_outcomes_witness :
  Backend_Destroy env_ok sample_backend "a" (server3, []) = destroyed /\ destroyed.1 = Ok tt /\
  exists c, be_repo server3 !! "a" = Some c /\ be_repo destroyed.2.1 = delete "a" (be_repo server3) /\
    (forall n, net_of c = Some n -> ~ holds (rp_subnets (be_pool destroyed.2.1)) n) /\
    (forall port, port ∈ ports_of c -> in_range (rp_ports (be_pool server3)) port -> port ∈ pp_pool (rp_ports (be_pool destroyed.2.1))).
Proof.
  split; [vm_compute; reflexivity|]. split; [reflexivity|]. eexists. split; [vm_compute; reflexivity|].
  exact (destroy_outcomes env_ok sample_backend 184418304 22 "a" server3 [] destroyed.1 destroyed.2.1 destroyed.2.2
    server3_inv ltac:(vm_compute; reflexivity)).
Defined.

(** ** The number of containers *)








(** ** Races *)

(** [Create] looks its handle up and adds its container later, so two clients
    that ask for the same handle at the same time can both pass the check and
    both be given a container. The repository keeps only the second; the first
    is lost, with its network still allocated. *)
Theorem racing_creates_lose_container :
  let spec := client "a" in
  exists w b1 w1 b2 w2 c1 c2 n1 n2,
    create_check sample_backend spec (sample_server, []) = (Ok tt, (sample_server, w)) /\
    create_check sample_backend spec (sample_server, w) = (Ok tt, (sample_server, w)) /\
    create_make env_ok sample_backend spec (sample_server, w) = (Ok c1, (b1, w1)) /\
    create_make env_ok sample_backend spec (b1, w1) = (Ok c2, (b2, w2)) /\
    map_to_list (be_repo b2) = [("a", c2)] /\ ID (c_spec c1) <> ID (c_spec c2) /\
    net_of c1 = Some n1 /\ net_of c2 = Some n2 /\ IP_Equal (nw_IP n1) (nw_IP n2) = false /\
    holds (rp_subnets (be_pool b2)) n1 /\ holds (rp_subnets (be_pool b2)) n2.
Proof.
  cbn zeta. do 9 eexists. do 4 (split; [vm_compute; reflexivity|]). split; [vm_compute; reflexivity|].
  split; [vm_compute; discriminate|]. do 3 (split; [vm_compute; reflexivity|]).
  split; (eexists; split; [vm_compute; reflexivity|]); vm_compute; by left.
Qed.

(** No file of the container is left to read. *)
Definition file_read (c : Call) : bool := match c with ReadFile _ => true | _ => false end.

(** [Destroy] finds its container and removes it from the repository in two
    steps, so two calls for one handle can both find it, and both release it.
    When a container is created between the two, it is given the network just
    released, and the second call releases it again: the new container's
    address is free to be given to a third one. *)
Theorem double_destroy_frees_network :
  let env := env_without file_read in
  exists c b1 w1 b2 w2 b3 w3 c2 n,
    Repo_FindByHandle "a" (be_repo server1) = Ok c /\
    destroy_container env sample_backend c (server1, []) = (Ok tt, (b1, w1)) /\
    Backend_Create env sample_backend (client "b") (b1, w1) = (Ok c2, (b2, w2)) /\
    holds (rp_subnets (be_pool b2)) n /\
    destroy_container env sample_backend c (b2, w2) = (Ok tt, (b3, w3)) /\
    Repo_FindByHandle "b" (be_repo b3) = Ok c2 /\ net_of c2 = Some n /\ ~ holds (rp_subnets (be_pool b3)) n.
Proof.
  cbn zeta. do 8 eexists. exists (mkNetwork (slot 184418304 0) (bytes4 184418306)).
  do 3 (split; [vm_compute; reflexivity|]).
  split; [eexists; split; [vm_compute; reflexivity|]; vm_compute; by left|].
  do 3 (split; [vm_compute; reflexivity|]).
  intros (ips & H & _). revert H. vm_compute. discriminate.
Qed.


(** ** Restart *)

Lemma restore_ports_Ok todo all n : forall rp w s', pp_wf (rp_ports rp) -> restore_ports todo all n (rp, w) = (Ok tt, s') ->
  rp_subnets s'.1 = rp_subnets rp /\ pp_wf (rp_ports s'.1) /\
  forall x, x ∈ pp_pool (rp_ports s'.1) <-> x ∈ pp_pool (rp_ports rp) /\ x ∉ todo.
Proof.
  induction todo as [|y todo IH]; intros rp w s' Hwf; cbn [restore_ports].
  - intros [= <-]. split_and!; [done|done|]. set_solver.
  - rewrite bind_eq, attempt_eq. unfold with_port_pool at 1, zoom at 1. cbn [fst snd].
    destruct (PortPool_Remove y (rp_ports rp)) as [r pp] eqn:E.
    destruct (Remove_refines _ _ _ _ Hwf E) as (Hwf' & _ & Hspec). destruct r as [[]|e|m]; cbn in Hspec; [| |done].
    + destruct Hspec as [Hin Hf]. intros H. apply IH in H as (H1 & H2 & H3); [|done]. split_and!; [done|done|].
      intros x. rewrite H3. cbn. rewrite <- (elem_of_free pp), Hf, <- (elem_of_free (rp_ports rp)). set_solver.
    + intros (? & ? & _ & H)%bind_Ok. by apply bind_Ok in H as (? & ? & _ & ?).
Qed.

(** A restarted server takes a container back from its snapshot with the same
    identity, network, ports, limits and rules, and takes its network and its
    ports out of the pools. The environment of the container is in the snapshot
    but is not restored: the container comes back with an empty one. *)
Theorem restart_restores_container env cfg c n snap s spec s' :
  Snapshot c = Ok snap -> net_of c = Some n -> pp_wf (rp_ports s.1) ->
  Pool_Restore env cfg snap s = (Ok spec, s') ->
  ID spec = ID (c_spec c) /\ Handle (spec_ContainerSpec spec) = handle_of c /\
  (spec_State spec, Events spec, Limits_ spec, NetIns spec, NetOuts spec) =
    (spec_State (c_spec c), Events (c_spec c), Limits_ (c_spec c), NetIns (c_spec c), NetOuts (c_spec c)) /\
  Properties (spec_ContainerSpec spec) = props c /\
  Some (Processes spec) = fmap (fmap u32) (mapM Atoi (ActiveProcesses (processTracker_ c))) /\
  net_of (NewLinuxContainer spec) = Some n /\ ports_of (NewLinuxContainer spec) = ports_of c /\
  holds (rp_subnets s'.1) n /\ (forall port, port ∈ ports_of c -> port ∉ pp_pool (rp_ports s'.1)) /\
  snap_EnvVars snap = spec_Env (spec_ContainerSpec (c_spec c)) /\ spec_Env (spec_ContainerSpec spec) = [].
Proof.
  unfold Snapshot. destruct (mapM Atoi (ActiveProcesses (processTracker_ c))) as [pids|]; [|done].
  intros [= <-] Hn Hwf. unfold net_of in Hn. unfold Pool_Restore. cbn -[u32]. rewrite Hn. destruct s as [rp w].
  intros ([] & [rp1 w1] & Hrem & H)%bind_Ok. apply bind_Ok in H as ([] & [rp2 w2] & Hre & H).
  apply bind_Ok in H as ([] & [rp3 w3] & Hports & H). apply bind_Ok in H as (v & s4 & Hv & [= <- <-]).
  unfold with_subnets, zoom in Hrem. cbn [fst snd] in *.
  destruct (Subnets_Remove n (rp_subnets rp)) as [x p1] eqn:Erem. injection Hrem as -> <- <-.
  rewrite on_err_eq in Hre. unfold with_bridges, zoom in Hre. cbn [fst snd rp_subnets rp_ports rp_bridges] in Hre.
  destruct (Rereserve _ _ _ _) as [[[]|e|m] [br w4]]; [|by destruct (with_subnets _ _) as [[] ?]|done].
  injection Hre as <- <-. apply restore_ports_Ok in Hports as (H1 & H2 & H3); [|done].
  unfold eff, zoom in Hv. destruct (restoreContainerVersion _ _ _ _) as [y w5]. injection Hv as _ <-.
  cbn [rp_subnets rp_ports fst snd] in *. split_and!; try done.
  - rewrite H1. unfold Subnets_Remove in Erem. case_decide; [done|]. case_match; [done|]. injection Erem as <-.
    eexists. cbn. rewrite lookup_insert_eq. split; [done|]. set_solver.
  - intros port Hport. rewrite H3. intros [_ Hnot]. by apply Hnot.
Qed.

Definition stopped : LinuxContainer :=
  NewLinuxContainer (set_gspec (set_env ["A=1"] sample_gspec) (set_resources
    (mkResources 0 (Some (mkNetwork (slot 184418304 3) (bytes4 184418318))) "w1b-x" [100] []) sample_spec)).

Definition stopped_snapshot : ContainerSnapshot :=
  Eval vm_compute in match Snapshot stopped with Ok s => s | _ => mkSnapshot "" "" "" 0 StateBorn [] (mkContainerLimits None None None None) 0 None "" [] [] [] [] ∅ [] end.

Definition restarted : result LinuxContainerSpec * (LinuxResourcePool * World) := Eval vm_compute in
  Pool_Restore env_ok sample_config stopped_snapshot (sample_pool_state, []).

Definition restarted_spec : LinuxContainerSpec := match restarted.1 with Ok s => s | _ => sample_live end.

Lemma restart_restores_container_witness :
  Pool_Restore env_ok sample_config stopped_snapshot (sample_pool_state, []) = (Ok restarted_spec, restarted.2) /\
  100 ∉ pp_pool (rp_ports restarted.2.1) /\ snap_EnvVars stopped_snapshot = ["A=1"] /\
  spec_Env (spec_ContainerSpec restarted_spec) = [].
Proof.
  assert (H : Pool_Restore env_ok sample_config stopped_snapshot (sample_pool_state, []) = (Ok restarted_spec, restarted.2))
    by (vm_compute; reflexivity).
  split; [exact H|].
  destruct (restart_restores_container env_ok sample_config stopped _ stopped_snapshot (sample_pool_state, []) restarted_spec restarted.2
    ltac:(vm_compute; reflexivity) eq_refl sample_pool_wf H) as (_ & _ & _ & _ & _ & _ & _ & _ & Hp & Hs & He).
  split_and!; [apply Hp; by left|exact Hs|exact He].
Defined.
