(* ===== verification/Restart.v ===== *)
(** * Restarting the server

    [Backend_Stop] writes a snapshot of each container and [Backend_Start] of the next
    server takes them back (linux_backend/linux_backend.go). The file relates the two:
    which snapshots a server writes, and what a server that reads such snapshots comes
    to, on a host that may fail every call, when it reads what was written. *)
From S2P Require Import Prelude GoStrings GoNet IPv4 World ProcessEnv RLimits Sysconfig Subnets SubnetsProofs.
From S2P Require Import SubnetPool SubnetTheorems PortPool BridgeMgr IPTables IPTablesManager Bandwidth.
From S2P Require Import Cgroups Metrics ProcessTracker Container ContainerTheorems ResourcePool.
From S2P Require Import ResourcePoolTheorems Backend Isolation Overlap BackendTheorems TextCodec.

(** ** Snapshots that fit together *)

(** The network of a snapshot, as a subnet [(b, q)] and an address [z]. *)
Record snap_net (d r : Z) (s : ContainerSnapshot) (n : Network) (b q z : Z) : Prop := {
  sn_network : snap_Network s = Some n;
  sn_subnet : nw_Subnet n = net4 b q;
  sn_canonical : canonical b q;
  sn_placed : placed d r b q;
  sn_ip : is4 (nw_IP n) z;
  sn_usable : usable b q z
}.

(** The snapshots with [P] can all be restored into pools over the range [(d, r)] and
    the ports [R]. *)
Record fitting (d r : Z) (R : gset Z) (P : ContainerSnapshot -> Prop) : Prop := {
  fit_net : forall s, P s -> exists n b q z, snap_net d r s n b q z;
  fit_ports : forall s, P s -> NoDup (snap_Ports s) /\ forall x, x ∈ snap_Ports s -> x ∈ R;
  fit_rules : forall s, P s -> Forall (fun i => HostPort i <> 0) (snap_NetIns s);
  fit_apart : forall s s' n b q z n' b' q' z', P s -> P s' -> snap_net d r s n b q z -> snap_net d r s' n' b' q' z' ->
    apart (b, q) (b', q');
  fit_separate : forall s s', P s -> P s' -> snap_Network s = snap_Network s' \/
    (forall n n', snap_Network s = Some n -> snap_Network s' = Some n' -> IP_Equal (nw_IP n) (nw_IP n') = false) /\
    forall x, x ∈ snap_Ports s -> x ∉ snap_Ports s'
}.

(** ** The pools *)

Lemma Remove_acquired d r p n p' : pool_inv d r p -> admissible d r p n -> Subnets_Remove n p = (Ok tt, p') ->
  exists b q z zs, acquired d r p n p' b q z zs.
Proof.
  intros Hinv (b & q & z & Hn & Hc & Hpl & Hz & Hus & Hap). unfold Subnets_Remove. case_decide; [done|]. rewrite Hn.
  destruct (entry_at d r p b q Hinv Hc) as (zs & Hzs & Hnd & Hous).
  rewrite (existsb_is4 _ _ _ _ Hzs Hz). case_bool_decide as Hin; [done|]. intros [= <-]. by exists b, q, z, zs.
Qed.

Lemma Remove_fails n p x p' : Subnets_Remove n p = (x, p') -> x = Ok tt \/ (exists e, x = Err e) /\ p' = p.
Proof. unfold Subnets_Remove. case_decide; [|case_match]; intros [= <- <-]; eauto. Qed.

(** What is held after a network was taken is that network, or was held before. *)
Lemma acquired_only d r p n p' b q z zs n' : acquired d r p n p' b q z zs -> holds p' n' ->
  holds p n' \/ IPNet_String (nw_Subnet n') = IPNet_String (nw_Subnet n) /\ nw_IP n' = nw_IP n.
Proof.
  intros [Hn _ _ _ _ _ _ _ _ ->] (ips & Hk & Hin). cbn in Hk. rewrite <- Hn in Hk.
  apply lookup_insert_Some in Hk as [[Heq <-]|[_ Hk]]; [|left; by exists ips].
  apply elem_of_app in Hin as [Hin|Hin%list_elem_of_singleton]; [|by right]. left.
  destruct (allocated p !! IPNet_String (nw_Subnet n)) as [ips|] eqn:Hp; [|by apply elem_of_nil in Hin].
  exists ips. by rewrite <- Heq.
Qed.

(** Ports that are free can be taken. *)
Lemma restore_ports_free todo all n : forall rp w, pp_wf (rp_ports rp) -> NoDup todo ->
  (forall x, x ∈ todo -> x ∈ pp_pool (rp_ports rp)) ->
  exists pp, restore_ports todo all n (rp, w) = (Ok tt, (mkRP (rp_subnets rp) pp (rp_bridges rp) (rp_nextID rp), w)) /\
    range pp = range (rp_ports rp).
Proof.
  induction todo as [|y todo IH]; intros rp w Hwf Hnd Hin; cbn [restore_ports].
  - exists (rp_ports rp). by destruct rp.
  - apply NoDup_cons in Hnd as [Hy Hnd]. rewrite bind_eq, attempt_eq. unfold with_port_pool at 1, zoom at 1. cbn [fst snd].
    destruct (PortPool_Remove y (rp_ports rp)) as [x pp] eqn:E. destruct (Remove_refines _ _ _ _ Hwf E) as (Hwf' & HR & Hspec).
    destruct x as [[]|e|m]; cbn in Hspec; [|destruct Hspec as (_ & Hnot & _); destruct Hnot; apply elem_of_free, Hin; by left|done].
    destruct Hspec as [_ Hf]. edestruct (IH (mkRP (rp_subnets rp) pp (rp_bridges rp) (rp_nextID rp))) as (pp' & -> & HR').
    + done.
    + done.
    + intros x Hx. cbn. rewrite <- elem_of_free, Hf, elem_of_difference, elem_of_free. split; [apply Hin; by right|set_solver].
    + exists pp'. split; [done|]. by rewrite HR'.
Qed.

(** ** What every part of an operation keeps *)

Definition preserves {S A} (I : S -> Prop) (m : M S A) : Prop := forall s x s', m s = (x, s') -> returns x -> I s -> I s'.

Lemma preserves_ret {S A} (I : S -> Prop) (a : A) : preserves I (ret a).
Proof. by intros s x s' [= <- <-]. Qed.

Lemma preserves_bind {S A B} (I : S -> Prop) (m : M S A) (k : A -> M S B) :
  preserves I m -> (forall a, preserves I (k a)) -> preserves I (bind m k).
Proof.
  intros Hm Hk s x s'. rewrite bind_eq. destruct (m s) as [[a|e|p] s1] eqn:E.
  - intros H Hx HI. eapply Hk; [exact H|done|]. by eapply Hm.
  - intros [= <- <-] Hx HI. by eapply Hm.
  - by intros [= <- <-].
Qed.

Lemma preserves_attempt {S A} (I : S -> Prop) (m : M S A) : preserves I m -> preserves I (attempt m).
Proof. intros Hm s x s'. rewrite attempt_eq. destruct (m s) as [[a|e|p] s1] eqn:E; intros [= <- <-] Hx HI; try done; by eapply Hm. Qed.

Lemma preserves_ignore {S A} (I : S -> Prop) (m : M S A) : preserves I m -> preserves I (ignore m).
Proof. intros Hm s x s'. rewrite ignore_eq. destruct (m s) as [[a|e|p] s1] eqn:E; intros [= <- <-] Hx HI; try done; by eapply Hm. Qed.

Lemma preserves_for_each {S A} (I : S -> Prop) (f : A -> M S unit) l : (forall a, preserves I (f a)) -> preserves I (for_each f l).
Proof. intros Hf. induction l as [|a l IH]; [apply preserves_ret|]. by apply preserves_bind. Qed.

(** A call of the world leaves the server alone. *)
Lemma preserves_eff {S A} (I : S -> Prop) (m : M World A) : preserves (fun s : S * World => I s.1) (eff m).
Proof. intros [s w] x s'. rewrite eff_eq. destruct (m w) as [y w']. by intros [= <- <-]. Qed.

(** ** Taking snapshots back *)

(** The container that was made from a snapshot. *)
Record restored (s : ContainerSnapshot) (c : LinuxContainer) : Prop := {
  rd_handle : handle_of c = snap_Handle s;
  rd_id : ID (c_spec c) = snap_ID s;
  rd_net : net_of c = snap_Network s;
  rd_ports : ports_of c = snap_Ports s
}.

Section Restoring.
Context (cfg : BackendConfig) (d r : Z) (R : gset Z) (P : ContainerSnapshot -> Prop).

(** A server on the way: what its pools have taken belongs to snapshots, and a
    snapshot whose network is not taken has all its ports free. *)
Record restoring (b : LinuxBackend) : Prop := {
  rs_inv : be_inv d r b;
  rs_range : range (rp_ports (be_pool b)) = R;
  rs_held : forall n', holds (rp_subnets (be_pool b)) n' -> exists s n, P s /\ snap_Network s = Some n /\
    IPNet_String (nw_Subnet n') = IPNet_String (nw_Subnet n) /\ nw_IP n' = nw_IP n;
  rs_free : forall s n, P s -> snap_Network s = Some n -> holds (rp_subnets (be_pool b)) n \/
    forall x, x ∈ snap_Ports s -> x ∈ pp_pool (rp_ports (be_pool b));
  rs_repo : forall h c, be_repo b !! h = Some c -> exists s, P s /\ restored s c
}.

Context (Hfit : fitting d r R P).

Lemma restoring_pools p p' repo : rp_subnets p' = rp_subnets p -> rp_ports p' = rp_ports p ->
  restoring (mkBackend p repo) -> restoring (mkBackend p' repo).
Proof.
  intros Hs Hp [H1 H2 H3 H4 H5]. split; cbn in *; [by apply (be_inv_pools _ _ p)|by rewrite Hp|by rewrite Hs|by rewrite Hs, Hp|done].
Qed.

(** A snapshot's network can be taken when it is not taken yet. *)
Lemma restoring_admissible p repo s n : restoring (mkBackend p repo) -> P s -> snap_Network s = Some n ->
  admissible d r (rp_subnets p) n.
Proof.
  intros [Hinv _ Hheld _ _] Hs Hn. destruct (fit_net _ _ _ _ Hfit s Hs) as (n0 & b & q & z & Hsn).
  assert (n0 = n) as -> by (pose proof (sn_network _ _ _ _ _ _ _ Hsn); congruence). cbn in Hheld.
  pose proof Hsn as [_ Hsub Hcan Hpl Hz Hus]. exists b, q, z. split_and!; try done.
  intros k ips b' q' zs Hk He. destruct ips as [|ip ips]; [by destruct (entry_nonempty _ _ _ _ _ _ _ He)|].
  assert (Hh : holds (rp_subnets p) (mkNetwork (net4 b' q') ip)).
  { exists (ip :: ips). cbn. rewrite <- (entry_key _ _ _ _ _ _ _ He). split; [done|left]. }
  destruct (Hheld _ Hh) as (s' & n' & Hs' & Hn' & Hkey & _). cbn in Hkey.
  destruct (fit_net _ _ _ _ Hfit s' Hs') as (n1 & b1 & q1 & z1 & Hsn').
  assert (n1 = n') as -> by (pose proof (sn_network _ _ _ _ _ _ _ Hsn'); congruence).
  rewrite (sn_subnet _ _ _ _ _ _ _ Hsn') in Hkey.
  destruct (net4_inj b' q' b1 q1) as [-> ->]; [apply He|apply Hsn'|done|].
  by eapply (fit_apart _ _ _ _ Hfit s s').
Qed.

(** The network is taken, and given back when the bridge cannot be reserved. *)
Lemma restoring_given_back p repo s n p1 b q z zs y p2 rp : restoring (mkBackend p repo) -> P s -> snap_Network s = Some n ->
  acquired d r (rp_subnets p) n p1 b q z zs -> Subnets_Release n p1 = (y, p2) -> rp_subnets rp = p2 -> rp_ports rp = rp_ports p ->
  restoring (mkBackend rp repo).
Proof.
  intros [[H1 H2 H3 H4] Hrg Hheld Hfree Hrepo] Hs Hn Hacq Hrel Hrp Hpp. cbn in *.
  destruct (acquired_holds _ _ _ _ _ _ _ _ _ H1 Hacq) as [_ Hothers].
  assert (Hkeep : forall n', holds (rp_subnets p) n' -> holds p2 n').
  { intros n' Hh. destruct (Hothers _ Hh) as (Hh1 & _ & Hne). by eapply release_holds. }
  split; cbn; rewrite ?Hpp, ?Hrp; [|done|..|done].
  - split; cbn; rewrite ?Hpp, ?Hrp; [eapply Release_inv; [by eapply acquired_inv|done]|done| |done].
    intros h c Hc. destruct (H3 h c Hc) as [Hh [(n' & b' & q' & ? & ? & ? & Hhold) Hp]]. split; [done|].
    split; [exists n', b', q'; rewrite Hrp; split_and!; [done..|by apply Hkeep]|by rewrite Hpp].
  - intros n' Hh. apply (release_takes_nothing _ _ _ _ _ Hrel) in Hh. apply (acquired_only _ _ _ _ _ _ _ _ _ _ Hacq) in Hh as [Hh|[? ?]].
    + by apply Hheld.
    + by exists s, n.
  - intros s' n' Hs' Hn'. destruct (Hfree s' n' Hs' Hn') as [Hh|Hp]; [left; by apply Hkeep|by right].
Qed.

(** The network and the ports are taken. *)
Lemma restoring_taken p repo s n p1 b q z zs rp : restoring (mkBackend p repo) -> P s -> snap_Network s = Some n ->
  acquired d r (rp_subnets p) n p1 b q z zs -> rp_subnets rp = p1 -> pp_wf (rp_ports rp) -> range (rp_ports rp) = R ->
  (forall x, x ∈ pp_pool (rp_ports rp) <-> x ∈ pp_pool (rp_ports p) /\ x ∉ snap_Ports s) ->
  restoring (mkBackend rp repo).
Proof.
  intros [[H1 H2 H3 H4] Hrg Hheld Hfree Hrepo] Hs Hn Hacq Hrp Hwf HR Hpp. cbn in *.
  destruct (acquired_holds _ _ _ _ _ _ _ _ _ H1 Hacq) as [Hh1 Hothers].
  split; cbn; rewrite ?Hrp; [|done|..|done].
  - split; cbn; rewrite ?Hrp; [by eapply acquired_inv|done| |done].
    intros h c Hc. destruct (H3 h c Hc) as [Hh [(n' & b' & q' & ? & ? & ? & Hhold) Hp]]. split; [done|]. split.
    + exists n', b', q'. rewrite Hrp. split_and!; [done..|by apply Hothers].
    + intros x Hx [Hin _]%Hpp. by apply (Hp x).
  - intros n' Hh. apply (acquired_only _ _ _ _ _ _ _ _ _ _ Hacq) in Hh as [Hh|[? ?]]; [by apply Hheld|by exists s, n].
  - intros s' n' Hs' Hn'. destruct (fit_separate _ _ _ _ Hfit s s' Hs Hs') as [Heq|[_ Hsep]].
    + left. assert (n' = n) as -> by congruence. done.
    + destruct (Hfree s' n' Hs' Hn') as [Hh|Hp]; [left; by apply Hothers|right].
      intros x Hx. apply Hpp. split; [by apply Hp|]. intros Hx'. by apply (Hsep x).
Qed.

Lemma Pool_Restore_restoring env p repo s w x p' w' : restoring (mkBackend p repo) -> P s ->
  Pool_Restore env (be_cfg cfg) s (p, w) = (x, (p', w')) -> returns x ->
  restoring (mkBackend p' repo) /\
  forall spec, x = Ok spec -> owns p' (NewLinuxContainer spec) /\ detached repo (NewLinuxContainer spec) /\
    restored s (NewLinuxContainer spec) /\ NetIns spec = snap_NetIns s.
Proof.
  intros Hre Hs. destruct (fit_net _ _ _ _ Hfit s Hs) as (n & b & q & z & Hsn). pose proof (sn_network _ _ _ _ _ _ _ Hsn) as Hn.
  pose proof (restoring_admissible _ _ _ _ Hre Hs Hn) as Hadm. pose proof (rs_inv _ Hre) as Hinv. pose proof (bi_subnets _ _ _ Hinv) as Hpool.
  cbn in Hpool. unfold Pool_Restore. rewrite Hn, bind_eq. unfold with_subnets at 1, zoom at 1. cbn [fst snd].
  destruct (Subnets_Remove n (rp_subnets p)) as [y p1] eqn:Erem.
  destruct (Remove_fails _ _ _ _ Erem) as [->|[[e ->] ->]].
  2: { intros [= <- <- <-] _. split; [by eapply restoring_pools; [| |exact Hre]|by intros spec [=]]. }
  destruct (Remove_acquired _ _ _ _ _ Hpool Hadm Erem) as (b1 & q1 & z1 & zs & Hacq).
  destruct (acquired_holds _ _ _ _ _ _ _ _ _ Hpool Hacq) as [Hh1 Hothers].
  rewrite bind_eq, on_err_eq. unfold with_bridges, zoom. cbn [fst snd rp_subnets rp_ports rp_bridges rp_nextID].
  destruct (Rereserve _ _ _ _) as [[[]|e|m] [br w4]].
  - pose proof (bi_ports _ _ _ Hinv) as Hwf. cbn in Hwf.
    assert (Hports : forall y, y ∈ snap_Ports s -> y ∈ pp_pool (rp_ports p)).
    { destruct (rs_free _ Hre s n Hs Hn) as [Hheld|Hp]; [|done]. destruct (Hothers _ Hheld) as (_ & Hne & _).
      rewrite (Equal_is4 _ _ _ _ (sn_ip _ _ _ _ _ _ _ Hsn) (sn_ip _ _ _ _ _ _ _ Hsn)) in Hne. by rewrite bool_decide_true in Hne. }
    rewrite bind_eq. edestruct (restore_ports_free (snap_Ports s) (snap_Ports s) n) as (pp & Hrp & HR);
      [| | |rewrite Hrp]; [done|by apply (fit_ports _ _ _ _ Hfit)|done|].
    apply restore_ports_Ok in Hrp as (_ & Hwf' & Hin); [|done]. cbn [fst snd rp_subnets rp_ports rp_bridges rp_nextID] in *.
    assert (Hnew : forall br id, restoring (mkBackend (mkRP p1 pp br id) repo)).
    { intros br' id. eapply (restoring_taken p repo s n p1); try done. cbn. rewrite HR. apply Hre. }
    rewrite bind_eq, eff_eq. destruct (restoreContainerVersion _ _ _ _) as [[v|e|m] w5]; intros [= <- <- <-] Hret; (split; [apply Hnew|]);
      [|by intros ? [=]|done].
    intros spec [= <-]. split_and!; [| |by split|done].
    + split; unfold net_of, ports_of; cbn; [|intros y Hy [_ Hnot]%Hin; by apply Hnot].
      exists n, b, q. split_and!; [done|apply Hsn|apply Hsn|done].
    + intros h c' Hc'. destruct (bi_owns _ _ _ Hinv h c' Hc') as [_ [(n' & b' & q' & Hn' & _ & _ & Hh') Ho]].
      destruct (Hothers _ Hh') as (_ & Hne & Hne'). unfold separate, ports_of. unfold net_of at 1 4. cbn. rewrite Hn'.
      split; (split; [by intros ? ? [= <-] [= <-]|]); intros y Hy Hy'; (apply (Ho y); [done|by apply Hports]).
  - destruct (Subnets_Release n p1) as [y2 p2] eqn:Erel. unfold with_subnets, zoom. cbn [fst snd rp_subnets rp_ports rp_bridges rp_nextID].
    rewrite Erel. destruct y2 as [?|?|?]; intros [= <- <- <-] Hret; try done; (split; [|by intros ? [=]]);
      eapply (restoring_given_back p repo s n p1); done.
  - by intros [= <- <- <-].
Qed.

(** The container's own [Restore] leaves it what it has. *)
Lemma keeps_for_each_Forall {S T A} (f : S -> T) (g : A -> M S unit) l : Forall (fun x => keeps f (g x)) l -> keeps f (for_each g l).
Proof. induction 1 as [|x l Hx _ IH]; [apply keeps_ret|]. by apply keeps_bind. Qed.

Lemma Container_Restore_ground env path node root chains ch snapshot : Forall (fun i => HostPort i <> 0) (NetIns snapshot) ->
  keeps ground (Container_Restore env path node root chains ch snapshot).
Proof.
  intros Hrules. unfold Container_Restore, container_setup, setState, registerEvent, restore_process, NetOut, getc, eff, modc.
  pose proof (fun m => keeps_ground _ (LimitMemory_footing env node root m)) as Hmem.
  assert (Hin : keeps ground (for_each (fun i => bind (NetIn env path (HostPort i) (ContainerPort i)) (fun _ => ret tt)) (NetIns snapshot))).
  { apply keeps_for_each_Forall. eapply Forall_impl; [exact Hrules|]. intros i Hi. cbn in Hi. unfold NetIn, getc, eff, modc.
    rewrite (proj2 (Z.eqb_neq _ _) Hi). keeps_tac. }
  revert Hin. generalize (for_each (fun i => bind (NetIn env path (HostPort i) (ContainerPort i)) (fun _ => ret tt)) (NetIns snapshot)).
  intros rules Hin. repeat first [apply Hmem | apply Hin | progress keeps_tac].
Qed.

(** The error of a snapshot that cannot be restored is dropped; the server goes on. *)
Lemma backend_restore_restoring env data s b w x b' w' : restoring b -> P s -> json_decode cfg data = Ok s ->
  backend_restore env cfg data (b, w) = (x, (b', w')) -> returns x ->
  restoring b' /\ forall c, x = Ok c -> restored s c /\ be_repo b' = <[snap_Handle s := c]> (be_repo b).
Proof.
  intros Hre Hs Hdec. destruct b as [p repo]. unfold backend_restore. rewrite bind_eq. unfold lift. rewrite Hdec, bind_eq, with_pool_eq.
  cbn [be_pool be_repo]. destruct (Pool_Restore env (be_cfg cfg) s (p, w)) as [y [p1 w1]] eqn:E.
  destruct y as [spec|e|m]; [|intros [= <- <- <-] _; split; [by eapply Pool_Restore_restoring|by intros ? [=]]|by intros [= <- <- <-]].
  destruct (Pool_Restore_restoring _ _ _ _ _ _ _ _ Hre Hs E I) as [Hre1 Hspec].
  destruct (Hspec _ eq_refl) as (Hown & Hdet & Hrd & Hins). rewrite bind_eq, on_container_eq. cbn zeta. cbn [be_pool be_repo].
  destruct (Container_Restore _ _ _ _ _ _ _ _) as [y [[c pp] w2]] eqn:Er.
  assert (Hstand : ground ((c, pp), w2) = ground ((NewLinuxContainer spec, rp_ports p1), w1)).
  { eapply Container_Restore_ground; [|exact Er]. rewrite Hins. by apply (fit_rules _ _ _ _ Hfit). }
  unfold ground in Hstand. cbn in Hstand. injection Hstand as Hres Hh -> Hid.
  assert (Hb : restored s c /\ restoring (mkBackend (mkRP (rp_subnets p1) (rp_ports p1) (rp_bridges p1) (rp_nextID p1)) (Repo_Add c repo))).
  { assert (Hrc : restored s c).
    { destruct Hrd as [Ha Hb Hc Hd]. unfold handle_of, net_of, ports_of in *. cbn in *. split; unfold handle_of, net_of, ports_of; by rewrite ?Hh, ?Hid, ?Hres. }
    split; [done|]. eapply (restoring_pools p1); [done|done|]. destruct Hre1 as [H1 H2 H3 H4 H5]. split; [|done|done|done|].
    - apply add_inv; [done|by eapply (owns_same _ (NewLinuxContainer spec))|]. intros h c' Hc'. destruct (Hdet h c' Hc').
      split; [by apply (separate_same (NewLinuxContainer spec) c c' c')|by apply (separate_same c' c' (NewLinuxContainer spec) c)].
    - cbn. unfold Repo_Add. intros h c' [[_ <-]|[_ Hc']]%lookup_insert_Some; [by exists s|by eapply H5]. }
  destruct Hb as [Hrc Hb]. destruct y as [a|e|m]; [| |by intros [= <- <- <-]];
    (rewrite bind_eq; unfold put_repo, update; cbn; intros [= <- <- <-] _; split; [exact Hb|]);
    (intros c0 [= <-]; split; [done|]; cbn; unfold Repo_Add; by rewrite (rd_handle _ _ Hrc)).
Qed.

(** The host gives back snapshots with [P], or what is not a snapshot. *)
Definition gives_back (env : Env) : Prop := forall h name data,
  env h (ReadFile (path_join [snapshotsPath cfg; name])) = inl data ->
  (exists s, P s /\ json_decode cfg data = Ok s) \/ exists e, json_decode cfg data = Err e.

Lemma Start_restoring env : (snapshotsPath cfg <> "" -> gives_back env) -> preserves (fun s => restoring s.1) (Backend_Start env cfg).
Proof.
  intros Hgives. assert (Hone : snapshotsPath cfg <> "" -> forall name, preserves (fun s => restoring s.1)
    (bind (eff (call env (ReadFile (path_join [snapshotsPath cfg; name])))) (fun data => backend_restore env cfg data))).
  { intros Hp name [b w] x [b' w']. rewrite bind_eq, eff_eq, call_eq. destruct (env w _) as [data|e] eqn:E; [|by intros [= <- <- <-]].
    destruct (Hgives Hp _ _ _ E) as [(s & Hs & Hdec)|[e Hdec]]; intros H Hx Hre; [by eapply backend_restore_restoring|].
    unfold backend_restore in H. rewrite bind_eq in H. unfold lift in H. rewrite Hdec in H. by injection H as <- <- <-. }
  unfold Backend_Start, restoreSnapshots. repeat first
    [ by apply Hone | apply preserves_bind; [|intros ?] | apply preserves_ret | apply preserves_attempt | apply preserves_eff | apply preserves_ignore
    | apply preserves_for_each; intros ? | case_match ].
  - by intros s x s' [= <- <-].
  - intros [b w] x s'. rewrite with_pool_eq. destruct (Pool_Prune _ _ _ _) as [y [p w1]] eqn:E. intros [= <- <-] _ Hre. cbn in *.
    assert (Hk : keeps pools (Pool_Prune env (be_cfg cfg) (list_to_set ((fun c => ID (c_spec c)) <$> Repo_All a0)))).
    { unfold Pool_Prune, pruneEntry, with_bridges, eff. repeat first [apply releaseSystemResources_keeps | progress keeps_tac]. }
    apply Hk in E. unfold pools in E. cbn in E. injection E as H1 H2. destruct b. by eapply restoring_pools.
Qed.
End Restoring.

(** ** The ports of the containers of a server

    A port that a container has is one of the pool's range and is there once, and no
    mapping of a container is from the port 0 unless the range has it. *)

Record tidy_container (R : gset Z) (c : LinuxContainer) : Prop := {
  tc_nodup : NoDup (ports_of c);
  tc_range : forall x, x ∈ ports_of c -> x ∈ R;
  tc_rules : Forall (fun i => HostPort i <> 0) (NetIns (c_spec c))
}.

Record tidy (R : gset Z) (b : LinuxBackend) : Prop := {
  td_range : range (rp_ports (be_pool b)) = R;
  td_containers : forall h c, be_repo b !! h = Some c -> tidy_container R c
}.

(** The same for all containers of a system. *)
Definition tidy_live (R : gset Z) (s : LinuxResourcePool * list LinuxContainer) : Prop :=
  range (rp_ports s.1) = R /\ Forall (tidy_container R) s.2.

Lemma tidy_system R s : tidy_live R (holdings s) -> tidy R (sy_backend s).
Proof.
  destruct s as [b l]. intros [HR Hall]. unfold holdings, live in *. cbn in *. apply Forall_app in Hall as [Hall _]. split; [done|].
  intros h c Hc. rewrite Forall_forall in Hall. apply Hall, elem_of_registered. by exists h.
Qed.

Section Tidy.
Context (cfg : BackendConfig) (d r : Z) (R : gset Z) (H0 : 0 ∉ R).

Lemma release_range env c p w x p' w' : pp_wf (rp_ports p) -> Pool_Release env (be_cfg cfg) c (p, w) = (x, (p', w')) -> returns x ->
  range (rp_ports p') = range (rp_ports p).
Proof.
  intros Hwf H Hx. apply Pool_Release_spec in H. destruct x as [[]|e|m]; cbn in H; [|unfold pools in H; by injection H as _ ->|done].
  destruct H as [H _]. by eapply release_ports_range.
Qed.

Lemma method_tidy p c c' pp w w' : pp_wf (rp_ports p) -> range (rp_ports p) = R -> owns p c -> tidy_container R c ->
  takes_port ((c, rp_ports p), w) ((c', pp), w') -> maps_port ((c, rp_ports p), w) ((c', pp), w') ->
  range pp = R /\ tidy_container R c'.
Proof.
  intros Hwf HR [_ Hown] [Hnd Hin Hrules] Ht Hm. cbn in *.
  assert (Hacq : forall port, fst (PortPool_Acquire (rp_ports p)) = Ok port -> port ∈ R /\ port ∈ pp_pool (rp_ports p) /\
    range (snd (PortPool_Acquire (rp_ports p))) = R).
  { intros port Hport. destruct (PortPool_Acquire (rp_ports p)) as [z pp'] eqn:Ea. cbn in Hport. subst z.
    destruct (Acquire_refines _ _ _ Hwf Ea) as (Hwf' & HR' & Hport & _). rewrite elem_of_free in Hport. split_and!; [|done|cbn; congruence].
    rewrite <- HR. apply elem_of_range; [done|]. pose proof (wf_range _ Hwf) as Hall. rewrite Forall_forall in Hall. by apply Hall. }
  assert (Hrul : Forall (fun i => HostPort i <> 0) (NetIns (c_spec c'))).
  { destruct Hm as [Hm|(port & cp & Hm & Hport)]; cbn in Hm; rewrite Hm; [done|]. apply Forall_app. split; [done|]. apply Forall_singleton. cbn.
    destruct Hport as [?|Hport]; [done|]. destruct (Hacq _ Hport) as [? _]. by intros ->. }
  destruct Ht as [Ht|(port & Ha & _ & _ & Hr)]; cbn in *.
  - unfold ground in Ht. cbn in Ht. injection Ht as Hr _ -> _. split; [done|]. split; unfold ports_of; rewrite ?Hr; done.
  - destruct (Hacq port) as (Hp & Hfree & HR'); [by rewrite Ha|]. rewrite Ha in HR'. split; [done|]. split; [..|done]; unfold ports_of; rewrite Hr; cbn.
    + apply NoDup_app. split_and!; [done| |apply NoDup_singleton]. intros y' Hy ->%list_elem_of_singleton. by apply (Hown port).
    + intros y' [?| ->%list_elem_of_singleton]%elem_of_app; [by apply Hin|done].
Qed.

Lemma move_tidy s s' : move cfg s s' -> live_inv d r s -> tidy_live R s -> tidy_live R s'.
Proof.
  intros Hm Hinv [HR Hall]. destruct Hm as [p p' L L' Hs Hp HL|env spec p w x p' w' L H6 Ha Hx|p c c' L Hr Hn|p c L|env sp p w x p' w' c L Hr Hrel Hx
    |p c c' pp' w w' L Ht Hm]; cbn in HR, Hall.
  - split; cbn; [by rewrite Hp|by rewrite <- HL].
  - pose proof (Pool_Acquire_spec _ _ _ d r (p, w) _ _ (lv_subnets _ _ _ Hinv) (ipv4_lawful _ _ _ H6) Ha) as Hspec.
    destruct x as [c|e|m]; [| |done]; [|injection Hspec as _ Hp; split; cbn; [by rewrite Hp|done]].
    destruct Hspec as [_ _ Hpp (n & b1 & q & z & zs & uid & br & _ & Hres) Hins]. cbn [fst] in Hpp. split; cbn; [by rewrite Hpp|constructor; [|done]].
    split; unfold ports_of; cbn; rewrite ?Hres, ?Hins; cbn; [constructor|by intros ? ?%elem_of_nil|constructor].
  - apply Forall_cons in Hall as [[H1 H2 H3] Hall]. split; [done|]. constructor; [|done].
    unfold ports_of in *. split; unfold ports_of; rewrite ?Hr, ?Hn; done.
  - by apply Forall_cons in Hall as [_ Hall].
  - apply Forall_cons in Hall as [_ Hall]. split; [|done]. cbn. rewrite <- HR. eapply release_range; [apply Hinv|done|done].
  - apply Forall_cons in Hall as [Hc Hall]. destruct Hinv as [_ H2 [Ho _]%Forall_cons _]. cbn in *.
    destruct (method_tidy _ _ _ _ _ _ H2 HR Ho Hc Ht Hm). split; [done|]. by constructor.
Qed.

Lemma run_tidy s s' : rtc (ov_step cfg) s s' -> system_inv d r s -> tidy_live R (holdings s) -> tidy_live R (holdings s').
Proof.
  assert (Hmoves : forall t t', rtc (move cfg) t t' -> live_inv d r t -> tidy_live R t -> tidy_live R t').
  { induction 1; eauto using move_tidy, move_inv. }
  induction 1 as [|s1 s2 s3 Hs _ IH]; [done|]. intros Hinv Ht.
  assert (Hinv2 : system_inv d r s2) by (by eapply run_system_inv; [apply rtc_once|]). apply IH; [done|].
  destruct Hinv as [Hk Hl]. eapply Hmoves; [by apply step_moves|done|done].
Qed.
End Tidy.

(** ** Stopping *)

(** A network written as JSON and read again: the methods of resources.go. *)
Definition network_json (n : option Network) : result (option Network) :=
  match n with
  | Some n => res_bind (Network_UnmarshalJSON (Network_MarshalJSON n)) (fun n' => Ok (Some n'))
  | None => Ok None
  end.

(** What is read back from the text of the snapshot [s]: encoding/json gives back texts
    and numbers, and leaves the network to the methods of the type. *)
Record reread (s s' : ContainerSnapshot) : Prop := {
  rr_handle : snap_Handle s' = snap_Handle s;
  rr_id : snap_ID s' = snap_ID s;
  rr_net : network_json (snap_Network s) = Ok (snap_Network s');
  rr_ports : snap_Ports s' = snap_Ports s;
  rr_rules : snap_NetIns s' = snap_NetIns s;
  rr_bridge : snap_Bridge s' = snap_Bridge s
}.

(** The parts of a container that its snapshot has to get right, as they are read. *)
Record snapshot_of (c : LinuxContainer) (s : ContainerSnapshot) : Prop := {
  so_handle : snap_Handle s = handle_of c;
  so_id : snap_ID s = ID (c_spec c);
  so_net : network_json (net_of c) = Ok (snap_Network s);
  so_ports : snap_Ports s = ports_of c;
  so_rules : snap_NetIns s = NetIns (c_spec c);
  so_bridge : snap_Bridge s = Bridge (spec_Resources (c_spec c))
}.

Lemma Snapshot_of c s s' : Snapshot c = Ok s -> reread s s' -> snapshot_of c s'.
Proof. unfold Snapshot. destruct (mapM _ _); [|done]. intros [= <-] []. by split. Qed.

(** The subnet comes back, and the address in its long form. *)
Lemma network_json_net4 b q ip z : canonical b q -> is4 ip z ->
  network_json (Some (mkNetwork (net4 b q) ip)) = Ok (Some (mkNetwork (net4 b q) (v4InV6Prefix ++ bytes4 z))) /\ is4 (v4InV6Prefix ++ bytes4 z) z.
Proof.
  intros Hc Hz. split; [|apply (is4_16 z), Hz]. unfold network_json, Network_UnmarshalJSON, Network_MarshalJSON. cbn [fst snd nw_IP nw_Subnet].
  rewrite ParseCIDR_net4 by done. cbn [res_bind]. by rewrite (IP_String_is4 _ _ Hz), ParseIP_dotted.
Qed.

(** The writes of a history are those of snapshots of the containers [cs]. *)
Definition writes_of (cfg : BackendConfig) (cs : list LinuxContainer) (c : Call) : Prop :=
  match c with
  | WriteFile p data => exists c s, c ∈ cs /\ Snapshot c = Ok s /\ data = json_encode cfg s /\
      p = path_join [snapshotsPath cfg; ID (c_spec c)]
  | _ => True
  end.

Lemma saveSnapshot_writes env cfg c b w x b' w' : saveSnapshot env cfg c (b, w) = (x, (b', w')) ->
  exists l, w' = w ++ l /\ Forall (writes_of cfg [c]) l.
Proof.
  unfold saveSnapshot. case_decide; [intros [= <- <- <-]; exists []; by rewrite app_nil_r|].
  rewrite bind_eq, map_err_eq, eff_eq, call__eq.
  destruct (env w _) as [out|e]; [|intros [= <- <- <-]; eexists; split; [done|by repeat constructor]].
  rewrite bind_eq, map_err_eq. unfold lift. destruct (Snapshot c) as [s|e|m] eqn:E;
    [|intros [= <- <- <-]; eexists; split; [done|by repeat constructor]..].
  assert (Hw : writes_of cfg [c] (WriteFile (path_join [snapshotsPath cfg; ID (c_spec c)]) (json_encode cfg s))).
  { exists c, s. split_and!; [by left|done..]. }
  rewrite bind_eq, map_err_eq, eff_eq, call__eq. destruct (env _ (WriteFile _ _)) as [out2|e].
  - rewrite eff_eq, call__eq. intros [= _ _ <-]. rewrite <- !(assoc_L (++)). eexists. split; [done|]. repeat constructor. exact Hw.
  - intros [= _ _ <-]. rewrite <- !(assoc_L (++)). eexists. split; [done|]. repeat constructor. exact Hw.
Qed.

Lemma Cleanup_calls env s x s' : Cleanup env s = (x, s') -> s'.1 = s.1 /\
  exists l, s'.2 = s.2 ++ l /\ Forall (fun c => match c with WriteFile _ _ => False | _ => True end) l.
Proof.
  destruct s as [[c pp] w]. unfold Cleanup, Unwatch. rewrite bind_eq. unfold getc, gets. cbn [fst].
  destruct (oom_cmd c); [rewrite ignore_eq, eff_eq, call__eq; destruct (env _ _)|]; intros [= <- <-]; (split; [done|]);
    [..|exists []; by rewrite app_nil_r]; (eexists; split; [done|by repeat constructor]).
Qed.

Lemma stop_all_writes env cfg cs : forall b w x b' w', stop_all env cfg cs (b, w) = (x, (b', w')) ->
  exists l, w' = w ++ l /\ Forall (writes_of cfg cs) l.
Proof.
  induction cs as [|c cs IH]; intros b w x b' w'; cbn [stop_all]; [intros [= <- <- <-]; exists []; by rewrite app_nil_r|].
  assert (Hmono : forall cs1 l, (forall c', c' ∈ cs1 -> c' ∈ c :: cs) -> Forall (writes_of cfg cs1) l -> Forall (writes_of cfg (c :: cs)) l).
  { intros cs1 l Hin H. eapply Forall_impl; [exact H|]. intros []; cbn; try done. intros (c1 & s & ? & ?). exists c1, s. eauto. }
  rewrite bind_eq, on_container_eq. cbn zeta. destruct (Cleanup env _) as [y [[c' pp] w1]] eqn:E.
  apply Cleanup_calls in E as (Hs & l1 & Hw1 & Hl1). cbn in Hs, Hw1. subst w1. injection Hs as -> ->.
  assert (Hl1' : Forall (writes_of cfg (c :: cs)) l1) by (eapply Forall_impl; [exact Hl1|]; by intros []).
  destruct y as [a|e|m]; [| |intros [= <- <- <-]; by exists l1]; rewrite bind_eq; unfold put_repo, update at 1; cbn [fst snd];
    rewrite bind_eq, ignore_eq; destruct (saveSnapshot _ _ _ _) as [z [b1 w2]] eqn:Es;
    apply saveSnapshot_writes in Es as (l2 & -> & Hl2);
    (apply Hmono in Hl2; [|set_solver]); (destruct z; [intros H|intros H|intros [= <- <- <-]; exists (l1 ++ l2);
      split; [by rewrite (assoc_L (++))|by apply Forall_app]]); apply IH in H as (l3 & -> & Hl3);
    (exists (l1 ++ l2 ++ l3); split; [by rewrite !(assoc_L (++))|]);
    (rewrite !Forall_app; split_and!; [done|done|]; apply (Hmono cs); [set_solver|done]).
Qed.

(** ** From one server to the next *)

(** The snapshots of the containers of a server fit together. *)
Definition saved (b : LinuxBackend) (s : ContainerSnapshot) : Prop := exists h c, be_repo b !! h = Some c /\ snapshot_of c s.

Lemma owned_entry d r p c : pool_inv d r (rp_subnets p) -> owns p c -> exists n b q z ips zs,
  net_of c = Some n /\ nw_Subnet n = net4 b q /\ is4 (nw_IP n) z /\ usable b q z /\
  allocated (rp_subnets p) !! IPNet_String (net4 b q) = Some ips /\ entry_ok d r (IPNet_String (net4 b q)) ips b q zs.
Proof.
  intros Hinv [(n & b & q & Hn & Hsub & Hcan & ips & Hk & Hin) _]. rewrite Hsub in Hk.
  destruct (inv_entries _ _ _ Hinv _ _ Hk) as (b' & q' & zs & He).
  destruct (net4_inj _ _ _ _ Hcan (entry_canonical _ _ _ _ _ _ _ He) (entry_key _ _ _ _ _ _ _ He)) as [<- <-].
  apply list_elem_of_lookup in Hin as [i Hi]. destruct (Forall2_lookup_l _ _ _ _ _ (entry_ips _ _ _ _ _ _ _ He) Hi) as (z & Hz & His).
  exists n, b, q, z, ips, zs. split_and!; try done. by apply (Forall_lookup_1 _ _ _ _ (entry_usable _ _ _ _ _ _ _ He) Hz).
Qed.

Lemma owned_snapshot d r p c s : pool_inv d r (rp_subnets p) -> owns p c -> snapshot_of c s -> exists n b q z ips zs,
  net_of c = Some n /\ nw_Subnet n = net4 b q /\ is4 (nw_IP n) z /\ snap_net d r s (mkNetwork (net4 b q) (v4InV6Prefix ++ bytes4 z)) b q z /\
  allocated (rp_subnets p) !! IPNet_String (net4 b q) = Some ips /\ entry_ok d r (IPNet_String (net4 b q)) ips b q zs.
Proof.
  intros Hp Hown Hs. destruct (owned_entry _ _ _ _ Hp Hown) as ([sub ip] & b & q & z & ips & zs & Hn & Hsub & Hz & Hus & Hk & He). cbn in Hsub, Hz. subst sub.
  destruct (network_json_net4 b q ip z (entry_canonical _ _ _ _ _ _ _ He) Hz) as [Hj H16].
  exists (mkNetwork (net4 b q) ip), b, q, z, ips, zs. split_and!; try done.
  split; [|done|apply He|apply He|done|done]. pose proof (so_net _ _ Hs) as Hnet. rewrite Hn, Hj in Hnet. by injection Hnet.
Qed.

Lemma saved_fitting d r R b : be_inv d r b -> tidy R b -> fitting d r R (saved b).
Proof.
  intros Hinv [HR Htidy]. pose proof (bi_subnets _ _ _ Hinv) as Hp.
  assert (Hsnap : forall h c s, be_repo b !! h = Some c -> snapshot_of c s -> exists n b1 q z ips zs,
    net_of c = Some n /\ nw_Subnet n = net4 b1 q /\ is4 (nw_IP n) z /\ snap_net d r s (mkNetwork (net4 b1 q) (v4InV6Prefix ++ bytes4 z)) b1 q z /\
    allocated (rp_subnets (be_pool b)) !! IPNet_String (net4 b1 q) = Some ips /\ entry_ok d r (IPNet_String (net4 b1 q)) ips b1 q zs).
  { intros h c s Hc Hs. destruct (bi_owns _ _ _ Hinv _ _ Hc) as [_ Hown]. by apply owned_snapshot. }
  split.
  - intros s (h & c & Hc & Hs). destruct (Hsnap h c s Hc Hs) as (n & b1 & q & z & ips & zs & _ & _ & _ & Hsn & _). eauto.
  - intros s (h & c & Hc & Hs). rewrite (so_ports _ _ Hs). by destruct (Htidy _ _ Hc).
  - intros s (h & c & Hc & Hs). rewrite (so_rules _ _ Hs). by destruct (Htidy _ _ Hc).
  - intros s s' n1 b1 q1 z1 n2 b2 q2 z2 (h & c & Hc & Hs) (h' & c' & Hc' & Hs') [N1 S1 C1 _ _ _] [N2 S2 C2 _ _ _].
    destruct (Hsnap h c s Hc Hs) as (m & x & q & z & ips & zs & _ & _ & _ & [N1' _ _ _ _ _] & Hk & He).
    destruct (Hsnap h' c' s' Hc' Hs') as (m' & x' & q' & z' & ips' & zs' & _ & _ & _ & [N2' _ _ _ _ _] & Hk' & He').
    rewrite N1 in N1'. injection N1' as ->. rewrite N2 in N2'. injection N2' as ->. cbn in S1, S2.
    destruct (net4_inj x q b1 q1) as [-> ->]; [apply He|done|congruence|].
    destruct (net4_inj x' q' b2 q2) as [-> ->]; [apply He'|done|congruence|].
    exact (inv_apart _ _ _ Hp _ _ _ _ _ _ _ _ _ _ Hk Hk' He He').
  - intros s s' (h & c & Hc & Hs) (h' & c' & Hc' & Hs'). destruct (decide (h = h')) as [<-|Hne].
    { left. rewrite Hc in Hc'. injection Hc' as <-. pose proof (so_net _ _ Hs) as N1. rewrite (so_net _ _ Hs') in N1. by injection N1. }
    right. destruct (bi_separate _ _ _ Hinv _ _ _ _ Hc Hc' Hne) as [S1 S2]. rewrite (so_ports _ _ Hs), (so_ports _ _ Hs'). split; [|exact S2].
    destruct (Hsnap h c s Hc Hs) as (m & x & q & z & ips & zs & Hm & _ & Hz & [N1 _ _ _ Hz1 _] & _).
    destruct (Hsnap h' c' s' Hc' Hs') as (m' & x' & q' & z' & ips' & zs' & Hm' & _ & Hz' & [N2 _ _ _ Hz2 _] & _).
    specialize (S1 _ _ Hm Hm'). rewrite (Equal_is4 _ _ _ _ Hz Hz') in S1. rewrite N1, N2. intros n n' [= <-] [= <-].
    cbn in Hz1, Hz2 |- *. by rewrite (Equal_is4 _ _ _ _ Hz1 Hz2).
Qed.

(** A server that has just started has room for them all. *)
Lemma fresh_restoring d r ports bridges id P : canonical d r -> r <= 30 -> pp_wf ports -> free ports = range ports ->
  fitting d r (range ports) P -> restoring d r (range ports) P (fresh_backend d r ports bridges id).
Proof.
  intros Hcan Hr Hwf Hfree Hfit. split; [by apply fresh_inv|done|..]; cbn.
  - intros n' (ips & Hk & _). cbn in Hk. by rewrite lookup_empty in Hk.
  - intros s n Hs Hn. right. intros x Hx. rewrite <- elem_of_free, Hfree. by apply (fit_ports _ _ _ _ Hfit s).
  - intros h c. by rewrite lookup_empty.
Qed.

(** A server that has just started is tidy. *)
Lemma fresh_tidy d r ports bridges id : tidy (range ports) (fresh_backend d r ports bridges id).
Proof. split; cbn; [done|]. intros h c. by rewrite lookup_empty. Qed.

(** The snapshots of the server's containers can be read back from their text. *)
Definition codec (cfg : BackendConfig) (b : LinuxBackend) : Prop := forall h c s,
  be_repo b !! h = Some c -> Snapshot c = Ok s -> exists s', json_decode cfg (json_encode cfg s) = Ok s' /\ reread s s'.

(** What the files of the snapshots hold when the next server starts: what the
    server that stopped wrote, or nothing that a snapshot can be read from. *)
Definition files_kept (cfg : BackendConfig) (l : list Call) (env : Env) : Prop := forall h name data,
  env h (ReadFile (path_join [snapshotsPath cfg; name])) = inl data ->
  WriteFile (path_join [snapshotsPath cfg; name]) data ∈ l \/ exists e, json_decode cfg data = Err e.

(** A container of the next server is one of the server that stopped: it has its
    identity and its ports, its subnet, and its address, perhaps in another form. *)
Record came_back (c0 c : LinuxContainer) : Prop := {
  cb_handle : handle_of c = handle_of c0;
  cb_id : ID (c_spec c) = ID (c_spec c0);
  cb_ports : ports_of c = ports_of c0;
  cb_net : exists n0 n, net_of c0 = Some n0 /\ net_of c = Some n /\ nw_Subnet n = nw_Subnet n0 /\ IP_Equal (nw_IP n) (nw_IP n0) = true
}.

(** A server and the server that is started after it was stopped. *)
Section Restart.
Context (cfg : BackendConfig) (d r start size : Z).
Context (Hcan : canonical d r) (Hr : r <= 30) (Hstart : 0 < start) (Hsize : 0 <= size) (Hmax : start + size <= 65535).

Lemma stopped_fits st ports bridges id s : 0 <= Offset st -> PortPool_New start size st = Ok ports ->
  rtc (ov_step cfg) (mkSystem (fresh_backend d r ports bridges id) []) s ->
  be_inv d r (sy_backend s) /\ fitting d r (range ports) (saved (sy_backend s)).
Proof.
  intros Hoff Hnew Hrun. destruct (New_wf _ _ _ _ (Z.lt_le_incl _ _ Hstart) Hsize Hmax Hoff Hnew) as [Hwf _].
  pose proof (fresh_inv d r ports bridges id Hcan Hr Hwf) as Hfresh.
  assert (Hinv : be_inv d r (sy_backend s)) by (by eapply run_be_inv). split; [done|]. apply saved_fitting; [done|].
  apply tidy_system. eapply run_tidy; [|exact Hrun|by apply be_system_inv|].
  - rewrite elem_of_range by done. rewrite (New_ports _ _ _ (Z.lt_le_incl _ _ Hstart) Hsize Hmax Hoff) in Hnew. injection Hnew as <-. unfold in_range. cbn. lia.
  - split; [done|]. unfold holdings, live, registered. cbn. rewrite map_to_list_empty. constructor.
Qed.

Lemma stop_gives_back env env' b w x b1 l : codec cfg b -> Backend_Stop env cfg (b, w) = (x, (b1, w ++ l)) -> files_kept cfg l env' ->
  gives_back cfg (saved b) env'.
Proof.
  unfold Backend_Stop. rewrite bind_eq. unfold gets. cbn [fst]. intros Hjson (l' & Hl & Hw)%stop_all_writes Hkept h name data Hread.
  apply app_inv_head in Hl as <-. destruct (Hkept _ _ _ Hread) as [Hin|Herr]; [left|by right].
  rewrite Forall_forall in Hw. destruct (Hw _ Hin) as (c & s & Hc & Hs & -> & _).
  unfold Repo_All, Repo_Query in Hc. rewrite list_elem_of_In, List.filter_In, <- list_elem_of_In in Hc. destruct Hc as [Hc _].
  apply list_elem_of_fmap in Hc as ([h' c'] & -> & Hc%elem_of_map_to_list). destruct (Hjson _ _ _ Hc Hs) as (s' & Hdec & Hrr). exists s'.
  split; [exists h', c'; split; [done|by eapply Snapshot_of]|done].
Qed.

(** What the next server starts from: snapshots that fit together and room for all. *)
Lemma restart_setup env env' st st' ports ports' bridges bridges' id id' s w x b1 l :
  0 <= Offset st -> 0 <= Offset st' -> PortPool_New start size st = Ok ports -> PortPool_New start size st' = Ok ports' ->
  rtc (ov_step cfg) (mkSystem (fresh_backend d r ports bridges id) []) s -> codec cfg (sy_backend s) ->
  Backend_Stop env cfg (sy_backend s, w) = (x, (b1, w ++ l)) -> files_kept cfg l env' ->
  be_inv d r (sy_backend s) /\ fitting d r (range ports') (saved (sy_backend s)) /\ gives_back cfg (saved (sy_backend s)) env' /\
  restoring d r (range ports') (saved (sy_backend s)) (fresh_backend d r ports' bridges' id').
Proof.
  intros Hoff Hoff' Hnew Hnew' Hrun Hjson Hstop Hkept. destruct (stopped_fits _ _ _ _ _ Hoff Hnew Hrun) as [Hinv Hfit].
  destruct (New_wf _ _ _ _ (Z.lt_le_incl _ _ Hstart) Hsize Hmax Hoff' Hnew') as [Hwf' Hfree'].
  assert (HR : range ports = range ports').
  { rewrite (New_ports _ _ _ (Z.lt_le_incl _ _ Hstart) Hsize Hmax Hoff) in Hnew.
    rewrite (New_ports _ _ _ (Z.lt_le_incl _ _ Hstart) Hsize Hmax Hoff') in Hnew'. by injection Hnew as <-; injection Hnew' as <-. }
  rewrite HR in Hfit. split_and!; [done|done|by eapply stop_gives_back|by apply fresh_restoring].
Qed.

(** A container of the next server and the one of the stopped server it was made from. *)
Lemma restored_from R b b2 h c : be_inv d r b -> restoring d r R (saved b) b2 -> be_repo b2 !! h = Some c ->
  exists c0, be_repo b !! h = Some c0 /\ came_back c0 c.
Proof.
  intros Hinv Hre Hc. destruct (rs_repo _ _ _ _ _ Hre _ _ Hc) as (s & (h0 & c0 & Hc0 & Hs) & Hrd). exists c0.
  destruct (bi_owns _ _ _ (rs_inv _ _ _ _ _ Hre) _ _ Hc) as [Hh _], (bi_owns _ _ _ Hinv _ _ Hc0) as [Hh0 Hown].
  destruct (owned_snapshot _ _ _ _ _ (bi_subnets _ _ _ Hinv) Hown Hs) as (n & b' & q & z & ips & zs & Hn & Hsub & Hz & [Hnet _ _ _ Hz' _] & _).
  destruct Hrd as [H1 H2 H3 H4], Hs as [S1 S2 S3 S4 _ _]. assert (h = h0) as -> by congruence. split; [done|]. split; [congruence..|].
  eexists n, _. split; [done|]. split; [by rewrite H3|]. split; [by rewrite Hsub|]. cbn [nw_IP] in Hz' |- *.
  rewrite (Equal_is4 _ _ _ _ Hz' Hz). by apply bool_decide_true.
Qed.

(** C6: the isolation of containers survives a restart of the server. A server
    that was reached by any calls that may overlap as in C1, on a host that may
    fail, is stopped while no call runs, which may fail to save some containers, and
    the next server starts with the same address range and the same port range,
    which does not begin with port 0, on a host where reading a snapshot may fail
    too and a file may hold what no snapshot can be read from. Of the JSON codec
    it is assumed that the text of the snapshot of a container of the server can be
    read, with the names, the ports and the mappings that were written, and the
    network as its own methods write and read it. Then each container that the
    next server has is one of the stopped server's, with its handle, its identity
    and its ports, its subnet and its address (in the 16-byte form), and in every
    state that further calls can reach the containers are isolated: what was taken
    back is not given to new containers. *)
Theorem restart_isolates env env' st st' ports ports' bridges bridges' id id' s w x b1 l w' x' b2 w2 :
  0 <= Offset st -> 0 <= Offset st' -> PortPool_New start size st = Ok ports -> PortPool_New start size st' = Ok ports' ->
  rtc (ov_step cfg) (mkSystem (fresh_backend d r ports bridges id) []) s -> codec cfg (sy_backend s) ->
  Backend_Stop env cfg (sy_backend s, w) = (x, (b1, w ++ l)) -> files_kept cfg l env' ->
  Backend_Start env' cfg (fresh_backend d r ports' bridges' id', w') = (x', (b2, w2)) -> returns x' ->
  (forall h c, be_repo b2 !! h = Some c -> exists c0, be_repo (sy_backend s) !! h = Some c0 /\ came_back c0 c) /\
  forall s3, rtc (ov_step cfg) (mkSystem b2 []) s3 -> system_isolated s3.
Proof.
  intros Hoff Hoff' Hnew Hnew' Hrun Hjson Hstop Hkept Hst Hret.
  destruct (restart_setup _ _ _ _ _ _ _ bridges' _ id' _ _ _ _ _ Hoff Hoff' Hnew Hnew' Hrun Hjson Hstop Hkept) as (Hinv & Hfit & Hgives & Hfresh).
  pose proof (Start_restoring cfg d r _ _ Hfit env' (fun _ => Hgives) _ _ _ Hst Hret Hfresh) as Hre. cbn in Hre.
  split; [intros h c; by eapply restored_from|]. intros s3. apply run_isolated with d r, Hre.
Qed.
End Restart.

(** ** Example *)

(** A codec that writes the fields of a snapshot that matter here, the network with its
    own methods, and leaves out the others. *)
Definition snapshot_fields : Type := list string * (list Z * list (Z * Z)).

Definition snapshot_text (s : ContainerSnapshot) : string :=
  text_encode (A := snapshot_fields)
    ([snap_ID s; snap_Handle s; snap_Bridge s] ++ match snap_Network s with Some n => [(Network_MarshalJSON n).1; (Network_MarshalJSON n).2] | None => [] end,
     (snap_Ports s, (fun i => (HostPort i, ContainerPort i)) <$> snap_NetIns s)).

Definition no_json : error := Errorf "unexpected end of JSON input".

Definition snapshot_with (id handle bridge : string) (n : option Network) (ports : list Z) (ins : list (Z * Z)) : ContainerSnapshot :=
  mkSnapshot id handle "" 0 StateBorn [] (mkContainerLimits None None None None) 0 n bridge ports [] ((fun i => mkNetIn i.1 i.2) <$> ins) [] ∅ [].

Definition snapshot_read (data : string) : result ContainerSnapshot :=
  match text_decode (A := snapshot_fields) data with
  | Some ([id; handle; bridge], (ports, ins)) => Ok (snapshot_with id handle bridge None ports ins)
  | Some ([id; handle; bridge; ip; subnet], (ports, ins)) =>
      res_bind (Network_UnmarshalJSON (ip, subnet)) (fun n => Ok (snapshot_with id handle bridge (Some n) ports ins))
  | _ => Err no_json
  end.

Lemma snapshot_read_text s n : network_json (snap_Network s) = Ok n ->
  exists s', snapshot_read (snapshot_text s) = Ok s' /\ reread s s'.
Proof.
  intros Hn. exists (snapshot_with (snap_ID s) (snap_Handle s) (snap_Bridge s) n (snap_Ports s) ((fun i => (HostPort i, ContainerPort i)) <$> snap_NetIns s)).
  split.
  - unfold snapshot_read, snapshot_text. rewrite text_decode_encode. destruct (snap_Network s) as [m|]; cbn [app]; [|by injection Hn as <-].
    unfold network_json in Hn. rewrite <- surjective_pairing. by destruct (Network_UnmarshalJSON _); simplify_eq/=.
  - split; try done. cbn. rewrite <- list_fmap_compose. induction (snap_NetIns s) as [|[hp cp] l IH]; [done|]. cbn. by f_equal.
Qed.

Definition restart_backend : BackendConfig := {|
  be_cfg := sample_config; snapshotsPath := "/snapshots"; maxContainers := 0; cgroup_root := "/cg"; container_node := node_root;
  json_encode := snapshot_text; json_decode := snapshot_read; decode_net := fun _ => mkNetworkStat 0 0 |}.

(** The text that is written for a container. *)
Definition text_of (b : LinuxBackend) (h : string) : string :=
  match be_repo b !! h with Some c => match Snapshot c with Ok s => snapshot_text s | _ => "" end | None => "" end.

(** The files of the snapshots are there, and no other. *)
Definition env_restart : Env := fun _ c =>
  match c with
  | ReadFile p => if decide (p = "/snapshots/0000000001a") then inl (text_of server3 "a")
                  else if decide (p = "/snapshots/0000000001b") then inl (text_of server3 "b") else inr (NotExist p)
  | Sys "readdir" _ => inl ("0000000001a" +:+ (String newline EmptyString) +:+ "0000000001b")
  | _ => inl ""
  end.

Definition new_server : LinuxBackend := fresh_backend 184418304 22 sample_pool (BridgeMgr_New "w1b-" 99) 1000.
Definition new0 : LinuxBackend := Eval vm_compute in after (Backend_Start env_restart restart_backend) new_server.
Definition new1 : LinuxBackend := Eval vm_compute in after (create_make env_ok restart_backend (client "c")) new0.

Lemma server3_reached_again : rtc (ov_step restart_backend) (mkSystem sample_server []) (mkSystem server3 []).
Proof. by apply server3_steps. Qed.

Lemma server3_codec : codec restart_backend server3.
Proof.
  intros h c s Hc Hs. destruct (bi_owns _ _ _ server3_inv _ _ Hc) as [_ Hown].
  destruct (owned_entry _ _ _ _ (bi_subnets _ _ _ server3_inv) Hown) as ([sub ip] & b & q & z & ips & zs & Hn & Hsub & Hz & _ & _ & He). cbn in Hsub, Hz. subst sub.
  destruct (network_json_net4 b q ip z (entry_canonical _ _ _ _ _ _ _ He) Hz) as [Hj _]. eapply snapshot_read_text.
  unfold Snapshot in Hs. destruct (mapM _ _); [|done]. injection Hs as <-. cbn. unfold net_of in Hn. rewrite Hn. exact Hj.
Qed.

(** What stopping the server calls. *)
Definition stop_calls : World := Eval vm_compute in (Backend_Stop env_ok restart_backend (server3, [])).2.2.

Lemma env_restart_keeps : files_kept restart_backend stop_calls env_restart.
Proof.
  assert (Ha : WriteFile "/snapshots/0000000001a" (text_of server3 "a") ∈ stop_calls) by (apply (bool_decide_unpack _); vm_compute; exact I).
  assert (Hb : WriteFile "/snapshots/0000000001b" (text_of server3 "b") ∈ stop_calls) by (apply (bool_decide_unpack _); vm_compute; exact I).
  intros h name data. unfold env_restart. case_decide as H1; [|case_decide as H2; [|done]]; intros [= <-]; left; [by rewrite H1|by rewrite H2].
Qed.

(** Two containers come back, one of them with its port, and a third one is made. *)
Lemma restart_isolates_witness : exists ca cc, be_repo new1 !! "a" = Some ca /\ be_repo new1 !! "c" = Some cc /\ ports_of ca = [101] /\
  isolated (be_pool new1) ca cc.
Proof.
  do 2 eexists. split; [vm_compute; reflexivity|]. split; [vm_compute; reflexivity|]. split; [done|].
  edestruct (restart_isolates restart_backend 184418304 22 100 2 sample_range_ok ltac:(lia) ltac:(lia) ltac:(lia) ltac:(lia)
    env_ok env_restart (mkState 1) (mkState 1) sample_pool sample_pool (BridgeMgr_New "w1b-" 7) (BridgeMgr_New "w1b-" 99) 42 1000
    (mkSystem server3 []) [] (Ok tt) server3 stop_calls [] (Ok tt) new0 (Backend_Start env_restart restart_backend (new_server, [])).2.2) as [_ H];
    [cbn; lia|cbn; lia|reflexivity|reflexivity|apply server3_reached_again|apply server3_codec|vm_compute; reflexivity
    |apply env_restart_keeps|vm_compute; reflexivity|done|].
  eapply (proj1 (H (mkSystem new1 []) (create_steps restart_backend env_ok (client "c") _ new0 [] new1 _ [] (client_ipv4 "c") ltac:(vm_compute; reflexivity) I)) "a" "c");
    [vm_compute; reflexivity|vm_compute; reflexivity|done].
Defined.
