(* ===== verification/Resume.v ===== *)
(** * Resuming a server

    [Backend_Start] on a host that has kept the files of the snapshots: every container
    of the server that stopped is there again. *)
From S2P Require Import Prelude GoStrings GoNet IPv4 World ProcessEnv RLimits Sysconfig Subnets SubnetsProofs.
From S2P Require Import SubnetPool SubnetTheorems PortPool BridgeMgr IPTables IPTablesManager Bandwidth.
From S2P Require Import Cgroups Metrics ProcessTracker Container ContainerTheorems ResourcePool.
From S2P Require Import ResourcePoolTheorems Backend Isolation Overlap BackendTheorems Restart.

(** ** One snapshot *)

Section Resuming.
Context (cfg : BackendConfig) (d r : Z) (R : gset Z) (P : ContainerSnapshot -> Prop) (env : Env).
Context (Hfit : fitting d r R P).

(** Snapshots with a network in common are of the same container; a bridge has a
    name and is for one subnet. *)
Record joined : Prop := {
  jn_handle : forall s s', P s -> P s' -> snap_Network s = snap_Network s' -> snap_Handle s = snap_Handle s';
  jn_named : forall s, P s -> snap_Bridge s <> "";
  jn_bridge : forall s s' n n', P s -> P s' -> snap_Bridge s = snap_Bridge s' -> snap_Network s = Some n -> snap_Network s' = Some n' ->
    IPNet_String (nw_Subnet n) = IPNet_String (nw_Subnet n')
}.

(** The version file of a container is there and can be read, or is not there. *)
Definition versions_ok : Prop := forall h s, P s ->
  (exists text v, env h (ReadFile (file_of (be_cfg cfg) (snap_ID s) "version")) = inl text /\ semver_Make (be_cfg cfg) text = Ok v) \/
  exists p, env h (ReadFile (file_of (be_cfg cfg) (snap_ID s) "version")) = inr (NotExist p).

Context (Hjoin : joined) (Hversions : versions_ok).

(** A server on the way that has not lost a container. *)
Record resuming (b : LinuxBackend) : Prop := {
  rm_restoring : restoring d r R P b;
  rm_bridges : forall name sn, bridgeSubnet (rp_bridges (be_pool b)) !! name = Some sn ->
    exists s n, P s /\ snap_Bridge s = name /\ snap_Network s = Some n /\ sn = IPNet_String (nw_Subnet n);
  rm_taken : forall s n, P s -> snap_Network s = Some n -> holds (rp_subnets (be_pool b)) n -> is_Some (be_repo b !! snap_Handle s)
}.

(** Networks of snapshots with one address are one network. *)
Lemma same_address s s' n n' : P s -> P s' -> snap_Network s = Some n -> snap_Network s' = Some n' ->
  IP_Equal (nw_IP n) (nw_IP n') = true -> n = n'.
Proof.
  intros Hs Hs' Hn Hn' Heq. destruct (fit_separate _ _ _ _ Hfit s s' Hs Hs') as [?|[Hne _]]; [congruence|].
  by rewrite (Hne _ _ Hn Hn') in Heq.
Qed.

Lemma snap_address s n : P s -> snap_Network s = Some n -> exists b q z, snap_net d r s n b q z.
Proof.
  intros Hs Hn. destruct (fit_net _ _ _ _ Hfit s Hs) as (n0 & b & q & z & Hsn). exists b, q, z.
  pose proof (sn_network _ _ _ _ _ _ _ Hsn). by assert (n0 = n) as -> by congruence.
Qed.

Lemma snap_address_some s : P s -> exists n, snap_Network s = Some n.
Proof. intros Hs. destruct (fit_net _ _ _ _ Hfit s Hs) as (n & b & q & z & Hsn). exists n. apply Hsn. Qed.

Lemma self_address s n : P s -> snap_Network s = Some n -> IP_Equal (nw_IP n) (nw_IP n) = true.
Proof.
  intros Hs Hn. destruct (snap_address _ _ Hs Hn) as (b & q & z & Hsn).
  rewrite (Equal_is4 _ _ _ _ (sn_ip _ _ _ _ _ _ _ Hsn) (sn_ip _ _ _ _ _ _ _ Hsn)). by apply bool_decide_true.
Qed.

(** A network that is not to be had is held. *)
Lemma Remove_refused p repo s n e p' : restoring d r R P (mkBackend p repo) -> P s -> snap_Network s = Some n ->
  Subnets_Remove n (rp_subnets p) = (Err e, p') -> holds (rp_subnets p) n.
Proof.
  intros Hre Hs Hn. destruct (snap_address _ _ Hs Hn) as (b & q & z & Hsn). unfold Subnets_Remove. case_decide as Hnil.
  { pose proof (sn_ip _ _ _ _ _ _ _ Hsn) as Hz. rewrite Hnil in Hz. by destruct Hz as [_ [?|?]]. }
  destruct (existsb _ _) eqn:E; [|done]. intros _. apply existsb_exists in E as (ip & Hin%list_elem_of_In & Heq).
  destruct (allocated (rp_subnets p) !! IPNet_String (nw_Subnet n)) as [ips|] eqn:Hk; [|by apply elem_of_nil in Hin]. cbn in Hin.
  destruct (rs_held _ _ _ _ _ Hre (mkNetwork (nw_Subnet n) ip)) as (s' & n' & Hs' & Hn' & _ & Hip); [by exists ips|].
  cbn in Hip. subst ip. rewrite (same_address s' s n' n) in Hin by done. by exists ips.
Qed.

(** The bridge can be reserved again. *)
Lemma Rereserve_resumes m w s n : P s -> snap_Network s = Some n ->
  (forall name sn, bridgeSubnet m !! name = Some sn ->
    exists s n, P s /\ snap_Bridge s = name /\ snap_Network s = Some n /\ sn = IPNet_String (nw_Subnet n)) ->
  Rereserve (snap_Bridge s) (nw_Subnet n) (snap_ID s) (m, w) =
    (Ok tt, (bind_bridge (snap_Bridge s) (IPNet_String (nw_Subnet n)) (add_owner (snap_Bridge s) (snap_ID s) m), w)).
Proof.
  intros Hs Hn Hm. unfold Rereserve. rewrite decide_False by (by apply (jn_named Hjoin)). rewrite bind_eq. unfold gets. cbn [fst].
  destruct (bridgeSubnet m !! snap_Bridge s) as [sn|] eqn:E; [|done]. destruct (Hm _ _ E) as (s' & n' & Hs' & Hb & Hn' & ->).
  rewrite decide_False; [done|]. intros Hne. destruct Hne. by eapply (jn_bridge Hjoin s' s).
Qed.

Lemma version_resumes s w : P s -> exists v w', restoreContainerVersion env (be_cfg cfg) (snap_ID s) w = (Ok v, w').
Proof.
  intros Hs. unfold restoreContainerVersion. rewrite bind_eq, attempt_eq, call_eq.
  destruct (Hversions w s Hs) as [(text & v & -> & Hv)|[p ->]]; [|by eexists _, _]. unfold lift. rewrite Hv. by eexists _, _.
Qed.

(** The container is taken back, or was before. *)
Lemma Pool_Restore_resumes p repo s n w x p' w' : resuming (mkBackend p repo) -> P s -> snap_Network s = Some n ->
  Pool_Restore env (be_cfg cfg) s (p, w) = (x, (p', w')) -> returns x ->
  p' = p /\ holds (rp_subnets p) n /\ (exists e, x = Err e) \/
  exists spec, x = Ok spec /\ (forall n', holds (rp_subnets p') n' -> holds (rp_subnets p) n' \/
    IPNet_String (nw_Subnet n') = IPNet_String (nw_Subnet n) /\ nw_IP n' = nw_IP n) /\
    bridgeSubnet (rp_bridges p') = <[snap_Bridge s := IPNet_String (nw_Subnet n)]> (bridgeSubnet (rp_bridges p)).
Proof.
  intros [Hre Hbr _] Hs Hn. cbn in Hbr. pose proof (rs_inv _ _ _ _ _ Hre) as Hinv. unfold Pool_Restore. rewrite Hn, bind_eq.
  unfold with_subnets at 1, zoom at 1. cbn [fst snd].
  destruct (Subnets_Remove n (rp_subnets p)) as [y p1] eqn:Erem. destruct (Remove_fails _ _ _ _ Erem) as [->|[[e ->] ->]].
  2: { intros [= <- <- <-] _. left. destruct p. split_and!; [done|by eapply Remove_refused|by eexists]. }
  destruct (Remove_acquired _ _ _ _ _ (bi_subnets _ _ _ Hinv) (restoring_admissible _ _ _ _ Hfit _ _ _ _ Hre Hs Hn) Erem) as (b1 & q1 & z1 & zs & Hacq).
  pose proof (acquired_holds _ _ _ _ _ _ _ _ _ (bi_subnets _ _ _ Hinv) Hacq) as [_ Hothers].
  rewrite bind_eq, on_err_eq. unfold with_bridges, zoom. cbn [fst snd rp_subnets rp_ports rp_bridges rp_nextID].
  rewrite (Rereserve_resumes _ _ _ _ Hs Hn Hbr), bind_eq.
  assert (Hports : forall y, y ∈ snap_Ports s -> y ∈ pp_pool (rp_ports p)).
  { destruct (rs_free _ _ _ _ _ Hre s n Hs Hn) as [Hheld|Hp]; [|done]. destruct (Hothers _ Hheld) as (_ & Hne & _).
    by rewrite (self_address s n Hs Hn) in Hne. }
  edestruct (restore_ports_free (snap_Ports s) (snap_Ports s) n) as (pp & -> & _);
    [apply Hinv|by apply (fit_ports _ _ _ _ Hfit)|done|]. rewrite bind_eq, eff_eq.
  match goal with |- context [restoreContainerVersion _ _ _ ?h] => destruct (version_resumes s h Hs) as (v & w1 & ->) end. intros [= <- <- <-] _. right. eexists. split; [done|]. split; [|done].
  intros n'. cbn [rp_subnets]. by eapply acquired_only.
Qed.

Lemma backend_restore_resumes data s b w x b' w' : resuming b -> P s -> json_decode cfg data = Ok s ->
  backend_restore env cfg data (b, w) = (x, (b', w')) -> returns x ->
  resuming b' /\ is_Some (be_repo b' !! snap_Handle s) /\ forall h, is_Some (be_repo b !! h) -> is_Some (be_repo b' !! h).
Proof.
  intros Hrm Hs Hdec H Hx. destruct b as [p repo]. destruct (snap_address_some s Hs) as [n Hn].
  pose proof (backend_restore_restoring _ _ _ _ _ Hfit _ _ _ _ _ _ _ _ (rm_restoring _ Hrm) Hs Hdec H Hx) as [Hre' Hok].
  revert H. unfold backend_restore. rewrite bind_eq. unfold lift. rewrite Hdec, bind_eq, with_pool_eq. cbn [be_pool be_repo].
  destruct (Pool_Restore env (be_cfg cfg) s (p, w)) as [y [p1 w1]] eqn:E. destruct (decide_returns y) as [Hy|[m ->]]; [|by intros [= <- <- <-]].
  destruct (Pool_Restore_resumes _ _ _ _ _ _ _ _ Hrm Hs Hn E Hy) as [(-> & Hh & [e ->])|(spec & -> & Hholds & Hbridge)].
  { intros [= <- <- <-]. split; [done|]. split; [by eapply (rm_taken _ Hrm)|done]. }
  rewrite bind_eq, on_container_eq. cbn zeta. cbn [be_pool be_repo].
  destruct (Container_Restore _ _ _ _ _ _ _ _) as [y [[c pp] w2]].
  assert (Hb : x = Ok c -> b' = mkBackend (mkRP (rp_subnets p1) pp (rp_bridges p1) (rp_nextID p1)) (Repo_Add c repo) ->
    resuming b' /\ is_Some (be_repo b' !! snap_Handle s) /\ forall h, is_Some (repo !! h) -> is_Some (be_repo b' !! h)).
  { intros -> ->. destruct (Hok _ eq_refl) as [_ Hrepo]. cbn [be_repo] in Hrepo, Hre'. cbn [be_repo]. rewrite Hrepo in Hre' |- *.
    assert (Hmono : forall h, is_Some (repo !! h) -> is_Some (<[snap_Handle s := c]> repo !! h)).
    { intros h Hh. destruct (decide (snap_Handle s = h)) as [<-|Hne]; [rewrite lookup_insert_eq; by eexists|by rewrite lookup_insert_ne]. }
    assert (Hself : is_Some (<[snap_Handle s := c]> repo !! snap_Handle s)) by (rewrite lookup_insert_eq; by eexists).
    split_and!; [|done|done]. split; cbn [be_pool be_repo rp_bridges rp_subnets]; [exact Hre'|..].
    - intros name sn. rewrite Hbridge. intros [[<- <-]|[_ Hin]]%lookup_insert_Some; [by exists s, n|by apply (rm_bridges _ Hrm)].
    - intros s' n' Hs' Hn' Hh. apply Hholds in Hh as [Hh|[_ Hip]].
      + apply Hmono. by eapply (rm_taken _ Hrm).
      + assert (n' = n) as ->. { apply (same_address s' s); [done..|]. rewrite Hip. by apply (self_address s). }
        rewrite (jn_handle Hjoin s' s) by (done || congruence). done. }
  destruct y as [a|e|m]; [| |by intros [= <- <- <-]]; rewrite bind_eq; unfold put_repo, update; cbn;
    intros [= Hxx Hbb _]; by apply Hb.
Qed.

(** ** The snapshots of a directory *)

Definition restore_file (name : string) : M (LinuxBackend * World) unit :=
  ignore (bind (eff (call env (ReadFile (path_join [snapshotsPath cfg; name])))) (fun data => backend_restore env cfg data)).

(** The file [name] holds a snapshot of the container [h], at all times. *)
Definition file_holds (name h : string) : Prop := forall w, exists data s,
  env w (ReadFile (path_join [snapshotsPath cfg; name])) = inl data /\ P s /\ json_decode cfg data = Ok s /\ snap_Handle s = h.

Context (Hgives : gives_back cfg P env).

Lemma restore_file_resumes name b w x b' w' : resuming b -> restore_file name (b, w) = (x, (b', w')) -> returns x ->
  resuming b' /\ (forall h, file_holds name h -> is_Some (be_repo b' !! h)) /\
  forall h, is_Some (be_repo b !! h) -> is_Some (be_repo b' !! h).
Proof.
  intros Hrm. unfold restore_file. rewrite ignore_eq, bind_eq, eff_eq, call_eq. destruct (env w _) as [data|e] eqn:E.
  2: { intros [= <- <- <-] _. split; [done|]. split; [|done]. intros h Hf. destruct (Hf w) as (data & s & Hr & _). congruence. }
  destruct (backend_restore env cfg data _) as [y [b1 w1]] eqn:Er. intros H Hx.
  assert (returns y /\ b' = b1) as [Hy ->] by (destruct y; injection H as <- <- <-; done).
  destruct (Hgives _ _ _ E) as [(s & Hs & Hdec)|[e Hdec]].
  - destruct (backend_restore_resumes _ _ _ _ _ _ _ Hrm Hs Hdec Er Hy) as (H1 & H2 & H3). split; [done|]. split; [|done].
    intros h Hf. destruct (Hf w) as (data' & s' & Hr & _ & Hdec' & <-). assert (s' = s) as -> by congruence. done.
  - unfold backend_restore in Er. rewrite bind_eq in Er. unfold lift in Er. rewrite Hdec in Er. injection Er as <- <- <-.
    split; [done|]. split; [|done]. intros h Hf. destruct (Hf w) as (data' & s' & Hr & _ & Hdec' & _). congruence.
Qed.

Lemma restore_files_resume names : forall b w x b' w', resuming b -> for_each restore_file names (b, w) = (x, (b', w')) -> returns x ->
  (forall name h, name ∈ names -> file_holds name h -> is_Some (be_repo b' !! h)) /\
  forall h, is_Some (be_repo b !! h) -> is_Some (be_repo b' !! h).
Proof.
  induction names as [|name names IH]; intros b w x b' w' Hrm; cbn [for_each].
  - intros [= <- <- <-] _. split; [|done]. by intros name h ?%elem_of_nil.
  - rewrite bind_eq. destruct (restore_file name (b, w)) as [y [b1 w1]] eqn:E. intros H Hx.
    assert (Hy : returns y) by (destruct y; [done|done|]; by injection H as <- _ _).
    destruct (restore_file_resumes _ _ _ _ _ _ Hrm E Hy) as (H1 & H2 & H3). destruct y as [[]|e|m]; [| |done].
    + destruct (IH _ _ _ _ _ H1 H Hx) as [H4 H5]. split; [|by eauto]. intros name' h [->|Hin]%elem_of_cons Hf; [by apply H5, H2|by eapply H4].
    + exfalso. revert E. unfold restore_file. rewrite ignore_eq. by destruct (bind _ _ _) as [[] ?].
Qed.

(** The directory is there and lists the file [name]. *)
Definition listed (name : string) : Prop := forall w, (exists out, env w (Sys "stat" [snapshotsPath cfg]) = inl out) /\
  exists out, env w (Sys "readdir" [snapshotsPath cfg]) = inl out /\ name ∈ filter (fun e => e <> "") (split newline out).

Lemma Start_resumes b w x b' w' name h : snapshotsPath cfg <> "" -> resuming b -> listed name -> file_holds name h ->
  Backend_Start env cfg (b, w) = (x, (b', w')) -> returns x -> is_Some (be_repo b' !! h).
Proof.
  intros Hpath Hrm Hlist Hf. unfold Backend_Start. rewrite decide_False by done. rewrite bind_eq, bind_eq, attempt_eq, eff_eq, call__eq.
  destruct (Hlist w) as [[o ->] _]. rewrite bind_eq, bind_eq. unfold restoreSnapshots. rewrite bind_eq, attempt_eq, eff_eq, call_eq.
  match goal with |- context [env ?h (Sys "readdir" _)] => destruct (Hlist h) as [_ (out & -> & Hin)] end.
  match goal with |- context [for_each ?f ?l ?s] => change (for_each f l s) with (for_each restore_file l s);
    destruct (for_each restore_file l s) as [y [b1 w1]] eqn:E end.
  destruct (decide_returns y) as [Hy|[m ->]]; [|by intros [= <- <- <-]].
  assert (Hb : is_Some (be_repo b1 !! h)) by (by eapply (proj1 (restore_files_resume _ _ _ _ _ _ Hrm E Hy))).
  destruct y as [[]|e|m]; [|by intros [= <- <- <-]|done].
  rewrite ignore_eq, eff_eq, call__eq. destruct (env w1 _); rewrite eff_eq, call__eq; (destruct (env _ (MkdirAll _)); [|by intros [= <- <- <-]]);
    rewrite bind_eq; unfold gets; cbn [fst]; rewrite with_pool_eq; destruct (Pool_Prune _ _ _ _) as [z [p2 w2]]; by intros [= <- <- <-].
Qed.
End Resuming.

(** ** All containers *)

(** The bridges of a server's containers have names, and each is for one subnet. The
    names are the generator's; for a tag of one character they are unique
    ([bridge_names_unique]), and for one of two characters they may not be. *)
Definition bridged (b : LinuxBackend) : Prop :=
  (forall h c, be_repo b !! h = Some c -> Bridge (spec_Resources (c_spec c)) <> "") /\
  forall h h' c c' n n', be_repo b !! h = Some c -> be_repo b !! h' = Some c' ->
    Bridge (spec_Resources (c_spec c)) = Bridge (spec_Resources (c_spec c')) -> net_of c = Some n -> net_of c' = Some n' ->
    IPNet_String (nw_Subnet n) = IPNet_String (nw_Subnet n').

(** The directory lists a file for each container, which holds its snapshot. *)
Definition all_kept (cfg : BackendConfig) (b : LinuxBackend) (env : Env) : Prop := forall h c, be_repo b !! h = Some c ->
  listed cfg env (ID (c_spec c)) /\ exists s, Snapshot c = Ok s /\
  forall w, env w (ReadFile (path_join [snapshotsPath cfg; ID (c_spec c)])) = inl (json_encode cfg s).

Lemma saved_joined d r b : be_inv d r b -> bridged b -> joined (saved b).
Proof.
  intros Hinv [Hname Hbr]. split.
  - intros s s' (h & c & Hc & Hs) (h' & c' & Hc' & Hs') Hn.
    rewrite (so_handle _ _ Hs), (so_handle _ _ Hs'). destruct (decide (h = h')) as [->|Hne]; [congruence|].
    destruct (bi_owns _ _ _ Hinv _ _ Hc) as [_ Hown], (bi_owns _ _ _ Hinv _ _ Hc') as [_ Hown'].
    destruct (owned_snapshot _ _ _ _ _ (bi_subnets _ _ _ Hinv) Hown Hs) as (n & x & q & z & _ & _ & Hcn & _ & Hz & [Hn1 _ _ _ Hz1 _] & _).
    destruct (owned_snapshot _ _ _ _ _ (bi_subnets _ _ _ Hinv) Hown' Hs') as (n' & x' & q' & z' & _ & _ & Hcn' & _ & Hz' & [Hn1' _ _ _ Hz1' _] & _).
    destruct (bi_separate _ _ _ Hinv _ _ _ _ Hc Hc' Hne) as [Hsep _]. specialize (Hsep n n' Hcn Hcn').
    rewrite Hn1, Hn1' in Hn. apply (f_equal (fmap nw_IP)) in Hn. cbn [fmap option_fmap option_map nw_IP] in Hn, Hz1, Hz1'.
    apply (inj Some) in Hn. rewrite (Equal_is4 _ _ _ _ Hz Hz') in Hsep. rewrite Hn in Hz1. by rewrite (is4_fun _ _ _ Hz1 Hz1'), bool_decide_true in Hsep.
  - intros s (h & c & Hc & Hs). rewrite (so_bridge _ _ Hs). by eapply Hname.
  - intros s s' n n' (h & c & Hc & Hs) (h' & c' & Hc' & Hs'). rewrite (so_bridge _ _ Hs), (so_bridge _ _ Hs'). intros Hb Hn Hn'.
    destruct (bi_owns _ _ _ Hinv _ _ Hc) as [_ Hown], (bi_owns _ _ _ Hinv _ _ Hc') as [_ Hown'].
    destruct (owned_snapshot _ _ _ _ _ (bi_subnets _ _ _ Hinv) Hown Hs) as (m & x & q & z & _ & _ & Hcn & Hsub & _ & [Hn1 _ _ _ _ _] & _).
    destruct (owned_snapshot _ _ _ _ _ (bi_subnets _ _ _ Hinv) Hown' Hs') as (m' & x' & q' & z' & _ & _ & Hcn' & Hsub' & _ & [Hn1' _ _ _ _ _] & _).
    rewrite Hn in Hn1. rewrite Hn' in Hn1'. injection Hn1 as ->. injection Hn1' as ->. cbn [nw_Subnet]. rewrite <- Hsub, <- Hsub'. by apply (Hbr h h' c c').
Qed.

(** C7: a restart loses no container. A server that was reached by any calls that
    may overlap as in C1, on a host that may fail, is stopped while no call runs,
    and the next server starts with the same address range and the same port
    range, which does not begin with port 0. The conditions: the bridges of the
    containers have names and each is for one subnet ([bridged]; the code does not
    see to that when the tag has two characters, as names can then repeat); the text
    of a container's snapshot can be read, its network as its own methods write and
    read it; the host lists and holds the files of all snapshots as they were
    written, other files hold what no snapshot can be read from, and the version
    file of each container can be read or is not there. Every other call may fail
    (such as those that set the rules and limits of a container up again). When the
    start returns, the new server has exactly the containers of the stopped one, each
    with its handle, its identity and its ports, its subnet and its address (in the
    16-byte form). *)
Theorem restart_complete cfg d r start size env env' st st' ports ports' bridges prefix now id id' s w x b1 l w' x' b2 w2 :
  canonical d r -> r <= 30 -> 0 < start -> 0 <= size -> start + size <= 65535 -> snapshotsPath cfg <> "" ->
  0 <= Offset st -> 0 <= Offset st' -> PortPool_New start size st = Ok ports -> PortPool_New start size st' = Ok ports' ->
  let b := sy_backend s in
  rtc (ov_step cfg) (mkSystem (fresh_backend d r ports bridges id) []) s -> bridged b -> codec cfg b ->
  Backend_Stop env cfg (b, w) = (x, (b1, w ++ l)) ->
  files_kept cfg l env' -> all_kept cfg b env' -> versions_ok cfg (saved b) env' ->
  Backend_Start env' cfg (fresh_backend d r ports' (BridgeMgr_New prefix now) id', w') = (x', (b2, w2)) -> returns x' ->
  forall h, match be_repo b !! h, be_repo b2 !! h with
            | Some c0, Some c => came_back c0 c
            | None, None => True
            | _, _ => False
            end.
Proof.
  intros Hcan Hr Hstart Hsize Hmax Hpath Hoff Hoff' Hnew Hnew' b Hrun Hbr Hjson Hstop Hkept Hall Hver Hst Hret h.
  destruct (restart_setup cfg d r start size Hcan Hr Hstart Hsize Hmax _ env' _ _ _ _ _ (BridgeMgr_New prefix now) _ id' _ _ _ _ _ Hoff Hoff' Hnew Hnew' Hrun Hjson Hstop Hkept)
    as (Hinv & Hfit & Hgives & Hfresh). fold b in Hinv, Hfit, Hgives, Hfresh.
  pose proof (Start_restoring cfg d r _ _ Hfit env' (fun _ => Hgives) _ _ _ Hst Hret Hfresh) as Hre. cbn in Hre.
  assert (Hrm : resuming d r (range ports') (saved b) (fresh_backend d r ports' (BridgeMgr_New prefix now) id')).
  { split; [done|..]; cbn.
    - intros name sn. by rewrite lookup_empty.
    - intros s0 n _ _ (ips & Hk & _). cbn in Hk. by rewrite lookup_empty in Hk. }
  assert (Hback : forall c0, be_repo b !! h = Some c0 -> is_Some (be_repo b2 !! h)).
  { intros c0 Hc0. destruct (Hall _ _ Hc0) as (Hl & s0 & Hs & Hread). destruct (Hjson _ _ _ Hc0 Hs) as (s' & Hdec & Hrr).
    eapply (Start_resumes cfg d r _ _ env' Hfit (saved_joined _ _ _ Hinv Hbr) Hver Hgives); [done|exact Hrm|exact Hl| |exact Hst|done].
    intros w0. exists (json_encode cfg s0), s'. split_and!; [done|exists h, c0; split; [done|by eapply Snapshot_of]|done|].
    rewrite (so_handle _ _ (Snapshot_of _ _ _ Hs Hrr)). apply (bi_owns _ _ _ Hinv _ _ Hc0). }
  destruct (be_repo b2 !! h) as [c|] eqn:Hc.
  - destruct (restored_from d r _ _ _ _ _ Hinv Hre Hc) as (c0 & -> & ?). done.
  - destruct (be_repo b !! h) as [c0|] eqn:Hc0; [|done]. by destruct (Hback _ eq_refl).
Qed.

(** ** Example *)

Lemma server3_containers h c : be_repo server3 !! h = Some c ->
  be_repo server3 !! "a" = Some c /\ h = "a" \/ be_repo server3 !! "b" = Some c /\ h = "b".
Proof.
  intros Hc. assert (Hin : h ∈ (map_to_list (be_repo server3)).*1).
  { apply list_elem_of_fmap. exists (h, c). split; [done|]. by apply elem_of_map_to_list. }
  assert (Hkeys : (map_to_list (be_repo server3)).*1 = ["a"; "b"]) by (vm_compute; reflexivity).
  rewrite Hkeys in Hin. apply elem_of_cons in Hin as [->| ->%list_elem_of_singleton]; [by left|by right].
Qed.

Lemma server3_bridged : bridged server3.
Proof.
  split.
  - intros h c [[[= <-] _]|[[= <-] _]]%server3_containers; done.
  - intros h h' c c' n n' [[[= <-] _]|[[= <-] _]]%server3_containers [[[= <-] _]|[[= <-] _]]%server3_containers; try done;
      intros _ [= <-] [= <-]; done.
Qed.

Lemma env_restart_lists name : name = "0000000001a" \/ name = "0000000001b" -> listed restart_backend env_restart name.
Proof.
  intros Hname w. split; [by exists ""|]. eexists. split; [reflexivity|].
  match goal with |- _ ∈ ?l => assert (l = ["0000000001a"; "0000000001b"]) as -> by (vm_compute; reflexivity) end.
  destruct Hname as [->| ->]; set_solver.
Qed.

Lemma env_restart_all : all_kept restart_backend server3 env_restart.
Proof.
  intros h c [[[= <-] _]|[[= <-] _]]%server3_containers; (split; [apply env_restart_lists; vm_compute; auto|]);
    (eexists; split; [vm_compute; reflexivity|]); intros w; vm_compute; reflexivity.
Qed.

Lemma env_restart_versions : versions_ok restart_backend (saved server3) env_restart.
Proof.
  intros w s (h & c & Hc & Hs). right. rewrite (so_id _ _ Hs).
  apply server3_containers in Hc as [[[= <-] _]|[[= <-] _]]; eexists; vm_compute; reflexivity.
Qed.

Lemma restart_complete_witness : exists c0 c, be_repo server3 !! "a" = Some c0 /\ be_repo new0 !! "a" = Some c /\ came_back c0 c /\ be_repo new0 !! "c" = None.
Proof.
  pose proof (restart_complete restart_backend 184418304 22 100 2 env_ok env_restart (mkState 1) (mkState 1) sample_pool sample_pool
    (BridgeMgr_New "w1b-" 7) "w1b-" 99 42 1000 (mkSystem server3 []) [] (Ok tt) server3 stop_calls [] (Ok tt) new0
    (Backend_Start env_restart restart_backend (new_server, [])).2.2 sample_range_ok ltac:(lia) ltac:(lia) ltac:(lia) ltac:(lia)
    ltac:(done) ltac:(cbn; lia) ltac:(cbn; lia) ltac:(reflexivity) ltac:(reflexivity) server3_reached_again server3_bridged server3_codec
    ltac:(vm_compute; reflexivity) env_restart_keeps env_restart_all env_restart_versions ltac:(vm_compute; reflexivity) I) as H.
  pose proof (H "a") as Ha. pose proof (H "c") as Hc. cbn [sy_backend] in Ha, Hc.
  destruct (be_repo server3 !! "a") as [c0|] eqn:Hc0; [|vm_compute in Hc0; discriminate].
  destruct (be_repo server3 !! "c") as [c2|] eqn:Hc2; [vm_compute in Hc2; discriminate|].
  destruct (be_repo new0 !! "a") as [c|]; [|destruct Ha]. destruct (be_repo new0 !! "c"); [destruct Hc|].
  exists c0, c. split_and!; [done|done|exact Ha|done].
Defined.
