(* ===== verification/Yarn.v ===== *)
(** * The YARN backend (src/YarnBackend.go)

    main wraps the backend in a [YarnBackend], which serves one container of its
    own, the node manager of YARN, under a fixed handle and passes everything else
    on. [garden.Backend] is an interface: a record of operations here, of which
    the Linux backend is one value and the wrapper of any value another. *)
From S2P Require Import Prelude GoStrings World ProcessEnv Bandwidth Metrics ProcessTracker Container IODaemon IOSpawn.
From S2P Require Import ResourcePool Backend BackendTheorems.

(** ** garden.Backend *)

(** [St] is the state, [C] the containers, [I] and [Mt] the entries of the two
    bulk calls. [gb_GraceTime] gets no container when it is one of another
    backend. *)
Record GardenBackend (St C I Mt : Type) := mkGardenBackend {
  gb_Start : M St unit;
  gb_Stop : M St unit;
  gb_GraceTime : option C -> M St Z;
  gb_Ping : M St unit;
  gb_Capacity : M St Capacity;
  gb_Create : ContainerSpec -> M St C;
  gb_Destroy : string -> M St unit;
  gb_Containers : gmap string string -> M St (list C);
  gb_BulkInfo : list string -> M St (gmap string I);
  gb_BulkMetrics : list string -> M St (gmap string Mt);
  gb_Lookup : string -> M St C
}.
Arguments gb_Start {_ _ _ _} _.
Arguments gb_Stop {_ _ _ _} _.
Arguments gb_GraceTime {_ _ _ _} _ _.
Arguments gb_Ping {_ _ _ _} _.
Arguments gb_Capacity {_ _ _ _} _.
Arguments gb_Create {_ _ _ _} _ _.
Arguments gb_Destroy {_ _ _ _} _ _.
Arguments gb_Containers {_ _ _ _} _ _.
Arguments gb_BulkInfo {_ _ _ _} _ _.
Arguments gb_BulkMetrics {_ _ _ _} _ _.
Arguments gb_Lookup {_ _ _ _} _ _.

(** The entries of [BulkInfo]: a panic of one container is one of the call. *)
Fixpoint info_entries (l : list (string * result ContainerInfo)) : result (gmap string (ContainerInfo + error)) :=
  match l with
  | [] => Ok ∅
  | (h, r) :: l' =>
      match r with
      | Panic m => Panic m
      | Ok i => res_bind (info_entries l') (fun m => Ok (<[h := inl i]> m))
      | Err e => res_bind (info_entries l') (fun m => Ok (<[h := inr e]> m))
      end
  end.

(** The Linux backend as a [garden.Backend]. *)
Definition linux_garden (env : Env) (cfg : BackendConfig)
    : GardenBackend (LinuxBackend * World) LinuxContainer (ContainerInfo + error) (ContainerMetrics + error) := {|
  gb_Start := Backend_Start env cfg;
  gb_Stop := Backend_Stop env cfg;
  gb_GraceTime := fun c => match c with Some c => ret (Backend_GraceTime c) | None => panic "interface conversion: missing method" end;
  gb_Ping := Ping env;
  gb_Capacity := Backend_Capacity env cfg;
  gb_Create := Backend_Create env cfg;
  gb_Destroy := Backend_Destroy env cfg;
  gb_Containers := fun ps => gets (Backend_Containers ps);
  gb_BulkInfo := fun hs => bind (gets (BulkInfo hs)) (fun l => lift (info_entries l));
  gb_BulkMetrics := fun hs => bind (BulkMetrics env cfg hs) (fun l => ret (list_to_map l));
  gb_Lookup := fun h => bind (gets (Backend_Lookup h)) lift
|}.

(** ** YarnContainer *)

Definition NMHandler : string := "yarn-nide-manager".

(** An [exec.Cmd] and its process; [YEnded] with [reaped]: [Wait] has returned. *)
Inductive YarnCmd := YNotStarted | YRunning (pid : Z) | YEnded (pid : Z) (ws : WaitStatus) (reaped : bool).

(** [cmd.ProcessState] is set by [Wait]. *)
Definition ProcessState (c : YarnCmd) : option WaitStatus := match c with YEnded _ ws true => Some ws | _ => None end.
Definition ws_Exited (ws : WaitStatus) : bool := match ws with Exited _ => true | Signaled _ => false end.

Record YarnContainer := mkYarn {
  Props : gmap string string;
  limitsBandwith : BandwidthLimits;
  limitsCpu : CPULimits;
  limitsDisk : DiskLimits;
  limitMemory : MemoryLimits;
  y_cmd : option YarnCmd
}.

Definition zero_yarn : YarnContainer := mkYarn ∅ (mkBandwidth 0 0) (mkCPULimits 0) (mkDiskLimits 0 0 0 0 0) (mkMemoryLimits 0) None.

(** The condition of [kill] and [getState]. *)
Definition yarn_alive (c : YarnContainer) : bool :=
  match y_cmd c with
  | Some cmd => match ProcessState cmd with Some ws => negb (ws_Exited ws) | None => false end
  | None => false
  end.

Definition getState (c : YarnContainer) : State := if yarn_alive c then StateActive else StateStopped.

Definition Yarn_Info (c : YarnContainer) : ContainerInfo := mkInfo (getState c) [] (Props c) "" [] [] "" "" "".

(** The numbers of [Metrics]; all others are 0. *)
Record YarnMetrics := mkYarnMetrics { ym_Rss : Z; ym_CPU : CPUStat; ym_Disk : Z * Z * Z * Z; ym_Network : NetworkStat }.
Definition Yarn_Metrics : YarnMetrics := mkYarnMetrics 1 (mkCPUStat 1 1 1) (1, 1, 1, 1) (mkNetworkStat 1 1).

(** *** Methods that a client calls on the container *)

Inductive YarnOp :=
| YStop (kill : bool) | YInfo | YStreamIn | YStreamOut | YAttach | YMetrics | YNetIn | YNetOut | YSetGraceTime
| YLimitBandwidth (l : BandwidthLimits) | YCurrentBandwidth
| YLimitCPU (l : CPULimits) | YCurrentCPU | YCurrentDisk
| YLimitMemory (l : MemoryLimits) | YCurrentMemory
| YProperties | YProperty (name : string) | YSetProperty | YRemoveProperty
| YRun.

Inductive YarnRes :=
| YUnit | YInfoRes (i : ContainerInfo) | YMetricsRes (m : YarnMetrics) | YPorts (host container : Z)
| YBandwidth (l : BandwidthLimits) | YCPU (l : CPULimits) | YDisk (l : DiskLimits) | YMemory (l : MemoryLimits)
| YProps (m : gmap string string) | YProp (v : string) | YProcess (pid : Z).

(** The program that [Run] starts, whatever it is asked for. *)
Definition yarn_program : string := "bash -c 'sleep 100000'".

(** [Start] is what starting a program by its name gives: its process ID. *)
Definition yarn_method (Start : string -> result Z) (op : YarnOp) (c : YarnContainer) : result YarnRes * YarnContainer :=
  match op with
  | YStop _ => (Ok YUnit, c)
  | YInfo => (Ok (YInfoRes (Yarn_Info c)), c)
  | YStreamIn => (Err (Errorf "leave me alone"), c)
  | YStreamOut => (Err (Errorf "leave me alone 2"), c)
  | YAttach => (Err (Errorf "can't attach"), c)
  | YMetrics => (Ok (YMetricsRes Yarn_Metrics), c)
  | YNetIn => (Ok (YPorts 0 0), c)
  | YNetOut => (Ok YUnit, c)
  | YSetGraceTime => (Ok YUnit, c)
  | YLimitBandwidth l => (Ok YUnit, mkYarn (Props c) l (limitsCpu c) (limitsDisk c) (limitMemory c) (y_cmd c))
  | YCurrentBandwidth => (Ok (YBandwidth (limitsBandwith c)), c)
  | YLimitCPU l => (Ok YUnit, mkYarn (Props c) (limitsBandwith c) l (limitsDisk c) (limitMemory c) (y_cmd c))
  | YCurrentCPU => (Ok (YCPU (limitsCpu c)), c)
  | YCurrentDisk => (Ok (YDisk (limitsDisk c)), c)
  | YLimitMemory l => (Ok YUnit, mkYarn (Props c) (limitsBandwith c) (limitsCpu c) (limitsDisk c) l (y_cmd c))
  | YCurrentMemory => (Ok (YMemory (limitMemory c)), c)
  | YProperties => (Ok (YProps (Props c)), c)
  | YProperty name => (Ok (YProp (default "" (Props c !! name))), c)
  | YSetProperty => (Err (Errorf "set - props are read only. sorry!"), c)
  | YRemoveProperty => (Err (Errorf "remove - props are read only. sorry!"), c)
  | YRun =>
      match y_cmd c with
      | Some _ => (Err (Errorf "one process is enough"), c)
      | None =>
          let put cmd := mkYarn (Props c) (limitsBandwith c) (limitsCpu c) (limitsDisk c) (limitMemory c) (Some cmd) in
          match Start yarn_program with
          | Ok pid => (Ok (YProcess pid), put (YRunning pid))
          | Err e => (Err e, put YNotStarted)
          | Panic m => (Panic m, put YNotStarted)
          end
      end
  end.

(** [GardenProcess.Wait], once the process has ended. *)
Definition GardenProcess_Wait (cmd : YarnCmd) : option (result Z * YarnCmd) :=
  match cmd with
  | YNotStarted => Some (Err (Errorf "exec: not started"), cmd)
  | YRunning _ => None
  | YEnded pid ws false => Some (Ok (ExitStatus ws), YEnded pid ws true)
  | YEnded pid ws true => Some (Err (Errorf "exec: Wait was already called"), cmd)
  end.

(** [ID] dereferences the process of a command. *)
Definition GardenProcess_ID (cmd : YarnCmd) : result string :=
  match cmd with YRunning pid | YEnded pid _ _ => Ok (Itoa pid) | YNotStarted => Panic "invalid memory address or nil pointer dereference" end.

Definition GardenProcess_SetTTY (t : TTYSpec) (cmd : YarnCmd) : result unit := Ok tt.

(** The signal that is sent: the number of the constant of package garden as it
    is, [garden_number]; a process that was waited for cannot be sent one. *)
Definition GardenProcess_Signal (garden_number : Signal -> Z) (s : Signal) (cmd : YarnCmd) : result Z :=
  match cmd with
  | YRunning _ | YEnded _ _ false => Ok (garden_number s)
  | YEnded _ _ true => Err (Errorf "os: process already finished")
  | YNotStarted => Panic "invalid memory address or nil pointer dereference"
  end.

(** ** YarnBackend *)

(** The containers that were made, the one of the backend, and the processes that
    were sent SIGKILL. *)
Record YarnState := mkYarnState {
  yarn_heap : list YarnContainer;
  yarnContainer : option nat;
  yarn_killed : list Z
}.

(** The containers of the wrapper; the pointer of a [YarnContainer] can be nil. *)
Inductive AnyContainer (C : Type) := RealC (c : C) | YarnC (p : option nat).
Arguments RealC {C} _.
Arguments YarnC {C} _.

Definition nil_dereference : string := "invalid memory address or nil pointer dereference".

Definition kill (p : option nat) : M YarnState unit := fun y =>
  match p ≫= (yarn_heap y !!.) with
  | None => (Panic nil_dereference, y)
  | Some c =>
      match y_cmd c with
      | Some (YEnded pid _ _) => if yarn_alive c then (Ok tt, mkYarnState (yarn_heap y) (yarnContainer y) (yarn_killed y ++ [pid])) else (Ok tt, y)
      | _ => (Ok tt, y)
      end
  end.

(** The slice after the call, what is left in the array of the caller, and
    whether the handle was there. *)
Fixpoint remove_at (i : nat) (handles rest : list string) : list string * list string * bool :=
  match rest with
  | [] => (handles, handles, false)
  | handle :: rest' =>
      if decide (handle = NMHandler) then
        let n := (length handles - 1)%nat in
        let array := <[n := ""]> (<[i := default "" (last handles)]> handles) in
        (take n array, array, true)
      else remove_at (S i) handles rest'
  end.
Definition removeHandle (handles : list string) : list string * list string * bool := remove_at 0 handles handles.

(** Does a specification ask for the node manager. *)
Definition wants_yarn (c : ContainerSpec) : bool := has_prefix "yarn://nodemanager" (RootFSPath c).

Section Yarn.
Context {St C I Mt : Type} (real : GardenBackend St C (I + error) Mt) (yarn_info : ContainerInfo -> I).
Local Open Scope go_scope.

Definition on_real {A} (m : M St A) : M (YarnState * St) A := zoom snd (fun s y => (y.1, s)) m.
Definition on_yarn {A} (m : M YarnState A) : M (YarnState * St) A := zoom fst (fun y s => (y, s.2)) m.

Definition Yarn_Create (c : ContainerSpec) : M (YarnState * St) (AnyContainer C) :=
  if wants_yarn c then
    on_yarn (fun y => (Ok (YarnC (Some (length (yarn_heap y)))),
                       mkYarnState (yarn_heap y ++ [zero_yarn]) (Some (length (yarn_heap y))) (yarn_killed y)))
  else let! x := on_real (gb_Create real c) in ret (RealC x).

Definition Yarn_Destroy (handle : string) : M (YarnState * St) unit :=
  do! (if decide (handle = NMHandler) then
         on_yarn (let! y := get in
                  do! kill (yarnContainer y) in
                  modify (fun y => mkYarnState (yarn_heap y) None (yarn_killed y)))
       else ret tt) in
  on_real (gb_Destroy real handle).

(** What a method of the container of the backend needs first. *)
Definition own_container : M (YarnState * St) YarnContainer :=
  on_yarn (fun y => (match yarnContainer y ≫= (yarn_heap y !!.) with Some c => Ok c | None => Panic nil_dereference end, y)).

Definition Yarn_BulkInfo (handles : list string) : M (YarnState * St) (gmap string (I + error)) :=
  let '(handles, _, r) := removeHandle handles in
  let! infos := on_real (gb_BulkInfo real handles) in
  if r : bool then let! c := own_container in ret (<[NMHandler := inl (yarn_info (Yarn_Info c))]> infos) else ret infos.

Definition Yarn_BulkMetrics (handles : list string) : M (YarnState * St) (gmap string (Mt + YarnMetrics)) :=
  let '(handles, _, r) := removeHandle handles in
  let! metrics := on_real (gb_BulkMetrics real handles) in
  let metrics := inl <$> metrics in
  ret (if r : bool then <[NMHandler := inr Yarn_Metrics]> metrics else metrics).

Definition Yarn_Lookup (handle : string) : M (YarnState * St) (AnyContainer C) :=
  if decide (handle = NMHandler) then on_yarn (fun y => (Ok (YarnC (yarnContainer y)), y))
  else let! c := on_real (gb_Lookup real handle) in ret (RealC c).

Definition Yarn_GraceTime (c : option (AnyContainer C)) : M (YarnState * St) Z :=
  on_real (gb_GraceTime real (match c with Some (RealC c) => Some c | _ => None end)).

Definition yarn_garden : GardenBackend (YarnState * St) (AnyContainer C) (I + error) (Mt + YarnMetrics) := {|
  gb_Start := on_real (gb_Start real);
  gb_Stop := on_real (gb_Stop real);
  gb_GraceTime := Yarn_GraceTime;
  gb_Ping := on_real (gb_Ping real);
  gb_Capacity := on_real (gb_Capacity real);
  gb_Create := Yarn_Create;
  gb_Destroy := Yarn_Destroy;
  gb_Containers := fun ps => let! l := on_real (gb_Containers real ps) in ret (RealC <$> l);
  gb_BulkInfo := Yarn_BulkInfo;
  gb_BulkMetrics := Yarn_BulkMetrics;
  gb_Lookup := Yarn_Lookup
|}.
End Yarn.

(** ** Calls of a client *)

(** The calls of [garden.Backend] on a backend with containers [C]. *)
Inductive BOp (C : Type) :=
| BStart | BStop | BGraceTime (c : option C) | BPing | BCapacity
| BCreate (c : ContainerSpec) | BDestroy (handle : string) | BContainers (ps : gmap string string)
| BBulkInfo (handles : list string) | BBulkMetrics (handles : list string) | BLookup (handle : string).
Arguments BStart {C}.
Arguments BStop {C}.
Arguments BGraceTime {C} _.
Arguments BPing {C}.
Arguments BCapacity {C}.
Arguments BCreate {C} _.
Arguments BDestroy {C} _.
Arguments BContainers {C} _.
Arguments BBulkInfo {C} _.
Arguments BBulkMetrics {C} _.
Arguments BLookup {C} _.

Inductive BRes (C I Mt : Type) :=
| RUnit | RGraceTime (t : Z) | RCapacity (c : Capacity) | RContainer (c : C) | RContainers (l : list C) | RInfos (m : gmap string I) | RMetrics (m : gmap string Mt).
Arguments RUnit {C I Mt}.
Arguments RGraceTime {C I Mt} _.
Arguments RCapacity {C I Mt} _.
Arguments RContainer {C I Mt} _.
Arguments RContainers {C I Mt} _.
Arguments RInfos {C I Mt} _.
Arguments RMetrics {C I Mt} _.

Definition mapM {S A B} (f : A -> B) (m : M S A) : M S B := bind m (fun a => ret (f a)).

Definition run_bop {St C I Mt} (b : GardenBackend St C I Mt) (op : BOp C) : M St (BRes C I Mt) :=
  match op with
  | BStart => mapM (fun _ => RUnit) (gb_Start b)
  | BStop => mapM (fun _ => RUnit) (gb_Stop b)
  | BGraceTime c => mapM RGraceTime (gb_GraceTime b c)
  | BPing => mapM (fun _ => RUnit) (gb_Ping b)
  | BCapacity => mapM RCapacity (gb_Capacity b)
  | BCreate c => mapM RContainer (gb_Create b c)
  | BDestroy h => mapM (fun _ => RUnit) (gb_Destroy b h)
  | BContainers ps => mapM RContainers (gb_Containers b ps)
  | BBulkInfo hs => mapM RInfos (gb_BulkInfo b hs)
  | BBulkMetrics hs => mapM RMetrics (gb_BulkMetrics b hs)
  | BLookup h => mapM RContainer (gb_Lookup b h)
  end.

(** One call after the other; errors and panics are answers to the client. *)
Fixpoint run_bops {St C I Mt} (b : GardenBackend St C I Mt) (ops : list (BOp C)) (s : St) : list (result (BRes C I Mt)) * St :=
  match ops with
  | [] => ([], s)
  | op :: ops' => let '(r, s1) := run_bop b op s in let '(rs, s2) := run_bops b ops' s1 in (r :: rs, s2)
  end.

(** Calls that do not name the node manager. *)
Definition other {C} (op : BOp C) : Prop :=
  match op with
  | BCreate c => wants_yarn c = false
  | BDestroy h | BLookup h => h <> NMHandler
  | BBulkInfo hs | BBulkMetrics hs => NMHandler ∉ hs
  | _ => True
  end.

(** A call of the real backend as the client of the wrapper makes it: a container is
    one that the wrapper has passed on. *)
Definition wrap_op {C} (op : BOp C) : BOp (AnyContainer C) :=
  match op with
  | BStart => BStart | BStop => BStop | BGraceTime c => BGraceTime (RealC <$> c) | BPing => BPing | BCapacity => BCapacity
  | BCreate c => BCreate c | BDestroy h => BDestroy h | BContainers ps => BContainers ps
  | BBulkInfo hs => BBulkInfo hs | BBulkMetrics hs => BBulkMetrics hs | BLookup h => BLookup h
  end.

(** An answer of the real backend as the client of the wrapper sees it. *)
Definition wrap_res {C I Mt Y} (r : BRes C I Mt) : BRes (AnyContainer C) I (Mt + Y) :=
  match r with
  | RUnit => RUnit | RGraceTime t => RGraceTime t | RCapacity c => RCapacity c
  | RContainer c => RContainer (RealC c) | RContainers l => RContainers (RealC <$> l)
  | RInfos m => RInfos m | RMetrics m => RMetrics (inl <$> m)
  end.
Definition res_map {A B} (f : A -> B) (r : result A) : result B := match r with Ok a => Ok (f a) | Err e => Err e | Panic m => Panic m end.

Lemma remove_at_other handles rest : NMHandler ∉ rest -> forall i, remove_at i handles rest = (handles, handles, false).
Proof.
  induction rest as [|h rest IH]; intros Hn i; [done|]. apply not_elem_of_cons in Hn as [Hh Hn]. cbn [remove_at].
  rewrite decide_False by done. by apply IH.
Qed.

(** The handles that are left are the others, in some order: the last one takes the
    place of the first that is removed. *)
Lemma remove_at_here handles rest : forall i pre, handles = pre ++ rest -> length pre = i -> NMHandler ∉ pre -> NMHandler ∈ rest ->
  exists left array, remove_at i handles rest = (left, array, true) /\ NMHandler :: left ≡ₚ handles.
Proof.
  induction rest as [|h rest IH]; intros i pre Heq Hi Hpre Hin; [by apply not_elem_of_nil in Hin|]. cbn [remove_at].
  destruct (decide (h = NMHandler)) as [->|Hne].
  - eexists _, _. split; [done|]. subst handles i. rewrite length_app. cbn [length].
    replace (length pre + S (length rest) - 1)%nat with (length pre + length rest)%nat by lia.
    rewrite take_insert_ge by lia. destruct rest as [|x rest _] using rev_ind.
    + rewrite last_snoc. cbn [default id]. rewrite Nat.add_0_r, take_insert_ge by done.
      rewrite take_app_le, take_ge by lia. by rewrite Permutation_cons_append.
    + rewrite app_comm_cons, (assoc_L (++)), last_snoc. cbn [default id]. rewrite <- (assoc_L (++)).
      rewrite insert_app_r_alt, Nat.sub_diag by lia. cbn [app insert list_insert].
      rewrite length_app, take_app, take_ge by lia. cbn [length].
      replace (length pre + (length rest + 1) - length pre)%nat with (S (length rest)) by lia. cbn [take].
      rewrite take_app_le, take_ge by lia. rewrite Permutation_middle. apply Permutation_app_head.
      apply perm_skip. by rewrite Permutation_cons_append.
  - apply (IH (S i) (pre ++ [h])); [by rewrite <- (assoc_L (++))|rewrite length_app; cbn; lia| |].
    + by rewrite not_elem_of_app, list_elem_of_singleton.
    + by apply elem_of_cons in Hin as [?|?].
Qed.

Lemma removeHandle_others handles : NMHandler ∈ handles ->
  exists left array, removeHandle handles = (left, array, true) /\ NMHandler :: left ≡ₚ handles.
Proof. intros Hin. apply (remove_at_here handles handles 0 []); [done|done|apply not_elem_of_nil|done]. Qed.

Section Transparent.
Context {St C I Mt : Type} (real : GardenBackend St C (I + error) Mt) (yarn_info : ContainerInfo -> I).

Lemma run_bop_other op y s : other op ->
  run_bop (yarn_garden real yarn_info) (wrap_op op) (y, s) = match run_bop real op s with (r, s') => (res_map wrap_res r, (y, s')) end.
Proof.
  intros Ho. destruct op as [| |[c|]| | |c|h|ps|hs|hs|h]; cbn [other] in Ho;
    cbn [wrap_op fmap option_fmap option_map run_bop yarn_garden gb_Start gb_Stop gb_GraceTime gb_Ping gb_Capacity gb_Create gb_Destroy gb_Containers gb_BulkInfo gb_BulkMetrics gb_Lookup];
    unfold mapM, Yarn_GraceTime, Yarn_Create, Yarn_Destroy, Yarn_BulkInfo, Yarn_BulkMetrics, Yarn_Lookup, removeHandle;
    rewrite ?Ho, ?decide_False, ?remove_at_other by done; unfold bind, on_real, zoom, ret; cbn;
    match goal with |- context [match ?m s with _ => _ end] => destruct (m s) as [[a|e|p] s'] end; done.
Qed.
End Transparent.

(** C39: for all calls of [garden.Backend] that do not name the node manager, the
    grace time of a container that the backend has made among them, the wrapper is
    the backend that it wraps: every sequence of them gets the same answers, errors
    and panics included, leaves the wrapped backend in the same state and does not
    touch the wrapper's own. *)
Theorem yarn_transparent {St C I Mt} (real : GardenBackend St C (I + error) Mt) yarn_info ops y s : Forall other ops ->
  run_bops (yarn_garden real yarn_info) (wrap_op <$> ops) (y, s) =
    match run_bops real ops s with (rs, s') => (res_map wrap_res <$> rs, (y, s')) end.
Proof.
  intros Hall. revert s. induction Hall as [|op ops Ho Hall IH]; intros s; [done|]. cbn [run_bops fmap list_fmap].
  rewrite run_bop_other by done. destruct (run_bop real op s) as [r s1]. rewrite IH. by destruct (run_bops real ops s1).
Qed.

Definition empty_yarn : YarnState := mkYarnState [] None [].

Definition sample_bops : list (BOp LinuxContainer) :=
  [BLookup "a"; BGraceTime (be_repo server1 !! "a"); BGraceTime None; BBulkInfo ["a"; "c"]; BLookup "c"; BDestroy "a"; BLookup "a"].

Lemma yarn_transparent_witness :
  run_bops (yarn_garden (linux_garden env_ok sample_backend) id) (wrap_op <$> sample_bops) (empty_yarn, (server1, [] : World)) =
    match run_bops (linux_garden env_ok sample_backend) sample_bops (server1, [] : World) with
    | (rs, s') => (res_map wrap_res <$> rs, (empty_yarn, s'))
    end /\
  is_ok <$> fst (run_bops (linux_garden env_ok sample_backend) sample_bops (server1, [] : World)) = [true; true; false; true; false; true; false].
Proof.
  split; [|vm_compute; reflexivity]. apply (yarn_transparent (linux_garden env_ok sample_backend) id).
  repeat constructor; try discriminate; by apply (bool_decide_unpack _).
Defined.

(** ** The node manager *)

(** A process that runs is reported as stopped, and [Destroy] leaves it running:
    [ProcessState] is nil until [Wait] has returned. *)
Lemma running_is_stopped c pid : y_cmd c = Some (YRunning pid) -> getState c = StateStopped.
Proof. intros Hc. unfold getState, yarn_alive. by rewrite Hc. Qed.

Lemma destroy_leaves_process {St C I Mt} (real : GardenBackend St C (I + error) Mt) y s p c pid :
  yarnContainer y = Some p -> yarn_heap y !! p = Some c -> y_cmd c = Some (YRunning pid) ->
  Yarn_Destroy real NMHandler (y, s) =
    match gb_Destroy real NMHandler s with (r, s') => (r, (mkYarnState (yarn_heap y) None (yarn_killed y), s')) end.
Proof.
  intros Hp Hc Hcmd. unfold Yarn_Destroy. rewrite decide_True by done. unfold bind, on_yarn, zoom, get, kill, modify. cbn.
  rewrite Hp. cbn. rewrite Hc, Hcmd. unfold on_real, zoom. cbn. by destruct (gb_Destroy real NMHandler s) as [[]].
Qed.

(** The backend that it wraps knows no container of that name: destroying the node
    manager always answers with an error, and twice with a panic. *)
Lemma destroy_yarn_errs env cfg y b w p c : yarnContainer y = Some p -> yarn_heap y !! p = Some c -> y_cmd c = None -> be_repo b !! NMHandler = None ->
  Yarn_Destroy (I := ContainerInfo) (linux_garden env cfg) NMHandler (y, (b, w)) =
    (Err (ContainerNotFoundError NMHandler), (mkYarnState (yarn_heap y) None (yarn_killed y), (b, w))).
Proof.
  intros Hp Hc Hcmd Hb. unfold Yarn_Destroy. rewrite decide_True by done. unfold bind, on_yarn, zoom, get, kill, modify. cbn.
  rewrite Hp. cbn. rewrite Hc, Hcmd. unfold on_real, zoom. cbn. unfold Backend_Destroy, bind, gets, lift, Repo_FindByHandle. cbn. by rewrite Hb.
Qed.

Lemma destroy_yarn_twice {St C I Mt} (real : GardenBackend St C (I + error) Mt) y s : yarnContainer y = None ->
  Yarn_Destroy real NMHandler (y, s) = (Panic nil_dereference, (y, s)).
Proof. intros Hp. unfold Yarn_Destroy. rewrite decide_True by done. unfold bind, on_yarn, zoom, get, kill. cbn. by rewrite Hp. Qed.

(** The server asks for the grace time of a container that it has made: for the
    node manager that is a panic. *)
Lemma grace_time_panics env cfg p s :
  exists m, Yarn_GraceTime (I := ContainerInfo) (linux_garden env cfg) (Some (YarnC p)) s = (Panic m, s).
Proof. destruct s as [y [b w]]. by eexists. Qed.

(** A program of that name does not exist: the first [Run] fails and every other
    one is refused. *)
Lemma yarn_run_fails Start c e : y_cmd c = None -> Start yarn_program = Err e ->
  fst (yarn_method Start YRun c) = Err e /\
  fst (yarn_method Start YRun (snd (yarn_method Start YRun c))) = Err (Errorf "one process is enough").
Proof. intros Hc Hs. unfold yarn_method. by rewrite Hc, Hs. Qed.

(** The answers for a list of handles with the node manager in it. *)
Lemma yarn_bulk_info {St C I Mt} (real : GardenBackend St C (I + error) Mt) yarn_info handles y s p c :
  NMHandler ∈ handles -> yarnContainer y = Some p -> yarn_heap y !! p = Some c ->
  exists left, NMHandler :: left ≡ₚ handles /\
    Yarn_BulkInfo real yarn_info handles (y, s) =
      match gb_BulkInfo real left s with
      | (r, s') => (res_map (insert NMHandler (inl (yarn_info (Yarn_Info c)))) r, (y, s'))
      end.
Proof.
  intros Hin Hp Hc. destruct (removeHandle_others _ Hin) as (left & array & Hr & Hperm). exists left. split; [done|].
  unfold Yarn_BulkInfo. rewrite Hr. unfold bind, on_real, zoom. cbn. destruct (gb_BulkInfo real left s) as [[m|e|q] s']; [|done|done].
  unfold own_container, on_yarn, zoom. cbn. rewrite Hp. cbn. by rewrite Hc.
Qed.
