(* ===== verification/Runner.v ===== *)
(** * The runner of the integration tests (src/integration/runner)

    How a server that was started for a test is emptied, stopped and cleaned up
    (runner.go, tmpfs_mounter_linux.go). The client that the runner embeds offers
    the interface of a garden backend; the theorem puts the runner over the Linux
    backend. *)
From S2P Require Import Prelude GoStrings GoNet World Subnets SubnetPool PortPool Container ResourcePool ResourcePoolTheorems Backend Isolation.
From S2P Require Import BackendTheorems Yarn.

(** ** runner.go *)

Section Client.
Context {St C I Mt : Type} (client : GardenBackend St C I Mt) (container_Handle : C -> string).
Local Open Scope go_scope.

Definition DestroyContainers : M St unit :=
  let! containers := gb_Containers client ∅ in
  for_each (fun container => gb_Destroy client (container_Handle container)) containers.
End Client.

Section Runner.
Context (env : Env).
Local Open Scope go_scope.

(** The signal, and then the [select]: [exited] is what the process comes to within
    ten seconds, [None] when the timer is first. *)
Definition signal_and_wait (signal : string) (exited : option (option error)) : M World unit :=
  do! ignore (call_ env (Sys "process.Signal" [signal])) in
  match exited with
  | Some None => ret tt
  | Some (Some err) => fail err
  | None =>
      do! ignore (call_ env (Sys "process.Signal" ["SIGKILL"])) in
      fail (Errorf "timed out waiting for garden to shutdown after 10 seconds")
  end.

Definition runner_Stop (exited : option (option error)) : M World unit := signal_and_wait "SIGTERM" exited.
Definition runner_Kill (exited : option (option error)) : M World unit := signal_and_wait "SIGKILL" exited.

Definition DestroyAndStop {S C I Mt} (client : GardenBackend (S * World) C I Mt) (container_Handle : C -> string) (exited : option (option error))
    : M (S * World) unit :=
  do! DestroyContainers client container_Handle in
  eff (runner_Stop exited).

(** ** tmpfs_mounter_linux.go *)

(** [os.IsNotExist] *)
Context (os_IsNotExist : error -> bool).

Definition tmpfs_must (m : M World unit) : M World unit := or_panic "must" m.

Definition MustMountTmpfs (destination : string) : M World unit :=
  let! st := attempt (call_ env (Sys "stat" [destination])) in
  do! match st with
      | inr err => if os_IsNotExist err then tmpfs_must (call_ env (Sys "os.MkdirAll" [destination; "0755"])) else ret tt
      | inl _ => ret tt
      end in
  let! mounted := attempt (call_ env (Run (Command "mountpoint" [destination]))) in
  match mounted with
  | inr _ => tmpfs_must (call_ env (Sys "mount" ["tmpfs"; destination; "tmpfs"; "0"; ""]))
  | inl _ => ret tt
  end.

Definition MustUnmountTmpfs (destination : string) : M World unit := tmpfs_must (call_ env (Sys "unmount" [destination; "0"])).

(** [Retry] is that of the retrier package. *)
Definition runner_Cleanup (Retry : M World unit -> M World unit) (GraphPath tmpdir : string) : M World unit :=
  let aufs := path_join [GraphPath; "aufs"] in
  do! Retry (let! r := attempt (call_ env (RemoveAll aufs)) in
             match r with inl _ => ret tt | inr _ => call_ env (Sys "unmount" [aufs; "0"]) end) in
  do! MustUnmountTmpfs GraphPath in
  call_ env (RemoveAll tmpdir).

(** Whatever state the mount point was in, when [MustMountTmpfs] returns the kernel
    has said that it is one, or has mounted it. *)
Lemma MustMountTmpfs_mounts destination w w' : MustMountTmpfs destination w = (Ok tt, w') ->
  exists h, (w' = h ++ [Run (Command "mountpoint" [destination])] /\ exists out, env h (Run (Command "mountpoint" [destination])) = inl out) \/
    let h' := h ++ [Run (Command "mountpoint" [destination])] in
    w' = h' ++ [Sys "mount" ["tmpfs"; destination; "tmpfs"; "0"; ""]] /\ exists out, env h' (Sys "mount" ["tmpfs"; destination; "tmpfs"; "0"; ""]) = inl out.
Proof.
  unfold MustMountTmpfs. set (rest := fun _ : unit => bind (attempt _) _). intros Hm.
  assert (Hrest : exists h, rest tt h = (Ok tt, w')).
  { revert Hm. rewrite bind_eq, attempt_eq, call__eq. destruct (env w _) as [out|err]; rewrite bind_eq; [unfold ret at 1; eauto|].
    destruct (os_IsNotExist err); [|unfold ret at 1; eauto]. unfold tmpfs_must at 1, or_panic at 1. rewrite call__eq.
    destruct (env _ (Sys "os.MkdirAll" _)); [eauto|done]. }
  destruct Hrest as [h Hrest]. exists h. revert Hrest. unfold rest. rewrite bind_eq, attempt_eq, call__eq.
  destruct (env h _) as [out|err] eqn:E; [intros [= <-]; left; eauto|]. unfold tmpfs_must, or_panic. rewrite call__eq.
  destruct (env (h ++ _) _) as [out|e] eqn:E'; [|done]. intros [= <-]. right. eauto.
Qed.
End Runner.

(** ** A server without containers *)

(** What a container had is free. *)
Definition freed (b : LinuxBackend) (c : LinuxContainer) : Prop :=
  (forall n, net_of c = Some n -> ~ holds (rp_subnets (be_pool b)) n) /\
  (forall port, port ∈ ports_of c -> in_range (rp_ports (be_pool b)) port -> port ∈ pp_pool (rp_ports (be_pool b))).

Lemma destroy_frees env cfg d r handle c b w b' w' : be_inv d r b -> be_repo b !! handle = Some c ->
  Backend_Destroy env cfg handle (b, w) = (Ok tt, (b', w')) -> freed b' c /\ forall c', freed b c' -> freed b' c'.
Proof.
  intros Hinv Hc Hd. destruct (destroy_effect _ _ _ _ _ _ _ _ _ _ _ Hinv Hc Hd) as (_ & Hports & n & y & Hn & Hhold & Hrel).
  pose proof (bi_ports _ _ _ Hinv) as Hwf. pose proof (release_ports_range _ _ _ Hwf Hports) as HR.
  assert (Hrange : forall port, in_range (rp_ports (be_pool b')) port <-> in_range (rp_ports (be_pool b)) port).
  { destruct (release_ports_free _ _ _ Hwf Hports) as [Hwf' _]. intros port. by rewrite <- !elem_of_range, HR by done. }
  split; [split|intros c' [Hn' Hp']; split].
  - intros n' Hn'. replace n' with n by congruence. by apply (release_held _ _ _ _ _ _ (bi_subnets _ _ _ Hinv) Hhold Hrel).
  - intros port Hin Hr%Hrange. eapply release_ports_in; [exact Hwf|exact Hports|by right].
  - intros n' Hn'' Hh. apply (Hn' _ Hn''). by eapply release_takes_nothing.
  - intros port Hin Hr%Hrange. eapply release_ports_in; [exact Hwf|exact Hports|left; by apply Hp'].
Qed.

Lemma destroy_each env cfg d r cs : forall b w x b' w', be_inv d r b -> NoDup (handle_of <$> cs) ->
  Forall (fun c => be_repo b !! handle_of c = Some c) cs ->
  for_each (fun c => Backend_Destroy env cfg (handle_of c)) cs (b, w) = (x, (b', w')) ->
  match x with
  | Ok _ => (forall h, be_repo b' !! h = if decide (h ∈ handle_of <$> cs) then None else be_repo b !! h) /\
      Forall (freed b') cs /\ forall c, freed b c -> freed b' c
  | Err _ => be_repo b' ⊆ be_repo b /\ exists c, c ∈ cs /\ be_repo b' !! handle_of c = None
  | Panic _ => True
  end.
Proof.
  induction cs as [|c cs IH]; intros b w x b' w' Hinv Hnd Hcs; [intros [= <- <- <-]; split; [done|by split]|].
  apply NoDup_cons in Hnd as [Hc Hnd]. apply Forall_cons in Hcs as [Hhc Hcs]. cbn [for_each]. rewrite bind_eq.
  destruct (Backend_Destroy env cfg (handle_of c) (b, w)) as [y [b1 w1]] eqn:Hd.
  destruct (destroy_effect _ _ _ _ _ _ _ _ _ _ _ Hinv Hhc Hd) as [Hrepo Hy].
  destruct y as [[]|e|m]; [|intros [= <- <- <-]|by intros [= <- <- <-]].
  - intros Hrest. destruct (destroy_frees _ _ _ _ _ _ _ _ _ _ Hinv Hhc Hd) as [Hf Hkeep].
    assert (Hcs1 : Forall (fun c => be_repo b1 !! handle_of c = Some c) cs).
    { rewrite Forall_forall in Hcs |- *. intros c' Hin. rewrite Hrepo, lookup_delete_ne; [by apply Hcs|].
      intros Heq. apply Hc. rewrite Heq. by apply list_elem_of_fmap_2. }
    specialize (IH _ _ _ _ _ (destroy_inv _ _ _ _ _ _ _ _ _ _ Hinv Hd I) Hnd Hcs1 Hrest). destruct x as [[]|e|m]; [|..|done].
    + destruct IH as (Hr' & Hfs & Hk). split_and!; [|constructor; [by apply Hk|done]|auto].
      intros h. rewrite Hr', Hrepo. rewrite fmap_cons. destruct (decide (h = handle_of c)) as [->|Hne].
      * rewrite lookup_delete_eq. rewrite (decide_True (P := handle_of c ∈ _ :: _)) by (by left). by case_decide.
      * rewrite lookup_delete_ne by done. case_decide as H1; case_decide as H2; [done| |by apply elem_of_cons in H2 as [?|?]|done].
        destruct H2. by right.
    + destruct IH as (Hsub & c' & Hin & Hnone). split; [|exists c'; split; [by right|done]]. etrans; [exact Hsub|]. rewrite Hrepo. apply delete_subseteq.
  - split; [rewrite Hrepo; apply delete_subseteq|]. exists c. split; [by left|]. rewrite Hrepo. apply lookup_delete_eq.
Qed.

(** Without properties to ask for, [Containers] lists every container once. *)
Lemma containers_all d r b : be_inv d r b ->
  Backend_Containers ∅ b = (map_to_list (be_repo b)).*2 /\ handle_of <$> (map_to_list (be_repo b)).*2 = (map_to_list (be_repo b)).*1.
Proof.
  intros Hinv. split.
  - assert (Hall : forall c, withProperties ∅ c = true) by (intros c; unfold withProperties, HasProperties; by rewrite map_to_list_empty).
    unfold Backend_Containers, Repo_Query. induction ((map_to_list (be_repo b)).*2) as [|c l IH]; [done|]. cbn [List.filter].
    by rewrite Hall, IH.
  - rewrite <- list_fmap_compose. apply list_fmap_ext. intros i [h c] Hi. cbn. apply (bi_owns _ _ _ Hinv). apply elem_of_map_to_list.
    by eapply list_elem_of_lookup_2.
Qed.

(** C5: emptying a server. When the runner has destroyed all containers without an
    error, the server has none, and the address and the ports of each of them are free
    again. An error means that some container is gone whose clean-up or release has
    failed; no container was added or changed. *)
Theorem destroy_all_empties env cfg d r b w x b' w' :
  be_inv d r b -> DestroyContainers (linux_garden env cfg) handle_of (b, w) = (x, (b', w')) ->
  match x with
  | Ok _ => be_repo b' = ∅ /\ forall h c, be_repo b !! h = Some c -> freed b' c
  | Err _ => be_repo b' ⊆ be_repo b /\ exists h, is_Some (be_repo b !! h) /\ be_repo b' !! h = None
  | Panic _ => True
  end.
Proof.
  intros Hinv. unfold DestroyContainers. rewrite bind_eq. cbn [linux_garden gb_Containers gb_Destroy]. unfold gets. cbn [fst].
  destruct (containers_all _ _ _ Hinv) as [-> Hh]. intros Hrun. apply (destroy_each _ _ _ _ _ _ _ _ _ _ Hinv) in Hrun.
  - rewrite Hh in Hrun. destruct x as [[]|e|m]; [|..|done].
    + destruct Hrun as (Hr & Hf & _). rewrite Forall_forall in Hf. split.
      * apply map_empty. intros h. rewrite Hr. case_decide as Hin; [done|]. destruct (be_repo b !! h) as [c|] eqn:Hc; [|done].
        destruct Hin. apply list_elem_of_fmap. exists (h, c). split; [done|]. by apply elem_of_map_to_list.
      * intros h c Hc. apply Hf. apply list_elem_of_fmap. exists (h, c). split; [done|]. by apply elem_of_map_to_list.
    + destruct Hrun as (Hsub & c & Hin & Hnone). split; [done|]. exists (handle_of c). split; [|done].
      apply list_elem_of_fmap in Hin as ([h c'] & -> & Hin%elem_of_map_to_list). cbn. destruct (bi_owns _ _ _ Hinv _ _ Hin) as [-> _]. eauto.
  - rewrite Hh. apply NoDup_fst_map_to_list.
  - apply Forall_forall. intros c Hin. apply list_elem_of_fmap in Hin as ([h c'] & -> & Hin%elem_of_map_to_list). cbn.
    destruct (bi_owns _ _ _ Hinv _ _ Hin) as [-> _]. done.
Qed.

Definition emptied : result unit * (LinuxBackend * World) := Eval vm_compute in
  DestroyContainers (linux_garden env_ok sample_backend) handle_of (server3, []).

Lemma destroy_all_empties_witness :
  emptied.1 = Ok tt /\ be_repo emptied.2.1 = ∅ /\ exists c, be_repo server3 !! "a" = Some c /\ freed emptied.2.1 c.
Proof.
  split; [reflexivity|].
  destruct (destroy_all_empties env_ok sample_backend 184418304 22 server3 [] emptied.1 emptied.2.1 emptied.2.2
    server3_inv ltac:(vm_compute; reflexivity)) as [He Hf].
  split; [exact He|]. eexists. split; [vm_compute; reflexivity|]. apply (Hf "a"). vm_compute. reflexivity.
Defined.
