(* ===== verification/Observability.v ===== *)
(** * Logging and metrics of the server (src/logging/runner.go, src/metrics)

    The logging runner runs a command as another runner does and reports it; the
    metrics are three numbers of the host that a notifier sends at every tick until
    it is stopped. *)
From S2P Require Import Prelude GoStrings World IOSpawn.

(** ** runner.go *)

(** The writers that a command's output goes to: those of the caller are named, a
    buffer of the runner is one of the two below. *)
Inductive Writer := Caller (n : nat) | StdoutBuffer | StderrBuffer.

#[export] Instance Writer_eq_dec : EqDecision Writer.
Proof. solve_decision. Defined.

(** [exec.Cmd] with its writers: none for nil, more than one for a
    [io.MultiWriter]. *)
Record RunCmd := mkRunCmd { rc_Args : list string; rc_Stdout : list Writer; rc_Stderr : list Writer }.

(** What comes of a command: its error, its output and the status, if it was
    started. *)
Record RunResult := mkRunResult { rr_err : option error; rr_out : string; rr_errout : string; rr_status : option WaitStatus }.

(** Everything that was written, in order. *)
Definition Output : Type := list (Writer * string).
Definition written_to (w : Writer) (o : Output) : string := foldr (fun x acc => if decide (x.1 = w) then x.2 +:+ acc else acc) "" o.

(** The runner that is wrapped: it writes the output to all the writers. *)
Definition base_Run (run : list string -> RunResult) (cmd : RunCmd) (o : Output) : RunResult * Output :=
  let r := run (rc_Args cmd) in
  (r, o ++ ((fun w => (w, rr_out r)) <$> rc_Stdout cmd) ++ ((fun w => (w, rr_errout r)) <$> rc_Stderr cmd)).

(** The log: the start, and the end with its data. *)
Inductive LogLine :=
| LogStarting (argv : list string)
| LogSucceeded (status : option Z)
| LogFailed (err : error) (status : option Z) (stdout stderr : string).

Definition logging_Run (run : list string -> RunResult) (cmd : RunCmd) (o : Output) : option error * Output * list LogLine :=
  let cmd' := mkRunCmd (rc_Args cmd) (rc_Stdout cmd ++ [StdoutBuffer]) (rc_Stderr cmd ++ [StderrBuffer]) in
  let '(r, o') := base_Run run cmd' o in
  let status := ExitStatus <$> rr_status r in
  (rr_err r, o',
   [LogStarting (rc_Args cmd);
    match rr_err r with
    | Some err => LogFailed err status (written_to StdoutBuffer o') (written_to StderrBuffer o')
    | None => LogSucceeded status
    end]).

Lemma written_to_app w o o' : written_to w (o ++ o') = written_to w o +:+ written_to w o'.
Proof.
  unfold written_to. induction o as [|x o IH]; [done|]. cbn [app foldr]. rewrite IH. case_decide; [|done]. by rewrite app_assoc_string.
Qed.

(** The command's own writers. *)
Definition own_writers (cmd : RunCmd) : Prop := Forall (fun w => exists n, w = Caller n) (rc_Stdout cmd ++ rc_Stderr cmd).

Lemma written_to_other w (ws : list Writer) s : w ∉ ws -> written_to w ((fun v => (v, s)) <$> ws) = "".
Proof.
  induction ws as [|v ws IH]; intros Hn; [done|]. apply not_elem_of_cons in Hn as [Hv Hn]. cbn. rewrite decide_False by done. by apply IH.
Qed.

(** Logging changes nothing: the caller gets the error of the runner that is
    wrapped, and each of its writers exactly what it would have got without
    logging; of a command that failed, the log has the output. *)
Theorem logging_transparent run cmd n : own_writers cmd ->
  match logging_Run run cmd [] with
  | (err, o', log) =>
      err = rr_err (fst (base_Run run cmd [])) /\ written_to (Caller n) o' = written_to (Caller n) (snd (base_Run run cmd [])) /\
      (forall e, err = Some e -> exists status, log = [LogStarting (rc_Args cmd);
         LogFailed e status (rr_out (run (rc_Args cmd))) (rr_errout (run (rc_Args cmd)))])
  end.
Proof.
  intros Hown. unfold own_writers in Hown. apply Forall_app in Hown as [H1 H2]. rewrite Forall_forall in H1, H2.
  assert (Hb : forall w, (forall m, w <> Caller m) -> w ∉ rc_Stdout cmd /\ w ∉ rc_Stderr cmd).
  { intros w Hw. split; intros Hin; [destruct (H1 _ Hin) as [m ->]|destruct (H2 _ Hin) as [m ->]]; by destruct (Hw m). }
  unfold logging_Run, base_Run. cbn [fst snd rc_Args rc_Stdout rc_Stderr app]. rewrite !fmap_app. split; [done|]. split.
  - rewrite !written_to_app. cbn. by rewrite !app_nil_r_string.
  - intros e He. rewrite He. eexists. destruct (Hb StdoutBuffer) as [Ho1 Ho2]; [done|]. destruct (Hb StderrBuffer) as [He1 He2]; [done|].
    rewrite !written_to_app, !(written_to_other _ (rc_Stdout cmd)), !(written_to_other _ (rc_Stderr cmd)) by done. cbn. by rewrite !app_nil_r_string.
Qed.

Definition sample_run_result (_ : list string) : RunResult := mkRunResult (Some (Errorf "exit status 2")) "out" "bad" (Some (Exited 2)).

Lemma logging_transparent_witness :
  match logging_Run sample_run_result (mkRunCmd ["ls"] [Caller 0] []) [] with
  | (err, o', log) => err = Some (Errorf "exit status 2") /\ written_to (Caller 0) o' = "out"
  end.
Proof.
  destruct (logging_transparent sample_run_result (mkRunCmd ["ls"] [Caller 0] []) 0) as (H1 & H2 & _).
  - repeat constructor. by exists 0%nat.
  - split; [exact H1|exact H2].
Defined.

(** ** metrics.go *)

Section Metrics.
Context (env : Env).
Local Open Scope go_scope.

Fixpoint count_newlines (s : string) : Z :=
  match s with "" => 0 | String c s' => (if is_newline c then 1 else 0) + count_newlines s' end.

(** An error is logged and gives -1. *)
Definition or_minus_one (m : M World Z) : M World Z :=
  let! r := attempt m in match r with inl n => ret n | inr _ => ret (-1) end.

(** What the Go runtime reports of itself, after some calls. *)
Context (runtime_NumCPU runtime_NumGoroutine : World -> Z).

Definition NumCPU : M World Z := fun w => (Ok (runtime_NumCPU w), w).
Definition NumGoroutine : M World Z := fun w => (Ok (runtime_NumGoroutine w), w).

Definition LoopDevices : M World Z :=
  or_minus_one (let! devices := call env (Sys "exec" ["losetup"; "-a"]) in ret (count_newlines devices)).

(** The world answers with one name per line. *)
Definition count_entries (path : string) : M World Z :=
  or_minus_one (let! out := call env (Sys "readdir" [path]) in ret (Z.of_nat (length (filter (fun e => e <> "") (split newline out))))).

Definition BackingStores (backingStoresPath : string) : M World Z := count_entries backingStoresPath.
Definition DepotDirs (depotPath : string) : M World Z := count_entries depotPath.

(** [NewMetrics]: the metrics of these two directories. *)
Record Metrics := mkMetrics { m_NumCPU : M World Z; m_NumGoroutine : M World Z; m_LoopDevices : M World Z; m_BackingStores : M World Z; m_DepotDirs : M World Z }.
Definition NewMetrics (backingStoresPath depotPath : string) : Metrics :=
  mkMetrics NumCPU NumGoroutine LoopDevices (BackingStores backingStoresPath) (DepotDirs depotPath).

(** ** debug.go *)

(** The variables that [expvar] has published; a name cannot be used again. *)
Local Notation Vars := (gmap string (M World Z)).
Definition Publish (name : string) (v : M World Z) : M (Vars * World) unit :=
  let! vars := gets id in
  match vars !! name with
  | Some _ => panic ("Reuse of exported var name: " +:+ name)
  | None => update (fun vars => <[name := v]> vars)
  end.

Definition StartDebugServer (address : string) (metrics : Metrics) : M (Vars * World) unit :=
  do! Publish "numCPUS" (m_NumCPU metrics) in
  do! Publish "numGoRoutines" (m_NumGoroutine metrics) in
  do! Publish "loopDevices" (m_LoopDevices metrics) in
  do! Publish "backingStores" (m_BackingStores metrics) in
  do! Publish "depotDirs" (m_DepotDirs metrics) in
  eff (call_ env (Sys "http_server" [address])).

(** Which of the two handlers gets a request. *)
Inductive Route := DefaultServeMux (path : string) | PprofHandler (path : string).
Definition handler (path : string) : Route := if has_prefix "/debug/vars" path then DefaultServeMux path else PprofHandler path.

(** ** periodic_metron_notifier.go *)

Definition send (name : string) (value : Z) : M World unit := ignore (call_ env (Sys "dropsonde.SendValue" [name; Itoa value])).

(** What the goroutine does at a tick. *)
Definition report (backingStoresPath depotPath : string) (took : Z) : M World unit :=
  let! n := LoopDevices in do! send "LoopDevices" n in
  let! n := BackingStores backingStoresPath in do! send "BackingStores" n in
  let! n := DepotDirs depotPath in do! send "DepotDirs" n in
  send "MetricsReporting" took.

(** The notifier: its channel is closed, and its goroutine runs. *)
Record Notifier := mkNotifier { nt_stopped : bool; nt_running : bool; nt_reports : nat }.

Inductive notifier_step : Notifier -> Notifier -> Prop :=
| nt_tick s n : notifier_step (mkNotifier s true n) (mkNotifier s true (S n))
| nt_stop r n : notifier_step (mkNotifier false r n) (mkNotifier true r n)
| nt_end n : notifier_step (mkNotifier true true n) (mkNotifier true false n).

(** [Stop] closes the channel; a second time is a panic. *)
Definition Notifier_Stop (n : Notifier) : result Notifier :=
  if nt_stopped n then Panic "close of closed channel" else Ok (mkNotifier true (nt_running n) (nt_reports n)).
End Metrics.

(** A report always goes through, whatever fails, and sends the four values in
    this order. *)
Definition sent (w : World) : list string := omap (fun c => match c with Sys "dropsonde.SendValue" (name :: _) => Some name | _ => None end) w.

Lemma or_minus_one_Ok m w : (forall p w', m w <> (Panic p, w')) -> exists n, or_minus_one m w = (Ok n, snd (m w)).
Proof.
  intros Hp. unfold or_minus_one. rewrite bind_eq, attempt_eq. destruct (m w) as [[n|e|p] w'] eqn:E; cbn; [by eexists..|by destruct (Hp p w')].
Qed.

Lemma report_sends env b d took w : exists w', report env b d took w = (Ok tt, w') /\
  sent w' = sent w ++ ["LoopDevices"; "BackingStores"; "DepotDirs"; "MetricsReporting"].
Proof.
  assert (Hsend : forall name v h, send env name v h = (Ok tt, h ++ [Sys "dropsonde.SendValue" [name; Itoa v]])).
  { intros. unfold send. rewrite ignore_eq, call__eq. by destruct (env h _). }
  assert (Hcount : forall path h, exists n, count_entries env path h = (Ok n, h ++ [Sys "readdir" [path]])).
  { intros path h. unfold count_entries. edestruct or_minus_one_Ok as [n Hn]; [|exists n; rewrite Hn];
      rewrite bind_eq, call_eq; by destruct (env h _). }
  assert (Hloop : forall h, exists n, LoopDevices env h = (Ok n, h ++ [Sys "exec" ["losetup"; "-a"]])).
  { intros h. unfold LoopDevices. edestruct or_minus_one_Ok as [n Hn]; [|exists n; rewrite Hn];
      rewrite bind_eq, call_eq; by destruct (env h _). }
  unfold report, BackingStores, DepotDirs. rewrite bind_eq. destruct (Hloop w) as [n1 ->]. rewrite bind_eq, Hsend, bind_eq.
  destruct (Hcount b (w ++ [Sys "exec" ["losetup"; "-a"]] ++ [Sys "dropsonde.SendValue" ["LoopDevices"; Itoa n1]])) as [n2 Hn2].
  rewrite <- (assoc_L (++)), Hn2, bind_eq, Hsend, bind_eq. edestruct (Hcount d) as [n3 ->]. rewrite bind_eq, Hsend, Hsend.
  eexists. split; [done|]. unfold sent. rewrite <- !(assoc_L (++)), !omap_app. done.
Qed.

(** ** The debug server *)

Lemma Publish_new name v vars w : vars !! name = None -> Publish name v (vars, w) = (Ok tt, (<[name := v]> vars, w)).
Proof. intros Hn. unfold Publish. rewrite bind_eq. unfold gets. cbn. by rewrite Hn. Qed.

(** The names under which the metrics are published. *)
Definition metric_vars (m : Metrics) : list (string * M World Z) :=
  [("numCPUS", m_NumCPU m); ("numGoRoutines", m_NumGoroutine m); ("loopDevices", m_LoopDevices m); ("backingStores", m_BackingStores m);
   ("depotDirs", m_DepotDirs m)].

(** The debug server publishes the five metrics and nothing else, whether it can
    listen or not; started again in the same process it panics. *)
Lemma debug_server_publishes env address m vars w : Forall (fun name => vars !! name = None) (metric_vars m).*1 ->
  exists r vars' w', StartDebugServer env address m (vars, w) = (r, (vars', w')) /\ (forall p, r <> Panic p) /\
    (forall name v, (name, v) ∈ metric_vars m -> vars' !! name = Some v) /\
    (forall name, name ∉ (metric_vars m).*1 -> vars' !! name = vars !! name) /\
    (forall m' w'', StartDebugServer env address m' (vars', w'') = (Panic "Reuse of exported var name: numCPUS", (vars', w''))).
Proof.
  cbn [metric_vars fmap list_fmap fst]. rewrite !Forall_cons. intros (H1 & H2 & H3 & H4 & H5 & _). unfold StartDebugServer.
  rewrite bind_eq, Publish_new by done. rewrite bind_eq, Publish_new by (by rewrite !lookup_insert_ne). rewrite bind_eq, Publish_new by (by rewrite !lookup_insert_ne).
  rewrite bind_eq, Publish_new by (by rewrite !lookup_insert_ne). rewrite bind_eq, Publish_new by (by rewrite !lookup_insert_ne).
  rewrite eff_eq, call__eq. eexists _, _, _. split; [reflexivity|]. split; [by destruct (env w _)|]. split_and!.
  - intros name v Hin. unfold metric_vars in Hin. rewrite !elem_of_cons in Hin. destruct Hin as [[= -> ->]|[[= -> ->]|[[= -> ->]|[[= -> ->]|[[= -> ->]|Hin]]]]];
      [by simplify_map_eq..|by apply elem_of_nil in Hin].
  - intros name Hn. rewrite !not_elem_of_cons in Hn. by rewrite !lookup_insert_ne by (symmetry; tauto).
  - intros m' w''. unfold Publish at 1. rewrite !bind_eq. unfold gets. cbn [fst id]. by simplify_map_eq.
Qed.
