(* ===== verification/Startup.v ===== *)
(** * Starting and stopping the server (src/main.go, src/port_pool/state.go, src/pkg/vars)

    [main] checks its options, builds the pools, the resource pool and the backend
    from them, wraps the backend in a [YarnBackend] and starts the server, which
    starts the backend; a signal saves the state of the port pool and stops it. Code
    of other packages (the graph, the image fetcher, dropsonde) is a call of the
    world; the [Start] of the garden server is a parameter, with the law that it
    starts the backend that it was given. The options are given as the record of the
    values of the flags. *)
From S2P Require Import Prelude GoStrings GoNet IPv4 TextCodec World ProcessEnv RLimits Sysconfig Namespaces Subnets.
From S2P Require Import SubnetsProofs SubnetPool PortPool BridgeMgr IPTables IPTablesManager Bandwidth Cgroups Metrics.
From S2P Require Import ProcessTracker Container ResourcePool ResourcePoolTheorems Backend Isolation Overlap BackendTheorems.
From S2P Require Import Restart Yarn Observability.

(** ** vars.go: a flag that collects its values *)

Definition StringList_Set (l : list string) (arg : string) : list string := l ++ [arg].
Definition StringList_String (l : list string) : string := join ", " l.

(** ** state.go *)

(** The JSON encoding of the state of the port pool. *)
Class StateCodec := {
  encode_state : PortPool.State -> string;
  decode_state : string -> result PortPool.State;
  state_roundtrip st : is_u32 (Offset st) -> decode_state (encode_state st) = Ok st;
  state_range s st : decode_state s = Ok st -> is_u32 (Offset st)
}.

Section PortState.
Context {codec : StateCodec} (env : Env).
Local Open Scope go_scope.

Definition LoadState (filePath : string) : M World PortPool.State :=
  let! data := map_err (Wrapf "openning state file: %s" []) (call env (ReadFile filePath)) in
  map_err (Wrapf "parsing state file: %s" []) (lift (decode_state data)).

(** An error of the encoder is dropped. *)
Definition SaveState (filePath : string) (state : PortPool.State) : M World unit :=
  do! map_err (Wrapf "creating state file: %s" []) (call_ env (Sys "os.Create" [filePath])) in
  ignore (call_ env (WriteFile filePath (encode_state state))).
End PortState.

(** ** The options *)

Record Options := mkOptions {
  o_listenNetwork : string;
  o_listenAddr : string;
  o_snapshots : string;
  o_bin : string;
  o_stateDir : string;
  o_depot : string;
  o_rootfs : string;
  o_enableGraphCleanup : bool;
  o_containerGraceTime : Z;
  o_portPoolStart : Z;
  o_portPoolSize : Z;
  o_networkPool : string;
  o_denyNetworks : string;
  o_allowNetworks : string;
  o_graph : string;
  o_registry : string;
  o_tag : string;
  o_dropsondeOrigin : string;
  o_dropsondeDestination : string;
  o_metricsEmissionInterval : Z;
  o_allowHostAccess : bool;
  o_iptablesLogMethod : string;
  o_mtu : Z;
  o_externalIP : string;
  o_maxContainers : Z;
  o_graphDriver : string;
  o_insecureRegistries : list string;
  o_persistentImages : list string;
  o_debugAddr : string
}.

Definition DefaultNetworkPool : string := "10.254.0.0/22".
Definition DefaultMTUSize : Z := 1500.
Definition CurrentContainerVersion : string := "1.0.0".

(** The values of the flags that are not set. *)
Definition default_options : Options :=
  mkOptions "unix" "/tmp/garden.sock" "" "" "" "" "" false 0 60000 5000 DefaultNetworkPool "" "" "/var/lib/garden-docker-graph"
    "registry-1.docker.io" "" "garden-linux" "localhost:3457" 60000000000 false "kernel" DefaultMTUSize "" 0 "auto" [] [] "".

(** ** The parts of the server *)

(** The backend that the garden server is given, and the state it acts on. *)
Definition ServedState : Type := YarnState * (LinuxBackend * World).
Definition ServedBackend : Type :=
  GardenBackend ServedState (AnyContainer LinuxContainer) (ContainerInfo + error) ((ContainerMetrics + error) + YarnMetrics).

(** What the server gets from elsewhere: the environment of the process, the time
    and the first container number, and the codecs and parsers of other packages. *)
Record Externals := mkExternals {
  x_PATH : string;
  x_now : Z;
  x_firstID : Z;
  x_node : string -> M World string;
  x_url_Parse : string -> result string;
  x_semver_Make : string -> result Version;
  x_rootfs_reply : string -> string * list string;
  x_Map : list IDMap -> Z -> Z;
  x_NumCPU : World -> Z;
  x_NumGoroutine : World -> Z;
  x_json_encode : ContainerSnapshot -> string;
  x_json_decode : string -> result ContainerSnapshot;
  x_decode_net : string -> NetworkStat;
  x_server_Start : ServedBackend -> string -> string -> Z -> M ServedState unit
}.

(** What is relied on of the [Start] of garden/server: when it returns without an error
    it has started the backend that it was given, which returned without an error, and
    has not changed the state of the backend in another way. *)
Definition starts_backend (Start : ServedBackend -> string -> string -> Z -> M ServedState unit) : Prop :=
  forall backend network addr grace y b w y' b' w',
    Start backend network addr grace (y, (b, w)) = (Ok tt, (y', (b', w'))) ->
    exists w1 w2, gb_Start backend (y, (b, w1)) = (Ok tt, (y', (b', w2))).

(** The server that serves: its configuration, the backend as [main] has built it, and
    the states of the wrapper and of the backend since. *)
Record Server := mkServer {
  srv_options : Options;
  srv_sysconfig : Config;
  srv_config : BackendConfig;
  srv_built : LinuxBackend;
  srv_yarn : YarnState;
  srv_backend : LinuxBackend
}.

(** How [main] goes on: it serves, it returns after an error in the options (the
    exit status is then 0), or it exits. A fatal error of the logger is a panic. *)
Inductive MainEnd := Serving (srv : Server) | MainReturns | MainExits (code : Z).

Section Main.
Context {codec : StateCodec} (env : Env) (x : Externals).
Local Open Scope go_scope.

(** [logger.Fatal] when there is an error. *)
Definition fatal {A} (m : M World A) : M World A := fun w =>
  match m w with (Err _, w') => (Panic "fatal", w') | r => r end.

Definition createIPTablesManager (config : Config) : list ContainerChain :=
  [NewFilterChain env (cfg_Filter (cfg_IPTables config)); NewNATChain env (cfg_NAT (cfg_IPTables config))].

(** [provider.ProvideFilter] *)
Definition ProvideFilter (config : Config) (useKernelLogging : bool) (containerId : string) : chain :=
  NewLoggingChain (Filter_InstancePrefix (cfg_Filter (cfg_IPTables config)) +:+ containerId) useKernelLogging.

(** [provider.ProvideContainer]: what it gives a container of its own, beside the
    specification: the cgroup root, the names of its filter chain and of its
    network interface, and the directory and ID of its bandwidth manager. *)
Record Provided := mkProvided {
  pv_container : LinuxContainer;
  pv_cgroups : string;
  pv_filter : chain;
  pv_link : string;
  pv_bandwidth : string * string
}.

Definition ProvideContainer (config : Config) (useKernelLogging : bool) (spec : LinuxContainerSpec) : Provided :=
  mkProvided (NewLinuxContainer spec) (CgroupPath config) (ProvideFilter config useKernelLogging (ID spec))
    (NetworkInterfacePrefix config +:+ ID spec +:+ "-0") (ContainerPath spec, ID spec).

(** [selectGraphDriver]: the name "auto" lets the driver be chosen. *)
Definition selectGraphDriver (name graphRoot : string) : M World string :=
  if decide (name = "auto") then call env (Sys "graphdriver.New" [graphRoot])
  else call env (Sys "graphdriver.GetDriver" [name; graphRoot]).

Definition initializeDropsonde (o : Options) : M World unit :=
  ignore (call_ env (Sys "dropsonde.Initialize" [o_dropsondeDestination o; o_dropsondeOrigin o])).

(** The IP that clients are told: the option, or an address of the host. *)
Definition external_ip (o : Options) : M World IP :=
  let! text := (if decide (o_externalIP o = "") then fatal (call env (Sys "localip.LocalIP" [])) else ret (o_externalIP o)) in
  match ParseIP text with
  | [] => panic ("Value of -externalIP " +:+ text +:+ " could not be converted to an IP")
  | ip => ret ip
  end.

(** The owners of the files of an image are mapped with this. *)
Definition mappingList (maxId : Z) : list IDMap := [mkIDMap 0 maxId 1; mkIDMap 1 1 (maxId - 1)].

Definition pool_config (o : Options) (config : Config) (useKernelLogging : bool) (maxId : Z) (ip : IP) (version : Version) : PoolConfig := {|
  binPath := o_bin o;
  depotPath := o_depot o;
  allowNetworks := split ","%char (o_allowNetworks o);
  denyNetworks := split ","%char (o_denyNetworks o);
  pool_externalIP := ip;
  mtu := o_mtu o;
  mapped_root := x_Map x (mappingList maxId) 0;
  chains_of := createIPTablesManager config;
  filter_of := ProvideFilter config useKernelLogging;
  defaultChain := NewGlobalChain (DefaultChain (cfg_Filter (cfg_IPTables config)));
  currentVersion := version;
  currentVersion_text := CurrentContainerVersion;
  pool_PATH := x_PATH x;
  url_Parse := x_url_Parse x;
  semver_Make := x_semver_Make x;
  rootfs_reply := x_rootfs_reply x
|}.

Definition backend_config (o : Options) (config : Config) (p : PoolConfig) : BackendConfig := {|
  be_cfg := p;
  snapshotsPath := o_snapshots o;
  maxContainers := int64 (u64 (o_maxContainers o));
  cgroup_root := CgroupPath config;
  container_node := x_node x;
  json_encode := x_json_encode x;
  json_decode := x_json_decode x;
  decode_net := x_decode_net x
|}.

Definition port_state_path (o : Options) : string := path_join [o_stateDir o; "port_pool.json"].

(** The debug server, with the variables that every Go program has published. *)
Definition debug_server (o : Options) (backingStoresPath : string) : M World unit := fun w =>
  let start := StartDebugServer env (o_debugAddr o) (NewMetrics env (x_NumCPU x) (x_NumGoroutine x) backingStoresPath (o_depot o)) in
  match start (list_to_map [("cmdline", ret 0); ("memstats", ret 0)], w) with (r, (_, w')) => (r, w') end.

(** The graph of the images, which is not looked at again here. *)
Definition setup_graph (o : Options) : M World unit :=
  do! fatal (call_ env (MkdirAll (o_graph o))) in
  do! fatal (selectGraphDriver (o_graphDriver o) (o_graph o)) in
  do! fatal (call_ env (MkdirAll (path_join [o_graph o; "backing_stores"]))) in
  do! (if decide (o_debugAddr o = "") then ret tt else ignore (debug_server o (path_join [o_graph o; "backing_stores"]))) in
  fatal (call_ env (Sys "graph.NewGraph" [o_graph o])).

(** Run a call of the garden server on the wrapper and the backend. *)
Definition serve {A} (y : YarnState) (b : LinuxBackend) (m : M ServedState A) : M World (A * (YarnState * LinuxBackend)) := fun w =>
  match m (y, (b, w)) with
  | (Ok a, (y', (b', w'))) => (Ok (a, (y', b')), w')
  | (Err e, (_, (_, w'))) => (Err e, w')
  | (Panic p, (_, (_, w'))) => (Panic p, w')
  end.

(** From the checked options to the server: the part of [main] after the switch on
    the log method. *)
Definition start_server (o : Options) (subnetPool : pool) (portPool : PortPool) (useKernelLogging : bool) : M World MainEnd :=
  let config := NewConfig (o_tag o) (o_allowHostAccess o) in
  do! setup_graph o in
  let! maxId := max_id env in
  do! ignore (call_ env (Sys "imageRetainer.Retain" (o_persistentImages o))) in
  let! ip := external_ip o in
  let! version := fatal (lift (x_semver_Make x CurrentContainerVersion)) in
  let cfg := backend_config o config (pool_config o config useKernelLogging maxId ip version) in
  let bridges := BridgeMgr_New ("w" +:+ Tag config +:+ "b-") (x_now x) in
  let backend := mkBackend (mkRP subnetPool portPool bridges (x_firstID x)) ∅ in
  do! fatal (Pool_Setup env (be_cfg cfg)) in
  let gardenServer_Start :=
    x_server_Start x (yarn_garden (linux_garden env cfg) id) (o_listenNetwork o) (o_listenAddr o) (o_containerGraceTime o) in
  let! ' (_, (yarn, running)) := fatal (serve empty_yarn backend gardenServer_Start) in
  do! ignore (call_ env (Sys "metronNotifier.Start" [])) in
  ret (Serving (mkServer o config cfg backend yarn running)).

Definition main (o : Options) : M World MainEnd :=
  do! initializeDropsonde o in
  if decide (o_bin o = "") then ret (MainExits 1)
  else if decide (o_stateDir o = "") then ret (MainExits 1)
  else if decide (o_depot o = "") then ret (MainExits 1)
  else if decide (2 < String.length (o_tag o))%nat then ret MainReturns
  else
    let! ' (_, dynamicRange) := fatal (lift (ParseCIDR (o_networkPool o))) in
    let subnetPool := NewSubnets dynamicRange in
    let! r := attempt (LoadState env (port_state_path o)) in
    let portPoolState := match r with inl st => st | inr _ => mkState 0 end in
    let! portPool := fatal (lift (PortPool_New (u32 (o_portPoolStart o)) (u32 (o_portPoolSize o)) portPoolState)) in
    if decide (o_iptablesLogMethod o = "nflog") then start_server o subnetPool portPool false
    else if decide (o_iptablesLogMethod o = "kernel") then start_server o subnetPool portPool true
    else ret MainReturns.

(** The goroutine that gets the signal: the state is saved, whatever comes of it,
    and the server stops. *)
Definition shutdown (srv : Server) : M World Z := fun w =>
  match PortPool_RefreshState (rp_ports (be_pool (srv_backend srv))) with
  | (Ok st, _) =>
      bind (ignore (SaveState env (port_state_path (srv_options srv)) st)) (fun _ =>
      bind (ignore (call_ env (Sys "server.Stop" []))) (fun _ =>
      bind (ignore (call_ env (Sys "metronNotifier.Stop" []))) (fun _ => ret 0))) w
  | (_, _) => (Panic "", w)
  end.
End Main.

(** The files of an image and the processes of an unprivileged container are mapped
    by the same list, so root in the container owns what belongs to root in the image:
    the user that the pool gives such a container is the one that its root is mapped
    to, when the mapping of the image package follows its list. *)
Lemma root_owns_image x o config kernel maxId ip version env :
  (forall l id host, to_host l id = Some host -> x_Map x l id = host) ->
  to_host (makeSysProcIDMap maxId) 0 = Some (mapped_root (pool_config env x o config kernel maxId ip version)).
Proof.
  intros Hmap. assert (H : to_host (makeSysProcIDMap maxId) 0 = Some maxId) by (by rewrite to_host_map).
  rewrite H. f_equal. symmetry. by apply Hmap.
Qed.

(** ** What a server that serves was built from *)

Lemma fatal_Ok {A} (m : M World A) w a w' : fatal m w = (Ok a, w') -> m w = (Ok a, w').
Proof. unfold fatal. by destruct (m w) as [[]]. Qed.

(** What [start_server] leaves: the backend it has built, and the one that the garden
    server has started. *)
Record started (env : Env) (x : Externals) (o : Options) (subnets : pool) (ports : PortPool) (srv : Server) : Prop := {
  sd_options : srv_options srv = o;
  sd_path : snapshotsPath (srv_config srv) = o_snapshots o;
  sd_decode : json_decode (srv_config srv) = x_json_decode x;
  sd_repo : be_repo (srv_built srv) = ∅;
  sd_subnets : rp_subnets (be_pool (srv_built srv)) = subnets;
  sd_ports : rp_ports (be_pool (srv_built srv)) = ports;
  sd_started : exists w w', x_server_Start x (yarn_garden (linux_garden env (srv_config srv)) id) (o_listenNetwork o) (o_listenAddr o) (o_containerGraceTime o)
    (empty_yarn, (srv_built srv, w)) = (Ok tt, (srv_yarn srv, (srv_backend srv, w')))
}.

Lemma start_server_started env x o subnets ports k w srv w' : start_server env x o subnets ports k w = (Ok (Serving srv), w') ->
  started env x o subnets ports srv.
Proof.
  unfold start_server. intros (? & ? & _ & H)%bind_Ok. do 5 (apply bind_Ok in H as (? & ? & _ & H)).
  apply bind_Ok in H as ([u [y b]] & w1 & Hs%fatal_Ok & H). apply bind_Ok in H as (? & ? & _ & H). injection H as <- _.
  split; [done..|]. unfold serve in Hs. destruct (x_server_Start x _ _ _ _ _) as [[[]|e|m] [y' [b' w2]]] eqn:E; [|done|done].
  injection Hs as _ <- <- <-. cbn. eauto.
Qed.

(** So the backend's own [Start] has run. *)
Lemma started_backend env x o subnets ports srv : starts_backend (x_server_Start x) -> started env x o subnets ports srv ->
  srv_yarn srv = empty_yarn /\ exists w w', Backend_Start env (srv_config srv) (srv_built srv, w) = (Ok tt, (srv_backend srv, w')).
Proof.
  intros Hlaw [_ _ _ _ _ _ (w & w' & Hs)]. apply Hlaw in Hs as (w1 & w2 & Hs). cbn in Hs. unfold on_real, zoom in Hs. cbn in Hs.
  destruct (Backend_Start env (srv_config srv) (srv_built srv, w1)) as [y [b w3]] eqn:E. injection Hs as -> <- <- <-. eauto.
Qed.

(** The state that the port pool starts from: what the file says, or none. *)
Definition loaded_state {codec : StateCodec} (env : Env) (o : Options) (w : World) : PortPool.State :=
  match LoadState env (port_state_path o) w with (Ok st, _) => st | _ => mkState 0 end.

Lemma loaded_state_range {codec : StateCodec} env o w : is_u32 (Offset (loaded_state env o w)).
Proof.
  unfold loaded_state, LoadState. rewrite bind_eq, map_err_eq. unfold call. destruct (env w _) as [s|e]; [|done].
  rewrite map_err_eq. unfold lift. destruct (decode_state s) as [st|e|m] eqn:Hs; [by eapply state_range|done|done].
Qed.

Lemma LoadState_no_panic {codec : StateCodec} env path w w' m : LoadState env path w = (Panic m, w') -> exists s, decode_state s = Panic m.
Proof.
  unfold LoadState. rewrite bind_eq, map_err_eq. unfold call. destruct (env w _) as [s|e]; [|done].
  rewrite map_err_eq. unfold lift. destruct (decode_state s) as [st|e|p] eqn:Hs; [done|done|]. intros [= <- _]. eauto.
Qed.

Lemma main_serving {codec : StateCodec} env x o w srv w' : main env x o w = (Ok (Serving srv), w') ->
  exists ip net st ports w1, ParseCIDR (o_networkPool o) = Ok (ip, net) /\ st = loaded_state env o w1 /\
    PortPool_New (u32 (o_portPoolStart o)) (u32 (o_portPoolSize o)) st = Ok ports /\
    started env x o (NewSubnets net) ports srv.
Proof.
  unfold main. intros (? & w1 & _ & H)%bind_Ok. repeat (case_decide; [discriminate H|]).
  apply bind_Ok in H as ([ip net] & w2 & Hc%fatal_Ok & H). injection Hc as Hc _.
  apply bind_Ok in H as (r & w3 & Hl & H). rewrite attempt_eq in Hl.
  apply bind_Ok in H as (ports & w4 & Hn%fatal_Ok & H). injection Hn as Hn _.
  exists ip, net, (loaded_state env o w2), ports, w2. split; [done|]. split; [done|].
  assert (Hst : match r with inl st => st | inr _ => mkState 0 end = loaded_state env o w2).
  { unfold loaded_state. destruct (LoadState env _ w2) as [[st|e|p] ?]; simplify_eq; done. }
  rewrite <- Hst. split; [done|]. case_decide; [|case_decide; [|discriminate H]]; by eapply start_server_started.
Qed.

(** ** The server and its clients *)

(** The calls of the wrapper that name the node manager and change something. *)
Definition names_yarn {C} (op : BOp C) : Prop :=
  match op with BCreate c => wants_yarn c = true | BDestroy h => h = NMHandler | _ => False end.

(** What a client can do to the server: a step of a call that the wrapper passes on
    ([yarn_transparent]), a call that names the node manager, or a method of the node
    manager's container, which has no access to the backend. *)
Inductive server_step (cfg : BackendConfig) : YarnState * System -> YarnState * System -> Prop :=
| server_passes y s s' : ov_step cfg s s' -> server_step cfg (y, s) (y, s')
| server_yarn env op x y b w y' b' w' l : names_yarn op ->
    run_bop (yarn_garden (linux_garden env cfg) id) op (y, (b, w)) = (x, (y', (b', w'))) -> returns x ->
    server_step cfg (y, mkSystem b l) (y', mkSystem b' l)
| server_node_manager y y' s : server_step cfg (y, s) (y', s).

Lemma server_step_backend cfg s s' : server_step cfg s s' -> rtc (ov_step cfg) s.2 s'.2.
Proof.
  intros [y t t' Hs|env op x y b w y' b' w' l Hop Hr Hx|y y' t]; cbn; [by apply rtc_once| |done].
  destruct op as [| | | | |c|h| | | |]; try done; cbn [names_yarn] in Hop;
    revert Hr; cbn [run_bop yarn_garden gb_Create gb_Destroy]; unfold mapM.
  - unfold Yarn_Create. rewrite Hop. unfold bind, on_yarn, zoom. cbn. by intros [= _ _ <- _].
  - subst h. unfold Yarn_Destroy. rewrite decide_True by done. rewrite bind_eq, bind_eq. unfold on_yarn, zoom. cbn [fst snd].
    match goal with |- context [bind get ?k y] => destruct (bind get k y) as [[[]|e|m] y1] end; [| |by intros [= <- _ _ _]].
    + unfold on_real, zoom. cbn [fst snd linux_garden gb_Destroy]. destruct (Backend_Destroy env cfg NMHandler (b, w)) as [[[]|e|m] [b1 w1]] eqn:E; cbn; [| |by intros [= <- _ _ _]];
        intros [= _ _ <- _]; by apply (destroy_steps _ _ _ _ _ _ _ _ l E).
    + by intros [= _ _ <- _].
Qed.

Lemma server_run_backend cfg s s' : rtc (server_step cfg) s s' -> rtc (ov_step cfg) s.2 s'.2.
Proof. induction 1 as [|s1 s2 s3 Hs _ IH]; [done|]. etrans; [by eapply server_step_backend|done]. Qed.

(** The ports that the options name. *)
Definition configured_ports (o : Options) : gset Z := list_to_set (ports_from (u32 (o_portPoolStart o)) (Z.to_nat (u32 (o_portPoolSize o)))).

(** The snapshots that the host has, if the server looks for any, are of containers
    that can be side by side in the ranges of the server. *)
Definition snapshots_fit (cfg : BackendConfig) (env : Env) (d r : Z) (R : gset Z) : Prop :=
  snapshotsPath cfg = "" \/ exists P, fitting d r R P /\ gives_back cfg P env.

Lemma started_inv {codec : StateCodec} env x o net ports srv st d r : starts_backend (x_server_Start x) -> started env x o (NewSubnets net) ports srv ->
  net = net4 d r -> canonical d r -> r <= 30 -> u32 (o_portPoolStart o) + u32 (o_portPoolSize o) < 2 ^ 32 -> 0 <= Offset st ->
  PortPool_New (u32 (o_portPoolStart o)) (u32 (o_portPoolSize o)) st = Ok ports ->
  snapshots_fit (srv_config srv) env d r (configured_ports o) -> be_inv d r (srv_backend srv).
Proof.
  intros Hlaw Hsd -> Hcan Hr Hw Hst Hnew Hfit. pose proof (u32_range (o_portPoolStart o)) as H1. pose proof (u32_range (o_portPoolSize o)) as H2. unfold is_u32 in H1, H2.
  pose proof (New_accepted _ _ _ _ (proj1 H1) (proj1 H2) Hw Hnew) as Hmax.
  destruct (New_wf _ _ _ _ (proj1 H1) (proj1 H2) Hmax Hst Hnew) as [Hwf Hfree].
  assert (HR : range ports = configured_ports o).
  { rewrite (New_ports _ _ _ (proj1 H1) (proj1 H2) Hmax Hst) in Hnew. by injection Hnew as <-. }
  destruct (started_backend _ _ _ _ _ _ Hlaw Hsd) as [_ (w & w' & Hstart)]. destruct Hsd as [_ _ _ Hrepo Hsub Hports _].
  assert (Hb : exists br id, srv_built srv = fresh_backend d r ports br id).
  { destruct (srv_built srv) as [[sn pp br id] repo]. cbn in *. subst. by exists br, id. }
  destruct Hb as (br & id & Hb). rewrite Hb in Hstart. rewrite <- HR in Hfit.
  assert (HP : exists P, fitting d r (range ports) P /\ (snapshotsPath (srv_config srv) <> "" -> gives_back (srv_config srv) P env)).
  { destruct Hfit as [Hp|(P & HP & Hg)]; [|by exists P]. exists (fun _ => False). split; [by split|done]. }
  destruct HP as (P & HP & Hg). pose proof (fresh_restoring d r ports br id P Hcan Hr Hwf Hfree HP) as Hre.
  apply (Start_restoring _ d r _ P HP env Hg _ _ _ Hstart I Hre).
Qed.

(** C2: a server that [main] starts isolates its containers. For options with an
    IPv4 network pool of at most 30 bits and a port range whose end does not wrap
    around in 32 bits, whatever state file is found and whatever fails on the way:
    once [main] serves, which is after the garden server has started the backend and
    the backend has restored its snapshots, the containers are isolated in every
    state that clients can reach through the [YarnBackend] that the server is given,
    with calls that overlap under the conditions of C1. The garden server is relied
    on to start the backend that it is given; and the snapshots that the host gives
    back must be of containers that fit together in the configured ranges, or be
    unreadable, as those that an earlier server with these ranges wrote are (C6);
    there may be none. *)
Theorem server_isolates {codec : StateCodec} env x o w srv w' ip net :
  main env x o w = (Ok (Serving srv), w') -> starts_backend (x_server_Start x) ->
  ParseCIDR (o_networkPool o) = Ok (ip, net) -> length (net_Mask net) = 4%nat -> simpleMaskLength (net_Mask net) <= 30 ->
  u32 (o_portPoolStart o) + u32 (o_portPoolSize o) < 2 ^ 32 ->
  exists d r, net = net4 d r /\ canonical d r /\ (snapshots_fit (srv_config srv) env d r (configured_ports o) ->
    forall y s, rtc (server_step (srv_config srv)) (srv_yarn srv, mkSystem (srv_backend srv) []) (y, s) -> system_isolated s).
Proof.
  intros Hm Hlaw Hc Hl Hr Hp. destruct (main_serving _ _ _ _ _ _ Hm) as (ip1 & net1 & st & ports & w1 & Hc1 & -> & Hnew & Hsd).
  rewrite Hc in Hc1. injection Hc1 as <- <-. destruct (ParseCIDR_v4 _ _ _ Hc Hl) as (d & r & z & Hcan & -> & _). exists d, r. split; [done|]. split; [done|].
  assert (Hr30 : r <= 30). { destruct Hcan as (Hr' & _ & _). cbn in Hr. destruct (CIDRMask_32 r Hr') as (_ & _ & _ & <-). done. }
  pose proof (loaded_state_range env o w1) as [Hst _]. intros Hfit y s Hrun%server_run_backend.
  eapply run_isolated; [|exact Hrun]. by eapply started_inv.
Qed.

(** ** Over a restart *)

(** What a history has written last to a file. *)
Definition last_written (path : string) (w : World) : option string :=
  foldl (fun acc c => match c with WriteFile p d => if decide (p = path) then Some d else acc | _ => acc end) None w.

Lemma last_written_app path w d l : (forall p d', WriteFile p d' ∉ l) -> last_written path (w ++ [WriteFile path d] ++ l) = Some d.
Proof.
  intros Hl. unfold last_written. rewrite !foldl_app. cbn [foldl]. rewrite decide_True by done.
  revert Hl. generalize (Some d). induction l as [|c l IH]; intros o Hl; [done|]. cbn [foldl].
  assert (Hl' : forall p d', WriteFile p d' ∉ l) by (intros p d' Hin; eapply Hl; by right).
  destruct c; try (by apply IH). exfalso. eapply (Hl path0 data). by left.
Qed.

Lemma shutdown_eq {codec : StateCodec} env srv w st q : (forall h, is_Some (match env h (Sys "os.Create" [port_state_path (srv_options srv)]) with inl o => Some o | inr _ => None end)) ->
  PortPool_RefreshState (rp_ports (be_pool (srv_backend srv))) = (Ok st, q) ->
  shutdown env srv w = (Ok 0, (w ++ [Sys "os.Create" [port_state_path (srv_options srv)]]) ++
    [WriteFile (port_state_path (srv_options srv)) (encode_state st)] ++ [Sys "server.Stop" []; Sys "metronNotifier.Stop" []]).
Proof.
  intros Hok Hst. unfold shutdown. rewrite Hst. rewrite bind_eq, ignore_eq. unfold SaveState. rewrite bind_eq, map_err_eq, call__eq.
  destruct (Hok w) as [o Ho]. destruct (env w _) as [o'|e]; [|done]. rewrite ignore_call, bind_eq, ignore_call, bind_eq, ignore_call.
  unfold ret. by rewrite <- !(assoc_L (++)).
Qed.

(** A restored container does not take a port that is not its own: the pool goes on to
    start with [port]. *)
Definition starts_with (port : Z) (p : PortPool) : Prop := exists rest, pp_pool p = port :: rest.

Lemma Remove_starts_with port y p r p' : y <> port -> PortPool_Remove y p = (r, p') -> starts_with port p -> starts_with port p'.
Proof.
  intros Hne Hr [rest Hp]. revert Hr. unfold PortPool_Remove. rewrite Hp. cbn [find_port]. destruct (Z.eqb_spec port y); [done|].
  destruct (find_port y rest) as [i|]; cbn; intros [= <- <-]; [by eexists|by exists rest].
Qed.

Lemma Release_starts_with port y p r p' : PortPool_Release y p = (r, p') -> starts_with port p -> starts_with port p'.
Proof.
  intros Hr [rest Hp]. revert Hr. unfold PortPool_Release. destruct (_ || _); [intros [= <- <-]; by exists rest|].
  destruct (find_port _ _); intros [= <- <-]; [by exists rest|]. exists (rest ++ [y]). cbn. by rewrite Hp.
Qed.

Lemma restore_ports_starts_with port todo all n : port ∉ todo ->
  preserves (fun s : LinuxResourcePool * World => starts_with port (rp_ports s.1)) (restore_ports todo all n).
Proof.
  intros Hn. induction todo as [|y todo IH]; cbn [restore_ports]; [apply preserves_ret|]. apply not_elem_of_cons in Hn as [Hne Hn].
  apply preserves_bind; [apply preserves_attempt|intros [?|e]; [by apply IH|]].
  - intros [rp w] x s'. unfold with_port_pool, zoom. cbn. destruct (PortPool_Remove y (rp_ports rp)) as [r pp] eqn:E. intros [= <- <-] _. cbn.
    eapply Remove_starts_with; [|exact E]. done.
  - apply preserves_bind; [apply preserves_ignore|intros _; apply preserves_bind; [apply preserves_for_each; intros a|intros _]].
    + intros [rp w] x s'. unfold with_subnets, zoom. cbn. destruct (Subnets_Release n (rp_subnets rp)) as [r pp]. by intros [= <- <-].
    + intros [rp w] x s'. unfold with_port_pool, zoom. cbn. destruct (PortPool_Release a (rp_ports rp)) as [r pp] eqn:E. intros [= <- <-] _. cbn.
      by eapply Release_starts_with.
    + by intros s x s' [= <- <-].
Qed.

Lemma Pool_Restore_starts_with env cfg port snap : port ∉ snap_Ports snap ->
  preserves (fun s : LinuxResourcePool * World => starts_with port (rp_ports s.1)) (Pool_Restore env cfg snap).
Proof.
  intros Hn. unfold Pool_Restore. destruct (snap_Network snap) as [n|]; [|by intros s x s' [= <- <-]].
  assert (Hk : forall {A} (m : M pool A), preserves (fun s : LinuxResourcePool * World => starts_with port (rp_ports s.1)) (with_subnets m)).
  { intros A m [rp w] x s'. unfold with_subnets, zoom. cbn. destruct (m (rp_subnets rp)) as [r pp]. by intros [= <- <-]. }
  apply preserves_bind; [apply Hk|intros _]. apply preserves_bind; [|intros _; apply preserves_bind; [by apply restore_ports_starts_with|intros _]].
  - intros [rp w] x s'. rewrite on_err_eq. unfold with_bridges at 1, zoom at 1. cbn. destruct (Rereserve _ _ _ _) as [[[]|e|m] [br w1]].
    + by intros [= <- <-].
    + destruct (with_subnets (Subnets_Release n) _) as [y s1] eqn:E. intros H Hx Hs. assert (Hy : returns y /\ s' = s1) by (destruct y; by injection H as <- <-).
      destruct Hy as [Hy ->]. exact (Hk _ _ _ _ _ E Hy Hs).
    + by intros [= <- <-].
  - apply preserves_bind; [apply (preserves_eff (fun rp => starts_with port (rp_ports rp)))|intros v; apply preserves_ret].
Qed.

(** No snapshot that the host gives back has the port, or a mapping without one. *)
Definition port_not_saved (cfg : BackendConfig) (env : Env) (port : Z) : Prop := forall h name data s,
  env h (ReadFile (path_join [snapshotsPath cfg; name])) = inl data -> json_decode cfg data = Ok s ->
  port ∉ snap_Ports s /\ Forall (fun i => HostPort i <> 0) (snap_NetIns s).

Lemma backend_restore_starts_with env cfg port data s b w x b' w' : json_decode cfg data = Ok s -> port ∉ snap_Ports s ->
  Forall (fun i => HostPort i <> 0) (snap_NetIns s) -> backend_restore env cfg data (b, w) = (x, (b', w')) -> returns x ->
  starts_with port (rp_ports (be_pool b)) -> starts_with port (rp_ports (be_pool b')).
Proof.
  intros Hdec Hn Hrules. destruct b as [p repo]. unfold backend_restore. rewrite bind_eq. unfold lift. rewrite Hdec, bind_eq, with_pool_eq. cbn [be_pool be_repo].
  destruct (Pool_Restore env (be_cfg cfg) s (p, w)) as [y [p1 w1]] eqn:E. intros H Hx Hs.
  assert (Hy : returns y) by (destruct y; [done|done|by injection H as <- _ _]).
  pose proof (Pool_Restore_starts_with _ _ _ _ Hn _ _ _ E Hy Hs) as Hs1. cbn in Hs1.
  destruct y as [spec|e|m]; [|by injection H as _ <- _|done]. revert H. rewrite bind_eq, on_container_eq. cbn zeta. cbn [be_pool be_repo].
  destruct (Container_Restore _ _ _ _ _ _ _ _) as [y [[c pp] w2]] eqn:Er.
  assert (Hins : NetIns spec = snap_NetIns s).
  { revert E. unfold Pool_Restore. destruct (snap_Network s); [|done]. intros (? & ? & _ & H)%bind_Ok. do 3 (apply bind_Ok in H as (? & ? & _ & H)). by injection H as <- _. }
  assert (Hpp : pp = rp_ports p1).
  { apply Container_Restore_ground in Er; [|by rewrite Hins]. unfold ground in Er. cbn in Er. by injection Er. }
  subst pp. destruct y as [a|e|m]; [| |by intros [= <- _ _]]; rewrite bind_eq; unfold put_repo, update; cbn; by intros [= _ <- _].
Qed.

Lemma Start_starts_with env cfg port : port_not_saved cfg env port ->
  preserves (fun s : LinuxBackend * World => starts_with port (rp_ports (be_pool s.1))) (Backend_Start env cfg).
Proof.
  intros Hns. assert (Hone : forall name, preserves (fun s : LinuxBackend * World => starts_with port (rp_ports (be_pool s.1)))
    (bind (eff (call env (ReadFile (path_join [snapshotsPath cfg; name])))) (fun data => backend_restore env cfg data))).
  { intros name [b w] x [b' w']. rewrite bind_eq, eff_eq, call_eq. destruct (env w _) as [data|e] eqn:E; [|by intros [= <- <- <-]].
    destruct (json_decode cfg data) as [s|e|m] eqn:Hdec; intros H Hx Hs.
    - destruct (Hns _ _ _ _ E Hdec). by eapply backend_restore_starts_with.
    - unfold backend_restore in H. rewrite bind_eq in H. unfold lift in H. rewrite Hdec in H. by injection H as <- <- <-.
    - unfold backend_restore in H. rewrite bind_eq in H. unfold lift in H. rewrite Hdec in H. by injection H as <- <- <-. }
  assert (Heff : forall {A} (m : M World A), preserves (fun s : LinuxBackend * World => starts_with port (rp_ports (be_pool s.1))) (eff m))
    by (intros A m; apply (preserves_eff (fun b => starts_with port (rp_ports (be_pool b))))).
  unfold Backend_Start, restoreSnapshots. repeat first
    [ apply Hone | apply Heff | apply preserves_bind; [|intros ?] | apply preserves_ret | apply preserves_attempt | apply preserves_ignore
    | apply preserves_for_each; intros ? | case_match ].
  - by intros s x s' [= <- <-].
  - intros [b w] x s'. rewrite with_pool_eq. destruct (Pool_Prune _ _ _ _) as [y [p w1]] eqn:E. intros [= <- <-] _ Hs. cbn in *.
    assert (Hk : keeps pools (Pool_Prune env (be_cfg cfg) (list_to_set ((fun c => ID (c_spec c)) <$> Repo_All a0)))).
    { unfold Pool_Prune, pruneEntry, with_bridges, eff. repeat first [apply releaseSystemResources_keeps | progress keeps_tac]. }
    apply Hk in E. unfold pools in E. cbn in E. injection E as _ H2. by rewrite H2.
Qed.

(** C28: the port allocation goes on over a restart. When a signal stops a server
    whose pool has ports left, on a host where the state file can be made, and the
    next server, with the same options, reads back what was written last to that
    file, then the first port of the pool that the new server is built with is the
    one that the old one would have handed out next; and it still is once the server
    has started and its snapshots are restored, when none of these has that port (it
    was free) or a mapping without a port. *)
Theorem restart_resumes_ports {codec : StateCodec} env env' x' o w srv w1 w2 srv' w' port rest code :
  srv_options srv = o -> pp_wf (rp_ports (be_pool (srv_backend srv))) ->
  pp_start (rp_ports (be_pool (srv_backend srv))) = u32 (o_portPoolStart o) ->
  pp_size (rp_ports (be_pool (srv_backend srv))) = u32 (o_portPoolSize o) ->
  pp_pool (rp_ports (be_pool (srv_backend srv))) = port :: rest ->
  (forall h, exists out, env h (Sys "os.Create" [port_state_path o]) = inl out) ->
  shutdown env srv w = (Ok code, w1) ->
  (forall h, env' h (ReadFile (port_state_path o)) = inl (default "" (last_written (port_state_path o) w1))) ->
  main env' x' o w2 = (Ok (Serving srv'), w') ->
  code = 0 /\ fst (PortPool_Acquire (rp_ports (be_pool (srv_built srv')))) = Ok port /\
  (starts_backend (x_server_Start x') -> port_not_saved (srv_config srv') env' port ->
   fst (PortPool_Acquire (rp_ports (be_pool (srv_backend srv')))) = Ok port).
Proof.
  intros Ho Hwf Hs Hz Hp Hok Hsd Hread Hm. subst o. set (p := rp_ports (be_pool (srv_backend srv))) in *.
  assert (Href : PortPool_RefreshState p = (Ok (mkState (u32 (port - pp_start p))), snd (PortPool_RefreshState p))).
  { unfold PortPool_RefreshState. by rewrite Hp. }
  rewrite (shutdown_eq _ _ _ _ _ ltac:(intros h; destruct (Hok h) as [out ->]; by eexists) Href) in Hsd.
  apply pair_equal_spec in Hsd as [[= <-] <-]. split; [done|]. rewrite last_written_app in Hread by (intros ? ?; rewrite !not_elem_of_cons; split_and!; [done|done|apply not_elem_of_nil]).
  cbn [default id] in Hread.
  destruct (main_serving _ _ _ _ _ _ Hm) as (ip & net & st & ports & w3 & _ & -> & Hnew & Hstd).
  assert (Hst : loaded_state env' (srv_options srv) w3 = mkState (u32 (port - pp_start p))).
  { unfold loaded_state, LoadState. rewrite bind_eq, map_err_eq. unfold call. rewrite Hread, map_err_eq. unfold lift.
    by rewrite state_roundtrip by apply u32_range. }
  rewrite Hst in Hnew. rewrite <- Hs, <- Hz in Hnew.
  assert (Hfirst : fst (PortPool_Acquire (rp_ports (be_pool (srv_built srv')))) = Ok port).
  { rewrite (sd_ports _ _ _ _ _ _ Hstd). by eapply port_state_next. }
  split; [done|]. intros Hlaw Hns. destruct (started_backend _ _ _ _ _ _ Hlaw Hstd) as [_ (w4 & w5 & Hstart)].
  assert (Hb : starts_with port (rp_ports (be_pool (srv_built srv')))).
  { clear -Hfirst. unfold PortPool_Acquire, starts_with in *. destruct (pp_pool _) as [|y l]; [done|]. cbn in Hfirst. injection Hfirst as ->. by exists l. }
  destruct (Start_starts_with _ _ _ Hns _ _ _ Hstart I Hb) as [l Hl]. cbn in Hl. unfold PortPool_Acquire. by rewrite Hl.
Qed.

(** ** Examples *)

Definition text_decode_state (s : string) : result PortPool.State :=
  match text_decode (A := Z) s with
  | Some z => if (0 <=? z) && (z <? 4294967296) then Ok (mkState z) else Err (Errorf "number out of range")
  | None => Err (Errorf "unexpected end of JSON input")
  end.

#[export] Instance text_state : StateCodec.
Proof.
  refine {| encode_state st := text_encode (Offset st); decode_state := text_decode_state |}.
  - intros [z] Hz. unfold is_u32, text_decode_state in *. cbn in *. rewrite text_decode_encode.
    destruct (Z.leb_spec 0 z); [|lia]. by destruct (Z.ltb_spec z 4294967296); [|lia].
  - intros s st. unfold text_decode_state. destruct (text_decode s) as [z|]; [|done].
    destruct (Z.leb_spec 0 z); [|done]. destruct (Z.ltb_spec z 4294967296); [|done]. intros [= <-]. unfold is_u32. cbn. lia.
Defined.

Definition sample_options : Options :=
  mkOptions "unix" "/tmp/garden.sock" "/snapshots" "/bin" "/state" "/depot" "/rootfs" false 0 100 2 DefaultNetworkPool "" "" "/graph"
    "registry" "1" "garden-linux" "localhost:3457" 60 false "kernel" DefaultMTUSize "10.0.0.1" 0 "auto" [] [] "".

(** A server that removes the old socket, starts its backend and listens. *)
Definition sample_Start (backend : ServedBackend) (network addr : string) (grace : Z) : M ServedState unit :=
  bind (gb_Start backend) (fun _ => on_real (eff (call_ env_ok (Sys "listen" [network; addr])))).

Lemma sample_starts_backend : starts_backend sample_Start.
Proof.
  intros backend network addr grace y b w y' b' w' (u & s1 & H1 & H2)%bind_Ok. destruct u, s1 as [y1 [b1 w1]]. exists w, w1.
  revert H2. unfold on_real, zoom. cbn. by intros [= <- <- _].
Qed.

Definition sample_externals : Externals :=
  mkExternals "/bin" 7 42 (fun _ => ret "/") Ok (fun _ => Ok (1, 0, 0)) (fun _ => ("/rootfs", [])) (fun l id => default id (to_host l id))  (fun _ => 1) (fun _ => 1) snapshot_text
    snapshot_read (fun _ => mkNetworkStat 0 0) sample_Start.

(** A host on which all goes well; its state file has the offset 1. *)
Definition sample_host : Env := fun _ c =>
  match c with
  | ReadFile p => inl (if decide (p = "/state/port_pool.json") then text_encode 1 else "0 0 4294967295")
  | _ => inl ""
  end.

(** The same host, with the files of the snapshots of two containers. *)
Definition resumed_host : Env := fun h c =>
  match c with
  | ReadFile p => if decide (p = "/snapshots/0000000001a" \/ p = "/snapshots/0000000001b") then env_restart h c else sample_host h c
  | Sys "readdir" ["/snapshots"] => env_restart h c
  | _ => sample_host h c
  end.

Definition served (host : Env) : Server :=
  match fst (main host sample_externals sample_options []) with
  | Ok (Serving srv) => srv
  | _ => mkServer sample_options (NewConfig "" false) (backend_config sample_externals sample_options (NewConfig "" false) sample_config)
           (fresh_backend 0 0 sample_pool (BridgeMgr_New "" 0) 0) empty_yarn (fresh_backend 0 0 sample_pool (BridgeMgr_New "" 0) 0)
  end.

Lemma served_main host : match fst (main host sample_externals sample_options []) with Ok (Serving _) => true | _ => false end = true ->
  main host sample_externals sample_options [] = (Ok (Serving (served host)), snd (main host sample_externals sample_options [])).
Proof.
  unfold served. destruct (main host sample_externals sample_options []) as [r w]. cbn [fst snd]. by destruct r as [[srv| |code]|e|m].
Qed.

Definition sample_running : Server := served sample_host.

Lemma sample_main : main sample_host sample_externals sample_options [] = (Ok (Serving sample_running), snd (main sample_host sample_externals sample_options [])).
Proof. apply served_main. vm_compute. reflexivity. Qed.

Lemma served_config host : match fst (main host sample_externals sample_options []) with Ok (Serving _) => true | _ => false end = true ->
  snapshotsPath (srv_config (served host)) = "/snapshots" /\ json_decode (srv_config (served host)) = snapshot_read.
Proof. intros H%served_main. destruct (main_serving _ _ _ _ _ _ H) as (? & ? & ? & ? & ? & _ & _ & _ & [_ Hp Hd _ _ _ _]). by split. Qed.

(** No snapshot can be read from the other files. *)
Lemma sample_host_reads h p data : sample_host h (ReadFile p) = inl data -> snapshot_read data = Err no_json.
Proof. unfold sample_host. case_decide; intros [= <-]; vm_compute; reflexivity. Qed.

Lemma resumed_fits : snapshots_fit (srv_config (served resumed_host)) resumed_host 184418304 22 (configured_ports sample_options).
Proof.
  right. exists (saved server3).
  destruct (stopped_fits restart_backend 184418304 22 100 2 sample_range_ok ltac:(lia) ltac:(lia) ltac:(lia) ltac:(lia) (mkState 1) sample_pool
    (BridgeMgr_New "w1b-" 7) 42 (mkSystem server3 []) ltac:(cbn; lia) ltac:(reflexivity) server3_reached_again) as [_ Hfit]. split; [exact Hfit|].
  assert (Hg : gives_back restart_backend (saved server3) env_restart).
  { eapply (stop_gives_back restart_backend env_ok env_restart server3 [] (Ok tt) server3 stop_calls); [apply server3_codec|vm_compute; reflexivity|apply env_restart_keeps]. }
  destruct (served_config resumed_host) as [Hp Hd]; [vm_compute; reflexivity|].
  intros h name data. rewrite Hp, Hd. cbn [resumed_host]. case_decide; [apply Hg|]. intros Hr%sample_host_reads. right. by eexists.
Qed.

(** A server that has taken two containers back. *)
Lemma server_isolates_witness :
  exists ca cb, be_repo (srv_backend (served resumed_host)) !! "a" = Some ca /\ be_repo (srv_backend (served resumed_host)) !! "b" = Some cb /\
    ports_of ca = [101] /\ isolated (be_pool (srv_backend (served resumed_host))) ca cb.
Proof.
  edestruct (server_isolates resumed_host sample_externals sample_options [] (served resumed_host)) as (d & r & Hnet & Hcan & H);
    [apply served_main; vm_compute; reflexivity|apply sample_starts_backend|vm_compute; reflexivity|reflexivity|vm_compute; discriminate|vm_compute; reflexivity|].
  destruct (net4_inj 184418304 22 d r) as [<- <-]; [apply sample_range_ok|exact Hcan|by rewrite <- Hnet|].
  do 2 eexists. split; [vm_compute; reflexivity|]. split; [vm_compute; reflexivity|]. split; [reflexivity|].
  eapply (proj1 (H resumed_fits _ _ (rtc_refl _ _)) "a" "b"); [vm_compute; reflexivity|vm_compute; reflexivity|done].
Defined.

Lemma restart_resumes_ports_witness :
  exists rest, pp_pool (rp_ports (be_pool (srv_backend sample_running))) = 101 :: rest /\
    fst (PortPool_Acquire (rp_ports (be_pool (srv_backend sample_running)))) = Ok 101.
Proof.
  exists [100]. split; [vm_compute; reflexivity|].
  eapply (restart_resumes_ports env_ok sample_host sample_externals sample_options [] sample_running _ [] sample_running _ 101 [100]).
  - vm_compute. reflexivity.
  - split; [vm_compute; discriminate|vm_compute; discriminate|vm_compute; discriminate| |].
    + apply (bool_decide_unpack _). vm_compute. exact I.
    + repeat constructor; vm_compute; (discriminate || reflexivity).
  - vm_compute. reflexivity.
  - vm_compute. reflexivity.
  - vm_compute. reflexivity.
  - intros h. by eexists.
  - vm_compute. reflexivity.
  - intros h. vm_compute. reflexivity.
  - apply sample_main.
  - apply sample_starts_backend.
  - intros h name data s Hr%sample_host_reads Hd.
    destruct (served_config sample_host) as [_ Hj]; [vm_compute; reflexivity|]. unfold sample_running in Hd. rewrite Hj, Hr in Hd. discriminate Hd.
Defined.

(** A missing directory exits with 1. A tag that is too long, and with everything
    else in order an unknown log method, make [main] return. *)
Lemma main_usage_errors {codec : StateCodec} env x o w :
  (o_bin o = "" \/ o_stateDir o = "" \/ o_depot o = "" -> fst (main env x o w) = Ok (MainExits 1)) /\
  (o_bin o <> "" -> o_stateDir o <> "" -> o_depot o <> "" -> (2 < String.length (o_tag o))%nat -> fst (main env x o w) = Ok MainReturns).
Proof.
  unfold main. rewrite bind_eq. unfold initializeDropsonde. rewrite ignore_call. split.
  - intros H. repeat (case_decide; [done|]). naive_solver.
  - intros H1 H2 H3 H4. by rewrite !decide_False, decide_True by done.
Qed.
