(* ===== verification/CommandLine.v ===== *)
(** * The command line of the server (src/main.go, src/integration/runner/runner.go)

    How [main] gets its options from the command line, and the command line with
    which the runner of the integration tests starts one server for each parallel
    node on the same host. *)
From S2P Require Import Prelude GoStrings GoFlag GoNet IPv4 World ProcessEnv RLimits Subnets SubnetPool PortPool.
From S2P Require Import IPTablesManager Container ResourcePool Backend Startup.

(** ** main.go *)

(** The last two flags are those of the debug server and of the logger. *)
Definition garden_flags : list (string * FlagKind) :=
  [("listenNetwork", FString); ("listenAddr", FString); ("snapshots", FString); ("bin", FString); ("stateDir", FString); ("depot", FString);
   ("rootfs", FString); ("enableGraphCleanup", FBool); ("containerGraceTime", FDuration); ("portPoolStart", FUint); ("portPoolSize", FUint);
   ("networkPool", FString); ("denyNetworks", FString); ("allowNetworks", FString); ("graph", FString); ("registry", FString); ("tag", FString);
   ("dropsondeOrigin", FString); ("dropsondeDestination", FString); ("metricsEmissionInterval", FDuration); ("allowHostAccess", FBool);
   ("iptablesLogMethod", FString); ("mtu", FInt); ("externalIP", FString); ("maxContainers", FUint); ("graphDriver", FString);
   ("insecureDockerRegistry", FList); ("persistentImage", FList); ("debugAddr", FString); ("logLevel", FString)].

Definition options_of (sets : list (string * string)) : Options := {|
  o_listenNetwork := flag_value "listenNetwork" "unix" sets;
  o_listenAddr := flag_value "listenAddr" "/tmp/garden.sock" sets;
  o_snapshots := flag_value "snapshots" "" sets;
  o_bin := flag_value "bin" "" sets;
  o_stateDir := flag_value "stateDir" "" sets;
  o_depot := flag_value "depot" "" sets;
  o_rootfs := flag_value "rootfs" "" sets;
  o_enableGraphCleanup := flag_bool "enableGraphCleanup" false sets;
  o_containerGraceTime := flag_duration "containerGraceTime" 0 sets;
  o_portPoolStart := flag_uint "portPoolStart" 60000 sets;
  o_portPoolSize := flag_uint "portPoolSize" 5000 sets;
  o_networkPool := flag_value "networkPool" DefaultNetworkPool sets;
  o_denyNetworks := flag_value "denyNetworks" "" sets;
  o_allowNetworks := flag_value "allowNetworks" "" sets;
  o_graph := flag_value "graph" "/var/lib/garden-docker-graph" sets;
  o_registry := flag_value "registry" "registry-1.docker.io" sets;
  o_tag := flag_value "tag" "" sets;
  o_dropsondeOrigin := flag_value "dropsondeOrigin" "garden-linux" sets;
  o_dropsondeDestination := flag_value "dropsondeDestination" "localhost:3457" sets;
  o_metricsEmissionInterval := flag_duration "metricsEmissionInterval" 60000000000 sets;
  o_allowHostAccess := flag_bool "allowHostAccess" false sets;
  o_iptablesLogMethod := flag_value "iptablesLogMethod" "kernel" sets;
  o_mtu := flag_int "mtu" DefaultMTUSize sets;
  o_externalIP := flag_value "externalIP" "" sets;
  o_maxContainers := flag_uint "maxContainers" 0 sets;
  o_graphDriver := flag_value "graphDriver" "auto" sets;
  o_insecureRegistries := flag_list "insecureDockerRegistry" sets;
  o_persistentImages := flag_list "persistentImage" sets;
  o_debugAddr := flag_value "debugAddr" "" sets
|}.

(** The program: [registered] are the names under which it runs as a helper of the
    graph driver; a command line that does not parse ends it. *)
Definition garden_linux {codec : StateCodec} (env : Env) (x : Externals) (registered : list string) (arg0 : string) (args : list string) : M World MainEnd :=
  if decide (arg0 ∈ registered) then ret MainReturns
  else match Parse garden_flags args with
       | Ok (sets, _) => main env x (options_of sets)
       | _ => ret (MainExits 2)
       end.

(** No flags give the defaults. *)
Lemma options_of_nil : options_of [] = default_options.
Proof. reflexivity. Qed.

(** ** runner.go *)

(** [appendDefaultFlag]: the flags that the test gives itself are left alone. *)
Definition appendDefaultFlag (argv ar : list string) (key value : string) : list string :=
  if decide (key ∈ argv) then ar else if decide (value = "") then ar ++ [key] else ar ++ [key; value].

Definition runner_cmd (node : Z) (stateDirPath depotPath snapshotsPath graphPath network addr binPath RootFSPath : string) (argv : list string)
    : list string :=
  let add := appendDefaultFlag argv in
  let ar := add argv "--listenNetwork" network in
  let ar := add ar "--listenAddr" addr in
  let ar := add ar "--bin" binPath in
  let ar := if decide (RootFSPath = "") then ar else add ar "--rootfs" RootFSPath in
  let ar := add ar "--stateDir" stateDirPath in
  let ar := add ar "--depot" depotPath in
  let ar := add ar "--snapshots" snapshotsPath in
  let ar := add ar "--graph" graphPath in
  let ar := add ar "--logLevel" "debug" in
  let ar := add ar "--networkPool" ("10.250." +:+ Itoa node +:+ ".0/24") in
  let ar := add ar "--portPoolStart" (Itoa (51000 + 1000 * node)) in
  let ar := add ar "--portPoolSize" "1000" in
  let ar := add ar "--tag" (Itoa node) in
  let ar := if decide ("-enableGraphCleanup=false" ∈ ar) then ar else add ar "--enableGraphCleanup" "" in
  add ar "--debugAddr" (":808" +:+ Itoa node).

(** The paths that [start] gives to a node, below [tmp]; [GraphRoot] is a variable. *)
Definition node_dir (tmp : string) (node : Z) : string := path_join [tmp; "test-garden-" +:+ Itoa node].
Definition runner_start (tmp GraphRoot : string) (node : Z) (network addr binPath RootFSPath : string) (argv : list string) : list string :=
  let tmpDir := node_dir tmp node in
  let GraphRoot := if decide (GraphRoot = "") then path_join [tmpDir; "graph"] else GraphRoot in
  runner_cmd node (path_join [tmpDir; "state"]) (path_join [tmpDir; "containers"]) (path_join [tmpDir; "snapshots"])
    (path_join [GraphRoot; "node-" +:+ Itoa node]) network addr binPath RootFSPath argv.

(** [Start]: over a Unix socket of its own. *)
Definition runner_Start (tmp GraphRoot binPath RootFSPath : string) (node : Z) (argv : list string) : list string :=
  runner_start tmp GraphRoot node "unix" ("/tmp/garden_" +:+ Itoa node +:+ ".sock") binPath RootFSPath argv.

Definition sample_runner_args : list string := runner_Start "/tmp" "" "../../linux_backend/bin" "/rootfs" 3 [].
Example runner_args_parse : exists sets, Parse garden_flags sample_runner_args = Ok (sets, []) /\
  o_networkPool (options_of sets) = "10.250.3.0/24" /\ o_portPoolStart (options_of sets) = 54000 /\ o_enableGraphCleanup (options_of sets) = true.
Proof. eexists. split; [vm_compute; reflexivity|]. by vm_compute. Qed.

(** ** Servers side by side *)

Lemma appendDefaultFlag_nil ar key value :
  appendDefaultFlag [] ar key value = ar ++ key :: (if decide (value = "") then [] else [value]).
Proof. unfold appendDefaultFlag. rewrite decide_False by set_solver. by case_decide. Qed.

(** The flags that the runner sets when the test gives none. *)
Definition runner_pairs (node : Z) (state depot snapshots graph network addr bin rootfs : string) : list (string * string) :=
  [("listenNetwork", network); ("listenAddr", addr); ("bin", bin)] ++ (if decide (rootfs = "") then [] else [("rootfs", rootfs)]) ++
  [("stateDir", state); ("depot", depot); ("snapshots", snapshots); ("graph", graph); ("logLevel", "debug");
   ("networkPool", "10.250." +:+ Itoa node +:+ ".0/24"); ("portPoolStart", Itoa (51000 + 1000 * node)); ("portPoolSize", "1000"); ("tag", Itoa node)].

Definition runner_rest (node : Z) (cleanup : bool) : list (string * string) :=
  (if cleanup then [("enableGraphCleanup", "true")] else []) ++ [("debugAddr", ":808" +:+ Itoa node)].

Lemma Itoa_FormatUint n : 0 <= n -> Itoa n = FormatUint n 10.
Proof. intros Hn. unfold Itoa. by destruct (Z.ltb_spec n 0); [lia|]. Qed.

Lemma runner_args node state depot snapshots graph network addr bin rootfs : 0 <= node ->
  Forall (fun s => s <> "") [state; depot; snapshots; graph; network; addr; bin] ->
  exists cleanup : bool, runner_cmd node state depot snapshots graph network addr bin rootfs [] =
    (runner_pairs node state depot snapshots graph network addr bin rootfs ≫= fun kv => ["--" +:+ kv.1; kv.2]) ++
    (if cleanup then ["--enableGraphCleanup"] else []) ++ ["--debugAddr"; ":808" +:+ Itoa node].
Proof.
  intros Hn Hne. rewrite !Forall_cons in Hne. destruct Hne as (Hs & Hd & Hsn & Hg & Hnw & Ha & Hb & _).
  assert (Hi : forall n, 0 <= n -> Itoa n <> "") by (intros n Hn'; rewrite Itoa_FormatUint by done; apply FormatUint_nonempty).
  unfold runner_cmd, runner_pairs. rewrite !appendDefaultFlag_nil.
  rewrite (decide_False _ _ Hs), (decide_False _ _ Hd), (decide_False _ _ Hsn), (decide_False _ _ Hg), (decide_False _ _ Hnw),
    (decide_False _ _ Ha), (decide_False _ _ Hb), (decide_False _ _ (Hi node Hn)), (decide_False _ _ (Hi (51000 + 1000 * node) ltac:(lia))).
  destruct (decide (rootfs = "")) as [Hr|Hr]; match goal with |- context [decide (?x ∈ ?l)] => destruct (decide (x ∈ l)) end;
    [exists false|exists true|exists false|exists true]; reflexivity.
Qed.

(** The command line of the runner parses to these flags. *)
Lemma runner_parses node state depot snapshots graph network addr bin rootfs : 0 <= node < 1000000 ->
  Forall (fun s => s <> "") [state; depot; snapshots; graph; network; addr; bin] ->
  exists cleanup, Parse garden_flags (runner_cmd node state depot snapshots graph network addr bin rootfs []) =
    Ok (runner_pairs node state depot snapshots graph network addr bin rootfs ++ runner_rest node cleanup, []).
Proof.
  intros Hn Hne. destruct (runner_args node state depot snapshots graph network addr bin rootfs) as [cleanup ->]; [lia|done|]. exists cleanup.
  assert (Hu : forall n, 0 <= n < 18446744073709551616 -> flag_accepts FUint (Itoa n) = true).
  { intros n Hn'. cbn. rewrite Itoa_FormatUint by lia. by rewrite parse_uint0_FormatUint. }
  apply Parse_pairs.
  - assert (Hone : forall n k v, flag_name n -> flag_kind garden_flags n = Some k -> k <> FBool -> flag_accepts k v = true ->
      flag_name (n, v).1 /\ exists k, flag_kind garden_flags (n, v).1 = Some k /\ k <> FBool /\ flag_accepts k (n, v).2 = true) by eauto 10.
    unfold runner_pairs. rewrite !Forall_app. split_and!; [|case_decide|]; repeat (apply Forall_cons; split); try apply Forall_nil_2;
      (eapply Hone; [flag_tac|vm_compute; reflexivity|done|]); first [done | apply Hu; lia].
  - assert (Hdbg : Parse garden_flags ["--debugAddr"; ":808" +:+ Itoa node] = Ok ([("debugAddr", ":808" +:+ Itoa node)], []))
      by (apply (Parse_value _ "debugAddr" FString); done || flag_tac).
    destruct cleanup; [|done]. by apply (Parse_bool _ "enableGraphCleanup"); [flag_tac|flag_tac|].
Qed.

Lemma path_join_nonempty l e : e ∈ l -> e <> "" -> path_join l <> "".
Proof.
  intros Hin He. unfold path_join. assert (Hf : e ∈ filter (fun e => e <> "") l) by (by apply list_elem_of_filter).
  destruct (filter _ l) as [|x es]; [by apply elem_of_nil in Hf|]. unfold path_clean. destruct (has_prefix "/" _); [done|].
  by case_bool_decide.
Qed.

(** The options of the server of a node. *)
Definition node_options (tmp GraphRoot bin rootfs : string) (node : Z) : option Options :=
  match Parse garden_flags (runner_Start tmp GraphRoot bin rootfs node []) with Ok (sets, _) => Some (options_of sets) | _ => None end.

Definition node_network (node : Z) : Z := 184156160 + 256 * node.

Lemma node_network_text node : 0 <= node < 256 -> "10.250." +:+ Itoa node +:+ ".0/24" = IPNet_String (net4 (node_network node) 24).
Proof.
  intros Hn. rewrite IPNet_String_net4, Itoa_FormatUint by lia.
  assert (Hb : bytes4 (node_network node) = [10; 250; node; 0]).
  { assert (Hbe : be [10; 250; node; 0] = node_network node) by (rewrite be4; unfold node_network; lia).
    rewrite <- Hbe. apply bytes4_be; [|done]. unfold bytes. repeat constructor; unfold is_u8; lia. }
  rewrite Hb. unfold dotted. cbn [fmap list_fmap join]. by rewrite !app_assoc_string.
Qed.

Lemma node_network_canonical node : 0 <= node < 256 -> canonical (node_network node) 24.
Proof.
  intros Hn. unfold canonical, node_network, is_u32. split_and!; [lia|lia|lia|lia|]. change (2 ^ (32 - 24)) with 256.
  replace (184156160 + 256 * node) with ((719360 + node) * 256) by lia. apply Z_mod_mult.
Qed.

Lemma node_options_eq tmp GraphRoot bin rootfs node : 0 <= node < 1000000 -> bin <> "" -> exists o,
  node_options tmp GraphRoot bin rootfs node = Some o /\ o_networkPool o = "10.250." +:+ Itoa node +:+ ".0/24" /\
  o_portPoolStart o = 51000 + 1000 * node /\ o_portPoolSize o = 1000 /\ o_tag o = Itoa node /\
  o_listenAddr o = "/tmp/garden_" +:+ Itoa node +:+ ".sock" /\ o_debugAddr o = ":808" +:+ Itoa node /\ o_bin o = bin /\
  o_stateDir o = path_join [node_dir tmp node; "state"] /\ o_depot o = path_join [node_dir tmp node; "containers"] /\ o_iptablesLogMethod o = "kernel".
Proof.
  intros Hn Hb. unfold node_options, runner_Start, runner_start.
  assert (Hj : forall x y, y <> "" -> path_join [x; y] <> "") by (intros x y; apply path_join_nonempty; set_solver).
  edestruct (runner_parses node) as [cleanup ->]; [done|repeat (apply Forall_cons; split); first [by apply Hj | by apply Forall_nil | done]|].
  eexists. split; [reflexivity|]. unfold runner_pairs, runner_rest.
  assert (Hports : forall l1 l2, "portPoolStart" ∉ l2.*1 ->
    flag_uint "portPoolStart" 60000 (l1 ++ ("portPoolStart", Itoa (51000 + 1000 * node)) :: l2) = 51000 + 1000 * node).
  { intros l1 l2 Hl2. apply flag_with_last; [|done]. rewrite Itoa_FormatUint by lia. apply parse_uint0_FormatUint. lia. }
  destruct (decide (rootfs = "")), cleanup; (split_and!; [reflexivity| |reflexivity..]); cbn [options_of o_portPoolStart app].
  - apply (Hports [_; _; _; _; _; _; _; _; _]). set_solver.
  - apply (Hports [_; _; _; _; _; _; _; _; _]). set_solver.
  - apply (Hports [_; _; _; _; _; _; _; _; _; _]). set_solver.
  - apply (Hports [_; _; _; _; _; _; _; _; _; _]). set_solver.
Qed.

Lemma Itoa_inj n m : 0 <= n -> 0 <= m -> Itoa n = Itoa m -> n = m.
Proof. intros Hn Hm. rewrite !Itoa_FormatUint by done. apply FormatUint_inj; lia. Qed.

Lemma append_inj_l p s t : p +:+ s = p +:+ t -> s = t.
Proof. intros H%(f_equal chars). rewrite !chars_app in H. by apply chars_inj, (app_inv_head (chars p)). Qed.

Lemma append_inj_r p s t : s +:+ p = t +:+ p -> s = t.
Proof. intros H%(f_equal chars). rewrite !chars_app in H. by apply chars_inj, (app_inv_tail (chars p)). Qed.

Lemma tag_short node : 0 <= node < 14 -> (String.length (Itoa node) <= 2)%nat.
Proof.
  intros Hn. assert (Hc : node ∈ [0; 1; 2; 3; 4; 5; 6; 7; 8; 9; 10; 11; 12; 13]) by (rewrite !elem_of_cons; lia).
  clear Hn. revert node Hc. apply Forall_forall. repeat constructor.
Qed.

(** C29: servers side by side, for the nodes 0 to 13 of the integration tests and for
    servers that a test starts without flags of its own. The command lines that the
    runner builds for them are accepted by the server's flags; the options of two
    different nodes have networks that are disjoint, port ranges that are disjoint and
    lie within the 16 bits of a port, tags that differ and that the server accepts, and
    different addresses of the server and of its debug server. A test that gives a flag
    replaces the runner's value of it on every node ([network_pool_given]), so with a
    networkPool of its own the networks are the same; and from node 14 on the ports of
    the range go beyond 16 bits ([ports_beyond]). *)
Theorem parallel_servers_apart tmp GraphRoot bin rootfs n m : bin <> "" -> 0 <= n < 14 -> 0 <= m < 14 -> n <> m ->
  exists o o' ip ip' net net', node_options tmp GraphRoot bin rootfs n = Some o /\ node_options tmp GraphRoot bin rootfs m = Some o' /\
    ParseCIDR (o_networkPool o) = Ok (ip, net) /\ ParseCIDR (o_networkPool o') = Ok (ip', net') /\ overlaps net net' = false /\
    length (net_Mask net) = 4%nat /\ simpleMaskLength (net_Mask net) <= 30 /\
    u32 (o_portPoolStart o) + u32 (o_portPoolSize o) <= 65535 /\
    (o_portPoolStart o + o_portPoolSize o <= o_portPoolStart o' \/ o_portPoolStart o' + o_portPoolSize o' <= o_portPoolStart o) /\
    o_tag o <> o_tag o' /\ (String.length (o_tag o) <= 2)%nat /\ o_listenAddr o <> o_listenAddr o' /\ o_debugAddr o <> o_debugAddr o'.
Proof.
  intros Hb Hn Hm Hne. destruct (node_options_eq tmp GraphRoot bin rootfs n) as (o & Ho & Hnet & Hst & Hsz & Htag & Haddr & Hdbg & _); [lia|done|].
  destruct (node_options_eq tmp GraphRoot bin rootfs m) as (o' & Ho' & Hnet' & Hst' & Hsz' & Htag' & Haddr' & Hdbg' & _); [lia|done|].
  exists o, o'. rewrite Hnet, Hnet', !node_network_text by lia. rewrite !ParseCIDR_net4 by (apply node_network_canonical; lia).
  eexists _, _, _, _. split; [done|]. split; [done|]. split; [done|]. split; [done|].
  split; [|split; [reflexivity|split; [vm_compute; discriminate|]]].
  { rewrite overlaps_net4 by (apply node_network_canonical; lia). rewrite bool_decide_true; [done|]. unfold disjoint4, net_size, node_network.
    change (2 ^ (32 - 24)) with 256. lia. }
  rewrite Hst, Hst', Hsz, Hsz', Htag, Htag', Haddr, Haddr', Hdbg, Hdbg'. rewrite !u32_small by (unfold is_u32; lia).
  split_and!; [lia|lia| |by apply tag_short| |].
  - intros H%Itoa_inj; lia.
  - intros H%append_inj_l%append_inj_r%Itoa_inj; lia.
  - intros H%append_inj_l%Itoa_inj; lia.
Qed.

Lemma parallel_servers_apart_witness : exists o o',
  node_options "/tmp" "" "../../linux_backend/bin" "" 1 = Some o /\ node_options "/tmp" "" "../../linux_backend/bin" "" 2 = Some o' /\
  o_listenAddr o <> o_listenAddr o'.
Proof.
  destruct (parallel_servers_apart "/tmp" "" "../../linux_backend/bin" "" 1 2) as (o & o' & ip & ip' & net & net' & H); [done|lia|lia|lia|].
  exists o, o'. destruct H as (H1 & H2 & _ & _ & _ & _ & _ & _ & _ & _ & _ & H3 & _). split; [exact H1|]. split; [exact H2|exact H3].
Defined.

(** A test of the life cycle starts its server with a network pool of its own: it is
    the pool of every node. *)
Definition given_options (node : Z) (argv : list string) : option Options :=
  match Parse garden_flags (runner_Start "/tmp" "" "../../linux_backend/bin" "" node argv) with Ok (sets, _) => Some (options_of sets) | _ => None end.

Lemma network_pool_given :
  o_networkPool <$> given_options 1 ["--networkPool"; "1.2.3.0/24"] = Some "1.2.3.0/24" /\
  o_networkPool <$> given_options 2 ["--networkPool"; "1.2.3.0/24"] = Some "1.2.3.0/24".
Proof. split; vm_compute; reflexivity. Qed.

Lemma ports_beyond : exists o, given_options 14 [] = Some o /\ o_portPoolStart o + o_portPoolSize o = 66000.
Proof. eexists. split; [vm_compute; reflexivity|vm_compute; reflexivity]. Qed.
