(* ===== verification/Fakes.v ===== *)
(** * Generated fakes

    The test doubles of the repository are written by counterfeiter, which makes the
    same code for each method of an interface: a slice of the arguments of the calls,
    a stub that a test can set, and the values to return when there is none. The file
    models that code once, for any method; [FakeInterfaces] has the interfaces and the
    fakes of the repository. The theorem says that a fake records exactly the
    calls that were made, also with goroutines that call it at the same time. *)
From S2P Require Import Prelude.

(** ** Methods and values *)

(** A fake stores and returns values without looking into them: numbers of any width
    are [GNum]; pointers, interfaces, functions, slices and maps are references; a
    struct is a value of a type that the fake does not know. *)
Inductive GoType := GString | GBool | GNum | GError | GRef (T : string) | GStruct (T : string).

#[export] Instance GoType_eq_dec : EqDecision GoType.
Proof. solve_decision. Defined.

Record Method := mkMethod {
  m_name : string;
  m_args : list GoType;
  m_results : list GoType
}.

#[export] Instance Method_eq_dec : EqDecision Method.
Proof. solve_decision. Defined.

Notation Interface := (list Method).

(** The struct types, each with its zero value. *)
Class Structs := {
  struct : string -> Type;
  zero_struct : forall T, struct T
}.

Section Counterfeiter.
Context `{Structs}.

Definition value (t : GoType) : Type :=
  match t with
  | GString => string
  | GBool => bool
  | GNum => Z
  | GError => option error
  | GRef _ => option positive
  | GStruct T => struct T
  end.

Definition zero (t : GoType) : value t :=
  match t with
  | GString => ""
  | GBool => false
  | GNum => 0
  | GError => None
  | GRef _ => None
  | GStruct T => zero_struct T
  end.

Fixpoint values (ts : list GoType) : Type :=
  match ts with
  | [] => unit
  | t :: ts => (value t * values ts)%type
  end.

Fixpoint zeros (ts : list GoType) : values ts :=
  match ts with
  | [] => tt
  | t :: ts => (zero t, zeros ts)
  end.

Notation args m := (values (m_args m)).
Notation results m := (values (m_results m)).

(** ** The fields of a fake

    [S] is what the stubs of a test act on. *)
Context {S : Type}.

Record Fake := mkFake {
  fk_ArgsForCall : forall m, list (args m);
  fk_Stub : forall m, option (args m -> M S (results m));
  fk_Returns : forall m, results m
}.

(** [new(FakeX)] *)
Definition new_fake : Fake := mkFake (fun _ => []) (fun _ => None) (fun m => zeros (m_results m)).

(** The field of one method is replaced. *)
Definition set_field {T : Method -> Type} (m : Method) (x : T m) (f : forall m, T m) : forall m, T m := fun m' =>
  match decide (m = m') with
  | left e => eq_rect m T x m' e
  | right _ => f m'
  end.

(** ** The code of a method *)

(** [fake.xArgsForCall = append(fake.xArgsForCall, ...)], with the mutex held. *)
Definition record_call (m : Method) (a : args m) (f : Fake) : Fake :=
  mkFake (set_field m (fk_ArgsForCall f m ++ [a]) (fk_ArgsForCall f)) (fk_Stub f) (fk_Returns f).

(** What a call does after it was recorded. *)
Definition behave (f : Fake) (m : Method) (a : args m) : M S (results m) :=
  match fk_Stub f m with
  | Some stub => stub a
  | None => ret (fk_Returns f m)
  end.

Definition fake_call (m : Method) (a : args m) : M (Fake * S) (results m) := fun s =>
  let f := record_call m a s.1 in
  match behave f m a s.2 with (x, t) => (x, (f, t)) end.

(** [xCallCount] *)
Definition CallCount (m : Method) (f : Fake) : Z := Z.of_nat (length (fk_ArgsForCall f m)).

(** [xArgsForCall] *)
Definition ArgsForCall (m : Method) (i : Z) (f : Fake) : result (args m) :=
  if i <? 0 then Panic "runtime error: index out of range"
  else match fk_ArgsForCall f m !! Z.to_nat i with
       | Some a => Ok a
       | None => Panic "runtime error: index out of range"
       end.

(** [xReturns] *)
Definition Returns (m : Method) (r : results m) (f : Fake) : Fake :=
  mkFake (fk_ArgsForCall f) (set_field m None (fk_Stub f)) (set_field m r (fk_Returns f)).

(** [fake.XStub = stub] *)
Definition set_Stub (m : Method) (stub : args m -> M S (results m)) (f : Fake) : Fake :=
  mkFake (fk_ArgsForCall f) (set_field m (Some stub) (fk_Stub f)) (fk_Returns f).

(** ** A generated type

    The functions that are generated for a method: [ArgsForCall] only when it has
    arguments and [Returns] only when it has results. *)
Record FakeMethod := mkFakeMethod {
  fm_method : Method;
  fm_call : args fm_method -> M (Fake * S) (results fm_method);
  fm_CallCount : Fake -> Z;
  fm_ArgsForCall : option (Z -> Fake -> result (args fm_method));
  fm_Returns : option (results fm_method -> Fake -> Fake)
}.

Definition generated (m : Method) : FakeMethod :=
  mkFakeMethod m (fake_call m) (CallCount m)
    (if decide (m_args m = []) then None else Some (ArgsForCall m))
    (if decide (m_results m = []) then None else Some (Returns m)).

Definition counterfeit (I : Interface) : list FakeMethod := generated <$> I.

(** The names of the functions of a method. *)
Definition function_names (fm : FakeMethod) : list string :=
  let n := m_name (fm_method fm) in
  [n; n +:+ "CallCount"] ++ (if fm_ArgsForCall fm then [n +:+ "ArgsForCall"] else []) ++
  (if fm_Returns fm then [n +:+ "Returns"] else []).

(** [var _ I = new(FakeX)]: the type has the methods of the interface, and no two of its
    functions have one name. *)
Definition implements (fake : list FakeMethod) (I : Interface) : Prop :=
  (forall m, m ∈ I -> exists fm, fm ∈ fake /\ fm_method fm = m) /\ NoDup (mjoin (function_names <$> fake)).

Lemma set_field_same {T : Method -> Type} m (x : T m) f : set_field m x f m = x.
Proof. unfold set_field. by rewrite (decide_True_pi eq_refl). Qed.

Lemma set_field_other {T : Method -> Type} m m' (x : T m) f : m <> m' -> set_field m x f m' = f m'.
Proof. intros Hne. unfold set_field. destruct (decide (m = m')); [done|done]. Qed.

(** [implements] can be decided. *)
Lemma implements_check (fake : list FakeMethod) (I : Interface) :
  bool_decide (Forall (fun m => m ∈ fm_method <$> fake) I) = true -> bool_decide (NoDup (mjoin (function_names <$> fake))) = true ->
  implements fake I.
Proof.
  intros HI%bool_decide_eq_true_1 Hn%bool_decide_eq_true_1. split; [|done]. intros m Hm. rewrite Forall_forall in HI.
  destruct (list_elem_of_fmap_1 _ _ _ (HI m Hm)) as (fm & -> & Hfm). by exists fm.
Qed.

(** ** Code under test

    A program that calls the methods of an interface and ends with a value or a panic
    of its own. *)
Inductive prog (A : Type) :=
| Done (a : A)
| Crash (msg : string)
| Do (m : Method) (a : args m) (k : results m -> prog A).
Arguments Done {A} _.
Arguments Crash {A} _.
Arguments Do {A} _ _ _.

(** A call is a method with its arguments. *)
Definition Invocation : Type := {m : Method & args m}.

(** The arguments of the calls of one method. *)
Definition args_of (m : Method) (c : Invocation) : option (args m) :=
  match decide (projT1 c = m) with
  | left e => Some (eq_rect _ (fun m => args m) (projT2 c) _ e)
  | right _ => None
  end.

Definition calls_to (m : Method) (l : list Invocation) : list (args m) := omap (args_of m) l.

Lemma args_of_same m (a : args m) : args_of m (existT m a) = Some a.
Proof. unfold args_of. cbn. by rewrite (decide_True_pi eq_refl). Qed.

Lemma args_of_other m m' (a : args m') : m' <> m -> args_of m (existT m' a) = None.
Proof. intros Hne. unfold args_of. cbn. by destruct (decide (m' = m)). Qed.

Lemma calls_to_cons m c l : calls_to m (c :: l) = calls_to m [c] ++ calls_to m l.
Proof. unfold calls_to. cbn. by destruct (args_of m c). Qed.

Lemma record_call_args m a f m' : fk_ArgsForCall (record_call m a f) m' = fk_ArgsForCall f m' ++ calls_to m' [existT m a].
Proof.
  unfold record_call. cbn [fk_ArgsForCall]. destruct (decide (m = m')) as [<-|Hne].
  - rewrite set_field_same. unfold calls_to. cbn [omap list_omap]. by rewrite args_of_same.
  - rewrite set_field_other by done. unfold calls_to. cbn [omap list_omap]. by rewrite args_of_other, app_nil_r.
Qed.

(** ** Goroutines

    A goroutine records its call in one step, for which it holds the mutex, and then
    runs the stub or reads the values to return. The test can set stubs and values in
    between. [gr_calls] is what the goroutine has called. *)
Inductive Pc (A : Type) :=
| Running (p : prog A)
| Behaving (m : Method) (a : args m) (k : results m -> prog A)
| Crashed (msg : string).
Arguments Running {A} _.
Arguments Behaving {A} _ _ _.
Arguments Crashed {A} _.

Record Goroutine (A : Type) := mkGoroutine {
  gr_pc : Pc A;
  gr_calls : list Invocation
}.
Arguments mkGoroutine {A} _ _.
Arguments gr_pc {A} _.
Arguments gr_calls {A} _.

Definition resume {A} {m : Method} (k : results m -> prog A) (x : result (results m)) : Pc A :=
  match x with
  | Ok r => Running (k r)
  | Err _ => Crashed "error result of a stub"
  | Panic msg => Crashed msg
  end.

Record Test (A : Type) := mkTest {
  ts_fake : Fake;
  ts_state : S;
  ts_threads : list (Goroutine A)
}.
Arguments mkTest {A} _ _ _.
Arguments ts_fake {A} _.
Arguments ts_state {A} _.
Arguments ts_threads {A} _.

Inductive test_step {A} : Test A -> Test A -> Prop :=
| test_record f t ths i m a k l : ths !! i = Some (mkGoroutine (Running (Do m a k)) l) ->
    test_step (mkTest f t ths)
      (mkTest (record_call m a f) t (<[i := mkGoroutine (Behaving m a k) (l ++ [existT m a])]> ths))
| test_behave f t ths i m a k l x t' : ths !! i = Some (mkGoroutine (Behaving m a k) l) -> behave f m a t = (x, t') ->
    test_step (mkTest f t ths) (mkTest f t' (<[i := mkGoroutine (resume k x) l]> ths))
| test_crash f t ths i msg l : ths !! i = Some (mkGoroutine (Running (Crash msg)) l) ->
    test_step (mkTest f t ths) (mkTest f t (<[i := mkGoroutine (Crashed msg) l]> ths))
| test_returns f t ths m r : test_step (mkTest f t ths) (mkTest (Returns m r f) t ths)
| test_stub f t ths m stub : test_step (mkTest f t ths) (mkTest (set_Stub m stub f) t ths).

(** What is recorded is what was called, goroutine by goroutine in order. *)
Record counted {A} (u : Test A) : Prop := {
  ct_all : forall m, fk_ArgsForCall (ts_fake u) m ≡ₚ calls_to m (concat (gr_calls <$> ts_threads u));
  ct_order : forall m i th, ts_threads u !! i = Some th -> calls_to m (gr_calls th) `sublist_of` fk_ArgsForCall (ts_fake u) m
}.

Lemma concat_insert {A B} (f : A -> list B) (l : list A) i x y c : l !! i = Some x -> f y = f x ++ [c] ->
  concat (f <$> <[i := y]> l) ≡ₚ concat (f <$> l) ++ [c].
Proof.
  revert i. induction l as [|z l IH]; intros [|i] Hi Hy; cbn in *; [done|done|..].
  - injection Hi as ->. rewrite Hy, <- !(assoc_L (++)). by rewrite (Permutation_app_comm [c]).
  - rewrite (IH i Hi Hy). by rewrite (assoc_L (++)).
Qed.

Lemma concat_insert_same {A B} (f : A -> list B) (l : list A) i x y : l !! i = Some x -> f y = f x -> f <$> <[i := y]> l = f <$> l.
Proof. intros Hi Hy. rewrite list_fmap_insert, Hy. apply list_insert_id. by rewrite list_lookup_fmap, Hi. Qed.

Lemma calls_to_app m l l' : calls_to m (l ++ l') = calls_to m l ++ calls_to m l'.
Proof. unfold calls_to. by rewrite omap_app. Qed.

(** A step that records nothing and makes no call. *)
Lemma counted_silent {A} (f : Fake) (t t' : S) (ths : list (Goroutine A)) i th th' : ths !! i = Some th -> gr_calls th' = gr_calls th ->
  counted (mkTest f t ths) -> counted (mkTest f t' (<[i := th']> ths)).
Proof.
  intros Hi Hc [Hall Hord]. cbn in *. split; cbn.
  - intros m. by rewrite (concat_insert_same _ _ _ _ _ Hi Hc).
  - intros m j th1 [[<- [<- _]]|[_ Hj]]%list_lookup_insert_Some; [rewrite Hc; by eapply Hord|by eapply Hord].
Qed.

Lemma test_step_counted {A} (u u' : Test A) : test_step u u' -> counted u -> counted u'.
Proof.
  intros [f t ths i m a k l Hi|f t ths i m a k l x t' Hi Hb|f t ths i msg l Hi|f t ths m r|f t ths m stub] Hct;
    [|by eapply counted_silent|by eapply counted_silent|by destruct Hct; split..]. destruct Hct as [Hall Hord]. cbn [ts_fake ts_threads] in *. split; cbn [ts_fake ts_threads].
  - intros m'. rewrite record_call_args, Hall, <- calls_to_app.
    apply omap_Permutation. symmetry. by eapply concat_insert.
  - intros m' j th Hj. rewrite record_call_args. apply list_lookup_insert_Some in Hj as [[<- [<- _]]|[_ Hj]]; cbn [gr_calls].
    + rewrite calls_to_app. apply sublist_app; [by apply (Hord m' _ _ Hi)|done].
    + apply sublist_inserts_r. by eapply Hord.
Qed.

(** ** Theorems *)

(** However goroutines interleave, and whatever the test sets in between, a fake
    loses no call and counts none twice: the arguments recorded for a method are those
    of the calls that the goroutines have made, and the calls of one goroutine are
    in their order. *)
Theorem fake_counts_all {A} (ps : list (prog A)) t (u : Test A) :
  rtc test_step (mkTest new_fake t ((fun p => mkGoroutine (Running p) []) <$> ps)) u ->
  forall m, CallCount m (ts_fake u) = Z.of_nat (length (calls_to m (concat (gr_calls <$> ts_threads u)))) /\
    fk_ArgsForCall (ts_fake u) m ≡ₚ calls_to m (concat (gr_calls <$> ts_threads u)) /\
    forall i th, ts_threads u !! i = Some th -> calls_to m (gr_calls th) `sublist_of` fk_ArgsForCall (ts_fake u) m.
Proof.
  intros Hrun. assert (Hct : counted u).
  { revert Hrun. assert (H0 : counted (mkTest new_fake t ((fun p => mkGoroutine (Running p) []) <$> ps))).
    { split; cbn.
      - intros m. rewrite <- list_fmap_compose. induction ps as [|p ps IH]; [done|]. cbn. exact IH.
      - intros m i th. rewrite list_lookup_fmap. destruct (ps !! i); [|done]. intros [= <-]. cbn. apply sublist_nil_l. }
    revert H0. generalize (mkTest new_fake t ((fun p => mkGoroutine (Running p) []) <$> ps)).
    intros u0 H0 Hrun. induction Hrun as [|u0 u1 u2 Hs _ IH]; [done|]. by apply IH, (test_step_counted u0). }
  intros m. split; [|split; [apply Hct|by intros i th; apply Hct]]. unfold CallCount. by rewrite (ct_all u Hct m).
Qed.
End Counterfeiter.

Arguments Done {_ A} _.
Arguments Crash {_ A} _.
Arguments Do {_ A} _ _ _.
