(* ===== verification/FakeInterfaces.v ===== *)
(** * The fakes of the repository

    Each interface of the repository that has a generated fake, and the fake, as
    [counterfeit] makes it from the methods (see [Fakes]). The names of types are those
    of the source, with their package. *)
From S2P Require Import Prelude Fakes.

Section Interfaces.
Context `{Structs} {S : Type}.
Notation FakeType := (list (FakeMethod (S := S))).

(** ** container_daemon *)

Definition container_daemon_CmdPreparer : Interface :=
  [ mkMethod "PrepareCmd" [GStruct "garden.ProcessSpec"] [GRef "*exec.Cmd"; GError] ].

Definition FakeCmdPreparer : FakeType := counterfeit
  [ mkMethod "PrepareCmd" [GStruct "garden.ProcessSpec"] [GRef "*exec.Cmd"; GError] ].

Definition container_daemon_Commander : Interface :=
  [ mkMethod "Command" [GRef "[]string"] [GRef "*exec.Cmd"] ].

Definition FakeCommander : FakeType := counterfeit
  [ mkMethod "Command" [GRef "[]string"] [GRef "*exec.Cmd"] ].

Definition container_daemon_ConnectionHandler : Interface :=
  [ mkMethod "Handle" [GRef "*json.Decoder"] [GRef "*container_daemon.ResponseMessage"; GError] ].

Definition FakeConnectionHandler : FakeType := counterfeit
  [ mkMethod "Handle" [GRef "*json.Decoder"] [GRef "*container_daemon.ResponseMessage"; GError] ].

Definition container_daemon_Connector : Interface :=
  [ mkMethod "Connect" [GRef "*container_daemon.RequestMessage"] [GRef "*container_daemon.ResponseMessage"; GError] ].

Definition FakeConnector : FakeType := counterfeit
  [ mkMethod "Connect" [GRef "*container_daemon.RequestMessage"] [GRef "*container_daemon.ResponseMessage"; GError] ].

Definition container_daemon_Listener : Interface :=
  [ mkMethod "Listen" [GRef "container_daemon.ConnectionHandler"] [GError];
    mkMethod "Close" [] [GError] ].

Definition FakeListener : FakeType := counterfeit
  [ mkMethod "Listen" [GRef "container_daemon.ConnectionHandler"] [GError];
    mkMethod "Close" [] [GError] ].

Definition FakePoller : FakeType := counterfeit
  [ mkMethod "Poll" [] [GError] ].

Definition container_daemon_PTYOpener : Interface :=
  [ mkMethod "Open" [] [GRef "*os.File"; GRef "*os.File"; GError] ].

Definition FakePTYOpener : FakeType := counterfeit
  [ mkMethod "Open" [] [GRef "*os.File"; GRef "*os.File"; GError] ].

Definition container_daemon_RlimitsEnvEncoder : Interface :=
  [ mkMethod "EncodeLimits" [GStruct "garden.ResourceLimits"] [GString] ].

Definition FakeRlimitsEnvEncoder : FakeType := counterfeit
  [ mkMethod "EncodeLimits" [GStruct "garden.ResourceLimits"] [GString] ].

Definition container_daemon_Runner : Interface :=
  [ mkMethod "Start" [GRef "*exec.Cmd"] [GError];
    mkMethod "Wait" [GRef "*exec.Cmd"] [GNum] ].

Definition FakeRunner : FakeType := counterfeit
  [ mkMethod "Start" [GRef "*exec.Cmd"] [GError];
    mkMethod "Wait" [GRef "*exec.Cmd"] [GNum] ].

Definition container_daemon_Signaller : Interface :=
  [ mkMethod "Signal" [GNum; GNum] [GError] ].

Definition container_daemon_FakeSignaller : FakeType := counterfeit
  [ mkMethod "Signal" [GNum; GNum] [GError] ].

Definition container_daemon_Spawner : Interface :=
  [ mkMethod "Spawn" [GRef "*exec.Cmd"; GBool] [GRef "[]*os.File"; GError] ].

Definition FakeSpawner : FakeType := counterfeit
  [ mkMethod "Spawn" [GRef "*exec.Cmd"; GBool] [GRef "[]*os.File"; GError] ].

Definition container_daemon_Term : Interface :=
  [ mkMethod "GetWinsize" [GNum] [GRef "*term.Winsize"; GError];
    mkMethod "SetWinsize" [GNum; GRef "*term.Winsize"] [GError];
    mkMethod "SetRawTerminal" [GNum] [GRef "*term.State"; GError];
    mkMethod "RestoreTerminal" [GNum; GRef "*term.State"] [GError] ].

Definition FakeTerm : FakeType := counterfeit
  [ mkMethod "GetWinsize" [GNum] [GRef "*term.Winsize"; GError];
    mkMethod "SetWinsize" [GNum; GRef "*term.Winsize"] [GError];
    mkMethod "SetRawTerminal" [GNum] [GRef "*term.State"; GError];
    mkMethod "RestoreTerminal" [GNum; GRef "*term.State"] [GError] ].

Definition container_daemon_User : Interface :=
  [ mkMethod "Lookup" [GString] [GRef "*osuser.User"; GError] ].

Definition container_daemon_FakeUser : FakeType := counterfeit
  [ mkMethod "Lookup" [GString] [GRef "*osuser.User"; GError] ].

(** ** containerizer *)

Definition containerizer_Capabilities : Interface :=
  [ mkMethod "Limit" [GBool] [GError] ].

Definition FakeCapabilities : FakeType := counterfeit
  [ mkMethod "Limit" [GBool] [GError] ].

Definition containerizer_ContainerExecer : Interface :=
  [ mkMethod "Exec" [GString; GRef "[]string"] [GNum; GError] ].

Definition FakeContainerExecer : FakeType := counterfeit
  [ mkMethod "Exec" [GString; GRef "[]string"] [GNum; GError] ].

Definition containerizer_Initializer : Interface :=
  [ mkMethod "Init" [] [GError] ].

Definition FakeInitializer : FakeType := counterfeit
  [ mkMethod "Init" [] [GError] ].

Definition containerizer_RlimitsInitializer : Interface :=
  [ mkMethod "Init" [] [GError] ].

Definition FakeRlimitsInitializer : FakeType := counterfeit
  [ mkMethod "Init" [] [GError] ].

Definition containerizer_RootFSEnterer : Interface :=
  [ mkMethod "Enter" [] [GError] ].

Definition FakeRootFSEnterer : FakeType := counterfeit
  [ mkMethod "Enter" [] [GError] ].

Definition containerizer_Signaller : Interface :=
  [ mkMethod "SignalError" [GError] [GError];
    mkMethod "SignalSuccess" [] [GError] ].

Definition containerizer_FakeSignaller : FakeType := counterfeit
  [ mkMethod "SignalError" [GError] [GError];
    mkMethod "SignalSuccess" [] [GError] ].

Definition containerizer_Waiter : Interface :=
  [ mkMethod "Wait" [GNum] [GError];
    mkMethod "IsSignalError" [GError] [GBool] ].

Definition FakeWaiter : FakeType := counterfeit
  [ mkMethod "Wait" [GNum] [GError];
    mkMethod "IsSignalError" [GError] [GBool] ].

Definition system_StepRunner : Interface :=
  [ mkMethod "Run" [] [GError] ].

Definition FakeStepRunner : FakeType := counterfeit
  [ mkMethod "Run" [] [GError] ].

Definition system_FakeUser : FakeType := counterfeit
  [ mkMethod "Lookup" [GString] [GRef "*osuser.User"; GError] ].

(** ** linux_backend *)

(** The methods of garden.Container, which is of another package, are a parameter. *)
Definition linux_backend_Container (garden_Container : Interface) : Interface :=
  [ mkMethod "ID" [] [GString];
    mkMethod "HasProperties" [GRef "garden.Properties"] [GBool];
    mkMethod "GraceTime" [] [GNum];
    mkMethod "Start" [] [GError];
    mkMethod "Snapshot" [GRef "io.Writer"] [GError];
    mkMethod "ResourceSpec" [] [GStruct "linux_backend.LinuxContainerSpec"];
    mkMethod "Restore" [GStruct "linux_backend.LinuxContainerSpec"] [GError];
    mkMethod "Cleanup" [] [GError];
    mkMethod "LimitDisk" [GStruct "garden.DiskLimits"] [GError] ] ++ garden_Container.

(** FakeContainer in parts: the methods of the backend's own interface, and those of
    garden.Container on the state and the files, the limits, the network and the processes,
    the metrics and the properties. *)
Definition FakeContainer_own : FakeType := counterfeit
  [ mkMethod "ID" [] [GString];
    mkMethod "HasProperties" [GRef "garden.Properties"] [GBool];
    mkMethod "GraceTime" [] [GNum];
    mkMethod "Start" [] [GError];
    mkMethod "Snapshot" [GRef "io.Writer"] [GError];
    mkMethod "ResourceSpec" [] [GStruct "linux_backend.LinuxContainerSpec"];
    mkMethod "Restore" [GStruct "linux_backend.LinuxContainerSpec"] [GError];
    mkMethod "Cleanup" [] [GError];
    mkMethod "LimitDisk" [GStruct "garden.DiskLimits"] [GError] ].

Definition FakeContainer_state : FakeType := counterfeit
  [ mkMethod "Handle" [] [GString];
    mkMethod "Stop" [GBool] [GError];
    mkMethod "Info" [] [GStruct "garden.ContainerInfo"; GError];
    mkMethod "StreamIn" [GStruct "garden.StreamInSpec"] [GError];
    mkMethod "StreamOut" [GStruct "garden.StreamOutSpec"] [GRef "io.ReadCloser"; GError] ].

Definition FakeContainer_limits : FakeType := counterfeit
  [ mkMethod "LimitBandwidth" [GStruct "garden.BandwidthLimits"] [GError];
    mkMethod "CurrentBandwidthLimits" [] [GStruct "garden.BandwidthLimits"; GError];
    mkMethod "LimitCPU" [GStruct "garden.CPULimits"] [GError];
    mkMethod "CurrentCPULimits" [] [GStruct "garden.CPULimits"; GError];
    mkMethod "CurrentDiskLimits" [] [GStruct "garden.DiskLimits"; GError];
    mkMethod "LimitMemory" [GStruct "garden.MemoryLimits"] [GError];
    mkMethod "CurrentMemoryLimits" [] [GStruct "garden.MemoryLimits"; GError] ].

Definition FakeContainer_run : FakeType := counterfeit
  [ mkMethod "NetIn" [GNum; GNum] [GNum; GNum; GError];
    mkMethod "NetOut" [GStruct "garden.NetOutRule"] [GError];
    mkMethod "Run" [GStruct "garden.ProcessSpec"; GStruct "garden.ProcessIO"] [GRef "garden.Process"; GError];
    mkMethod "Attach" [GString; GStruct "garden.ProcessIO"] [GRef "garden.Process"; GError] ].

Definition FakeContainer_properties : FakeType := counterfeit
  [ mkMethod "Metrics" [] [GStruct "garden.Metrics"; GError];
    mkMethod "SetGraceTime" [GNum] [GError];
    mkMethod "Properties" [] [GRef "garden.Properties"; GError];
    mkMethod "Property" [GString] [GString; GError];
    mkMethod "SetProperty" [GString; GString] [GError];
    mkMethod "RemoveProperty" [GString] [GError] ].

Definition FakeContainer : FakeType :=
  FakeContainer_own ++ FakeContainer_state ++ FakeContainer_limits ++ FakeContainer_run ++ FakeContainer_properties.

Definition linux_backend_ContainerProvider : Interface :=
  [ mkMethod "ProvideContainer" [GStruct "linux_backend.LinuxContainerSpec"] [GRef "linux_backend.Container"] ].

Definition FakeContainerProvider : FakeType := counterfeit
  [ mkMethod "ProvideContainer" [GStruct "linux_backend.LinuxContainerSpec"] [GRef "linux_backend.Container"] ].

Definition linux_backend_HealthChecker : Interface :=
  [ mkMethod "HealthCheck" [] [GError] ].

Definition FakeHealthChecker : FakeType := counterfeit
  [ mkMethod "HealthCheck" [] [GError] ].

Definition linux_backend_ResourcePool : Interface :=
  [ mkMethod "Setup" [] [GError];
    mkMethod "Acquire" [GStruct "garden.ContainerSpec"] [GStruct "linux_backend.LinuxContainerSpec"; GError];
    mkMethod "Restore" [GRef "io.Reader"] [GStruct "linux_backend.LinuxContainerSpec"; GError];
    mkMethod "Release" [GStruct "linux_backend.LinuxContainerSpec"] [GError];
    mkMethod "Prune" [GRef "map[string]bool"] [GError];
    mkMethod "MaxContainers" [] [GNum] ].

Definition FakeResourcePool : FakeType := counterfeit
  [ mkMethod "Setup" [] [GError];
    mkMethod "Acquire" [GStruct "garden.ContainerSpec"] [GStruct "linux_backend.LinuxContainerSpec"; GError];
    mkMethod "Restore" [GRef "io.Reader"] [GStruct "linux_backend.LinuxContainerSpec"; GError];
    mkMethod "Release" [GStruct "linux_backend.LinuxContainerSpec"] [GError];
    mkMethod "Prune" [GRef "map[string]bool"] [GError];
    mkMethod "MaxContainers" [] [GNum] ].

(** ** linux_container *)

Definition cgroups_manager_CgroupReader : Interface :=
  [ mkMethod "CgroupNode" [GString] [GString; GError] ].

Definition FakeCgroupReader : FakeType := counterfeit
  [ mkMethod "CgroupNode" [GString] [GString; GError] ].

Definition linux_container_IPTablesManager : Interface :=
  [ mkMethod "ContainerSetup" [GString; GString; GRef "net.IP"; GRef "*net.IPNet"] [GError];
    mkMethod "ContainerTeardown" [GString] [GError] ].

Definition FakeIPTablesManager : FakeType := counterfeit
  [ mkMethod "ContainerSetup" [GString; GString; GRef "net.IP"; GRef "*net.IPNet"] [GError];
    mkMethod "ContainerTeardown" [GString] [GError] ].

Definition linux_container_NetworkStatisticser : Interface :=
  [ mkMethod "Statistics" [] [GStruct "garden.ContainerNetworkStat"; GError] ].

Definition FakeNetworkStatisticser : FakeType := counterfeit
  [ mkMethod "Statistics" [] [GStruct "garden.ContainerNetworkStat"; GError] ].

Definition linux_container_QuotaManager : Interface :=
  [ mkMethod "SetLimits" [GRef "lager.Logger"; GString; GStruct "garden.DiskLimits"] [GError];
    mkMethod "GetLimits" [GRef "lager.Logger"; GString] [GStruct "garden.DiskLimits"; GError];
    mkMethod "GetUsage" [GRef "lager.Logger"; GString] [GStruct "garden.ContainerDiskStat"; GError];
    mkMethod "Setup" [] [GError] ].

Definition FakeQuotaManager : FakeType := counterfeit
  [ mkMethod "SetLimits" [GRef "lager.Logger"; GString; GStruct "garden.DiskLimits"] [GError];
    mkMethod "GetLimits" [GRef "lager.Logger"; GString] [GStruct "garden.DiskLimits"; GError];
    mkMethod "GetUsage" [GRef "lager.Logger"; GString] [GStruct "garden.ContainerDiskStat"; GError];
    mkMethod "Setup" [] [GError] ].

Definition linux_container_Watcher : Interface :=
  [ mkMethod "Watch" [GRef "func()"] [GError];
    mkMethod "Unwatch" [] [] ].

Definition FakeWatcher : FakeType := counterfeit
  [ mkMethod "Watch" [GRef "func()"] [GError];
    mkMethod "Unwatch" [] [] ].

Definition iptables_manager_Chain : Interface :=
  [ mkMethod "Setup" [GString; GString; GRef "net.IP"; GRef "*net.IPNet"] [GError];
    mkMethod "Teardown" [GString] [GError] ].

Definition iptables_manager_FakeChain : FakeType := counterfeit
  [ mkMethod "Setup" [GString; GString; GRef "net.IP"; GRef "*net.IPNet"] [GError];
    mkMethod "Teardown" [GString] [GError] ].

(** ** metrics *)

Definition metrics_Metrics : Interface :=
  [ mkMethod "NumCPU" [] [GNum];
    mkMethod "NumGoroutine" [] [GNum];
    mkMethod "LoopDevices" [] [GNum];
    mkMethod "BackingStores" [] [GNum];
    mkMethod "DepotDirs" [] [GNum] ].

Definition FakeMetrics : FakeType := counterfeit
  [ mkMethod "NumCPU" [] [GNum];
    mkMethod "NumGoroutine" [] [GNum];
    mkMethod "LoopDevices" [] [GNum];
    mkMethod "BackingStores" [] [GNum];
    mkMethod "DepotDirs" [] [GNum] ].

(** ** network *)

Definition bridgemgr_BridgeManager : Interface :=
  [ mkMethod "Reserve" [GRef "*net.IPNet"; GString] [GString; GError];
    mkMethod "Rereserve" [GString; GRef "*net.IPNet"; GString] [GError];
    mkMethod "Release" [GString; GString] [GError];
    mkMethod "Prune" [] [GError] ].

Definition FakeBridgeManager : FakeType := counterfeit
  [ mkMethod "Reserve" [GRef "*net.IPNet"; GString] [GString; GError];
    mkMethod "Rereserve" [GString; GRef "*net.IPNet"; GString] [GError];
    mkMethod "Release" [GString; GString] [GError];
    mkMethod "Prune" [] [GError] ].

Definition network_Configurer : Interface :=
  [ mkMethod "ConfigureContainer" [GRef "*network.ContainerConfig"] [GError];
    mkMethod "ConfigureHost" [GRef "*network.HostConfig"] [GError] ].

Definition FakeConfigurer : FakeType := counterfeit
  [ mkMethod "ConfigureContainer" [GRef "*network.ContainerConfig"] [GError];
    mkMethod "ConfigureHost" [GRef "*network.HostConfig"] [GError] ].

Definition network_Filter : Interface :=
  [ mkMethod "Setup" [GString] [GError];
    mkMethod "TearDown" [] [];
    mkMethod "NetOut" [GStruct "garden.NetOutRule"] [GError] ].

Definition FakeFilter : FakeType := counterfeit
  [ mkMethod "Setup" [GString] [GError];
    mkMethod "TearDown" [] [];
    mkMethod "NetOut" [GStruct "garden.NetOutRule"] [GError] ].

Definition network_Hostname : Interface :=
  [ mkMethod "SetHostname" [GString] [GError] ].

Definition FakeHostname : FakeType := counterfeit
  [ mkMethod "SetHostname" [GString] [GError] ].

Definition iptables_Chain : Interface :=
  [ mkMethod "Setup" [GString] [GError];
    mkMethod "TearDown" [] [GError];
    mkMethod "AppendRule" [GString; GString; GString] [GError];
    mkMethod "DeleteRule" [GString; GString; GString] [GError];
    mkMethod "AppendNatRule" [GString; GString; GString; GRef "net.IP"] [GError];
    mkMethod "DeleteNatRule" [GString; GString; GString; GRef "net.IP"] [GError];
    mkMethod "PrependFilterRule" [GStruct "garden.NetOutRule"] [GError] ].

Definition iptables_FakeChain : FakeType := counterfeit
  [ mkMethod "Setup" [GString] [GError];
    mkMethod "TearDown" [] [GError];
    mkMethod "AppendRule" [GString; GString; GString] [GError];
    mkMethod "DeleteRule" [GString; GString; GString] [GError];
    mkMethod "AppendNatRule" [GString; GString; GString; GRef "net.IP"] [GError];
    mkMethod "DeleteNatRule" [GString; GString; GString; GRef "net.IP"] [GError];
    mkMethod "PrependFilterRule" [GStruct "garden.NetOutRule"] [GError] ].

Definition subnets_IPSelector : Interface :=
  [ mkMethod "SelectIP" [GRef "*net.IPNet"; GRef "[]net.IP"] [GRef "net.IP"; GError] ].

Definition FakeIPSelector : FakeType := counterfeit
  [ mkMethod "SelectIP" [GRef "*net.IPNet"; GRef "[]net.IP"] [GRef "net.IP"; GError] ].

Definition subnets_SubnetSelector : Interface :=
  [ mkMethod "SelectSubnet" [GRef "*net.IPNet"; GRef "[]*net.IPNet"] [GRef "*net.IPNet"; GError] ].

Definition FakeSubnetSelector : FakeType := counterfeit
  [ mkMethod "SelectSubnet" [GRef "*net.IPNet"; GRef "[]*net.IPNet"] [GRef "*net.IPNet"; GError] ].

(** ** process_tracker *)

Definition process_tracker_MsgSender : Interface :=
  [ mkMethod "SendMsg" [GRef "[]byte"] [GError] ].

Definition FakeMsgSender : FakeType := counterfeit
  [ mkMethod "SendMsg" [GRef "[]byte"] [GError] ].

Definition process_tracker_ProcessTracker : Interface :=
  [ mkMethod "Run" [GString; GRef "*exec.Cmd"; GStruct "garden.ProcessIO"; GRef "*garden.TTYSpec"; GRef "process_tracker.Signaller"] [GRef "garden.Process"; GError];
    mkMethod "Attach" [GString; GStruct "garden.ProcessIO"] [GRef "garden.Process"; GError];
    mkMethod "Restore" [GString; GRef "process_tracker.Signaller"] [];
    mkMethod "ActiveProcesses" [] [GRef "[]garden.Process"] ].

Definition FakeProcessTracker : FakeType := counterfeit
  [ mkMethod "Run" [GString; GRef "*exec.Cmd"; GStruct "garden.ProcessIO"; GRef "*garden.TTYSpec"; GRef "process_tracker.Signaller"] [GRef "garden.Process"; GError];
    mkMethod "Attach" [GString; GStruct "garden.ProcessIO"] [GRef "garden.Process"; GError];
    mkMethod "Restore" [GString; GRef "process_tracker.Signaller"] [];
    mkMethod "ActiveProcesses" [] [GRef "[]garden.Process"] ].

Definition process_tracker_Signaller : Interface :=
  [ mkMethod "Signal" [GRef "*process_tracker.SignalRequest"] [GError] ].

Definition process_tracker_FakeSignaller : FakeType := counterfeit
  [ mkMethod "Signal" [GRef "*process_tracker.SignalRequest"] [GError] ].

(** ** resource_pool *)

Definition resource_pool_FilterProvider : Interface :=
  [ mkMethod "ProvideFilter" [GString] [GRef "network.Filter"] ].

Definition FakeFilterProvider : FakeType := counterfeit
  [ mkMethod "ProvideFilter" [GString] [GRef "network.Filter"] ].

Definition resource_pool_MkdirChowner : Interface :=
  [ mkMethod "MkdirChown" [GString; GNum; GNum; GNum] [GError] ].

Definition FakeMkdirChowner : FakeType := counterfeit
  [ mkMethod "MkdirChown" [GString; GNum; GNum; GNum] [GError] ].

Definition resource_pool_Remover : Interface :=
  [ mkMethod "Remove" [GRef "layercake.ID"] [GError] ].

Definition FakeRemover : FakeType := counterfeit
  [ mkMethod "Remove" [GRef "layercake.ID"] [GError] ].

Definition resource_pool_RootFSProvider : Interface :=
  [ mkMethod "Create" [GRef "lager.Logger"; GString; GStruct "rootfs_provider.Spec"] [GString; GRef "[]string"; GError];
    mkMethod "Destroy" [GRef "lager.Logger"; GString] [GError] ].

Definition FakeRootFSProvider : FakeType := counterfeit
  [ mkMethod "Create" [GRef "lager.Logger"; GString; GStruct "rootfs_provider.Spec"] [GString; GRef "[]string"; GError];
    mkMethod "Destroy" [GRef "lager.Logger"; GString] [GError] ].

Definition resource_pool_SubnetPool : Interface :=
  [ mkMethod "Acquire" [GRef "subnets.SubnetSelector"; GRef "subnets.IPSelector"; GRef "lager.Logger"] [GRef "*linux_backend.Network"; GError];
    mkMethod "Release" [GRef "*linux_backend.Network"; GRef "lager.Logger"] [GError];
    mkMethod "Remove" [GRef "*linux_backend.Network"; GRef "lager.Logger"] [GError];
    mkMethod "Capacity" [] [GNum] ].

Definition FakeSubnetPool : FakeType := counterfeit
  [ mkMethod "Acquire" [GRef "subnets.SubnetSelector"; GRef "subnets.IPSelector"; GRef "lager.Logger"] [GRef "*linux_backend.Network"; GError];
    mkMethod "Release" [GRef "*linux_backend.Network"; GRef "lager.Logger"] [GError];
    mkMethod "Remove" [GRef "*linux_backend.Network"; GRef "lager.Logger"] [GError];
    mkMethod "Capacity" [] [GNum] ].

(** ** sysinfo *)

Definition sysinfo_Provider : Interface :=
  [ mkMethod "TotalMemory" [] [GNum; GError];
    mkMethod "TotalDisk" [] [GNum; GError] ].

Definition FakeProvider : FakeType := counterfeit
  [ mkMethod "TotalMemory" [] [GNum; GError];
    mkMethod "TotalDisk" [] [GNum; GError] ].

(** ** The fakes fit the interfaces *)

(** The declarations [var _ I = new(FakeX)], which the compiler checks. *)
Definition fakes : list (Interface * FakeType) :=
  [ (container_daemon_CmdPreparer, FakeCmdPreparer);
    (container_daemon_Commander, FakeCommander);
    (container_daemon_ConnectionHandler, FakeConnectionHandler);
    (container_daemon_Connector, FakeConnector);
    (container_daemon_Listener, FakeListener);
    (container_daemon_PTYOpener, FakePTYOpener);
    (container_daemon_RlimitsEnvEncoder, FakeRlimitsEnvEncoder);
    (container_daemon_Runner, FakeRunner);
    (container_daemon_Signaller, container_daemon_FakeSignaller);
    (container_daemon_Spawner, FakeSpawner);
    (container_daemon_Term, FakeTerm);
    (container_daemon_User, container_daemon_FakeUser);
    (containerizer_Capabilities, FakeCapabilities);
    (containerizer_ContainerExecer, FakeContainerExecer);
    (containerizer_Initializer, FakeInitializer);
    (containerizer_RlimitsInitializer, FakeRlimitsInitializer);
    (containerizer_RootFSEnterer, FakeRootFSEnterer);
    (containerizer_Signaller, containerizer_FakeSignaller);
    (containerizer_Waiter, FakeWaiter);
    (system_StepRunner, FakeStepRunner);
    (linux_backend_Container [], FakeContainer);
    (linux_backend_ContainerProvider, FakeContainerProvider);
    (linux_backend_HealthChecker, FakeHealthChecker);
    (linux_backend_ResourcePool, FakeResourcePool);
    (cgroups_manager_CgroupReader, FakeCgroupReader);
    (linux_container_IPTablesManager, FakeIPTablesManager);
    (linux_container_NetworkStatisticser, FakeNetworkStatisticser);
    (linux_container_QuotaManager, FakeQuotaManager);
    (linux_container_Watcher, FakeWatcher);
    (iptables_manager_Chain, iptables_manager_FakeChain);
    (metrics_Metrics, FakeMetrics);
    (bridgemgr_BridgeManager, FakeBridgeManager);
    (network_Configurer, FakeConfigurer);
    (network_Filter, FakeFilter);
    (network_Hostname, FakeHostname);
    (iptables_Chain, iptables_FakeChain);
    (subnets_IPSelector, FakeIPSelector);
    (subnets_SubnetSelector, FakeSubnetSelector);
    (process_tracker_MsgSender, FakeMsgSender);
    (process_tracker_ProcessTracker, FakeProcessTracker);
    (process_tracker_Signaller, process_tracker_FakeSignaller);
    (resource_pool_FilterProvider, FakeFilterProvider);
    (resource_pool_MkdirChowner, FakeMkdirChowner);
    (resource_pool_Remover, FakeRemover);
    (resource_pool_RootFSProvider, FakeRootFSProvider);
    (resource_pool_SubnetPool, FakeSubnetPool);
    (sysinfo_Provider, FakeProvider) ].

(** Every fake has the methods of its interface with their types, and no two functions
    of it have one name. The fakes of container_daemon.Poller and of system.User are
    left over: the interfaces are not there any more. *)
Theorem fakes_implement : Forall (fun x => implements x.2 x.1) fakes.
Proof. repeat (apply Forall_cons; split; [apply implements_check; vm_compute; reflexivity|]). constructor. Qed.
End Interfaces.
