(* ===== verification/HandFakes.v ===== *)
(** * Fakes that are written by hand

    The test doubles that counterfeiter did not make: the port pool, the bandwidth and
    the control-group managers, the image graph, the network devices, the server on a
    socket, and the two programs that stand for a container. A callback of a test acts
    on a state [S] of the test. *)
From S2P Require Import Prelude GoStrings GoFlag GoNet World System Bandwidth Devices.

Local Open Scope go_scope.

(** ** port_pool/fake_port_pool *)

Record FakePortPool := mkFakePortPool {
  fpp_nextPort : Z;
  fpp_AcquireError : option error;
  fpp_RemoveError : option error;
  fpp_Acquired : list Z;
  fpp_Released : list Z;
  fpp_Removed : list Z
}.

Definition FakePortPool_New (start : Z) : FakePortPool := mkFakePortPool start None None [] [] [].

(** The ports that were acquired are not recorded in [Acquired]. *)
Definition FakePortPool_Acquire : M FakePortPool Z := fun p =>
  match fpp_AcquireError p with
  | Some e => (Err e, p)
  | None =>
      let port := fpp_nextPort p in
      (Ok port, mkFakePortPool (u32 (port + 1)) (fpp_AcquireError p) (fpp_RemoveError p) (fpp_Acquired p) (fpp_Released p) (fpp_Removed p))
  end.

Definition FakePortPool_Remove (port : Z) : M FakePortPool unit := fun p =>
  match fpp_RemoveError p with
  | Some e => (Err e, p)
  | None => (Ok tt, mkFakePortPool (fpp_nextPort p) (fpp_AcquireError p) (fpp_RemoveError p) (fpp_Acquired p) (fpp_Released p) (fpp_Removed p ++ [port]))
  end.

Definition FakePortPool_Release (port : Z) : M FakePortPool unit := fun p =>
  (Ok tt, mkFakePortPool (fpp_nextPort p) (fpp_AcquireError p) (fpp_RemoveError p) (fpp_Acquired p) (fpp_Released p ++ [port]) (fpp_Removed p)).

(** ** linux_container/bandwidth_manager/fake_bandwidth_manager *)

Record FakeBandwidthManager := mkFakeBandwidthManager {
  fbm_SetLimitsError : option error;
  fbm_EnforcedLimits : list BandwidthLimits;
  fbm_GetLimitsError : option error;
  fbm_GetLimitsResult : ContainerBandwidthStat
}.

Definition FakeBandwidthManager_New : FakeBandwidthManager := mkFakeBandwidthManager None [] None (mkBandwidthStat 0 0 0 0).

Definition FakeBandwidthManager_SetLimits (limits : BandwidthLimits) : M FakeBandwidthManager unit := fun m =>
  match fbm_SetLimitsError m with
  | Some e => (Err e, m)
  | None => (Ok tt, mkFakeBandwidthManager (fbm_SetLimitsError m) (fbm_EnforcedLimits m ++ [limits]) (fbm_GetLimitsError m) (fbm_GetLimitsResult m))
  end.

Definition FakeBandwidthManager_GetLimits : M FakeBandwidthManager ContainerBandwidthStat := fun m =>
  match fbm_GetLimitsError m with
  | Some e => (Err e, m)
  | None => (Ok (fbm_GetLimitsResult m), m)
  end.

(** ** linux_container/cgroups_manager/fake_cgroups_manager *)

Record AddValue := mkAddValue { av_Pid : Z; av_Subsystems : list string }.
Record SetValue := mkSetValue { sv_Subsystem : string; sv_Name : string; sv_Value : string }.

Section FakeCgroups.
Context {S : Type}.

Record GetCallback := mkGetCallback { gc_Subsystem : string; gc_Name : string; gc_Callback : M S string }.
Record SetCallback := mkSetCallback { sc_Subsystem : string; sc_Name : string; sc_Callback : M S unit }.

Record FakeCgroupsManager := mkFakeCgroupsManager {
  fcm_cgroupsPath : string;
  fcm_id : string;
  fcm_SetError : option error;
  fcm_AddError : option error;
  fcm_setValues : list SetValue;
  fcm_addValues : list AddValue;
  fcm_getCallbacks : list GetCallback;
  fcm_setCallbacks : list SetCallback;
  fcm_subsystemPathCalls : list string
}.

Definition FakeCgroupsManager_New (cgroupsPath id : string) : FakeCgroupsManager :=
  mkFakeCgroupsManager cgroupsPath id None None [] [] [] [] [].

Definition FakeCgroupsManager_Add (pid : Z) (subsystems : list string) : M (FakeCgroupsManager * S) unit := fun s =>
  let m := s.1 in
  match fcm_AddError m with
  | Some e => (Err e, s)
  | None => (Ok tt, (mkFakeCgroupsManager (fcm_cgroupsPath m) (fcm_id m) (fcm_SetError m) (fcm_AddError m) (fcm_setValues m)
      (fcm_addValues m ++ [mkAddValue pid subsystems]) (fcm_getCallbacks m) (fcm_setCallbacks m) (fcm_subsystemPathCalls m), s.2))
  end.

Definition set_setValues (vs : list SetValue) (m : FakeCgroupsManager) : FakeCgroupsManager :=
  mkFakeCgroupsManager (fcm_cgroupsPath m) (fcm_id m) (fcm_SetError m) (fcm_AddError m) vs
    (fcm_addValues m) (fcm_getCallbacks m) (fcm_setCallbacks m) (fcm_subsystemPathCalls m).

Definition FakeCgroupsManager_Set (subsystem name val : string) : M (FakeCgroupsManager * S) unit := fun s =>
  let m := s.1 in
  match fcm_SetError m with
  | Some e => (Err e, s)
  | None =>
      match list_find (fun cb => sc_Subsystem cb = subsystem /\ sc_Name cb = name) (fcm_setCallbacks m) with
      | Some (_, cb) => match sc_Callback cb s.2 with (x, t) => (x, (m, t)) end
      | None => (Ok tt, (set_setValues (fcm_setValues m ++ [mkSetValue subsystem name val]) m, s.2))
      end
  end.

Definition FakeCgroupsManager_Get (subsystem name : string) : M (FakeCgroupsManager * S) string := fun s =>
  let m := s.1 in
  match list_find (fun cb => gc_Subsystem cb = subsystem /\ gc_Name cb = name) (fcm_getCallbacks m) with
  | Some (_, cb) => match gc_Callback cb s.2 with (x, t) => (x, (m, t)) end
  | None =>
      match list_find (fun v => sv_Subsystem v = subsystem /\ sv_Name v = name) (fcm_setValues m) with
      | Some (_, v) => (Ok (sv_Value v), s)
      | None => (Ok "", s)
      end
  end.

Definition FakeCgroupsManager_SubsystemPath (subsystem : string) : M (FakeCgroupsManager * S) string := fun s =>
  let m := s.1 in
  (Ok (path_join [fcm_cgroupsPath m; subsystem; "instance-" +:+ fcm_id m]),
   (mkFakeCgroupsManager (fcm_cgroupsPath m) (fcm_id m) (fcm_SetError m) (fcm_AddError m) (fcm_setValues m)
      (fcm_addValues m) (fcm_getCallbacks m) (fcm_setCallbacks m) (fcm_subsystemPathCalls m ++ [subsystem]), s.2)).

Definition SubsystemPathCallCount (m : FakeCgroupsManager) : Z := Z.of_nat (length (fcm_subsystemPathCalls m)).

Definition SubsystemArgsForCall (index : Z) (m : FakeCgroupsManager) : result string :=
  if index <? 0 then Panic "runtime error: index out of range"
  else match fcm_subsystemPathCalls m !! Z.to_nat index with
       | Some sub => Ok sub
       | None => Panic "runtime error: index out of range"
       end.

Definition WhenGetting (subsystem name : string) (callback : M S string) (m : FakeCgroupsManager) : FakeCgroupsManager :=
  mkFakeCgroupsManager (fcm_cgroupsPath m) (fcm_id m) (fcm_SetError m) (fcm_AddError m) (fcm_setValues m)
    (fcm_addValues m) (fcm_getCallbacks m ++ [mkGetCallback subsystem name callback]) (fcm_setCallbacks m) (fcm_subsystemPathCalls m).

Definition WhenSetting (subsystem name : string) (callback : M S unit) (m : FakeCgroupsManager) : FakeCgroupsManager :=
  mkFakeCgroupsManager (fcm_cgroupsPath m) (fcm_id m) (fcm_SetError m) (fcm_AddError m) (fcm_setValues m)
    (fcm_addValues m) (fcm_getCallbacks m) (fcm_setCallbacks m ++ [mkSetCallback subsystem name callback]) (fcm_subsystemPathCalls m).
End FakeCgroups.
Arguments FakeCgroupsManager : clear implicits.

(** ** resource_pool/fake_graph *)

(** [image.NewImgJSON] is of another package. *)
Section FakeGraph.
Context {S Image : Type} (NewImgJSON : string -> result Image).

Record FakeGraph := mkFakeGraph {
  fg_exists : gmap string Image;
  fg_WhenRegistering : option (Image -> string -> M S unit)
}.

Definition FakeGraph_New : FakeGraph := mkFakeGraph ∅ None.

Definition FakeGraph_Exists (imageID : string) (g : FakeGraph) : bool := bool_decide (is_Some (fg_exists g !! imageID)).

Definition FakeGraph_SetExists (imageID imgJSON : string) : M FakeGraph unit := fun g =>
  match NewImgJSON imgJSON with
  | Ok img => (Ok tt, mkFakeGraph (<[imageID := img]> (fg_exists g)) (fg_WhenRegistering g))
  | Err _ => (Panic ("bad imgJSON for imageID: " +:+ imageID), g)
  | Panic m => (Panic m, g)
  end.

Definition FakeGraph_Get (imageID : string) (g : FakeGraph) : result Image :=
  match fg_exists g !! imageID with
  | Some img => Ok img
  | None => Err (Errorf ("image not found in graph: " +:+ imageID))
  end.

Definition FakeGraph_Register (img : Image) (layer : string) (g : FakeGraph) : M S unit :=
  match fg_WhenRegistering g with
  | Some f => f img layer
  | None => ret tt
  end.
End FakeGraph.

(** ** network/devices/fakedevices

    An interface is known by its name; a pointer to one may be nil. *)
Notation Intf := (option string).

Record FaveVethCreator := mkFaveVethCreator {
  fv_CreateCalledWith : string * string;
  fv_CreateReturns : Intf * Intf * option error
}.

Definition FaveVethCreator_Create (hostIfcName containerIfcName : string) : M FaveVethCreator (Intf * Intf * option error) := fun f =>
  (Ok (fv_CreateReturns f), mkFaveVethCreator (hostIfcName, containerIfcName) (fv_CreateReturns f)).

Section FakeDevices.
Context {S : Type}.

Record FakeLink := mkFakeLink {
  fl_AddIPCalledWith : list (Intf * IP * IPNet);
  fl_SetUpCalledWith : list Intf;
  fl_AddDefaultGWCalledWith : Intf * IP;
  fl_SetMTUCalledWith : Intf * Z;
  fl_SetNsCalledWith : Intf * Z;
  fl_SetUpFunc : option (Intf -> M S (option error));
  fl_InterfaceByNameFunc : option (string -> M S (Intf * bool * option error));
  fl_AddIPReturns : gmap string error;
  fl_AddDefaultGWReturns : option error;
  fl_SetMTUReturns : option error;
  fl_SetNsReturns : option error;
  fl_StatisticsReturns : option error
}.

(** The call is recorded before the name is read, which is a panic for nil. *)
Definition FakeLink_AddIP (intf : Intf) (ip : IP) (subnet : IPNet) : M FakeLink (option error) := fun f =>
  let f' := mkFakeLink (fl_AddIPCalledWith f ++ [(intf, ip, subnet)]) (fl_SetUpCalledWith f) (fl_AddDefaultGWCalledWith f)
    (fl_SetMTUCalledWith f) (fl_SetNsCalledWith f) (fl_SetUpFunc f) (fl_InterfaceByNameFunc f) (fl_AddIPReturns f)
    (fl_AddDefaultGWReturns f) (fl_SetMTUReturns f) (fl_SetNsReturns f) (fl_StatisticsReturns f) in
  match intf with
  | None => (Panic "invalid memory address or nil pointer dereference", f')
  | Some name => (Ok (fl_AddIPReturns f !! name), f')
  end.

Definition FakeLink_AddDefaultGW (intf : Intf) (ip : IP) : M FakeLink (option error) := fun f =>
  (Ok (fl_AddDefaultGWReturns f),
   mkFakeLink (fl_AddIPCalledWith f) (fl_SetUpCalledWith f) (intf, ip)
    (fl_SetMTUCalledWith f) (fl_SetNsCalledWith f) (fl_SetUpFunc f) (fl_InterfaceByNameFunc f) (fl_AddIPReturns f)
    (fl_AddDefaultGWReturns f) (fl_SetMTUReturns f) (fl_SetNsReturns f) (fl_StatisticsReturns f)).

Definition FakeLink_SetUp (intf : Intf) : M (FakeLink * S) (option error) := fun s =>
  let f := s.1 in
  let f' := mkFakeLink (fl_AddIPCalledWith f) (fl_SetUpCalledWith f ++ [intf]) (fl_AddDefaultGWCalledWith f)
    (fl_SetMTUCalledWith f) (fl_SetNsCalledWith f) (fl_SetUpFunc f) (fl_InterfaceByNameFunc f) (fl_AddIPReturns f)
    (fl_AddDefaultGWReturns f) (fl_SetMTUReturns f) (fl_SetNsReturns f) (fl_StatisticsReturns f) in
  match fl_SetUpFunc f with
  | None => (Ok None, (f', s.2))
  | Some g => match g intf s.2 with (x, t) => (x, (f', t)) end
  end.

Definition FakeLink_SetMTU (intf : Intf) (mtu : Z) : M FakeLink (option error) := fun f =>
  (Ok (fl_SetMTUReturns f),
   mkFakeLink (fl_AddIPCalledWith f) (fl_SetUpCalledWith f) (fl_AddDefaultGWCalledWith f)
    (intf, mtu) (fl_SetNsCalledWith f) (fl_SetUpFunc f) (fl_InterfaceByNameFunc f) (fl_AddIPReturns f)
    (fl_AddDefaultGWReturns f) (fl_SetMTUReturns f) (fl_SetNsReturns f) (fl_StatisticsReturns f)).

Definition FakeLink_SetNs (intf : Intf) (pid : Z) : M FakeLink (option error) := fun f =>
  (Ok (fl_SetNsReturns f),
   mkFakeLink (fl_AddIPCalledWith f) (fl_SetUpCalledWith f) (fl_AddDefaultGWCalledWith f)
    (fl_SetMTUCalledWith f) (intf, pid) (fl_SetUpFunc f) (fl_InterfaceByNameFunc f) (fl_AddIPReturns f)
    (fl_AddDefaultGWReturns f) (fl_SetMTUReturns f) (fl_SetNsReturns f) (fl_StatisticsReturns f)).

Definition FakeLink_InterfaceByName (name : string) (f : FakeLink) : M S (Intf * bool * option error) :=
  match fl_InterfaceByNameFunc f with
  | Some g => g name
  | None => ret (None, false, None)
  end.

(** [RxBytes] and [TxBytes] *)
Definition FakeLink_Statistics (f : FakeLink) : result (Z * Z) :=
  match fl_StatisticsReturns f with
  | Some e => Err e
  | None => Ok (1, 2)
  end.
End FakeDevices.

Record FakeBridge := mkFakeBridge {
  fb_CreateCalledWith : string * IP * option IPNet;
  fb_CreateReturns : Intf * option error;
  fb_AddCalledWith : Intf * Intf;
  fb_AddReturns : option error;
  fb_DeleteCalledWith : list string;
  fb_DeleteReturns : option error
}.

Definition FakeBridge_Create (name : string) (ip : IP) (subnet : option IPNet) : M FakeBridge (Intf * option error) := fun f =>
  (Ok (fb_CreateReturns f),
   mkFakeBridge (name, ip, subnet) (fb_CreateReturns f) (fb_AddCalledWith f) (fb_AddReturns f) (fb_DeleteCalledWith f) (fb_DeleteReturns f)).

Definition FakeBridge_Add (bridge slave : Intf) : M FakeBridge (option error) := fun f =>
  (Ok (fb_AddReturns f),
   mkFakeBridge (fb_CreateCalledWith f) (fb_CreateReturns f) (bridge, slave) (fb_AddReturns f) (fb_DeleteCalledWith f) (fb_DeleteReturns f)).

Definition FakeBridge_Delete (bridge : string) : M FakeBridge (option error) := fun f =>
  (Ok (fb_DeleteReturns f),
   mkFakeBridge (fb_CreateCalledWith f) (fb_CreateReturns f) (fb_AddCalledWith f) (fb_AddReturns f) (fb_DeleteCalledWith f ++ [bridge]) (fb_DeleteReturns f)).

(** ** iodaemon/link/fake_unix_server

    [Serve] waits in [Accept] and starts the handler that is set at that time; the
    handlers run as goroutines of their own. *)
Inductive Handler := CloseConn | Custom (id : Z).

Record FakeUnixServer := mkFakeUnixServer {
  us_connectionHandler : Handler;
  us_listening : bool;
  us_started : list (Z * Handler);
  us_returned : option error
}.

(** The socket is made by the world; the connections are closed until the test sets a handler. *)
Definition NewFakeUnixServer (env : Env) (unixSocketPath : string) : M World FakeUnixServer :=
  do! call_ env (Sys "net.Listen" ["unix"; unixSocketPath]) in
  ret (mkFakeUnixServer CloseConn true [] None).

Inductive us_step : FakeUnixServer -> FakeUnixServer -> Prop :=
| us_accept s conn : us_listening s = true -> us_returned s = None ->
    us_step s (mkFakeUnixServer (us_connectionHandler s) true (us_started s ++ [(conn, us_connectionHandler s)]) None)
| us_accept_error s e : us_returned s = None ->
    us_step s (mkFakeUnixServer (us_connectionHandler s) (us_listening s) (us_started s) (Some e))
| us_SetConnectionHandler s h :
    us_step s (mkFakeUnixServer h (us_listening s) (us_started s) (us_returned s))
| us_Stop s :
    us_step s (mkFakeUnixServer (us_connectionHandler s) false (us_started s) (us_returned s)).

(** ** containerizer/system/fake_container and fake_mounter *)

Section Programs.
Context (env : Env).

(** The exit status and what was printed; [args] follow the program's name. *)
Definition fake_container_main (args : list string) : M World (Z * string) :=
  match args with
  | [root] =>
      let! r := attempt (RootFS_Enter env root) in
      match r with
      | inr _ => ret (1, "")
      | inl _ =>
          let! r := attempt (call env (Sys "ioutil.ReadDir" ["."])) in
          match r with
          | inr _ => ret (1, "")
          | inl files => ret (0, String.concat "" ((fun f => f +:+ String (ascii_of_nat 9) "") <$> lines files) +:+ String newline "")
          end
      end
  | _ => ret (1, "")
  end.

Definition fake_mounter_flags : list (string * FlagKind) :=
  [("type", FString); ("sourcePath", FString); ("targetPath", FString); ("flags", FInt); ("data", FString)].

Definition fake_mounter_main (args : list string) : M World Z :=
  match Parse fake_mounter_flags args with
  | Ok (sets, others) =>
      let mnt := mkMount (flag_value "type" "" sets) (flag_value "sourcePath" "" sets) (flag_value "targetPath" "" sets)
        (Itoa (flag_int "flags" (-1) sets)) (flag_value "data" "" sets) in
      let! r := attempt (Mount_Mount env mnt) in
      match r with
      | inr _ => panic "mount failed!"
      | inl _ =>
          match others with
          | [] => panic "runtime error: index out of range"
          | program :: rest =>
              let! r := attempt (call_ env (Run (Command program rest))) in
              match r with inr _ => panic "exit status" | inl _ => ret 0 end
          end
      end
  | _ => ret 2
  end.
End Programs.

(** ** What tests can rely on *)

Fixpoint acquire_ports (n : nat) : M FakePortPool (list Z) :=
  match n with
  | O => ret []
  | Datatypes.S n' => let! port := FakePortPool_Acquire in let! ports := acquire_ports n' in ret (port :: ports)
  end.

Lemma acquire_ports_eq n : forall p, fpp_AcquireError p = None -> is_u32 (fpp_nextPort p) ->
  fst (acquire_ports n p) = Ok ((fun i => u32 (fpp_nextPort p + Z.of_nat i)) <$> seq 0 n).
Proof.
  induction n as [|n IH]; intros p Hp Hu; [done|]. cbn [acquire_ports]. rewrite bind_eq. unfold FakePortPool_Acquire at 1. rewrite Hp, bind_eq.
  match goal with |- context [acquire_ports n ?q] => specialize (IH q eq_refl (u32_range _)); destruct (acquire_ports n q) as [x q'] end.
  cbn in IH. subst x. unfold ret. cbn [fst seq fmap list_fmap Z.of_nat]. rewrite Z.add_0_r, (u32_small _ Hu). f_equal. f_equal.
  rewrite <- (fmap_S_seq 0 n), <- list_fmap_compose. apply list_fmap_ext. intros _ i _. cbn -[u32 Z.of_nat]. unfold u32.
  rewrite Zplus_mod_idemp_l. f_equal. lia.
Qed.

(** The fake port pool hands out no port twice in the first 2^32 calls; it knows no end
    of its range and does not reuse what is released. *)
Theorem fake_ports_distinct start n : is_u32 start -> Z.of_nat n <= 2 ^ 32 ->
  exists ports, fst (acquire_ports n (FakePortPool_New start)) = Ok ports /\ length ports = n /\ NoDup ports.
Proof.
  intros Hs Hn. eexists. split; [by apply acquire_ports_eq|]. split; [by rewrite length_fmap, length_seq|].
  apply NoDup_fmap_2_strong; [|apply NoDup_seq]. cbn. intros i j Hi%elem_of_seq Hj%elem_of_seq. unfold u32, is_u32 in *. intros Heq.
  apply Nat2Z.inj. pose proof (Z.div_mod (start + Z.of_nat i) 4294967296 ltac:(lia)). pose proof (Z.div_mod (start + Z.of_nat j) 4294967296 ltac:(lia)).
  assert ((start + Z.of_nat i) / 4294967296 = (start + Z.of_nat j) / 4294967296 \/
    (start + Z.of_nat i) / 4294967296 + 1 <= (start + Z.of_nat j) / 4294967296 \/
    (start + Z.of_nat j) / 4294967296 + 1 <= (start + Z.of_nat i) / 4294967296) by lia.
  change (2 ^ 32) with 4294967296 in Hn. nia.
Qed.

(** The values that were set, one after the other. *)
Fixpoint set_all {S} (vs : list SetValue) : M (FakeCgroupsManager S * S) unit :=
  match vs with
  | [] => ret tt
  | v :: vs' => do! FakeCgroupsManager_Set (sv_Subsystem v) (sv_Name v) (sv_Value v) in set_all vs'
  end.

Lemma set_all_eq {S} vs : forall (m : FakeCgroupsManager S) t, fcm_SetError m = None -> fcm_setCallbacks m = [] ->
  set_all vs (m, t) = (Ok tt, (set_setValues (fcm_setValues m ++ vs) m, t)).
Proof.
  induction vs as [|[sub name val] vs IH]; intros m t He Hc; cbn [set_all].
  - rewrite app_nil_r. by destruct m.
  - rewrite bind_eq. unfold FakeCgroupsManager_Set. cbn [fst snd sv_Subsystem sv_Name sv_Value]. rewrite He, Hc. cbn [list_find].
    rewrite IH by done. unfold set_setValues. cbn. by rewrite <- (assoc_L (++)).
Qed.

(** The fake of the control groups reads back the first value that was set, not the last:
    unlike a control group, it does not change when it is set again. *)
Theorem fake_cgroup_keeps_first {S} path id vs sub name (t : S) :
  fst (bind (set_all vs) (fun _ => FakeCgroupsManager_Get sub name) (FakeCgroupsManager_New path id, t)) =
    Ok (match list_find (fun v => sv_Subsystem v = sub /\ sv_Name v = name) vs with Some (_, v) => sv_Value v | None => "" end).
Proof.
  rewrite bind_eq, set_all_eq by done. unfold FakeCgroupsManager_Get. cbn. by destruct (list_find _ vs) as [[? ?]|].
Qed.

Lemma fake_cgroup_stale : fst (bind (set_all [mkSetValue "memory" "limit" "1"; mkSetValue "memory" "limit" "2"])
  (fun _ => FakeCgroupsManager_Get "memory" "limit") (FakeCgroupsManager_New "/cg" "id", tt)) = Ok "1".
Proof. apply fake_cgroup_keeps_first. Qed.

(** The graph has what was put into it. *)
Theorem fake_graph_lookup {S Image} (NewImgJSON : string -> result Image) id json img (g : FakeGraph (S := S)) :
  NewImgJSON json = Ok img ->
  exists g', FakeGraph_SetExists NewImgJSON id json g = (Ok tt, g') /\ FakeGraph_Get id g' = Ok img /\
    forall id', FakeGraph_Exists id' g' = bool_decide (id' = id) || FakeGraph_Exists id' g /\
      (id' <> id -> FakeGraph_Get id' g' = FakeGraph_Get id' g).
Proof.
  intros Hj. unfold FakeGraph_SetExists. rewrite Hj. eexists. split; [done|]. unfold FakeGraph_Get, FakeGraph_Exists. cbn.
  split; [by rewrite lookup_insert_eq|]. intros id'. split.
  - destruct (decide (id = id')) as [<-|Hne]; [rewrite lookup_insert_eq, (bool_decide_true (id = id)) by done; by apply bool_decide_true|].
    rewrite lookup_insert_ne by done. by rewrite (bool_decide_false (id' = id)).
  - intros Hne. by rewrite lookup_insert_ne.
Qed.

(** A server that was stopped or has returned starts nothing more. *)
Theorem fake_server_stops s s' : rtc us_step s s' -> us_listening s = false \/ us_returned s <> None -> us_started s' = us_started s.
Proof.
  induction 1 as [|s s1 s2 Hs _ IH]; [done|]. intros Hend. rewrite IH; destruct Hs; cbn in *; try done; try (by destruct Hend; congruence); try (by left); by right.
Qed.

(** The program of the mount tests runs its command only after the mount. *)
Theorem fake_mounter_mounts_first env args w w' : fake_mounter_main env args w = (Ok 0, w') ->
  exists sets program rest w1 mnt, Parse fake_mounter_flags args = Ok (sets, program :: rest) /\
    mt_Type mnt = flag_value "type" "" sets /\ mt_TargetPath mnt = flag_value "targetPath" "" sets /\
    Mount_Mount env mnt w = (Ok tt, w1) /\ w' = w1 ++ [Run (Command program rest)].
Proof.
  unfold fake_mounter_main. destruct (Parse fake_mounter_flags args) as [[sets others]|e|m] eqn:E; [|done|done].
  rewrite bind_eq, attempt_eq. destruct (Mount_Mount env _ w) as [[[]|e|m] w1] eqn:Em; [|done|done].
  destruct others as [|program rest]; [done|]. rewrite bind_eq, attempt_eq, call__eq.
  destruct (env w1 _); [|done]. intros [= <-]. eexists _, program, rest, w1, _. split; [done|]. split; [|split; [|split; [exact Em|done]]]; done.
Qed.
