(* ===== verification/HelperPrograms.v ===== *)
(** * Programs that the integration tests run

    capcheck reports which capabilities a process of a container has; the other programs
    hold a shared-memory segment, print what they are told, or call one function of the
    system packages. Each returns its exit status and what it has printed. *)
From S2P Require Import Prelude GoStrings GoFlag GoNet World System Devices Listeners.

Local Open Scope go_scope.

Definition eol : string := String newline "".

Section Programs.
Context (env : Env).

(** ** integration/helpers/capcheck/inspector

    A probe prints a line and returns the error of its call. *)
Definition printMsg (tag text : string) : string := tag +:+ ": " +:+ text +:+ eol.

Definition ProbeCAP_SYS_ADMIN : M World (option error * string) :=
  let! r := attempt (call env (Sys "ioutil.TempDir" [""; "capability-utility"])) in
  match r with
  | inr err => ret (Some err, printMsg "CAP_SYS_ADMIN" "Failed to create a directory: %s")
  | inl dirName =>
      let! r := attempt (call_ env (Sys "mount" [dirName; dirName; ""; "MS_BIND"; ""])) in
      match r with
      | inr err =>
          do! ignore (call_ env (RemoveAll dirName)) in
          ret (Some err, printMsg "CAP_SYS_ADMIN" "Failed to create a bind mount: %s")
      | inl _ =>
          do! ignore (call_ env (Sys "unmount" [dirName; "0"])) in
          do! ignore (call_ env (RemoveAll dirName)) in
          ret (None, printMsg "CAP_SYS_ADMIN" "Create bind mount succeeded")
      end
  end.

Definition ProbeCAP_NET_BIND_SERVICE : M World (option error * string) :=
  let! r := attempt (call_ env (Sys "net.Listen" ["tcp"; ":21"])) in
  match r with
  | inr err => ret (Some err, printMsg "CAP_NET_BIND_SERVICE" "Failed to create listener: %s")
  | inl _ =>
      do! ignore (call_ env (Sys "close" [":21"])) in
      ret (None, printMsg "CAP_NET_BIND_SERVICE" "Create listener succeeded")
  end.

(** Without a directory the node is made in the current one. *)
Definition ProbeCAP_MKNOD : M World (option error * string) :=
  let! r := attempt (call env (Sys "ioutil.TempDir" [""; "CAP_MKNOD"])) in
  let dirName := match r with inl d => d | inr _ => "" end in
  let said := match r with inl _ => "" | inr _ => printMsg "CAP_MKNOD" "Failed to create a directory: %s" end in
  let! r := attempt (call_ env (Run (Command "mknod" [path_join [dirName; "node"]; "b"; "0777"; "200"]))) in
  match r with
  | inr err =>
      do! ignore (call_ env (RemoveAll dirName)) in
      ret (Some err, said +:+ printMsg "CAP_MKNOD" "Failed to make a node: %s, %s")
  | inl _ =>
      do! ignore (call_ env (RemoveAll dirName)) in
      do! ignore (call_ env (RemoveAll dirName)) in
      ret (None, said +:+ printMsg "CAP_MKNOD" "Make node succeeded")
  end.

(** The capabilities of the calling process, set by set. *)
Definition PrintCap (held : string -> string -> bool) (capName cap : string) : M World string :=
  let! r := attempt (call_ env (Sys "capability.NewPid" ["0"])) in
  match r with
  | inr _ => panic "capability.NewPid"
  | inl _ =>
      let t (b : bool) := if b then "true" else "false" in
      ret (capName +:+ " bounding=" +:+ t (held "BOUNDING" cap) +:+ ", permitted=" +:+ t (held "PERMITTED" cap)
           +:+ ", effective=" +:+ t (held "EFFECTIVE" cap) +:+ ", inheritable=" +:+ t (held "INHERITABLE" cap) +:+ eol)
  end.

(** ** integration/helpers/capcheck/commands *)

(** [shouldProbe] takes the name out of the map. *)
Definition shouldProbe (cap : string) (caps : gset string) : bool * gset string := (bool_decide (cap ∈ caps), caps ∖ {[cap]}).

Definition probe (wanted : bool) (p : M World (option error * string)) : M World (Z * string) :=
  if wanted then
    let! ' (err, said) := p in
    ret (if err then 1 else 0, said)
  else ret (0, "").

(** The map is read in no fixed order; [elements] stands for one. *)
Definition Inspect (caps : gset string) : M World (Z * string) :=
  let probeAll := bool_decide (caps = ∅) in
  let '(b1, caps) := if probeAll then (true, caps) else shouldProbe "CAP_SYS_ADMIN" caps in
  let! ' (e1, s1) := probe b1 ProbeCAP_SYS_ADMIN in
  let '(b2, caps) := if probeAll then (true, caps) else shouldProbe "CAP_MKNOD" caps in
  let! ' (e2, s2) := probe b2 ProbeCAP_MKNOD in
  let '(b3, caps) := if probeAll then (true, caps) else shouldProbe "CAP_NET_BIND_SERVICE" caps in
  let! ' (e3, s3) := probe b3 ProbeCAP_NET_BIND_SERVICE in
  let warnings := String.concat "" ((fun cap => "WARNING: " +:+ cap +:+ " is not supported and was not probed" +:+ eol) <$> elements caps) in
  ret (e1 + e2 + e3, s1 +:+ s2 +:+ s3 +:+ warnings).

(** [args] with the program's name. *)
Definition capcheck_main (args : list string) : M World (Z * string) :=
  match args with
  | [name; arg] =>
      if decide (arg = "help") then
        ret (0, "Capability Help:" +:+ eol +:+ "  Usage: " +:+ name +:+ " <CAPABILITY<,...>>" +:+ eol
                +:+ "  Example: " +:+ name +:+ " CAP_CHOWN,CAP_NET_BIND_SERVICE" +:+ eol +:+ eol)
      else Inspect (list_to_set (split ","%char arg))
  | _ => Inspect ∅
  end.

(** ** integration/lifecycle/shm_test: the segment is held until a signal comes *)

Definition shm_test_main : M World (Z * string) :=
  let! r := attempt (call env (Sys "SHMGET" ["0xdeafbeef"; "1"; "IPC_CREAT|IPC_EXCL|0600"])) in
  match r with
  | inr _ => ret (1, "")
  | inl shmid =>
      let! r := attempt (call env (Sys "SHMAT" [shmid; "0"; "0"])) in
      match r with
      | inr _ => ret (2, "")
      | inl addr =>
          do! ignore (call_ env (Sys "signal.Wait" ["SIGUSR2"; "SIGTERM"; "SIGINT"])) in
          let! r := attempt (call_ env (Sys "SHMDT" [addr; "0"; "0"])) in
          match r with
          | inr _ => ret (3, "ok" +:+ eol +:+ "releasing" +:+ eol)
          | inl _ =>
              let! r := attempt (call_ env (Sys "SHMCTL" [shmid; "IPC_RMID"; "0"])) in
              ret (match r with inr _ => 4 | inl _ => 0 end, "ok" +:+ eol +:+ "releasing" +:+ eol)
          end
      end
  end.

(** ** Programs that call one function *)

Definition test_capabilities_main (pid : Z) (args : list string) : M World (Z * string) :=
  match Parse [("extendedWhitelist", FBool)] args with
  | Ok (sets, _) =>
      let! r := attempt (ProcessCapabilities_Limit env pid (flag_bool "extendedWhitelist" false sets)) in
      match r with inr _ => panic "caps.Limit" | inl _ => ret (0, "banana" +:+ eol) end
  | _ => ret (2, "")
  end.

Definition test_user_execer_main (args : list string) : M World Ending :=
  match Parse [("uid", FInt); ("gid", FInt); ("workDir", FString)] args with
  | Ok (sets, _) =>
      let! r := attempt (ExecAsUser env (flag_int "uid" (-1) sets) (flag_int "gid" (-1) sets) (flag_value "workDir" "" sets)
                           "bash" ["-c"; "id -u && id -g"]) in
      ret (match r with inr _ => Exits 2 | inl _ => Execs end)
  | _ => ret (Exits 2)
  end.

Definition detach_test_main (args : list string) : M World (Z * string) :=
  match args with
  | _ :: out :: err :: _ => do! Detach env out err in ret (0, "detached" +:+ eol)
  | _ => panic "runtime error: index out of range"
  end.

(** [decode] reads the JSON of a link.SignalMsg. *)
Definition test_print_signals_main (decode : string -> result Z) (pid : Z) : M World (Z * string) :=
  let said := "pid = " +:+ Itoa pid +:+ eol in
  let! r := attempt (let! data := call env (Sys "read" ["3"]) in lift (decode data)) in
  match r with
  | inr _ => ret (2, said)
  | inl sig => ret (0, said +:+ "Received: " +:+ Itoa sig +:+ eol)
  end.

Definition empty_ls_main : M World string :=
  let! r := attempt (call env (Sys "ioutil.ReadDir" ["/"])) in
  match r with
  | inr _ => panic "ioutil.ReadDir"
  | inl files => ret (String.concat "" ((fun f => f +:+ eol) <$> lines files))
  end.
End Programs.

(** ** network/devices/bridgetest: a bridge is made and destroyed, ten times *)

Section BridgeTest.
Context {St : Type} (nl : Netlink St).

Fixpoint bridgetest_loop (n : nat) (name : string) (subnet : IPNet) : M St Z :=
  match n with
  | O => ret 0
  | S n' =>
      let! r := attempt (Bridge_Create nl name (ParseIP "1.2.3.4") subnet) in
      match r with
      | inr _ => ret 2
      | inl _ =>
          let! r := attempt (Bridge_Destroy nl name) in
          match r with
          | inr _ => ret 3
          | inl _ => bridgetest_loop n' name subnet
          end
      end
  end.

(** [args] with the program's name. *)
Definition bridgetest_main (args : list string) : M St Z :=
  match args, ParseCIDR "2.3.4.5/30" with
  | _ :: arg :: _, Ok (_, subnet) => bridgetest_loop 10 ("testbridge" +:+ arg) subnet
  | _, _ => panic "runtime error: index out of range"
  end.
End BridgeTest.

(** ** What capcheck finds

    A host that lets a process do what its capabilities allow. *)
Record enforces (held : list string) (env : Env) : Prop := {
  en_tempdir : forall h a, exists d, env h (Sys "ioutil.TempDir" a) = inl d;
  en_mount : forall h d, (exists o, env h (Sys "mount" [d; d; ""; "MS_BIND"; ""]) = inl o) <-> "CAP_SYS_ADMIN" ∈ held;
  en_mknod : forall h a, (exists o, env h (Run (Command "mknod" a)) = inl o) <-> "CAP_MKNOD" ∈ held;
  en_listen : forall h, (exists o, env h (Sys "net.Listen" ["tcp"; ":21"]) = inl o) <-> "CAP_NET_BIND_SERVICE" ∈ held
}.

Section Capcheck.
Context (held : list string) (env : Env) (Henv : enforces held env).

(** A probe returns, with an error exactly when the capability is missing. *)
Definition finds (cap : string) (p : M World (option error * string)) : Prop :=
  forall w, exists err said w', p w = (Ok (err, said), w') /\ (err = None <-> cap ∈ held).

Lemma allowed_error {A} (x : string + A) (P : Prop) : ((exists o, x = inl o) <-> P) -> match x with inl _ => P | inr _ => ~ P end.
Proof. destruct x as [o|e]; intros [H1 H2]; [apply H1; by exists o|]. intros H. by destruct (H2 H). Qed.

Lemma probe_sys_admin : finds "CAP_SYS_ADMIN" (ProbeCAP_SYS_ADMIN env).
Proof.
  intros w. unfold ProbeCAP_SYS_ADMIN. rewrite bind_eq, attempt_eq, call_eq. destruct (en_tempdir _ _ Henv w [""; "capability-utility"]) as [d ->].
  rewrite bind_eq, attempt_eq, call__eq. match goal with |- context [env ?h (Sys "mount" ?a)] => pose proof (allowed_error _ _ (en_mount _ _ Henv h d)) as H;
    destruct (env h (Sys "mount" a)) as [o|e] end;
    repeat (rewrite bind_eq, ignore_eq, call__eq; destruct (env _ _)); eexists _, _, _; (split; [reflexivity|]); split; done.
Qed.

Lemma probe_mknod : finds "CAP_MKNOD" (ProbeCAP_MKNOD env).
Proof.
  intros w. unfold ProbeCAP_MKNOD. rewrite bind_eq, attempt_eq, call_eq. destruct (en_tempdir _ _ Henv w [""; "CAP_MKNOD"]) as [d ->]. cbn zeta.
  rewrite bind_eq, attempt_eq, call__eq. match goal with |- context [env ?h (Run (Command "mknod" ?a))] => pose proof (allowed_error _ _ (en_mknod _ _ Henv h a)) as H;
    destruct (env h (Run (Command "mknod" a))) as [o|e] end;
    repeat (rewrite bind_eq, ignore_eq, call__eq; destruct (env _ _)); eexists _, _, _; (split; [reflexivity|]); split; done.
Qed.

Lemma probe_net_bind : finds "CAP_NET_BIND_SERVICE" (ProbeCAP_NET_BIND_SERVICE env).
Proof.
  intros w. unfold ProbeCAP_NET_BIND_SERVICE. rewrite bind_eq, attempt_eq, call__eq.
  match goal with |- context [env ?h (Sys "net.Listen" ?a)] => pose proof (allowed_error _ _ (en_listen _ _ Henv h)) as H;
    destruct (env h (Sys "net.Listen" a)) as [o|e] end;
    repeat (rewrite bind_eq, ignore_eq, call__eq; destruct (env _ _)); eexists _, _, _; (split; [reflexivity|]); split; done.
Qed.

Lemma probe_counts (b : bool) cap p w : finds cap p ->
  exists said w', probe b p w = (Ok (if b && negb (bool_decide (cap ∈ held)) then 1 else 0, said), w').
Proof.
  intros Hf. unfold probe. destruct b; [|by eexists _, _]. destruct (Hf w) as (err & said & w' & Hp & Herr). rewrite bind_eq, Hp.
  exists said, w'. unfold ret. do 3 f_equal. destruct err; cbn; case_bool_decide; try done; [by apply Herr in H|]. by destruct H; apply Herr.
Qed.

(** A capability is probed when it was asked for, or when nothing was. *)
Definition asked (caps : gset string) (cap : string) : bool := bool_decide (caps = ∅ \/ cap ∈ caps).
Definition missing (caps : gset string) (cap : string) : Z := if asked caps cap && negb (bool_decide (cap ∈ held)) then 1 else 0.

(** The exit status of capcheck is the number of capabilities that were asked for, of the
    three that it knows, and that the process does not have. *)
Theorem capcheck_counts caps w : exists said w', Inspect env caps w =
  (Ok (missing caps "CAP_SYS_ADMIN" + missing caps "CAP_MKNOD" + missing caps "CAP_NET_BIND_SERVICE", said), w').
Proof.
  unfold Inspect. assert (Hask : forall cap caps', caps <> ∅ -> (cap ∈ caps' <-> cap ∈ caps) -> fst (shouldProbe cap caps') = asked caps cap).
  { intros cap caps' Hne Hiff. unfold shouldProbe, asked. cbn. apply bool_decide_ext. rewrite Hiff. split; [by right|by intros [?|?]]. }
  destruct (decide (caps = ∅)) as [->|Hne].
  - rewrite bool_decide_true by done. rewrite bind_eq. destruct (probe_counts true _ _ w probe_sys_admin) as (s1 & w1 & ->).
    rewrite bind_eq. destruct (probe_counts true _ _ w1 probe_mknod) as (s2 & w2 & ->).
    rewrite bind_eq. destruct (probe_counts true _ _ w2 probe_net_bind) as (s3 & w3 & ->). eexists _, w3. reflexivity.
  - rewrite (bool_decide_false (caps = ∅)) by done. unfold shouldProbe at 1.
    rewrite bind_eq. destruct (probe_counts (bool_decide ("CAP_SYS_ADMIN" ∈ caps)) _ _ w probe_sys_admin) as (s1 & w1 & ->). unfold shouldProbe at 1.
    rewrite bind_eq. match goal with |- context [probe ?b (ProbeCAP_MKNOD env)] => destruct (probe_counts b _ _ w1 probe_mknod) as (s2 & w2 & ->) end.
    unfold shouldProbe at 1. rewrite bind_eq.
    match goal with |- context [probe ?b (ProbeCAP_NET_BIND_SERVICE env)] => destruct (probe_counts b _ _ w2 probe_net_bind) as (s3 & w3 & ->) end.
    eexists _, w3. unfold ret, missing. do 3 f_equal.
    rewrite <- (Hask "CAP_SYS_ADMIN" caps), <- (Hask "CAP_MKNOD" (caps ∖ {["CAP_SYS_ADMIN"]})),
      <- (Hask "CAP_NET_BIND_SERVICE" (caps ∖ {["CAP_SYS_ADMIN"]} ∖ {["CAP_MKNOD"]})); [reflexivity|done|set_solver..].
Qed.
End Capcheck.

(** In a container capcheck finds CAP_SYS_ADMIN missing unless the whitelist was extended,
    and nothing else: the whitelist has CAP_MKNOD, which a comment of [Inspect] gives as an
    example of a capability that is not in it. *)
Theorem capcheck_in_container extended env name w : enforces (whitelist extended) env ->
  exists said w', capcheck_main env [name] w = (Ok (if extended then 0 else 1, said), w').
Proof.
  intros Henv. destruct (capcheck_counts _ _ Henv ∅ w) as (said & w' & H). exists said, w'. cbn [capcheck_main]. rewrite H. by destruct extended.
Qed.
